(* ===== verification/_CoqProject ===== *)
-Q . S2P
Prelude.v
Global.v
Cli.v
Printf.v
Memory.v
LookupTable.v
Lookup.v
Crc32Table.v
Crc32.v
CrcVariants.v
CrcInoTable.v
CrcIno.v
Packet.v
Buffer.v
Stream.v
StreamConc.v
Client.v
ClientOwn.v
HashTable.v
Protocol.v
Handler.v
Receiver.v
HandlerSpec.v
HandlerThm.v
HandlerLoop.v
ReceiverThm.v
Main.v
Setup.v
Expire.v
MainThm.v
SetupThm.v
MainRun.v
MainEnd.v
MainPar.v
Print.v
