(* ===== verification/Prelude.v ===== *)
(** * TRTP receiver: a verification of the program

    The program is a file receiver for the protocol TRTP over UDP.
    Receiver threads take batches of datagrams from a socket, find or
    create the client of each sender in a hash table and pass the
    datagrams on to handler threads through a stream (a queue of two linked
    lists).  A handler decodes them, keeps the packets of a client's window
    in a ring of 32 slots, writes those that are next in order to the
    client's file and answers with ACK and NACK packets; it returns the
    request through a second stream.  This library models that program in
    Rocq, function by function, and proves what it does, where it is right
    and where it is not.

    ** How the code is modelled

    A C function becomes a function in the outcome monad [comp] of this
    file: [Done] with the result, or [Stuck] with undefined behaviour (an
    access outside an array, a null, freed or poisoned pointer), a deadlock
    (locking a mutex that is held) or exhausted fuel.  A theorem that a
    function returns [Done] is thus also a theorem that it terminates and
    that its memory accesses are valid.  Machine integers are numbers of
    [Z] with the wrap-around written out ([u8], [u16], [u32], [u64],
    [i32]); arrays are lists with checked accesses ([rd], [wr], [memcpy],
    [slice]); heap blocks of one C type are a finite map from pointers
    (Memory).  A function returns its new state, and errors as the error
    number it stores in [errno].  The host is little-endian, and the type
    [bool] of headers/global.h holds 0 or 1.

    What the operating system decides is an argument: the pointers
    [malloc] and [calloc] return (or [None]), whether a mutex can be
    initialised or a file opened, how many bytes [fwrite] writes, what
    uninitialised variables hold, the batches [recvmmsg] returns, the clock.
    The theorems hold for every such choice their hypotheses allow; that the
    allocator hands out a block that is not in use is the hypothesis
    [fresh_in].

    ** The files, and the code they model

    - Global: headers/global.h and headers/errors.h, the constants and the
      error numbers.
    - Cli: src/cli.c and headers/cli.h, with the library functions the
      parsers use ([getopt], [strtol], [strtok], [strsep], [fgets],
      [getline]) and the regular expression of the file format.
    - Printf: numbers as text, and the name of a client's file, which
      [initialize_client] of src/client.c prints into 256 characters.
    - Memory: heap and mutexes; no code of its own.
    - LookupTable, Lookup: src/lookup.c, the tables [sequences] and
      [ascii]; Lookup proves what [sequences] tabulates.
    - Crc32Table, Crc32: the functions of lib/Crc32.cpp the program calls
      ([crc32_8bytes], [crc32_16bytes]) and those they are compared with
      ([crc32_bitwise], [crc32_1byte]), and the table; the class [Checksum]
      states what every variant promises.  CrcVariants: the other variants
      of that file and lib/Crc32Test.cpp.  CrcInoTable, CrcIno: the copies
      in lib/Crc32.ino and lib/Crc32Best.ino.
    - Packet: src/packet.c and headers/packet.h.
    - Buffer: src/buffer.c, the window; Client: src/client.c, the state of a
      sender, which is created only if the name fits; ClientOwn:
      the blocks of the heap a client owns and what freeing them leaves.
    - Stream: src/stream.c as one thread runs it; StreamConc: the same
      functions as several threads run them at the same time.
    - HashTable: src/hash_table.c, the table of clients.
    - Handler: src/handler.c; Receiver: src/receiver.c.
    - Protocol, HandlerSpec, HandlerThm, HandlerLoop: the specification of
      the handler and its theorems; ReceiverThm: those of the receiver.
    - Main: the parts of src/main.c that decide and compose (streams of the
      threads, rounds of the sequential mode, removal of clients); Setup: the
      rest of it (sockets, allocations, threads, stop requests,
      [deallocate_everything], the signal, [main] in both modes).
    - MainThm: the theorems about a round; Expire: those about the removal of
      clients; SetupThm: about [deallocate_everything]; MainRun: what the
      set-up acquires; MainEnd, MainPar: [main] from its start to its end.
    - Print: the text of [packet_to_string], [ip_to_string] (src/packet.c) and
      [print_config] (src/cli.c).

    Definitions carry the names of the C functions they model.  Where a
    long C function has several definitions, its comment names the part
    each one models, and one definition of the function's name composes
    them.

    ** What the theorems show

    - Wire format (Packet, Crc32): [unpack] accepts exactly the datagrams
      of the format and decodes them field by field, with the error of each
      refusal; [pack] writes the format; decoding what was encoded gives the
      packet back, except for two-byte lengths, which are not encoded
      correctly.  The sliced checksums and all other variants equal the
      bitwise one, which detects every change within four consecutive bytes;
      the sliced ones of the Arduino copy read behind the data.
    - Window and streams (Buffer, Stream, StreamConc): slots of a window
      do not collide, [get] after [next]; a stream is a first-in first-out
      queue with an exact counter while no pop finds it empty.  With any
      number of threads the nodes come out in the order of the
      compare-and-swap that entered them; a wake-up can be lost.
    - Table of clients (HashTable): [ht_get], [ht_put] and [ht_remove]
      refine a finite map, through linear probing and resizing, the error
      paths included.
    - Handler (Protocol, HandlerSpec, HandlerThm, HandlerLoop): Protocol
      is a state machine on sequence numbers, without buffers, pointers and
      bytes; [handle_request] refines it, and so a run of the handler writes
      the sender's bytes to the file in order and exactly once, and makes
      progress when the next datagram arrives.  Short writes and packets
      behind the end of the file are shown to break this.
    - Receiver (ReceiverThm): every datagram of a known client reaches its
      stream, datagrams of one client in order and in one request; new
      clients, the limit on clients, and what happens without memory.
    - The whole (MainThm, Expire): a round of the sequential mode takes a
      batch of datagrams of one client through receiver, stream and handler to
      the client's file and returns the requests; the streams set up from
      the configuration connect receivers and handlers; the removal of
      clients removes those that are due, and frees what they own.
    - Resources (SetupThm, MainRun, MainEnd, MainPar): [acquired] says what a
      state holds, [nothing_left] that it holds nothing.  The set-up leads to
      an acquired state or, when it fails late, to an empty one; the removal of
      clients keeps a state acquired; [deallocate_everything] takes an
      acquired state to an empty one, after it has put a stop request for
      every handler into every stream, which is what ends its waiting for
      the handlers.  So a run of the parallel mode, and one of the sequential
      mode without clients, end with everything freed, the latter for at
      most 32 datagrams at once (with more, [memset] clears too much).  Early
      failures, a thread or a mutex that cannot be created are shown to lead
      to undefined behaviour.
    - Command line (Cli): the numbers accepted, what an accepted command
      line gives; a stream file is accepted exactly when its lines name every
      receiver and every handler once; the affinity file against a reference
      on whole lines.
    - Text (Print): the lines printed about a packet, whose dump stays within
      the payload for the lengths a payload can have, and about the
      configuration, with an entry for every thread.

    ** Fuel and bounds

    Loops that are not structural take fuel, and the theorems show that it
    is enough: [reverse_queue] and [drain_stream] the number of nodes on
    the heap, [probe] the size of the table (one slot is always free),
    [drain] 32 rounds, the parsers of Cli the length of the text (every
    round consumes a character), the digits of a number 20.  The loops of
    the threads run over the list of what the environment supplies.
    StreamConc has no fuel: its theorems are about all reachable states.
    The counter of the sequential mode's rounds is an [int]; a round that
    would take it over its maximum is undefined ([count_round]).

    ** Not modelled

    Threads do not interleave in one model: each handler and receiver is
    proved for its own steps between locking and unlocking what it shares, the
    streams for all interleavings (StreamConc), and [main] for whatever the
    threads have done when it waits for them or starts a round, as long as
    they leave queues and clients accounted for ([joins_ok], [rounds_ok]);
    that they do is an assumption of those theorems.  [pthread_join] may
    wait for ever ([join_thread] is [Stuck Deadlock] when the environment
    does not end the wait); the theorems assume only that a receiver ends
    once its [stop] is set, and a handler once main has put as many stop
    requests into its stream as there are handlers (each takes one and ends).
    The second assumption leaves out the lost wake-up of StreamConc.  A
    client that is removed while a handler works for it is outside the model,
    too.  The state [sys_t] does not show what only a running thread holds.

    The stack has no size: the arrays of a thread are undefined when they
    have no elements ([-W 0]), but that very large ones ([-W 65535]) may
    not fit is not modelled.  Logging and usage, CPU affinity, the options
    of the sockets, the headers of the messages of [recvmmsg] and
    [sendmmsg], the comparison of times in floating point, and the casts of
    [get_socket_addr] have no model.  Text
    printed before an access that is undefined is lost.  The tests are
    not modelled, lib/Crc32Test.cpp apart.  StreamConc assumes sequentially
    consistent memory.

    ** This file

    Outcomes, machine integers, arrays, folds and the arithmetic of bytes
    and words, with the tactics and hints the other files share. *)

From stdpp Require Export ssreflect.
From stdpp Require Export base tactics numbers list gmap.
From Stdlib Require Export ZArith Lia.

Set Default Proof Using "Type".

(** Ranges of bytes and of words with their bytes swapped. *)
Create HintDb words discriminated.

Global Open Scope Z_scope.

(** ** Outcomes of C code

    A computation either finishes with a value or is stuck: it has run
    into undefined behaviour (an access outside an array, a dereference
    of a null or freed pointer), it waits for a mutex that nobody will
    release, or the fuel of a loop ran out. *)
Inductive stuck : Type := UB | Deadlock | NoFuel.

Inductive comp (A : Type) : Type :=
| Done (a : A)
| Stuck (r : stuck).
Arguments Done {A} _.
Arguments Stuck {A} _.

Global Instance stuck_eq_dec : EqDecision stuck.
Proof. solve_decision. Defined.

Global Instance comp_ret : MRet comp := fun A a => Done a.
Global Instance comp_bind : MBind comp := fun A B f m =>
  match m with Done a => f a | Stuck r => Stuck r end.

(** ** Machine integers: a w-bit unsigned integer is a [Z] in range *)

Definition u8 (z : Z) : Z := z mod 2 ^ 8.
Definition u16 (z : Z) : Z := z mod 2 ^ 16.
Definition u32 (z : Z) : Z := z mod 2 ^ 32.
Definition u64 (z : Z) : Z := z mod 2 ^ 64.

(** Conversion to a signed 32-bit [int] (two's complement). *)
Definition i32 (z : Z) : Z :=
  let r := z mod 2 ^ 32 in if r <? 2 ^ 31 then r else r - 2 ^ 32.

Abbreviation is_u8 z := (0 <= z < 2 ^ 8).
Abbreviation is_u16 z := (0 <= z < 2 ^ 16).
Abbreviation is_u32 z := (0 <= z < 2 ^ 32).

(** Byte order: the program runs on a little-endian host, where
    [htons]/[ntohs] and [htonl]/[ntohl] swap the bytes. *)
Definition bswap16 (x : Z) : Z :=
  Z.lor (Z.shiftl (Z.land x 0xFF) 8) (Z.land (Z.shiftr x 8) 0xFF).
Definition bswap32 (x : Z) : Z :=
  Z.lor (Z.shiftl (Z.land x 0xFF) 24)
    (Z.lor (Z.shiftl (Z.land (Z.shiftr x 8) 0xFF) 16)
      (Z.lor (Z.shiftl (Z.land (Z.shiftr x 16) 0xFF) 8)
             (Z.land (Z.shiftr x 24) 0xFF))).

Definition ntohs := bswap16.
Definition htons := bswap16.
Definition ntohl := bswap32.
Definition htonl := bswap32.

(** ** Arrays: a C array is a list; an access out of range is undefined *)

Definition rd {A} (buf : list A) (i : nat) : comp A :=
  match buf !! i with Some v => Done v | None => Stuck UB end.

Definition wr {A} (buf : list A) (i : nat) (v : A) : comp (list A) :=
  match buf !! i with Some _ => Done (<[i := v]> buf) | None => Stuck UB end.

(** [memcpy] of [src] into an array at offset [off]. *)
Definition memcpy {A} (dst : list A) (off : nat) (src : list A) : comp (list A) :=
  if decide (off + length src <= length dst)%nat
  then Done (take off dst ++ src ++ drop (off + length src) dst)
  else Stuck UB.

(** [n] elements of an array from offset [off] on. *)
Definition slice {A} (buf : list A) (off n : nat) : comp (list A) :=
  if decide (off + n <= length buf)%nat
  then Done (take n (drop off buf)) else Stuck UB.

(** ** Lemmas on outcomes and arrays *)

(** Goes on behind a statement whose outcome is known. *)
Ltac unbind := cbn [mbind comp_bind].

Lemma bind_Done {A B} (m : comp A) (f : A -> comp B) b :
  m ≫= f = Done b <-> exists a, m = Done a /\ f a = Done b.
Proof. destruct m; simpl; naive_solver. Qed.

Lemma rd_Done {A} (buf : list A) i v : rd buf i = Done v <-> buf !! i = Some v.
Proof. rw /rd. destruct (buf !! i); naive_solver. Qed.

Lemma rd_lt {A} (buf : list A) i :
  (i < length buf)%nat -> exists v, rd buf i = Done v /\ buf !! i = Some v.
Proof.
  intros [v Hv]%lookup_lt_is_Some_2. exists v. by rw rd_Done.
Qed.

Lemma rd_total (buf : list Z) i : (i < length buf)%nat -> rd buf i = Done (buf !!! i).
Proof. intros H. apply rd_Done. by apply list_lookup_lookup_total_lt. Qed.

Lemma wr_lt {A} (buf : list A) i v :
  (i < length buf)%nat -> wr buf i v = Done (<[i := v]> buf).
Proof. intros [w Hw]%lookup_lt_is_Some_2. by rw /wr Hw. Qed.

Lemma wr_alter {A} (buf : list A) i f v :
  buf !! i = Some v -> wr buf i (f v) = Done (alter f i buf).
Proof.
  intros Hv. rw /wr Hv list_insert_alter. f_equal. apply list_alter_ext; [|done].
  intros w. rw Hv. by intros [= ->].
Qed.

Lemma memcpy_fits {A} (dst : list A) off src :
  (off + length src <= length dst)%nat ->
  memcpy dst off src = Done (take off dst ++ src ++ drop (off + length src) dst).
Proof. intros. rw /memcpy. by case_decide. Qed.

Lemma slice_fits {A} (buf : list A) off n :
  (off + n <= length buf)%nat -> slice buf off n = Done (take n (drop off buf)).
Proof. intros. rw /slice. by case_decide. Qed.

(** ** Left folds, as the loops over bytes are *)

Lemma fold_left_cons {A B} (f : A -> B -> A) b l a :
  fold_left f (b :: l) a = fold_left f l (f a b).
Proof. done. Qed.

Lemma fold_left_inv {A B} (f : A -> B -> A) (P : A -> Prop) (Q : B -> Prop) :
  (forall a b, P a -> Q b -> P (f a b)) ->
  forall l a, Forall Q l -> P a -> P (fold_left f l a).
Proof.
  intros Hf l a H. induction H as [|b l Hb _ IH] in a |- *; simpl; [done|].
  intros. by apply IH, Hf.
Qed.

Lemma fold_left_eq {A B} (f g : A -> B -> A) (Q : B -> Prop) :
  (forall a b, Q b -> f a b = g a b) ->
  forall l a, Forall Q l -> fold_left f l a = fold_left g l a.
Proof.
  intros Hf l a H. induction H as [|b l Hb _ IH] in a |- *; simpl; [done|].
  by rw Hf // IH.
Qed.

Lemma fold_left_inj {A B} (f : A -> B -> A) (P : A -> Prop) (Q : B -> Prop) :
  (forall a b, P a -> Q b -> P (f a b)) ->
  (forall a a' b, Q b -> P a -> P a' -> f a b = f a' b -> a = a') ->
  forall l a a', Forall Q l -> P a -> P a' -> fold_left f l a = fold_left f l a' -> a = a'.
Proof.
  intros HP Hf l a a' H. induction H as [|b l Hb _ IH] in a, a' |- *; simpl; [done|].
  intros Ha Ha' Heq. apply (Hf _ _ b); [done..|]. by apply IH; [apply HP..|].
Qed.

(** ** Lemmas on bits and bytes

    Masks, shifts and disjoint ors are turned into [mod], [/], [*] and [+]
    so that [lia] (with the equations of division) can finish. *)

Lemma land_mask x n : 0 <= n -> Z.land x (Z.ones n) = x mod 2 ^ n.
Proof. apply Z.land_ones. Qed.

Lemma land_0xFF x : Z.land x 0xFF = x mod 2 ^ 8.
Proof. exact (Z.land_ones x 8 ltac:(lia)). Qed.
Lemma land_0x7F x : Z.land x 0x7F = x mod 2 ^ 7.
Proof. exact (Z.land_ones x 7 ltac:(lia)). Qed.
Lemma land_0x1F x : Z.land x 0x1F = x mod 2 ^ 5.
Proof. exact (Z.land_ones x 5 ltac:(lia)). Qed.

(** The bits of a number below [2^n] are clear from [n] on. *)
Lemma testbit_above b n i : 0 <= n -> 0 <= b < 2 ^ n -> n <= i -> Z.testbit b i = false.
Proof.
  intros Hn Hb Hi. rw -(Z.mod_small b (2 ^ n)) //. by apply Z.mod_pow2_bits_high.
Qed.

(** An or of a number below [2^n] with a multiple of [2^n] is a sum. *)
Lemma lor_shiftl_add a b n :
  0 <= n -> 0 <= b < 2 ^ n -> Z.lor (Z.shiftl a n) b = a * 2 ^ n + b.
Proof.
  intros Hn Hb. rw -Z.shiftl_mul_pow2 //.
  assert (forall i, 0 <= i -> Z.testbit (Z.shiftl a n) i && Z.testbit b i = false) as Hdis.
  { intros i Hi. rw Z.shiftl_spec //. destruct (decide (i < n)).
    - rw (Z.testbit_neg_r a) //; lia.
    - rw (testbit_above b n) ?andb_false_r //; lia. }
  rw Z.add_nocarry_lxor.
  - apply Z.bits_inj' => i Hi. rw Z.lxor_spec Z.lor_spec.
    specialize (Hdis i Hi). revert Hdis. by destruct (Z.testbit _ i), (Z.testbit b i).
  - apply Z.bits_inj' => i Hi. by rw Z.land_spec Z.bits_0 Hdis.
Qed.

Ltac divmod := Z.div_mod_to_equations; lia.

Lemma bswap32_arith x :
  bswap32 x = (x mod 2 ^ 8) * 2 ^ 24 + ((x / 2 ^ 8) mod 2 ^ 8) * 2 ^ 16
              + ((x / 2 ^ 16) mod 2 ^ 8) * 2 ^ 8 + (x / 2 ^ 24) mod 2 ^ 8.
Proof.
  rw /bswap32 !land_0xFF !Z.shiftr_div_pow2 //.
  rw (lor_shiftl_add _ (_ mod _) 8) //; [|divmod].
  rw (lor_shiftl_add _ _ 16) //; [|divmod].
  rw (lor_shiftl_add _ _ 24) //; divmod.
Qed.

Lemma bswap16_arith x :
  bswap16 x = (x mod 2 ^ 8) * 2 ^ 8 + (x / 2 ^ 8) mod 2 ^ 8.
Proof.
  rw /bswap16 !land_0xFF !Z.shiftr_div_pow2 // (lor_shiftl_add _ _ 8) //; divmod.
Qed.

(** A 32-bit word from its four bytes, least significant first. *)
Definition word_of (b0 b1 b2 b3 : Z) : Z :=
  b0 + b1 * 2 ^ 8 + b2 * 2 ^ 16 + b3 * 2 ^ 24.

(** The bytes of [word_of], whatever bytes it was made from. *)
Lemma word_of_bytes b0 b1 b2 b3 (w := word_of b0 b1 b2 b3) :
  is_u8 b0 -> is_u8 b1 -> is_u8 b2 -> is_u8 b3 ->
  w mod 2 ^ 8 = b0 /\ (w / 2 ^ 8) mod 2 ^ 8 = b1 /\
  (w / 2 ^ 16) mod 2 ^ 8 = b2 /\ (w / 2 ^ 24) mod 2 ^ 8 = b3 /\ is_u32 w.
Proof. intros. rw /w /word_of. repeat split; divmod. Qed.

Lemma word_of_inv x :
  is_u32 x ->
  x = word_of (x mod 2 ^ 8) ((x / 2 ^ 8) mod 2 ^ 8) ((x / 2 ^ 16) mod 2 ^ 8)
              ((x / 2 ^ 24) mod 2 ^ 8).
Proof.
  intros. rw /word_of.
  replace (x / 2 ^ 16) with (x / 2 ^ 8 / 2 ^ 8) by (rw Z.div_div //).
  replace (x / 2 ^ 24) with (x / 2 ^ 8 / 2 ^ 8 / 2 ^ 8) by (rw !Z.div_div //).
  divmod.
Qed.

Lemma lor_add_shiftl a b n :
  0 <= n -> 0 <= a < 2 ^ n -> Z.lor a (Z.shiftl b n) = a + b * 2 ^ n.
Proof. intros. rw Z.lor_comm lor_shiftl_add //. lia. Qed.

(** The or of four shifted bytes is the word they make. *)
Lemma lor_word b0 b1 b2 b3 :
  is_u8 b0 -> is_u8 b1 -> is_u8 b2 -> is_u8 b3 ->
  Z.lor b0 (Z.lor (Z.shiftl b1 8) (Z.lor (Z.shiftl b2 16) (Z.shiftl b3 24))) =
  word_of b0 b1 b2 b3.
Proof.
  intros. rw -(Z.shiftl_shiftl b3 16 8) // -(Z.shiftl_shiftl b2 8 8) // -Z.shiftl_lor.
  rw -(Z.shiftl_shiftl b3 8 8) // -!Z.shiftl_lor !lor_add_shiftl // /word_of. lia.
Qed.

Lemma u8_mod_range x : is_u8 (x mod 2 ^ 8).
Proof. by apply Z.mod_pos_bound. Qed.

Lemma bswap32_word b0 b1 b2 b3 :
  is_u8 b0 -> is_u8 b1 -> is_u8 b2 -> is_u8 b3 ->
  bswap32 (word_of b0 b1 b2 b3) = word_of b3 b2 b1 b0.
Proof.
  intros H0 H1 H2 H3. destruct (word_of_bytes _ _ _ _ H0 H1 H2 H3) as (E0&E1&E2&E3&_).
  rw bswap32_arith E0 E1 E2 E3 /word_of. lia.
Qed.

#[export] Hint Resolve u8_mod_range bswap32_word : words.

Lemma bswap32_range x : is_u32 (bswap32 x).
Proof.
  rw bswap32_arith.
  pose proof (u8_mod_range x). pose proof (u8_mod_range (x / 2 ^ 8)).
  pose proof (u8_mod_range (x / 2 ^ 16)). pose proof (u8_mod_range (x / 2 ^ 24)). lia.
Qed.
Lemma bswap16_range x : is_u16 (bswap16 x).
Proof.
  rw bswap16_arith. pose proof (u8_mod_range x). pose proof (u8_mod_range (x / 2 ^ 8)). lia.
Qed.
#[export] Hint Resolve bswap32_range bswap16_range : words.

Lemma bswap32_bswap32 x : is_u32 x -> bswap32 (bswap32 x) = x.
Proof.
  intros Hx. rw {1}(word_of_inv x Hx) !bswap32_word; auto with words.
  by rw -word_of_inv.
Qed.
Lemma bswap16_bswap16 x : is_u16 x -> bswap16 (bswap16 x) = x.
Proof. intros. rw !bswap16_arith. divmod. Qed.

(** Solves [Forall P l] for a concrete list [l], element by element. *)
Ltac forall_list tac := repeat (apply Forall_cons_2; [tac|]); apply Forall_nil_2.
