(* ===== verification/Global.v ===== *)
(** * Global: headers/global.h and headers/errors.h

    The compile-time constants and the error numbers the components store
    in [errno].  A C function that returns -1 and sets [errno] is modelled
    by a result of type [option errors_t]: [None] is the return value 0,
    [Some e] is -1 with [errno = e]. *)

From S2P Require Import Prelude.

(** ** Constants (headers/global.h, lines 103-125) *)

Definition MIN_PACKET_SIZE : Z := 11.
Definition MAX_PACKET_SIZE : Z := 528.
Definition MAX_PAYLOAD_SIZE : Z := 512.
Definition MAX_WINDOW_SIZE : Z := 31.
Definition MAX_BUFFER_SIZE : nat := 32.
Definition DEFAULT_MAX_CAPACITY : Z := 100.
Definition DEFAULT_HANDLER_COUNT : Z := 2.
Definition DEFAULT_RECEIVER_COUNT : Z := 1.

(** ** Error numbers (headers/errors.h) *)

Inductive errors_t : Type :=
| NULL_ARGUMENT
| ALREADY_ALLOCATED
| ALREADY_DEALLOCATED
| FAILED_TO_ALLOCATE
| FAILED_TO_COPY
| FAILED_TO_OPEN
| PACKET_TOO_SHORT
| PACKET_TOO_LONG
| PACKET_INCORRECT_LENGTH
| TYPE_IS_WRONG
| NON_DATA_TRUNCATED
| CRC_VALIDATION_FAILED
| PAYLOAD_VALIDATION_FAILED
| PAYLOAD_TOO_LONG
| REGEX_COMPILATION_FAILED
| CLI_O_VALUE_MISSING
| CLI_UNKNOWN_OPTION
| CLI_IP_MISSING
| CLI_PORT_MISSING
| CLI_TOO_MANY_ARGUMENTS
| CLI_FORMAT_VALIDATION_FAILED
| CLI_IP_INVALID
| CLI_MAX_INVALID
| CLI_PORT_INVALID
| CLI_HANDLE_INVALID
| CLI_WINDOW_INVALID
| STR2INT_INCONVERTIBLE
| STR2INT_OVERFLOW
| STR2INT_UNDERFLOW
| STR2INT_NOT_END
| FAILED_TO_INIT_MUTEX
| FAILED_TO_INIT_COND
| FAILED_TO_RESIZE
| UNKNOWN.

Global Instance errors_t_eq_dec : EqDecision errors_t.
Proof. solve_decision. Defined.

(** The enumerator values. *)
Definition errno_of (e : errors_t) : Z :=
  match e with
  | NULL_ARGUMENT => 0
  | ALREADY_ALLOCATED => 1
  | ALREADY_DEALLOCATED => 2
  | FAILED_TO_ALLOCATE => 3
  | FAILED_TO_COPY => 4
  | FAILED_TO_OPEN => 5
  | PACKET_TOO_SHORT => 6
  | PACKET_TOO_LONG => 7
  | PACKET_INCORRECT_LENGTH => 8
  | TYPE_IS_WRONG => 9
  | NON_DATA_TRUNCATED => 10
  | CRC_VALIDATION_FAILED => 11
  | PAYLOAD_VALIDATION_FAILED => 12
  | PAYLOAD_TOO_LONG => 13
  | REGEX_COMPILATION_FAILED => 14
  | CLI_O_VALUE_MISSING => 15
  | CLI_UNKNOWN_OPTION => 16
  | CLI_IP_MISSING => 17
  | CLI_PORT_MISSING => 18
  | CLI_TOO_MANY_ARGUMENTS => 19
  | CLI_FORMAT_VALIDATION_FAILED => 20
  | CLI_IP_INVALID => 21
  | CLI_MAX_INVALID => 22
  | CLI_PORT_INVALID => 23
  | CLI_HANDLE_INVALID => 24
  | CLI_WINDOW_INVALID => 25
  | STR2INT_INCONVERTIBLE => 26
  | STR2INT_OVERFLOW => 27
  | STR2INT_UNDERFLOW => 28
  | STR2INT_NOT_END => 29
  | FAILED_TO_INIT_MUTEX => 30
  | FAILED_TO_INIT_COND => 31
  | FAILED_TO_RESIZE => 32
  | UNKNOWN => 255
  end.

Lemma errno_of_inj e1 e2 : errno_of e1 = errno_of e2 -> e1 = e2.
Proof. by destruct e1, e2. Qed.
