(* ===== verification/Cli.v ===== *)
(** * Cli: src/cli.c, command line and stream configuration

    Strings are lists of characters without the terminating zero.  What
    the code uses of the C library ([strtol], [getopt], [strtok], [fgets]
    and one regular expression) is written out.  The loops over the stream
    file and the affinity file are compared with references that read whole
    lines ([stream_file], [numbers]). *)

From stdpp Require Import strings.
From S2P Require Import Prelude Global.

Abbreviation str := (list Ascii.ascii).

Definition code (c : Ascii.ascii) : Z := Z.of_N (Ascii.N_of_ascii c).

(** String literals as lists of characters. *)
Definition lit (s : string) : str := String.list_ascii_of_string s.

Definition INT_MAX : Z := 2 ^ 31 - 1.
Definition LONG_MAX : Z := 2 ^ 63 - 1.
Definition LONG_MIN : Z := - 2 ^ 63.

Definition isspace (c : Ascii.ascii) : bool := (code c =? 32) || ((9 <=? code c) && (code c <=? 13)).
Definition isdigit (c : Ascii.ascii) : bool := (48 <=? code c) && (code c <=? 57).
Definition newline : Ascii.ascii := Ascii.ascii_of_N 10.
Definition quote : Ascii.ascii := Ascii.ascii_of_N 34.
Definition dash : Ascii.ascii := Ascii.ascii_of_N 45.
Definition plus : Ascii.ascii := Ascii.ascii_of_N 43.

(** ** Numbers *)

(** The longest prefix of characters with [f], and the rest. *)
Fixpoint span (f : Ascii.ascii -> bool) (s : str) : str * str :=
  match s with
  | [] => ([], [])
  | c :: s' => if f c then let '(a, b) := span f s' in (c :: a, b) else ([], s)
  end.

Definition number (ds : str) : Z := fold_left (fun n c => 10 * n + (code c - 48)) ds 0.

Definition sign_of (s : str) : bool * str :=
  match s with
  | c :: s' =>
      if bool_decide (c = dash) then (true, s') else if bool_decide (c = plus) then (false, s') else (false, s)
  | [] => (false, [])
  end.

(** [strtol] in base 10 on a string that does not start with a space: the
    number, the rest, and whether it was out of range; without digits the
    number is 0 and the rest the whole string. *)
Definition strtol (s : str) : Z * str * bool :=
  let '(neg, s') := sign_of s in
  let '(ds, rest) := span isdigit s' in
  match ds with
  | [] => (0, s, false)
  | _ =>
      let n := if neg : bool then - number ds else number ds in
      if LONG_MAX <? n then (LONG_MAX, rest, true)
      else if n <? LONG_MIN then (LONG_MIN, rest, true)
      else (n, rest, false)
  end.

Definition str2size (s : str) : errors_t + Z :=
  match s with
  | [] => inl STR2INT_INCONVERTIBLE
  | c :: _ =>
      if isspace c then inl STR2INT_INCONVERTIBLE else
      let '(l, end_, erange) := strtol s in
      if (INT_MAX <? l) || (erange && (l =? LONG_MAX)) then inl STR2INT_OVERFLOW else
      if (l <? 0) || (erange && (l =? LONG_MIN)) then inl STR2INT_UNDERFLOW else
      match end_ with
      | c :: _ => if bool_decide (c = newline) then inr l else inl STR2INT_NOT_END
      | [] => inr l
      end
  end.

(** ** Options *)

Record opts_t := mk_opts {
  o_m : str; o_W : str; o_w : str; o_n : str; o_N : str; o_o : str; o_sequential : bool }.

(** headers/global.h. *)
Definition DEFAULT_OUT_FORMAT : str := lit "%d".

(** The defaults, as the preprocessor makes strings of the constants. *)
Definition default_opts : opts_t :=
  mk_opts (lit "100") (lit "31") (lit "31") (lit "2") (lit "1") DEFAULT_OUT_FORMAT false.

Inductive option_t : Type := Opt_m | Opt_W | Opt_w | Opt_n | Opt_N | Opt_o.

Definition set_opt (o : option_t) (v : str) (p : opts_t) : opts_t :=
  match p with
  | mk_opts m W w n N f s =>
      match o with
      | Opt_m => mk_opts v W w n N f s
      | Opt_W => mk_opts m v w n N f s
      | Opt_w => mk_opts m W v n N f s
      | Opt_n => mk_opts m W w v N f s
      | Opt_N => mk_opts m W w n v f s
      | Opt_o => mk_opts m W w n N v s
      end
  end.
Definition set_sequential (p : opts_t) : opts_t :=
  match p with mk_opts m W w n N f _ => mk_opts m W w n N f true end.

(** The letters of the option string that take a value. *)
Definition option_of (c : Ascii.ascii) : option option_t :=
  let c := code c in
  if c =? 109 then Some Opt_m else if c =? 87 then Some Opt_W else
  if c =? 119 then Some Opt_w else if c =? 110 then Some Opt_n else
  if c =? 78 then Some Opt_N else if c =? 111 then Some Opt_o else None.

(** The letters of one argument behind its dash; an option whose value is
    the next argument is returned. *)
Fixpoint letters (s : str) (p : opts_t) : errors_t + (opts_t * option option_t) :=
  match s with
  | [] => inr (p, None)
  | c :: s' =>
      if code c =? 115 then letters s' (set_sequential p) else
      match option_of c with
      | None => inl CLI_UNKNOWN_OPTION
      | Some o =>
          match s' with
          | [] => inr (p, Some o)
          | _ => inr (set_opt o s' p, None)
          end
      end
  end.

(** The loop over [getopt]: options may follow operands, a lone dash is an
    operand, and [--] ends the options. *)
Fixpoint getopt (args : list str) (p : opts_t) (operands : list str) : errors_t + (opts_t * list str) :=
  match args with
  | [] => inr (p, operands)
  | a :: args' =>
      match a with
      | d :: s =>
          if negb (bool_decide (d = dash)) || bool_decide (s = []) then getopt args' p (operands ++ [a])
          else if bool_decide (s = [dash]) then inr (p, operands ++ args')
          else
            match letters s p with
            | inl e => inl e
            | inr (p, None) => getopt args' p operands
            | inr (p, Some o) =>
                match args' with
                | [] => inl CLI_O_VALUE_MISSING
                | v :: args'' => getopt args'' (set_opt o v p) operands
                end
            end
      | [] => getopt args' p (operands ++ [a])
      end
  end.

(** ** The file format *)

(** The character class [[a-zA-Z0-9._\/-]]; a backslash stands for itself
    in a class. *)
Definition format_char (c : Ascii.ascii) : bool :=
  let c := code c in
  ((97 <=? c) && (c <=? 122)) || ((65 <=? c) && (c <=? 90)) || ((48 <=? c) && (c <=? 57)) ||
  (c =? 46) || (c =? 95) || (c =? 92) || (c =? 47) || (c =? 45).

(** [REGEX_FORMAT]: class characters, a percent sign, digits, a [d], class
    characters.  The percent sign is not in the class, and the [d] is not a
    digit, so the parts are determined. *)
Definition format_matches (s : str) : bool :=
  let '(_, s) := span format_char s in
  match s with
  | c :: s =>
      (code c =? 37) &&
      (let '(_, s) := span isdigit s in
       match s with
       | c :: s => (code c =? 100) && forallb format_char s
       | [] => false
       end)
  | [] => false
  end.

(** The quotation marks around the format are removed.  With an empty
    string the code reads the character before it: the opening mark when
    there was one (and then copies [SIZE_MAX] bytes), or whatever is in
    front of the argument. *)
Definition unquote (o : str) (alloc : bool) : comp (errors_t + (str * bool)) :=
  let o := match o with c :: o' => if bool_decide (c = quote) then o' else o | [] => [] end in
  match last o with
  | None => Stuck UB
  | Some c =>
      if bool_decide (c = quote) then
        if alloc then Done (inr (take (length o - 1) o, true)) else Done (inl FAILED_TO_ALLOCATE)
      else Done (inr (o, false))
  end.

(** ** parse_receiver *)

Record config_rcv_t := mk_config {
  cf_sequential : bool;
  cf_format : str;
  cf_format_len : Z;
  cf_deallocate_format : bool;
  cf_max_connections : Z;
  cf_port : Z;
  cf_handle_num : Z;
  cf_receive_num : Z;
  cf_max_window : Z;
  cf_receive_window_size : Z }.

(** A number for which any value [str2size] accepts is allowed; it is
    converted to 16 bits. *)
Definition number_arg (s : str) (e : errors_t) : errors_t + Z :=
  match str2size s with inl _ => inl e | inr v => inr (u16 v) end.

Definition window_arg (s : str) : errors_t + Z :=
  match str2size s with
  | inl _ => inl CLI_WINDOW_INVALID
  | inr v => if MAX_WINDOW_SIZE <? v then inl CLI_WINDOW_INVALID else inr (u16 v)
  end.

Definition sum_bind {A B} (x : errors_t + A) (f : A -> errors_t + B) : errors_t + B :=
  match x with inl e => inl e | inr a => f a end.

(** Everything behind the format; [address_ok] is what [getaddrinfo] says
    of the address and the port. *)
Definition parse_numbers (p : opts_t) (port : str) (format : str) (on_heap : bool)
    (address_ok : bool) : errors_t + config_rcv_t :=
  sum_bind (number_arg p.(o_m) CLI_MAX_INVALID) (fun max =>
  sum_bind (number_arg port CLI_PORT_INVALID) (fun port =>
  sum_bind (number_arg p.(o_n) CLI_HANDLE_INVALID) (fun handle_num =>
  sum_bind (number_arg p.(o_N) CLI_HANDLE_INVALID) (fun receive_num =>
  sum_bind (window_arg p.(o_w)) (fun max_window =>
  sum_bind (number_arg p.(o_W) CLI_WINDOW_INVALID) (fun receive_size =>
  if negb address_ok then inl CLI_IP_INVALID else
  inr (mk_config p.(o_sequential) format (Z.of_nat (length format)) on_heap max port handle_num
         receive_num max_window receive_size))))))).

(** [args] are the arguments behind the program's name; [alloc] and
    [regex_ok] are the outcomes of [malloc] and [regcomp]. *)
Definition parse_receiver (args : list str) (alloc regex_ok : bool) (address_ok : str -> str -> bool)
    : comp (errors_t + config_rcv_t) :=
  match getopt args default_opts [] with
  | inl e => Done (inl e)
  | inr (p, operands) =>
      match operands with
      | [] => Done (inl CLI_IP_MISSING)
      | [_] => Done (inl CLI_PORT_MISSING)
      | _ :: _ :: _ :: _ => Done (inl CLI_TOO_MANY_ARGUMENTS)
      | [ip; port] =>
          r ← unquote p.(o_o) alloc;
          match r with
          | inl e => Done (inl e)
          | inr (format, on_heap) =>
              if negb regex_ok then Done (inl REGEX_COMPILATION_FAILED)
              else if negb (format_matches format) then Done (inl CLI_FORMAT_VALIDATION_FAILED)
              else Done (parse_numbers p port format on_heap (address_ok ip port))
          end
      end
  end.

(** ** parse_streams_file *)

(** [strtok] with one delimiter: the string is the argument, or what the
    last call saved when the argument is null. *)
Definition strtok (delim : Ascii.ascii) (s : option str) (save : str) : option str * str :=
  let is_delim c := bool_decide (c = delim) in
  let '(_, s) := span is_delim (default save s) in
  match s with
  | [] => (None, [])
  | _ => let '(token, rest) := span (fun c => negb (is_delim c)) s in (Some token, tail rest)
  end.

Definition colon : Ascii.ascii := Ascii.ascii_of_N 58.
Definition comma : Ascii.ascii := Ascii.ascii_of_N 44.

(** [fgets(str, 128, file)]: up to 127 characters, up to a newline. *)
Fixpoint fgets (n : nat) (s : str) : str * str :=
  match n, s with
  | S n, c :: s =>
      if bool_decide (c = newline) then ([c], s)
      else let '(line, rest) := fgets n s in (c :: line, rest)
  | _, _ => ([], s)
  end.

(** [(size_t) -1], for no stream. *)
Definition NO_STREAM : Z := 2 ^ 64 - 1.

(** The loop over the numbers of one half of a line: each is stored in the
    array [associated] and gets the stream [idx], unless it is not a
    number, too large or has a stream already; then the result is [None]. *)
Fixpoint associate (fuel : nat) (chunk : option str) (save : str) (r : nat) (associated : list Z)
    (num idx : Z) (streams : list Z) : comp (option (list Z * str)) :=
  match chunk with
  | None => Done (Some (streams, save))
  | Some c =>
      match fuel with
      | O => Stuck NoFuel
      | S fuel =>
          match str2size c with
          | inl _ => Done None
          | inr v =>
              associated ← wr associated r v;
              if num <=? v then Done None else
              stream ← rd streams (Z.to_nat v);
              if negb (stream =? NO_STREAM) then Done None else
              streams ← wr streams (Z.to_nat v) idx;
              let '(chunk, save) := strtok comma None save in
              associate fuel chunk save (S r) associated num idx streams
          end
      end
  end.

(** One line: receivers, a colon, handlers.  The arrays for the numbers
    are on the stack, one element for each receiver and each handler; an
    array without elements is undefined. *)
Definition stream_line (receive_num handle_num idx : Z) (line : str) (receive_streams handle_streams : list Z)
    : comp (option (list Z * list Z)) :=
  let '(receivers, save) := strtok colon (Some line) [] in
  let '(handlers, save) := strtok colon None save in
  if (receive_num <=? 0) || (handle_num <=? 0) then Stuck UB else
  let '(chunk, save) := strtok comma receivers save in
  r ← associate (S (length line)) chunk save 0 (replicate (Z.to_nat receive_num) 0) receive_num idx receive_streams;
  match r with
  | None => Done None
  | Some (receive_streams, save) =>
      let '(chunk, save) := strtok comma handlers save in
      r ← associate (S (length line)) chunk save 0 (replicate (Z.to_nat handle_num) 0) handle_num idx handle_streams;
      match r with
      | None => Done None
      | Some (handle_streams, _) => Done (Some (receive_streams, handle_streams))
      end
  end.

(** The loop over the lines; the result has the number of lines. *)
Fixpoint stream_lines (fuel : nat) (receive_num handle_num i : Z) (file : str) (rs hs : list Z)
    : comp (option (list Z * list Z * Z)) :=
  match file with
  | [] => Done (Some (rs, hs, i))
  | _ =>
      match fuel with
      | O => Stuck NoFuel
      | S fuel =>
          if receive_num <=? i then Done None else
          let '(line, rest) := fgets 127 file in
          r ← stream_line receive_num handle_num i line rs hs;
          match r with
          | None => Done None
          | Some (rs, hs) => stream_lines fuel receive_num handle_num (i + 1) rest rs hs
          end
      end
  end.

(** [alloc_r], [alloc_h]: whether there is memory for the two arrays;
    [file] is [None] when the file cannot be opened.  The result is the
    stream of each receiver and each handler, and the number of streams. *)
Definition parse_streams_file (receive_num handle_num : Z) (alloc_r alloc_h : bool) (file : option str)
    : comp (option (list Z * list Z * Z)) :=
  if negb alloc_r || negb alloc_h then Done None else
  let rs := replicate (Z.to_nat receive_num) NO_STREAM in
  let hs := replicate (Z.to_nat handle_num) NO_STREAM in
  match file with
  | None => Done None
  | Some file =>
      r ← stream_lines (S (length file)) receive_num handle_num 0 file rs hs;
      match r with
      | None => Done None
      | Some (rs, hs, count) =>
          if count <=? 0 then Done None
          else if existsb (fun s => s =? NO_STREAM) hs then Done None
          else if existsb (fun s => s =? NO_STREAM) rs then Done None
          else Done (Some (rs, hs, count))
      end
  end.

(** ** parse_affinity_file *)

(** [strsep(&line, ",")]: the token up to the delimiter, and the rest,
    which is null behind the last token. *)
Definition strsep (delim : Ascii.ascii) (line : str) : str * option str :=
  let '(token, rest) := span (fun c => negb (bool_decide (c = delim))) line in
  match rest with [] => (token, None) | _ :: rest => (token, Some rest) end.

(** [getline]: a line with its newline; [None] at the end of the file or
    when there is no memory. *)
Definition getline (mem : bool) (file : str) : option (str * str) :=
  match file with
  | [] => None
  | _ =>
      if negb mem then None else
      let '(line, rest) := span (fun c => negb (bool_decide (c = newline))) file in
      match rest with [] => Some (line, []) | c :: rest => Some (line ++ [c], rest) end
  end.

(** The loop over the tokens of a line; the result has their number. *)
Fixpoint affinities (fuel : nat) (line : option str) (i num : Z) (cpus : list Z) : comp (option (Z * list Z)) :=
  match line with
  | None => Done (Some (i, cpus))
  | Some l =>
      match fuel with
      | O => Stuck NoFuel
      | S fuel =>
          let '(token, line) := strsep comma l in
          if num <=? i then Done None else
          match str2size token with
          | inl _ => Done None
          | inr cpu => cpus ← wr cpus (Z.to_nat i) cpu; affinities fuel line (i + 1) num cpus
          end
      end
  end.

(** One line: its tokens, and the test of their number behind the loop. *)
Definition affinity_line (num : Z) (line : str) (cpus : list Z) : comp (option (list Z)) :=
  r ← affinities (S (length line)) (Some line) 0 num cpus;
  match r with
  | None => Done None
  | Some (i, cpus) => if negb (i =? num) then Done None else Done (Some cpus)
  end.

(** The value returned, and the arrays the configuration then has for the
    handlers and the receivers ([None]: null).  [alloc_h] and [alloc_r] are
    the outcomes of the two [calloc], [mem1] and [mem2] those of the
    allocations in [getline]; [file] is [None] when there is no file. *)
Definition parse_affinity_file (handle_num receive_num : Z) (alloc_h alloc_r mem1 mem2 : bool) (file : option str)
    : comp (Z * option (list Z) * option (list Z)) :=
  let fail := Done (-1, None, None) in
  if negb alloc_h || negb alloc_r then fail else
  match file with
  | None => Done (0, None, None)
  | Some file =>
      match getline mem1 file with
      | None => fail
      | Some (line, file) =>
          r ← affinity_line receive_num line (replicate (Z.to_nat receive_num) 0);
          match r with
          | None => fail
          | Some receive_affinities =>
              match getline mem2 file with
              | None => fail
              | Some (line, _) =>
                  r ← affinity_line handle_num line (replicate (Z.to_nat handle_num) 0);
                  match r with
                  | None => fail
                  | Some handle_affinities => Done (0, Some handle_affinities, Some receive_affinities)
                  end
              end
          end
      end
  end.

(** *** Reference: a line as the list of its parts *)

Fixpoint split_at (delim : Ascii.ascii) (s : str) : list str :=
  match s with
  | [] => [[]]
  | c :: s =>
      if bool_decide (c = delim) then [] :: split_at delim s
      else match split_at delim s with [] => [[c]] | t :: ts => (c :: t) :: ts end
  end.

Definition a_number (s : str) : option Z := match str2size s with inr v => Some v | inl _ => None end.

(** The numbers of a line, when there are [num] of them. *)
Definition numbers (num : Z) (line : str) : option (list Z) :=
  let parts := split_at comma line in
  if Z.of_nat (length parts) =? num then mapM a_number parts else None.

(** What [strtok] makes of a string: the parts that are not empty. *)
Definition fields (delim : Ascii.ascii) (s : str) : list str := filter (fun t => t <> []) (split_at delim s).

(** The numbers of the receivers and of the handlers a line of the stream
    file names: of its first two fields between colons, each a list with
    commas. *)
Definition line_numbers (line : str) : option (list Z * list Z) :=
  let half k := mapM a_number (from_option (fields comma) [] (fields colon line !! k)) in
  rx ← half 0%nat; hd ← half 1%nat; Some (rx, hd).

(** The lines of a file as [fgets] reads them. *)
Fixpoint file_lines (fuel : nat) (file : str) : list str :=
  match file, fuel with
  | _ :: _, S fuel => let '(line, rest) := fgets 127 file in line :: file_lines fuel rest
  | _, _ => []
  end.

Definition stream_file (file : str) : option (list (list Z * list Z)) :=
  mapM line_numbers (file_lines (length file) file).

(** The lines name each of the numbers [0..num-1] once, and the stream of
    each is the number of the line that names it. *)
Definition assigns (ls : list (list Z)) (num : Z) (streams : list Z) : Prop :=
  concat ls ≡ₚ seqZ 0 num /\ Z.of_nat (length streams) = num /\
  forall k l, ls !! k = Some l -> Forall (fun v => streams !! Z.to_nat v = Some (Z.of_nat k)) l.

Example parse_two_streams :
  parse_streams_file 2 3 true true (Some (lit "0:0,2" ++ [newline] ++ lit "1:1")) =
  Done (Some ([0; 1], [0; 1; 0], 2)).
Proof. reflexivity. Qed.

Example parse_arguments :
  parse_receiver [lit "-n"; lit "4"; lit "::"; lit "-sw7"; lit "8080"] true true (fun _ _ => true) =
  Done (inr (mk_config true (lit "%d") 2 false 100 8080 4 1 7 31)).
Proof. reflexivity. Qed.

(** ** Lemmas *)

Lemma span_spec f s a b :
  span f s = (a, b) -> s = a ++ b /\ Forall (fun c => f c = true) a /\ (forall c b', b = c :: b' -> f c = false).
Proof.
  revert a b. induction s as [|c s IH]; intros a b; cbn.
  { intros [= <- <-]. split_and!; try done. }
  destruct (f c) eqn:E.
  - destruct (span f s) as [a' b'] eqn:Es. intros [= <- <-]. destruct (IH _ _ eq_refl) as (-> & Ha & Hb).
    split; [done|]. split; [by constructor|done].
  - intros [= <- <-]. split; [done|]. split; [done|]. by intros c' b' [= <- <-].
Qed.

Lemma span_app f a b :
  Forall (fun c => f c = true) a -> (forall c b', b = c :: b' -> f c = false) -> span f (a ++ b) = (a, b).
Proof.
  intros Ha Hb. induction Ha as [|c a Hc _ IH]; cbn.
  - destruct b as [|c b]; [done|]. cbn. by rw (Hb c b).
  - by rw Hc IH.
Qed.

Lemma isdigit_range c : isdigit c = true -> 48 <= code c <= 57.
Proof. rw /isdigit andb_true_iff !Z.leb_le. done. Qed.

Lemma number_nonneg ds : Forall (fun c => isdigit c = true) ds -> 0 <= number ds.
Proof.
  intros H. rw /number.
  apply (fold_left_inv _ (fun n => 0 <= n) (fun c => isdigit c = true)); [|done|done].
  intros n c Hn Hc%isdigit_range. lia.
Qed.

(** An optional sign, digits, and then nothing or a newline. *)
Definition is_number (s : str) (v : Z) : Prop :=
  exists sign ds rest, s = sign ++ ds ++ rest /\ (sign = [] \/ sign = [plus] \/ sign = [dash]) /\
    ds <> [] /\ Forall (fun c => isdigit c = true) ds /\ (rest = [] \/ exists r, rest = newline :: r) /\
    v = number ds /\ v <= INT_MAX /\ (sign = [dash] -> v = 0).

(** Where the sign ends. *)
Lemma sign_of_spec s neg s' :
  sign_of s = (neg, s') ->
  exists sign, s = sign ++ s' /\ (sign = [] \/ sign = [plus] \/ sign = [dash]) /\
    (neg = true <-> sign = [dash]) /\ (sign = [] -> forall c r, s = c :: r -> c <> dash /\ c <> plus).
Proof.
  destruct s as [|c s]; cbn; [intros [= <- <-]; exists []; split_and!; auto; split; done|].
  repeat case_bool_decide; intros [= <- <-]; subst.
  - exists [dash]. split_and!; auto; done.
  - exists [plus]. split_and!; auto; done.
  - exists []. split_and!; auto; [done|]. intros _ c' r [= <- <-]. done.
Qed.

Lemma sign_of_app sign s :
  sign = [] /\ (forall c r, s = c :: r -> isdigit c = true) \/ sign = [plus] \/ sign = [dash] ->
  sign_of (sign ++ s) = (bool_decide (sign = [dash]), s).
Proof.
  intros [[-> Hs]|[->| ->]]; [|done|done]. destruct s as [|c s]; [done|]. cbn.
  specialize (Hs c s eq_refl). rw !bool_decide_eq_false_2 //; by intros ->.
Qed.

(** [strtol] on a number that is in range. *)
Lemma strtol_number sign ds rest :
  (sign = [] \/ sign = [plus] \/ sign = [dash]) -> ds <> [] -> Forall (fun c => isdigit c = true) ds ->
  (forall c r, rest = c :: r -> isdigit c = false) -> number ds <= INT_MAX ->
  strtol (sign ++ ds ++ rest) =
    (if bool_decide (sign = [dash]) then - number ds else number ds, rest, false).
Proof.
  intros Hsign Hne Hds Hrest Hmax. rw /strtol sign_of_app.
  2:{ destruct Hsign as [->|H]; [left|by right]. split; [done|]. intros c r.
      destruct ds as [|c' ds]; [done|]. apply Forall_cons in Hds as [Hc _]. by intros [= <- _]. }
  rw span_app //. destruct ds as [|c ds]; [done|]. pose proof (number_nonneg _ Hds) as Hn.
  rw /INT_MAX in Hmax. set (n := number (c :: ds)) in *.
  rw /LONG_MAX /LONG_MIN.
  destruct (bool_decide (sign = [dash])).
  - destruct (Z.ltb_spec (2 ^ 63 - 1) (- n)); [lia|]. destruct (Z.ltb_spec (- n) (- 2 ^ 63)); [lia|done].
  - destruct (Z.ltb_spec (2 ^ 63 - 1) n); [lia|]. destruct (Z.ltb_spec n (- 2 ^ 63)); [lia|done].
Qed.

(** What [strtol] returns always: no digits, or a number with its sign,
    cut off at the limits. *)
Lemma strtol_spec s l rest erange :
  strtol s = (l, rest, erange) ->
  (l = 0 /\ rest = s) \/
  (exists sign ds, s = sign ++ ds ++ rest /\ (sign = [] \/ sign = [plus] \/ sign = [dash]) /\ ds <> [] /\
    Forall (fun c => isdigit c = true) ds /\
    l = Z.max LONG_MIN (Z.min LONG_MAX (if bool_decide (sign = [dash]) then - number ds else number ds)) /\
    (erange = true -> l = LONG_MAX \/ l = LONG_MIN)).
Proof.
  rw /strtol. destruct (sign_of s) as [neg s'] eqn:Es. destruct (sign_of_spec _ _ _ Es) as (sign & -> & Hsign & Hneg & _).
  destruct (span isdigit s') as [ds r] eqn:Ed. destruct (span_spec _ _ _ _ Ed) as (-> & Hds & _).
  destruct ds as [|c ds]; [intros [= <- <- <-]; by left|].
  assert (neg = bool_decide (sign = [dash])) as ->.
  { apply eq_true_iff_eq. by rw bool_decide_eq_true. }
  set (n := if bool_decide (sign = [dash]) then _ else _). intros H. right. exists sign, (c :: ds).
  rw /LONG_MAX /LONG_MIN in H |- *.
  destruct (Z.ltb_spec (2 ^ 63 - 1) n); [|destruct (Z.ltb_spec n (- 2 ^ 63))];
    injection H as <- <- <-; (split; [done|]; split; [done|]; split; [done|]; split; [done|]); split;
    try lia; auto.
Qed.

Lemma str2size_iff s v : str2size s = inr v <-> is_number s v.
Proof.
  split.
  - rw /str2size. destruct s as [|c0 s0]; [done|]. destruct (isspace c0) eqn:Hsp; [done|].
    destruct (strtol (c0 :: s0)) as [[l rest] erange] eqn:Es.
    destruct ((INT_MAX <? l) || (erange && (l =? LONG_MAX))) eqn:E1; [done|].
    destruct ((l <? 0) || (erange && (l =? LONG_MIN))) eqn:E2; [done|].
    rewrite -> orb_false_iff, Z.ltb_ge in E1, E2. destruct E1 as [Hmax _], E2 as [Hmin _]. intros Hv.
    assert (l = v /\ (rest = [] \/ exists r, rest = newline :: r)) as [<- Hrest].
    { destruct rest as [|c rest]; [injection Hv; auto|]. case_bool_decide; [|done]. subst c.
      split; [by injection Hv|eauto]. }
    destruct (strtol_spec _ _ _ _ Es) as [[-> ->]|(sign & ds & -> & Hsign & Hne & Hds & Hl & _)].
    { destruct Hrest as [|[r [= -> _]]]; [done|]. by vm_compute in Hsp. }
    pose proof (number_nonneg ds Hds) as Hn. rw /LONG_MAX /LONG_MIN /INT_MAX in Hl Hmax.
    exists sign, ds, rest. rw /INT_MAX. destruct (bool_decide_reflect (sign = [dash])) as [Hd|Hd];
      split_and!; try done; lia.
  - intros (sign & ds & rest & -> & Hsign & Hne & Hds & Hrest & -> & Hmax & Hneg).
    assert (forall c r, rest = c :: r -> c = newline) as Hnl by (intros c r ->; naive_solver).
    pose proof (number_nonneg ds Hds) as Hn.
    destruct (sign ++ ds ++ rest) as [|c0 s0] eqn:Es.
    { destruct Hsign as [->|[->| ->]]; [|done|done]. by destruct ds. }
    assert (isspace c0 = false) as Hsp.
    { destruct Hsign as [->|[->| ->]]; [|by injection Es as <- _..]. destruct ds as [|c ds]; [done|].
      injection Es as <- _. apply Forall_cons in Hds as [Hc%isdigit_range _]. rw /isspace.
      destruct (Z.eqb_spec (code c) 32); [lia|]. destruct (Z.leb_spec (code c) 13); [lia|]. by rw andb_false_r. }
    rw /str2size Hsp -Es strtol_number //; [|by intros c r ->%Hnl].
    assert ((if bool_decide (sign = [dash]) then - number ds else number ds) = number ds) as ->.
    { case_bool_decide; [|done]. rw Hneg //. }
    destruct (Z.ltb_spec INT_MAX (number ds)); [lia|]. destruct (Z.ltb_spec (number ds) 0); [lia|].
    cbn [orb andb]. destruct rest as [|c r]; [done|]. by rw (Hnl c r) // bool_decide_eq_true_2.
Qed.

Lemma str2size_range s v : str2size s = inr v -> 0 <= v <= INT_MAX.
Proof.
  intros (sign & ds & rest & _ & _ & _ & Hds & _ & -> & Hmax & _)%str2size_iff.
  pose proof (number_nonneg ds Hds). lia.
Qed.

Lemma number_arg_ok s e v : number_arg s e = inr v -> is_u16 v /\ exists n, str2size s = inr n /\ v = u16 n.
Proof.
  rw /number_arg. destruct (str2size s) as [|n]; [done|]. intros [= <-].
  split; [by apply Z.mod_pos_bound|by exists n].
Qed.

Lemma window_arg_ok s v : window_arg s = inr v -> 0 <= v <= MAX_WINDOW_SIZE /\ str2size s = inr v.
Proof.
  rw /window_arg. destruct (str2size s) as [|n] eqn:E; [done|]. pose proof (str2size_range _ _ E).
  destruct (Z.ltb_spec MAX_WINDOW_SIZE n) as [|Hw]; [done|]. intros [= <-].
  assert (u16 n = n) as -> by (rw /MAX_WINDOW_SIZE in Hw; rw /u16 Z.mod_small; lia). split; [lia|done].
Qed.

(** ** Streams: what an accepted file assigns *)

(** *** [strtok] takes the fields one by one *)

Lemma split_at_token delim a b :
  Forall (fun c => c <> delim) a -> split_at delim (a ++ delim :: b) = a :: split_at delim b.
Proof.
  induction 1 as [|c a Hc _ IH]; cbn; [by rw bool_decide_eq_true_2|]. rw bool_decide_eq_false_2 // IH //.
Qed.

Lemma split_at_last delim a : Forall (fun c => c <> delim) a -> split_at delim a = [a].
Proof. induction 1 as [|c a Hc _ IH]; cbn; [done|]. rw bool_decide_eq_false_2 // IH //. Qed.

Lemma fields_delims delim a b : Forall (fun c => c = delim) a -> fields delim (a ++ b) = fields delim b.
Proof.
  induction 1 as [|c a -> _ IH]; [done|]. rw -{}IH /fields /=. rw bool_decide_eq_true_2 //.
Qed.

Lemma strtok_fields delim s save :
  fields delim (default save s) =
  match strtok delim s save with (None, _) => [] | (Some t, save') => t :: fields delim save' end /\
  ((strtok delim s save).1 = None -> (strtok delim s save).2 = []).
Proof.
  rw /strtok. destruct (span _ (default save s)) as [a u] eqn:E1. apply span_spec in E1 as (-> & Ha & Hu).
  rw fields_delims; [|eapply Forall_impl; [exact Ha|intros c; apply bool_decide_eq_true]].
  destruct u as [|c u]; [done|]. specialize (Hu c u eq_refl). apply bool_decide_eq_false in Hu.
  destruct (span _ (c :: u)) as [t r] eqn:E2. split; [|done].
  assert (t <> []) as Ht by (cbn in E2; rewrite -> bool_decide_eq_false_2 in E2 by done; cbn in E2;
    destruct (span _ u); by injection E2 as <- _).
  apply span_spec in E2 as (-> & Hf & Hr).
  assert (Forall (fun c => c <> delim) t) as Hd.
  { eapply Forall_impl; [exact Hf|]. intros d Hd. by apply negb_true_iff, bool_decide_eq_false in Hd. }
  rw /fields. destruct r as [|d r].
  - rw app_nil_r split_at_last // filter_cons_True //.
  - specialize (Hr d r eq_refl). apply negb_false_iff, bool_decide_eq_true in Hr as ->.
    rw split_at_token // filter_cons_True //.
Qed.

(** The fuel of the loops is enough: every call takes a character. *)

Lemma span_length f s : (length (span f s).1 + length (span f s).2 = length s)%nat.
Proof. destruct (span f s) as [a b] eqn:E. apply span_spec in E as (-> & _). by rw length_app. Qed.

Lemma strtok_length delim s save :
  (length (strtok delim s save).2 <= length (default save s))%nat /\
  forall t, (strtok delim s save).1 = Some t ->
    (length t <= length (default save s))%nat /\ (length (strtok delim s save).2 < length (default save s))%nat.
Proof.
  rw /strtok. pose proof (span_length (fun c => bool_decide (c = delim)) (default save s)) as H1.
  destruct (span _ (default save s)) as [a b]. cbn [fst snd] in H1. destruct b as [|c b]; [cbn; split; [lia|done]|].
  pose proof (span_length (fun c => negb (bool_decide (c = delim))) (c :: b)) as H2.
  destruct (span _ (c :: b)) as [token rest]. cbn [fst snd length] in *.
  assert (length (tail rest) <= length rest)%nat by (destruct rest; cbn; lia).
  assert (length (tail rest) <= length b)%nat by (destruct rest; cbn in *; lia).
  split; [lia|]. intros t [= <-]. lia.
Qed.

(** *** Assignments *)

(** Give each number [v] of a list of pairs its stream [k], when it is the
    number of an element that has no stream. *)
Fixpoint assign (ps : list (Z * Z)) (streams : list Z) : option (list Z) :=
  match ps with
  | [] => Some streams
  | (v, k) :: ps =>
      s ← streams !! Z.to_nat v;
      if s =? NO_STREAM then assign ps (<[Z.to_nat v := k]> streams) else None
  end.

(** The numbers one line names, with the number of the line. *)
Definition with_line (k : Z) (vs : list Z) : list (Z * Z) := (fun v => (v, k)) <$> vs.

Definition unassigned (streams : list Z) : nat := length (filter (fun s => s = NO_STREAM) streams).

Lemma unassigned_insert streams i k :
  k <> NO_STREAM -> streams !! i = Some NO_STREAM ->
  unassigned streams = S (unassigned (<[i := k]> streams)).
Proof.
  intros Hk Hi. rewrite -{1}(take_drop_middle streams i NO_STREAM Hi).
  rewrite insert_take_drop; [|by apply lookup_lt_Some in Hi].
  rw /unassigned !filter_app !length_app filter_cons_True // filter_cons_False //=.
Qed.

Lemma assign_length ps streams streams' : assign ps streams = Some streams' -> length streams' = length streams.
Proof.
  revert streams. induction ps as [|[v k] ps IH]; intros streams; cbn; [by intros [= <-]|].
  destruct (streams !! _) as [s|]; [|done]. cbn. destruct (s =? NO_STREAM); [|done].
  intros ->%IH. by rw length_insert.
Qed.

Lemma assign_app ps qs streams : assign (ps ++ qs) streams = assign ps streams ≫= assign qs.
Proof.
  revert streams. induction ps as [|[v k] ps IH]; intros streams; cbn; [done|].
  destruct (streams !! _) as [s|]; [|done]. cbn. by destruct (s =? NO_STREAM).
Qed.

(** *** The loops assign what the lines name *)

Lemma a_number_Some c v : a_number c = Some v <-> str2size c = inr v.
Proof. rw /a_number. destruct (str2size c); naive_solver. Qed.

Definition chunks (chunk : option str) (save : str) : list str :=
  match chunk with None => [] | Some c => c :: fields comma save end.

Lemma associate_save fuel chunk save r assoc num idx streams x save' :
  (chunk = None -> save = []) ->
  associate fuel chunk save r assoc num idx streams = Done (Some (x, save')) -> save' = [].
Proof.
  revert chunk save r assoc streams. induction fuel as [|fuel IH]; intros chunk save r assoc streams Hs;
    (destruct chunk as [c|]; cbn [associate]; [|by intros [= _ <-]; apply Hs]); [done|].
  destruct (str2size c) as [|v]; [done|]. intros (? & _ & H)%bind_Done.
  destruct (num <=? v); [done|]. apply bind_Done in H as (stream & _ & H).
  destruct (negb _); [done|]. apply bind_Done in H as (streams1 & _ & H).
  destruct (strtok_fields comma None save) as [_ Hn].
  destruct (strtok comma None save) as [chunk' save1]. by apply IH in H.
Qed.

Lemma associate_iff fuel chunk save r assoc idx streams x :
  idx <> NO_STREAM -> (r + unassigned streams <= length assoc)%nat -> (chunk = None \/ (length save < fuel)%nat) ->
  (exists save', associate fuel chunk save r assoc (Z.of_nat (length streams)) idx streams = Done (Some (x, save'))) <->
  exists vs, mapM a_number (chunks chunk save) = Some vs /\ assign (with_line idx vs) streams = Some x.
Proof.
  intros Hidx. revert chunk save r assoc streams.
  induction fuel as [|fuel IH]; intros chunk save r assoc streams Hroom Hf;
    (destruct chunk as [c|]; cbn [associate chunks mapM];
      [|split; [intros [? [= <- _]]; by exists []|intros (vs & [= <-] & [= <-]); by exists save]]);
    (destruct Hf as [|Hf]; [done|]); [lia|].
  assert (a_number c = match str2size c with inr v => Some v | _ => None end) as -> by done.
  destruct (str2size c) as [e|v] eqn:Ec; [cbn; split; [intros [? [=]]|intros (? & [=] & _)]|].
  apply str2size_range in Ec as Hv. cbn [mbind option_bind].
  transitivity (exists vs, mapM a_number (fields comma save) = Some vs /\ assign (with_line idx (v :: vs)) streams = Some x);
    last first.
  { split.
    - intros (vs & Hm & Ha). exists (v :: vs). by rw Hm.
    - destruct (mapM a_number (fields comma save)) as [vs|]; cbn; intros (? & [= <-] & Ha). by exists vs. }
  destruct (streams !! Z.to_nat v) as [s|] eqn:El.
  2: { split; [|intros (vs & _ & Ha); cbn in Ha; by rewrite El in Ha].
    apply lookup_ge_None in El. intros [save' H]. apply bind_Done in H as (? & _ & H).
    by destruct (Z.leb_spec (Z.of_nat (length streams)) v); [|lia]. }
  assert (Z.of_nat (length streams) <=? v = false) as -> by (apply lookup_lt_Some in El; lia).
  destruct (Z.eqb_spec s NO_STREAM) as [->|Hs].
  2: { split; [intros [save' H]|intros (vs & _ & Ha); cbn in Ha; rewrite -> El in Ha; cbn in Ha].
    - apply bind_Done in H as (? & _ & H). rewrite -> (proj2 (rd_Done _ _ _) El) in H. cbn in H.
      by destruct (Z.eqb_spec s NO_STREAM).
    - by destruct (Z.eqb_spec s NO_STREAM). }
  pose proof (unassigned_insert streams _ idx Hidx El) as Hun.
  rw (wr_lt assoc); [|lia]. unbind. rw (proj2 (rd_Done _ _ _) El). unbind. rw Z.eqb_refl. cbn [negb].
  rw (wr_lt streams); [|by apply lookup_lt_Some in El]. unbind.
  destruct (strtok_length comma None save) as [_ Hlen], (strtok_fields comma None save) as [Hfields _].
  destruct (strtok comma None save) as [chunk' save1]. cbn [fst snd default from_option id] in *.
  rw -(length_insert streams (Z.to_nat v) idx) IH.
  - rw Hfields. cbn [with_line fmap list_fmap assign]. rw El /= //.
  - rw length_insert. lia.
  - destruct chunk' as [t|]; [|by left]. right. destruct (Hlen t eq_refl). lia.
Qed.

Lemma unassigned_length streams : (unassigned streams <= length streams)%nat.
Proof. apply length_filter. Qed.

(** One half of a line. *)
Lemma half_iff fuel h save chunk save1 num idx streams x :
  idx <> NO_STREAM -> num = Z.of_nat (length streams) -> (h = None -> save = []) ->
  (length (default save h) < fuel)%nat -> strtok comma h save = (chunk, save1) ->
  associate fuel chunk save1 0 (replicate (Z.to_nat num) 0) num idx streams = Done (Some (x, [])) <->
  exists vs, mapM a_number (from_option (fields comma) [] h) = Some vs /\ assign (with_line idx vs) streams = Some x.
Proof.
  intros Hidx -> Hsave Hfuel Es. destruct (strtok_fields comma h save) as [Hf _], (strtok_length comma h save) as [Hl _].
  destruct (strtok_fields comma h save) as [_ Hn]. rewrite -> Es in Hf, Hl, Hn. cbn [fst snd] in Hl, Hn.
  transitivity (exists save', associate fuel chunk save1 0 (replicate (Z.to_nat (Z.of_nat (length streams))) 0)
    (Z.of_nat (length streams)) idx streams = Done (Some (x, save'))).
  { split; [by exists []|]. intros [save' H]. by rewrite <- (associate_save _ _ _ _ _ _ _ _ _ _ Hn H). }
  rw associate_iff //.
  - assert (chunks chunk save1 = from_option (fields comma) [] h) as ->; [|done].
    rw /chunks -Hf. destruct h; [done|]. by rw Hsave.
  - rw Nat2Z.id length_replicate. apply unassigned_length.
  - right. lia.
Qed.

(** The halves [strtok] makes of a line. *)
Lemma line_halves line :
  let '(receivers, s1) := strtok colon (Some line) [] in
  let '(handlers, s2) := strtok colon None s1 in
  fields colon line !! 0%nat = receivers /\ fields colon line !! 1%nat = handlers /\
  (receivers = None -> s2 = []) /\
  (length (default s2 receivers) < S (length line))%nat /\ (length (default [] handlers) < S (length line))%nat.
Proof.
  destruct (strtok_fields colon (Some line) []) as [F1 N1], (strtok_length colon (Some line) []) as [L1 M1].
  destruct (strtok colon (Some line) []) as [receivers s1].
  destruct (strtok_fields colon None s1) as [F2 N2], (strtok_length colon None s1) as [_ M2].
  destruct (strtok colon None s1) as [handlers s2]. cbn [fst snd default from_option id] in *. rw F1.
  destruct receivers as [t|].
  - destruct (M1 t eq_refl). rw F2. destruct handlers as [t'|]; [destruct (M2 t' eq_refl)|]; cbn; split_and!; try done; lia.
  - rewrite -> N1 in F2 by done. destruct handlers as [t'|]; [done|]. rw N2 //=. split_and!; try done; lia.
Qed.

Lemma stream_line_iff rn hn idx line rs hs rs' hs' :
  idx <> NO_STREAM -> 0 < rn -> rn = Z.of_nat (length rs) -> 0 < hn -> hn = Z.of_nat (length hs) ->
  stream_line rn hn idx line rs hs = Done (Some (rs', hs')) <->
  exists l, line_numbers line = Some l /\
    assign (with_line idx l.1) rs = Some rs' /\ assign (with_line idx l.2) hs = Some hs'.
Proof.
  intros Hidx Hr Hrn Hh Hhn. rw /stream_line /line_numbers. pose proof (line_halves line) as Hl.
  destruct (strtok colon (Some line) []) as [receivers s1]. destruct (strtok colon None s1) as [handlers s2].
  destruct Hl as (-> & -> & Hs2 & Hf1 & Hf2).
  destruct (Z.leb_spec rn 0); [lia|]. destruct (Z.leb_spec hn 0); [lia|]. cbn [orb].
  destruct (strtok_fields comma receivers s2) as [_ N1], (strtok_fields comma handlers []) as [_ N2].
  destruct (strtok comma receivers s2) as [c1 s3] eqn:E1, (strtok comma handlers []) as [c2 s4] eqn:E2.
  pose proof (fun x => half_iff _ _ _ _ _ rn idx rs x Hidx Hrn Hs2 Hf1 E1) as H1.
  pose proof (fun x => half_iff _ handlers [] _ _ hn idx hs x Hidx Hhn ltac:(done) Hf2 E2) as H2. cbn [fst snd] in N1, N2. split.
  - intros (r1 & A1 & H')%bind_Done. destruct r1 as [[rs1 s]|]; [|done].
    pose proof (associate_save _ _ _ _ _ _ _ _ _ _ N1 A1) as ->. rewrite -> E2 in H'.
    apply bind_Done in H' as (r2 & A2 & H'). destruct r2 as [[hs1 s]|]; [|done]. injection H' as <- <-.
    pose proof (associate_save _ _ _ _ _ _ _ _ _ _ N2 A2) as ->.
    apply H1 in A1 as (rx & -> & ?). apply H2 in A2 as (hd & -> & ?). by exists (rx, hd).
  - intros (l & Hl & A1 & A2). destruct (mapM _ (from_option _ _ receivers)) as [rx|] eqn:Erx; [|done].
    cbn in Hl. destruct (mapM _ (from_option _ _ handlers)) as [hd|] eqn:Ehd; [|done]. injection Hl as <-.
    rw (proj2 (H1 rs')); [|by exists rx]. unbind. rw E2 (proj2 (H2 hs')) //. by exists hd.
Qed.

Lemma fgets_length n c s : (length (fgets (S n) (c :: s)).2 <= length s)%nat.
Proof.
  assert (forall n s, length (fgets n s).2 <= length s)%nat as H.
  { clear. induction n as [|n IH]; intros [|d s]; cbn; [lia..|]. case_bool_decide; cbn; [lia|].
    specialize (IH s). destruct (fgets n s). cbn in *. lia. }
  cbn. case_bool_decide; [done|]. specialize (H n s). by destruct (fgets n s).
Qed.

(** What the lines from line [i] on name. *)
Fixpoint named (i : Z) (ls : list (list Z)) : list (Z * Z) :=
  match ls with [] => [] | l :: ls => with_line i l ++ named (i + 1) ls end.

Lemma stream_lines_iff fuel n rn hn i file rs hs rs' hs' count :
  0 <= i -> rn <= NO_STREAM -> rn = Z.of_nat (length rs) -> 0 < hn -> hn = Z.of_nat (length hs) ->
  (length file < fuel)%nat -> (length file <= n)%nat ->
  stream_lines fuel rn hn i file rs hs = Done (Some (rs', hs', count)) <->
  exists ls, mapM line_numbers (file_lines n file) = Some ls /\
    assign (named i ls.*1) rs = Some rs' /\ assign (named i ls.*2) hs = Some hs' /\
    count = i + Z.of_nat (length ls) /\ (ls = [] \/ count <= rn).
Proof.
  intros Hi Hrn Hlr Hh Hlh. revert n i Hi file rs hs Hlr Hlh.
  induction fuel as [|fuel IH]; intros n i Hi file rs hs Hlr Hlh Hf Hn; [lia|].
  destruct file as [|c file]; cbn [stream_lines file_lines].
  { assert (file_lines n [] = []) as -> by by destruct n.
    split; [intros [= <- <- <-]; exists []; split_and!; try done; [cbn [length]; lia|by left]|].
    intros (ls & [= <-] & [= <-] & [= <-] & -> & _). by rw Z.add_0_r. }
  destruct n as [|n]; [cbn in Hn; lia|]. cbn [length] in Hf, Hn.
  pose proof (fgets_length 126 c file) as Hl. change (S 126) with 127%nat in Hl.
  destruct (Z.leb_spec rn i) as [Hle|Hlt].
  { split; [done|]. intros (ls & Hm & _ & _ & -> & Hc). cbn [file_lines] in Hm.
    destruct (fgets 127 (c :: file)) as [line rest]. cbn [mapM] in Hm.
    destruct (line_numbers line); [|done]. cbn in Hm. destruct (mapM _ _); [|done]. injection Hm as <-.
    cbn [length] in Hc. destruct Hc as [|]; [done|lia]. }
  cbn [file_lines]. destruct (fgets 127 (c :: file)) as [line rest]. cbn [snd length mapM] in *.
  assert (i <> NO_STREAM) as Hne by lia.
  pose proof (fun rs' hs' => stream_line_iff rn hn i line rs hs rs' hs' Hne ltac:(lia) Hlr Hh Hlh) as Hline.
  split.
  - intros (r1 & H1 & H2)%bind_Done. destruct r1 as [[rs1 hs1]|]; [|done].
    apply Hline in H1 as (l & -> & A1 & A2). apply assign_length in A1 as L1, A2 as L2.
    apply (IH n) in H2 as (ls & -> & B1 & B2 & -> & Hc); [|lia..].
    exists (l :: ls). cbn [fmap list_fmap named length]. rw !assign_app A1 A2. split_and!; try done; [lia|].
    right. destruct Hc as [->|]; cbn [length] in *; lia.
  - intros (ls' & Hm & A1 & A2 & -> & Hc). destruct (line_numbers line) as [l|]; [|done]. cbn in Hm.
    destruct (mapM _ (file_lines n rest)) as [ls|] eqn:Em; [|done]. injection Hm as <-.
    cbn [fmap list_fmap named length] in *. rewrite -> assign_app in A1, A2.
    apply bind_Some in A1 as (rs1 & A1 & B1), A2 as (hs1 & A2 & B2).
    rw (proj2 (Hline rs1 hs1)); [|by exists l]. unbind. apply assign_length in A1 as L1, A2 as L2.
    apply (IH n); [lia..|]. exists ls. split_and!; try done; [lia|]. right. destruct Hc; [done|lia].
Qed.

(** *** A file is accepted when its lines name everyone once *)

Lemma elem_of_named i ls v k :
  (v, k) ∈ named i ls <-> exists j l, ls !! j = Some l /\ v ∈ l /\ k = i + Z.of_nat j.
Proof.
  revert i. induction ls as [|l ls IH]; intros i; cbn [named].
  { split; [by intros ?%elem_of_nil|by intros (j & l & ? & _)]. }
  rw elem_of_app IH /with_line list_elem_of_fmap. split.
  - intros [(? & [= -> ->] & Hv)|(j & l' & ? & ? & ->)]; [exists 0%nat, l|exists (S j), l']; split_and!; try done; lia.
  - intros ([|j] & l' & Hl & Hv & ->).
    + injection Hl as <-. left. exists v. split; [f_equal; lia|done].
    + right. exists j, l'. split_and!; try done. lia.
Qed.

Lemma named_numbers i ls : (named i ls).*1 = concat ls.
Proof.
  revert i. induction ls as [|l ls IH]; intros i; [done|]. cbn [named concat]. rw fmap_app IH /with_line -list_fmap_compose.
  f_equal. apply list_fmap_id.
Qed.

Lemma assign_iff ps streams x :
  Forall (fun p => 0 <= p.1 /\ p.2 <> NO_STREAM) ps ->
  assign ps streams = Some x <->
  NoDup ps.*1 /\ Forall (fun v => streams !! Z.to_nat v = Some NO_STREAM) ps.*1 /\
  length x = length streams /\ Forall (fun p => x !! Z.to_nat p.1 = Some p.2) ps /\
  forall i, Z.of_nat i ∉ ps.*1 -> x !! i = streams !! i.
Proof.
  intros Hps. revert streams. induction Hps as [|[v k] ps [Hv Hk] Hps IH]; intros streams; cbn [assign fmap list_fmap].
  { split; [intros [= <-]; split_and!; constructor|]. intros (_ & _ & _ & _ & H). f_equal.
    apply list_eq. intros i. symmetry. apply H, not_elem_of_nil. }
  cbn [fst snd] in *. rw NoDup_cons !Forall_cons. cbn [fst snd]. split.
  - destruct (streams !! Z.to_nat v) as [s|] eqn:Es; [|done]. cbn. destruct (Z.eqb_spec s NO_STREAM) as [->|]; [|done].
    intros (Hnd & Hfree & Hlen & Hset & Hrest)%IH. rewrite -> length_insert in Hlen.
    assert (v ∉ ps.*1) as Hnin.
    { intros Hin. pose proof (proj1 (Forall_forall _ _) Hfree v Hin) as Hx. cbn in Hx.
      rewrite -> list_lookup_insert_eq in Hx by by apply lookup_lt_Some in Es. by injection Hx. }
    split_and!; try done.
    + eapply Forall_impl; [exact Hfree|]. intros w Hw. cbn in Hw. destruct (decide (Z.to_nat w = Z.to_nat v)) as [->|]; [done|].
      by rewrite -> list_lookup_insert_ne in Hw by done.
    + rw Hrest; [|by rw Z2Nat.id]. rw list_lookup_insert_eq //. by apply lookup_lt_Some in Es.
    + intros i [Hi Hni]%not_elem_of_cons. rw Hrest // list_lookup_insert_ne //. lia.
  - intros ([Hnin Hnd] & [Hv0 Hfree] & Hlen & [Hx Hset] & Hrest). rw Hv0 /=. apply IH.
    rw length_insert. split_and!; try done.
    + apply Forall_forall. intros w Hw. apply (proj1 (Forall_forall _ _) Hfree) in Hw as Hf. cbn in Hf.
      rw list_lookup_insert_ne //. apply list_elem_of_fmap in Hw as Hw'. destruct Hw' as ([? k'] & -> & Hin).
      apply (proj1 (Forall_forall _ _) Hps) in Hin as [? _]. cbn in *. intros He. apply Hnin.
      assert (v = z) as -> by lia. done.
    + intros i Hi. destruct (decide (i = Z.to_nat v)) as [->|Hne].
      * rw Hx list_lookup_insert_eq //. by apply lookup_lt_Some in Hv0.
      * rw Hrest; [|apply not_elem_of_cons; split; [lia|done]]. rw list_lookup_insert_ne //.
Qed.

(** From nothing assigned to everything assigned. *)
Lemma assign_all ps n x :
  Forall (fun p => 0 <= p.1 /\ p.2 <> NO_STREAM) ps ->
  (assign ps (replicate n NO_STREAM) = Some x /\ existsb (fun s => s =? NO_STREAM) x = false) <->
  ps.*1 ≡ₚ seqZ 0 (Z.of_nat n) /\ length x = n /\ Forall (fun p => x !! Z.to_nat p.1 = Some p.2) ps.
Proof.
  intros Hps. rw assign_iff // length_replicate. split.
  - intros [(Hnd & Hfree & Hlen & Hset & Hrest) He]. split; [|done].
    apply NoDup_Permutation; [done|apply NoDup_seqZ|]. intros v. rw elem_of_seqZ. split.
    + intros Hv. apply (proj1 (Forall_forall _ _) Hfree) in Hv as Hf. cbn in Hf.
      apply lookup_lt_Some in Hf. rewrite -> length_replicate in Hf. apply list_elem_of_fmap in Hv as ([w k] & -> & Hin).
      apply (proj1 (Forall_forall _ _) Hps) in Hin as [? _]. cbn in *. lia.
    + intros Hv. apply dec_stable. intros Hnin. apply not_true_iff_false in He. apply He, existsb_exists.
      exists NO_STREAM. split; [|apply Z.eqb_refl]. apply list_elem_of_In, list_elem_of_lookup. exists (Z.to_nat v).
      rw Hrest; [|rw Z2Nat.id //; lia]. apply lookup_replicate_2. lia.
  - intros (Hp & Hlen & Hset). split.
    + split_and!; try done.
      * rw Hp. apply NoDup_seqZ.
      * rw Hp. apply Forall_forall. intros v Hv%elem_of_seqZ. apply lookup_replicate_2. lia.
      * intros i Hi. rewrite -> Hp in Hi. rewrite -> elem_of_seqZ in Hi.
        rewrite -> !lookup_ge_None_2; [done|rw length_replicate; lia|lia].
    + apply not_true_iff_false. intros (s & Hs & ->%Z.eqb_eq)%existsb_exists.
      apply list_elem_of_In, list_elem_of_lookup in Hs as [i Hi]. apply lookup_lt_Some in Hi as Hlt.
      assert (Z.of_nat i ∈ ps.*1) as Hin by (rw Hp elem_of_seqZ; lia).
      apply list_elem_of_fmap in Hin as ([v k] & Hv & Hin). cbn in Hv. subst v.
      apply (proj1 (Forall_forall _ _) Hset) in Hin as Hx. apply (proj1 (Forall_forall _ _) Hps) in Hin as [_ Hk].
      cbn in Hx, Hk. rewrite -> Nat2Z.id in Hx. congruence.
Qed.

Lemma assign_file ls num x :
  0 <= num -> Forall (Forall (Z.le 0)) ls -> Z.of_nat (length ls) <= NO_STREAM ->
  (assign (named 0 ls) (replicate (Z.to_nat num) NO_STREAM) = Some x /\ existsb (fun s => s =? NO_STREAM) x = false) <->
  assigns ls num x.
Proof.
  intros Hn Hpos Hlen. rw assign_all.
  - rw named_numbers Z2Nat.id // /assigns.
    assert (Forall (fun p => x !! Z.to_nat p.1 = Some p.2) (named 0 ls) <->
      forall k l, ls !! k = Some l -> Forall (fun v => x !! Z.to_nat v = Some (Z.of_nat k)) l) as ->.
    { rw Forall_forall. split.
      - intros H k l Hl. apply Forall_forall. intros v Hv. apply (H (v, Z.of_nat k)), elem_of_named.
        by exists k, l.
      - intros H [v k] (j & l & Hl & Hv & ->)%elem_of_named. cbn. rw Z.add_0_l.
        by apply (proj1 (Forall_forall _ _) (H j l Hl)). }
    assert (length x = Z.to_nat num <-> Z.of_nat (length x) = num) as -> by lia. done.
  - apply Forall_forall. intros [v k] (j & l & Hl & Hv & ->)%elem_of_named. cbn. split.
    + apply (Forall_lookup_1 _ _ _ _ Hpos) in Hl. by apply (proj1 (Forall_forall _ _) Hl).
    + apply lookup_lt_Some in Hl. lia.
Qed.

Lemma a_number_range cs vs : mapM a_number cs = Some vs -> Forall (Z.le 0) vs.
Proof.
  intros H%mapM_Some. induction H as [|c v cs vs Hc _ IH]; constructor; [|done].
  apply a_number_Some, str2size_range in Hc. lia.
Qed.

Lemma stream_file_range file ls :
  stream_file file = Some ls -> Forall (Forall (Z.le 0)) ls.*1 /\ Forall (Forall (Z.le 0)) ls.*2.
Proof.
  intros H%mapM_Some. induction H as [|line l lines ls Hl _ [IH1 IH2]]; [by split; constructor|].
  rw /line_numbers in Hl. apply bind_Some in Hl as (rx & H1 & Hl). apply bind_Some in Hl as (hd & H2 & [= <-]).
  apply a_number_range in H1, H2. by split; constructor.
Qed.

Lemma parse_streams_file_iff receive_num handle_num alloc_r alloc_h file rs hs count :
  0 <= receive_num <= NO_STREAM -> 0 < handle_num ->
  parse_streams_file receive_num handle_num alloc_r alloc_h (Some file) = Done (Some (rs, hs, count)) <->
  alloc_r = true /\ alloc_h = true /\ exists ls, stream_file file = Some ls /\
    count = Z.of_nat (length ls) /\ 0 < count <= receive_num /\
    assigns ls.*1 receive_num rs /\ assigns ls.*2 handle_num hs.
Proof.
  intros Hr Hh. rw /parse_streams_file. destruct alloc_r; [|cbn; naive_solver]. destruct alloc_h; [|cbn; naive_solver].
  cbn [negb orb].
  pose proof (fun rs' hs' n => stream_lines_iff (S (length file)) (length file) receive_num handle_num 0 file
    (replicate (Z.to_nat receive_num) NO_STREAM) (replicate (Z.to_nat handle_num) NO_STREAM) rs' hs' n) as H.
  rewrite -> !length_replicate, !Z2Nat.id in H by lia.
  specialize (fun rs' hs' n => H rs' hs' n ltac:(lia) ltac:(lia) ltac:(done) ltac:(lia) ltac:(done) ltac:(lia) ltac:(lia)).
  assert (forall ls, stream_file file = Some ls -> Z.of_nat (length ls) <= receive_num -> forall rs hs,
    (assign (named 0 ls.*1) (replicate (Z.to_nat receive_num) NO_STREAM) = Some rs /\
       existsb (fun s => s =? NO_STREAM) rs = false <-> assigns ls.*1 receive_num rs) /\
    (assign (named 0 ls.*2) (replicate (Z.to_nat handle_num) NO_STREAM) = Some hs /\
       existsb (fun s => s =? NO_STREAM) hs = false <-> assigns ls.*2 handle_num hs)) as Hfile.
  { intros ls [Hp1 Hp2]%stream_file_range Hl ? ?. split; apply assign_file; try done; try lia; rw length_fmap; lia. }
  split.
  - intros (r & H1 & H2)%bind_Done. destruct r as [[[rs1 hs1] n]|]; [|done].
    apply H in H1 as (ls & Hls & A1 & A2 & -> & Hc). rewrite -> Z.add_0_l in *.
    destruct (Z.leb_spec (Z.of_nat (length ls)) 0); [done|]. destruct (existsb _ hs1) eqn:Eh; [done|].
    destruct (existsb _ rs1) eqn:Er; [done|]. injection H2 as <- <- <-.
    assert (Z.of_nat (length ls) <= receive_num) as Hle by (destruct Hc as [->|]; [cbn in *; lia|done]).
    destruct (Hfile ls Hls Hle rs1 hs1) as [F1 F2]. split; [done|]. split; [done|]. exists ls.
    split_and!; try done; try lia; [by apply F1|by apply F2].
  - intros (_ & _ & ls & Hls & -> & Hc & F1 & F2). destruct (Hfile ls Hls ltac:(lia) rs hs) as [G1 G2].
    apply G1 in F1 as [A1 E1]. apply G2 in F2 as [A2 E2].
    rw (proj2 (H rs hs (Z.of_nat (length ls)))); [|exists ls; rw Z.add_0_l; split_and!; try done; right; lia].
    unbind. destruct (Z.leb_spec (Z.of_nat (length ls)) 0); [lia|]. by rw E1 E2.
Qed.

(** *** The loops come to an end *)

Lemma associate_fuel fuel chunk save r assoc num idx streams :
  (chunk = None \/ (length save < fuel)%nat) ->
  associate fuel chunk save r assoc num idx streams <> Stuck NoFuel /\
  forall streams' save', associate fuel chunk save r assoc num idx streams = Done (Some (streams', save')) ->
    (length save' <= length save)%nat.
Proof.
  revert chunk save r assoc streams. induction fuel as [|fuel IH]; intros chunk save r assoc streams Hf;
    (destruct chunk as [c|]; cbn [associate]; [|by split; [done|intros ? ? [= _ <-]]]);
    (destruct Hf as [|Hf]; [done|]); [lia|].
  destruct (str2size c) as [|v]; [done|]. rw /wr. destruct (assoc !! r); [|done]. unbind.
  destruct (num <=? v); [done|]. rw /rd. destruct (streams !! Z.to_nat v); [|done]. unbind.
  destruct (negb _); [done|]. unbind.
  destruct (strtok_length comma None save) as [H1 H2].
  destruct (strtok comma None save) as [chunk save1]. cbn [fst snd default from_option id] in *.
  destruct (IH chunk save1 (S r) (<[r := v]> assoc) (<[Z.to_nat v := idx]> streams)) as [H3 H4].
  { destruct chunk as [t|]; [|by left]. right. destruct (H2 t eq_refl). lia. }
  split; [done|]. intros streams' save' H. specialize (H4 _ _ H). lia.
Qed.

Lemma stream_line_fuel rn hn idx line rs hs : stream_line rn hn idx line rs hs <> Stuck NoFuel.
Proof.
  rw /stream_line. destruct (strtok_length colon (Some line) []) as [H1 H2].
  destruct (strtok colon (Some line) []) as [receivers s1]. cbn [fst snd default from_option id] in *.
  destruct (strtok_length colon None s1) as [H3 H4].
  destruct (strtok colon None s1) as [handlers s2]. cbn [fst snd default from_option id] in *.
  destruct (strtok_length comma receivers s2) as [H5 _].
  destruct (_ || _); [done|]. destruct (strtok comma receivers s2) as [c1 s3]. cbn [fst snd] in *.
  assert (length s3 <= length line)%nat as Hs3.
  { destruct receivers as [t|]; cbn in H5; [|lia]. destruct (H2 t eq_refl). lia. }
  destruct (associate_fuel (S (length line)) c1 s3 0 (replicate (Z.to_nat rn) 0) rn idx rs) as [Ha Hb]; [right; lia|].
  destruct (associate _ _ s3 _ _ _ _ _) as [[[rs' s4]|]|]; unbind; [|done|congruence].
  specialize (Hb _ _ eq_refl). destruct (strtok_length comma handlers s4) as [H6 _].
  destruct (strtok comma handlers s4) as [c2 s5]. cbn [fst snd] in *.
  assert (length s5 <= length line)%nat as Hs5.
  { destruct handlers as [t|]; cbn in H6; [|lia]. destruct (H4 t eq_refl). lia. }
  destruct (associate_fuel (S (length line)) c2 s5 0 (replicate (Z.to_nat hn) 0) hn idx hs) as [Hc _]; [right; lia|].
  by destruct (associate _ _ s5 _ _ _ _ _) as [[[hs' s6]|]|]; unbind; [| |congruence].
Qed.

Lemma stream_lines_fuel fuel rn hn i file rs hs :
  (length file < fuel)%nat -> stream_lines fuel rn hn i file rs hs <> Stuck NoFuel.
Proof.
  revert i file rs hs. induction fuel as [|fuel IH]; intros i file rs hs Hf; [lia|].
  destruct file as [|c file]; cbn [stream_lines]; [done|]. destruct (rn <=? i); [done|].
  pose proof (fgets_length 126 c file) as Hl. change (S 126) with 127%nat in Hl.
  destruct (fgets 127 (c :: file)) as [line rest]. cbn [snd length] in *.
  pose proof (stream_line_fuel rn hn i line rs hs) as H1.
  destruct (stream_line rn hn i line rs hs) as [[[rs1 hs1]|]|]; unbind; [|done|congruence]. apply IH. lia.
Qed.

Lemma parse_streams_file_returns receive_num handle_num alloc_r alloc_h file :
  parse_streams_file receive_num handle_num alloc_r alloc_h file <> Stuck NoFuel.
Proof.
  rw /parse_streams_file. destruct (_ || _); [done|]. destruct file as [file|]; [|done].
  pose proof (stream_lines_fuel (S (length file)) receive_num handle_num 0 file
    (replicate (Z.to_nat receive_num) NO_STREAM) (replicate (Z.to_nat handle_num) NO_STREAM) ltac:(lia)) as H.
  destruct (stream_lines _ _ _ _ _ _ _) as [[[[rs hs] count]|]|]; unbind; [|done|congruence].
  by repeat case_match.
Qed.

(** *** Every stream is one of the file's *)

(** Each entry is unassigned or one of the first [n] streams. *)
Definition assigned (n : Z) (streams : list Z) : Prop :=
  Forall (fun s => s = NO_STREAM \/ 0 <= s < n) streams.

Lemma assigned_mono n n' streams : n <= n' -> assigned n streams -> assigned n' streams.
Proof. intros Hn H. eapply Forall_impl; [exact H|]. cbn. intros x [|]; [by left|right; lia]. Qed.

Lemma associate_ok fuel chunk save r assoc num idx streams streams' save' :
  0 <= idx -> assigned (idx + 1) streams ->
  associate fuel chunk save r assoc num idx streams = Done (Some (streams', save')) ->
  assigned (idx + 1) streams' /\ length streams' = length streams.
Proof.
  intros Hidx. revert chunk save r assoc streams. induction fuel as [|fuel IH]; intros chunk save r assoc streams Has;
    (destruct chunk as [c|]; cbn [associate]; [|by intros [= <- <-]]); [done|].
  destruct (str2size c) as [|v]; [done|]. intros (assoc' & _ & H)%bind_Done.
  destruct (num <=? v); [done|]. apply bind_Done in H as (stream & _ & H).
  destruct (negb _); [done|]. apply bind_Done in H as (streams1 & Hwr & H).
  rw /wr in Hwr. destruct (streams !! _) as [old|] eqn:Eo; [|done]. injection Hwr as <-.
  destruct (strtok comma None save) as [chunk' save1].
  assert (assigned (idx + 1) (<[Z.to_nat v := idx]> streams)) as Has'
    by (apply Forall_insert; [exact Has|right; lia]).
  destruct (IH _ _ _ _ _ Has' H) as [H1 H2].
  split; [done|]. by rw H2 length_insert.
Qed.

Lemma stream_line_ok rn hn idx line rs hs rs' hs' :
  0 <= idx -> assigned (idx + 1) rs -> assigned (idx + 1) hs ->
  stream_line rn hn idx line rs hs = Done (Some (rs', hs')) ->
  assigned (idx + 1) rs' /\ assigned (idx + 1) hs' /\ length rs' = length rs /\ length hs' = length hs.
Proof.
  intros Hidx Hr Hh. rw /stream_line.
  destruct (strtok colon (Some line) []) as [receivers s1]. destruct (strtok colon None s1) as [handlers s2].
  destruct (_ || _); [done|]. destruct (strtok comma receivers s2) as [c1 s3].
  intros (r1 & H1 & H)%bind_Done. destruct r1 as [[rs1 s4]|]; [|done].
  destruct (strtok comma handlers s4) as [c2 s5].
  apply bind_Done in H as (r2 & H2 & H). destruct r2 as [[hs1 s6]|]; [|done]. injection H as <- <-.
  apply associate_ok in H1 as [? ?]; [|done|done]. by apply associate_ok in H2 as [? ?].
Qed.

Lemma stream_lines_ok fuel rn hn i file rs hs rs' hs' count :
  0 <= i -> i <= Z.max 0 rn -> assigned i rs -> assigned i hs ->
  stream_lines fuel rn hn i file rs hs = Done (Some (rs', hs', count)) ->
  i <= count <= Z.max 0 rn /\ assigned count rs' /\ assigned count hs' /\
  length rs' = length rs /\ length hs' = length hs.
Proof.
  revert i file rs hs. induction fuel as [|fuel IH]; intros i file rs hs Hi Hmax Hr Hh;
    (destruct file as [|c file]; cbn [stream_lines]; [intros [= <- <- <-]; split_and!; try done; lia|]); [done|].
  destruct (Z.leb_spec rn i); [done|]. destruct (fgets 127 (c :: file)) as [line rest].
  intros (r1 & H1 & H2)%bind_Done. destruct r1 as [[rs1 hs1]|]; [|done].
  apply stream_line_ok in H1 as (Hr1 & Hh1 & Hl1 & Hl2); [|done|eapply assigned_mono; [|done]; lia..].
  apply IH in H2 as (Hc & Hr2 & Hh2 & Hl3 & Hl4); [|lia|lia|done|done].
  split; [lia|]. split; [done|]. split; [done|]. by rw Hl3 Hl4.
Qed.

Lemma existsb_all n streams :
  assigned n streams -> existsb (fun s => s =? NO_STREAM) streams = false ->
  Forall (fun s => 0 <= s < n) streams.
Proof.
  intros H He. apply Forall_forall. intros s Hs. pose proof (proj1 (Forall_forall _ _) H s Hs) as [->|]; [|done].
  exfalso. apply not_true_iff_false in He. apply He, existsb_exists. exists NO_STREAM.
  split; [by apply list_elem_of_In|]. apply Z.eqb_refl.
Qed.

Lemma parse_streams_file_ok receive_num handle_num alloc_r alloc_h file rs hs count :
  0 <= receive_num -> 0 <= handle_num ->
  parse_streams_file receive_num handle_num alloc_r alloc_h file = Done (Some (rs, hs, count)) ->
  Z.of_nat (length rs) = receive_num /\ Z.of_nat (length hs) = handle_num /\
  0 < count <= receive_num /\
  Forall (fun s => 0 <= s < count) rs /\ Forall (fun s => 0 <= s < count) hs.
Proof.
  intros Hrn Hhn. rw /parse_streams_file. destruct (negb alloc_r || negb alloc_h); [done|].
  destruct file as [file|]; [|done]. intros (r & H1 & H)%bind_Done. destruct r as [[[rs1 hs1] n]|]; [|done].
  destruct (Z.leb_spec n 0); [done|]. destruct (existsb _ hs1) eqn:Eh; [done|].
  destruct (existsb _ rs1) eqn:Er; [done|]. injection H as <- <- <-.
  apply stream_lines_ok in H1 as (Hc & Hr & Hh & Hl1 & Hl2); [|lia|lia|apply Forall_replicate; by left..].
  rewrite -> length_replicate in Hl1, Hl2. split; [lia|]. split; [lia|]. split; [lia|].
  split; by apply existsb_all.
Qed.

(** ** Affinities *)

Lemma split_at_strsep delim s token rest :
  strsep delim s = (token, rest) ->
  split_at delim s = token :: match rest with None => [] | Some r => split_at delim r end /\
  (forall r, rest = Some r -> length r < length s)%nat.
Proof.
  revert token rest. induction s as [|c s IH]; intros token rest; rw /strsep; cbn.
  { intros [= <- <-]. done. }
  destruct (bool_decide (c = delim)) eqn:E; cbn.
  - intros [= <- <-]. split; [done|]. intros r [= <-]. lia.
  - specialize (IH (strsep delim s).1 (strsep delim s).2 (surjective_pairing _)). revert IH. rw /strsep.
    destruct (span _ s) as [a b]. destruct b as [|d b]; cbn; intros [-> Hlt] [= <- <-]; (split; [done|]); [done|].
    intros r [= <-]. specialize (Hlt _ eq_refl). lia.
Qed.

(** The loop computes the numbers of the line behind the entries it has
    filled already. *)
Lemma affinities_numbers fuel l done_ num :
  (length l < fuel)%nat -> Z.of_nat (length done_) <= num ->
  affinities fuel (Some l) (Z.of_nat (length done_)) num (done_ ++ replicate (Z.to_nat num - length done_) 0) =
  Done (let ts := split_at comma l in
        if num <? Z.of_nat (length done_ + length ts) then None else
        vs ← mapM a_number ts;
        Some (Z.of_nat (length done_ + length ts),
              (done_ ++ vs) ++ replicate (Z.to_nat num - (length done_ + length ts)) 0)).
Proof.
  revert l done_. induction fuel as [|fuel IH]; intros l done_ Hf Hn; [lia|]. cbn [affinities].
  destruct (strsep comma l) as [token rest] eqn:Es.
  apply split_at_strsep in Es as [Hsp Hlt]. rw Hsp. cbn [length mapM].
  destruct (Z.leb_spec num (Z.of_nat (length done_))) as [Hle|Hle].
  { cbv zeta. destruct (Z.ltb_spec num (Z.of_nat (length done_ + S (length (match rest with None => [] | Some r => split_at comma r end))))); [done|lia]. }
  destruct (str2size token) as [e|v] eqn:Et.
  { assert (a_number token = None) as -> by by rw /a_number Et. cbn. by destruct (_ <? _). }
  assert (a_number token = Some v) as -> by by rw /a_number Et.
  assert (Z.to_nat num - length done_ = S (Z.to_nat num - length (done_ ++ [v])))%nat as Hr by (rw length_app /=; lia).
  rw Hr Nat2Z.id wr_lt; [|rw length_app /=; lia].
  cbn [replicate]. rw insert_app_r_alt // Nat.sub_diag. cbn [list_insert insert mbind comp_bind].
  rw (cons_middle v done_ _) (assoc_L app).
  assert (Z.of_nat (length done_) + 1 = Z.of_nat (length (done_ ++ [v]))) as -> by (rw length_app /=; lia).
  destruct rest as [r|].
  - rw IH; [|specialize (Hlt _ eq_refl); lia|rw length_app /=; lia].
    rw !length_app. cbn [length]. cbv zeta.
    rw -!Nat.add_assoc Nat.add_1_l. destruct (_ <? _); [done|].
    destruct (mapM a_number (split_at comma r)) as [vs|]; [|done]. cbn. by rw (cons_middle v done_ vs) (assoc_L app).
  - destruct fuel; cbn; rw !length_app; cbn [length];
    (destruct (Z.ltb_spec num (Z.of_nat (length done_ + 1))); [lia|]); done.
Qed.

Lemma affinity_line_numbers num line :
  0 <= num -> affinity_line num line (replicate (Z.to_nat num) 0) = Done (numbers num line).
Proof.
  intros Hn. rw /affinity_line /numbers.
  pose proof (affinities_numbers (S (length line)) line [] num) as H. cbn [length app] in H.
  rw Nat.sub_0_r in H. rw H; [|lia|done]. clear H. generalize (split_at comma line). intros ts.
  unbind. cbv zeta. rw Nat.add_0_l. destruct (Z.eqb_spec (Z.of_nat (length ts)) num) as [<-|Hne].
  - rw Z.ltb_irrefl. destruct (mapM a_number ts) as [vs|]; [|done]. cbn.
    by rw Z.eqb_refl Nat2Z.id Nat.sub_diag app_nil_r.
  - destruct (num <? _); [done|]. destruct (mapM a_number ts) as [vs|]; [|done]. cbn.
    by destruct (Z.eqb_spec (Z.of_nat (length ts)) num).
Qed.

(** ** Properties *)

(** the numbers [str2size] accepts.  It returns [v] exactly for the
    strings that are an optional sign and digits, up to the end or a
    newline (whatever follows the newline), with the value [v] up to
    [INT_MAX]; with a minus sign only zero. *)
Theorem str2size_accepts s v : str2size s = inr v <-> is_number s v.
Proof. apply str2size_iff. Qed.

(** C32: what an accepted command line gives.  Options and operands may come
    in any order; whenever [parse_receiver] succeeds, the advertised window
    is at most 31 and is the number given, every other number is the
    number given modulo [2^16] (there is no other check of the port, the
    number of connections, of threads and of packets per call), and the
    format is one the regular expression matches. *)
Theorem parse_receiver_config args alloc regex_ok address_ok c :
  parse_receiver args alloc regex_ok address_ok = Done (inr c) ->
  exists p ip port, getopt args default_opts [] = inr (p, [ip; port]) /\ address_ok ip port = true /\
    0 <= c.(cf_max_window) <= MAX_WINDOW_SIZE /\ str2size p.(o_w) = inr c.(cf_max_window) /\
    (exists n, str2size port = inr n /\ c.(cf_port) = u16 n) /\
    (exists n, str2size p.(o_m) = inr n /\ c.(cf_max_connections) = u16 n) /\
    (exists n, str2size p.(o_n) = inr n /\ c.(cf_handle_num) = u16 n) /\
    (exists n, str2size p.(o_N) = inr n /\ c.(cf_receive_num) = u16 n) /\
    (exists n, str2size p.(o_W) = inr n /\ c.(cf_receive_window_size) = u16 n) /\
    format_matches c.(cf_format) = true /\ c.(cf_format_len) = Z.of_nat (length c.(cf_format)).
Proof.
  rw /parse_receiver. destruct (getopt args default_opts []) as [|[p operands]]; [done|].
  destruct operands as [|ip [|port [|]]]; try done.
  intros (r & _ & H)%bind_Done. destruct r as [|[format on_heap]]; [done|].
  destruct (negb regex_ok); [done|]. destruct (format_matches format) eqn:Ef; [|done]. injection H as H.
  rw /parse_numbers /sum_bind in H.
  destruct (number_arg p.(o_m) CLI_MAX_INVALID) as [|v1] eqn:E1; [done|].
  destruct (number_arg port CLI_PORT_INVALID) as [|v2] eqn:E2; [done|].
  destruct (number_arg p.(o_n) CLI_HANDLE_INVALID) as [|v3] eqn:E3; [done|].
  destruct (number_arg p.(o_N) CLI_HANDLE_INVALID) as [|v4] eqn:E4; [done|].
  destruct (window_arg p.(o_w)) as [|v5] eqn:E5; [done|].
  destruct (number_arg p.(o_W) CLI_WINDOW_INVALID) as [|v6] eqn:E6; [done|].
  destruct (address_ok ip port) eqn:Ea; [|done]. injection H as <-.
  exists p, ip, port. cbn. apply window_arg_ok in E5 as [? ?].
  apply number_arg_ok in E1 as [_ ?], E2 as [_ ?], E3 as [_ ?], E4 as [_ ?], E6 as [_ ?].
  split_and!; try done; lia.
Qed.

(** The port 70000 is taken as 4464. *)
Lemma parse_receiver_config_witness :
  exists p ip port, getopt [lit "-w"; lit "7"; lit "::"; lit "70000"] default_opts [] = inr (p, [ip; port]) /\
    true = true /\ 0 <= 7 <= MAX_WINDOW_SIZE /\ str2size p.(o_w) = inr 7 /\
    (exists n, str2size port = inr n /\ 4464 = u16 n) /\
    (exists n, str2size p.(o_m) = inr n /\ 100 = u16 n) /\
    (exists n, str2size p.(o_n) = inr n /\ 2 = u16 n) /\
    (exists n, str2size p.(o_N) = inr n /\ 1 = u16 n) /\
    (exists n, str2size p.(o_W) = inr n /\ 31 = u16 n) /\
    format_matches (lit "%d") = true /\ 2 = Z.of_nat (length (lit "%d")).
Proof.
  apply (parse_receiver_config [lit "-w"; lit "7"; lit "::"; lit "70000"] true true (fun _ _ => true)
    (mk_config false (lit "%d") 2 false 100 4464 2 1 7 31)). reflexivity.
Defined.

(** C19: what a stream file gives, with at least one handler.
    [parse_streams_file] succeeds exactly when there is memory for the two
    arrays, the file can be opened, each of its lines (cut at 127
    characters) holds numbers only, separated by commas, receivers before a
    colon and handlers behind it (empty parts and what follows a second
    colon are ignored), there is at least one line and not more
    lines than receivers, and the lines together name every receiver and
    every handler once and only once; each then has the number of the line
    that names it as its stream.  The loops come to an end ([NoFuel] is not
    a result), but on a file that is not accepted they may write behind the
    array for the numbers of a line first, which is undefined
    (parse_streams_file_overflow). *)
Theorem parse_streams_file_assigns receive_num handle_num alloc_r alloc_h file :
  is_u16 receive_num -> 0 < handle_num ->
  parse_streams_file receive_num handle_num alloc_r alloc_h file <> Stuck NoFuel /\
  forall rs hs count,
    parse_streams_file receive_num handle_num alloc_r alloc_h file = Done (Some (rs, hs, count)) <->
    alloc_r = true /\ alloc_h = true /\ exists text ls, file = Some text /\ stream_file text = Some ls /\
      count = Z.of_nat (length ls) /\ 0 < count <= receive_num /\
      assigns ls.*1 receive_num rs /\ assigns ls.*2 handle_num hs.
Proof.
  intros Hr Hh. split; [apply parse_streams_file_returns|]. intros rs hs count. destruct file as [file|].
  - rw parse_streams_file_iff; [|rw /NO_STREAM; lia|done]. naive_solver.
  - rw /parse_streams_file. destruct (_ || _); naive_solver.
Qed.

Lemma parse_streams_file_assigns_witness :
  true = true /\ true = true /\ exists text ls, Some (lit "0:0,2" ++ [newline] ++ lit "1:1") = Some text /\
    stream_file text = Some ls /\ 2 = Z.of_nat (length ls) /\ 0 < 2 <= 2 /\
    assigns ls.*1 2 [0; 1] /\ assigns ls.*2 3 [0; 1; 0].
Proof.
  apply (parse_streams_file_assigns 2 3 true true (Some (lit "0:0,2" ++ [newline] ++ lit "1:1"))); [|lia|].
  - lia.
  - reflexivity.
Defined.

(** Named twice, or not at all: not accepted. *)
Example stream_used_twice :
  parse_streams_file 2 3 true true (Some (lit "0:0,2" ++ [newline] ++ lit "1:1,0")) = Done None.
Proof. reflexivity. Qed.

(** With one receiver, a line that names it twice makes the code write
    behind the array on the stack before it notices. *)
Theorem parse_streams_file_overflow handle_num rest :
  parse_streams_file 1 handle_num true true (Some (lit "0,0:0" ++ [newline] ++ rest)) = Stuck UB.
Proof.
  rw /parse_streams_file /=. rw /stream_line /=. by destruct (handle_num <=? 0).
Qed.

(** C31: the affinity file, against a reference that works on whole lines,
    for every outcome of the four allocations (two arrays, two lines).
    [parse_affinity_file] always returns, never writes outside the two
    arrays, and sets both exactly when all memory was there, the file
    exists, its first line is a comma-separated list of as many numbers as
    there are receivers and the second of as many as there are handlers
    (rest of the file ignored); in every other case both stay null, and it
    returns -1 unless the two arrays were there and the file is not. *)
Theorem parse_affinity_file_lines handle_num receive_num alloc_h alloc_r mem1 mem2 file :
  0 <= handle_num -> 0 <= receive_num ->
  parse_affinity_file handle_num receive_num alloc_h alloc_r mem1 mem2 file =
  Done (match alloc_h && alloc_r, file with
        | true, None => (0, None, None)
        | false, _ => (-1, None, None)
        | true, Some file =>
            match ('(l1, file) ← getline mem1 file; rx ← numbers receive_num l1;
                   '(l2, _) ← getline mem2 file; hd ← numbers handle_num l2; Some (hd, rx)) with
            | Some (hd, rx) => (0, Some hd, Some rx)
            | None => (-1, None, None)
            end
        end).
Proof.
  intros Hh Hr. rw /parse_affinity_file. destruct alloc_h; [|done]. destruct alloc_r; [|done]. cbn [negb orb andb].
  destruct file as [file|]; [|done]. destruct (getline mem1 file) as [[l1 rest]|]; [|done].
  rw affinity_line_numbers //. cbn [mbind comp_bind option_bind].
  destruct (numbers receive_num l1) as [rx|]; [|done]. cbn [mbind option_bind].
  destruct (getline mem2 rest) as [[l2 rest2]|]; [|done].
  rw affinity_line_numbers //. cbn [mbind comp_bind option_bind]. by destruct (numbers handle_num l2).
Qed.

Lemma parse_affinity_file_lines_witness :
  parse_affinity_file 3 2 true true true true (Some (lit "0,1" ++ [newline] ++ lit "2,3,4")) =
  Done (0, Some [2; 3; 4], Some [0; 1]).
Proof. rewrite -> parse_affinity_file_lines; [reflexivity|lia|lia]. Defined.
