(* ===== verification/Printf.v ===== *)
(** * Printf: the conversions of numbers to text

    [%u], [%zu] and [%d] of a number, and [sprintf] of a client's number
    into the array of 256 characters that [initialize_client] (src/client.c)
    has for the name of its output file. *)

From stdpp Require Import strings.
From S2P Require Import Prelude Global Cli.

(** ** Digits *)

Definition digit (d : Z) : Ascii.ascii := Ascii.ascii_of_N (Z.to_N (if d <? 10 then 48 + d else 87 + d)).

(** [%u], [%zu], [%d] of a number that is not negative; 20 digits are
    enough for 64 bits. *)
Fixpoint digits (fuel : nat) (n : Z) (s : str) : str :=
  match fuel with
  | O => s
  | S fuel => if n <? 10 then digit n :: s else digits fuel (n / 10) (digit (n mod 10) :: s)
  end.
Definition decimal (n : Z) : str := digits 20 n [].

Definition space : Ascii.ascii := Ascii.ascii_of_N 32.
Definition zero_digit : Ascii.ascii := Ascii.ascii_of_N 48.
Definition is_percent (c : Ascii.ascii) : bool := code c =? 37.

(** ** sprintf *)

(** [%d] with its flags and its width: a zero in front of the width fills
    with zeros, otherwise spaces do.  An unsigned number that an [int] does
    not have is no argument for [%d]. *)
Definition convert (ds : str) (id : Z) : comp str :=
  let '(zeros, width) := span (fun c => code c =? 48) ds in
  if INT_MAX <? id then Stuck UB else
  let fill := if bool_decide (zeros = []) then space else zero_digit in
  Done (replicate (Z.to_nat (number width) - length (decimal id)) fill ++ decimal id).

(** [sprintf(s, format, id)] for a format with at most one conversion [%d],
    as the command line accepts them; what another one would read is not
    there. *)
Definition sprintf (format : str) (id : Z) : comp str :=
  let '(prefix, s) := span (fun c => negb (is_percent c)) format in
  match s with
  | [] => Done prefix
  | _ :: s =>
      let '(ds, s) := span isdigit s in
      match s with
      | c :: suffix =>
          if (code c =? 100) && forallb (fun c => negb (is_percent c)) suffix then
            t ← convert ds id; Done (prefix ++ t ++ suffix)
          else Stuck UB
      | [] => Stuck UB
      end
  end.

(** The name of the file, in [char name[256]]: the text and the zero behind
    it are written whether there is room or not. *)
Definition NAME_SIZE : nat := 256.
Definition file_name (format : str) (id : Z) : comp str :=
  s ← sprintf format id;
  if (length s <? NAME_SIZE)%nat then Done s else Stuck UB.

Example file_name_pads : file_name (lit "out/%03d.bin") 7 = Done (lit "out/007.bin").
Proof. reflexivity. Qed.
Example file_name_spaces : file_name (lit "%5d-a") 12345678 = Done (lit "12345678-a").
Proof. reflexivity. Qed.

(** A format the command line accepts and no name of which fits. *)
Definition wide_format : str := lit "%300d".
Example wide_format_accepted : format_matches wide_format = true.
Proof. reflexivity. Qed.
Example file_name_overflows : file_name wide_format 7 = Stuck UB.
Proof. vm_compute. reflexivity. Qed.

(** ** Lemmas *)

Lemma digits_length fuel n s :
  0 <= n < 10 ^ Z.of_nat fuel -> (length (digits fuel n s) <= fuel + length s)%nat.
Proof.
  revert n s. induction fuel as [|fuel IH] => n s Hn; cbn [digits]; [lia|].
  destruct (Z.ltb_spec n 10); [cbn; lia|].
  rewrite -> Nat2Z.inj_succ, Z.pow_succ_r in Hn by lia.
  specialize (IH (n / 10) (digit (n mod 10) :: s)). cbn [length] in IH.
  etransitivity; [apply IH|lia]. split; [apply Z.div_pos; lia|]. apply Z.div_lt_upper_bound; lia.
Qed.

(** More fuel than digits changes nothing. *)
Lemma digits_fuel f g n s :
  0 <= n < 10 ^ Z.of_nat f -> (0 < f <= g)%nat -> digits g n s = digits f n s.
Proof.
  revert g n s. induction f as [|f IH] => -[|g] n s Hn Hg; try lia. cbn [digits].
  destruct (Z.ltb_spec n 10); [done|].
  rewrite -> Nat2Z.inj_succ, Z.pow_succ_r in Hn by lia.
  destruct f as [|f]; [cbn in Hn; lia|].
  apply IH; [|lia]. split; [apply Z.div_pos; lia|]. apply Z.div_lt_upper_bound; lia.
Qed.

(** Every name fits with the default format. *)
Lemma file_name_default id : 0 <= id <= INT_MAX -> file_name DEFAULT_OUT_FORMAT id = Done (decimal id).
Proof.
  intros Hid. rw /file_name /sprintf /convert /=. destruct (Z.ltb_spec INT_MAX id); [lia|]. unbind.
  rw app_nil_r. assert (length (decimal id) <= 10)%nat as Hl.
  { rw /decimal (digits_fuel 10 20); [|rw /INT_MAX in Hid; lia|lia].
    pose proof (digits_length 10 id []) as Hd. rw /INT_MAX in Hid. cbn [length] in Hd. lia. }
  rw (proj2 (Nat.ltb_lt _ _)) //. rw /NAME_SIZE. lia.
Qed.

Lemma file_name_UB format id r : file_name format id = Stuck r -> r = UB.
Proof.
  rw /file_name /sprintf /convert. destruct (span _ format) as [prefix [|c s]]; unbind.
  { by case_match; intros [=]. }
  destruct (span isdigit s) as [ds [|c' suffix]]; [by intros [=]|].
  destruct (span _ ds) as [zeros width].
  destruct (_ && _); [|by intros [=]]. destruct (_ <? id); unbind; [by intros [=]|].
  by case_match; intros [=].
Qed.
