(* ===== verification/Memory.v ===== *)
(** * Memory: the heap and the locks the components share

    Heap blocks of one C type are a finite map from pointers to values; a
    null pointer is [None].  What [malloc] returns is chosen by the
    environment: every operation that allocates takes the pointers (or
    [None]) the allocator hands out, and [fresh_in] states that the
    allocator never hands out a block that is in use. *)

From S2P Require Import Prelude.

Definition ptr : Type := positive.

Section heap.
Context {V : Type}.
Implicit Types (h : gmap ptr V) (p : ptr) (o : option ptr).

Definition load h p : comp V :=
  match h !! p with Some v => Done v | None => Stuck UB end.

Definition store h p (v : V) : comp (gmap ptr V) :=
  match h !! p with Some _ => Done (<[p := v]> h) | None => Stuck UB end.

(** Freeing a null pointer does nothing; freeing a block that is not
    allocated is undefined. *)
Definition free h o : comp (gmap ptr V) :=
  match o with
  | None => Done h
  | Some p => match h !! p with Some _ => Done (delete p h) | None => Stuck UB end
  end.

(** A block with the contents [v] at the pointer the allocator returned. *)
Definition malloc h o (v : V) : gmap ptr V :=
  match o with Some p => <[p := v]> h | None => h end.

Definition fresh_in h o : Prop :=
  match o with Some p => h !! p = None | None => True end.

Lemma load_Some h p v : h !! p = Some v -> load h p = Done v.
Proof. by rw /load => ->. Qed.

Lemma store_Some h p v w : h !! p = Some w -> store h p v = Done (<[p := v]> h).
Proof. by rw /store => ->. Qed.

Lemma free_Some h p v : h !! p = Some v -> free h (Some p) = Done (delete p h).
Proof. by rw /free => ->. Qed.

Lemma free_dangling h p : h !! p = None -> free h (Some p) = Stuck UB.
Proof. by rw /free => ->. Qed.
End heap.

(** ** Mutexes

    [true] is a mutex that is held.  Each function is modelled as it runs
    in one thread: locking a mutex that is held waits for ever, and
    unlocking one that is not held is undefined. *)

Definition mutex_lock (held : bool) : comp bool :=
  if held then Stuck Deadlock else Done true.

Definition mutex_unlock (held : bool) : comp bool :=
  if held then Done false else Stuck UB.
