(* ===== verification/Lookup.v ===== *)
(** * Lookup: the tables of src/lookup.c and what they mean

    [sequences[window_low][seqnum]] is the test the handler uses to decide
    whether a sequence number lies in a client's receive window.  The
    header (headers/lookup.h) promises "1 if it is in the window and 0
    otherwise"; the theorem below is that the 65536 constants of the
    table are exactly the indicator of a circular window of 31 sequence
    numbers that starts at [window_low]. *)

From S2P Require Import Prelude Global LookupTable.
From Stdlib Require Import String.

(** The table, the 32 blocks of rows in the order of the source. *)
Definition sequences : list (list Z) :=
  (sequences_rows_000_007 ++ sequences_rows_008_015 ++
   sequences_rows_016_023 ++ sequences_rows_024_031 ++
   sequences_rows_032_039 ++ sequences_rows_040_047 ++
   sequences_rows_048_055 ++ sequences_rows_056_063 ++
   sequences_rows_064_071 ++ sequences_rows_072_079 ++
   sequences_rows_080_087 ++ sequences_rows_088_095 ++
   sequences_rows_096_103 ++ sequences_rows_104_111 ++
   sequences_rows_112_119 ++ sequences_rows_120_127 ++
   sequences_rows_128_135 ++ sequences_rows_136_143 ++
   sequences_rows_144_151 ++ sequences_rows_152_159 ++
   sequences_rows_160_167 ++ sequences_rows_168_175 ++
   sequences_rows_176_183 ++ sequences_rows_184_191 ++
   sequences_rows_192_199 ++ sequences_rows_200_207 ++
   sequences_rows_208_215 ++ sequences_rows_216_223 ++
   sequences_rows_224_231 ++ sequences_rows_232_239 ++
   sequences_rows_240_247 ++ sequences_rows_248_255)%list.

(** The table of printable byte names. *)
Definition ascii : list string :=
  (ascii_000_063 ++ ascii_064_127 ++ ascii_128_191 ++ ascii_192_255)%list.

(** [sequences[low][s]]: two array accesses. *)
Definition sequences_at (low s : Z) : comp Z :=
  row ← rd sequences (Z.to_nat low);
  rd row (Z.to_nat s).

(** ** Specification: the circular window *)

(** [s] is one of the [MAX_WINDOW_SIZE] sequence numbers from [low] on,
    counting modulo 256. *)
Definition in_window (low s : Z) : bool :=
  (s - low) mod 2 ^ 8 <? MAX_WINDOW_SIZE.

(** The row the specification prescribes for [low]. *)
Definition window_row (low : Z) : list Z :=
  (fun s => if in_window low s then 1 else 0) <$> seqZ 0 256.

Lemma sequences_rows_checked : sequences = window_row <$> seqZ 0 256.
Proof. vm_compute. reflexivity. Qed.

Lemma lookup_seqZ_0 n s :
  0 <= s < n -> seqZ 0 n !! Z.to_nat s = Some s.
Proof. intros. apply lookup_seqZ. lia. Qed.

Lemma sequences_at_spec low s :
  is_u8 low -> is_u8 s ->
  sequences_at low s = Done (if in_window low s then 1 else 0).
Proof.
  intros Hlow Hs. rw /sequences_at sequences_rows_checked.
  assert (rd (window_row <$> seqZ 0 256) (Z.to_nat low) = Done (window_row low)) as ->.
  { apply rd_Done. rw list_lookup_fmap lookup_seqZ_0 //. }
  apply rd_Done. rw /window_row list_lookup_fmap lookup_seqZ_0 //.
Qed.

(** Membership in the window as an offset from its low end. *)
Lemma in_window_offset low s :
  is_u8 s ->
  in_window low s = true <-> exists k, 0 <= k < MAX_WINDOW_SIZE /\ s = (low + k) mod 2 ^ 8.
Proof.
  intros Hs. rw /in_window /MAX_WINDOW_SIZE Z.ltb_lt. split.
  - intros ?. exists ((s - low) mod 2 ^ 8). divmod.
  - intros (k & Hk & ->). divmod.
Qed.

(** for all 65536 pairs of 8-bit numbers the access
    [sequences[window_low][seqnum]] is within the table; it reads 1 exactly
    when [seqnum] is one of the 31 sequence numbers [window_low],
    [window_low + 1], ... (modulo 256), and reads 0 otherwise. *)
Theorem sequences_window low s :
  is_u8 low -> is_u8 s ->
  exists v, sequences_at low s = Done v /\ (v = 0 \/ v = 1) /\
    (v = 1 <-> exists k, 0 <= k < MAX_WINDOW_SIZE /\ s = (low + k) mod 2 ^ 8).
Proof.
  intros Hlow Hs. eexists. split; [by apply sequences_at_spec|].
  rw -(in_window_offset low s Hs). destruct (in_window low s); naive_solver.
Qed.

Lemma sequences_window_witness :
  exists v, sequences_at 250 24 = Done v /\ (v = 0 \/ v = 1) /\
    (v = 1 <-> exists k, 0 <= k < MAX_WINDOW_SIZE /\ 24 = (250 + k) mod 2 ^ 8).
Proof. apply (sequences_window 250 24); lia. Defined.

(** Both tables have an entry for every byte value. *)
Lemma ascii_total b : is_u8 b -> exists name, ascii !! Z.to_nat b = Some name.
Proof.
  intros. apply lookup_lt_is_Some_2.
  assert (List.length ascii = 256)%nat as -> by (vm_compute; reflexivity). lia.
Qed.
