(* ===== verification/Crc32.v ===== *)
(** * Crc32: lib/Crc32.cpp, the checksum of packet headers and payloads

    The packet code calls [crc32_8bytes] (slicing by 8) on headers and
    [crc32_16bytes] (slicing by 16, four times unrolled) on payloads.
    Both read the sixteen-slice table [Crc32Lookup].  They are proved
    equal to [crc32_bitwise], the bit-by-bit definition of the checksum,
    for every message; the table itself is proved to satisfy the
    recurrence its comment gives.

    A pair [(const void *data, size_t length)] is the list of its
    [length] bytes. *)

From S2P Require Import Prelude Crc32Table.
From Equations Require Import Equations.
From Stdlib Require Import Btauto.

(** ** The reference: crc32_bitwise *)

Definition Polynomial : Z := 0xEDB88320.

(** The complement of a [uint32_t]. *)
Definition not32 (x : Z) : Z := u32 (Z.lnot x).

(** One round of the inner loop:
    [crc = (crc >> 1) ^ (-int32_t(crc & 1) & Polynomial)]. *)
Definition crc_bit (crc : Z) : Z :=
  Z.lxor (Z.shiftr crc 1) (Z.land (u32 (- Z.land crc 1)) Polynomial).

Definition bitwise_byte (crc current : Z) : Z :=
  Nat.iter 8 crc_bit (Z.lxor crc current).

Definition crc32_bitwise (data : list Z) (previousCrc32 : Z) : Z :=
  not32 (fold_left bitwise_byte data (not32 previousCrc32)).

(** ** The table-driven algorithms *)

Definition Crc32Lookup : list (list Z) :=
  [Crc32Lookup_0; Crc32Lookup_1; Crc32Lookup_2; Crc32Lookup_3;
   Crc32Lookup_4; Crc32Lookup_5; Crc32Lookup_6; Crc32Lookup_7;
   Crc32Lookup_8; Crc32Lookup_9; Crc32Lookup_10; Crc32Lookup_11;
   Crc32Lookup_12; Crc32Lookup_13; Crc32Lookup_14; Crc32Lookup_15].

(** [Crc32Lookup[k][i]], for an index that is in range. *)
Definition lut (k : nat) (i : Z) : Z :=
  nth (Z.to_nat i) (nth k Crc32Lookup []) 0.

(** The byte loop shared by the algorithms:
    [crc = (crc >> 8) ^ Crc32Lookup[0][(crc & 0xFF) ^ *currentChar++]]. *)
Definition table_byte (crc current : Z) : Z :=
  Z.lxor (Z.shiftr crc 8) (lut 0 (Z.lxor (Z.land crc 0xFF) current)).

Definition crc32_1byte (data : list Z) (previousCrc32 : Z) : Z :=
  not32 (fold_left table_byte data (not32 previousCrc32)).

(** A little-endian [uint32_t] load. *)
Definition load32 (b0 b1 b2 b3 : Z) : Z :=
  Z.lor b0 (Z.lor (Z.shiftl b1 8) (Z.lor (Z.shiftl b2 16) (Z.shiftl b3 24))).

(** The byte of [w] at bit [n]: [(w >> n) & 0xFF]. *)
Definition byte_at (w n : Z) : Z := Z.land (Z.shiftr w n) 0xFF.

(** Eight bytes at once. *)
Definition slice8 (crc b0 b1 b2 b3 b4 b5 b6 b7 : Z) : Z :=
  let one := Z.lxor (load32 b0 b1 b2 b3) crc in
  let two := load32 b4 b5 b6 b7 in
  Z.lxor (lut 0 (byte_at two 24))
    (Z.lxor (lut 1 (byte_at two 16))
    (Z.lxor (lut 2 (byte_at two 8))
    (Z.lxor (lut 3 (byte_at two 0))
    (Z.lxor (lut 4 (byte_at one 24))
    (Z.lxor (lut 5 (byte_at one 16))
    (Z.lxor (lut 6 (byte_at one 8))
            (lut 7 (byte_at one 0)))))))).

(** The loop [while (length >= 8)] followed by the byte loop. *)
Fixpoint crc32_8bytes_loop (data : list Z) (crc : Z) : Z :=
  match data with
  | b0 :: b1 :: b2 :: b3 :: b4 :: b5 :: b6 :: b7 :: rest =>
      crc32_8bytes_loop rest (slice8 crc b0 b1 b2 b3 b4 b5 b6 b7)
  | remaining => fold_left table_byte remaining crc
  end.

Definition crc32_8bytes (data : list Z) (previousCrc32 : Z) : Z :=
  not32 (crc32_8bytes_loop data (not32 previousCrc32)).

(** Sixteen bytes at once (one round of the unrolled loop): the four
    words are read from the list at [current]. *)
Definition load_word (data : list Z) (i : nat) : Z :=
  load32 (nth (4 * i) data 0) (nth (4 * i + 1) data 0)
         (nth (4 * i + 2) data 0) (nth (4 * i + 3) data 0).

Definition slice16 (crc : Z) (current : list Z) : Z :=
  let one := Z.lxor (load_word current 0) crc in
  let two := load_word current 1 in
  let three := load_word current 2 in
  let four := load_word current 3 in
  Z.lxor (lut 0 (byte_at four 24))
    (Z.lxor (lut 1 (byte_at four 16))
    (Z.lxor (lut 2 (byte_at four 8))
    (Z.lxor (lut 3 (byte_at four 0))
    (Z.lxor (lut 4 (byte_at three 24))
    (Z.lxor (lut 5 (byte_at three 16))
    (Z.lxor (lut 6 (byte_at three 8))
    (Z.lxor (lut 7 (byte_at three 0))
    (Z.lxor (lut 8 (byte_at two 24))
    (Z.lxor (lut 9 (byte_at two 16))
    (Z.lxor (lut 10 (byte_at two 8))
    (Z.lxor (lut 11 (byte_at two 0))
    (Z.lxor (lut 12 (byte_at one 24))
    (Z.lxor (lut 13 (byte_at one 16))
    (Z.lxor (lut 14 (byte_at one 8))
            (lut 15 (byte_at one 0)))))))))))))))).

Definition Unroll : nat := 4.
Definition BytesAtOnce : nat := 16 * Unroll.

(** The inner [for] loop: [n] rounds of [slice16]. *)
Fixpoint unrolled (n : nat) (crc : Z) (current : list Z) : Z :=
  match n with
  | O => crc
  | S n => unrolled n (slice16 crc current) (drop 16 current)
  end.

(** The loop [while (length >= blk)] with the body [round] on blocks of
    [blk] bytes, followed by the byte loop with the body [step]. *)
Equations? block_loop (blk : nat) (Hblk : (0 < blk)%nat)
    (round : Z -> list Z -> Z) (step : Z -> Z -> Z)
    (data : list Z) (crc : Z) : Z by wf (length data) lt :=
  block_loop blk Hblk round step data crc with le_lt_dec blk (length data) => {
    | left Hge := block_loop blk Hblk round step (drop blk data) (round crc data);
    | right _ := fold_left step data crc }.
Proof. rw length_skipn. lia. Qed.

Lemma BytesAtOnce_pos : (0 < BytesAtOnce)%nat.
Proof. vm_compute. lia. Qed.

Definition crc32_16bytes_loop : list Z -> Z -> Z :=
  block_loop BytesAtOnce BytesAtOnce_pos (unrolled Unroll) table_byte.

Definition crc32_16bytes (data : list Z) (previousCrc32 : Z) : Z :=
  not32 (crc32_16bytes_loop data (not32 previousCrc32)).

(** ** The interface of a checksum routine

    What a caller may rely on, whichever routine it calls; the section
    [checksum] below derives the properties of a checksum from it, and
    every routine of the library is an instance. *)
Class Checksum (f : list Z -> Z -> Z) : Prop :=
  checksum_spec data prev :
    Forall (fun b => is_u8 b) data -> f data prev = crc32_bitwise data prev.

(** ** Exclusive or and the bit step are linear *)

Ltac xor_bits := apply Z.bits_inj' => ? ?; rw ?Z.lxor_spec ?Z.bits_0; btauto.

Lemma lxor_cancel a b : Z.lxor a (Z.lxor a b) = b.
Proof. by rw -Z.lxor_assoc Z.lxor_nilpotent. Qed.

Lemma lxor_below a b n :
  0 <= n -> 0 <= a < 2 ^ n -> 0 <= b < 2 ^ n -> 0 <= Z.lxor a b < 2 ^ n.
Proof.
  intros Hn Ha Hb. rw -(Z.mod_small a (2 ^ n)) // -(Z.mod_small b (2 ^ n)) //.
  enough (Z.lxor (a mod 2 ^ n) (b mod 2 ^ n) = Z.lxor a b mod 2 ^ n) as ->
    by (apply Z.mod_pos_bound; lia).
  apply Z.bits_inj' => i Hi. rw Z.lxor_spec. destruct (decide (i < n)).
  - rw !Z.mod_pow2_bits_low ?Z.lxor_spec //; lia.
  - rw !Z.mod_pow2_bits_high //; lia.
Qed.

Lemma crc_bit_alt c :
  crc_bit c = Z.lxor (Z.shiftr c 1) (if Z.odd c then Polynomial else 0).
Proof.
  rw /crc_bit. f_equal. change 1 with (Z.ones 1). rw Z.land_ones // /u32 Zmod_odd.
  by destruct (Z.odd c).
Qed.

Lemma odd_lxor a b : Z.odd (Z.lxor a b) = xorb (Z.odd a) (Z.odd b).
Proof. by rw -!Z.bit0_odd Z.lxor_spec. Qed.

Lemma crc_bit_lxor a b : crc_bit (Z.lxor a b) = Z.lxor (crc_bit a) (crc_bit b).
Proof.
  rw !crc_bit_alt Z.shiftr_lxor odd_lxor.
  destruct (Z.odd a), (Z.odd b); simpl; xor_bits.
Qed.

Lemma crc_bit_range c : is_u32 c -> is_u32 (crc_bit c).
Proof.
  intros. rw crc_bit_alt. apply lxor_below; [lia| |by destruct (Z.odd c)].
  rw Z.shiftr_div_pow2 //. divmod.
Qed.

(** [n] bit steps. *)
Abbreviation crc_bits n := (Nat.iter n crc_bit).

Lemma crc_bits_lxor n a b : crc_bits n (Z.lxor a b) = Z.lxor (crc_bits n a) (crc_bits n b).
Proof. induction n as [|n IH]; simpl; [done|]. by rw IH crc_bit_lxor. Qed.

Lemma crc_bits_0 n : crc_bits n 0 = 0.
Proof. induction n as [|n IH]; simpl; [done|]. by rw IH. Qed.

Lemma crc_bits_shiftl n a : crc_bits n (Z.shiftl a (Z.of_nat n)) = a.
Proof.
  induction n as [|n IH] in a |- *; [apply Z.shiftl_0_r|].
  rw Nat.iter_succ_r -{2}(IH a). f_equal. rw crc_bit_alt.
  rw Nat2Z.inj_succ -Z.add_1_r -Z.shiftl_shiftl; [|lia].
  rw Z.shiftr_shiftl_l // Z.shiftl_0_r.
  rw -Z.bit0_odd Z.shiftl_spec // Z.testbit_neg_r // Z.lxor_0_r //.
Qed.

Lemma crc_bits_byte a : crc_bits 8 (Z.shiftl a 8) = a.
Proof. exact (crc_bits_shiftl 8 a). Qed.

Lemma crc_bits_add m n a : crc_bits (m + n) a = crc_bits m (crc_bits n a).
Proof. apply Nat.iter_add. Qed.

Lemma crc_bits_range n c : is_u32 c -> is_u32 (crc_bits n c).
Proof. intros. induction n; simpl; [done|]. by apply crc_bit_range. Qed.

(** ** The byte loop: slice 0 of the table is eight bit steps *)

Lemma forallb_u8 (f : Z -> bool) :
  forallb f (seqZ 0 256) = true -> forall i, is_u8 i -> f i = true.
Proof.
  intros H i Hi. rewrite -> forallb_forall in H.
  apply H, list_elem_of_In, elem_of_seqZ. lia.
Qed.

Lemma lut_0 i : is_u8 i -> lut 0 i = crc_bits 8 i.
Proof.
  intros Hi. apply Z.eqb_eq. revert i Hi. apply forallb_u8. vm_compute. reflexivity.
Qed.

Lemma table_byte_spec crc b : is_u8 b -> table_byte crc b = bitwise_byte crc b.
Proof.
  intros Hb. rw /table_byte /bitwise_byte lut_0.
  2:{ apply lxor_below; [done| |done]. rw land_0xFF. apply u8_mod_range. }
  rw -{1}(crc_bits_shiftl 8 (Z.shiftr crc 8)) -crc_bits_lxor. f_equal.
  apply Z.bits_inj' => i Hi. rw !Z.lxor_spec land_0xFF Z.shiftl_spec //.
  destruct (decide (i < 8)).
  - rw (Z.testbit_neg_r _ (i - _)) ?Z.mod_pow2_bits_low //; lia.
  - rw Z.shiftr_spec; [|lia]. rw Z.sub_add (Z.mod_pow2_bits_high crc); [|lia].
    by rw xorb_false_l.
Qed.

(** The recurrence the comment above the table gives (lines 554-555),
    checked on the sixteen slices; [table_byte _ 0] is its right-hand side. *)
Lemma lut_recurrence_checked :
  forallb (fun k => forallb (fun i => lut (S k) i =? table_byte (lut k i) 0) (seqZ 0 256))
    (seq 0 15) = true.
Proof. vm_compute. reflexivity. Qed.

(** Slice [k] is [8 * (k + 1)] bit steps. *)
Lemma lut_spec k i :
  (k < 16)%nat -> is_u8 i -> lut k i = crc_bits (8 * (k + 1)) i.
Proof.
  intros Hk Hi. induction k as [|k IH]; [by apply lut_0|].
  pose proof lut_recurrence_checked as H. rewrite -> forallb_forall in H.
  specialize (H k ltac:(apply in_seq; lia)). pose proof (forallb_u8 _ H i Hi) as E.
  apply Z.eqb_eq in E. rw E table_byte_spec // /bitwise_byte Z.lxor_0_r IH; [|lia].
  rw -crc_bits_add. f_equal. lia.
Qed.

Lemma bitwise_byte_range crc b : is_u32 crc -> is_u8 b -> is_u32 (bitwise_byte crc b).
Proof. intros. apply crc_bits_range, lxor_below; lia. Qed.

Lemma fold_table_byte data crc :
  Forall (fun b => is_u8 b) data ->
  fold_left table_byte data crc = fold_left bitwise_byte data crc.
Proof. apply fold_left_eq. intros. by apply table_byte_spec. Qed.

Lemma fold_bitwise_range data crc :
  Forall (fun b => is_u8 b) data -> is_u32 crc -> is_u32 (fold_left bitwise_byte data crc).
Proof. apply (fold_left_inv _ (fun c => is_u32 c)). intros. by apply bitwise_byte_range. Qed.

(** ** A run of bytes as one number *)

(** The bytes of a list, least significant first, as one number. *)
Fixpoint le_bytes (bs : list Z) : Z :=
  match bs with
  | [] => 0
  | b :: bs => Z.lxor b (Z.shiftl (le_bytes bs) 8)
  end.

Abbreviation fold_bits bs := (fold_left bitwise_byte bs).

(** Folding the bytes one by one is folding the number at once. *)
Lemma fold_bitwise_le bs crc :
  fold_bits bs crc = crc_bits (8 * length bs) (Z.lxor crc (le_bytes bs)).
Proof.
  induction bs as [|b bs IH] in crc |- *.
  - by rw /= Z.lxor_0_r.
  - rw fold_left_cons IH. cbn [length le_bytes].
    replace (8 * S (length bs))%nat with (8 * length bs + 8)%nat by lia.
    rw crc_bits_add. f_equal. by rw -Z.lxor_assoc (crc_bits_lxor 8 (Z.lxor crc b)) crc_bits_byte.
Qed.

Lemma le_bytes_app bs1 bs2 :
  le_bytes (bs1 ++ bs2) =
  Z.lxor (le_bytes bs1) (Z.shiftl (le_bytes bs2) (8 * Z.of_nat (length bs1))).
Proof.
  induction bs1 as [|b bs1 IH]; cbn [app le_bytes length].
  - by rw Z.lxor_0_l Z.shiftl_0_r.
  - rw IH Z.shiftl_lxor Z.shiftl_shiftl; [|lia]. rw -Z.lxor_assoc. do 2 f_equal. lia.
Qed.

(** An or of disjoint numbers is an exclusive or. *)
Lemma lor_shiftl_lxor a b n :
  0 <= n -> 0 <= a < 2 ^ n -> Z.lor a (Z.shiftl b n) = Z.lxor a (Z.shiftl b n).
Proof.
  intros Hn Ha. apply Z.bits_inj' => i Hi. rw Z.lor_spec Z.lxor_spec Z.shiftl_spec //.
  destruct (decide (i < n)).
  - rw (Z.testbit_neg_r b); [|lia]. by destruct (Z.testbit a i).
  - rw (testbit_above a n); [by destruct (Z.testbit b _)|lia..].
Qed.

Lemma load32_le b0 b1 b2 b3 :
  is_u8 b0 -> is_u8 b1 -> is_u8 b2 -> is_u8 b3 ->
  load32 b0 b1 b2 b3 = le_bytes [b0; b1; b2; b3].
Proof.
  intros. rw /load32 /= Z.shiftl_0_l Z.lxor_0_r.
  rw -(Z.shiftl_shiftl b3 16 8) // -(Z.shiftl_shiftl b2 8 8) // -Z.shiftl_lor.
  rw -(Z.shiftl_shiftl b3 8 8) // -!Z.shiftl_lor. by rw !lor_shiftl_lxor.
Qed.

(** ** Slicing: one word costs four table reads *)

Lemma byte_at_range w n : is_u8 (byte_at w n).
Proof. rw /byte_at land_0xFF. apply u8_mod_range. Qed.

Lemma byte_at_le w :
  is_u32 w -> w = le_bytes [byte_at w 0; byte_at w 8; byte_at w 16; byte_at w 24].
Proof.
  intros Hw. rw -load32_le; try apply byte_at_range.
  rw /load32 /byte_at !land_0xFF. apply Z.bits_inj' => i Hi.
  assert (forall k, 0 <= k -> Z.testbit (Z.shiftl (Z.shiftr w k mod 2 ^ 8) k) i =
    bool_decide (k <= i < k + 8) && Z.testbit w i) as Hbyte.
  { intros k Hk. rw Z.shiftl_spec //. case_bool_decide as Hcase.
    - rw Z.mod_pow2_bits_low; [|lia]. rw Z.shiftr_spec; [|lia]. by rw Z.sub_add.
    - destruct (decide (i < k)); [by rw Z.testbit_neg_r //; lia|].
      rw Z.mod_pow2_bits_high //; lia. }
  pose proof (Hbyte 0 ltac:(lia)) as H0. rewrite -> Z.shiftl_0_r in H0.
  rw !Z.lor_spec H0 !Hbyte //.
  destruct (decide (32 <= i)) as [Hge|Hlt]; [rw (testbit_above w 32) ?andb_false_r //|].
  destruct (Z.testbit w i); rw ?andb_false_r // !andb_true_r.
  repeat case_bool_decide; simpl; done || lia.
Qed.

Lemma crc_bits_le n b bs :
  crc_bits (8 * (n + S (length bs))) (le_bytes (b :: bs)) =
  Z.lxor (crc_bits (8 * (n + S (length bs))) b) (crc_bits (8 * (n + length bs)) (le_bytes bs)).
Proof.
  cbn [le_bytes]. rw crc_bits_lxor. f_equal.
  replace (8 * (n + S (length bs)))%nat with (8 * (n + length bs) + 8)%nat by lia.
  by rw crc_bits_add crc_bits_byte.
Qed.

Lemma word_slices n w :
  (n + 3 < 16)%nat -> is_u32 w ->
  crc_bits (8 * (n + 4)) w =
  Z.lxor (lut n (byte_at w 24)) (Z.lxor (lut (n + 1) (byte_at w 16))
    (Z.lxor (lut (n + 2) (byte_at w 8)) (lut (n + 3) (byte_at w 0)))).
Proof.
  intros Hn Hw. rw {1}(byte_at_le w Hw).
  rw (crc_bits_le n _ [_; _; _]) (crc_bits_le n _ [_; _]) (crc_bits_le n _ [_])
     (crc_bits_le n _ []) !lut_spec; try apply byte_at_range; try lia.
  cbn [length le_bytes]. rw crc_bits_0.
  replace (n + 1 + 1)%nat with (n + 2)%nat by lia.
  replace (n + 2 + 1)%nat with (n + 3)%nat by lia.
  replace (n + 3 + 1)%nat with (n + 4)%nat by lia.
  xor_bits.
Qed.

(** ** The bit step loses nothing on 32-bit states *)

Lemma crc_bit_zero x : is_u32 x -> crc_bit x = 0 -> x = 0.
Proof.
  intros Hx. rw crc_bit_alt Z.lxor_eq_0_iff Z.shiftr_div_pow2 //.
  pose proof (Zmod_odd x) as Hodd. destruct (Z.odd x); rw /Polynomial; divmod.
Qed.

Lemma crc_bits_zero n x : is_u32 x -> crc_bits n x = 0 -> x = 0.
Proof.
  intros Hx. induction n as [|n IH]; [done|]. rw Nat.iter_succ.
  intros H%crc_bit_zero; [auto|]. by apply crc_bits_range.
Qed.

Lemma crc_bits_inj n x y : is_u32 x -> is_u32 y -> crc_bits n x = crc_bits n y -> x = y.
Proof.
  intros Hx Hy Heq. apply Z.lxor_eq_0_iff, (crc_bits_zero n); [by apply lxor_below|].
  by rw crc_bits_lxor Heq Z.lxor_nilpotent.
Qed.

Lemma bitwise_byte_eq c b : bitwise_byte c b = crc_bits 8 (Z.lxor c b).
Proof. reflexivity. Qed.

Lemma bitwise_byte_inj b x y :
  is_u8 b -> is_u32 x -> is_u32 y -> bitwise_byte x b = bitwise_byte y b -> x = y.
Proof.
  intros Hb Hx Hy. rw !bitwise_byte_eq.
  intros Heq%crc_bits_inj; [|apply lxor_below; lia..].
  by apply (f_equal (fun z => Z.lxor z b)) in Heq;
    rewrite -> !Z.lxor_assoc, Z.lxor_nilpotent, !Z.lxor_0_r in Heq.
Qed.

#[local] Opaque lut crc_bit bitwise_byte byte_at load32.

Lemma fold_bitwise_inj bs x y :
  Forall (fun b => is_u8 b) bs -> is_u32 x -> is_u32 y ->
  fold_bits bs x = fold_bits bs y -> x = y.
Proof.
  intros H. apply (fold_left_inj _ (fun c => is_u32 c) (fun b => is_u8 b)); [| |done].
  - intros. by apply bitwise_byte_range.
  - intros ? ? b ????. by apply (bitwise_byte_inj b).
Qed.

(** [n] bytes of zeros below a number are passed over in [n] byte steps. *)
Lemma crc_bits_skip m n a :
  crc_bits (8 * (m + n)) (Z.shiftl a (8 * Z.of_nat n)) = crc_bits (8 * m) a.
Proof.
  replace (8 * (m + n))%nat with (8 * m + 8 * n)%nat by lia.
  rw crc_bits_add. f_equal. rw -{2}(crc_bits_shiftl (8 * n) a). do 2 f_equal. lia.
Qed.

Lemma le_bytes_range bs :
  Forall (fun b => is_u8 b) bs -> 0 <= le_bytes bs < 2 ^ (8 * Z.of_nat (length bs)).
Proof.
  induction 1 as [|b bs Hb _ IH]; [done|]. cbn [le_bytes length].
  rw Nat2Z.inj_succ Z.mul_succ_r. apply lxor_below; [lia| |].
  - split; [lia|]. eapply Z.lt_le_trans; [apply Hb|]. apply Z.pow_le_mono_r; lia.
  - rw Z.shiftl_mul_pow2 // Z.pow_add_r; lia.
Qed.

Lemma le_bytes_cons_add b bs :
  is_u8 b -> le_bytes (b :: bs) = b + 2 ^ 8 * le_bytes bs.
Proof.
  intros. cbn [le_bytes]. rw -lor_shiftl_lxor // Z.lor_comm lor_shiftl_add //. lia.
Qed.

Lemma le_bytes_inj bs1 bs2 :
  Forall (fun b => is_u8 b) bs1 -> Forall (fun b => is_u8 b) bs2 ->
  length bs1 = length bs2 -> le_bytes bs1 = le_bytes bs2 -> bs1 = bs2.
Proof.
  intros H. induction H as [|b bs1 Hb _ IH] in bs2 |- *; destruct bs2 as [|b2 bs2]; try done.
  intros [Hb2 H2]%Forall_cons [= Hlen]. rw !le_bytes_cons_add // => Heq.
  assert (b = b2) as -> by lia. f_equal. apply IH; [done..|lia].
Qed.

(** The slices of a run of words [w0, w1, ...]: the first word, combined
    with the state, is the oldest and costs the highest slices. *)
Lemma fold_bits_cons4 b0 b1 b2 b3 bs crc :
  is_u8 b0 -> is_u8 b1 -> is_u8 b2 -> is_u8 b3 ->
  fold_bits (b0 :: b1 :: b2 :: b3 :: bs) crc =
  Z.lxor (crc_bits (8 * (length bs + 4)) (Z.lxor (load32 b0 b1 b2 b3) crc))
         (fold_bits bs 0).
Proof.
  intros. rw !fold_bitwise_le Z.lxor_0_l load32_le //.
  change (b0 :: b1 :: b2 :: b3 :: bs) with ([b0; b1; b2; b3] ++ bs).
  rw le_bytes_app length_app -Z.lxor_assoc (Z.lxor_comm crc) crc_bits_lxor.
  rw (Nat.add_comm (length [_; _; _; _])) (crc_bits_skip (length bs) 4) //.
Qed.

Lemma load32_range b0 b1 b2 b3 :
  is_u8 b0 -> is_u8 b1 -> is_u8 b2 -> is_u8 b3 -> is_u32 (load32 b0 b1 b2 b3).
Proof.
  intros. rw load32_le //. apply (le_bytes_range [b0; b1; b2; b3]).
  by rewrite -> !Forall_cons, Forall_nil.
Qed.

Ltac split_bytes := rewrite -> ?Forall_cons in *; destruct_and?.
Ltac word_range := repeat first [apply lxor_below | apply load32_range]; lia.

Lemma slice8_spec crc b0 b1 b2 b3 b4 b5 b6 b7 :
  Forall (fun b => is_u8 b) [b0; b1; b2; b3; b4; b5; b6; b7] -> is_u32 crc ->
  slice8 crc b0 b1 b2 b3 b4 b5 b6 b7 = fold_bits [b0; b1; b2; b3; b4; b5; b6; b7] crc.
Proof.
  intros Hbs Hcrc. split_bytes.
  rw !fold_bits_cons4 // Z.lxor_0_r. cbn [length fold_left].
  rewrite -> (word_slices 4), (word_slices 0) by first [lia | word_range].
  rw /slice8. cbn [Nat.add]. xor_bits.
Qed.

Lemma slice16_spec crc b0 b1 b2 b3 b4 b5 b6 b7 b8 b9 b10 b11 b12 b13 b14 b15 rest
    (bs := [b0; b1; b2; b3; b4; b5; b6; b7; b8; b9; b10; b11; b12; b13; b14; b15]) :
  Forall (fun b => is_u8 b) bs -> is_u32 crc ->
  slice16 crc (bs ++ rest) = fold_bits bs crc.
Proof.
  subst bs. intros Hbs Hcrc. split_bytes.
  rw !fold_bits_cons4 // !Z.lxor_0_r. cbn [length fold_left].
  rewrite -> (word_slices 12), (word_slices 8), (word_slices 4), (word_slices 0)
    by first [lia | word_range].
  rw /slice16 /load_word. cbn [Nat.add Nat.mul nth app]. xor_bits.
Qed.

(** ** The loops *)

Lemma fold_bits_app bs1 bs2 crc : fold_bits (bs1 ++ bs2) crc = fold_bits bs2 (fold_bits bs1 crc).
Proof. apply fold_left_app. Qed.

Lemma crc32_8bytes_loop_spec data crc :
  Forall (fun b => is_u8 b) data -> is_u32 crc ->
  crc32_8bytes_loop data crc = fold_bits data crc.
Proof.
  revert crc. induction data as [data IH] using (induction_ltof1 _ (@length Z)).
  unfold ltof in IH. intros crc Hd Hc.
  do 8 (destruct data as [|? data]; [by apply fold_table_byte|]).
  cbn [crc32_8bytes_loop].
  change (?a :: ?b :: ?c :: ?d :: ?e :: ?f :: ?g :: ?h :: data)
    with ([a; b; c; d; e; f; g; h] ++ data) in Hd |- *.
  apply Forall_app in Hd as [H8 Hd].
  rw fold_bits_app slice8_spec // IH //; [cbn [length]; lia|by apply fold_bitwise_range].
Qed.

Lemma slice16_take crc data :
  (16 <= length data)%nat -> Forall (fun b => is_u8 b) data -> is_u32 crc ->
  slice16 crc data = fold_bits (take 16 data) crc.
Proof.
  intros Hlen Hd Hc.
  assert (exists rest, data = take 16 data ++ rest) as [rest Hrest]
    by (exists (drop 16 data); by rw take_drop).
  do 16 (destruct data as [|? data]; [cbn [length] in Hlen; lia|]). cbn [take] in *.
  rw {1}Hrest. apply slice16_spec; [|done].
  rewrite -> Hrest in Hd. by apply Forall_app in Hd as [? _].
Qed.

Lemma unrolled_spec n data crc :
  (16 * n <= length data)%nat -> Forall (fun b => is_u8 b) data -> is_u32 crc ->
  unrolled n crc data = fold_bits (take (16 * n) data) crc.
Proof.
  induction n as [|n IH] in data, crc |- * => Hlen Hd Hc; [done|].
  cbn [unrolled]. replace (16 * S n)%nat with (16 + 16 * n)%nat by lia.
  rw -take_take_drop fold_bits_app slice16_take //; [|lia].
  apply IH; [rw length_drop; lia|by apply Forall_drop|].
  apply fold_bitwise_range; [by apply Forall_take|done].
Qed.

(** The loop over blocks, for every block size: its body must fold the
    block it takes, and the loop behind it the bytes that remain. *)
Lemma block_loop_spec blk Hblk round step data crc :
  (forall d c, (blk <= length d)%nat -> Forall (fun b => is_u8 b) d -> is_u32 c ->
     round c d = fold_bits (take blk d) c) ->
  (forall c b, is_u8 b -> step c b = bitwise_byte c b) ->
  Forall (fun b => is_u8 b) data -> is_u32 crc ->
  block_loop blk Hblk round step data crc = fold_bits data crc.
Proof.
  intros Hround Hstep. revert crc.
  induction data as [data IH] using (induction_ltof1 _ (@length Z)).
  unfold ltof in IH. intros crc Hd Hc. rw block_loop_equation_1 /block_loop_unfold_clause_1.
  destruct (le_lt_dec blk (length data)) as [Hge|Hlt];
    [|by apply (fold_left_eq _ _ (fun b => is_u8 b))].
  rw Hround // -{3}(take_drop blk data) fold_bits_app.
  apply IH; [rw length_drop; lia|by apply Forall_drop|].
  apply fold_bitwise_range; [by apply Forall_take|done].
Qed.

Lemma crc32_16bytes_loop_spec data crc :
  Forall (fun b => is_u8 b) data -> is_u32 crc ->
  crc32_16bytes_loop data crc = fold_bits data crc.
Proof.
  apply block_loop_spec; [|apply table_byte_spec].
  intros. by apply (unrolled_spec Unroll).
Qed.

(** ** The checksums of the packet code *)

Lemma not32_range x : is_u32 (not32 x).
Proof. by apply Z.mod_pos_bound. Qed.

Lemma not32_inj x y : is_u32 x -> is_u32 y -> not32 x = not32 y -> x = y.
Proof. rw /not32 /u32 /Z.lnot. intros. divmod. Qed.

Lemma crc32_8bytes_bitwise data prev :
  Forall (fun b => is_u8 b) data -> crc32_8bytes data prev = crc32_bitwise data prev.
Proof.
  intros. rw /crc32_8bytes crc32_8bytes_loop_spec //. apply not32_range.
Qed.

Lemma crc32_16bytes_bitwise data prev :
  Forall (fun b => is_u8 b) data -> crc32_16bytes data prev = crc32_bitwise data prev.
Proof.
  intros. rw /crc32_16bytes crc32_16bytes_loop_spec //. apply not32_range.
Qed.

Lemma crc32_bitwise_range data prev : is_u32 (crc32_bitwise data prev).
Proof. apply not32_range. Qed.

(** C12: the two checksum routines the packet code calls, slicing by 8 for
    headers and slicing by 16 for payloads, and the plain table-driven
    one, all compute the bit-by-bit CRC-32, for every message and every
    previous checksum. *)
Theorem crc32_equivalence data prev :
  Forall (fun b => is_u8 b) data ->
  crc32_8bytes data prev = crc32_bitwise data prev /\
  crc32_16bytes data prev = crc32_bitwise data prev /\
  crc32_1byte data prev = crc32_bitwise data prev.
Proof.
  intros H. split_and!; [by apply crc32_8bytes_bitwise|by apply crc32_16bytes_bitwise|].
  rw /crc32_1byte fold_table_byte //.
Qed.

Lemma crc32_equivalence_witness :
  crc32_8bytes (seqZ 0 100) 0 = crc32_bitwise (seqZ 0 100) 0 /\
  crc32_16bytes (seqZ 0 100) 0 = crc32_bitwise (seqZ 0 100) 0 /\
  crc32_1byte (seqZ 0 100) 0 = crc32_bitwise (seqZ 0 100) 0.
Proof. apply (crc32_equivalence (seqZ 0 100) 0). apply Forall_seqZ. lia. Defined.

#[export] Instance crc32_bitwise_checksum : Checksum crc32_bitwise.
Proof. done. Qed.
#[export] Instance crc32_1byte_checksum : Checksum crc32_1byte.
Proof. intros data prev H. rw /crc32_1byte fold_table_byte //. Qed.
#[export] Instance crc32_8bytes_checksum : Checksum crc32_8bytes.
Proof. exact crc32_8bytes_bitwise. Qed.
#[export] Instance crc32_16bytes_checksum : Checksum crc32_16bytes.
Proof. exact crc32_16bytes_bitwise. Qed.

(** ** What every routine has *)

Lemma not32_not32 x : is_u32 x -> not32 (not32 x) = x.
Proof. rw /not32 /u32 /Z.lnot. intros. divmod. Qed.

Section checksum.
Context (f : list Z -> Z -> Z) `{!Checksum f}.

Lemma checksum_range data prev : Forall (fun b => is_u8 b) data -> is_u32 (f data prev).
Proof using Type*. intros. rw checksum_spec //. apply not32_range. Qed.

(** The checksum of a message from the checksum of its beginning. *)
Lemma checksum_app g `{!Checksum g} data1 data2 prev :
  Forall (fun b => is_u8 b) (data1 ++ data2) ->
  g data2 (f data1 prev) = crc32_bitwise (data1 ++ data2) prev.
Proof using Type*.
  intros [H1 H2]%Forall_app. rw !checksum_spec // /crc32_bitwise fold_bits_app.
  rw not32_not32 //. apply fold_bitwise_range; [done|apply not32_range].
Qed.
End checksum.

(** C23: a burst error is never missed: if two messages of the same length
    agree except inside a window of at most four consecutive bytes, their
    checksums differ. *)
Theorem crc32_detects_bursts pre win win' post prev :
  Forall (fun b => is_u8 b) (pre ++ win ++ post) -> Forall (fun b => is_u8 b) win' ->
  (length win <= 4)%nat -> length win' = length win -> win <> win' ->
  crc32_bitwise (pre ++ win ++ post) prev <> crc32_bitwise (pre ++ win' ++ post) prev.
Proof.
  rewrite -> !Forall_app. intros (Hpre & Hwin & Hpost) Hwin' Hle Hlen Hne Heq.
  apply Hne. clear Hne. revert Heq. rw /crc32_bitwise !fold_bits_app.
  set (c := fold_bits pre _).
  assert (is_u32 c) as Hc by (apply fold_bitwise_range; [done|apply not32_range]).
  assert (forall w, Forall (fun b => is_u8 b) w -> (length w <= 4)%nat -> is_u32 (le_bytes w)) as Hle4.
  { intros w Hw Hw4. pose proof (le_bytes_range w Hw). split; [lia|].
    eapply Z.lt_le_trans; [apply le_bytes_range; done|]. apply Z.pow_le_mono_r; lia. }
  intros Heq%not32_inj; [|apply fold_bitwise_range; [done|by apply fold_bitwise_range]..].
  apply fold_bitwise_inj in Heq; [|done|by apply fold_bitwise_range..].
  rewrite -> !fold_bitwise_le, Hlen in Heq.
  apply crc_bits_inj in Heq; [|apply lxor_below; [lia|done|apply Hle4; [done|lia]]..].
  apply le_bytes_inj; [done..|].
  apply (f_equal (Z.lxor c)) in Heq.
  by rewrite -> !lxor_cancel in Heq.
Qed.

Lemma crc32_detects_bursts_witness :
  crc32_bitwise ([1; 2] ++ [3; 4] ++ [6]) 0 <> crc32_bitwise ([1; 2] ++ [3; 5] ++ [6]) 0.
Proof.
  apply (crc32_detects_bursts [1; 2] [3; 4] [3; 5] [6] 0);
    [forall_list lia|forall_list lia|simpl; lia|reflexivity|discriminate].
Defined.
