(* ===== verification/CrcVariants.v ===== *)
(** * CrcVariants: the other routines of lib/Crc32.cpp, and lib/Crc32Test.cpp

    The library computes the same checksum in eleven ways: by half bytes,
    without a table (twice), by slices of 4, 8 and 16 bytes, unrolled and
    with prefetching.  Each is an instance of the interface [Checksum] of
    Crc32, so that any of them may continue what another began, which is
    what [crc32_fast] and the test program rely on.  [PREFETCH] has no
    effect on what is computed and is left out. *)

From S2P Require Import Prelude Crc32Table Crc32.
From Equations Require Import Equations.
From Stdlib Require Import Btauto.

(** ** By half bytes *)

Definition Crc32Lookup16 : list Z :=
  [0x00000000; 0x1DB71064; 0x3B6E20C8; 0x26D930AC; 0x76DC4190; 0x6B6B51F4; 0x4DB26158; 0x5005713C;
   0xEDB88320; 0xF00F9344; 0xD6D6A3E8; 0xCB61B38C; 0x9B64C2B0; 0x86D3D2D4; 0xA00AE278; 0xBDBDF21C].

Definition lut16 (i : Z) : Z := nth (Z.to_nat i) Crc32Lookup16 0.

Definition halfbyte_byte (crc current : Z) : Z :=
  let crc := Z.lxor (lut16 (Z.land (Z.lxor crc current) 0x0F)) (Z.shiftr crc 4) in
  Z.lxor (lut16 (Z.land (Z.lxor crc (Z.shiftr current 4)) 0x0F)) (Z.shiftr crc 4).

Definition crc32_halfbyte (data : list Z) (previousCrc32 : Z) : Z :=
  not32 (fold_left halfbyte_byte data (not32 previousCrc32)).

(** ** Without a table *)

(** One byte; [low * (...)] and the shifts are on [uint32_t]. *)
Definition tableless_byte (crc current : Z) : Z :=
  let s := Z.lxor (u8 crc) current in
  let low := Z.land (Z.lxor s (Z.shiftl s 6)) 0xFF in
  let a := u32 (low * (2 ^ 23 + 2 ^ 14 + 2 ^ 2)) in
  Z.lxor (Z.shiftr crc 8)
    (Z.lxor (u32 (low * (2 ^ 24 + 2 ^ 16 + 2 ^ 8)))
    (Z.lxor a
    (Z.lxor (Z.shiftr a 1)
    (Z.lxor (u32 (low * (2 ^ 20 + 2 ^ 12)))
    (Z.lxor (u32 (Z.shiftl low 19))
    (Z.lxor (u32 (Z.shiftl low 17))
            (Z.shiftr low 2))))))).

Definition crc32_1byte_tableless (data : list Z) (previousCrc32 : Z) : Z :=
  not32 (fold_left tableless_byte data (not32 previousCrc32)).

(** [((crc << k) >> 31)] on an [int32_t], as a [uint32_t]: the bit [31 - k]
    of [crc] in all positions. *)
Definition spread_bit (crc k : Z) : Z := u32 (Z.shiftr (i32 (Z.shiftl crc k)) 31).

(** One byte; the state is an [int32_t]. *)
Definition tableless2_byte (crc current : Z) : Z :=
  let crc := Z.lxor crc current in
  let c :=
    Z.lxor (Z.land (spread_bit crc 31) (Z.lxor (Z.shiftr Polynomial 7) (Z.shiftr Polynomial 1)))
    (Z.lxor (Z.land (spread_bit crc 30) (Z.lxor (Z.shiftr Polynomial 6) Polynomial))
    (Z.lxor (Z.land (spread_bit crc 29) (Z.shiftr Polynomial 5))
    (Z.lxor (Z.land (spread_bit crc 28) (Z.shiftr Polynomial 4))
    (Z.lxor (Z.land (spread_bit crc 27) (Z.shiftr Polynomial 3))
    (Z.lxor (Z.land (spread_bit crc 26) (Z.shiftr Polynomial 2))
    (Z.lxor (Z.land (spread_bit crc 25) (Z.shiftr Polynomial 1))
            (Z.land (spread_bit crc 24) Polynomial))))))) in
  i32 (Z.lxor (Z.shiftr (u32 crc) 8) c).

Definition crc32_1byte_tableless2 (data : list Z) (previousCrc32 : Z) : Z :=
  u32 (Z.lnot (fold_left tableless2_byte data (i32 (not32 previousCrc32)))).

(** ** By slices *)

Definition slice4 (crc b0 b1 b2 b3 : Z) : Z :=
  let one := Z.lxor (load32 b0 b1 b2 b3) crc in
  Z.lxor (lut 0 (byte_at one 24))
    (Z.lxor (lut 1 (byte_at one 16))
    (Z.lxor (lut 2 (byte_at one 8))
            (lut 3 (byte_at one 0)))).

(** The loop [while (length >= 4)] followed by the byte loop. *)
Fixpoint crc32_4bytes_loop (data : list Z) (crc : Z) : Z :=
  match data with
  | b0 :: b1 :: b2 :: b3 :: rest => crc32_4bytes_loop rest (slice4 crc b0 b1 b2 b3)
  | remaining => fold_left table_byte remaining crc
  end.

Definition crc32_4bytes (data : list Z) (previousCrc32 : Z) : Z :=
  not32 (crc32_4bytes_loop data (not32 previousCrc32)).

(** The inner [for] loop of [crc32_4x8bytes]: [n] rounds of eight bytes. *)
Fixpoint unrolled8 (n : nat) (crc : Z) (current : list Z) : Z :=
  match n with
  | O => crc
  | S n =>
      unrolled8 n
        (slice8 crc (nth 0 current 0) (nth 1 current 0) (nth 2 current 0) (nth 3 current 0)
                    (nth 4 current 0) (nth 5 current 0) (nth 6 current 0) (nth 7 current 0))
        (drop 8 current)
  end.

Definition BytesAtOnce_4x8 : nat := 8 * Unroll.

Lemma BytesAtOnce_4x8_pos : (0 < BytesAtOnce_4x8)%nat.
Proof. vm_compute. lia. Qed.

Definition crc32_4x8bytes (data : list Z) (previousCrc32 : Z) : Z :=
  not32 (block_loop BytesAtOnce_4x8 BytesAtOnce_4x8_pos (unrolled8 Unroll) table_byte
           data (not32 previousCrc32)).

Lemma block_shorter blk (data : list Z) :
  (0 < blk)%nat -> (blk <= length data)%nat -> (length (drop blk data) < length data)%nat.
Proof. intros. rw length_drop. lia. Qed.

(** The loop of [crc32_16bytes_prefetch] takes a block while the [length]
    that is left is at least [bound], the sum [BytesAtOnce + prefetchAhead]
    in a [size_t].  [data] is all there is: taking a block of which less is
    left reads behind it. *)
Equations? prefetch_loop (blk : nat) (Hblk : (0 < blk)%nat) (round : Z -> list Z -> Z)
    (bound : Z) (data : list Z) (crc : Z) : comp Z by wf (length data) lt :=
  prefetch_loop blk Hblk round bound data crc with Z_le_gt_dec bound (Z.of_nat (length data)) => {
    | left _ with le_lt_dec blk (length data) => {
        | left _ := prefetch_loop blk Hblk round bound (drop blk data) (round crc data)
        | right _ := Stuck UB }
    | right _ := Done (fold_left table_byte data crc) }.
Proof. by apply block_shorter. Qed.

Definition crc32_16bytes_prefetch (data : list Z) (previousCrc32 prefetchAhead : Z) : comp Z :=
  crc ← prefetch_loop BytesAtOnce BytesAtOnce_pos (unrolled Unroll) (u64 (Z.of_nat BytesAtOnce + prefetchAhead)) data (not32 previousCrc32);
  Done (not32 crc).

(** The configuration of lib/Crc32.h defines slicing by 16. *)
Definition crc32_fast (data : list Z) (previousCrc32 : Z) : Z :=
  crc32_16bytes data previousCrc32.

(** ** lib/Crc32Test.cpp *)

(** [n] bytes of the test data, from the seed [r] on. *)
Fixpoint test_data (n : nat) (r : Z) : list Z :=
  match n with
  | O => []
  | S n => Z.land r 0xFF :: test_data n (u32 (1664525 * r + 1013904223))
  end.

Definition DefaultChunkSize : nat := 4 * 1024.

(** The loop [while (bytesProcessed < NumBytes)]. *)
Fixpoint test_chunked (fuel chunk : nat) (data : list Z) (bytesProcessed : nat) (crc : Z) : comp Z :=
  let NumBytes := length data in
  if decide (NumBytes <= bytesProcessed)%nat then Done crc else
  match fuel with
  | O => Stuck NoFuel
  | S fuel =>
      let bytesLeft := (NumBytes - bytesProcessed)%nat in
      let chunkSize := if decide (chunk < bytesLeft)%nat then chunk else bytesLeft in
      test_chunked fuel chunk data (bytesProcessed + chunkSize)
        (crc32_fast (take chunkSize (drop bytesProcessed data)) crc)
  end.

(** The checksums [main] prints for [NumBytes] bytes, in its order. *)
Definition crc32_test (NumBytes : nat) : comp (list Z) :=
  let data := test_data NumBytes 0x27121978 in
  prefetch ← crc32_16bytes_prefetch data 0 256;
  chunked ← test_chunked NumBytes DefaultChunkSize data 0 0;
  Done [crc32_bitwise data 0; crc32_halfbyte data 0;
        crc32_1byte_tableless data 0; crc32_1byte_tableless2 data 0;
        crc32_1byte data 0; crc32_4bytes data 0; crc32_8bytes data 0;
        crc32_4x8bytes data 0; crc32_16bytes data 0; prefetch; chunked].

(** ** Half bytes *)

Lemma lut16_spec i : 0 <= i < 16 -> lut16 i = Nat.iter 4 crc_bit i.
Proof.
  intros Hi. assert (i ∈ seqZ 0 16) as Hin by (apply elem_of_seqZ; lia).
  apply Z.eqb_eq. revert i Hi Hin.
  enough (forallb (fun i => lut16 i =? Nat.iter 4 crc_bit i) (seqZ 0 16) = true) as H.
  { intros i _ Hin. rewrite -> forallb_forall in H. by apply H, list_elem_of_In. }
  vm_compute. reflexivity.
Qed.

(** The low bits of a number and the rest. *)
Lemma split_low n c : 0 <= n -> c = Z.lxor (c mod 2 ^ n) (Z.shiftl (Z.shiftr c n) n).
Proof.
  intros Hn. rw -lor_shiftl_lxor //; [|by apply Z.mod_pos_bound; lia].
  rw Z.shiftr_div_pow2 // Z.lor_comm lor_shiftl_add //; [|apply Z.mod_pos_bound; lia].
  rw {1}(Z.div_mod c (2 ^ n)); lia.
Qed.

Lemma land_0x0F x : Z.land x 0x0F = x mod 2 ^ 4.
Proof. exact (Z.land_ones x 4 ltac:(lia)). Qed.

(** A table read and a shift are four bit steps. *)
Lemma nibble_step c :
  Z.lxor (lut16 (Z.land c 0x0F)) (Z.shiftr c 4) = Nat.iter 4 crc_bit c.
Proof.
  rw land_0x0F lut16_spec; [|by apply Z.mod_pos_bound].
  rw {3}(split_low 4 c) // crc_bits_lxor. f_equal. by rw (crc_bits_shiftl 4).
Qed.

Lemma halfbyte_byte_spec crc b : is_u8 b -> halfbyte_byte crc b = bitwise_byte crc b.
Proof.
  intros Hb. rw /halfbyte_byte bitwise_byte_eq (crc_bits_add 4 4).
  set (t := lut16 (Z.land (Z.lxor crc b) 0x0F)).
  assert (Z.lxor (Z.lxor t (Z.shiftr crc 4)) (Z.shiftr b 4) = Nat.iter 4 crc_bit (Z.lxor crc b)) as E
    by rw Z.lxor_assoc -Z.shiftr_lxor nibble_step //.
  rw -(nibble_step (Nat.iter 4 _ _)) -E. f_equal.
  rw (Z.shiftr_lxor _ (Z.shiftr b 4)) Z.shiftr_shiftr // (Z.shiftr_div_pow2 b) // Z.div_small //.
  by rw Z.lxor_0_r.
Qed.

#[export] Instance crc32_halfbyte_checksum : Checksum crc32_halfbyte.
Proof.
  intros data prev H. rw /crc32_halfbyte /crc32_bitwise.
  by rw (fold_left_eq _ _ _ halfbyte_byte_spec).
Qed.

(** ** Without a table

    Both read eight bits of the state only; what they make of them is the
    table, by evaluation. *)

Definition tableless_word (s : Z) : Z := tableless_byte 0 s.

Lemma tableless_word_spec s : is_u8 s -> tableless_word s = lut 0 s.
Proof.
  intros Hs. apply Z.eqb_eq. revert s Hs. apply forallb_u8. vm_compute. reflexivity.
Qed.

Lemma tableless_byte_spec crc b : is_u8 b -> tableless_byte crc b = bitwise_byte crc b.
Proof.
  intros Hb. rw -table_byte_spec // /table_byte land_0xFF.
  rw -tableless_word_spec; [|apply lxor_below; [done|apply u8_mod_range|done]].
  by rw /tableless_word /tableless_byte Z.shiftr_0_l Z.lxor_0_l /u8 Z.mod_0_l // Z.lxor_0_l.
Qed.

#[export] Instance crc32_1byte_tableless_checksum : Checksum crc32_1byte_tableless.
Proof.
  intros data prev H. rw /crc32_1byte_tableless /crc32_bitwise.
  by rw (fold_left_eq _ _ _ tableless_byte_spec).
Qed.

(** Signed and unsigned 32-bit numbers. *)
Lemma u32_i32 x : u32 (i32 x) = u32 x.
Proof. rw /i32 /u32. case_match; divmod. Qed.

Lemma i32_u32 x : i32 (u32 x) = i32 x.
Proof. rw /i32 /u32 Z.mod_mod //. Qed.

Lemma u32_lnot_i32 x : u32 (Z.lnot (i32 x)) = not32 x.
Proof. rw /not32 /u32 /Z.lnot /i32. case_match; divmod. Qed.

Lemma spread_bit_spec crc k :
  0 <= k < 32 -> spread_bit crc k = if Z.testbit crc (31 - k) then 2 ^ 32 - 1 else 0.
Proof.
  intros Hk. rw /spread_bit -(Z.sub_add k 31) -{1}Z.shiftl_spec; [|lia].
  set (x := Z.shiftl crc k). rw Z.sub_add -(Z.mod_pow2_bits_low x 32) //.
  rw /i32. set (r := x mod 2 ^ 32). assert (0 <= r < 2 ^ 32) by by apply Z.mod_pos_bound.
  rw Z.testbit_odd !Z.shiftr_div_pow2 //. case_match.
  - rw Z.div_small //. lia.
  - assert (r / 2 ^ 31 = 1) as -> by divmod.
    assert ((r - 2 ^ 32) / 2 ^ 31 = -1) as -> by divmod. done.
Qed.

(** The word [c] of [tableless2_byte], from bits given as numbers. *)
Definition spread_word (bit : Z -> Z) : Z :=
  Z.lxor (Z.land (bit 0) (Z.lxor (Z.shiftr Polynomial 7) (Z.shiftr Polynomial 1)))
  (Z.lxor (Z.land (bit 1) (Z.lxor (Z.shiftr Polynomial 6) Polynomial))
  (Z.lxor (Z.land (bit 2) (Z.shiftr Polynomial 5))
  (Z.lxor (Z.land (bit 3) (Z.shiftr Polynomial 4))
  (Z.lxor (Z.land (bit 4) (Z.shiftr Polynomial 3))
  (Z.lxor (Z.land (bit 5) (Z.shiftr Polynomial 2))
  (Z.lxor (Z.land (bit 6) (Z.shiftr Polynomial 1))
          (Z.land (bit 7) Polynomial))))))).

Definition bit_mask (x i : Z) : Z := if Z.testbit x i then 2 ^ 32 - 1 else 0.

Lemma spread_word_spec s : is_u8 s -> spread_word (bit_mask s) = lut 0 s.
Proof.
  intros Hs. apply Z.eqb_eq. revert s Hs. apply forallb_u8. vm_compute. reflexivity.
Qed.

Lemma spread_word_low x : spread_word (bit_mask x) = spread_word (bit_mask (x mod 2 ^ 8)).
Proof. by rw /spread_word /bit_mask !Z.mod_pow2_bits_low. Qed.

Lemma tableless2_byte_spec crc b :
  is_u32 crc -> is_u8 b -> tableless2_byte (i32 crc) b = i32 (bitwise_byte crc b).
Proof.
  intros Hc Hb. rw -table_byte_spec // /table_byte land_0xFF.
  assert (forall n, 0 <= n <= 32 -> Z.lxor (i32 crc) b mod 2 ^ n = Z.lxor crc b mod 2 ^ n) as Hlow.
  { intros n Hn. apply Z.bits_inj' => i Hi. destruct (decide (i < n)).
    - rw !Z.mod_pow2_bits_low // !Z.lxor_spec. f_equal.
      rw -(Z.mod_pow2_bits_low (i32 crc) 32); [|lia]. change (i32 crc mod 2 ^ 32) with (u32 (i32 crc)).
      rw u32_i32 /u32 Z.mod_small //.
    - rw !Z.mod_pow2_bits_high //; lia. }
  rw /tableless2_byte !spread_bit_spec //.
  set (x := Z.lxor (i32 crc) b).
  change (i32 (Z.lxor (Z.shiftr (u32 x) 8) (spread_word (bit_mask x))) =
          i32 (Z.lxor (Z.shiftr crc 8) (lut 0 (Z.lxor (crc mod 2 ^ 8) b)))).
  rw spread_word_low {}/x Hlow // spread_word_spec; [|apply u8_mod_range].
  f_equal. f_equal.
  - rw /u32 Hlow // Z.mod_small; [|apply lxor_below; lia].
    rw Z.shiftr_lxor (Z.shiftr_div_pow2 b) // Z.div_small // Z.lxor_0_r //.
  - f_equal. apply Z.bits_inj' => i Hi. rw Z.lxor_spec. destruct (decide (i < 8)).
    + rw !Z.mod_pow2_bits_low // Z.lxor_spec //.
    + rewrite -> !Z.mod_pow2_bits_high, (testbit_above b 8) by lia. done.
Qed.

Lemma fold_tableless2 data crc :
  Forall (fun b => is_u8 b) data -> is_u32 crc ->
  fold_left tableless2_byte data (i32 crc) = i32 (fold_left bitwise_byte data crc).
Proof.
  intros H. revert crc. induction H as [|b data Hb _ IH]; [done|]. intros crc Hc.
  rw !fold_left_cons tableless2_byte_spec // IH //. by apply bitwise_byte_range.
Qed.

#[export] Instance crc32_1byte_tableless2_checksum : Checksum crc32_1byte_tableless2.
Proof.
  intros data prev H. rw /crc32_1byte_tableless2 fold_tableless2 //; [|apply not32_range].
  apply u32_lnot_i32.
Qed.

(** ** Slices *)

#[local] Opaque lut crc_bit bitwise_byte byte_at load32.

Lemma slice4_spec crc b0 b1 b2 b3 :
  Forall (fun b => is_u8 b) [b0; b1; b2; b3] -> is_u32 crc ->
  slice4 crc b0 b1 b2 b3 = fold_left bitwise_byte [b0; b1; b2; b3] crc.
Proof.
  intros Hbs Hcrc. split_bytes. rw fold_bits_cons4 //. cbn [length fold_left].
  rewrite -> (word_slices 0) by first [lia | word_range].
  rw /slice4 Z.lxor_0_r //.
Qed.

Lemma crc32_4bytes_loop_spec data crc :
  Forall (fun b => is_u8 b) data -> is_u32 crc ->
  crc32_4bytes_loop data crc = fold_left bitwise_byte data crc.
Proof.
  revert crc. induction data as [data IH] using (induction_ltof1 _ (@length Z)).
  unfold ltof in IH. intros crc Hd Hc.
  do 4 (destruct data as [|? data]; [by apply fold_table_byte|]).
  cbn [crc32_4bytes_loop]. change (?a :: ?b :: ?c :: ?d :: data) with ([a; b; c; d] ++ data) in Hd |- *.
  apply Forall_app in Hd as [H4 Hd].
  rw fold_bits_app slice4_spec // IH //; [cbn [length]; lia|by apply fold_bitwise_range].
Qed.

#[export] Instance crc32_4bytes_checksum : Checksum crc32_4bytes.
Proof. intros data prev H. rw /crc32_4bytes crc32_4bytes_loop_spec //. apply not32_range. Qed.

Lemma unrolled8_spec n data crc :
  (8 * n <= length data)%nat -> Forall (fun b => is_u8 b) data -> is_u32 crc ->
  unrolled8 n crc data = fold_left bitwise_byte (take (8 * n) data) crc.
Proof.
  induction n as [|n IH] in data, crc |- * => Hlen Hd Hc; [done|].
  do 8 (destruct data as [|? data]; [cbn [length] in Hlen; lia|]).
  replace (8 * S n)%nat with (8 + 8 * n)%nat by lia. cbn [unrolled8 nth drop].
  rw -take_take_drop fold_bits_app. cbn [take drop].
  change (?a :: ?b :: ?c :: ?d :: ?e :: ?f :: ?g :: ?h :: data)
    with ([a; b; c; d; e; f; g; h] ++ data) in Hd.
  apply Forall_app in Hd as [H8 Hd]. rw slice8_spec // drop_0 firstn_O.
  apply IH; [cbn [length] in Hlen; lia|done|by apply fold_bitwise_range].
Qed.

#[export] Instance crc32_4x8bytes_checksum : Checksum crc32_4x8bytes.
Proof.
  intros data prev H. rw /crc32_4x8bytes block_loop_spec //; [|apply table_byte_spec|apply not32_range].
  intros. by apply (unrolled8_spec Unroll).
Qed.

#[export] Instance crc32_fast_checksum : Checksum crc32_fast.
Proof. exact crc32_16bytes_checksum. Qed.

(** ** Prefetching *)

Lemma prefetch_loop_spec bound data crc :
  Forall (fun b => is_u8 b) data -> is_u32 crc -> 0 <= bound ->
  prefetch_loop BytesAtOnce BytesAtOnce_pos (unrolled Unroll) bound data crc =
    if decide (64 <= bound \/ Z.of_nat (length data) mod 64 < bound)
    then Done (fold_left bitwise_byte data crc) else Stuck UB.
Proof.
  revert crc. induction data as [data IH] using (induction_ltof1 _ (@length Z)).
  unfold ltof in IH. intros crc Hd Hc Hb.
  rw prefetch_loop_equation_1 /prefetch_loop_unfold_clause_1.
  destruct (Z_le_gt_dec bound (Z.of_nat (length data))) as [Hle|Hgt].
  - unfold prefetch_loop_unfold_clause_1_clause_1. destruct (le_lt_dec BytesAtOnce (length data)) as [Hge|Hlt].
    + change BytesAtOnce with 64%nat in *.
      assert (Z.of_nat (length (drop 64 data)) mod 64 = Z.of_nat (length data) mod 64) as Hmod.
      { rw length_drop Nat2Z.inj_sub //. divmod. }
      rw unrolled_spec // IH ?Hmod //; [by rw -fold_bits_app take_drop|rw length_drop; lia| |].
      * by apply Forall_drop.
      * apply fold_bitwise_range; [by apply Forall_take|done].
    + change BytesAtOnce with 64%nat in *. rw decide_False //. rw Z.mod_small; lia.
  - rw fold_table_byte // decide_True //. divmod.
Qed.

(** C34: with prefetching the result is the same checksum, unless the sum
    of [prefetchAhead] and the block size overflows the [size_t]: then the
    loop runs on while less than a block is left, and whether the routine
    reads behind the data depends on the remainder of the length. *)
Theorem crc32_prefetch_bounds data prev ahead :
  Forall (fun b => is_u8 b) data -> 0 <= ahead < 2 ^ 64 ->
  crc32_16bytes_prefetch data prev ahead =
    if decide (ahead + 64 < 2 ^ 64 \/ Z.of_nat (length data) mod 64 < ahead + 64 - 2 ^ 64)
    then Done (crc32_bitwise data prev) else Stuck UB.
Proof.
  intros Hd Ha. rw /crc32_16bytes_prefetch. change (Z.of_nat BytesAtOnce) with 64.
  assert (0 <= u64 (64 + ahead) < 2 ^ 64) as Hu by by apply Z.mod_pos_bound.
  rw prefetch_loop_spec //; [|apply not32_range|lia].
  assert (u64 (64 + ahead) = if decide (ahead + 64 < 2 ^ 64) then ahead + 64 else ahead + 64 - 2 ^ 64) as ->
    by (rw /u64; case_decide; divmod).
  pose proof (Z.mod_pos_bound (Z.of_nat (length data)) 64 ltac:(lia)).
  repeat case_decide; try done; lia.
Qed.

Lemma crc32_prefetch_bounds_witness :
  crc32_16bytes_prefetch (replicate 70 1) 0 256 = Done (crc32_bitwise (replicate 70 1) 0) /\
  crc32_16bytes_prefetch (replicate 70 1) 0 (2 ^ 64 - 61) = Stuck UB.
Proof.
  split.
  - rw (crc32_prefetch_bounds (replicate 70 1) 0 256); [reflexivity|apply Forall_replicate; lia|lia].
  - rw (crc32_prefetch_bounds (replicate 70 1) 0 (2 ^ 64 - 61));
      [reflexivity|apply Forall_replicate; lia|lia].
Defined.

(** ** All routines together *)

(** C10: nine routines of the library ([crc32_halfbyte], [crc32_1byte] and
    its two versions without a table, [crc32_4bytes], [crc32_8bytes],
    [crc32_4x8bytes], [crc32_16bytes] and [crc32_fast]) compute the bit-by-bit
    CRC-32 of every message from every previous checksum.  The tenth,
    [crc32_16bytes_prefetch], does so only within the bounds of C34. *)
Theorem crc32_variants data prev :
  Forall (fun b => is_u8 b) data ->
  Forall (fun f => f data prev = crc32_bitwise data prev)
    [crc32_halfbyte; crc32_1byte; crc32_1byte_tableless; crc32_1byte_tableless2; crc32_4bytes;
     crc32_8bytes; crc32_4x8bytes; crc32_16bytes; crc32_fast].
Proof. intros H. forall_list ltac:(by apply checksum_spec). Qed.

Lemma crc32_variants_witness :
  Forall (fun f => f (seqZ 0 100) 7 = crc32_bitwise (seqZ 0 100) 7)
    [crc32_halfbyte; crc32_1byte; crc32_1byte_tableless; crc32_1byte_tableless2; crc32_4bytes;
     crc32_8bytes; crc32_4x8bytes; crc32_16bytes; crc32_fast].
Proof. apply (crc32_variants (seqZ 0 100) 7). apply Forall_seqZ. lia. Defined.

(** A message in parts, each given to a routine with the checksum so far. *)
Definition checksum_parts (parts : list ((list Z -> Z -> Z) * list Z)) (prev : Z) : Z :=
  fold_left (fun crc part => part.1 part.2 crc) parts prev.

Lemma checksum_parts_spec parts prev :
  Forall (fun part => Checksum part.1 /\ Forall (fun b => is_u8 b) part.2) parts -> is_u32 prev ->
  checksum_parts parts prev = crc32_bitwise (concat (map snd parts)) prev.
Proof.
  intros H. revert prev. rw /checksum_parts.
  induction H as [|[f d] parts [Hf Hd] Hparts IH] => prev Hp; cbn [fold_left map concat fst snd] in *.
  - by rw /crc32_bitwise /= not32_not32.
  - rw IH; [|by apply checksum_range]. apply (checksum_app f); try done.
    apply Forall_app; split; [done|]. apply Forall_concat, Forall_map.
    apply (Forall_impl _ _ _ Hparts). by intros [g e] [_ He].
Qed.

(** ** The test program *)

Lemma test_data_bytes n r : Forall (fun b => is_u8 b) (test_data n r).
Proof.
  revert r. induction n as [|n IH]; intros r; constructor; [|apply IH].
  rw land_0xFF. apply u8_mod_range.
Qed.

Lemma test_data_length n r : length (test_data n r) = n.
Proof. revert r. induction n as [|n IH]; intros r; cbn [test_data length]; [done|by rw IH]. Qed.

Lemma test_chunked_spec fuel chunk data processed crc :
  (0 < chunk)%nat -> (length data <= processed + fuel)%nat ->
  Forall (fun b => is_u8 b) data -> is_u32 crc ->
  test_chunked fuel chunk data processed crc = Done (crc32_bitwise (drop processed data) crc).
Proof.
  intros Hchunk. revert processed crc.
  induction fuel as [|fuel IH] => processed crc Hfuel Hd Hc; cbn [test_chunked]; case_decide; try lia.
  1, 2: rw drop_ge // /crc32_bitwise /= not32_not32 //.
  set (k := if decide _ then _ else _).
  assert (0 < k)%nat by (subst k; case_decide; lia).
  assert (Forall (fun b => is_u8 b) (drop processed data)) by by apply Forall_drop.
  rw IH //; [|lia|by apply (checksum_range _), Forall_take].
  f_equal. rw -drop_drop (checksum_app crc32_fast crc32_bitwise) ?take_drop //.
Qed.

(** the eleven checksums the test program prints are the same, however
    many bytes it tests; the last is computed in chunks. *)
Theorem crc32_test_agrees NumBytes :
  crc32_test NumBytes = Done (replicate 11 (crc32_bitwise (test_data NumBytes 0x27121978) 0)).
Proof.
  rw /crc32_test. set (data := test_data _ _).
  assert (Forall (fun b => is_u8 b) data) as H by apply test_data_bytes.
  assert (crc32_16bytes_prefetch data 0 256 = Done (crc32_bitwise data 0)) as ->.
  { by rw /crc32_16bytes_prefetch prefetch_loop_spec. }
  unbind. rw test_chunked_spec //; [|apply Nat.lt_0_succ|rw /data test_data_length //].
  unbind. rw drop_0 !checksum_spec //.
Qed.
