(* ===== verification/CrcIno.v ===== *)
(** * CrcIno: lib/Crc32.ino and lib/Crc32Best.ino, the checksum on an Arduino

    Older copies of the routines of lib/Crc32.cpp.  The byte-wise ones are
    instances of [Checksum].  The sliced ones go through their last bytes
    with the pointer to words, not with the pointer to bytes they have just
    set up: [ino_sliced_checksum] says which bytes they use instead, and
    that they read behind the data unless the length is a multiple of the
    size of a slice. *)

From S2P Require Import Prelude Crc32Table Crc32 CrcVariants CrcInoTable.

(** ** Tables *)

Definition ino_crc32Lookup : list Z :=
  ino_crc32Lookup_0 ++ ino_crc32Lookup_1 ++ ino_crc32Lookup_2 ++ ino_crc32Lookup_3 ++
  ino_crc32Lookup_4 ++ ino_crc32Lookup_5 ++ ino_crc32Lookup_6 ++ ino_crc32Lookup_7.

Definition ino_crc32Lookup16 : list Z :=
  [0x00000000; 0x1DB71064; 0x3B6E20C8; 0x26D930AC; 0x76DC4190; 0x6B6B51F4; 0x4DB26158; 0x5005713C;
   0xEDB88320; 0xF00F9344; 0xD6D6A3E8; 0xCB61B38C; 0x9B64C2B0; 0x86D3D2D4; 0xA00AE278; 0xBDBDF21C].

(** ** The routines *)

(** One round of the inner loop of [crc32_bitwise]. *)
Definition ino_bit (crc : Z) : Z :=
  let lowestBit := u8 (Z.land crc 1) in
  let crc := Z.shiftr crc 1 in
  if lowestBit =? 0 then crc else Z.lxor crc Polynomial.

Definition ino_bitwise_byte (crc current : Z) : Z := Nat.iter 8 ino_bit (Z.lxor crc current).

Definition ino_crc32_bitwise (data : list Z) (previousCrc32 : Z) : Z :=
  not32 (fold_left ino_bitwise_byte data (not32 previousCrc32)).

Definition best_crc32_bitwise (data : list Z) (previousCrc32 : Z) : Z :=
  not32 (fold_left ino_bitwise_byte data (not32 previousCrc32)).

Section arduino.
  (** [pgm_read_dword_near(table + i)], the board's access to a table in
      program memory. *)
  Context (pgm_read_dword_near : list Z -> nat -> Z).

Definition ino_halfbyte_byte (crc current : Z) : Z :=
  let read i := pgm_read_dword_near ino_crc32Lookup16 (Z.to_nat i) in
  let crc := Z.lxor (read (Z.land (Z.lxor (u8 crc) current) 0x0F)) (Z.shiftr crc 4) in
  Z.lxor (read (Z.land (Z.lxor (u8 crc) (Z.shiftr current 4)) 0x0F)) (Z.shiftr crc 4).

Definition ino_crc32_halfbyte (data : list Z) (previousCrc32 : Z) : Z :=
  not32 (fold_left ino_halfbyte_byte data (not32 previousCrc32)).

(** The body of the byte loops: [current] is what [*current++] reads, cut
    to a byte by the assignment to [offset]. *)
Definition ino_table_byte (table : list Z) (crc current : Z) : Z :=
  let offset := u8 (Z.lxor (u8 crc) current) in
  Z.lxor (Z.shiftr crc 8) (pgm_read_dword_near table (Z.to_nat offset)).

Definition ino_crc32_1byte (data : list Z) (previousCrc32 : Z) : Z :=
  not32 (fold_left (ino_table_byte ino_crc32Lookup) data (not32 previousCrc32)).

Definition best_crc32_1byte (data : list Z) (previousCrc32 : Z) : Z :=
  not32 (fold_left (ino_table_byte best_crc32Lookup) data (not32 previousCrc32)).

(** A [uint32_t] at offset [i] of the object [data] points to. *)
Definition read_word (mem : list Z) (i : nat) : comp Z :=
  b0 ← rd mem i; b1 ← rd mem (i + 1); b2 ← rd mem (i + 2); b3 ← rd mem (i + 3);
  Done (load32 b0 b1 b2 b3).

(** [crc32Lookup + k * 256 + ((w >> n) & 0xFF)], the offset a [uint16_t]. *)
Definition ino_lut (k : Z) (w n : Z) : Z :=
  pgm_read_dword_near ino_crc32Lookup (Z.to_nat (u16 (k * 256 + Z.land (Z.shiftr w n) 0xFF))).

(** The loop [while (length >= 4)]: where it stops, the length that is
    left, and the checksum so far. *)
Fixpoint ino_4bytes_loop (fuel : nat) (mem : list Z) (current length : nat) (crc : Z)
    : comp (nat * nat * Z) :=
  if decide (4 <= length)%nat then
    match fuel with
    | O => Stuck NoFuel
    | S fuel =>
        w ← read_word mem current;
        let crc := Z.lxor crc w in
        ino_4bytes_loop fuel mem (current + 4) (length - 4)
          (Z.lxor (ino_lut 3 crc 0) (Z.lxor (ino_lut 2 crc 8) (Z.lxor (ino_lut 1 crc 16) (ino_lut 0 crc 24))))
    end
  else Done (current, length, crc).

(** The loop [while (length >= 8)]. *)
Fixpoint ino_8bytes_loop (fuel : nat) (mem : list Z) (current length : nat) (crc : Z)
    : comp (nat * nat * Z) :=
  if decide (8 <= length)%nat then
    match fuel with
    | O => Stuck NoFuel
    | S fuel =>
        w ← read_word mem current;
        let one := Z.lxor w crc in
        two ← read_word mem (current + 4);
        ino_8bytes_loop fuel mem (current + 8) (length - 8)
          (Z.lxor (ino_lut 7 one 0) (Z.lxor (ino_lut 6 one 8) (Z.lxor (ino_lut 5 one 16)
          (Z.lxor (ino_lut 4 one 24) (Z.lxor (ino_lut 3 two 0) (Z.lxor (ino_lut 2 two 8)
          (Z.lxor (ino_lut 1 two 16) (ino_lut 0 two 24))))))))
    end
  else Done (current, length, crc).

(** The loop behind them, [while (length--)]: [*current++] reads a word. *)
Fixpoint ino_tail (mem : list Z) (current length : nat) (crc : Z) : comp Z :=
  match length with
  | O => Done crc
  | S length =>
      w ← read_word mem current;
      ino_tail mem (current + 4) length (ino_table_byte ino_crc32Lookup crc w)
  end.

(** [mem] is the object from [data] on; it may be longer than [length]. *)
Definition ino_crc32_4bytes (mem : list Z) (length : nat) (previousCrc32 : Z) : comp Z :=
  '(current, length, crc) ← ino_4bytes_loop length mem 0 length (not32 previousCrc32);
  crc ← ino_tail mem current length crc;
  Done (not32 crc).

Definition ino_crc32_8bytes (mem : list Z) (length : nat) (previousCrc32 : Z) : comp Z :=
  '(current, length, crc) ← ino_8bytes_loop length mem 0 length (not32 previousCrc32);
  crc ← ino_tail mem current length crc;
  Done (not32 crc).

(** ** The programs *)

Definition ino_NumBytes : nat := 256.
Definition ino_Repetitions : nat := 4 * 1024.

(** [setup] fills the array [data]. *)
Definition ino_setup : list Z := map (fun i => u8 (Z.land (Z.of_nat i) 0xFF)) (seq 0 ino_NumBytes).

(** [for (int i = 1; i < Repetitions; i++) crc = call]. *)
Fixpoint ino_repeat (n : nat) (call : comp Z) (crc : Z) : comp Z :=
  match n with
  | O => Done crc
  | S n => crc ← call; ino_repeat n call crc
  end.

(** The five checksums [loop] prints; [crc] is the variable before it is
    set. *)
Definition ino_loop (data : list Z) (crc : Z) : comp (list Z) :=
  let bench call crc := ino_repeat (ino_Repetitions - 1) call crc in
  c1 ← bench (Done (ino_crc32_bitwise data 0)) crc;
  c2 ← bench (Done (ino_crc32_halfbyte data 0)) c1;
  c3 ← bench (Done (ino_crc32_1byte data 0)) c2;
  c4 ← bench (ino_crc32_4bytes data ino_NumBytes 0) c3;
  c5 ← bench (ino_crc32_8bytes data ino_NumBytes 0) c4;
  Done [c1; c2; c3; c4; c5].

(** [loop] of Crc32Best.ino. *)
Definition best_loop (data : list Z) : Z := best_crc32_bitwise data 0.
End arduino.

(** ** The byte-wise routines *)

Lemma ino_bit_spec crc : ino_bit crc = crc_bit crc.
Proof.
  rw crc_bit_alt /ino_bit /u8. change 1 with (Z.ones 1) at 1. rw Z.land_ones // Zmod_odd.
  destruct (Z.odd crc); cbn; [done|by rw Z.lxor_0_r].
Qed.

Lemma ino_bitwise_byte_spec crc b : ino_bitwise_byte crc b = bitwise_byte crc b.
Proof.
  rw /ino_bitwise_byte /bitwise_byte. generalize (Z.lxor crc b), 8%nat. intros x n.
  induction n as [|n IH]; [done|]. by rw !Nat.iter_succ IH ino_bit_spec.
Qed.

#[export] Instance ino_crc32_bitwise_checksum : Checksum ino_crc32_bitwise.
Proof.
  intros data prev H. rw /ino_crc32_bitwise /crc32_bitwise. f_equal.
  apply (fold_left_eq _ _ (fun b => is_u8 b)); [|done]. intros. apply ino_bitwise_byte_spec.
Qed.

#[export] Instance best_crc32_bitwise_checksum : Checksum best_crc32_bitwise.
Proof. exact ino_crc32_bitwise_checksum. Qed.

(** The flat table is that of lib/Crc32.cpp, slice after slice. *)
Lemma ino_lookup_checked :
  forallb (fun k => forallb (fun i =>
      match ino_crc32Lookup !! Z.to_nat (Z.of_nat k * 256 + i) with Some v => v =? lut k i | None => false end)
    (seqZ 0 256)) (seq 0 8) = true.
Proof. vm_compute. reflexivity. Qed.

Lemma ino_lookup k i :
  (k < 8)%nat -> is_u8 i -> ino_crc32Lookup !! Z.to_nat (Z.of_nat k * 256 + i) = Some (lut k i).
Proof.
  intros Hk Hi. pose proof ino_lookup_checked as H. rewrite -> forallb_forall in H.
  specialize (H k ltac:(apply in_seq; lia)). pose proof (forallb_u8 _ H i Hi) as E. cbn beta in E.
  destruct (_ !! _) as [v|]; [|done]. by apply Z.eqb_eq in E as ->.
Qed.

Lemma best_lookup i : is_u8 i -> best_crc32Lookup !! Z.to_nat i = Some (lut 0 i).
Proof.
  intros Hi.
  assert (match best_crc32Lookup !! Z.to_nat i with Some v => v =? lut 0 i | None => false end = true) as H.
  { revert i Hi. apply forallb_u8. vm_compute. reflexivity. }
  destruct (_ !! _) as [v|]; [|done]. by apply Z.eqb_eq in H as ->.
Qed.

Lemma ino_lookup16 i : 0 <= i < 16 -> ino_crc32Lookup16 !! Z.to_nat i = Some (lut16 i).
Proof.
  intros Hi. change ino_crc32Lookup16 with Crc32Lookup16. rw /lut16.
  destruct (nth_lookup_or_length Crc32Lookup16 (Z.to_nat i) 0) as [E|E]; [done|]. cbn in E. lia.
Qed.

(** An exclusive or modulo a power of two. *)
Lemma lxor_mod a b n : 0 <= n -> Z.lxor (a mod 2 ^ n) b mod 2 ^ n = Z.lxor a b mod 2 ^ n.
Proof.
  intros Hn. apply Z.bits_inj' => i Hi. destruct (decide (i < n)).
  - by rewrite -> !Z.mod_pow2_bits_low, !Z.lxor_spec, Z.mod_pow2_bits_low by lia.
  - by rewrite -> !Z.mod_pow2_bits_high by lia.
Qed.

#[local] Opaque lut.

#[local] Opaque crc_bit bitwise_byte byte_at load32.

(** ** Reading words *)

Lemma read_word_fits mem i :
  (i + 4 <= length mem)%nat ->
  read_word mem i = Done (load32 (mem !!! i) (mem !!! (i + 1)%nat) (mem !!! (i + 2)%nat) (mem !!! (i + 3)%nat)).
Proof. intros. rw /read_word. by rewrite -> !rd_total by lia. Qed.

Lemma read_word_outside mem i : (length mem < i + 4)%nat -> read_word mem i = Stuck UB.
Proof.
  intros H. rw /read_word /rd. repeat case_match; try done.
  repeat match goal with E : mem !! _ = Some _ |- _ => apply lookup_lt_Some in E end. lia.
Qed.

Lemma drop_word (mem : list Z) i :
  (i + 4 <= length mem)%nat ->
  drop i mem = [mem !!! i; mem !!! (i + 1)%nat; mem !!! (i + 2)%nat; mem !!! (i + 3)%nat] ++ drop (i + 4) mem.
Proof.
  intros H. assert (forall j, (i + j < i + 4)%nat -> drop (i + j) mem = mem !!! (i + j)%nat :: drop (i + S j) mem) as Hj.
  { intros j Hlt. rewrite -> (drop_S mem (mem !!! (i + j)%nat)) by (apply list_lookup_lookup_total_lt; lia).
    do 2 f_equal. lia. }
  pose proof (Hj 0%nat ltac:(lia)) as H0. rewrite -> Nat.add_0_r in H0. by rewrite -> H0, !Hj by lia.
Qed.

(** Every fourth byte from [current] on, [n] of them. *)
Definition strided (mem : list Z) (current n : nat) : list Z :=
  map (fun k => mem !!! (current + 4 * k)%nat) (seq 0 n).

Lemma strided_S mem current n :
  strided mem current (S n) = mem !!! current :: strided mem (current + 4) n.
Proof.
  rw /strided /= Nat.add_0_r -seq_shift map_map. f_equal. apply map_ext => k. f_equal. lia.
Qed.

Lemma mem_byte mem i :
  Forall (fun b => is_u8 b) mem -> (i < length mem)%nat -> is_u8 (mem !!! i).
Proof. intros H Hi. rewrite -> Forall_lookup in H. by eapply H, list_lookup_lookup_total_lt. Qed.

Lemma mem_word mem i :
  Forall (fun b => is_u8 b) mem -> (i + 4 <= length mem)%nat ->
  Forall (fun b => is_u8 b) [mem !!! i; mem !!! (i + 1)%nat; mem !!! (i + 2)%nat; mem !!! (i + 3)%nat].
Proof. intros H Hi. forall_list ltac:(apply mem_byte; [done|lia]). Qed.

(** What the library documents of the access to program memory: it reads
    the table. *)
Section access.
  Context (pgm_read_dword_near : list Z -> nat -> Z).
  Hypothesis pgm_reads : forall table i v, table !! i = Some v -> pgm_read_dword_near table i = v.

Lemma ino_halfbyte_byte_spec crc b :
  is_u8 b -> ino_halfbyte_byte pgm_read_dword_near crc b = bitwise_byte crc b.
Proof using pgm_reads.
  intros Hb. rw -halfbyte_byte_spec //.
  assert (forall x y, Z.land (Z.lxor (u8 x) y) 0x0F = Z.land (Z.lxor x y) 0x0F) as Hlow.
  { intros x y. rw !land_0x0F -(lxor_mod (u8 x) y 4) // -(lxor_mod x y 4) //. do 2 f_equal. rw /u8. divmod. }
  assert (forall x, pgm_read_dword_near ino_crc32Lookup16 (Z.to_nat (Z.land x 0x0F)) = lut16 (Z.land x 0x0F)) as Hread.
  { intros x. apply pgm_reads, ino_lookup16. rw land_0x0F. by apply Z.mod_pos_bound. }
  by rw /ino_halfbyte_byte /halfbyte_byte !Hlow !Hread.
Qed.

#[export] Instance ino_crc32_halfbyte_checksum : Checksum (ino_crc32_halfbyte pgm_read_dword_near).
Proof using pgm_reads.
  intros data prev H. rw /ino_crc32_halfbyte /crc32_bitwise.
  by rw (fold_left_eq _ _ _ ino_halfbyte_byte_spec).
Qed.

(** The body of the byte loops uses the low byte of what it is given. *)
Lemma ino_table_byte_spec table crc w :
  (forall i, is_u8 i -> table !! Z.to_nat i = Some (lut 0 i)) ->
  ino_table_byte pgm_read_dword_near table crc w = bitwise_byte crc (w mod 2 ^ 8).
Proof using pgm_reads.
  intros Ht. pose proof (u8_mod_range w) as Hw. rw -table_byte_spec // /ino_table_byte /table_byte.
  rw (pgm_reads _ _ (lut 0 (u8 (Z.lxor (u8 crc) w)))); [|apply Ht, u8_mod_range].
  do 2 f_equal. rw land_0xFF /u8 Z.lxor_comm -lxor_mod // Z.lxor_comm Z.mod_small //.
  apply lxor_below; [done|apply u8_mod_range|done].
Qed.

Lemma ino_lookup_0 i : is_u8 i -> ino_crc32Lookup !! Z.to_nat i = Some (lut 0 i).
Proof. intros. by apply (ino_lookup 0); [lia|]. Qed.

Lemma fold_ino_table table data crc :
  (forall i, is_u8 i -> table !! Z.to_nat i = Some (lut 0 i)) -> Forall (fun b => is_u8 b) data ->
  fold_left (ino_table_byte pgm_read_dword_near table) data crc = fold_left bitwise_byte data crc.
Proof using pgm_reads.
  intros Ht. apply fold_left_eq. intros c b Hb. by rw ino_table_byte_spec // Z.mod_small.
Qed.

#[export] Instance ino_crc32_1byte_checksum : Checksum (ino_crc32_1byte pgm_read_dword_near).
Proof using pgm_reads.
  intros data prev H. unfold ino_crc32_1byte. by rewrite -> fold_ino_table by (exact ino_lookup_0 || exact H).
Qed.

#[export] Instance best_crc32_1byte_checksum : Checksum (best_crc32_1byte pgm_read_dword_near).
Proof using pgm_reads.
  intros data prev H. unfold best_crc32_1byte. by rewrite -> fold_ino_table by (exact best_lookup || exact H).
Qed.
(** ** The loops over words *)

Lemma ino_lut_spec k w n :
  (k < 8)%nat -> ino_lut pgm_read_dword_near (Z.of_nat k) w n = lut k (byte_at w n).
Proof using pgm_reads.
  intros Hk. pose proof (byte_at_range w n) as Hb. apply pgm_reads.
  change (Z.land (Z.shiftr w n) 0xFF) with (byte_at w n).
  rw /u16 Z.mod_small; [|lia]. by apply ino_lookup.
Qed.

Lemma ino_slice4 crc b0 b1 b2 b3 :
  Z.lxor (ino_lut pgm_read_dword_near 3 (Z.lxor crc (load32 b0 b1 b2 b3)) 0)
    (Z.lxor (ino_lut pgm_read_dword_near 2 (Z.lxor crc (load32 b0 b1 b2 b3)) 8)
    (Z.lxor (ino_lut pgm_read_dword_near 1 (Z.lxor crc (load32 b0 b1 b2 b3)) 16)
            (ino_lut pgm_read_dword_near 0 (Z.lxor crc (load32 b0 b1 b2 b3)) 24))) = slice4 crc b0 b1 b2 b3.
Proof using pgm_reads.
  rw (ino_lut_spec 3) ?(ino_lut_spec 2) ?(ino_lut_spec 1) ?(ino_lut_spec 0) /slice4; try lia.
  rw (Z.lxor_comm crc). xor_bits.
Qed.

Lemma ino_slice8 crc b0 b1 b2 b3 b4 b5 b6 b7
    (one := Z.lxor (load32 b0 b1 b2 b3) crc) (two := load32 b4 b5 b6 b7) :
  Z.lxor (ino_lut pgm_read_dword_near 7 one 0) (Z.lxor (ino_lut pgm_read_dword_near 6 one 8)
    (Z.lxor (ino_lut pgm_read_dword_near 5 one 16) (Z.lxor (ino_lut pgm_read_dword_near 4 one 24)
    (Z.lxor (ino_lut pgm_read_dword_near 3 two 0) (Z.lxor (ino_lut pgm_read_dword_near 2 two 8)
    (Z.lxor (ino_lut pgm_read_dword_near 1 two 16) (ino_lut pgm_read_dword_near 0 two 24))))))) =
  slice8 crc b0 b1 b2 b3 b4 b5 b6 b7.
Proof using pgm_reads.
  rw (ino_lut_spec 7) ?(ino_lut_spec 6) ?(ino_lut_spec 5) ?(ino_lut_spec 4)
     ?(ino_lut_spec 3) ?(ino_lut_spec 2) ?(ino_lut_spec 1) ?(ino_lut_spec 0) /slice8; try lia.
  fold one two. xor_bits.
Qed.

(** Both loops take the blocks of [blk] bytes that fit in [length]. *)
Definition takes_blocks (blk : nat) (loop : nat -> list Z -> nat -> nat -> Z -> comp (nat * nat * Z)) : Prop :=
  forall fuel mem current len crc,
    Forall (fun b => is_u8 b) mem -> is_u32 crc -> (len <= fuel)%nat -> (current + len <= length mem)%nat ->
    loop fuel mem current len crc =
      Done (current + blk * (len / blk), len mod blk,
            fold_left bitwise_byte (take (blk * (len / blk)) (drop current mem)) crc)%nat.

(** One more block. *)
Lemma take_block blk mem current len crc (bs := take blk (drop current mem)) :
  (0 < blk)%nat -> (blk <= len)%nat ->
  fold_left bitwise_byte (take (blk * (len / blk)) (drop current mem)) crc =
  fold_left bitwise_byte (take (blk * ((len - blk) / blk)) (drop (current + blk) mem))
    (fold_left bitwise_byte bs crc).
Proof.
  intros Hb Hle. subst bs.
  assert (len / blk = S ((len - blk) / blk))%nat as ->.
  { rw -{1}(Nat.sub_add blk len) // -{2}(Nat.mul_1_l blk) Nat.div_add; lia. }
  by rw Nat.mul_succ_r Nat.add_comm -take_take_drop fold_bits_app drop_drop.
Qed.

Lemma block_counts blk current len :
  (0 < blk)%nat -> (blk <= len)%nat ->
  (current + blk * (len / blk) = current + blk + blk * ((len - blk) / blk))%nat /\
  (len mod blk = (len - blk) mod blk)%nat.
Proof.
  intros Hb Hle.
  assert (len / blk = S ((len - blk) / blk))%nat as ->.
  { rw -{1}(Nat.sub_add blk len) // -{2}(Nat.mul_1_l blk) Nat.div_add; lia. }
  split; [lia|]. rw -{1}(Nat.sub_add blk len) // -{2}(Nat.mul_1_l blk) Nat.Div0.mod_add //.
Qed.

Lemma no_block blk mem current len crc :
  (len < blk)%nat ->
  Done (current, len, crc) =
  Done (current + blk * (len / blk), len mod blk,
        fold_left bitwise_byte (take (blk * (len / blk)) (drop current mem)) crc)%nat.
Proof.
  intros H. by rewrite -> Nat.div_small, Nat.mod_small, Nat.mul_0_r, Nat.add_0_r by done.
Qed.

Lemma ino_4bytes_takes : takes_blocks 4 (ino_4bytes_loop pgm_read_dword_near).
Proof using pgm_reads.
  intros fuel. induction fuel as [|fuel IH] => mem current len crc Hm Hc Hf Hl; cbn [ino_4bytes_loop];
    case_decide as Hlen; try (by apply no_block; lia); [lia|].
  assert (current + 4 <= length mem)%nat as Hcur by lia.
  rw read_word_fits //. unbind. rw ino_slice4 slice4_spec //; [|by apply mem_word].
  rw IH //; [|apply fold_bitwise_range; [by apply mem_word|done]|lia|lia].
  destruct (block_counts 4 current len) as [-> ->]; [lia..|].
  rw (take_block 4 mem current len crc) //; [|lia]. by rw (drop_word mem current Hcur).
Qed.

Lemma ino_8bytes_takes : takes_blocks 8 (ino_8bytes_loop pgm_read_dword_near).
Proof using pgm_reads.
  intros fuel. induction fuel as [|fuel IH] => mem current len crc Hm Hc Hf Hl; cbn [ino_8bytes_loop];
    case_decide as Hlen; try (by apply no_block; lia); [lia|].
  assert (current + 4 <= length mem)%nat as Hcur by lia.
  assert (current + 4 + 4 <= length mem)%nat as Hcur' by lia.
  assert (Forall (fun b => is_u8 b) (take 8 (drop current mem))) as Hbs by by apply Forall_take, Forall_drop.
  rw !read_word_fits //. unbind. rewrite -> (drop_word mem current Hcur), (drop_word mem _ Hcur') in Hbs.
  rw ino_slice8 slice8_spec // IH //; [|by apply fold_bitwise_range|lia|lia].
  destruct (block_counts 8 current len) as [-> ->]; [lia..|].
  rw (take_block 8 mem current len crc) //; [|lia]. by rw (drop_word mem current Hcur) (drop_word mem _ Hcur').
Qed.

(** The loop behind: every fourth byte, if the object is large enough. *)
Lemma ino_tail_spec mem current len crc :
  Forall (fun b => is_u8 b) mem -> (current <= length mem)%nat ->
  ino_tail pgm_read_dword_near mem current len crc =
    if decide (current + 4 * len <= length mem)%nat
    then Done (fold_left bitwise_byte (strided mem current len) crc) else Stuck UB.
Proof using pgm_reads.
  intros Hm. revert current crc. induction len as [|len IH] => current crc Hcur; cbn [ino_tail].
  { rw decide_True //. lia. }
  destruct (decide (current + 4 <= length mem)%nat) as [Hfit|Hout].
  - rw read_word_fits //. unbind. rw ino_table_byte_spec; [|apply ino_lookup_0].
    pose proof (mem_word mem current Hm Hfit) as Hw. split_bytes.
    rw load32_le // strided_S fold_left_cons IH //.
    assert (le_bytes [mem !!! current; mem !!! (current + 1)%nat; mem !!! (current + 2)%nat;
                      mem !!! (current + 3)%nat] mod 2 ^ 8 = mem !!! current) as ->.
    { rw le_bytes_cons_add //. divmod. }
    repeat case_decide; done || lia.
  - rw read_word_outside; [|lia]. rw decide_False //. lia.
Qed.
(** The bytes a routine with blocks of [blk] bytes uses. *)
Definition sliced_bytes (blk : nat) (mem : list Z) (len : nat) : list Z :=
  take (blk * (len / blk)) mem ++ strided mem (blk * (len / blk)) (len mod blk).

Lemma takes_blocks_tail blk loop mem len prev :
  (0 < blk)%nat -> takes_blocks blk loop ->
  Forall (fun b => is_u8 b) mem -> (len <= length mem)%nat ->
  ('(current, len, crc) ← loop len mem 0%nat len (not32 prev);
   crc ← ino_tail pgm_read_dword_near mem current len crc;
   Done (not32 crc)) =
    if decide (blk * (len / blk) + 4 * (len mod blk) <= length mem)%nat
    then Done (crc32_bitwise (sliced_bytes blk mem len) prev) else Stuck UB.
Proof using pgm_reads.
  intros Hblk Hloop Hm Hlen. rw Hloop //; [|apply not32_range].
  unbind. rw ino_tail_spec //; [|pose proof (Nat.Div0.div_mod len blk); lia].
  cbn [Nat.add]. case_decide; [|done]. unbind.
  by rw /crc32_bitwise /sliced_bytes fold_bits_app drop_0.
Qed.

Lemma ino_crc32_4bytes_ok mem len prev :
  Forall (fun b => is_u8 b) mem -> (len <= length mem)%nat ->
  ino_crc32_4bytes pgm_read_dword_near mem len prev =
    if decide (4 * (len / 4) + 4 * (len mod 4) <= length mem)%nat
    then Done (crc32_bitwise (sliced_bytes 4 mem len) prev) else Stuck UB.
Proof using pgm_reads. apply takes_blocks_tail; [lia|apply ino_4bytes_takes]. Qed.

Lemma ino_crc32_8bytes_ok mem len prev :
  Forall (fun b => is_u8 b) mem -> (len <= length mem)%nat ->
  ino_crc32_8bytes pgm_read_dword_near mem len prev =
    if decide (8 * (len / 8) + 4 * (len mod 8) <= length mem)%nat
    then Done (crc32_bitwise (sliced_bytes 8 mem len) prev) else Stuck UB.
Proof using pgm_reads. apply takes_blocks_tail; [lia|apply ino_8bytes_takes]. Qed.

Lemma sliced_bytes_exact blk mem :
  (0 < blk)%nat -> (length mem mod blk = 0)%nat -> sliced_bytes blk mem (length mem) = mem.
Proof.
  intros Hblk Hmod. pose proof (Nat.Div0.div_mod (length mem) blk) as Hdiv.
  rewrite -> Hmod, Nat.add_0_r in Hdiv. rw /sliced_bytes Hmod -Hdiv.
  by rewrite -> take_ge, app_nil_r by done.
Qed.

Lemma ino_sliced_ok mem prev :
  Forall (fun b => is_u8 b) mem ->
  ino_crc32_4bytes pgm_read_dword_near mem (length mem) prev =
    (if decide (length mem mod 4 = 0)%nat then Done (crc32_bitwise mem prev) else Stuck UB) /\
  ino_crc32_8bytes pgm_read_dword_near mem (length mem) prev =
    (if decide (length mem mod 8 = 0)%nat then Done (crc32_bitwise mem prev) else Stuck UB).
Proof using pgm_reads.
  intros Hm. rw ino_crc32_4bytes_ok // ino_crc32_8bytes_ok //.
  pose proof (Nat.Div0.div_mod (length mem) 4). pose proof (Nat.Div0.div_mod (length mem) 8).
  split; case_decide; case_decide; try done; try lia; by rw sliced_bytes_exact //; lia.
Qed.

(** C35: the sliced routines of the Arduino program compute the checksum of
    an array when its length is a multiple of the slice, and read behind
    the array when it is not. *)
Theorem ino_sliced_exact mem prev :
  Forall (fun b => is_u8 b) mem ->
  ino_crc32_4bytes pgm_read_dword_near mem (length mem) prev =
    (if decide (length mem mod 4 = 0)%nat then Done (crc32_bitwise mem prev) else Stuck UB) /\
  ino_crc32_8bytes pgm_read_dword_near mem (length mem) prev =
    (if decide (length mem mod 8 = 0)%nat then Done (crc32_bitwise mem prev) else Stuck UB).
Proof using pgm_reads. exact (ino_sliced_ok mem prev). Qed.

Lemma ino_repeat_Done n v crc : ino_repeat (S n) (Done v) crc = Done v.
Proof. revert crc. induction n as [|n IH]; intros crc; [done|]. exact (IH v). Qed.

(** The benchmark keeps the last checksum. *)
Lemma ino_loop_Done data crc v :
  ino_crc32_bitwise data 0 = v -> ino_crc32_halfbyte pgm_read_dword_near data 0 = v ->
  ino_crc32_1byte pgm_read_dword_near data 0 = v ->
  ino_crc32_4bytes pgm_read_dword_near data ino_NumBytes 0 = Done v ->
  ino_crc32_8bytes pgm_read_dword_near data ino_NumBytes 0 = Done v ->
  ino_loop pgm_read_dword_near data crc = Done (replicate 5 v).
Proof.
  intros H1 H2 H3 H4 H5. rw /ino_loop H1 H2 H3 H4 H5.
  assert (exists n, ino_Repetitions - 1 = S n)%nat as [n ->]
    by (exists (pred (ino_Repetitions - 1)); vm_compute; reflexivity).
  rewrite -> ino_repeat_Done. unbind. rewrite -> ino_repeat_Done. unbind.
  rewrite -> ino_repeat_Done. unbind. rewrite -> ino_repeat_Done. unbind.
  rewrite -> ino_repeat_Done. reflexivity.
Qed.

Lemma ino_setup_bytes : ino_setup = seqZ 0 256.
Proof. vm_compute. reflexivity. Qed.

(** the five checksums the Arduino program prints are the same: those
    of the 256 bytes 0, 1, ..., 255. *)
Theorem ino_loop_agrees crc :
  ino_loop pgm_read_dword_near ino_setup crc = Done (replicate 5 (crc32_bitwise (seqZ 0 256) 0)).
Proof using pgm_reads.
  assert (Forall (fun b => is_u8 b) (seqZ 0 256)) as H by (apply Forall_seqZ; lia).
  rewrite -> ino_setup_bytes. destruct (ino_sliced_ok (seqZ 0 256) 0 H) as [H4 H8].
  rewrite -> decide_True, length_seqZ in H4, H8 by (rewrite -> length_seqZ; reflexivity).
  apply ino_loop_Done; [exact (checksum_spec _ _ H)..|exact H4|exact H8].
Qed.
End access.

Lemma ino_sliced_exact_witness :
  ino_crc32_8bytes (fun table i => nth i table 0) [1; 2; 3; 4; 5; 6; 7; 8] 8 0 =
    Done (crc32_bitwise [1; 2; 3; 4; 5; 6; 7; 8] 0) /\
  ino_crc32_4bytes (fun table i => nth i table 0) [1; 2; 3; 4; 5] 5 0 = Stuck UB.
Proof.
  split.
  - apply (ino_sliced_exact (fun table i => nth i table 0)
             (fun table i v => nth_lookup_Some table i 0 v) [1; 2; 3; 4; 5; 6; 7; 8] 0).
    forall_list lia.
  - apply (ino_sliced_exact (fun table i => nth i table 0)
             (fun table i v => nth_lookup_Some table i 0 v) [1; 2; 3; 4; 5] 0).
    forall_list lia.
Defined.

Lemma ino_loop_agrees_witness :
  ino_loop (fun table i => nth i table 0) ino_setup 7 = Done (replicate 5 (crc32_bitwise (seqZ 0 256) 0)).
Proof.
  apply (ino_loop_agrees (fun table i => nth i table 0) (fun table i v => nth_lookup_Some table i 0 v) 7).
Defined.
