(* ===== verification/Packet.v ===== *)
(** * Packet: src/packet.c and headers/packet.h

    The packet structure, its accessors, and the wire format: [unpack]
    decodes a datagram into a packet, [pack] encodes a packet into a
    buffer.  Both are translated statement by statement, on arrays whose
    accesses are checked: an access outside the array is [Stuck UB].

    The second half states the wire format declaratively ([wire_error],
    [decoded], [wire]) and proves that [unpack] and [pack] implement it. *)

From S2P Require Import Prelude Global Crc32.

(** ** Data *)

Inductive ptype_t : Type := IGNORE | DATA | ACK | NACK.

Global Instance ptype_t_eq_dec : EqDecision ptype_t.
Proof. solve_decision. Defined.

Definition ptype_val (t : ptype_t) : Z :=
  match t with IGNORE => 0 | DATA => 1 | ACK => 2 | NACK => 3 end.

(** The enumerator of a two-bit value. *)
Definition ptype_of (z : Z) : ptype_t :=
  match z with 1 => DATA | 2 => ACK | 3 => NACK | _ => IGNORE end.

Record packet_t := mk_packet {
  p_type : ptype_t;
  p_truncated : bool;
  p_window : Z;
  p_long_length : bool;
  p_length : Z;
  p_seqnum : Z;
  p_timestamp : Z;
  p_crc1 : Z;
  p_crc2 : Z;
  p_payload : list Z }.

(** Assignments to one field. *)
Definition with_type v p := mk_packet v p.(p_truncated) p.(p_window) p.(p_long_length)
  p.(p_length) p.(p_seqnum) p.(p_timestamp) p.(p_crc1) p.(p_crc2) p.(p_payload).
Definition with_truncated v p := mk_packet p.(p_type) v p.(p_window) p.(p_long_length)
  p.(p_length) p.(p_seqnum) p.(p_timestamp) p.(p_crc1) p.(p_crc2) p.(p_payload).
Definition with_window v p := mk_packet p.(p_type) p.(p_truncated) v p.(p_long_length)
  p.(p_length) p.(p_seqnum) p.(p_timestamp) p.(p_crc1) p.(p_crc2) p.(p_payload).
Definition with_long_length v p := mk_packet p.(p_type) p.(p_truncated) p.(p_window) v
  p.(p_length) p.(p_seqnum) p.(p_timestamp) p.(p_crc1) p.(p_crc2) p.(p_payload).
Definition with_length v p := mk_packet p.(p_type) p.(p_truncated) p.(p_window) p.(p_long_length)
  v p.(p_seqnum) p.(p_timestamp) p.(p_crc1) p.(p_crc2) p.(p_payload).
Definition with_seqnum v p := mk_packet p.(p_type) p.(p_truncated) p.(p_window) p.(p_long_length)
  p.(p_length) v p.(p_timestamp) p.(p_crc1) p.(p_crc2) p.(p_payload).
Definition with_timestamp v p := mk_packet p.(p_type) p.(p_truncated) p.(p_window) p.(p_long_length)
  p.(p_length) p.(p_seqnum) v p.(p_crc1) p.(p_crc2) p.(p_payload).
Definition with_crc1 v p := mk_packet p.(p_type) p.(p_truncated) p.(p_window) p.(p_long_length)
  p.(p_length) p.(p_seqnum) p.(p_timestamp) v p.(p_crc2) p.(p_payload).
Definition with_crc2 v p := mk_packet p.(p_type) p.(p_truncated) p.(p_window) p.(p_long_length)
  p.(p_length) p.(p_seqnum) p.(p_timestamp) p.(p_crc1) v p.(p_payload).
Definition with_payload v p := mk_packet p.(p_type) p.(p_truncated) p.(p_window) p.(p_long_length)
  p.(p_length) p.(p_seqnum) p.(p_timestamp) p.(p_crc1) p.(p_crc2) v.

(** ** Accessors *)

Definition get_length (self : packet_t) : Z := self.(p_length).
Definition is_long (self : packet_t) : bool := self.(p_long_length).
Definition get_payload (self : packet_t) : list Z := self.(p_payload).

Definition set_length (self : packet_t) (length : Z) : packet_t :=
  if MAX_PAYLOAD_SIZE <? length then self
  else
    let self := if negb (Z.land length 0x11111 =? length)
                then with_long_length true self else self in
    with_length length self.

(** [payload] is the array the argument points to; [len] bytes of it are
    copied, and the rest of the packet's payload is zeroed. *)
Definition set_payload (self : packet_t) (payload : list Z) (len : Z) : comp packet_t :=
  if MAX_PAYLOAD_SIZE <? len then Done self
  else
    let self := set_length self len in
    src ← slice payload 0 (Z.to_nat len);
    p ← memcpy self.(p_payload) 0 src;
    p ← memcpy p (Z.to_nat len) (replicate (Z.to_nat (MAX_PAYLOAD_SIZE - len)) 0);
    Done (with_payload p self).

(** A null pointer is [None]. *)
Definition init_packet (packet : option packet_t) : option packet_t * option errors_t :=
  match packet with
  | None => (None, Some NULL_ARGUMENT)
  | Some _ =>
      (Some (mk_packet IGNORE false 0 false 0 0 0 0 0
               (replicate (Z.to_nat MAX_PAYLOAD_SIZE) 0)), None)
  end.

(** [malloc] may fail; what it returns is otherwise arbitrary memory. *)
Definition allocate_packet (pack : option packet_t) : option packet_t :=
  match pack with
  | None => None
  | Some _ => match init_packet pack with (p, None) => p | (_, Some _) => None end
  end.

Definition ip_equals (ip1 ip2 : list Z) : bool :=
  bool_decide (take 16 ip1 = take 16 ip2).

(** ** unpack *)

(** [U32_FROM_BUFFER(buffer)] with [buffer] at offset [off]. *)
Definition u32_from_buffer (buf : list Z) (off : nat) : comp Z :=
  a ← rd buf off;
  b ← rd buf (off + 1);
  c ← rd buf (off + 2);
  d ← rd buf (off + 3);
  Done (Z.lor a (Z.lor (Z.shiftl b 8) (Z.lor (Z.shiftl c 16) (Z.shiftl d 24)))).

(** Sequence number, timestamp and header checksum, from offset [off];
    on success the offset and the remaining length go on. *)
Definition unpack_rest (packet : list Z) (off : nat) (length_rest : Z) (out : packet_t)
    : comp (packet_t * (errors_t + nat * Z)) :=
  let length_rest := length_rest - 1 in
  if length_rest <=? 0 then Done (out, inl PACKET_TOO_SHORT) else
  seqnum ← rd packet off;
  let out := with_seqnum seqnum out in
  let off := (off + 1)%nat in
  let length_rest := length_rest - 4 in
  if length_rest <=? 0 then Done (out, inl PACKET_TOO_SHORT) else
  ts ← u32_from_buffer packet off;
  let out := with_timestamp (ntohl ts) out in
  let off := (off + 4)%nat in
  let length_rest := length_rest - 4 in
  if length_rest <? 0 then Done (out, inl PACKET_TOO_SHORT) else
  crc1 ← u32_from_buffer packet off;
  let out := with_crc1 (ntohl crc1) out in
  Done (out, inr ((off + 4)%nat, length_rest)).

(** The header fields; [is_long] is the length flag. *)
Definition unpack_fields (packet : list Z) (length : Z) (out : packet_t)
    : comp (packet_t * (errors_t + nat * Z) * Z) :=
  let length_rest := length - 1 in
  if length_rest <=? 0 then Done (out, inl PACKET_TOO_SHORT, 0) else
  header ← rd packet 0;
  let out := with_type (ptype_of (Z.shiftr (Z.land header 0xC0) 6)) out in
  let out := with_truncated (negb (Z.shiftr (Z.land header 0x20) 5 =? 0)) out in
  let out := with_window (Z.land header 0x1F) out in
  let length_rest := length_rest - 1 in
  if length_rest <=? 0 then Done (out, inl PACKET_TOO_SHORT, 0) else
  size ← rd packet 1;
  let is_long := Z.shiftr (Z.land size 0x80) 7 in
  if negb (is_long =? 0) then
    let length_rest := length_rest - 1 in
    if length_rest <=? 0 then Done (out, inl PACKET_TOO_SHORT, is_long) else
    b ← rd packet 2;
    let out := with_long_length true out in
    let out := with_length (ntohs (Z.lor (Z.land size 0x7F) (Z.shiftl b 8))) out in
    r ← unpack_rest packet 3 length_rest out;
    Done (r, is_long)
  else
    let out := with_length (Z.land size 0x7F) out in
    let out := with_long_length false out in
    r ← unpack_rest packet 2 length_rest out;
    Done (r, is_long).

(** Payload and payload checksum, when the packet carries them. *)
Definition has_payload (out : packet_t) : bool :=
  bool_decide (out.(p_type) = DATA) && negb out.(p_truncated) && negb (out.(p_length) =? 0).

Definition unpack_payload (packet : list Z) (off : nat) (length_rest : Z) (out : packet_t)
    : comp (packet_t * (errors_t + Z)) :=
  if has_payload out then
    let length_rest := length_rest - out.(p_length) in
    if length_rest <? 4 then Done (out, inl PACKET_TOO_SHORT) else
    src ← slice packet off (Z.to_nat out.(p_length));
    payload ← memcpy out.(p_payload) 0 src;
    let out := with_payload payload out in
    let off := (off + Z.to_nat out.(p_length))%nat in
    let length_rest := length_rest - 4 in
    if length_rest <? 0 then Done (out, inl PACKET_TOO_SHORT) else
    crc2 ← u32_from_buffer packet off;
    Done (with_crc2 (ntohl crc2) out, inr length_rest)
  else Done (out, inr length_rest).

(** The checks after the payload has been read. *)
Definition unpack_final (length_rest : Z) (out : packet_t) : comp (option errors_t) :=
  if 0 <? length_rest then Done (Some PACKET_TOO_LONG) else
  if bool_decide (out.(p_type) = IGNORE) then Done (Some TYPE_IS_WRONG) else
  if bool_decide (out.(p_type) <> DATA) && out.(p_truncated)
  then Done (Some NON_DATA_TRUNCATED) else
  if MAX_PAYLOAD_SIZE <? out.(p_length) then Done (Some PAYLOAD_TOO_LONG) else
  if (0 <? out.(p_length)) && negb out.(p_truncated) then
    data ← slice out.(p_payload) 0 (Z.to_nat out.(p_length));
    if out.(p_crc2) =? crc32_16bytes data 0 then Done None
    else Done (Some PAYLOAD_VALIDATION_FAILED)
  else Done None.

(** The whole function: the datagram (whose truncation bit is cleared in
    place), the packet, and the return value. *)
Definition unpack (packet : list Z) (length : Z) (out : packet_t)
    : comp (list Z * packet_t * option errors_t) :=
  '(out, r, is_long) ← unpack_fields packet length out;
  match r with
  | inl e => Done (packet, out, Some e)
  | inr (off, length_rest) =>
      let len := 7 + is_long in
      header ← rd packet 0;
      packet ← wr packet 0 (Z.land header 0xDF);
      data ← slice packet 0 (Z.to_nat len);
      if negb (out.(p_crc1) =? crc32_8bytes data 0)
      then Done (packet, out, Some CRC_VALIDATION_FAILED) else
      if (length_rest =? 0) && has_payload out
      then Done (packet, out, Some PACKET_TOO_SHORT) else
      if MAX_PAYLOAD_SIZE <? out.(p_length)
      then Done (packet, out, Some PACKET_INCORRECT_LENGTH) else
      '(out, r) ← unpack_payload packet off length_rest out;
      match r with
      | inl e => Done (packet, out, Some e)
      | inr length_rest =>
          r ← unpack_final length_rest out;
          Done (packet, out, r)
      end
  end.

(** ** pack *)

(** Four [*packet++ = (uint8_t) (w >> ...)] assignments. *)
Definition put32 (packet : list Z) (off : nat) (w : Z) : comp (list Z) :=
  packet ← wr packet off (u8 w);
  packet ← wr packet (off + 1) (u8 (Z.shiftr w 8));
  packet ← wr packet (off + 2) (u8 (Z.shiftr w 16));
  wr packet (off + 3) (u8 (Z.shiftr w 24)).

(** The payload part, from offset [off]. *)
Definition pack_payload (packet : list Z) (off : nat) (in_ : packet_t) (recompute_crc2 : bool)
    : comp (list Z) :=
  if negb in_.(p_truncated) && bool_decide (in_.(p_type) = DATA) && (0 <? in_.(p_length)) then
    src ← slice in_.(p_payload) 0 (Z.to_nat in_.(p_length));
    packet ← memcpy packet off src;
    let off := (off + Z.to_nat in_.(p_length))%nat in
    let crc2 := if recompute_crc2 then htonl (crc32_16bytes src 0)
                else ntohl in_.(p_crc2) in
    put32 packet off crc2
  else Done packet.

(** Header checksum and truncation bit; [off] is the header's length. *)
Definition pack_rest (packet : list Z) (off : nat) (in_ : packet_t) (recompute_crc2 : bool)
    : comp (list Z) :=
  packet ← wr packet off in_.(p_seqnum);
  packet ← put32 packet (off + 1) (htonl in_.(p_timestamp));
  data ← slice packet 0 (off + 5);
  let crc1 := htonl (crc32_8bytes data 0) in
  header ← rd packet 0;
  packet ← wr packet 0 (Z.lor header (if in_.(p_truncated) then Z.shiftl 1 5 else 0));
  packet ← put32 packet (off + 5) crc1;
  pack_payload packet (off + 9) in_ recompute_crc2.

Definition pack (packet : option (list Z)) (in_ : option packet_t) (recompute_crc2 : bool)
    : comp (option (list Z) * option errors_t) :=
  match in_, packet with
  | Some in_, Some packet =>
      packet ← wr packet 0
        (u8 (Z.lor (Z.shiftl (ptype_val in_.(p_type)) 6) (Z.land in_.(p_window) 0x1F)));
      packet ←
        (if in_.(p_long_length) then
           let len := htons in_.(p_length) in
           packet ← wr packet 1 (u8 (Z.lor 0x80 (Z.land len 0x7F)));
           packet ← wr packet 2 (u8 (Z.shiftr len 7));
           pack_rest packet 3 in_ recompute_crc2
         else
           packet ← wr packet 1 (u8 (Z.land in_.(p_length) 0x7F));
           pack_rest packet 2 in_ recompute_crc2);
      Done (Some packet, None)
  | _, _ => Done (packet, Some NULL_ARGUMENT)
  end.

(** ** The wire format, declaratively *)

(** The big-endian 32-bit number at offset [off]. *)
Definition be32 (buf : list Z) (off : nat) : Z :=
  word_of (buf !!! (off + 3)%nat) (buf !!! (off + 2)%nat) (buf !!! (off + 1)%nat) (buf !!! off).

(** Bit 7 of the second byte announces a two-byte length. *)
Definition wire_long (buf : list Z) : bool := 2 ^ 7 <=? buf !!! 1%nat.

(** Header length: 11 bytes, or 12 with a two-byte length. *)
Definition hdr_len (buf : list Z) : nat := if wire_long buf then 12%nat else 11%nat.

(** The header fields; checksum 2 and payload are those of [out]. *)
Definition header_of (buf : list Z) (out : packet_t) : packet_t :=
  mk_packet
    (ptype_of (buf !!! 0%nat / 2 ^ 6))
    (Z.testbit (buf !!! 0%nat) 5)
    (buf !!! 0%nat mod 2 ^ 5)
    (wire_long buf)
    (if wire_long buf then (buf !!! 1%nat - 2 ^ 7) * 2 ^ 8 + buf !!! 2%nat else buf !!! 1%nat)
    (buf !!! (hdr_len buf - 9)%nat)
    (be32 buf (hdr_len buf - 8))
    (be32 buf (hdr_len buf - 4))
    out.(p_crc2) out.(p_payload).

(** What the header checksum is computed over: the header up to the
    checksum, with the truncation bit cleared. *)
Definition checked_header (buf : list Z) : list Z :=
  Z.clearbit (buf !!! 0%nat) 5 :: take (hdr_len buf - 5) (drop 1 buf).

(** The packet a valid datagram decodes to. *)
Definition decoded (buf : list Z) (out : packet_t) : packet_t :=
  let h := header_of buf out in
  if has_payload h then
    let n := Z.to_nat h.(p_length) in
    with_crc2 (be32 buf (hdr_len buf + n))
      (with_payload (take n (drop (hdr_len buf) buf) ++ drop n out.(p_payload)) h)
  else h.

(** The length a datagram with this header must have. *)
Definition wire_size (buf : list Z) (out : packet_t) : Z :=
  let h := header_of buf out in
  Z.of_nat (hdr_len buf) + (if has_payload h then h.(p_length) + 4 else 0).

(** The verdict on a datagram of [length] bytes: the first check that
    fails, or [None]. *)
Definition wire_error (buf : list Z) (length : Z) (out : packet_t) : option errors_t :=
  let h := header_of buf out in
  let d := decoded buf out in
  if length <? Z.of_nat (hdr_len buf) then Some PACKET_TOO_SHORT else
  if negb (h.(p_crc1) =? crc32_bitwise (checked_header buf) 0) then Some CRC_VALIDATION_FAILED else
  if has_payload h && (length =? Z.of_nat (hdr_len buf)) then Some PACKET_TOO_SHORT else
  if MAX_PAYLOAD_SIZE <? h.(p_length) then Some PACKET_INCORRECT_LENGTH else
  if length <? wire_size buf out then Some PACKET_TOO_SHORT else
  if wire_size buf out <? length then Some PACKET_TOO_LONG else
  if bool_decide (h.(p_type) = IGNORE) then Some TYPE_IS_WRONG else
  if bool_decide (h.(p_type) <> DATA) && h.(p_truncated) then Some NON_DATA_TRUNCATED else
  if (0 <? d.(p_length)) && negb d.(p_truncated) &&
     negb (d.(p_crc2) =? crc32_bitwise (take (Z.to_nat d.(p_length)) d.(p_payload)) 0)
  then Some PAYLOAD_VALIDATION_FAILED else None.

(** A packet structure as [unpack] expects it: a payload array of
    [MAX_PAYLOAD_SIZE] bytes. *)
Definition payload_ok (p : packet_t) : Prop :=
  length p.(p_payload) = Z.to_nat MAX_PAYLOAD_SIZE /\ Forall (fun b => is_u8 b) p.(p_payload).

Abbreviation bytes l := (Forall (fun b => is_u8 b) l).

(** ** Reading fields *)

Lemma byte_range buf i : bytes buf -> is_u8 (buf !!! i).
Proof.
  intros H. destruct (decide (i < length buf)%nat) as [Hi|Hi].
  - eapply Forall_lookup_total_1; [exact H|done].
  - rw list_lookup_total_alt lookup_ge_None_2 //; lia.
Qed.

Lemma u32_from_buffer_be32 buf off :
  bytes buf -> (off + 4 <= length buf)%nat ->
  exists w, u32_from_buffer buf off = Done w /\ ntohl w = be32 buf off.
Proof.
  intros Hb Hlen. rw /u32_from_buffer !rd_total; try lia. eexists. split; [done|].
  pose proof (byte_range buf off Hb). pose proof (byte_range buf (off + 1) Hb).
  pose proof (byte_range buf (off + 2) Hb). pose proof (byte_range buf (off + 3) Hb).
  by rw lor_word // /ntohl bswap32_word.
Qed.

Lemma unpack_rest_spec buf off rest out :
  bytes buf -> Z.of_nat off + rest <= Z.of_nat (length buf) ->
  if rest <? 9 then exists out', unpack_rest buf off rest out = Done (out', inl PACKET_TOO_SHORT)
  else unpack_rest buf off rest out =
    Done (with_crc1 (be32 buf (off + 5)) (with_timestamp (be32 buf (off + 1))
            (with_seqnum (buf !!! off) out)), inr ((off + 9)%nat, rest - 9)).
Proof.
  intros Hb Hlen. rw /unpack_rest.
  destruct (Z.leb_spec (rest - 1) 0).
  { destruct (Z.ltb_spec rest 9); [eauto|lia]. }
  rw rd_total; [|lia]. unbind.
  destruct (Z.leb_spec (rest - 1 - 4) 0).
  { destruct (Z.ltb_spec rest 9); [eauto|lia]. }
  destruct (u32_from_buffer_be32 buf (off + 1) Hb ltac:(lia)) as (ts & -> & Ets).
  unbind. rw Ets.
  destruct (Z.ltb_spec (rest - 1 - 4 - 4) 0).
  { destruct (Z.ltb_spec rest 9); [eauto|lia]. }
  destruct (u32_from_buffer_be32 buf (off + 1 + 4) Hb ltac:(lia)) as (c & -> & Ec).
  unbind. rw Ec.
  destruct (Z.ltb_spec rest 9); [lia|].
  replace (off + 1 + 4)%nat with (off + 5)%nat by lia.
  replace (off + 5 + 4)%nat with (off + 9)%nat by lia.
  do 4 f_equal. lia.
Qed.

(** The bit fields of the first two bytes. *)
Lemma header_bits b :
  is_u8 b ->
  Z.shiftr (Z.land b 0xC0) 6 = b / 2 ^ 6 /\
  negb (Z.shiftr (Z.land b 0x20) 5 =? 0) = Z.testbit b 5 /\
  Z.land b 0x1F = b mod 2 ^ 5 /\
  negb (Z.shiftr (Z.land b 0x80) 7 =? 0) = (2 ^ 7 <=? b) /\
  Z.shiftr (Z.land b 0x80) 7 = (if 2 ^ 7 <=? b then 1 else 0) /\
  Z.land b 0x7F = (if 2 ^ 7 <=? b then b - 2 ^ 7 else b) /\
  Z.land b 0xDF = Z.clearbit b 5.
Proof.
  intros Hb.
  assert (forallb (fun b => bool_decide (
    Z.shiftr (Z.land b 0xC0) 6 = b / 2 ^ 6 /\
    negb (Z.shiftr (Z.land b 0x20) 5 =? 0) = Z.testbit b 5 /\
    Z.land b 0x1F = b mod 2 ^ 5 /\
    negb (Z.shiftr (Z.land b 0x80) 7 =? 0) = (2 ^ 7 <=? b) /\
    Z.shiftr (Z.land b 0x80) 7 = (if 2 ^ 7 <=? b then 1 else 0) /\
    Z.land b 0x7F = (if 2 ^ 7 <=? b then b - 2 ^ 7 else b) /\
    Z.land b 0xDF = Z.clearbit b 5)) (seqZ 0 256) = true) as H by (vm_compute; reflexivity).
  exact (bool_decide_eq_true_1 _ (forallb_u8 _ H b Hb)).
Qed.

(** A failed parse of the header, and a completed one. *)
Lemma unpack_fields_spec buf len out :
  bytes buf -> len <= Z.of_nat (length buf) ->
  if len <? Z.of_nat (hdr_len buf)
  then exists out' l, unpack_fields buf len out = Done (out', inl PACKET_TOO_SHORT, l)
  else unpack_fields buf len out =
    Done (header_of buf out, inr (hdr_len buf, len - Z.of_nat (hdr_len buf)),
          if wire_long buf then 1 else 0).
Proof.
  intros Hb Hlen. rw /unpack_fields.
  assert (11 <= hdr_len buf <= 12)%nat as Hhdr by (rw /hdr_len; destruct (wire_long buf); lia).
  destruct (Z.leb_spec (len - 1) 0).
  { destruct (Z.ltb_spec len (Z.of_nat (hdr_len buf))); [eauto|lia]. }
  rw (rd_total buf 0); [|lia]. unbind.
  destruct (Z.leb_spec (len - 1 - 1) 0).
  { destruct (Z.ltb_spec len (Z.of_nat (hdr_len buf))); [eauto|lia]. }
  rw (rd_total buf 1); [|lia]. unbind.
  destruct (header_bits _ (byte_range buf 0 Hb)) as (-> & -> & -> & _).
  destruct (header_bits _ (byte_range buf 1 Hb)) as (_ & _ & _ & -> & -> & -> & _).
  rw /header_of. change (2 ^ 7 <=? buf !!! 1%nat) with (wire_long buf).
  rw /hdr_len in Hhdr |- *. destruct (wire_long buf) eqn:Hlong.
  - destruct (Z.leb_spec (len - 1 - 1 - 1) 0); [destruct (Z.ltb_spec len (Z.of_nat 12)); [eauto|lia]|].
    rw (rd_total buf 2); [|lia]. unbind.
    pose proof (byte_range buf 2 Hb) as Hb2. pose proof (byte_range buf 1 Hb) as Hb1.
    rw /wire_long in Hlong. apply Z.leb_le in Hlong.
    assert (ntohs (Z.lor (buf !!! 1%nat - 2 ^ 7) (Z.shiftl (buf !!! 2%nat) 8)) =
      (buf !!! 1%nat - 2 ^ 7) * 2 ^ 8 + buf !!! 2%nat) as ->.
    { rw lor_add_shiftl // /ntohs; [|lia]. rw bswap16_arith. divmod. }
    pose proof (unpack_rest_spec buf 3 (len - 1 - 1 - 1)
      (with_length ((buf !!! 1%nat - 2 ^ 7) * 2 ^ 8 + buf !!! 2%nat)
        (with_long_length true (with_window (buf !!! 0%nat mod 2 ^ 5)
          (with_truncated (Z.testbit (buf !!! 0%nat) 5)
            (with_type (ptype_of (buf !!! 0%nat / 2 ^ 6)) out))))) Hb ltac:(lia)) as Hr.
    destruct (Z.ltb_spec (len - 1 - 1 - 1) 9), (Z.ltb_spec len (Z.of_nat 12)); try lia.
    + destruct Hr as [out' ->]. cbn. eauto.
    + rw Hr. replace (len - 1 - 1 - 1 - 9) with (len - Z.of_nat 12) by lia. done.
  - pose proof (unpack_rest_spec buf 2 (len - 1 - 1)
      (with_long_length false (with_length (buf !!! 1%nat)
        (with_window (buf !!! 0%nat mod 2 ^ 5) (with_truncated (Z.testbit (buf !!! 0%nat) 5)
            (with_type (ptype_of (buf !!! 0%nat / 2 ^ 6)) out))))) Hb ltac:(lia)) as Hr.
    destruct (Z.ltb_spec (len - 1 - 1) 9), (Z.ltb_spec len (Z.of_nat 11)); try lia.
    + destruct Hr as [out' ->]. cbn. eauto.
    + rw Hr. replace (len - 1 - 1 - 9) with (len - Z.of_nat 11) by lia. done.
Qed.

Lemma unpack_payload_spec buf off rest out :
  bytes buf -> payload_ok out -> Z.of_nat off + rest <= Z.of_nat (length buf) ->
  0 <= out.(p_length) <= MAX_PAYLOAD_SIZE ->
  let n := Z.to_nat out.(p_length) in
  if has_payload out then
    if rest <? out.(p_length) + 4
    then exists out', unpack_payload buf off rest out = Done (out', inl PACKET_TOO_SHORT)
    else unpack_payload buf off rest out =
      Done (with_crc2 (be32 buf (off + n))
             (with_payload (take n (drop off buf) ++ drop n out.(p_payload)) out),
            inr (rest - (out.(p_length) + 4)))
  else unpack_payload buf off rest out = Done (out, inr rest).
Proof.
  intros Hb [Hpl _] Hlen HL n. rw /unpack_payload. destruct (has_payload out); [|done].
  rw /MAX_PAYLOAD_SIZE in HL, Hpl.
  destruct (Z.ltb_spec (rest - out.(p_length)) 4), (Z.ltb_spec rest (out.(p_length) + 4));
    try lia; [by eauto|].
  rw slice_fits; [|lia]. unbind.
  assert (length (take n (drop off buf)) = n) as Hn by (rw length_take length_drop; lia).
  rw memcpy_fits; [|rw Hn; lia]. rw Hn. cbn [mbind comp_bind p_length with_payload].
  destruct (Z.ltb_spec (rest - out.(p_length) - 4) 0); [lia|].
  destruct (u32_from_buffer_be32 buf (off + n) Hb ltac:(lia)) as (c & Ec & Ec').
  rw Ec. unbind. rw Ec'.
  by replace (rest - out.(p_length) - 4) with (rest - (out.(p_length) + 4)) by lia.
Qed.

Lemma unpack_final_spec rest out :
  0 <= rest -> payload_ok out -> 0 <= out.(p_length) <= MAX_PAYLOAD_SIZE ->
  unpack_final rest out = Done (
    if 0 <? rest then Some PACKET_TOO_LONG else
    if bool_decide (out.(p_type) = IGNORE) then Some TYPE_IS_WRONG else
    if bool_decide (out.(p_type) <> DATA) && out.(p_truncated) then Some NON_DATA_TRUNCATED else
    if (0 <? out.(p_length)) && negb out.(p_truncated) &&
       negb (out.(p_crc2) =? crc32_bitwise (take (Z.to_nat out.(p_length)) out.(p_payload)) 0)
    then Some PAYLOAD_VALIDATION_FAILED else None).
Proof.
  intros Hrest [Hpl Hb] HL. rw /unpack_final. rw /MAX_PAYLOAD_SIZE in HL, Hpl |- *.
  destruct (0 <? rest); [done|]. destruct (bool_decide _); [done|].
  destruct (bool_decide _ && _); [done|].
  destruct (Z.ltb_spec 512 out.(p_length)); [lia|].
  destruct ((0 <? _) && _); [|done]. cbn [andb].
  rw slice_fits; [|lia]. unbind. rw drop_0 crc32_16bytes_bitwise.
  - by destruct (_ =? _).
  - by apply Forall_take.
Qed.

(** Clearing the truncation bit in place changes no later byte. *)
Lemma insert_0_drop (buf : list Z) v off : (0 < off)%nat -> drop off (<[0%nat := v]> buf) = drop off buf.
Proof. intros. by rw drop_insert_lt. Qed.

Lemma insert_0_be32 (buf : list Z) v off : (0 < off)%nat -> be32 (<[0%nat := v]> buf) off = be32 buf off.
Proof. intros. rw /be32 !list_lookup_total_insert_ne //; lia. Qed.

Lemma checked_header_slice buf :
  (hdr_len buf <= length buf)%nat ->
  slice (<[0%nat := Z.clearbit (buf !!! 0%nat) 5]> buf) 0 (hdr_len buf - 4) =
  Done (checked_header buf).
Proof.
  intros Hlen. rw slice_fits; [|rw length_insert; lia]. rw drop_0 /checked_header.
  assert (11 <= hdr_len buf)%nat by (rw /hdr_len; destruct (wire_long buf); lia).
  destruct buf as [|b buf]; [simpl in *; lia|]. cbn [list_insert insert drop].
  destruct (hdr_len (b :: buf)) as [|n]; [lia|].
  replace (S n - 4)%nat with (S (S n - 5)) by lia. done.
Qed.

Lemma header_of_length_range buf out :
  bytes buf -> 0 <= (header_of buf out).(p_length) < 2 ^ 15.
Proof.
  intros Hb. pose proof (byte_range buf 1 Hb). pose proof (byte_range buf 2 Hb).
  rw /header_of /wire_long /=. destruct (Z.leb_spec (2 ^ 7) (buf !!! 1%nat)); lia.
Qed.

Lemma payload_ok_replace n (bs : list Z) (p : packet_t) :
  payload_ok p -> bytes bs -> length bs = n -> Z.of_nat n <= MAX_PAYLOAD_SIZE ->
  payload_ok (with_payload (bs ++ drop n p.(p_payload)) p).
Proof.
  rw /payload_ok /MAX_PAYLOAD_SIZE. intros [Hl Hb] Hbs <- Hn. split; cbn [p_payload with_payload].
  - rw length_app length_drop. lia.
  - apply Forall_app. split; [done|by apply Forall_drop].
Qed.

Lemma clearbit_range b : is_u8 b -> is_u8 (Z.clearbit b 5).
Proof.
  intros Hb. apply (bool_decide_eq_true_1 (is_u8 (Z.clearbit b 5))).
  revert b Hb. apply forallb_u8. vm_compute. reflexivity.
Qed.

Lemma checked_header_bytes buf : bytes buf -> bytes (checked_header buf).
Proof.
  intros Hb. rw /checked_header Forall_cons. split.
  - by apply clearbit_range, byte_range.
  - by apply Forall_take, Forall_drop.
Qed.

(** Closes a branch in which [unpack] has returned an error. *)
Ltac returned_error := do 2 eexists; split; [reflexivity|split; [done|discriminate]].

Lemma unpack_spec buf len out :
  bytes buf -> len <= Z.of_nat (length buf) -> payload_ok out ->
  exists buf' out', unpack buf len out = Done (buf', out', wire_error buf len out) /\
    length buf' = length buf /\
    (wire_error buf len out = None ->
       buf' = <[0%nat := Z.clearbit (buf !!! 0%nat) 5]> buf /\ out' = decoded buf out).
Proof.
  intros Hb Hlen Hok. rw /unpack /wire_error.
  pose proof (unpack_fields_spec buf len out Hb Hlen) as Hf.
  assert (11 <= hdr_len buf <= 12)%nat as Hhdr by (rw /hdr_len; destruct (wire_long buf); lia).
  destruct (Z.ltb_spec len (Z.of_nat (hdr_len buf))) as [Hshort|Hlong].
  { destruct Hf as (out' & l & ->). returned_error. }
  rw Hf. unbind. clear Hf.
  rw (rd_total buf 0); [|lia]. unbind. rw wr_lt; [|lia]. unbind.
  destruct (header_bits _ (byte_range buf 0 Hb)) as (_ & _ & _ & _ & _ & _ & ->).
  replace (Z.to_nat (7 + (if wire_long buf then 1 else 0))) with (hdr_len buf - 4)%nat
    by (rw /hdr_len; destruct (wire_long buf); lia).
  rw checked_header_slice; [|lia]. unbind.
  rw crc32_8bytes_bitwise; [|by apply checked_header_bytes].
  set (buf1 := <[0%nat := Z.clearbit (buf !!! 0%nat) 5]> buf).
  assert (length buf1 = length buf) as Hlen1 by apply length_insert.
  assert (bytes buf1) as Hb1 by (apply Forall_insert, clearbit_range, byte_range; done).
  destruct (negb _); [by returned_error|].
  set (h := header_of buf out). set (L := h.(p_length)).
  assert (payload_ok h) as Hokh by exact Hok.
  pose proof (header_of_length_range buf out Hb) as HL. fold h L in HL.
  replace (len - Z.of_nat (hdr_len buf) =? 0) with (len =? Z.of_nat (hdr_len buf)) by lia.
  rw (andb_comm (len =? _)). destruct (has_payload h && _) eqn:Hnopl; [by returned_error|].
  destruct (Z.ltb_spec MAX_PAYLOAD_SIZE L) as [|HLmax]; [by returned_error|].
  pose proof (unpack_payload_spec buf1 (hdr_len buf) (len - Z.of_nat (hdr_len buf)) h Hb1 Hokh
    ltac:(lia) ltac:(lia)) as Hp.
  rw /wire_size /decoded -/h -/L. fold L in Hp. destruct (has_payload h) eqn:Hhas.
  - destruct (Z.ltb_spec (len - Z.of_nat (hdr_len buf)) (L + 4)) as [Hs|Hs],
      (Z.ltb_spec len (Z.of_nat (hdr_len buf) + (L + 4))); try lia.
    { destruct Hp as [out' ->]. returned_error. }
    rw Hp. unbind. rw insert_0_be32; [|lia]. rw insert_0_drop; [|lia].
    rw unpack_final_spec; cbn [p_length p_type p_truncated p_crc2 p_payload with_crc2 with_payload];
      [|lia| |exact (conj (proj1 HL) HLmax)].
    + replace (0 <? len - Z.of_nat (hdr_len buf) - (L + 4))
        with (Z.of_nat (hdr_len buf) + (L + 4) <? len) by lia.
      do 2 eexists. split; [reflexivity|done].
    + apply payload_ok_replace; [done|by apply Forall_take, Forall_drop| |lia].
      rw length_take length_drop. lia.
  - destruct (Z.ltb_spec len (Z.of_nat (hdr_len buf) + 0)); [lia|].
    rw Hp. unbind. rw unpack_final_spec; [|lia|done|exact (conj (proj1 HL) HLmax)].
    replace (0 <? len - Z.of_nat (hdr_len buf)) with (Z.of_nat (hdr_len buf) + 0 <? len) by lia.
    do 2 eexists. split; [reflexivity|done].
Qed.

(** Splits a computation that is known to finish into its steps. *)
Ltac comp_steps H :=
  repeat first
    [ progress simplify_eq/=
    | match type of H with
      | context [match ?x with _ => _ end] =>
          lazymatch x with
          | context [match _ with _ => _ end] => fail
          | _ => destruct x eqn:?
          end
      end ].

(** Reading the header does not touch the payload. *)
Lemma unpack_rest_payload buf off rest out out' r :
  unpack_rest buf off rest out = Done (out', r) -> out'.(p_payload) = out.(p_payload).
Proof. rw /unpack_rest /mbind /comp_bind. intros H. comp_steps H; done. Qed.

Lemma unpack_fields_payload buf len out out' r l :
  unpack_fields buf len out = Done (out', r, l) -> out'.(p_payload) = out.(p_payload).
Proof.
  rw /unpack_fields /mbind /comp_bind. intros H.
  comp_steps H; try done; match goal with E : unpack_rest _ _ _ _ = Done (_, _) |- _ =>
    by rw (unpack_rest_payload _ _ _ _ _ _ E) end.
Qed.

Lemma unpack_payload_ok buf off rest out out' r :
  bytes buf -> payload_ok out -> unpack_payload buf off rest out = Done (out', r) -> payload_ok out'.
Proof.
  intros Hb [Hl Hp]. rw /unpack_payload /slice /memcpy /mbind /comp_bind. intros H.
  comp_steps H; rw /payload_ok; cbn; try done.
  all: match goal with H : (length (take _ _) <= _)%nat |- _ =>
    pose proof H as Hn; rewrite -> length_take, length_drop in Hn end.
  all: split; [rewrite -> length_app, length_drop, !length_take, !length_drop; lia|].
  all: apply Forall_app; split; [by apply Forall_take, Forall_drop|by apply Forall_drop].
Qed.

(** Whatever its verdict, [unpack] leaves a packet structure and a datagram
    of the same shape. *)
Lemma unpack_shape buf len out buf' out' r :
  bytes buf -> payload_ok out -> unpack buf len out = Done (buf', out', r) ->
  payload_ok out' /\ length buf' = length buf /\ bytes buf'.
Proof.
  intros Hb Hok. rw /unpack /mbind {1}/comp_bind.
  destruct (unpack_fields buf len out) as [[[out1 r1] l]|] eqn:E1; [|done].
  apply unpack_fields_payload in E1.
  assert (payload_ok out1) as Hok1 by by rw /payload_ok E1.
  destruct r1 as [e|[off rest]]; [by intros [= <- <- _]|].
  rw {1}/comp_bind. destruct (rd buf 0) as [b|] eqn:Eb; [|done]. apply rd_Done in Eb.
  assert (is_u8 (Z.land b 0xDF)) as Hb0.
  { rewrite -> Forall_lookup in Hb. pose proof (Hb _ _ Eb).
    split; [apply Z.land_nonneg; lia|].
    destruct (Z.eq_dec (Z.land b 0xDF) 0) as [->|]; [done|].
    apply Z.log2_lt_cancel. eapply Z.le_lt_trans; [apply Z.log2_land; lia|].
    apply Z.min_lt_iff. right. done. }
  rw /wr Eb {1}/comp_bind. set (buf1 := <[0%nat := Z.land b 0xDF]> buf).
  assert (length buf1 = length buf) as Hlen by apply length_insert.
  assert (bytes buf1) as Hb1 by by apply Forall_insert.
  rw {1}/comp_bind. destruct (slice buf1 0 _) as [data|]; [|done].
  destruct (negb _); [by intros [= <- <- _]|].
  destruct (_ && _); [by intros [= <- <- _]|].
  destruct (MAX_PAYLOAD_SIZE <? _); [by intros [= <- <- _]|].
  rw {1}/comp_bind. destruct (unpack_payload buf1 off rest out1) as [[out2 r2]|] eqn:E2; [|done].
  apply unpack_payload_ok in E2; [|done..].
  destruct r2 as [e|rest2]; [by intros [= <- <- _]|].
  rw /comp_bind. destruct (unpack_final rest2 out2); [|done]. by intros [= <- <- _].
Qed.

(** ** The encoding, declaratively *)

(** The four bytes of a word, most significant first. *)
Definition be_bytes (w : Z) : list Z :=
  [(w / 2 ^ 24) mod 2 ^ 8; (w / 2 ^ 16) mod 2 ^ 8; (w / 2 ^ 8) mod 2 ^ 8; w mod 2 ^ 8].

(** The length field.  The two-byte form is what the code writes: its
    second byte is twice the low byte of the length. *)
Definition len_bytes (p : packet_t) : list Z :=
  if p.(p_long_length)
  then [2 ^ 7 + (p.(p_length) / 2 ^ 8) mod 2 ^ 7;
        (2 * (p.(p_length) mod 2 ^ 8) + p.(p_length) / 2 ^ 15) mod 2 ^ 8]
  else [p.(p_length) mod 2 ^ 7].

(** Type and window; the truncation bit is clear. *)
Definition first_byte (p : packet_t) : Z :=
  ptype_val p.(p_type) * 2 ^ 6 + p.(p_window) mod 2 ^ 5.

(** The header up to the checksum. *)
Definition header_bytes (p : packet_t) : list Z :=
  first_byte p :: len_bytes p ++ p.(p_seqnum) :: be_bytes p.(p_timestamp).

Definition carries_payload (p : packet_t) : bool :=
  negb p.(p_truncated) && bool_decide (p.(p_type) = DATA) && (0 <? p.(p_length)).

Definition payload_bytes (p : packet_t) : list Z :=
  take (Z.to_nat p.(p_length)) p.(p_payload).

(** The datagram of a packet. *)
Definition wire (p : packet_t) (recompute_crc2 : bool) : list Z :=
  (first_byte p + (if p.(p_truncated) then 2 ^ 5 else 0)) :: tail (header_bytes p) ++
  be_bytes (crc32_bitwise (header_bytes p) 0) ++
  (if carries_payload p
   then payload_bytes p ++
        be_bytes (if recompute_crc2 then crc32_bitwise (payload_bytes p) 0 else p.(p_crc2))
   else []).

(** The ranges of the fields' C types, and a payload that fits. *)
Definition fields_ok (p : packet_t) : Prop :=
  is_u8 p.(p_seqnum) /\ is_u32 p.(p_timestamp) /\ is_u32 p.(p_crc2) /\
  is_u16 p.(p_length) /\ payload_ok p /\
  (carries_payload p = true -> p.(p_length) <= MAX_PAYLOAD_SIZE).

(** ** Writing fields *)

Lemma wr_app {A} (pre post : list A) k v :
  (k < length post)%nat ->
  wr (pre ++ post) (length pre + k) v = Done (pre ++ <[k := v]> post).
Proof.
  intros Hk. rw wr_lt; [|rw length_app; lia]. f_equal. by rw insert_app_r.
Qed.

Lemma wr_app_0 {A} (pre post : list A) v :
  (0 < length post)%nat -> wr (pre ++ post) (length pre) v = Done (pre ++ <[0%nat := v]> post).
Proof. intros. rw -(wr_app pre post 0) // Nat.add_0_r //. Qed.

Lemma put32_app pre a b c d post w :
  put32 (pre ++ a :: b :: c :: d :: post) (length pre) w =
  Done (pre ++ u8 w :: u8 (Z.shiftr w 8) :: u8 (Z.shiftr w 16) :: u8 (Z.shiftr w 24) :: post).
Proof.
  rw /put32 (wr_app_0 pre); [|simpl; lia]. cbn [mbind comp_bind insert list_insert].
  rw wr_app; [|simpl; lia]. cbn [mbind comp_bind insert list_insert].
  rw wr_app; [|simpl; lia]. cbn [mbind comp_bind insert list_insert].
  rw wr_app; [|simpl; lia]. done.
Qed.

Lemma htonl_bytes w :
  is_u32 w ->
  [u8 (htonl w); u8 (Z.shiftr (htonl w) 8); u8 (Z.shiftr (htonl w) 16);
   u8 (Z.shiftr (htonl w) 24)] = be_bytes w.
Proof.
  intros Hw. rw !Z.shiftr_div_pow2 // /u8 /be_bytes /htonl.
  rw {1 2 3 4}(word_of_inv w Hw) bswap32_word; try apply u8_mod_range.
  destruct (word_of_bytes ((w / 2 ^ 24) mod 2 ^ 8) ((w / 2 ^ 16) mod 2 ^ 8)
    ((w / 2 ^ 8) mod 2 ^ 8) (w mod 2 ^ 8)) as (-> & -> & -> & -> & _); try apply u8_mod_range.
  done.
Qed.

Lemma put32_htonl pre a b c d post w :
  is_u32 w ->
  put32 (pre ++ a :: b :: c :: d :: post) (length pre) (htonl w) = Done (pre ++ be_bytes w ++ post).
Proof. intros. rw put32_app -(htonl_bytes w) //. Qed.

Lemma pack_payload_spec pre buf p (rc : bool) :
  fields_ok p ->
  let body : list Z := if carries_payload p
    then payload_bytes p ++
         be_bytes (if rc then crc32_bitwise (payload_bytes p) 0 else p.(p_crc2))
    else [] in
  (length body <= length buf)%nat ->
  pack_payload (pre ++ buf) (length pre) p rc = Done (pre ++ body ++ drop (length body) buf).
Proof.
  intros (_ & _ & Hcrc2 & HL & [Hpl Hpb] & Hfit) body Hlen. rw /pack_payload.
  fold (carries_payload p). subst body. destruct (carries_payload p); [|done].
  specialize (Hfit eq_refl). rw /MAX_PAYLOAD_SIZE in Hfit, Hpl.
  rw slice_fits; [|lia]. unbind. rw drop_0 -/(payload_bytes p).
  assert (length (payload_bytes p) = Z.to_nat p.(p_length)) as Hn
    by (rw /payload_bytes length_take; lia).
  rewrite -> length_app, Hn in Hlen |- *. cbn [length be_bytes] in Hlen |- *.
  rw memcpy_fits; [|rw length_app; lia]. unbind.
  rw take_app_length Hn drop_app_add.
  assert (exists a b c d post, drop (Z.to_nat p.(p_length)) buf = a :: b :: c :: d :: post /\
    post = drop (Z.to_nat p.(p_length) + 4) buf) as (a & b & c & d & post & Hdrop & ->).
  { rw -drop_drop. assert (4 <= length (drop (Z.to_nat p.(p_length)) buf))%nat
      by (rw length_drop; lia).
    destruct (drop _ buf) as [|a [|b [|c [|d post]]]]; try (simpl in *; lia). by eauto 10. }
  rw Hdrop app_assoc -Hn -length_app.
  assert (is_u32 (if rc then crc32_bitwise (payload_bytes p) 0 else p.(p_crc2))) as Hw
    by (destruct rc; [apply crc32_bitwise_range|done]).
  assert ((if rc then htonl (crc32_16bytes (payload_bytes p) 0) else ntohl p.(p_crc2)) =
    htonl (if rc then crc32_bitwise (payload_bytes p) 0 else p.(p_crc2))) as ->.
  { destruct rc; [|done]. f_equal. apply crc32_16bytes_bitwise. by apply Forall_take. }
  rw put32_htonl //. by rw -!app_assoc Hn.
Qed.

Lemma put32_htonl_at pre off a b c d post w :
  off = length pre -> is_u32 w ->
  put32 (pre ++ a :: b :: c :: d :: post) off (htonl w) = Done (pre ++ be_bytes w ++ post).
Proof. intros ->. apply put32_htonl. Qed.

Lemma be_bytes_bytes w : bytes (be_bytes w).
Proof. rw /be_bytes. forall_list ltac:(apply u8_mod_range). Qed.

Lemma first_byte_range p : is_u8 (first_byte p).
Proof.
  rw /first_byte. pose proof (Z.mod_pos_bound p.(p_window) (2 ^ 5) ltac:(lia)).
  destruct p.(p_type); simpl; lia.
Qed.

Lemma first_byte_truncated p :
  Z.lor (first_byte p) (if p.(p_truncated) then Z.shiftl 1 5 else 0) =
  first_byte p + (if p.(p_truncated) then 2 ^ 5 else 0).
Proof.
  destruct p.(p_truncated); [|by rw Z.lor_0_r Z.add_0_r].
  rw /first_byte. pose proof (Z.mod_pos_bound p.(p_window) (2 ^ 5) ltac:(lia)) as Hw.
  revert Hw. generalize (p.(p_window) mod 2 ^ 5). intros w Hw.
  assert (forallb (fun w => forallb (fun t => Z.lor (t * 2 ^ 6 + w) 32 =? t * 2 ^ 6 + w + 2 ^ 5)
    (seqZ 0 4)) (seqZ 0 32) = true) as H by (vm_compute; reflexivity).
  rewrite -> forallb_forall in H. specialize (H w). rewrite -> forallb_forall in H.
  apply Z.eqb_eq, H; apply list_elem_of_In, elem_of_seqZ; [lia|].
  destruct p.(p_type); simpl; lia.
Qed.

Lemma len_bytes_bytes p : is_u16 p.(p_length) -> bytes (len_bytes p).
Proof.
  intros. rw /len_bytes. destruct p.(p_long_length); forall_list ltac:(divmod).
Qed.

Lemma header_bytes_bytes p : fields_ok p -> bytes (header_bytes p).
Proof.
  intros (Hs & _ & _ & HL & _). rw /header_bytes Forall_cons Forall_app Forall_cons.
  split; [apply first_byte_range|]. split; [by apply len_bytes_bytes|].
  split; [done|apply be_bytes_bytes].
Qed.

Lemma pack_rest_spec p (rc : bool) buf :
  fields_ok p ->
  (length (wire p rc) <= 1 + length (len_bytes p) + length buf)%nat ->
  pack_rest (first_byte p :: len_bytes p ++ buf) (1 + length (len_bytes p)) p rc =
  Done (wire p rc ++ drop (length (wire p rc)) (first_byte p :: len_bytes p ++ buf)).
Proof.
  intros Hok Hlen. rw /pack_rest.
  pose proof (header_bytes_bytes p Hok) as Hhb. pose proof Hok as (_ & Hts & _).
  set (pre := first_byte p :: len_bytes p).
  change (first_byte p :: len_bytes p ++ buf) with (pre ++ buf).
  change (1 + length (len_bytes p))%nat with (length pre) in Hlen |- *.
  set (body := if carries_payload p then payload_bytes p ++
    be_bytes (if rc then crc32_bitwise (payload_bytes p) 0 else p.(p_crc2)) else []).
  assert (wire p rc = (first_byte p + (if p.(p_truncated) then 2 ^ 5 else 0)) ::
    len_bytes p ++ [p.(p_seqnum)] ++ be_bytes p.(p_timestamp) ++
    be_bytes (crc32_bitwise (header_bytes p) 0) ++ body) as Hwire.
  { rw /wire /header_bytes /body /= -!app_assoc //. }
  assert (length (wire p rc) = length pre + 9 + length body)%nat as Hwl.
  { rw Hwire. cbn [length]. rw !length_app. cbn [length be_bytes pre]. lia. }
  rewrite -> Hwl in Hlen |- *. rw Hwire. clear Hwire Hwl.
  destruct buf as [|s [|t0 [|t1 [|t2 [|t3 [|c0 [|c1 [|c2 [|c3 buf]]]]]]]]];
    try (cbn [length] in Hlen; lia).
  rw -Nat.add_assoc drop_app_add -/body. cbn [Nat.add drop].
  rw wr_app_0; [|simpl; lia]. cbn [mbind comp_bind insert list_insert].
  rw (cons_middle p.(p_seqnum)) app_assoc put32_htonl_at //; [|rw length_app //].
  unbind.
  assert (header_bytes p = (pre ++ [p.(p_seqnum)]) ++ be_bytes p.(p_timestamp)) as Hhdr.
  { by rw /header_bytes /pre -app_assoc. }
  rw app_assoc -Hhdr. assert (length (header_bytes p) = length pre + 5)%nat as Hhl
    by (rw Hhdr !length_app /=; lia).
  rw slice_fits; [|rw length_app; lia]. unbind.
  rw drop_0 -Hhl take_app_length crc32_8bytes_bitwise //.
  set (hb := header_bytes p) in *.
  assert (rd (hb ++ c0 :: c1 :: c2 :: c3 :: buf) 0 = Done (first_byte p)) as -> by done.
  unbind. rw first_byte_truncated.
  set (b0 := first_byte p + _).
  assert (wr (hb ++ c0 :: c1 :: c2 :: c3 :: buf) 0 b0 =
    Done ((b0 :: tail hb) ++ c0 :: c1 :: c2 :: c3 :: buf)) as -> by done.
  assert (length (b0 :: tail hb) = length hb) as Hl by done.
  unbind. rw put32_htonl_at //; [|apply crc32_bitwise_range].
  unbind. rw app_assoc.
  replace (length pre + 9)%nat with (length ((b0 :: tail hb) ++ be_bytes (crc32_bitwise hb 0)))
    by (rw length_app Hl Hhl; cbn [length be_bytes]; lia).
  rw pack_payload_spec // -/body; [|cbn [length] in Hlen; lia].
  rw -!app_assoc. cbn [app]. do 2 f_equal. rw /hb /header_bytes. cbn [tail].
  by rw -!app_assoc.
Qed.

Lemma pack_spec p (rc : bool) buf :
  fields_ok p -> (length (wire p rc) <= length buf)%nat ->
  pack (Some buf) (Some p) rc = Done (Some (wire p rc ++ drop (length (wire p rc)) buf), None).
Proof.
  intros Hok Hlen. rw /pack.
  assert (u8 (Z.lor (Z.shiftl (ptype_val p.(p_type)) 6) (Z.land p.(p_window) 0x1F)) =
    first_byte p) as ->.
  { rw land_0x1F lor_shiftl_add //; [|divmod]. apply Z.mod_small, first_byte_range. }
  pose proof Hok as (_ & _ & _ & HL & _).
  pose proof (pack_rest_spec p rc) as Hrest.
  assert (length (len_bytes p) + 10 <= length (wire p rc))%nat as Hw.
  { rw /wire /header_bytes. cbn [length tail]. rw !length_app. cbn [length be_bytes]. lia. }
  rw /len_bytes in Hrest, Hw. destruct p.(p_long_length) eqn:Hlong; cbn [length] in Hw.
  - assert (u8 (Z.lor 0x80 (Z.land (htons p.(p_length)) 0x7F)) =
      2 ^ 7 + (p.(p_length) / 2 ^ 8) mod 2 ^ 7) as ->.
    { rw land_0x7F /htons bswap16_arith (lor_shiftl_add 1 _ 7) // /u8; [|divmod].
      divmod. }
    assert (u8 (Z.shiftr (htons p.(p_length)) 7) =
      (2 * (p.(p_length) mod 2 ^ 8) + p.(p_length) / 2 ^ 15) mod 2 ^ 8) as ->.
    { rw Z.shiftr_div_pow2 // /htons bswap16_arith /u8. divmod. }
    destruct buf as [|x0 [|x1 [|x2 buf]]]; try (cbn [length] in Hlen; lia).
    cbn [wr lookup list_lookup mbind comp_bind insert list_insert].
    specialize (Hrest buf Hok). cbn [length app Nat.add] in Hrest, Hlen. rw Hrest; [|lia].
    unbind. destruct (length (wire p rc)) as [|[|[|n]]]; try lia. done.
  - assert (u8 (Z.land p.(p_length) 0x7F) = p.(p_length) mod 2 ^ 7) as ->
      by (rw land_0x7F /u8; divmod).
    destruct buf as [|x0 [|x1 buf]]; try (cbn [length] in Hlen; lia).
    cbn [wr lookup list_lookup mbind comp_bind insert list_insert].
    specialize (Hrest buf Hok). cbn [length app Nat.add] in Hrest, Hlen. rw Hrest; [|lia].
    unbind. destruct (length (wire p rc)) as [|[|n]]; try lia. done.
Qed.

(** ** Round trip *)

(** A packet that a sender may put on the wire with a one-byte length. *)
Record sendable (p : packet_t) : Prop := {
  s_fields : fields_ok p;
  s_short : p.(p_long_length) = false;
  s_length : p.(p_length) < 2 ^ 7;
  s_window : 0 <= p.(p_window) < 2 ^ 5;
  s_type : p.(p_type) <> IGNORE;
  s_truncated : p.(p_truncated) = true -> p.(p_type) = DATA;
  s_empty : p.(p_type) <> DATA -> p.(p_length) = 0 }.

(** What the receiver of [p] finds in its structure [out]. *)
Definition delivered (p out : packet_t) : packet_t :=
  mk_packet p.(p_type) p.(p_truncated) p.(p_window) false p.(p_length) p.(p_seqnum)
    p.(p_timestamp) (crc32_bitwise (header_bytes p) 0)
    (if carries_payload p then crc32_bitwise (payload_bytes p) 0 else out.(p_crc2))
    (if carries_payload p
     then payload_bytes p ++ drop (Z.to_nat p.(p_length)) out.(p_payload)
     else out.(p_payload)).

Lemma be32_app pre off w post :
  off = length pre -> is_u32 w -> be32 (pre ++ be_bytes w ++ post) off = w.
Proof.
  intros -> Hw. rw /be32 {5}(word_of_inv w Hw).
  assert (forall k, (pre ++ be_bytes w ++ post) !!! (length pre + k)%nat =
    (be_bytes w ++ post) !!! k) as H.
  { intros k. rw lookup_total_app_r; [|lia]. f_equal. lia. }
  pose proof (H 0%nat) as H0. rewrite -> Nat.add_0_r in H0. rw !H H0 //.
Qed.

Lemma first_byte_fields p (b := first_byte p + (if p.(p_truncated) then 2 ^ 5 else 0)) :
  0 <= p.(p_window) < 2 ^ 5 ->
  ptype_of (b / 2 ^ 6) = p.(p_type) /\ Z.testbit b 5 = p.(p_truncated) /\
  b mod 2 ^ 5 = p.(p_window) /\ Z.clearbit b 5 = first_byte p /\ is_u8 b.
Proof.
  intros Hw. subst b. rw /first_byte Z.mod_small //.
  set (t := ptype_val p.(p_type)). assert (0 <= t < 4) by (subst t; destruct p.(p_type); simpl; lia).
  set (tr := if p.(p_truncated) then 2 ^ 5 else 0).
  assert ((t * 2 ^ 6 + p.(p_window) + tr) / 2 ^ 6 = t) as ->
    by (subst tr; destruct p.(p_truncated); divmod).
  assert (forallb (fun w => forallb (fun t => 
      eqb (Z.testbit (t * 2 ^ 6 + w) 5) false && eqb (Z.testbit (t * 2 ^ 6 + w + 32) 5) true &&
      (Z.clearbit (t * 2 ^ 6 + w) 5 =? t * 2 ^ 6 + w) &&
      (Z.clearbit (t * 2 ^ 6 + w + 32) 5 =? t * 2 ^ 6 + w))
    (seqZ 0 4)) (seqZ 0 32) = true) as H' by (vm_compute; reflexivity).
  rewrite -> forallb_forall in H'. specialize (H' p.(p_window)
    ltac:(apply list_elem_of_In, elem_of_seqZ; lia)).
  rewrite -> forallb_forall in H'. specialize (H' t ltac:(apply list_elem_of_In, elem_of_seqZ; lia)).
  rewrite -> !andb_true_iff, !Z.eqb_eq, !eqb_true_iff in H'. destruct H' as [[[H1 H2] H3] H4].
  split; [by subst t; destruct p.(p_type)|].
  subst tr. destruct p.(p_truncated); rw ?Z.add_0_r ?H1 ?H2 ?H3 ?H4; split_and!; try done; divmod.
Qed.

(** The part of the datagram after the header. *)
Definition wire_body (p : packet_t) (rc : bool) : list Z :=
  if carries_payload p
  then payload_bytes p ++
       be_bytes (if rc then crc32_bitwise (payload_bytes p) 0 else p.(p_crc2))
  else [].

Section round_trip.
Context (p out : packet_t) (rc : bool) (rest : list Z).
Context (Hp : sendable p) (Hout : payload_ok out) (Hrest : bytes rest).
Context (Hcrc2 : rc = true \/
  (carries_payload p = true -> p.(p_crc2) = crc32_bitwise (payload_bytes p) 0)).

Let buf := wire p rc ++ rest.
Let b0 := first_byte p + (if p.(p_truncated) then 2 ^ 5 else 0).
Let crc1 := crc32_bitwise (header_bytes p) 0.

Lemma sendable_length : 0 <= p.(p_length) < 2 ^ 7.
Proof. pose proof (s_length _ Hp). destruct (s_fields _ Hp) as (_ & _ & _ & ? & _). lia. Qed.

Lemma wire_form :
  buf = [b0; p.(p_length); p.(p_seqnum)] ++ be_bytes p.(p_timestamp) ++
        be_bytes crc1 ++ wire_body p rc ++ rest.
Proof.
  rw /buf /wire /header_bytes /len_bytes (s_short _ Hp) (Z.mod_small p.(p_length)); [|apply sendable_length].
  cbn [tail app]. rw /crc1 /header_bytes /len_bytes (s_short _ Hp) (Z.mod_small p.(p_length));
    [|apply sendable_length]. by rw -!app_assoc.
Qed.

Lemma wire_not_long : wire_long buf = false.
Proof.
  rw /wire_long wire_form. cbn -[Z.leb]. pose proof sendable_length. apply Z.leb_gt. 
  cbn. lia.
Qed.

Lemma wire_hdr_len : hdr_len buf = 11%nat.
Proof. by rw /hdr_len wire_not_long. Qed.

Lemma wire_header_of :
  header_of buf out = mk_packet p.(p_type) p.(p_truncated) p.(p_window) false p.(p_length)
    p.(p_seqnum) p.(p_timestamp) crc1 out.(p_crc2) out.(p_payload).
Proof.
  destruct (first_byte_fields p (s_window _ Hp)) as (H1 & H2 & H3 & _).
  destruct (s_fields _ Hp) as (_ & Hts & _).
  rw /header_of wire_hdr_len wire_not_long wire_form.
  rw (be32_app [b0; p.(p_length); p.(p_seqnum)]) //.
  rw (app_assoc [_; _; _]) (be32_app _ (11 - 4)) //; [|apply crc32_bitwise_range].
  cbn -[Z.testbit Z.div Z.modulo]. by rw H1 H2 H3.
Qed.

Lemma wire_checked_header : checked_header buf = header_bytes p.
Proof.
  destruct (first_byte_fields p (s_window _ Hp)) as (_ & _ & _ & H4 & _).
  rw /checked_header wire_hdr_len wire_form. cbn -[Z.clearbit]. rw H4.
  rw /header_bytes /len_bytes (s_short _ Hp) (Z.mod_small p.(p_length)); [done|apply sendable_length].
Qed.

Lemma wire_has_payload : has_payload (header_of buf out) = carries_payload p.
Proof.
  rw wire_header_of /has_payload /carries_payload. cbn.
  pose proof sendable_length. destruct (Z.eqb_spec p.(p_length) 0), (Z.ltb_spec 0 p.(p_length));
    try lia; destruct p.(p_truncated); by rw ?andb_false_r ?andb_true_r.
Qed.

Lemma wire_payload_length :
  carries_payload p = true -> length (payload_bytes p) = Z.to_nat p.(p_length).
Proof.
  intros. destruct (s_fields _ Hp) as (_ & _ & _ & _ & [Hpl _] & Hfit).
  rw /payload_bytes length_take Hpl. pose proof (Hfit H). rw /MAX_PAYLOAD_SIZE in H0 |- *. lia.
Qed.

Lemma wire_crc2 :
  carries_payload p = true ->
  (if rc then crc32_bitwise (payload_bytes p) 0 else p.(p_crc2)) =
  crc32_bitwise (payload_bytes p) 0.
Proof. intros H. destruct rc; [done|]. destruct Hcrc2; [done|auto]. Qed.

Lemma wire_decoded : decoded buf out = delivered p out.
Proof.
  rw /decoded wire_has_payload wire_header_of wire_hdr_len /delivered.
  pose proof wire_payload_length as Hn. pose proof wire_crc2 as Hc2. rw wire_form /wire_body.
  destruct (carries_payload p) eqn:Hc; [|done]. cbn [p_length].
  specialize (Hn eq_refl). rw (Hc2 eq_refl).
  change ([b0; ?a; ?b] ++ be_bytes ?c ++ be_bytes ?d ++ ?e)
    with (([b0; a; b] ++ be_bytes c ++ be_bytes d) ++ e).
  set (hd := [_; _; _] ++ _). assert (length hd = 11%nat) as Hhd by done.
  rw -(app_assoc (payload_bytes p)) app_assoc be32_app; [|by rw length_app Hhd Hn|
    apply crc32_bitwise_range].
  rw -app_assoc -Hhd drop_app_length -Hn take_app_length //.
Qed.

Lemma wire_length : Z.of_nat (length (wire p rc)) = wire_size buf out.
Proof.
  rw /wire_size wire_has_payload wire_header_of wire_hdr_len. cbn [p_length].
  assert (length (wire p rc) = 11 + length (wire_body p rc))%nat as ->.
  { apply (Nat.add_cancel_r _ _ (length rest)). rw -length_app -/buf wire_form.
    cbn [length app be_bytes]. rw length_app. lia. }
  rw /wire_body. pose proof wire_payload_length as Hn. pose proof sendable_length.
  destruct (carries_payload p) eqn:Hc; [|done]. rw length_app (Hn eq_refl). cbn [length be_bytes]. lia.
Qed.

(** No check of [unpack] fails. *)
Lemma wire_accepted : wire_error buf (Z.of_nat (length (wire p rc))) out = None.
Proof.
  pose proof sendable_length as HL. pose proof (s_empty _ Hp) as Hempty.
  pose proof (s_truncated _ Hp) as Htr. pose proof (s_type _ Hp) as Hty.
  pose proof wire_payload_length as Hn.
  rw /wire_error wire_length wire_decoded wire_checked_header wire_has_payload.
  rw /wire_size wire_has_payload wire_hdr_len wire_header_of /delivered.
  cbn [p_length p_crc1 p_crc2 p_payload p_type p_truncated]. rw Z.eqb_refl Z.ltb_irrefl.
  rw (bool_decide_eq_false_2 _ Hty). cbn [negb].
  destruct (Z.ltb_spec MAX_PAYLOAD_SIZE p.(p_length)) as [Hbig|_];
    [rw /MAX_PAYLOAD_SIZE in Hbig; lia|].
  rw (_ : bool_decide (p.(p_type) <> DATA) && p.(p_truncated) = false).
  2:{ destruct p.(p_truncated); [|by rw andb_false_r]. rw Htr //. }
  destruct (carries_payload p) eqn:Hc.
  - destruct (Z.ltb_spec (Z.of_nat 11 + (p.(p_length) + 4)) (Z.of_nat 11)); [lia|].
    destruct (Z.eqb_spec (Z.of_nat 11 + (p.(p_length) + 4)) (Z.of_nat 11)); [lia|].
    cbn [andb]. specialize (Hn eq_refl). rw -Hn take_app_length Z.eqb_refl andb_false_r //.
  - cbn [andb]. destruct (Z.ltb_spec 0 p.(p_length)) as [Hpos|]; [|done].
    rw /carries_payload in Hc. destruct p.(p_truncated); [done|].
    destruct (decide (p.(p_type) = DATA)) as [|Hnd]; [|specialize (Hempty Hnd); lia].
    rewrite -> bool_decide_eq_true_2 in Hc by done.
    apply Z.ltb_lt in Hpos. by rewrite -> Hpos in Hc.
Qed.

Lemma wire_bytes : bytes buf.
Proof.
  destruct (first_byte_fields p (s_window _ Hp)) as (_ & _ & _ & _ & Hb0).
  destruct (s_fields _ Hp) as (Hs & _ & _ & _ & [_ Hpb] & _). pose proof sendable_length.
  rw wire_form !Forall_app. split; [forall_list ltac:(done || lia)|].
  split; [apply be_bytes_bytes|]. split; [apply be_bytes_bytes|]. split; [|done].
  rw /wire_body. destruct (carries_payload p); [|by apply Forall_nil].
  apply Forall_app. split; [by apply Forall_take|apply be_bytes_bytes].
Qed.

Lemma unpack_wire :
  exists buf', unpack buf (Z.of_nat (length (wire p rc))) out = Done (buf', delivered p out, None).
Proof.
  destruct (unpack_spec buf (Z.of_nat (length (wire p rc))) out) as (buf' & out' & Hu & _ & Hnone);
    [apply wire_bytes|rw /buf length_app; lia|done|].
  rewrite -> wire_accepted in Hu. destruct (Hnone wire_accepted) as [_ ->].
  exists buf'. rw Hu wire_decoded //.
Qed.
End round_trip.

(** ** Properties *)

(** C1: [unpack] implements the wire format.  On any datagram whose
    [length] bytes lie within the receive buffer it finishes without an
    access outside an array, returns exactly the verdict the format
    prescribes (each error by its own condition, in the code's order), and on
    acceptance leaves the decoded fields in [out] and clears the
    truncation bit of the datagram in place. *)
Theorem unpack_refines_wire_format buf len out :
  bytes buf -> len <= Z.of_nat (length buf) -> payload_ok out ->
  exists buf' out', unpack buf len out = Done (buf', out', wire_error buf len out) /\
    length buf' = length buf /\
    (wire_error buf len out = None ->
       buf' = <[0%nat := Z.clearbit (buf !!! 0%nat) 5]> buf /\ out' = decoded buf out).
Proof. apply unpack_spec. Qed.

(** An empty packet structure, and the acknowledgement of tests/packet_test.c. *)
Definition zero_packet : packet_t :=
  mk_packet IGNORE false 0 false 0 0 0 0 0 (replicate 512 0).
Definition test_ack : packet_t :=
  mk_packet ACK false 10 false 0 0xAA 0xAA005500 0 0 (replicate 512 0).

Lemma zero_packet_ok : payload_ok zero_packet.
Proof. split; [reflexivity|]. apply Forall_replicate. lia. Qed.

Lemma unpack_refines_wire_format_witness :
  let buf := [0x8A; 0; 0xAA; 0xAA; 0; 0x55; 0; 1; 2; 3; 4] in
  exists buf' out', unpack buf 11 zero_packet = Done (buf', out', wire_error buf 11 zero_packet) /\
    length buf' = length buf /\
    (wire_error buf 11 zero_packet = None ->
       buf' = <[0%nat := Z.clearbit (buf !!! 0%nat) 5]> buf /\ out' = decoded buf zero_packet).
Proof.
  apply (unpack_refines_wire_format [0x8A; 0; 0xAA; 0xAA; 0; 0x55; 0; 1; 2; 3; 4] 11 zero_packet);
    [forall_list lia|vm_compute; discriminate|apply zero_packet_ok].
Defined.

(** Closes the refusing branches below: no verdict [None], one condition fails. *)
Ltac refused tac := split; [discriminate|intros; destruct_and?; exfalso; tac].

(** C18: what [unpack] accepts: a complete header whose checksum matches,
    a length field of at most 512, exactly the size the header announces, a type
    other than IGNORE, truncation only of DATA, and, when the length is
    not zero and the packet is not truncated, a matching payload
    checksum.  Nothing else is accepted and nothing of this is refused. *)
Theorem unpack_accepts_iff buf len out :
  bytes buf -> len <= Z.of_nat (length buf) -> payload_ok out ->
  let h := header_of buf out in
  let d := decoded buf out in
  (exists buf' out', unpack buf len out = Done (buf', out', None)) <->
  (Z.of_nat (hdr_len buf) <= len /\
   h.(p_crc1) = crc32_bitwise (checked_header buf) 0 /\
   h.(p_length) <= MAX_PAYLOAD_SIZE /\ len = wire_size buf out /\
   h.(p_type) <> IGNORE /\ (h.(p_truncated) = true -> h.(p_type) = DATA) /\
   (0 < d.(p_length) -> d.(p_truncated) = false ->
    d.(p_crc2) = crc32_bitwise (take (Z.to_nat d.(p_length)) d.(p_payload)) 0)).
Proof.
  intros Hb Hlen Hok h d. subst h d.
  destruct (unpack_spec buf len out Hb Hlen Hok) as (buf' & out' & -> & _ & _).
  trans (wire_error buf len out = None); [split; [by intros (? & ? & [=])|intros ->; eauto]|].
  rw /wire_error. pose proof (header_of_length_range buf out Hb) as HL.
  assert (has_payload (header_of buf out) = true -> Z.of_nat (hdr_len buf) < wire_size buf out)
    as Hsize by (rw /wire_size; intros ->; lia).
  destruct (Z.ltb_spec len (Z.of_nat (hdr_len buf))); [refused lia|].
  destruct (Z.eqb_spec (header_of buf out).(p_crc1) (crc32_bitwise (checked_header buf) 0));
    cbn [negb]; [|refused congruence].
  destruct (has_payload _ && _) eqn:Hz.
  { apply andb_true_iff in Hz as [Hz1 Hz2%Z.eqb_eq]. refused ltac:(specialize (Hsize Hz1); lia). }
  destruct (Z.ltb_spec MAX_PAYLOAD_SIZE (header_of buf out).(p_length)); [refused lia|].
  destruct (Z.ltb_spec len (wire_size buf out)); [refused lia|].
  destruct (Z.ltb_spec (wire_size buf out) len); [refused lia|].
  case_bool_decide; [refused congruence|].
  destruct (bool_decide _ && _) eqn:Htr.
  { apply andb_true_iff in Htr as [Htr1%bool_decide_eq_true_1 Htr2]. refused auto. }
  assert ((header_of buf out).(p_truncated) = true -> (header_of buf out).(p_type) = DATA).
  { intros Ht. rewrite -> Ht, andb_true_r, bool_decide_eq_false in Htr. by apply dec_stable. }
  destruct (Z.ltb_spec 0 (decoded buf out).(p_length)); cbn [andb];
    [|split; [intros _; split_and!; auto; lia|done]].
  destruct ((decoded buf out).(p_truncated)); cbn [andb negb];
    [split; [intros _; split_and!; auto; lia|done]|].
  destruct (Z.eqb_spec (decoded buf out).(p_crc2)
    (crc32_bitwise (take (Z.to_nat (decoded buf out).(p_length)) (decoded buf out).(p_payload)) 0));
    cbn [negb]; [split; [intros _; split_and!; auto; lia|done]|refused auto].
Qed.

Lemma unpack_accepts_iff_witness :
  let buf := [0x8A; 0; 0xAA; 0xAA; 0; 0x55; 0; 1; 2; 3; 4] in
  let h := header_of buf zero_packet in
  let d := decoded buf zero_packet in
  (exists buf' out', unpack buf 11 zero_packet = Done (buf', out', None)) <->
  (Z.of_nat (hdr_len buf) <= 11 /\
   h.(p_crc1) = crc32_bitwise (checked_header buf) 0 /\
   h.(p_length) <= MAX_PAYLOAD_SIZE /\ 11 = wire_size buf zero_packet /\
   h.(p_type) <> IGNORE /\ (h.(p_truncated) = true -> h.(p_type) = DATA) /\
   (0 < d.(p_length) -> d.(p_truncated) = false ->
    d.(p_crc2) = crc32_bitwise (take (Z.to_nat d.(p_length)) d.(p_payload)) 0)).
Proof.
  apply (unpack_accepts_iff [0x8A; 0; 0xAA; 0xAA; 0; 0x55; 0; 1; 2; 3; 4] 11 zero_packet);
    [forall_list lia|vm_compute; discriminate|apply zero_packet_ok].
Defined.

(** C22: [pack] writes exactly the datagram of the packet: for a buffer
    that has room for it, the buffer begins with the bytes of [wire] and
    is unchanged behind them; no byte is written past the end. *)
Theorem pack_writes_wire p (rc : bool) buf :
  fields_ok p -> (length (wire p rc) <= length buf)%nat ->
  pack (Some buf) (Some p) rc = Done (Some (wire p rc ++ drop (length (wire p rc)) buf), None).
Proof. apply pack_spec. Qed.

Lemma test_ack_fields : fields_ok test_ack.
Proof.
  split_and!; cbn; try lia; [split; [reflexivity|apply Forall_replicate; lia]|discriminate].
Qed.

Lemma pack_writes_wire_witness :
  pack (Some (replicate 12 0)) (Some test_ack) false =
  Done (Some (wire test_ack false ++ drop (length (wire test_ack false)) (replicate 12 0)), None).
Proof.
  apply (pack_writes_wire test_ack false (replicate 12 0)); [apply test_ack_fields|].
  apply (bool_decide_eq_true_1 _). vm_compute. reflexivity.
Defined.

(** C17: decoding what was encoded: a packet with a one-byte length, packed
    into a buffer and unpacked from it into any packet structure, arrives
    with the same type, truncation flag, window, length, sequence number,
    timestamp and payload, and its checksums verified. *)
Theorem pack_unpack_roundtrip p out (rc : bool) buf :
  sendable p -> payload_ok out -> bytes buf -> (length (wire p rc) <= length buf)%nat ->
  (rc = true \/ (carries_payload p = true -> p.(p_crc2) = crc32_bitwise (payload_bytes p) 0)) ->
  exists buf1 buf2,
    pack (Some buf) (Some p) rc = Done (Some buf1, None) /\
    unpack buf1 (Z.of_nat (length (wire p rc))) out = Done (buf2, delivered p out, None).
Proof.
  intros Hp Hout Hbuf Hlen Hcrc.
  assert (bytes (drop (length (wire p rc)) buf)) as Hrest by by apply Forall_drop.
  destruct (unpack_wire p out rc _ Hp Hout Hrest Hcrc) as [buf2 H2].
  do 2 eexists. split; [apply pack_spec; [apply (s_fields _ Hp)|done]|exact H2].
Qed.

(** The DATA packet "hello" with sequence number 7. *)
Definition test_data : packet_t :=
  mk_packet DATA false 31 false 5 7 123456789 0 0
    ([104; 101; 108; 108; 111] ++ replicate 507 0).

Lemma test_data_sendable : sendable test_data.
Proof.
  split; cbn; try lia; try discriminate; try reflexivity; [|by intros []].
  split_and!; cbn; try lia; [|intros _; vm_compute; discriminate].
  split; [reflexivity|]. apply Forall_app. split; [forall_list lia|apply Forall_replicate; lia].
Qed.

Lemma pack_unpack_roundtrip_witness :
  exists buf1 buf2,
    pack (Some (replicate 528 0)) (Some test_data) true = Done (Some buf1, None) /\
    unpack buf1 (Z.of_nat (length (wire test_data true))) zero_packet =
      Done (buf2, delivered test_data zero_packet, None).
Proof.
  apply (pack_unpack_roundtrip test_data zero_packet true (replicate 528 0));
    [apply test_data_sendable|apply zero_packet_ok|apply Forall_replicate; lia| |by left].
  apply (bool_decide_eq_true_1 _). vm_compute. reflexivity.
Defined.

(** the two-byte length is not encoded correctly.  For a packet with
    the long-length flag, the length the format reads back from the datagram
    [pack] writes equals the packet's length only when that length is a
    multiple of 256: the low byte is written shifted by 7 instead of 8. *)
Theorem pack_long_length_lossy p (rc : bool) :
  p.(p_long_length) = true -> 0 <= p.(p_length) <= MAX_PAYLOAD_SIZE ->
  (header_of (wire p rc) zero_packet).(p_length) = p.(p_length) <-> p.(p_length) mod 2 ^ 8 = 0.
Proof.
  intros Hlong HL. rw /MAX_PAYLOAD_SIZE in HL.
  rw /header_of /wire_long /wire /header_bytes /len_bytes Hlong. cbn [p_length].
  cbn [tail app]. set (tl := p.(p_seqnum) :: _).
  assert (forall a b c (l : list Z), (a :: b :: c :: l) !!! 1%nat = b) as -> by done.
  assert (forall a b c (l : list Z), (a :: b :: c :: l) !!! 2%nat = c) as -> by done.
  destruct (Z.leb_spec (2 ^ 7) (2 ^ 7 + (p.(p_length) / 2 ^ 8) mod 2 ^ 7)); divmod.
Qed.

Lemma pack_long_length_lossy_witness :
  let p := with_length 200 (with_long_length true test_data) in
  (header_of (wire p true) zero_packet).(p_length) = 200 <-> 200 mod 2 ^ 8 = 0.
Proof.
  apply (pack_long_length_lossy (with_length 200 (with_long_length true test_data)) true);
    [reflexivity|vm_compute; split; discriminate].
Defined.

(** a datagram that is not DATA but announces a payload (length above 0,
    not truncated) carries none, yet its payload checksum is still verified: against the
    bytes and the checksum left in [out] by an earlier packet.  Whether
    it is accepted depends on those alone, not on the datagram. *)
Theorem unpack_nondata_checks_stale_payload buf len out :
  bytes buf -> len <= Z.of_nat (length buf) -> payload_ok out ->
  let h := header_of buf out in
  len = Z.of_nat (hdr_len buf) -> h.(p_crc1) = crc32_bitwise (checked_header buf) 0 ->
  (h.(p_type) = ACK \/ h.(p_type) = NACK) -> h.(p_truncated) = false ->
  0 < h.(p_length) <= MAX_PAYLOAD_SIZE ->
  exists buf' out', unpack buf len out = Done (buf', out',
    if out.(p_crc2) =? crc32_bitwise (take (Z.to_nat h.(p_length)) out.(p_payload)) 0
    then None else Some PAYLOAD_VALIDATION_FAILED).
Proof.
  intros Hb Hlen Hok h Hsz Hcrc Hty Htr HL.
  destruct (unpack_spec buf len out Hb Hlen Hok) as (buf' & out' & -> & _ & _).
  exists buf', out'. do 2 f_equal.
  assert (has_payload h = false) as Hno.
  { rw /has_payload Htr. by destruct Hty as [-> | ->]. }
  assert (wire_size buf out = len) as Hws by (rw /wire_size -/h Hno Hsz Z.add_0_r //).
  rw /wire_error /decoded -/h Hno Hws Z.ltb_irrefl Hsz Z.ltb_irrefl Hcrc Z.eqb_refl. cbn [negb andb].
  destruct (Z.ltb_spec MAX_PAYLOAD_SIZE h.(p_length)); [lia|].
  destruct (Z.ltb_spec 0 h.(p_length)); [|lia]. rw Htr andb_false_r.
  rw bool_decide_eq_false_2; [|by destruct Hty as [-> | ->]].
  change (h.(p_crc2)) with (out.(p_crc2)). change (h.(p_payload)) with (out.(p_payload)).
  by destruct (out.(p_crc2) =? _).
Qed.

(** An acknowledgement that announces one byte of payload. *)
Definition test_ack_1 : list Z := wire (with_length 1 test_ack) false.

Lemma unpack_nondata_checks_stale_payload_witness :
  exists buf' out', unpack test_ack_1 11 zero_packet = Done (buf', out',
    if zero_packet.(p_crc2) =?
       crc32_bitwise (take (Z.to_nat (header_of test_ack_1 zero_packet).(p_length))
                           zero_packet.(p_payload)) 0
    then None else Some PAYLOAD_VALIDATION_FAILED).
Proof.
  apply (unpack_nondata_checks_stale_payload test_ack_1 11 zero_packet);
    [|vm_compute; discriminate|apply zero_packet_ok|vm_compute; reflexivity..
     |left; vm_compute; reflexivity|vm_compute; reflexivity|vm_compute; split; [reflexivity|discriminate]].
  apply (bool_decide_eq_true_1 _). vm_compute. reflexivity.
Defined.

(** [set_length] raises the long-length flag by the mask 0x11111 (a
    hexadecimal constant, not 0b1111111).  Starting from a clear flag, the
    flag it leaves is the right one (set exactly for lengths above 127)
    for the lengths 0, 1, 16 and 17 and for those above 127 other than 256,
    257, 272 and 273, and for no other length it accepts. *)
Theorem set_length_flag p len :
  p.(p_long_length) = false -> 0 <= len <= MAX_PAYLOAD_SIZE ->
  (set_length p len).(p_length) = len /\
  ((set_length p len).(p_long_length) = (2 ^ 7 <=? len) <->
   (In len [0; 1; 16; 17] \/ (2 ^ 7 <= len /\ ~ In len [256; 257; 272; 273]))).
Proof.
  intros Hflag Hlen. rw /set_length. destruct (Z.ltb_spec MAX_PAYLOAD_SIZE len); [lia|].
  split; [by destruct (negb _)|].
  assert ((with_length len (if negb (Z.land len 0x11111 =? len) then with_long_length true p else p)).(p_long_length)
    = negb (Z.land len 0x11111 =? len)) as -> by by destruct (negb _).
  apply (bool_decide_eq_true_1 _).
  assert (forallb (fun len => bool_decide (negb (Z.land len 0x11111 =? len) = (2 ^ 7 <=? len) <->
   (In len [0; 1; 16; 17] \/ (2 ^ 7 <= len /\ ~ In len [256; 257; 272; 273])))) (seqZ 0 513) = true)
    as H' by (vm_compute; reflexivity).
  rewrite -> forallb_forall in H'. apply H', list_elem_of_In, elem_of_seqZ.
  rw /MAX_PAYLOAD_SIZE in Hlen. lia.
Qed.

Lemma set_length_flag_witness :
  (set_length zero_packet 272).(p_length) = 272 /\
  ((set_length zero_packet 272).(p_long_length) = (2 ^ 7 <=? 272) <->
   (In 272 [0; 1; 16; 17] \/ (2 ^ 7 <= 272 /\ ~ In 272 [256; 257; 272; 273]))).
Proof. apply (set_length_flag zero_packet 272); [reflexivity|vm_compute; split; discriminate]. Defined.

(** [set_payload] stores the first [len] bytes of its argument, zeroes
    the rest of the payload array and records the length; the payload
    array keeps its size and its bytes.  A length above 512 changes nothing. *)
Theorem set_payload_stores p src len :
  payload_ok p -> bytes src -> 0 <= len <= Z.of_nat (length src) ->
  exists p', set_payload p src len = Done p' /\ payload_ok p' /\
    (MAX_PAYLOAD_SIZE < len -> p' = p) /\
    (len <= MAX_PAYLOAD_SIZE ->
       p'.(p_length) = len /\
       p'.(p_payload) = take (Z.to_nat len) src ++ replicate (Z.to_nat (MAX_PAYLOAD_SIZE - len)) 0).
Proof.
  intros Hok Hsrc Hlen. rw /set_payload.
  destruct (Z.ltb_spec MAX_PAYLOAD_SIZE len) as [Hbig|Hfit].
  { exists p. split_and!; auto; lia. }
  rw /MAX_PAYLOAD_SIZE in Hfit |- *. destruct Hok as [Hpl Hpb]. rw /MAX_PAYLOAD_SIZE in Hpl.
  assert ((set_length p len).(p_length) = len /\ (set_length p len).(p_payload) = p.(p_payload))
    as [Hl Hp].
  { rw /set_length /MAX_PAYLOAD_SIZE. destruct (Z.ltb_spec 512 len); [lia|]. by destruct (negb _). }
  rw slice_fits; [|lia]. unbind. rw drop_0 Hp.
  assert (length (take (Z.to_nat len) src) = Z.to_nat len) as Hn by (rw length_take; lia).
  rw memcpy_fits; [|rw Hn; lia]. unbind. rw Hn.
  change (take 0 p.(p_payload)) with (@nil Z). rw app_nil_l /=.
  rw memcpy_fits; [|rw length_replicate length_app Hn length_drop; lia]. unbind.
  rw length_replicate (take_app_length' _ _ _ (eq_sym Hn)) drop_ge;
    [|rw length_app Hn length_drop; lia].
  rw app_nil_r. eexists. split; [done|]. split; [|split; [lia|done]].
  split; cbn [p_payload with_payload].
  - rw length_app Hn length_replicate. rw /MAX_PAYLOAD_SIZE. lia.
  - apply Forall_app. split; [by apply Forall_take|apply Forall_replicate; lia].
Qed.

Lemma set_payload_stores_witness :
  exists p', set_payload zero_packet [104; 105] 2 = Done p' /\ payload_ok p' /\
    (MAX_PAYLOAD_SIZE < 2 -> p' = zero_packet) /\
    (2 <= MAX_PAYLOAD_SIZE ->
       p'.(p_length) = 2 /\
       p'.(p_payload) = take (Z.to_nat 2) [104; 105] ++ replicate (Z.to_nat (MAX_PAYLOAD_SIZE - 2)) 0).
Proof.
  apply (set_payload_stores zero_packet [104; 105] 2);
    [apply zero_packet_ok|forall_list lia|simpl; lia].
Defined.
