(* ===== verification/Buffer.v ===== *)
(** * Buffer: src/buffer.c, the receive window of a client

    A buffer has 32 nodes; the node of a sequence number is found by its
    five low bits.  The nodes own the packets of the window: a node's
    value is a pointer into the heap of packets.  A [node_t *] that points
    into the array is the index of the node. *)

From S2P Require Import Prelude Global Memory.

Record node_t := mk_node { n_value : option ptr; n_used : bool }.

Record buf_t := mk_buf {
  b_window_low : Z;         (* uint8_t *)
  b_length : Z;             (* uint8_t *)
  b_nodes : list node_t }.  (* MAX_BUFFER_SIZE nodes *)

Definition set_used (u : bool) (n : node_t) : node_t := mk_node n.(n_value) u.
Definition set_value (v : option ptr) (n : node_t) : node_t := mk_node v n.(n_used).

(** ** Operations *)

Definition hash (seqnum : Z) : Z := Z.land seqnum 0x1F.

Definition buf_get_length (self : buf_t) : Z := self.(b_length).

(** The results come with the value of [errno] the call sets, if any.
    The address of a node of the array is never null, so the second test
    of each function cannot succeed. *)
Definition is_used (buffer : option buf_t) (seqnum : Z) : comp (bool * option errors_t) :=
  match buffer with
  | None => Done (false, Some NULL_ARGUMENT)
  | Some b =>
      node ← rd b.(b_nodes) (Z.to_nat (hash seqnum));
      Done (node.(n_used), None)
  end.

Definition next (buffer : option buf_t) (seqnum : Z)
    : comp (option buf_t * option nat * option errors_t) :=
  match buffer with
  | None => Done (None, None, Some NULL_ARGUMENT)
  | Some b =>
      let next_index := Z.to_nat (hash seqnum) in
      node ← rd b.(b_nodes) next_index;
      nodes ← wr b.(b_nodes) next_index (set_used true node);
      Done (Some (mk_buf b.(b_window_low) (u8 (b.(b_length) + 1)) nodes), Some next_index, None)
  end.

Definition get (buffer : option buf_t) (seqnum : Z) (inc : bool)
    : comp (option buf_t * option nat * option errors_t) :=
  match buffer with
  | None => Done (None, None, Some NULL_ARGUMENT)
  | Some b =>
      let next_read := seqnum in
      let next_index := Z.to_nat (hash next_read) in
      node ← rd b.(b_nodes) next_index;
      if negb node.(n_used) then Done (Some b, None, None) else
      nodes ← wr b.(b_nodes) next_index (set_used false node);
      if inc
      then Done (Some (mk_buf (u8 (next_read + 1)) (u8 (b.(b_length) - 1)) nodes), Some next_index, None)
      else Done (Some (mk_buf b.(b_window_low) b.(b_length) nodes), Some next_index, None)
  end.

(** ** Allocation

    [vals] is the heap of the values, [bufs] the heap of the buffers. *)

Section allocation.
Context {V : Type}.

(** The loop of [deallocate_buffer]: frees the value of each node. *)
Fixpoint free_values (vals : gmap ptr V) (nodes : list node_t) : comp (gmap ptr V) :=
  match nodes with
  | [] => Done vals
  | n :: nodes => vals ← free vals n.(n_value); free_values vals nodes
  end.

Definition deallocate_buffer (vals : gmap ptr V) (bufs : gmap ptr buf_t) (buffer : option ptr)
    : comp (gmap ptr V * gmap ptr buf_t * option errors_t) :=
  match buffer with
  | None => Done (vals, bufs, Some NULL_ARGUMENT)
  | Some p =>
      b ← load bufs p;
      vals ← free_values vals b.(b_nodes);
      bufs ← free bufs (Some p);
      Done (vals, bufs, None)
  end.

(** The loop of [initialize_buffer] from node [i] on, [n] nodes to go;
    [outs] are the results of the calls of [allocator] (a call beyond
    the list fails) and [v0] is what the allocator puts into a value. *)
Fixpoint initialize_nodes (v0 : V) (n i : nat) (vals : gmap ptr V) (bufs : gmap ptr buf_t)
    (buffer : ptr) (outs : list (option ptr))
    : comp (gmap ptr V * gmap ptr buf_t * option errors_t) :=
  match n with
  | O => Done (vals, bufs, None)
  | S n =>
      b ← load bufs buffer;
      let value := default None (head outs) in
      let vals := malloc vals value v0 in
      nodes ← wr b.(b_nodes) i (mk_node value false);
      bufs ← store bufs buffer (mk_buf b.(b_window_low) b.(b_length) nodes);
      match value with
      | None =>
          '(vals, bufs, _) ← deallocate_buffer vals bufs (Some buffer);
          Done (vals, bufs, Some FAILED_TO_ALLOCATE)
      | Some _ => initialize_nodes v0 n (S i) vals bufs buffer (tail outs)
      end
  end.

Definition initialize_buffer (v0 : V) (vals : gmap ptr V) (bufs : gmap ptr buf_t)
    (buffer : ptr) (outs : list (option ptr))
    : comp (gmap ptr V * gmap ptr buf_t * option errors_t) :=
  b ← load bufs buffer;
  bufs ← store bufs buffer (mk_buf 0 0 b.(b_nodes));
  initialize_nodes v0 MAX_BUFFER_SIZE 0 vals bufs buffer outs.

End allocation.

(** ** Lemmas *)

(** A buffer has its 32 nodes; its fields are 8-bit numbers. *)
Definition buf_ok (b : buf_t) : Prop :=
  length b.(b_nodes) = MAX_BUFFER_SIZE /\ is_u8 b.(b_window_low) /\ is_u8 b.(b_length).

Lemma hash_mod s : hash s = s mod 2 ^ 5.
Proof. apply land_0x1F. Qed.

Lemma hash_range s : 0 <= hash s < 2 ^ 5.
Proof. rw hash_mod. by apply Z.mod_pos_bound. Qed.

Lemma hash_index s b : buf_ok b -> (Z.to_nat (hash s) < length b.(b_nodes))%nat.
Proof. intros [-> _]. pose proof (hash_range s). rw /MAX_BUFFER_SIZE. lia. Qed.

Lemma hash_inj low s s' :
  is_u8 s -> is_u8 s' -> (s - low) mod 2 ^ 8 < 2 ^ 5 -> (s' - low) mod 2 ^ 8 < 2 ^ 5 ->
  hash s = hash s' -> s = s'.
Proof. rw !hash_mod. intros. divmod. Qed.

(** The flag and the value of the node of a sequence number. *)
Definition used_at (b : buf_t) (s : Z) : bool :=
  match b.(b_nodes) !! Z.to_nat (hash s) with Some n => n.(n_used) | None => false end.

Lemma is_used_spec b s : buf_ok b -> is_used (Some b) s = Done (used_at b s, None).
Proof.
  intros H. destruct (rd_lt b.(b_nodes) _ (hash_index s b H)) as (n & Hrd & Hn).
  by rw /is_used Hrd /= /used_at Hn.
Qed.

Definition set_slot (b : buf_t) (low len s : Z) (u : bool) : buf_t :=
  mk_buf low len (alter (set_used u) (Z.to_nat (hash s)) b.(b_nodes)).

Lemma next_spec b s :
  buf_ok b ->
  next (Some b) s =
  Done (Some (set_slot b b.(b_window_low) (u8 (b.(b_length) + 1)) s true), Some (Z.to_nat (hash s)), None).
Proof.
  intros H. destruct (rd_lt b.(b_nodes) _ (hash_index s b H)) as (n & Hrd & Hn).
  by rw /next Hrd /= (wr_alter _ _ (set_used true) n Hn).
Qed.

Lemma get_spec b s inc :
  buf_ok b -> is_u8 s ->
  get (Some b) s inc =
  if used_at b s
  then Done (Some (if inc then set_slot b (u8 (s + 1)) (u8 (b.(b_length) - 1)) s false
                   else set_slot b b.(b_window_low) b.(b_length) s false),
             Some (Z.to_nat (hash s)), None)
  else Done (Some b, None, None).
Proof.
  intros H Hs. destruct (rd_lt b.(b_nodes) _ (hash_index s b H)) as (n & Hrd & Hn).
  rw /get Hrd /= /used_at Hn. destruct (n.(n_used)); [|done]. cbn [negb].
  rw (wr_alter _ _ (set_used false) n Hn) /=. by destruct inc.
Qed.

Lemma set_slot_ok b low len s u :
  buf_ok b -> is_u8 low -> is_u8 len -> buf_ok (set_slot b low len s u).
Proof. intros [H _]. split; [by rw /set_slot /= length_alter|done]. Qed.

Lemma used_at_set b low len s u : buf_ok b -> used_at (set_slot b low len s u) s = u.
Proof.
  intros H. destruct (lookup_lt_is_Some_2 _ _ (hash_index s b H)) as [n Hn].
  by rw /used_at list_lookup_alter_eq Hn.
Qed.

Lemma used_at_set_ne b low len s s' u :
  hash s <> hash s' -> used_at (set_slot b low len s u) s' = used_at b s'.
Proof.
  intros H. rw /used_at list_lookup_alter_ne //.
  pose proof (hash_range s). pose proof (hash_range s'). lia.
Qed.

(** ** Allocation *)

Section allocation_lemmas.
Context {V : Type} (v0 : V) (buffer : ptr).
Implicit Types (vals : gmap ptr V) (bufs : gmap ptr buf_t).

(** The heap after the allocator has handed out [ps]. *)
Definition allocated vals (ps : list ptr) : gmap ptr V :=
  foldl (fun h p => <[p := v0]> h) vals ps.

Definition fresh_node (p : ptr) : node_t := mk_node (Some p) false.

Lemma allocated_insert vals ps p :
  p ∉ ps -> allocated (<[p := v0]> vals) ps = <[p := v0]> (allocated vals ps).
Proof.
  revert vals. induction ps as [|q ps IH]; [done|].
  intros vals [Hpq Hp]%not_elem_of_cons. cbn [allocated foldl].
  fold (allocated (<[q:=v0]> (<[p:=v0]> vals)) ps). rw insert_insert_ne // IH //.
Qed.

Lemma allocated_notin vals ps p : p ∉ ps -> allocated vals ps !! p = vals !! p.
Proof.
  revert vals. induction ps as [|q ps IH]; [done|].
  intros vals [Hpq Hp]%not_elem_of_cons. cbn [allocated foldl].
  fold (allocated (<[q:=v0]> vals) ps). rw IH // lookup_insert_ne //.
Qed.

Lemma allocated_in vals ps p : NoDup ps -> p ∈ ps -> allocated vals ps !! p = Some v0.
Proof.
  revert vals. induction ps as [|q ps IH]; [by intros ? _ []%not_elem_of_nil|].
  intros vals [Hq Hps]%NoDup_cons [->|Hp]%elem_of_cons; cbn [allocated foldl];
    fold (allocated (<[q:=v0]> vals) ps); [|by apply IH].
  rw allocated_notin // lookup_insert_eq //.
Qed.

(** Freeing what was allocated gives the heap back. *)
Lemma free_allocated vals ps rest :
  NoDup ps -> Forall (fun p => vals !! p = None) ps ->
  free_values (allocated vals ps) ((fresh_node <$> ps) ++ rest) = free_values vals rest.
Proof.
  intros Hnd Hfresh. induction ps as [|p ps IH]; [done|].
  apply NoDup_cons in Hnd as [Hp Hnd]. apply Forall_cons in Hfresh as [Hpf Hfresh].
  cbn [fmap list_fmap app free_values fresh_node n_value allocated foldl].
  fold (allocated (<[p:=v0]> vals) ps). rw allocated_insert //.
  rw (free_Some _ _ v0); [|by rw lookup_insert_eq]. unbind.
  rw delete_insert_id; [|by rw allocated_notin]. by apply IH.
Qed.

(** The loop over the calls of the allocator that succeed. *)
Lemma initialize_nodes_prefix ps n vals bufs pre post outs :
  bufs !! buffer = Some (mk_buf 0 0 (pre ++ post)) -> (length ps <= length post)%nat ->
  initialize_nodes v0 (length ps + n) (length pre) vals bufs buffer (map Some ps ++ outs) =
  initialize_nodes v0 n (length pre + length ps) (allocated vals ps)
    (<[buffer := mk_buf 0 0 (pre ++ (fresh_node <$> ps) ++ drop (length ps) post)]> bufs)
    buffer outs.
Proof.
  revert vals bufs pre post. induction ps as [|p ps IH]; intros vals bufs pre post Hb Hlen.
  { cbn. rw Nat.add_0_r insert_id //. }
  destruct post as [|x post]; [simpl in Hlen; lia|].
  cbn [length Nat.add initialize_nodes map app head tail default].
  rw (load_Some _ _ _ Hb). cbn [mbind comp_bind b_nodes b_window_low b_length].
  rw wr_lt; [|rw length_app /=; lia]. unbind.
  rw (store_Some _ _ _ _ Hb). unbind.
  rw (insert_app_r_alt _ _ (length pre)) // Nat.sub_diag /=.
  replace (S (length pre)) with (length (pre ++ [fresh_node p])) by (rw length_app /=; lia).
  rw (IH _ _ (pre ++ [fresh_node p]) post); [|by rw lookup_insert_eq -app_assoc|simpl in Hlen; lia].
  rw insert_insert_eq -app_assoc length_app /=. f_equal. lia.
Qed.
End allocation_lemmas.

Lemma initialize_buffer_ok {V} (v0 : V) vals bufs buffer b ps outs :
  bufs !! buffer = Some b -> length b.(b_nodes) = MAX_BUFFER_SIZE -> length ps = MAX_BUFFER_SIZE ->
  initialize_buffer v0 vals bufs buffer (map Some ps ++ outs) =
  Done (allocated v0 vals ps, <[buffer := mk_buf 0 0 (fresh_node <$> ps)]> bufs, None).
Proof.
  intros Hb Hlen Hps.
  rw /initialize_buffer (load_Some _ _ _ Hb). unbind.
  rw (store_Some _ _ _ _ Hb). unbind.
  replace MAX_BUFFER_SIZE with (length ps + 0)%nat by lia.
  rw (initialize_nodes_prefix v0 buffer ps 0 vals _ [] b.(b_nodes));
    [|by rw lookup_insert_eq|lia].
  cbn [initialize_nodes app]. rw insert_insert_eq drop_ge; [by rw app_nil_r|lia].
Qed.

Lemma initialize_buffer_fails {V} (v0 : V) vals bufs buffer b ps outs :
  bufs !! buffer = Some b -> length b.(b_nodes) = MAX_BUFFER_SIZE ->
  NoDup ps -> Forall (fun p => vals !! p = None) ps -> (length ps < MAX_BUFFER_SIZE)%nat ->
  initialize_buffer v0 vals bufs buffer (map Some ps ++ None :: outs) =
  (vals' ← free_values vals (drop (S (length ps)) b.(b_nodes));
   Done (vals', delete buffer bufs, Some FAILED_TO_ALLOCATE)).
Proof.
  intros Hb Hlen Hnd Hfresh Hps.
  rw /initialize_buffer (load_Some _ _ _ Hb). unbind.
  rw (store_Some _ _ _ _ Hb). unbind.
  replace MAX_BUFFER_SIZE with (length ps + S (31 - length ps))%nat
    by (rw /MAX_BUFFER_SIZE in Hps |- *; lia).
  rw (initialize_nodes_prefix v0 buffer ps _ vals _ [] b.(b_nodes));
    [|by rw lookup_insert_eq|lia].
  cbn [initialize_nodes app length Nat.add head tail default malloc].
  rw insert_insert_eq (load_Some _ _ _ (lookup_insert_eq _ _ _)) /=.
  assert (exists x, drop (length ps) b.(b_nodes) = x :: drop (S (length ps)) b.(b_nodes)) as [x Hx].
  { destruct (lookup_lt_is_Some_2 b.(b_nodes) (length ps)) as [x Hx]; [lia|].
    exists x. by rw (drop_S _ x). }
  rw Hx wr_lt; [|rw length_app length_fmap /=; lia]. unbind.
  rw (store_Some _ _ _ _ (lookup_insert_eq _ _ _)) /= insert_insert_eq.
  rw (insert_app_r_alt _ _ (length ps)); [|by rw length_fmap]. rw length_fmap Nat.sub_diag /=.
  rw (load_Some _ _ _ (lookup_insert_eq _ _ _)) /= free_allocated //=.
  destruct (free_values vals _); [|done]. unbind.
  rw lookup_insert_eq /= delete_insert_eq. done.
Qed.

(** ** Properties *)

(** C20: the node index never collides within a window: of any 32
    consecutive sequence numbers (modulo 256) no two share a node, and the
    index of every sequence number is one of the 32 nodes. *)
Theorem hash_window_injective low s s' :
  is_u8 s -> is_u8 s' -> (s - low) mod 2 ^ 8 < 2 ^ 5 -> (s' - low) mod 2 ^ 8 < 2 ^ 5 ->
  0 <= hash s < Z.of_nat MAX_BUFFER_SIZE /\ (hash s = hash s' <-> s = s').
Proof.
  intros. split; [apply hash_range|]. split; [by apply (hash_inj low)|by intros ->].
Qed.

Lemma hash_window_injective_witness :
  0 <= hash 255 < Z.of_nat MAX_BUFFER_SIZE /\ (hash 255 = hash 15 <-> 255 = 15).
Proof. apply (hash_window_injective 240 255 15); [lia|lia|reflexivity|reflexivity]. Defined.

(** C21: [next] reserves the node of a sequence number and [get] gives it
    back.  After [next] on a free node the number is used and every other
    number of the window is as before; [get] then returns the same node, and with
    [inc] it leaves the buffer as it was before [next] except that the
    window starts behind the number. *)
Theorem next_get b s :
  buf_ok b -> is_u8 s -> used_at b s = false ->
  exists b', next (Some b) s = Done (Some b', Some (Z.to_nat (hash s)), None) /\ buf_ok b' /\
    is_used (Some b') s = Done (true, None) /\
    (forall low s', is_u8 s' -> s' <> s -> (s - low) mod 2 ^ 8 < 2 ^ 5 ->
       (s' - low) mod 2 ^ 8 < 2 ^ 5 -> is_used (Some b') s' = is_used (Some b) s') /\
    get (Some b') s true =
      Done (Some (mk_buf (u8 (s + 1)) b.(b_length) b.(b_nodes)), Some (Z.to_nat (hash s)), None).
Proof.
  intros H Hs Hfree. eexists. split; [by apply next_spec|].
  assert (is_u8 (u8 (b.(b_length) + 1))) as Hu by by apply Z.mod_pos_bound.
  assert (buf_ok (set_slot b b.(b_window_low) (u8 (b.(b_length) + 1)) s true)) as H'
    by (apply set_slot_ok; [done|apply H|done]).
  split; [done|]. split; [by rw is_used_spec // used_at_set|]. split.
  - intros low s' Hs' Hne Hw Hw'. rw !is_used_spec // used_at_set_ne //.
    intros Heq. apply Hne. symmetry. by apply (hash_inj low).
  - rw get_spec // used_at_set //. do 4 f_equal. rw /set_slot. cbn [b_length b_nodes].
    destruct H as (Hlen & Hlow & Hl). f_equal; [rw /u8; divmod|].
    apply list_eq => i. destruct (decide (i = Z.to_nat (hash s))) as [->|Hi];
      [|by rw !list_lookup_alter_ne].
    rw !list_lookup_alter_eq. rw /used_at in Hfree.
    destruct (_ !! _) as [[v u]|] eqn:E; [|done]. cbn in Hfree |- *. by rw /set_used Hfree.
Qed.

Lemma next_get_witness :
  let b := mk_buf 7 0 (replicate 32 (mk_node (Some 1%positive) false)) in
  exists b', next (Some b) 9 = Done (Some b', Some (Z.to_nat (hash 9)), None) /\ buf_ok b' /\
    is_used (Some b') 9 = Done (true, None) /\
    (forall low s', is_u8 s' -> s' <> 9 -> (9 - low) mod 2 ^ 8 < 2 ^ 5 ->
       (s' - low) mod 2 ^ 8 < 2 ^ 5 -> is_used (Some b') s' = is_used (Some b) s') /\
    get (Some b') 9 true =
      Done (Some (mk_buf (u8 (9 + 1)) b.(b_length) b.(b_nodes)), Some (Z.to_nat (hash 9)), None).
Proof.
  apply (next_get (mk_buf 7 0 (replicate 32 (mk_node (Some 1%positive) false))) 9);
    [repeat split; vm_compute; congruence|lia|reflexivity].
Defined.

(** when all 32 calls of the allocator succeed, [initialize_buffer]
    leaves an empty window at 0 whose nodes own the 32 values, and touches nothing
    else on the heap. *)
Theorem initialize_buffer_success {V} (v0 : V) vals bufs buffer b ps outs :
  bufs !! buffer = Some b -> length b.(b_nodes) = MAX_BUFFER_SIZE ->
  NoDup ps -> length ps = MAX_BUFFER_SIZE ->
  exists vals',
    initialize_buffer v0 vals bufs buffer (map Some ps ++ outs) =
      Done (vals', <[buffer := mk_buf 0 0 (fresh_node <$> ps)]> bufs, None) /\
    (forall p, p ∈ ps -> vals' !! p = Some v0) /\ (forall p, p ∉ ps -> vals' !! p = vals !! p).
Proof.
  intros Hb Hlen Hnd Hps. exists (allocated v0 vals ps).
  split; [by eapply initialize_buffer_ok|].
  split; [intros; by apply allocated_in|intros; by apply allocated_notin].
Qed.

Lemma initialize_buffer_success_witness :
  let ps := Pos.of_nat <$> seq 10 32 in
  let bufs := <[1%positive := mk_buf 5 5 (replicate 32 (mk_node None false))]> ∅ in
  exists vals',
    initialize_buffer 0 ∅ bufs 1%positive (map Some ps ++ []) =
      Done (vals', <[1%positive := mk_buf 0 0 (fresh_node <$> ps)]> bufs, None) /\
    (forall p, p ∈ ps -> vals' !! p = Some 0) /\
    (forall p, p ∉ ps -> vals' !! p = (∅ : gmap ptr Z) !! p).
Proof.
  eapply (initialize_buffer_success 0 ∅ _ 1%positive _ (Pos.of_nat <$> seq 10 32) []);
    [reflexivity|reflexivity| |reflexivity].
  apply (bool_decide_eq_true_1 _). vm_compute. reflexivity.
Defined.

(** when the allocator fails at node [k], [initialize_buffer] frees
    the [k] values it has and the buffer itself, but first it also frees
    whatever the nodes behind [k], which it has not written yet,
    contain: with a buffer that [malloc] returned these are arbitrary
    pointers, and one of them that is not a block is undefined behaviour. *)
Theorem initialize_buffer_failure {V} (v0 : V) vals bufs buffer b ps outs :
  bufs !! buffer = Some b -> length b.(b_nodes) = MAX_BUFFER_SIZE ->
  NoDup ps -> Forall (fun p => vals !! p = None) ps -> (length ps < MAX_BUFFER_SIZE)%nat ->
  initialize_buffer v0 vals bufs buffer (map Some ps ++ None :: outs) =
  (vals' ← free_values vals (drop (S (length ps)) b.(b_nodes));
   Done (vals', delete buffer bufs, Some FAILED_TO_ALLOCATE)).
Proof. apply initialize_buffer_fails. Qed.

Lemma initialize_buffer_failure_witness :
  let b := mk_buf 5 5 (replicate 32 (mk_node (Some 99%positive) false)) in
  initialize_buffer 0 ∅ (<[1%positive := b]> ∅) 1%positive (map Some [10%positive] ++ None :: []) =
  (vals' ← free_values ∅ (drop 2 b.(b_nodes));
   Done (vals', delete 1%positive (<[1%positive := b]> ∅), Some FAILED_TO_ALLOCATE)).
Proof.
  apply (initialize_buffer_failure 0 ∅ (<[1%positive := mk_buf 5 5 (replicate 32 (mk_node (Some 99%positive) false))]> ∅)
    1%positive (mk_buf 5 5 (replicate 32 (mk_node (Some 99%positive) false))) [10%positive] []);
    [reflexivity|reflexivity|apply NoDup_singleton|by apply Forall_singleton|vm_compute; lia].
Defined.
