(* ===== verification/Stream.v ===== *)
(** * Stream: src/stream.c, the queues between receivers and handlers

    A stream is a linked list in two parts: producers push nodes on
    [in_queue] (last in first), the consumer takes them from [out_queue]
    and, when that is empty, moves the whole of [in_queue] over in reverse.
    The functions are modelled as one thread runs them, each atomic
    instruction succeeding as it does without interference.  A stream whose
    mutex or condition cannot be initialised is used all the same
    ([initialize_stream]), which is undefined. *)

From S2P Require Import Prelude Global Memory.

(** What a link field holds: null, [QUEUE_POISON1] or a node. *)
Inductive link : Type := Null | Poison | Node (p : ptr).

#[export] Instance link_eq_dec : EqDecision link.
Proof. solve_decision. Defined.

Record s_node_t := mk_snode { sn_content : option ptr; sn_next : link }.

Record stream_t := mk_stream {
  in_queue : link;
  out_queue : link;
  st_lock : bool;       (* the mutex: true = held *)
  st_length : Z;        (* int *)
  st_waiting : Z }.     (* int *)

Abbreviation nodes_t := (gmap ptr s_node_t).

Definition deref (l : link) : comp ptr :=
  match l with Node p => Done p | _ => Stuck UB end.

Definition set_next (l : link) (n : s_node_t) : s_node_t := mk_snode n.(sn_content) l.

(** ** Nodes *)

Section nodes.
Context {R : Type}.

(** [content] is what the allocator of the contents returned, [r0] what it
    put there; the allocator of requests sets [errno] when it fails. *)
Definition initialize_node (h : nodes_t) (reqs : gmap ptr R) (node : option ptr)
    (content : option ptr) (r0 : R) : comp (nodes_t * gmap ptr R * option errors_t) :=
  match node with
  | None => Done (h, reqs, Some NULL_ARGUMENT)
  | Some p =>
      n ← load h p;
      let reqs := malloc reqs content r0 in
      h ← store h p (mk_snode content Poison);
      Done (h, reqs, match content with None => Some FAILED_TO_ALLOCATE | Some _ => None end)
  end.

Definition deallocate_node (h : nodes_t) (reqs : gmap ptr R) (node : option ptr)
    : comp (nodes_t * gmap ptr R) :=
  match node with
  | None => Done (h, reqs)
  | Some p =>
      n ← load h p;
      reqs ← free reqs n.(sn_content);
      h ← free h (Some p);
      Done (h, reqs)
  end.

End nodes.

(** ** Queue operations *)

Definition stream_enqueue (h : nodes_t) (st : stream_t) (node : option ptr)
    : comp (nodes_t * stream_t * bool) :=
  match node with
  | None => Done (h, st, false)
  | Some p =>
      n ← load h p;
      h ← store h p (set_next st.(in_queue) n);
      let st := mk_stream (Node p) st.(out_queue) st.(st_lock) st.(st_length) st.(st_waiting) in
      let st := mk_stream st.(in_queue) st.(out_queue) st.(st_lock) (i32 (st.(st_length) + 1))
                  st.(st_waiting) in
      Done (h, st, true)
  end.

(** The inner loop of [stream_pop]: moves the nodes from [head] on to the
    front of [out], one by one. *)
Fixpoint reverse_queue (fuel : nat) (h : nodes_t) (head out : link) : comp (nodes_t * link) :=
  match head with
  | Null => Done (h, out)
  | Poison => Stuck UB
  | Node p =>
      match fuel with
      | O => Stuck NoFuel
      | S fuel =>
          n ← load h p;
          let next := n.(sn_next) in
          h ← store h p (set_next out n);
          reverse_queue fuel h next (Node p)
      end
  end.

(** The fuel is the number of nodes on the heap. *)
Definition refill (h : nodes_t) (st : stream_t) : comp (nodes_t * stream_t) :=
  match st.(out_queue) with
  | Null =>
      match st.(in_queue) with
      | Null => Done (h, st)
      | head =>
          '(h, out) ← reverse_queue (size h) h head st.(out_queue);
          Done (h, mk_stream Null out st.(st_lock) st.(st_length) st.(st_waiting))
      end
  | _ => Done (h, st)
  end.

(** The null pointer is returned as [None].  [pthread_cond_wait] gives up
    the processor to the other threads; when there is none it waits for ever. *)
Definition stream_pop (h : nodes_t) (st : stream_t) (wait : bool)
    : comp (nodes_t * stream_t * option ptr) :=
  lock ← mutex_lock st.(st_lock);
  let st := mk_stream st.(in_queue) st.(out_queue) lock st.(st_length) (i32 (st.(st_waiting) + 1)) in
  if wait && (st.(st_length) =? 0) then Stuck Deadlock else
  let st := mk_stream st.(in_queue) st.(out_queue) lock st.(st_length) (i32 (st.(st_waiting) - 1)) in
  '(h, st) ← refill h st;
  let st := mk_stream st.(in_queue) st.(out_queue) lock (i32 (st.(st_length) - 1)) st.(st_waiting) in
  match st.(out_queue) with
  | Null =>
      lock ← mutex_unlock lock;
      Done (h, mk_stream st.(in_queue) Null lock st.(st_length) st.(st_waiting), None)
  | head =>
      p ← deref head;
      n ← load h p;
      lock ← mutex_unlock lock;
      let st := mk_stream st.(in_queue) n.(sn_next) lock st.(st_length) st.(st_waiting) in
      h ← store h p (set_next Poison n);
      Done (h, st, Some p)
  end.

(** The loop of [dealloc_stream]: pops and frees until a pop returns null. *)
Fixpoint drain_stream {R} (fuel : nat) (h : nodes_t) (reqs : gmap ptr R) (st : stream_t)
    : comp (nodes_t * gmap ptr R * stream_t) :=
  match fuel with
  | O => Stuck NoFuel
  | S fuel =>
      '(h, st, node) ← stream_pop h st false;
      match node with
      | None => Done (h, reqs, st)
      | Some p =>
          '(h, reqs) ← deallocate_node h reqs (Some p);
          drain_stream fuel h reqs st
      end
  end.

Definition dealloc_stream {R} (h : nodes_t) (reqs : gmap ptr R) (st : option stream_t)
    : comp (nodes_t * gmap ptr R * option stream_t) :=
  match st with
  | None => Done (h, reqs, None)
  | Some st => '(h, reqs, st) ← drain_stream (S (size h)) h reqs st; Done (h, reqs, Some st)
  end.

(** [lock_fails] and [cond_fails] are what the two initialisers report.
    Both failures call [dealloc_stream], which locks and destroys the mutex
    and destroys the condition: the one whose initialisation has failed is
    used although it is not initialised, which is undefined. *)
Definition initialize_stream {R} (h : nodes_t) (reqs : gmap ptr R) (lock_fails cond_fails : bool)
    : comp (nodes_t * gmap ptr R * stream_t * option errors_t) :=
  let st := mk_stream Null Null false 0 0 in
  if (lock_fails : bool) then Stuck UB else
  if (cond_fails : bool) then Stuck UB else
  Done (h, reqs, st, None).

(** ** Lemmas *)

Lemma i32_small z : - 2 ^ 31 <= z < 2 ^ 31 -> i32 z = z.
Proof. intros H. rw /i32. destruct (Z.ltb_spec (z mod 2 ^ 32) (2 ^ 31)); divmod. Qed.

Lemma i32_mod z : i32 z mod 2 ^ 32 = z mod 2 ^ 32.
Proof. rw /i32. destruct (Z.ltb_spec (z mod 2 ^ 32) (2 ^ 31)); divmod. Qed.

Lemma i32_congr a b : a mod 2 ^ 32 = b mod 2 ^ 32 -> i32 a = i32 b.
Proof. by rw /i32 => ->. Qed.

Lemma i32_add a b : i32 (i32 a + b) = i32 (a + b).
Proof. apply i32_congr. rw Z.add_mod // i32_mod -Z.add_mod //. Qed.

(** The list of nodes that starts at a link. *)
Fixpoint chain (h : nodes_t) (l : link) (ps : list ptr) : Prop :=
  match ps with
  | [] => l = Null
  | p :: ps => l = Node p /\ exists n, h !! p = Some n /\ chain h n.(sn_next) ps
  end.

Lemma chain_frame h h' l ps :
  (forall p, p ∈ ps -> h' !! p = h !! p) -> chain h l ps -> chain h' l ps.
Proof.
  revert l. induction ps as [|p ps IH]; [done|].
  intros l Heq (-> & n & Hn & Hc). split; [done|]. exists n. split.
  - rw Heq //. apply list_elem_of_here.
  - apply IH; [|done]. intros. by apply Heq, list_elem_of_further.
Qed.

Lemma chain_insert h l ps p n : p ∉ ps -> chain h l ps -> chain (<[p := n]> h) l ps.
Proof. intros Hp. apply chain_frame. intros q Hq. apply lookup_insert_ne. by intros ->. Qed.

Lemma chain_dom h l ps : chain h l ps -> Forall (fun p => p ∈ dom h) ps.
Proof.
  revert l. induction ps as [|p ps IH]; [constructor|]. intros l (_ & n & Hn & Hc).
  constructor; [by apply elem_of_dom|by eapply IH].
Qed.

Lemma chain_size h l ps : NoDup ps -> chain h l ps -> (length ps <= size h)%nat.
Proof.
  intros Hnd Hc%chain_dom. rw -size_dom -(size_list_to_set (C := gset ptr) ps) //.
  apply subseteq_size. intros p Hp%elem_of_list_to_set.
  by eapply Forall_forall in Hc.
Qed.

Lemma content_set_next (h : nodes_t) p n l :
  h !! p = Some n -> sn_content <$> <[p := set_next l n]> h = sn_content <$> h.
Proof.
  intros Hn. rw fmap_insert. apply insert_id. by rw lookup_fmap Hn.
Qed.

Lemma reverse_queue_spec fuel h head out ps os :
  (length ps <= fuel)%nat -> chain h head ps -> chain h out os -> NoDup (ps ++ os) ->
  exists h' out', reverse_queue fuel h head out = Done (h', out') /\
    chain h' out' (rev ps ++ os) /\ sn_content <$> h' = sn_content <$> h /\
    (forall p, p ∉ ps -> h' !! p = h !! p).
Proof.
  revert fuel h head out os. induction ps as [|p ps IH]; intros fuel h head out os Hf Hc Ho Hnd.
  { cbn in Hc. subst head. exists h, out. by destruct fuel. }
  destruct fuel as [|fuel]; [simpl in Hf; lia|]. destruct Hc as (-> & n & Hn & Hc).
  rewrite <- app_comm_cons in Hnd. apply NoDup_cons in Hnd as [Hp Hnd].
  rewrite -> elem_of_app in Hp.
  cbn [reverse_queue]. rw (load_Some _ _ _ Hn). unbind.
  rw (store_Some _ _ _ _ Hn). unbind.
  destruct (IH fuel (<[p := set_next out n]> h) n.(sn_next) (Node p) (p :: os))
    as (h' & out' & -> & Hc' & Hcont & Hframe).
  - simpl in Hf. lia.
  - apply chain_insert; naive_solver.
  - split; [done|]. exists (set_next out n). split; [apply lookup_insert_eq|].
    cbn. apply chain_insert; naive_solver.
  - apply NoDup_app in Hnd as (H1 & H2 & H3). apply NoDup_app. split_and!; [done| |].
    + intros q Hq [->|Hq']%elem_of_cons; [naive_solver|]. by apply (H2 q).
    + apply NoDup_cons. naive_solver.
  - exists h', out'. split; [done|]. split; [by rw /= -app_assoc|].
    split; [rw Hcont; by apply content_set_next|].
    intros q [Hqp Hq]%not_elem_of_cons. rw Hframe // lookup_insert_ne //.
Qed.

(** ** The queue a stream stands for *)

Definition stream_rep (h : nodes_t) (st : stream_t) (q : list ptr) : Prop :=
  exists outs ins, q = outs ++ rev ins /\ NoDup q /\
    chain h st.(out_queue) outs /\ chain h st.(in_queue) ins /\ st.(st_lock) = false.

Lemma NoDup_rev_app (l k : list ptr) : NoDup (l ++ rev k) <-> NoDup (k ++ l).
Proof. rw Permutation_app_comm -(Permutation_rev k) //. Qed.

Lemma initialize_node_ok {R} (nodes : nodes_t) (reqs : gmap ptr R) n c g r :
  initialize_node (<[n := g]> nodes) reqs (Some n) (Some c) r =
  Done (<[n := mk_snode (Some c) Poison]> nodes, <[c := r]> reqs, None).
Proof.
  rw /initialize_node (load_Some _ _ _ (lookup_insert_eq _ _ _)). unbind.
  rw (store_Some _ _ _ _ (lookup_insert_eq _ _ _)). unbind. by rw insert_insert_eq.
Qed.

Lemma stream_rep_in_heap h st q p : stream_rep h st q -> p ∈ q -> p ∈ dom h.
Proof.
  intros (outs & ins & -> & _ & Ho%chain_dom & Hi%chain_dom & _).
  rw elem_of_app -Permutation_rev. rewrite -> Forall_forall in Ho, Hi. naive_solver.
Qed.

Lemma enqueue_rep h st q p n :
  stream_rep h st q -> p ∉ q -> h !! p = Some n ->
  exists h' st', stream_enqueue h st (Some p) = Done (h', st', true) /\
    stream_rep h' st' (q ++ [p]) /\ sn_content <$> h' = sn_content <$> h /\
    st'.(st_length) = i32 (st.(st_length) + 1) /\ st'.(st_waiting) = st.(st_waiting) /\
    (forall r, r ∉ q ++ [p] -> h' !! r = h !! r).
Proof.
  intros (outs & ins & -> & Hnd & Ho & Hi & Hl) Hp Hn.
  rewrite -> elem_of_app, <- Permutation_rev in Hp.
  rw /stream_enqueue (load_Some _ _ _ Hn). unbind.
  rw (store_Some _ _ _ _ Hn). unbind.
  do 2 eexists. split; [done|]. split; [|split; [by apply content_set_next|]].
  - exists outs, (p :: ins). cbn. split; [by rw app_assoc|]. split.
    + rw Permutation_app_comm. apply NoDup_cons.
      split; [|done]. rw elem_of_app -Permutation_rev. done.
    + split; [apply chain_insert; naive_solver|]. split; [|done]. split; [done|].
      exists (set_next st.(in_queue) n). split; [apply lookup_insert_eq|].
      apply chain_insert; naive_solver.
  - split_and!; [done..|]. intros r Hr. apply lookup_insert_ne. intros ->. apply Hr.
    apply elem_of_app. right. apply list_elem_of_here.
Qed.

(** After [refill] the first node of the queue, if any, is the first of
    [out_queue]. *)
Lemma refill_rep h st q :
  NoDup q -> 
  (exists outs ins, q = outs ++ rev ins /\ chain h st.(out_queue) outs /\ chain h st.(in_queue) ins) ->
  exists h' st' outs ins, refill h st = Done (h', st') /\
    q = outs ++ rev ins /\ chain h' st'.(out_queue) outs /\ chain h' st'.(in_queue) ins /\
    (outs = [] -> q = []) /\ sn_content <$> h' = sn_content <$> h /\
    st'.(st_lock) = st.(st_lock) /\ st'.(st_length) = st.(st_length) /\
    st'.(st_waiting) = st.(st_waiting) /\ (forall r, r ∉ q -> h' !! r = h !! r).
Proof.
  intros Hnd (outs & ins & -> & Ho & Hi). rw /refill.
  destruct outs as [|o outs]; cbn in Ho.
  - rw Ho. destruct ins as [|i ins].
    { cbn in Hi. rw Hi. exists h, st, [], []. split_and!; try done; by rw ?Ho ?Hi. }
    assert (st.(in_queue) = Node i) as Hin by apply Hi. rw Hin.
    pose proof (proj1 (NoDup_rev_app [] (i :: ins)) Hnd) as Hnd0.
    assert (NoDup (i :: ins)) as Hnd' by (rewrite -> app_nil_r in Hnd0; exact Hnd0).
    destruct (reverse_queue_spec (size h) h (Node i) Null (i :: ins) []) as (h' & out' & -> & Hc & Hk & Hf).
    + by eapply chain_size.
    + by rw -Hin.
    + done.
    + done.
    + rw app_nil_r in Hc. unbind.
      exists h', (mk_stream Null out' st.(st_lock) st.(st_length) st.(st_waiting)), (rev (i :: ins)), [].
      split_and!; try done; [by rw app_nil_r|].
      intros r Hr. apply Hf. intros Hr'. apply Hr. cbn [app]. by rw -Permutation_rev.
  - pose proof Ho as [Hout _]. rw Hout. exists h, st, (o :: outs), ins.
    split_and!; done.
Qed.

Lemma pop_rep h st q wait :
  stream_rep h st q -> (wait = true -> st.(st_length) <> 0) -> - 2 ^ 31 <= st.(st_waiting) < 2 ^ 31 - 1 ->
  exists h' st', stream_pop h st wait = Done (h', st', head q) /\
    stream_rep h' st' (tail q) /\ sn_content <$> h' = sn_content <$> h /\
    st'.(st_length) = i32 (st.(st_length) - 1) /\ st'.(st_waiting) = st.(st_waiting) /\
    (forall r, r ∉ q -> h' !! r = h !! r).
Proof.
  intros (outs & ins & Hq & Hnd & Ho & Hi & Hl) Hwait Hw. rw /stream_pop Hl /=.
  assert (wait && (st.(st_length) =? 0) = false) as ->.
  { destruct wait; [|done]. by apply Z.eqb_neq, Hwait. }
  rw (i32_small (_ + 1)); [|lia]. rw Z.add_simpl_r i32_small; [|lia].
  destruct (refill_rep h (mk_stream st.(in_queue) st.(out_queue) true st.(st_length) st.(st_waiting)) q)
    as (h' & st' & outs' & ins' & -> & -> & Ho' & Hi' & Hemp & Hk & Hlock & Hlen & Hwt & Hf);
    [done|by exists outs, ins|]. unbind. cbn in Hlock, Hlen, Hwt.
  destruct outs' as [|p outs'].
  - specialize (Hemp eq_refl). cbn in Hemp, Ho'. rw Ho' /=. rw Hemp.
    do 2 eexists. split; [done|]. split_and!; cbn; [|done|by rw Hlen|done|].
    + exists [], ins'. by rw Hemp; split_and!; try done; constructor.
    + intros r Hr. apply Hf. by rw /= Hemp.
  - destruct Ho' as (Hout & n & Hn & Ho'). rw Hout. cbn [deref mbind comp_bind app] in *.
    rw (load_Some _ _ _ Hn). cbn [mbind comp_bind mutex_unlock].
    rw (store_Some _ _ _ _ Hn). unbind.
    apply NoDup_cons in Hnd as [Hp Hnd]. rewrite -> elem_of_app, <- Permutation_rev in Hp.
    do 2 eexists. split; [done|]. split; [|split; [rw content_set_next //; exact Hk|]].
    + exists outs', ins'. split_and!; try done; apply chain_insert; naive_solver.
    + split_and!; [by cbn; rw Hlen|done|]. intros r Hr. rw -Hf //. apply lookup_insert_ne.
      intros ->. apply Hr, list_elem_of_here.
Qed.

(** ** Sequences of operations *)

Inductive stream_op : Type := Enqueue (p : ptr) | Pop (wait : bool).

(** Runs operations one after the other and collects what the pops return. *)
Fixpoint run_stream (h : nodes_t) (st : stream_t) (ops : list stream_op)
    : comp (nodes_t * stream_t * list (option ptr)) :=
  match ops with
  | [] => Done (h, st, [])
  | Enqueue p :: ops =>
      '(h, st, _) ← stream_enqueue h st (Some p);
      run_stream h st ops
  | Pop wait :: ops =>
      '(h, st, r) ← stream_pop h st wait;
      '(h, st, rs) ← run_stream h st ops;
      Done (h, st, r :: rs)
  end.

(** The specification: a first-in first-out queue and a counter that
    enqueues increment and pops decrement.  A waiting pop waits for the
    counter to be different from 0. *)
Fixpoint run_queue (q : list ptr) (len : Z) (ops : list stream_op)
    : comp (list ptr * Z * list (option ptr)) :=
  match ops with
  | [] => Done (q, len, [])
  | Enqueue p :: ops => run_queue (q ++ [p]) (i32 (len + 1)) ops
  | Pop wait :: ops =>
      if wait && (len =? 0) then Stuck Deadlock else
      '(q', len', rs) ← run_queue (tail q) (i32 (len - 1)) ops;
      Done (q', len', head q :: rs)
  end.

(** Only nodes on the heap that are not in the queue are enqueued. *)
Fixpoint enqueues_ok (d : gset ptr) (q : list ptr) (ops : list stream_op) : Prop :=
  match ops with
  | [] => True
  | Enqueue p :: ops => (p ∈ d) /\ (p ∉ q) /\ enqueues_ok d (q ++ [p]) ops
  | Pop _ :: ops => enqueues_ok d (tail q) ops
  end.

(** No pop finds the queue empty. *)
Fixpoint pops_ok (q : list ptr) (ops : list stream_op) : Prop :=
  match ops with
  | [] => True
  | Enqueue p :: ops => pops_ok (q ++ [p]) ops
  | Pop _ :: ops => q <> [] /\ pops_ok (tail q) ops
  end.

Lemma content_dom (h h' : nodes_t) : sn_content <$> h' = sn_content <$> h -> dom h' = dom h.
Proof. intros H. rw -(dom_fmap_L sn_content h) -H dom_fmap_L //. Qed.

Lemma pop_blocks h st q :
  stream_rep h st q -> st.(st_length) = 0 -> stream_pop h st true = Stuck Deadlock.
Proof.
  intros (? & ? & _ & _ & _ & _ & Hl) Hlen. by rw /stream_pop Hl /= Hlen.
Qed.

Lemma run_stream_spec ops h st q :
  stream_rep h st q -> - 2 ^ 31 <= st.(st_waiting) < 2 ^ 31 - 1 ->
  enqueues_ok (dom h) q ops ->
  match run_queue q st.(st_length) ops with
  | Done (q', len', rs) => exists h' st', run_stream h st ops = Done (h', st', rs) /\
      stream_rep h' st' q' /\ st'.(st_length) = len' /\ sn_content <$> h' = sn_content <$> h
  | Stuck r => run_stream h st ops = Stuck r
  end.
Proof.
  revert h st q. induction ops as [|[p|wait] ops IH]; intros h st q Hrep Hw Hok.
  - by exists h, st.
  - destruct Hok as ([n Hn]%elem_of_dom & Hp & Hok).
    destruct (enqueue_rep h st q p n Hrep Hp Hn) as (h' & st' & Hrun & Hrep' & Hk & Hlen & Hwt & _).
    specialize (IH h' st' (q ++ [p]) Hrep' ltac:(by rw Hwt)).
    rw Hlen (content_dom _ _ Hk) in IH. specialize (IH Hok).
    cbn [run_queue run_stream]. rw Hrun /=.
    destruct (run_queue _ _ ops) as [[[q' len'] rs]|r]; [|exact IH].
    destruct IH as (h'' & st'' & ? & ? & ? & ?). exists h'', st''. split_and!; congruence.
  - cbn in Hok. cbn [run_queue run_stream].
    destruct (wait && (st.(st_length) =? 0)) eqn:E.
    { apply andb_true_iff in E as [-> E%Z.eqb_eq]. by rw (pop_blocks h st q). }
    destruct (pop_rep h st q wait Hrep) as (h' & st' & -> & Hrep' & Hk & Hlen & Hwt & _); [|done|].
    { intros ->. by apply Z.eqb_neq. }
    specialize (IH h' st' (tail q) Hrep' ltac:(by rw Hwt)).
    rw Hlen (content_dom _ _ Hk) in IH. specialize (IH Hok). unbind.
    destruct (run_queue _ _ ops) as [[[q' len'] rs]|r]; unbind;
      [|by rw IH].
    destruct IH as (h'' & st'' & -> & ? & ? & ?). exists h'', st''. split_and!; try done; congruence.
Qed.

(** As long as no pop finds the queue empty, the counter is the length
    of the queue and no waiting pop blocks. *)
Lemma run_queue_exact ops q :
  pops_ok q ops -> Z.of_nat (length q + length ops) < 2 ^ 31 ->
  exists q' rs, run_queue q (Z.of_nat (length q)) ops = Done (q', Z.of_nat (length q'), rs) /\
    Forall is_Some rs.
Proof.
  revert q. induction ops as [|[p|wait] ops IH]; intros q Hok Hlen; cbn in Hok |- *.
  - by exists q, [].
  - cbn in Hlen. destruct (IH (q ++ [p]) Hok) as (q' & rs & H & Hrs); [rw length_app /=; lia|].
    exists q', rs. split; [|done]. rw -H. f_equal. rw length_app i32_small /=; lia.
  - destruct Hok as [Hne Hok]. destruct q as [|p q]; [done|].
    destruct (Z.eqb_spec (Z.of_nat (length (p :: q))) 0); [simpl in *; lia|]. rw andb_false_r.
    cbn in Hlen, Hok |- *.
    destruct (IH q Hok) as (q' & rs & H & Hrs); [lia|].
    exists q', (Some p :: rs). split; [|constructor; eauto].
    replace (i32 _) with (Z.of_nat (length q)) by (rw i32_small; lia). by rw H.
Qed.

(** ** Deallocation *)

Definition content_of (h : nodes_t) (p : ptr) : option ptr := h !! p ≫= sn_content.

Lemma content_of_eq h h' p : sn_content <$> h' = sn_content <$> h -> content_of h' p = content_of h p.
Proof.
  intros H%(f_equal (lookup p)). rewrite -> !lookup_fmap in H. rw /content_of.
  destruct (h' !! p), (h !! p); naive_solver.
Qed.

Lemma omap_ext_in {A B} (f g : A -> option B) (l : list A) :
  (forall x, x ∈ l -> f x = g x) -> omap f l = omap g l.
Proof.
  induction l as [|x l IH]; [done|]. intros H. cbn.
  rw (H x); [|apply list_elem_of_here]. rw IH; [done|]. intros. by apply H, list_elem_of_further.
Qed.

Lemma stream_rep_frame h h' st q :
  (forall p, p ∈ q -> h' !! p = h !! p) -> stream_rep h st q -> stream_rep h' st q.
Proof.
  intros Heq (outs & ins & -> & Hnd & Ho & Hi & Hl). exists outs, ins.
  split_and!; [done|done|apply (chain_frame h); [|done]..|done]; intros p Hp; apply Heq;
    rw elem_of_app -?Permutation_rev; auto.
Qed.

Section deallocation.
Context {R : Type}.
Implicit Types reqs : gmap ptr R.

Lemma deallocate_node_spec h reqs p n :
  h !! p = Some n -> (forall c, n.(sn_content) = Some c -> c ∈ dom reqs) ->
  deallocate_node h reqs (Some p) =
  Done (delete p h, match n.(sn_content) with Some c => delete c reqs | None => reqs end).
Proof.
  intros Hn Hc. rw /deallocate_node (load_Some _ _ _ Hn). unbind.
  destruct (n.(sn_content)) as [c|].
  - destruct (proj1 (elem_of_dom _ _) (Hc c eq_refl)) as [r Hr].
    rw (free_Some _ _ _ Hr). unbind. by rw (free_Some _ _ _ Hn).
  - cbn [free mbind comp_bind]. by rw Hn.
Qed.

Lemma drain_stream_spec fuel h reqs st q :
  (length q < fuel)%nat -> stream_rep h st q -> - 2 ^ 31 <= st.(st_waiting) < 2 ^ 31 - 1 ->
  NoDup (omap (content_of h) q) -> (forall c, c ∈ omap (content_of h) q -> c ∈ dom reqs) ->
  exists h' reqs' st', drain_stream fuel h reqs st = Done (h', reqs', st') /\
    stream_rep h' st' [] /\ dom h' = dom h ∖ list_to_set q /\
    dom reqs' = dom reqs ∖ list_to_set (omap (content_of h) q) /\
    (forall r, r ∉ q -> h' !! r = h !! r).
Proof.
  revert h reqs st q. induction fuel as [|fuel IH]; [intros; lia|].
  intros h reqs st q Hf Hrep Hw Hnd Hin. cbn [drain_stream].
  destruct (pop_rep h st q false Hrep) as (h1 & st1 & -> & Hrep1 & Hk & _ & Hwt & Hfr); [done..|].
  unbind. destruct q as [|p q].
  { exists h1, reqs, st1. rw (content_dom _ _ Hk). cbn. split_and!; try done; set_solver. }
  cbn [head tail] in *.
  assert (p ∈ dom h1) as [n Hn]%elem_of_dom.
  { rw (content_dom _ _ Hk). eapply stream_rep_in_heap, list_elem_of_here. done. }
  assert (content_of h p = n.(sn_content)) as Hcp.
  { by rw -(content_of_eq _ _ p Hk) /content_of Hn. }
  assert (p ∉ q) as Hpq by by destruct Hrep as (? & ? & _ & [Hpq _]%NoDup_cons & _).
  assert (omap (content_of (delete p h1)) q = omap (content_of h) q) as Hom.
  { apply omap_ext_in. intros r Hr. rw -(content_of_eq _ _ r Hk) /content_of lookup_delete_ne //.
    by intros ->. }
  rw (deallocate_node_spec h1 reqs p n Hn).
  2:{ intros c Hc. apply Hin. cbn. rw Hcp Hc. apply list_elem_of_here. }
  unbind.
  edestruct (IH (delete p h1) (match n.(sn_content) with Some c => delete c reqs | None => reqs end) st1 q)
    as (h' & reqs' & st' & -> & Hrep' & Hd & Hdr & Hfr').
  - simpl in Hf. lia.
  - eapply stream_rep_frame; [|done]. intros r Hr. apply lookup_delete_ne. by intros ->.
  - by rw Hwt.
  - rw Hom. cbn in Hnd. rewrite -> Hcp in Hnd. destruct (n.(sn_content)); [|done].
    by apply NoDup_cons in Hnd as [_ Hnd].
  - intros c. rw Hom. intros Hc. cbn in Hnd, Hin. rewrite -> Hcp in Hnd, Hin.
    destruct (n.(sn_content)) as [c'|]; [|by apply Hin].
    apply NoDup_cons in Hnd as [Hc' _]. rw dom_delete elem_of_difference elem_of_singleton.
    split; [by apply Hin, list_elem_of_further|]. by intros ->.
  - exists h', reqs', st'. split; [done|]. split; [done|]. rw Hd Hdr Hom dom_delete_L (content_dom _ _ Hk).
    split; [set_solver|]. split.
    { cbn. rw Hcp. destruct (n.(sn_content)) as [c|]; [|done]. rw dom_delete_L. set_solver. }
    intros r [Hrp Hrq]%not_elem_of_cons. rw Hfr' // lookup_delete_ne // Hfr // not_elem_of_cons //.
Qed.

Lemma dealloc_stream_ok h reqs st q :
  stream_rep h st q -> st.(st_waiting) = 0 ->
  NoDup (omap (content_of h) q) -> (forall c, c ∈ omap (content_of h) q -> c ∈ dom reqs) ->
  exists h' reqs' st', dealloc_stream h reqs (Some st) = Done (h', reqs', Some st') /\
    stream_rep h' st' [] /\ dom h' = dom h ∖ list_to_set q /\
    dom reqs' = dom reqs ∖ list_to_set (omap (content_of h) q) /\
    (forall r, r ∉ q -> h' !! r = h !! r).
Proof.
  intros Hrep Hw Hnd Hin. rw /dealloc_stream.
  destruct (drain_stream_spec (S (size h)) h reqs st q) as (h' & reqs' & st' & -> & ?);
    [|done|by rw Hw|done|done|by exists h', reqs', st'].
  destruct Hrep as (outs & ins & -> & Hnd' & Ho & Hi & _).
  assert (list_to_set (outs ++ rev ins) ⊆ dom h) as Hsub.
  { apply chain_dom in Ho, Hi. rewrite -> Forall_forall in Ho, Hi.
    intros p. rw elem_of_list_to_set elem_of_app -Permutation_rev. naive_solver. }
  apply subseteq_size in Hsub. rewrite -> (size_list_to_set (C := gset ptr)), size_dom in Hsub by done. lia.
Qed.
End deallocation.

(** ** Properties *)

(** C16: a stream is a first-in first-out queue.  Any sequence of enqueues
    (of nodes that are not in the queue yet) and pops returns what the
    queue specification returns, in the same order, and leaves the stream
    standing for the same queue with the same counter; the contents of the
    nodes are not changed; a waiting pop blocks exactly where the specification
    blocks. *)
Theorem stream_refines_queue ops h st q :
  stream_rep h st q -> st.(st_waiting) = 0 -> enqueues_ok (dom h) q ops ->
  match run_queue q st.(st_length) ops with
  | Done (q', len', rs) => exists h' st', run_stream h st ops = Done (h', st', rs) /\
      stream_rep h' st' q' /\ st'.(st_length) = len' /\ sn_content <$> h' = sn_content <$> h
  | Stuck r => run_stream h st ops = Stuck r
  end.
Proof. intros Hrep Hw. apply run_stream_spec; [done|]. rw Hw. lia. Qed.

(** Two nodes, and the stream [initialize_stream] gives. *)
Definition two_nodes : nodes_t :=
  <[1%positive := mk_snode None Poison]> (<[2%positive := mk_snode None Poison]> ∅).
Definition new_stream : stream_t := mk_stream Null Null false 0 0.

Lemma new_stream_rep h : stream_rep h new_stream [].
Proof. exists [], []. split_and!; try done. constructor. Qed.

Lemma stream_refines_queue_witness :
  let ops := [Enqueue 1; Enqueue 2; Pop true; Pop false; Pop false]%positive in
  match run_queue [] 0 ops with
  | Done (q', len', rs) => exists h' st', run_stream two_nodes new_stream ops = Done (h', st', rs) /\
      stream_rep h' st' q' /\ st'.(st_length) = len' /\ sn_content <$> h' = sn_content <$> two_nodes
  | Stuck r => run_stream two_nodes new_stream ops = Stuck r
  end.
Proof.
  apply (stream_refines_queue [Enqueue 1; Enqueue 2; Pop true; Pop false; Pop false]%positive
    two_nodes new_stream []); [apply new_stream_rep|done|].
  apply (bool_decide_eq_true_1 _). vm_compute. reflexivity.
Defined.

(** while no pop finds the queue empty, the counter is the length of
    the queue, every pop returns a node, and no waiting pop blocks. *)
Theorem stream_length_exact ops h st q :
  stream_rep h st q -> st.(st_waiting) = 0 -> enqueues_ok (dom h) q ops -> pops_ok q ops ->
  st.(st_length) = Z.of_nat (length q) -> Z.of_nat (length q + length ops) < 2 ^ 31 ->
  exists h' st' q' rs, run_stream h st ops = Done (h', st', rs) /\ stream_rep h' st' q' /\
    st'.(st_length) = Z.of_nat (length q') /\ Forall is_Some rs.
Proof.
  intros Hrep Hw Hok Hp Hlen Hb.
  destruct (run_queue_exact ops q Hp Hb) as (q' & rs & Hrun & Hrs).
  pose proof (run_stream_spec ops h st q Hrep ltac:(rw Hw; lia) Hok) as H.
  rw Hlen Hrun in H. destruct H as (h' & st' & ? & ? & ? & _). by exists h', st', q', rs.
Qed.

Lemma stream_length_exact_witness :
  exists h' st' q' rs,
    run_stream two_nodes new_stream [Enqueue 1; Enqueue 2; Pop true]%positive = Done (h', st', rs) /\
    stream_rep h' st' q' /\ st'.(st_length) = Z.of_nat (length q') /\ Forall is_Some rs.
Proof.
  apply (stream_length_exact [Enqueue 1; Enqueue 2; Pop true]%positive two_nodes new_stream []);
    [apply new_stream_rep|done| |by vm_compute|done|vm_compute; reflexivity].
  apply (bool_decide_eq_true_1 _). vm_compute. reflexivity.
Defined.

(** C24: a pop that does not wait on an empty stream still decrements the
    counter.  If the counter was 0, one more enqueue brings it back to 0 and
    the next waiting pop blocks although the queue has a node for it. *)
Theorem stream_pop_empty_then_blocks h st p :
  stream_rep h st [] -> st.(st_length) = 0 -> st.(st_waiting) = 0 -> p ∈ dom h ->
  exists h1 st1, run_stream h st [Pop false; Enqueue p] = Done (h1, st1, [None]) /\
    stream_rep h1 st1 [p] /\ stream_pop h1 st1 true = Stuck Deadlock.
Proof.
  intros Hrep Hlen Hw Hp.
  pose proof (run_stream_spec [Pop false; Enqueue p] h st [] Hrep ltac:(rw Hw; lia)
    ltac:(split_and!; [done|apply not_elem_of_nil|done])) as H.
  rw Hlen in H. destruct H as (h1 & st1 & Hrun & Hrep1 & Hlen1 & _). exists h1, st1.
  split_and!; [done..|]. by eapply pop_blocks.
Qed.

Lemma stream_pop_empty_then_blocks_witness :
  exists h1 st1, run_stream two_nodes new_stream [Pop false; Enqueue 1%positive] = Done (h1, st1, [None]) /\
    stream_rep h1 st1 [1%positive] /\ stream_pop h1 st1 true = Stuck Deadlock.
Proof.
  apply (stream_pop_empty_then_blocks two_nodes new_stream 1%positive);
    [apply new_stream_rep|done|done|]. apply elem_of_dom. eexists. vm_compute. reflexivity.
Defined.

(** [dealloc_stream] frees every node of the queue and the content of
    each, exactly once, and nothing else, and leaves the stream empty. *)
Theorem dealloc_stream_frees_all {R} h (reqs : gmap ptr R) st q :
  stream_rep h st q -> st.(st_waiting) = 0 ->
  NoDup (omap (content_of h) q) -> (forall c, c ∈ omap (content_of h) q -> c ∈ dom reqs) ->
  exists h' reqs' st', dealloc_stream h reqs (Some st) = Done (h', reqs', Some st') /\
    stream_rep h' st' [] /\ dom h' = dom h ∖ list_to_set q /\
    dom reqs' = dom reqs ∖ list_to_set (omap (content_of h) q).
Proof.
  intros Hrep Hw Hnd Hin.
  destruct (dealloc_stream_ok h reqs st q Hrep Hw Hnd Hin) as (h' & reqs' & st' & ? & ? & ? & ? & _).
  by exists h', reqs', st'.
Qed.

Lemma dealloc_stream_frees_all_witness :
  let h := <[1%positive := mk_snode (Some 5%positive) Null]> ∅ in
  exists h' reqs' st',
    dealloc_stream h (<[5%positive := 0]> ∅) (Some (mk_stream Null (Node 1%positive) false 1 0)) =
      Done (h', reqs', Some st') /\
    stream_rep h' st' [] /\ dom h' = dom h ∖ list_to_set [1%positive] /\
    dom reqs' = dom (<[5%positive := 0]> (∅ : gmap ptr Z)) ∖ list_to_set (omap (content_of h) [1%positive]).
Proof.
  apply (dealloc_stream_frees_all (<[1%positive := mk_snode (Some 5%positive) Null]> ∅)
    (<[5%positive := 0]> ∅) (mk_stream Null (Node 1%positive) false 1 0) [1%positive]).
  - exists [1%positive], []. split_and!; try done; [apply NoDup_singleton|].
    split; [done|]. by eexists.
  - done.
  - apply NoDup_singleton.
  - intros c Hc. apply list_elem_of_singleton in Hc as ->. apply elem_of_dom. eexists. vm_compute. reflexivity.
Defined.
