(* ===== verification/StreamConc.v ===== *)
(** * StreamConc: src/stream.c with several threads

    The two functions of a stream as threads run them at the same time:
    one step is one access to shared memory (an atomic operation, a read, a
    write, an operation on the mutex or the condition).  The order in which
    nodes come out is the order in which they were entered by the
    compare-and-swap of [stream_enqueue]; but a wake-up can be lost. *)

From stdpp Require Import functions.
From S2P Require Import Prelude Global Memory Stream.

(** ** States *)

(** Where a thread is; [EqRead] to [EqSignal] are [stream_enqueue], the
    others [stream_pop]. *)
Inductive pc : Type :=
| Idle
| EqRead (p : ptr)                   (* in_queue = stream->in_queue *)
| EqSet (p : ptr) (h : link)         (* node->next = in_queue *)
| EqCas (p : ptr) (h : link)         (* _cas(&stream->in_queue, in_queue, node) *)
| EqLength                           (* _faa(&stream->length, 1) *)
| EqSignal                           (* if (stream->waiting > 0) signal *)
| PopLock (wait : bool)              (* pthread_mutex_lock *)
| PopWaiting (wait : bool)           (* _faa(&stream->waiting, 1) *)
| PopTest (wait : bool)              (* while (wait && stream->length == 0) *)
| PopSleep                           (* pthread_cond_wait: not blocked yet *)
| PopBlocked                         (* blocked *)
| PopWake                            (* signalled: takes the lock again *)
| PopUnwait                          (* _fas(&stream->waiting, 1) *)
| PopOut                             (* if (!stream->out_queue) *)
| PopHead                            (* head = stream->in_queue *)
| PopCas (h : ptr)                   (* _cas(&stream->in_queue, head, NULL) *)
| PopReverse (h : link)              (* while (head) *)
| PopLength                          (* _fas(&stream->length, 1) *)
| PopTake                            (* head = out_queue; out_queue = head->next *)
| PopUnlock (r : option ptr)         (* pthread_mutex_unlock *)
| PopPoison (r : option ptr).        (* head->next = QUEUE_POISON1; return *)

(** The stream and its threads; [pushed] and [popped] record the nodes that
    were entered and taken out, in order. *)
Record cstate := mk_cst {
  cs_in : link;
  cs_out : link;
  cs_next : gmap ptr link;
  cs_lock : option nat;
  cs_length : Z;
  cs_waiting : Z;
  cs_pc : nat -> pc;
  cs_pushed : list ptr;
  cs_popped : list ptr }.

Definition init_cst (nodes : gmap ptr link) : cstate :=
  mk_cst Null Null nodes None 0 0 (fun _ => Idle) [] [].

(** The node a thread owns while it is neither in the stream nor given back. *)
Definition own (c : pc) : option ptr :=
  match c with
  | EqRead p | EqSet p _ | EqCas p _ => Some p
  | PopUnlock r | PopPoison r => r
  | _ => None
  end.

(** The part of [stream_pop] that holds the lock. *)
Definition critical (c : pc) : bool :=
  match c with
  | PopWaiting _ | PopTest _ | PopSleep | PopUnwait | PopOut | PopHead | PopCas _ | PopReverse _
  | PopLength | PopTake | PopUnlock _ => true
  | _ => false
  end.

(** Updates of a state by a step of thread [t]. *)
Definition go (t : nat) (c : pc) (s : cstate) : cstate :=
  mk_cst s.(cs_in) s.(cs_out) s.(cs_next) s.(cs_lock) s.(cs_length) s.(cs_waiting)
    (<[t := c]> s.(cs_pc)) s.(cs_pushed) s.(cs_popped).
Definition set_in l s := mk_cst l s.(cs_out) s.(cs_next) s.(cs_lock) s.(cs_length) s.(cs_waiting) s.(cs_pc) s.(cs_pushed) s.(cs_popped).
Definition set_out l s := mk_cst s.(cs_in) l s.(cs_next) s.(cs_lock) s.(cs_length) s.(cs_waiting) s.(cs_pc) s.(cs_pushed) s.(cs_popped).
Definition set_nxt p l s := mk_cst s.(cs_in) s.(cs_out) (<[p := l]> s.(cs_next)) s.(cs_lock) s.(cs_length) s.(cs_waiting) s.(cs_pc) s.(cs_pushed) s.(cs_popped).
Definition set_lck l s := mk_cst s.(cs_in) s.(cs_out) s.(cs_next) l s.(cs_length) s.(cs_waiting) s.(cs_pc) s.(cs_pushed) s.(cs_popped).
Definition set_len n s := mk_cst s.(cs_in) s.(cs_out) s.(cs_next) s.(cs_lock) n s.(cs_waiting) s.(cs_pc) s.(cs_pushed) s.(cs_popped).
Definition set_wait n s := mk_cst s.(cs_in) s.(cs_out) s.(cs_next) s.(cs_lock) s.(cs_length) n s.(cs_pc) s.(cs_pushed) s.(cs_popped).
Definition push p s := mk_cst s.(cs_in) s.(cs_out) s.(cs_next) s.(cs_lock) s.(cs_length) s.(cs_waiting) s.(cs_pc) (s.(cs_pushed) ++ [p]) s.(cs_popped).
Definition pop p s := mk_cst s.(cs_in) s.(cs_out) s.(cs_next) s.(cs_lock) s.(cs_length) s.(cs_waiting) s.(cs_pc) s.(cs_pushed) (s.(cs_popped) ++ [p]).

(** The nodes that have been entered and not taken out. *)
Definition inside (s : cstate) (p : ptr) : Prop :=
  exists q, s.(cs_pushed) = s.(cs_popped) ++ q /\ p ∈ q.

(** ** Steps

    A thread may start to enqueue a node that exists, is not in the stream
    and is not owned by another thread. *)
Inductive step (s : cstate) : cstate -> Prop :=
| enqueue_start t p :
    s.(cs_pc) t = Idle -> is_Some (s.(cs_next) !! p) -> ~ inside s p ->
    (forall t', own (s.(cs_pc) t') <> Some p) -> step s (go t (EqRead p) s)
| enqueue_read t p : s.(cs_pc) t = EqRead p -> step s (go t (EqSet p s.(cs_in)) s)
| enqueue_set t p h : s.(cs_pc) t = EqSet p h -> step s (go t (EqCas p h) (set_nxt p h s))
| enqueue_cas_ok t p h :
    s.(cs_pc) t = EqCas p h -> s.(cs_in) = h -> step s (go t EqLength (push p (set_in (Node p) s)))
| enqueue_cas_fails t p h : s.(cs_pc) t = EqCas p h -> s.(cs_in) <> h -> step s (go t (EqRead p) s)
| enqueue_length t : s.(cs_pc) t = EqLength -> step s (go t EqSignal (set_len (i32 (s.(cs_length) + 1)) s))
| enqueue_signal_none t :
    s.(cs_pc) t = EqSignal -> (s.(cs_waiting) <= 0 \/ forall t', s.(cs_pc) t' <> PopBlocked) ->
    step s (go t Idle s)
| enqueue_signal t t' :
    s.(cs_pc) t = EqSignal -> 0 < s.(cs_waiting) -> s.(cs_pc) t' = PopBlocked ->
    step s (go t Idle (go t' PopWake s))
| pop_start t wait : s.(cs_pc) t = Idle -> step s (go t (PopLock wait) s)
| pop_lock t wait :
    s.(cs_pc) t = PopLock wait -> s.(cs_lock) = None -> step s (go t (PopWaiting wait) (set_lck (Some t) s))
| pop_waiting t wait :
    s.(cs_pc) t = PopWaiting wait -> step s (go t (PopTest wait) (set_wait (i32 (s.(cs_waiting) + 1)) s))
| pop_test_wait t :
    s.(cs_pc) t = PopTest true -> s.(cs_length) = 0 -> step s (go t PopSleep s)
| pop_test_go t wait :
    s.(cs_pc) t = PopTest wait -> (wait = false \/ s.(cs_length) <> 0) -> step s (go t PopUnwait s)
| pop_sleep t : s.(cs_pc) t = PopSleep -> step s (go t PopBlocked (set_lck None s))
| pop_spurious t : s.(cs_pc) t = PopBlocked -> step s (go t PopWake s)
| pop_wake t :
    s.(cs_pc) t = PopWake -> s.(cs_lock) = None -> step s (go t (PopTest true) (set_lck (Some t) s))
| pop_unwait t : s.(cs_pc) t = PopUnwait -> step s (go t PopOut (set_wait (i32 (s.(cs_waiting) - 1)) s))
| pop_out_empty t : s.(cs_pc) t = PopOut -> s.(cs_out) = Null -> step s (go t PopHead s)
| pop_out_some t : s.(cs_pc) t = PopOut -> s.(cs_out) <> Null -> step s (go t PopLength s)
| pop_head_none t : s.(cs_pc) t = PopHead -> s.(cs_in) = Null -> step s (go t PopLength s)
| pop_head t h : s.(cs_pc) t = PopHead -> s.(cs_in) = Node h -> step s (go t (PopCas h) s)
| pop_cas_ok t h :
    s.(cs_pc) t = PopCas h -> s.(cs_in) = Node h -> step s (go t (PopReverse (Node h)) (set_in Null s))
| pop_cas_fails t h : s.(cs_pc) t = PopCas h -> s.(cs_in) <> Node h -> step s (go t PopHead s)
| pop_reverse t h n :
    s.(cs_pc) t = PopReverse (Node h) -> s.(cs_next) !! h = Some n ->
    step s (go t (PopReverse n) (set_out (Node h) (set_nxt h s.(cs_out) s)))
| pop_reverse_end t : s.(cs_pc) t = PopReverse Null -> step s (go t PopLength s)
| pop_length t : s.(cs_pc) t = PopLength -> step s (go t PopTake (set_len (i32 (s.(cs_length) - 1)) s))
| pop_take t h n :
    s.(cs_pc) t = PopTake -> s.(cs_out) = Node h -> s.(cs_next) !! h = Some n ->
    step s (go t (PopUnlock (Some h)) (pop h (set_out n s)))
| pop_take_none t : s.(cs_pc) t = PopTake -> s.(cs_out) = Null -> step s (go t (PopUnlock None) s)
| pop_unlock t r : s.(cs_pc) t = PopUnlock r -> step s (go t (PopPoison r) (set_lck None s))
| pop_poison t h : s.(cs_pc) t = PopPoison (Some h) -> step s (go t Idle (set_nxt h Poison s))
| pop_return t : s.(cs_pc) t = PopPoison None -> step s (go t Idle s).

Definition reachable_from (nodes : gmap ptr link) (s : cstate) : Prop := rtc step (init_cst nodes) s.

(** ** The invariant *)

(** The nodes that are linked from [l]. *)
Fixpoint linked (next : gmap ptr link) (l : link) (ps : list ptr) : Prop :=
  match ps with
  | [] => l = Null
  | p :: ps => l = Node p /\ exists n, next !! p = Some n /\ linked next n ps
  end.

Lemma linked_insert next l ps p n : p ∉ ps -> linked next l ps -> linked (<[p := n]> next) l ps.
Proof.
  revert l. induction ps as [|q ps IH]; [done|]. intros l [Hq Hps]%not_elem_of_cons (-> & m & Hm & Hl).
  split; [done|]. exists m. rw lookup_insert_ne //. split; [done|]. by apply IH.
Qed.

Lemma linked_Null next ps : linked next Null ps -> ps = [].
Proof. destruct ps; [done|]. by intros [? _]. Qed.

Definition needs_empty (c : pc) : Prop := match c with PopHead | PopCas _ => True | _ => False end.

(** [rem] is what is left to reverse, [outs] and [ins] are the two queues. *)
Record cinv (s : cstate) (rem outs ins : list ptr) : Prop := {
  ci_out : linked s.(cs_next) s.(cs_out) outs;
  ci_in : linked s.(cs_next) s.(cs_in) ins;
  ci_rem : forall t h, s.(cs_pc) t = PopReverse h -> linked s.(cs_next) h rem;
  ci_no_rem : rem = [] \/ exists t h, s.(cs_pc) t = PopReverse h;
  ci_order : s.(cs_pushed) = s.(cs_popped) ++ rev rem ++ outs ++ rev ins;
  ci_nodup : NoDup (rem ++ outs ++ ins);
  ci_lock : forall t, critical (s.(cs_pc) t) = true -> s.(cs_lock) = Some t;
  ci_own : forall t p, own (s.(cs_pc) t) = Some p -> p ∉ rem ++ outs ++ ins /\ is_Some (s.(cs_next) !! p);
  ci_apart : forall t t' p, own (s.(cs_pc) t) = Some p -> own (s.(cs_pc) t') = Some p -> t = t';
  ci_cas : forall t p h, s.(cs_pc) t = EqCas p h -> s.(cs_next) !! p = Some h;
  ci_empty : forall t, needs_empty (s.(cs_pc) t) -> s.(cs_out) = Null }.

Lemma inside_queue s rem outs ins p : cinv s rem outs ins -> inside s p <-> p ∈ rem ++ outs ++ ins.
Proof.
  intros Hi. rw /inside (ci_order _ _ _ _ Hi). split.
  - intros (q & Hq & Hp). apply app_inv_head in Hq as <-. revert Hp.
    rw !elem_of_app -!Permutation_rev //.
  - intros Hp. eexists. split; [reflexivity|]. by rw !elem_of_app -!Permutation_rev -!elem_of_app.
Qed.

Lemma pc_insert (f : nat -> pc) t c t' : (<[t := c]> f) t' = if decide (t' = t) then c else f t'.
Proof. case_decide; [subst; by rw fn_lookup_insert|by rw fn_lookup_insert_ne]. Qed.

Lemma cinv_unique s rem outs ins t t' :
  cinv s rem outs ins -> critical (s.(cs_pc) t) = true -> critical (s.(cs_pc) t') = true -> t = t'.
Proof. intros Hi H1%(ci_lock _ _ _ _ Hi) H2%(ci_lock _ _ _ _ Hi). congruence. Qed.

(** A node that belongs to no thread and is not in the queues. *)
Definition fresh (s : cstate) (q : list ptr) (p : ptr) : Prop :=
  p ∉ q /\ is_Some (s.(cs_next) !! p) /\ forall t, own (s.(cs_pc) t) <> Some p.

(** A step that only changes where thread [t] is, counters and the lock. *)
Lemma cinv_go s s' t c rem outs ins :
  cinv s rem outs ins ->
  s'.(cs_in) = s.(cs_in) -> s'.(cs_out) = s.(cs_out) -> s'.(cs_next) = s.(cs_next) ->
  s'.(cs_pushed) = s.(cs_pushed) -> s'.(cs_popped) = s.(cs_popped) ->
  s'.(cs_pc) = <[t := c]> s.(cs_pc) ->
  (forall p, own c = Some p -> own (s.(cs_pc) t) = Some p \/ fresh s (rem ++ outs ++ ins) p) ->
  (forall p h, c = EqCas p h -> s.(cs_next) !! p = Some h) ->
  (critical c = true -> s'.(cs_lock) = Some t) ->
  (s'.(cs_lock) = s.(cs_lock) \/ s.(cs_lock) = None \/ s.(cs_lock) = Some t) ->
  (forall h, c <> PopReverse h) -> (rem = [] \/ forall h, s.(cs_pc) t <> PopReverse h) ->
  (needs_empty c -> s.(cs_out) = Null) ->
  cinv s' rem outs ins.
Proof.
  intros [Hout Hin Hrem Hnorem Horder Hnd Hlock Hown Hapart Hcas Hempty] E1 E2 E3 E4 E5 Epc Hc Hncas Hcrit Hl Hnrev Hrev Hne.
  assert (forall t', s'.(cs_pc) t' = if decide (t' = t) then c else s.(cs_pc) t') as Hpc.
  { intros t'. rw Epc. apply pc_insert. }
  assert (forall t' p, own (s'.(cs_pc) t') = Some p ->
    own (s.(cs_pc) t') = Some p \/ t' = t /\ fresh s (rem ++ outs ++ ins) p) as Hown'.
  { intros t' p. rw Hpc. case_decide; [subst|by left]. intros [|]%Hc; [by left|by right]. }
  split; rw ?E1 ?E2 ?E3 ?E4 ?E5; try done.
  - intros t' h. rw Hpc. case_decide; [intros ->; by destruct (Hnrev h)|apply Hrem].
  - destruct Hnorem as [|(t' & h & Ht')]; [by left|]. destruct Hrev as [|Hrev]; [by left|].
    right. exists t', h. rw Hpc. case_decide; [subst; by destruct (Hrev h)|done].
  - intros t'. rw Hpc. case_decide as Heq; [subst; done|]. intros Hct%Hlock.
    destruct Hl as [->|[Hl|Hl]]; [done|congruence..].
  - intros t' p [H|(-> & Hf)]%Hown'; [by eapply Hown|]. by destruct Hf as (? & ? & _).
  - intros t1 t2 p [H1|(-> & Hf1)]%Hown' [H2|(-> & Hf2)]%Hown'; [by eapply Hapart| | |done].
    + by destruct Hf2 as (_ & _ & Hf2); destruct (Hf2 t1).
    + by destruct Hf1 as (_ & _ & Hf1); destruct (Hf1 t2).
  - intros t' p h. rw Hpc. case_decide; [apply Hncas|apply Hcas].
  - intros t'. rw Hpc. case_decide; [done|apply Hempty].
Qed.

(** A thread writes to the node it owns. *)
Lemma cinv_set_nxt s t p l rem outs ins :
  cinv s rem outs ins -> own (s.(cs_pc) t) = Some p -> (forall h, s.(cs_pc) t <> EqCas p h) ->
  cinv (set_nxt p l s) rem outs ins.
Proof.
  intros [Hout Hin Hrem Hnorem Horder Hnd Hlock Hown Hapart Hcas Hempty] Ht Hn.
  destruct (Hown _ _ Ht) as [Hp _]. rewrite -> !elem_of_app in Hp.
  split; cbn; try done.
  - apply linked_insert; [tauto|done].
  - apply linked_insert; [tauto|done].
  - intros t' h Ht'. apply linked_insert; [tauto|by eapply Hrem].
  - intros t' q Hq. destruct (Hown _ _ Hq) as [? ?]. split; [done|]. by rw lookup_insert_is_Some; destruct (decide (p = q)); [left|right].
  - intros t' q h Ht'. rw lookup_insert_ne; first by apply (Hcas t'). intros <-.
    assert (t' = t) as -> by (apply (Hapart t' t p); [by rw Ht'|done]). by eapply Hn.
Qed.

(** The compare-and-swap of [stream_enqueue] adds the node to the in-queue. *)
Lemma cinv_enqueue s t p rem outs ins :
  cinv s rem outs ins -> s.(cs_pc) t = EqCas p s.(cs_in) ->
  cinv (go t EqLength (push p (set_in (Node p) s))) rem outs (p :: ins).
Proof.
  intros [Hout Hin Hrem Hnorem Horder Hnd Hlock Hown Hapart Hcas Hempty] Ht.
  destruct (Hown t p) as [Hp Hex]; [by rw Ht|].
  assert (forall t' q, own (if decide (t' = t) then EqLength else s.(cs_pc) t') = Some q ->
    own (s.(cs_pc) t') = Some q /\ t' <> t) as Hown'.
  { intros t' q. by case_decide. }
  split; cbn; try (setoid_rewrite pc_insert); try done.
  - split; [done|]. exists s.(cs_in). split; [by eapply Hcas|done].
  - intros t' h. case_decide; [done|apply Hrem].
  - destruct Hnorem as [|(t' & h & Ht')]; [by left|]. right. exists t', h. case_decide; congruence.
  - by rw Horder -!app_assoc.
  - rw (assoc_L app) -Permutation_middle -(assoc_L app). by constructor.
  - intros t'. case_decide; [done|apply Hlock].
  - intros t' q [Hq Hne]%Hown'. destruct (Hown _ _ Hq) as [Hq' ?]. split; [|done].
    revert Hq'. rw !elem_of_app elem_of_cons. assert (q <> p); [|tauto].
    intros ->. apply Hne. apply (Hapart t' t p); [done|by rw Ht].
  - intros t1 t2 q [H1 _]%Hown' [H2 _]%Hown'. by eapply Hapart.
  - intros t' q h. case_decide; [done|apply Hcas].
  - intros t'. case_decide; [done|apply Hempty].
Qed.

(** The compare-and-swap of [stream_pop] takes the whole in-queue. *)
Lemma cinv_pop_cas s t h rem outs ins :
  cinv s rem outs ins -> s.(cs_pc) t = PopCas h -> s.(cs_in) = Node h ->
  cinv (go t (PopReverse (Node h)) (set_in Null s)) ins [] [].
Proof.
  intros Hi Ht Hh. assert (critical (s.(cs_pc) t) = true) as Hc by by rw Ht.
  assert (s.(cs_out) = Null) as Hnull by (apply (ci_empty _ _ _ _ Hi t); by rw Ht).
  assert (outs = []) as -> by (eapply linked_Null; rw -Hnull; apply Hi).
  assert (forall t', critical (s.(cs_pc) t') = true -> t' = t) as Huniq
    by (intros t' ?; by eapply cinv_unique).
  destruct Hi as [Hout Hin Hrem Hnorem Horder Hnd Hlock Hown Hapart Hcas Hempty].
  assert (rem = []) as ->.
  { destruct Hnorem as [|(t' & h' & Ht')]; [done|].
    assert (t' = t) as -> by (apply Huniq; by rw Ht'). congruence. }
  cbn in *. assert (forall t' q, own (if decide (t' = t) then PopReverse (Node h) else s.(cs_pc) t') = Some q ->
    own (s.(cs_pc) t') = Some q) as Hown' by (intros t' q; by case_decide).
  split; cbn; try (setoid_rewrite pc_insert); try done.
  - intros t' h'. case_decide; [intros [= <-]; by rw -Hh|]. intros Ht'.
    assert (t' = t) by (apply Huniq; by rw Ht'). done.
  - right. exists t, (Node h). by rw decide_True.
  - by rw Horder !app_nil_r.
  - by rw app_nil_r.
  - intros t'. case_decide; [subst; intros _; by apply Hlock|apply Hlock].
  - intros t' q Hq%Hown'. rw app_nil_r. by eapply Hown.
  - intros t1 t2 q H1%Hown' H2%Hown'. by eapply Hapart.
  - intros t' q h'. case_decide; [done|apply Hcas].
Qed.

(** One turn of the loop that reverses it. *)
Lemma cinv_pop_reverse s t h n rem outs ins :
  cinv s rem outs ins -> s.(cs_pc) t = PopReverse (Node h) -> s.(cs_next) !! h = Some n ->
  exists rem', cinv (go t (PopReverse n) (set_out (Node h) (set_nxt h s.(cs_out) s))) rem' (h :: outs) ins.
Proof.
  intros Hi Ht Hn. assert (forall t', critical (s.(cs_pc) t') = true -> t' = t) as Huniq
    by (intros t' ?; eapply cinv_unique; [done..|by rw Ht]).
  destruct Hi as [Hout Hin Hrem Hnorem Horder Hnd Hlock Hown Hapart Hcas Hempty].
  pose proof (Hrem _ _ Ht) as Hl. destruct rem as [|h' rem]; [done|].
  destruct Hl as ([= <-] & n' & Hn' & Hl). simplify_eq. exists rem.
  cbn in Hnd. apply NoDup_cons in Hnd as [Hh Hnd]. pose proof Hh as Hh'. rewrite -> !elem_of_app in Hh'.
  assert (forall t' q, own (if decide (t' = t) then PopReverse n else s.(cs_pc) t') = Some q ->
    own (s.(cs_pc) t') = Some q) as Hown' by (intros t' q; by case_decide).
  split; cbn; try (setoid_rewrite pc_insert); try done.
  - split; [done|]. exists s.(cs_out). rw lookup_insert_eq. split; [done|]. apply linked_insert; [tauto|done].
  - apply linked_insert; [tauto|done].
  - intros t' h'. case_decide; [intros [= <-]; apply linked_insert; [tauto|done]|]. intros Ht'.
    assert (t' = t) by (apply Huniq; by rw Ht'). done.
  - right. exists t, n. by rw decide_True.
  - rw Horder. cbn. by rw -!app_assoc.
  - rw -Permutation_middle. by constructor.
  - intros t'. case_decide; [subst; intros _; apply Hlock; by rw Ht|apply Hlock].
  - intros t' q Hq%Hown'. destruct (Hown _ _ Hq) as [Hq' ?]. split.
    + revert Hq'. cbn. clear. set_solver.
    + rw lookup_insert_is_Some. destruct (decide (h = q)); [by left|by right].
  - intros t1 t2 q H1%Hown' H2%Hown'. by eapply Hapart.
  - intros t' q h'. case_decide; [done|]. intros Hq. rw lookup_insert_ne; first by apply (Hcas t').
    intros <-. destruct (Hown t' h) as [[] _]; [by rw Hq|]. by left.
  - intros t'. case_decide; [done|]. intros Hne. assert (t' = t); [|done].
    apply Huniq. by destruct (cs_pc s t').
Qed.

(** Nothing is left to reverse when the thread that holds the lock is elsewhere. *)
Lemma cinv_not_reversing s t rem outs ins :
  cinv s rem outs ins -> critical (s.(cs_pc) t) = true -> (forall h, s.(cs_pc) t <> PopReverse h) -> rem = [].
Proof.
  intros Hi Hc Hn. destruct (ci_no_rem _ _ _ _ Hi) as [|(t' & h & Ht')]; [done|].
  assert (t' = t) as -> by (eapply cinv_unique; [done|by rw Ht'|done]). by destruct (Hn h).
Qed.

(** [stream_pop] takes the head of the out-queue. *)
Lemma cinv_pop_take s t h n rem outs ins :
  cinv s rem outs ins -> s.(cs_pc) t = PopTake -> s.(cs_out) = Node h -> s.(cs_next) !! h = Some n ->
  exists outs', cinv (go t (PopUnlock (Some h)) (pop h (set_out n s))) rem outs' ins.
Proof.
  intros Hi Ht Hh Hn. assert (forall t', critical (s.(cs_pc) t') = true -> t' = t) as Huniq
    by (intros t' ?; eapply cinv_unique; [done..|by rw Ht]).
  assert (rem = []) as -> by (apply (cinv_not_reversing s t rem outs ins Hi); by rw Ht).
  destruct Hi as [Hout Hin Hrem Hnorem Horder Hnd Hlock Hown Hapart Hcas Hempty].
  rewrite -> Hh in Hout. destruct outs as [|h' outs]; [done|].
  destruct Hout as ([= <-] & n' & Hn' & Hl). simplify_eq. exists outs.
  cbn in *. apply NoDup_cons in Hnd as [Hnin Hnd].
  assert (forall t' q, own (if decide (t' = t) then PopUnlock (Some h) else s.(cs_pc) t') = Some q ->
    t' = t /\ q = h \/ own (s.(cs_pc) t') = Some q) as Hown'.
  { intros t' q. case_decide; [|by right]. intros [= ->]. by left. }
  assert (forall t', own (s.(cs_pc) t') <> Some h) as Hno.
  { intros t' Ht'. destruct (Hown _ _ Ht') as [[] _]. by left. }
  split; cbn; try (setoid_rewrite pc_insert); try done.
  - intros t' h'. case_decide; [done|apply Hrem].
  - by left.
  - by rw Horder -!app_assoc.
  - intros t'. case_decide; [subst; intros _; apply Hlock; by rw Ht|apply Hlock].
  - intros t' q [(-> & ->)|Hq]%Hown'; [done|]. destruct (Hown _ _ Hq) as [Hq' ?]. split; [|done].
    revert Hq'. rw elem_of_cons. tauto.
  - intros t1 t2 q [(-> & ->)|H1]%Hown' [(-> & Hq)|H2]%Hown'; subst; try done; [by destruct (Hno t2)|by destruct (Hno t1)|by eapply Hapart].
  - intros t' q h'. case_decide; [done|apply Hcas].
  - intros t'. case_decide; [done|]. intros Hne. assert (t' = t); [|done].
    apply Huniq. by destruct (cs_pc s t').
Qed.

Lemma cinv_lock s rem outs ins t c :
  cinv s rem outs ins -> s.(cs_pc) t = c -> critical c = true -> s.(cs_lock) = Some t.
Proof. intros Hi <-. apply (ci_lock _ _ _ _ Hi). Qed.

(** The cases of [step] that do not touch the queues; [H] says where the thread is. *)
Ltac frame Hi H :=
  pose proof (cinv_lock _ _ _ _ _ _ Hi H); pose proof (fun a => ci_empty _ _ _ _ Hi _ (eq_ind_r needs_empty a H));
  eexists _, _, _; eapply (cinv_go _ _ _ _ _ _ _ Hi); clear Hi; cbn; rewrite -> ?H;
  first [reflexivity|done|by auto|by right|by left|by intros; simplify_eq; auto].

Lemma step_cinv s s' rem outs ins :
  cinv s rem outs ins -> step s s' -> exists rem' outs' ins', cinv s' rem' outs' ins'.
Proof.
  intros Hi Hs.
  destruct Hs as [t p H|t p H|t p h H|t p h H|t p h H|t H|t H|t t' H|t w H|t w H|t w H|t H|t w H|t H|t H|t H|t H|t H|t H|t H|t h H|t h H|t h H|t h n H|t H|t H|t h n H|t H|t r H|t h H|t H].
  all: try solve [frame Hi H].
  - exists rem, outs, ins. eapply (cinv_go _ _ _ _ _ _ _ Hi); cbn; rewrite -> ?H; try done; [|by left|by right].
    intros q [= <-]. right. split; [by rw -inside_queue|done].
  - apply (cinv_set_nxt s t p h) in Hi; [|by rw H..]. exists rem, outs, ins.
    eapply (cinv_go _ _ _ _ _ _ _ Hi); cbn; rewrite -> ?H; try done; [by left| |by left|by right].
    intros q k [= <- <-]. by rw lookup_insert_eq.
  - subst h. exists rem, outs, (p :: ins). by apply cinv_enqueue.
  - assert (exists r o i, cinv (go t' PopWake s) r o i) as (r & o & i & Hi') by by frame Hi H1.
    assert (cs_pc (go t' PopWake s) t = EqSignal) as Ht.
    { cbn. rw pc_insert. case_decide; [congruence|done]. }
    revert Ht Hi'. generalize (go t' PopWake s). intros s1 Ht Hi1. frame Hi1 Ht.
  - exists ins, [], []. by eapply cinv_pop_cas.
  - destruct (cinv_pop_reverse s t h n rem outs ins) as [rem' Hi']; eauto.
  - assert (rem = []) as -> by (by eapply linked_Null, (ci_rem _ _ _ _ Hi t)). frame Hi H.
  - destruct (cinv_pop_take s t h n rem outs ins) as [outs' Hi']; eauto.
  - apply (cinv_set_nxt s t h Poison) in Hi; [|by rw H..]. frame Hi H.
Qed.

Lemma init_cinv nodes : cinv (init_cst nodes) [] [] [].
Proof. split; cbn; try done; [by left|by constructor]. Qed.

Lemma reachable_cinv nodes s : reachable_from nodes s -> exists rem outs ins, cinv s rem outs ins.
Proof.
  intros Hr. unfold reachable_from in Hr. remember (init_cst nodes) as s0 eqn:E.
  assert (exists rem outs ins, cinv s0 rem outs ins) as Hi by (subst; eexists _, _, _; apply init_cinv).
  clear E. induction Hr as [|s0 s1 s2 Hs _ IH]; [done|].
  apply IH. destruct Hi as (rem & outs & ins & Hi). by eapply step_cinv.
Qed.

(** ** Theorems *)

(** What [stream_enqueue] and [stream_pop] need of memory in their next step. *)
Definition reads (s : cstate) (t : nat) : option link :=
  match s.(cs_pc) t with
  | PopReverse h => Some h
  | PopTake => Some s.(cs_out)
  | _ => None
  end.
Definition can_read (s : cstate) (l : link) : Prop :=
  match l with Null => True | Node p => is_Some (s.(cs_next) !! p) | Poison => False end.

Lemma linked_can_read s l ps : linked s.(cs_next) l ps -> can_read s l.
Proof. destruct ps; cbn; [by intros ->|]. intros (-> & n & Hn & _). by exists n. Qed.

(** C11: However many threads enqueue and pop at the same time, with any
    interleaving of their accesses to memory, the nodes come out in the
    order in which the compare-and-swap of [stream_enqueue] entered them:
    what was popped is a prefix of what was entered, the rest is in the
    stream, each node once and owned by no thread; at most one thread is
    in the critical section, and no thread follows a poisoned link or a
    link to a node that does not exist. *)
Theorem conc_fifo nodes s :
  reachable_from nodes s ->
  (exists q, s.(cs_pushed) = s.(cs_popped) ++ q /\ NoDup q /\ forall t p, own (s.(cs_pc) t) = Some p -> p ∉ q) /\
  (forall t t', critical (s.(cs_pc) t) = true -> critical (s.(cs_pc) t') = true -> t = t') /\
  (forall t l, reads s t = Some l -> can_read s l).
Proof.
  intros (rem & outs & ins & Hi)%reachable_cinv. split; [|split].
  - exists (rev rem ++ outs ++ rev ins). split; [by apply Hi|]. split.
    + rw -!Permutation_rev. apply Hi.
    + intros t p Hp. rw !elem_of_app -!Permutation_rev -!elem_of_app. by apply (ci_own _ _ _ _ Hi t).
  - intros t t'. by eapply cinv_unique.
  - intros t l. unfold reads. destruct (cs_pc s t) as [] eqn:Ht; try done; intros [= <-]; eapply linked_can_read.
    + by eapply (ci_rem _ _ _ _ Hi t).
    + apply Hi.
Qed.

Lemma not_inside s p : s.(cs_pushed) = [] -> ~ inside s p.
Proof. intros E (q & Hq & Hp). rewrite -> E in Hq. symmetry in Hq. apply app_nil in Hq as [_ ->]. by apply elem_of_nil in Hp. Qed.

(** ** Runs

    The steps as a function of the thread that is scheduled: an idle thread
    starts a waiting pop; a thread that waits or signals has no step here. *)
Definition exec (t : nat) (s : cstate) : option cstate :=
  match s.(cs_pc) t with
  | Idle => Some (go t (PopLock true) s)
  | EqRead p => Some (go t (EqSet p s.(cs_in)) s)
  | EqSet p h => Some (go t (EqCas p h) (set_nxt p h s))
  | EqCas p h =>
      Some (if decide (s.(cs_in) = h) then go t EqLength (push p (set_in (Node p) s)) else go t (EqRead p) s)
  | EqLength => Some (go t EqSignal (set_len (i32 (s.(cs_length) + 1)) s))
  | EqSignal | PopBlocked => None
  | PopLock wait => match s.(cs_lock) with Some _ => None | None => Some (go t (PopWaiting wait) (set_lck (Some t) s)) end
  | PopWaiting wait => Some (go t (PopTest wait) (set_wait (i32 (s.(cs_waiting) + 1)) s))
  | PopTest wait =>
      Some (if decide (wait = true /\ s.(cs_length) = 0) then go t PopSleep s else go t PopUnwait s)
  | PopSleep => Some (go t PopBlocked (set_lck None s))
  | PopWake => match s.(cs_lock) with Some _ => None | None => Some (go t (PopTest true) (set_lck (Some t) s)) end
  | PopUnwait => Some (go t PopOut (set_wait (i32 (s.(cs_waiting) - 1)) s))
  | PopOut => Some (if decide (s.(cs_out) = Null) then go t PopHead s else go t PopLength s)
  | PopHead => match s.(cs_in) with Null => Some (go t PopLength s) | Node h => Some (go t (PopCas h) s) | Poison => None end
  | PopCas h => Some (if decide (s.(cs_in) = Node h) then go t (PopReverse (Node h)) (set_in Null s) else go t PopHead s)
  | PopReverse Null => Some (go t PopLength s)
  | PopReverse (Node h) =>
      n ← s.(cs_next) !! h; Some (go t (PopReverse n) (set_out (Node h) (set_nxt h s.(cs_out) s)))
  | PopReverse Poison => None
  | PopLength => Some (go t PopTake (set_len (i32 (s.(cs_length) - 1)) s))
  | PopTake =>
      match s.(cs_out) with
      | Null => Some (go t (PopUnlock None) s)
      | Node h => n ← s.(cs_next) !! h; Some (go t (PopUnlock (Some h)) (pop h (set_out n s)))
      | Poison => None
      end
  | PopUnlock r => Some (go t (PopPoison r) (set_lck None s))
  | PopPoison (Some h) => Some (go t Idle (set_nxt h Poison s))
  | PopPoison None => Some (go t Idle s)
  end.

Lemma exec_step t s s' : exec t s = Some s' -> step s s'.
Proof.
  unfold exec. destruct (cs_pc s t) as [] eqn:Ht; intros E;
    repeat (case_match || case_decide || (apply bind_Some in E as (? & ? & E))); simplify_eq;
    try (by eauto using step); try (by econstructor; eauto).
  - destruct_and!; subst. by apply pop_test_wait.
  - eapply pop_test_go; [done|]. destruct wait; [right; naive_solver|by left].
Qed.

Definition exec_all (ts : list nat) (s : cstate) : option cstate :=
  foldl (fun o t => o ≫= exec t) (Some s) ts.

Lemma exec_all_reaches ts s s' : exec_all ts s = Some s' -> rtc step s s'.
Proof.
  unfold exec_all. revert s. induction ts as [|t ts IH]; intros s; cbn [foldl].
  { intros [= ->]. apply rtc_refl. }
  cbn. destruct (exec t s) as [s1|] eqn:E.
  - intros H%IH. eapply rtc_l; [by eapply exec_step|done].
  - clear. intros H. exfalso. induction ts; cbn in H; [done|auto].
Qed.

Definition two_nodes : gmap ptr link := {[5%positive := Poison; 6%positive := Poison]}.

Definition two_started : cstate := go 2 (EqRead 6%positive) (go 1 (EqRead 5%positive) (init_cst two_nodes)).

Lemma two_started_reachable : reachable_from two_nodes two_started.
Proof.
  eapply rtc_l; [|eapply rtc_once, (enqueue_start _ 2 6%positive)].
  - apply (enqueue_start _ 1 5%positive); try done; by apply not_inside.
  - done.
  - by eexists.
  - by apply not_inside.
  - intros t'. cbn. rw pc_insert. by case_decide.
Qed.

(** Two threads enqueue at the same time, the second fails at its first
    compare-and-swap; a third pops. *)
Definition a_schedule : list nat := ([1; 2; 1; 2; 1; 2; 1; 2; 2; 2; 2] ++ replicate 13 3)%nat.

Lemma a_run : exists s, reachable_from two_nodes s /\
  s.(cs_pushed) = [5; 6]%positive /\ s.(cs_popped) = [5%positive] /\ s.(cs_length) = 1.
Proof.
  assert ((fun s => (s.(cs_pushed), s.(cs_popped), s.(cs_length))) <$> exec_all a_schedule two_started =
    Some ([5; 6]%positive, [5%positive], 1)) as E by (vm_compute; reflexivity).
  apply fmap_Some in E as (s & E & Hs). exists s.
  apply exec_all_reaches in E. split; [|injection Hs as <- <- <-; auto].
  unfold reachable_from. etrans; [exact two_started_reachable|exact E].
Qed.

Lemma conc_fifo_witness : exists s, reachable_from two_nodes s /\
  s.(cs_pushed) = [5; 6]%positive /\ s.(cs_popped) = [5%positive] /\
  exists q, s.(cs_pushed) = s.(cs_popped) ++ q /\ NoDup q.
Proof.
  destruct a_run as (s & Hr & H1 & H2 & _). exists s.
  destruct (conc_fifo two_nodes s Hr) as [(q & Hq & Hn & _) _].
  exact (conj Hr (conj H1 (conj H2 (ex_intro _ q (conj Hq Hn))))).
Defined.

(** ** The lost wake-up *)

(** Thread 0 has found the length 0 and is about to wait. *)
Definition about_to_wait (nodes : gmap ptr link) : cstate :=
  mk_cst Null Null nodes (Some 0%nat) 0 1 (<[0%nat := PopSleep]> (<[0%nat := PopTest true]>
    (<[0%nat := PopWaiting true]> (<[0%nat := PopLock true]> (fun _ => Idle))))) [] [].

(** Thread 1 has entered [p] meanwhile and comes to the signal. *)
Definition about_to_signal (nodes : gmap ptr link) (p : ptr) : cstate :=
  mk_cst (Node p) Null (<[p := Null]> nodes) (Some 0%nat) 1 1
    (<[1%nat := EqSignal]> (<[1%nat := EqLength]> (<[1%nat := EqCas p Null]> (<[1%nat := EqSet p Null]>
      (<[1%nat := EqRead p]> (about_to_wait nodes).(cs_pc)))))) [p] [].

(** It signals nobody, and thread 0 waits. *)
Definition asleep (nodes : gmap ptr link) (p : ptr) : cstate :=
  go 0 PopBlocked (set_lck None (go 1 Idle (about_to_signal nodes p))).

Lemma about_to_signal_pc nodes p t :
  (about_to_signal nodes p).(cs_pc) t =
    if decide (t = 1%nat) then EqSignal else if decide (t = 0%nat) then PopSleep else Idle.
Proof. cbn. rw !pc_insert. by repeat case_decide. Qed.

Lemma asleep_pc nodes p t : (asleep nodes p).(cs_pc) t = if decide (t = 0%nat) then PopBlocked else Idle.
Proof. unfold asleep, go. cbn [cs_pc set_lck]. rw !pc_insert about_to_signal_pc. by repeat case_decide. Qed.

Lemma asleep_reachable nodes p : is_Some (nodes !! p) -> reachable_from nodes (asleep nodes p).
Proof.
  intros Hp. unfold reachable_from.
  etrans; [apply (exec_all_reaches [0; 0; 0; 0]%nat _ (about_to_wait nodes)); reflexivity|].
  eapply rtc_l; [apply (enqueue_start _ 1 p); try done|].
  { by apply not_inside. }
  { intros t'. cbn. rw !pc_insert. by repeat case_decide. }
  etrans; [apply (exec_all_reaches [1; 1; 1; 1]%nat _ (about_to_signal nodes p)); reflexivity|].
  eapply rtc_l; [apply (enqueue_signal_none _ 1); [done|]|].
  { right. intros t'. rw about_to_signal_pc. by repeat case_decide. }
  eapply rtc_once, pop_sleep. done.
Qed.

(** C30: A wake-up can be lost.  [stream_enqueue] signals without holding the
    lock, so its signal can fall between the test of the length in
    [stream_pop] and the wait: then a thread waits on a stream that holds a
    node, with the lock free and no call of [stream_enqueue] in progress,
    and only a further call or a spurious wake-up changes the state. *)
Theorem lost_wakeup nodes p :
  is_Some (nodes !! p) ->
  exists s, reachable_from nodes s /\
    s.(cs_pc) 0%nat = PopBlocked /\ s.(cs_in) = Node p /\ s.(cs_length) = 1 /\ s.(cs_lock) = None /\
    (forall t, t <> 0%nat -> s.(cs_pc) t = Idle) /\
    (forall s', step s s' -> s' = go 0 PopWake s \/
       exists t, t <> 0%nat /\ ((exists q, s' = go t (EqRead q) s) \/ (exists w, s' = go t (PopLock w) s))).
Proof.
  intros Hp. exists (asleep nodes p). split; [by apply asleep_reachable|].
  split; [done|]. split; [done|]. split; [done|]. split; [done|]. split.
  { intros t Ht. rw asleep_pc. by case_decide. }
  intros s' Hs. pose proof (asleep_pc nodes p) as Hpc. revert Hs Hpc. generalize (asleep nodes p). intros s Hs Hpc.
  destruct Hs; repeat match goal with
    | H : cs_pc s _ = _ |- _ => rewrite -> Hpc in H; case_decide; try discriminate H
    end; subst; naive_solver.
Qed.

Lemma lost_wakeup_witness : exists s, reachable_from two_nodes s /\
  s.(cs_pc) 0%nat = PopBlocked /\ s.(cs_in) = Node 5%positive /\ s.(cs_length) = 1.
Proof.
  destruct (lost_wakeup two_nodes 5%positive) as (s & Hr & H1 & H2 & H3 & _); [by exists Poison|].
  exact (ex_intro _ s (conj Hr (conj H1 (conj H2 H3)))).
Defined.
