(* ===== verification/Client.v ===== *)
(** * Client: src/client.c, the state kept for each sender

    A client owns a mutex, an output file, a copy of its address and a
    receive window (a buffer of packets).  The heap has one map per C type
    of block; the outcomes of the calls to the C library (allocation,
    [fopen], [pthread_mutex_init], [inet_ntop]) are chosen by the environment.
    The name of the file is printed into an array of 256 characters ([file_name]
    of Printf), which a format with a large width overflows. *)

From S2P Require Import Prelude Global Cli Printf Memory Packet Buffer.

(** ** Data *)

(** An open file of the C library: its position and its contents. *)
Record file_t := mk_file { f_open : bool; f_pos : nat; f_data : list Z }.

Record sockaddr_in6 := mk_addr { sin6_port : Z; sin6_addr : list Z }.

Record client_t := mk_client {
  c_active : bool;
  c_lock : option ptr;
  c_out_file : option ptr;
  c_address : option ptr;
  c_addr_len : Z;
  c_window : option ptr;
  c_id : Z;                (* uint32_t *)
  c_last_timestamp : Z;    (* uint32_t *)
  c_end_time : option ptr;
  c_transferred : Z }.     (* uint64_t *)

Record heap_t := mk_heap {
  h_clients : gmap ptr client_t;
  h_mutexes : gmap ptr bool;
  h_addrs : gmap ptr sockaddr_in6;
  h_files : gmap ptr file_t;
  h_bufs : gmap ptr buf_t;
  h_packets : gmap ptr packet_t;
  h_times : gmap ptr unit }.

(** Updates of one map of the heap. *)
Definition upd_clients upd h := match h with mk_heap a b c d e f g => mk_heap (upd a) b c d e f g end.
Definition upd_mutexes upd h := match h with mk_heap a b c d e f g => mk_heap a (upd b) c d e f g end.
Definition upd_addrs upd h := match h with mk_heap a b c d e f g => mk_heap a b (upd c) d e f g end.
Definition upd_files upd h := match h with mk_heap a b c d e f g => mk_heap a b c (upd d) e f g end.
Definition upd_bufs upd h := match h with mk_heap a b c d e f g => mk_heap a b c d (upd e) f g end.
Definition upd_packets upd h := match h with mk_heap a b c d e f g => mk_heap a b c d e (upd f) g end.
Definition upd_times upd h := match h with mk_heap a b c d e f g => mk_heap a b c d e f (upd g) end.
Definition with_clients v h := upd_clients (fun _ => v) h.
Definition with_mutexes v h := upd_mutexes (fun _ => v) h.
Definition with_addrs v h := upd_addrs (fun _ => v) h.
Definition with_files v h := upd_files (fun _ => v) h.
Definition with_bufs v h := upd_bufs (fun _ => v) h.
Definition with_packets v h := upd_packets (fun _ => v) h.
Definition with_times v h := upd_times (fun _ => v) h.

(** ** Accessors *)

Definition client_get_lock (self : client_t) : option ptr := self.(c_lock).
Definition get_client_window (self : client_t) : option ptr := self.(c_window).
Definition set_client_window (self : client_t) (window : option ptr) : client_t :=
  mk_client self.(c_active) self.(c_lock) self.(c_out_file) self.(c_address) self.(c_addr_len)
    window self.(c_id) self.(c_last_timestamp) self.(c_end_time) self.(c_transferred).
Definition is_active (self : client_t) : bool := self.(c_active).
Definition set_active (self : client_t) (active : bool) : client_t :=
  mk_client active self.(c_lock) self.(c_out_file) self.(c_address) self.(c_addr_len)
    self.(c_window) self.(c_id) self.(c_last_timestamp) self.(c_end_time) self.(c_transferred).

(** ** Files *)

(** [fwrite] of [bytes] to a file of which it writes [n]: the bytes at the
    position are replaced, and the position moves on.  Writing to a file
    that is closed is undefined. *)
Definition fwrite (f : file_t) (bytes : list Z) (n : nat) : comp file_t :=
  if f.(f_open) then
    Done (mk_file true (f.(f_pos) + n)
      (take f.(f_pos) f.(f_data) ++ take n bytes ++ drop (f.(f_pos) + n) f.(f_data)))
  else Stuck UB.

(** [fseek(f, offset, SEEK_SET)]: a negative position is an error that
    changes nothing. *)
Definition fseek_set (f : file_t) (offset : Z) : comp file_t :=
  if f.(f_open) then
    Done (if offset <? 0 then f else mk_file true (Z.to_nat offset) f.(f_data))
  else Stuck UB.

Definition fclose (f : file_t) : comp file_t :=
  if f.(f_open) then Done (mk_file false f.(f_pos) f.(f_data)) else Stuck UB.

Definition fclose_at (files : gmap ptr file_t) (p : ptr) : comp (gmap ptr file_t) :=
  f ← load files p; f ← fclose f; store files p f.

(** ** initialize_client *)

(** What the environment answers: the blocks [malloc] returns, with the
    arbitrary contents of the window, the packets of the window, the file
    [fopen] returns, and whether the other two calls fail. *)
Record client_env := mk_env {
  e_lock : option ptr;
  e_mutex_fails : bool;
  e_file : option ptr;
  e_address : option ptr;
  e_window : option ptr;
  e_window_garbage : buf_t;
  e_packets : list (option ptr);
  e_ip_fails : bool }.

(** [allocate_packet] fills a new packet with the result of [init_packet]. *)
Definition zeroed_packet : packet_t :=
  mk_packet IGNORE false 0 false 0 0 0 0 0 (replicate (Z.to_nat MAX_PAYLOAD_SIZE) 0).

Definition free_client (h : heap_t) (p : ptr) : comp heap_t :=
  m ← free h.(h_clients) (Some p); Done (with_clients m h).
Definition free_mutex (h : heap_t) (p : option ptr) : comp heap_t :=
  m ← free h.(h_mutexes) p; Done (with_mutexes m h).
Definition free_address (h : heap_t) (p : option ptr) : comp heap_t :=
  m ← free h.(h_addrs) p; Done (with_addrs m h).
Definition free_window (h : heap_t) (p : option ptr) : comp heap_t :=
  m ← free h.(h_bufs) p; Done (with_bufs m h).
Definition free_time (h : heap_t) (p : option ptr) : comp heap_t :=
  m ← free h.(h_times) p; Done (with_times m h).
Definition free_buffer (h : heap_t) (p : option ptr) : comp heap_t :=
  '(packets, bufs, _) ← deallocate_buffer h.(h_packets) h.(h_bufs) p;
  Done (with_packets packets (with_bufs bufs h)).

(** The fields written on the way; the file name is made from the format
    and the id, in an array on the stack. *)
Definition initialize_client (h : heap_t) (client : ptr) (id : Z) (format : str) (address : sockaddr_in6)
    (addr_len : Z) (env : client_env) : comp (heap_t * option errors_t) :=
  c ← load h.(h_clients) client;
  let put c h := upd_clients (<[client := c]>) h in
  let h := upd_mutexes (fun m => malloc m env.(e_lock) false) h in
  let c := mk_client true env.(e_lock) c.(c_out_file) c.(c_address) c.(c_addr_len) c.(c_window)
             id 0 None c.(c_transferred) in
  let h := put c h in
  match env.(e_lock) with
  | None => h ← free_client h client; Done (h, Some FAILED_TO_ALLOCATE)
  | Some lock =>
  if env.(e_mutex_fails) then
    h ← free_mutex h c.(c_lock);
    h ← free_client h client;
    Done (h, Some FAILED_TO_INIT_MUTEX)
  else
  _ ← file_name format id;
  let h := upd_files (fun m => malloc m env.(e_file) (mk_file true 0 [])) h in
  let c := mk_client c.(c_active) c.(c_lock) env.(e_file) c.(c_address) c.(c_addr_len) c.(c_window)
             c.(c_id) c.(c_last_timestamp) c.(c_end_time) c.(c_transferred) in
  let h := put c h in
  match env.(e_file) with
  | None =>
      h ← free_mutex h c.(c_lock);
      h ← free_client h client;
      Done (h, Some FAILED_TO_ALLOCATE)
  | Some _ =>
  let h := upd_addrs (fun m => malloc m env.(e_address) address) h in
  let c := mk_client c.(c_active) c.(c_lock) c.(c_out_file) env.(e_address) c.(c_addr_len) c.(c_window)
             c.(c_id) c.(c_last_timestamp) c.(c_end_time) c.(c_transferred) in
  let h := put c h in
  match env.(e_address) with
  | None =>
      h ← free_mutex h c.(c_lock);
      h ← free_client h client;
      Done (h, Some FAILED_TO_ALLOCATE)
  | Some _ =>
  let h := upd_bufs (fun m => malloc m env.(e_window) env.(e_window_garbage)) h in
  let c := mk_client c.(c_active) c.(c_lock) c.(c_out_file) c.(c_address) addr_len env.(e_window)
             c.(c_id) c.(c_last_timestamp) c.(c_end_time) c.(c_transferred) in
  let h := put c h in
  match env.(e_window) with
  | None =>
      h ← free_address h c.(c_address);
      h ← free_mutex h c.(c_lock);
      h ← free_client h client;
      Done (h, Some FAILED_TO_ALLOCATE)
  | Some window =>
  '(packets, bufs, r) ←
    initialize_buffer zeroed_packet h.(h_packets) h.(h_bufs) window env.(e_packets);
  let h := with_packets packets (with_bufs bufs h) in
  match r with
  | Some _ =>
      h ← free_address h c.(c_address);
      h ← free_mutex h c.(c_lock);
      h ← free_window h c.(c_window);
      h ← free_client h client;
      Done (h, Some FAILED_TO_ALLOCATE)
  | None =>
  if env.(e_ip_fails) then
    h ← free_buffer h c.(c_window);
    h ← free_address h c.(c_address);
    h ← free_mutex h c.(c_lock);
    h ← free_client h client;
    Done (h, Some FAILED_TO_ALLOCATE)
  else
  let c := mk_client c.(c_active) c.(c_lock) c.(c_out_file) c.(c_address) c.(c_addr_len) c.(c_window)
             c.(c_id) c.(c_last_timestamp) c.(c_end_time) 0 in
  Done (put c h, None)
  end end end end end.

(** ** deallocate_client *)

Definition deallocate_client (h : heap_t) (client : option ptr) (dealloc_addr close_file : bool)
    : comp heap_t :=
  match client with
  | None => Done h
  | Some p =>
      c ← load h.(h_clients) p;
      h ← match c.(c_lock) with Some _ => free_mutex h c.(c_lock) | None => Done h end;
      h ← (if dealloc_addr then free_address h c.(c_address) else Done h);
      h ← match c.(c_out_file) with
          | Some f =>
              if close_file && c.(c_active)
              then files ← fclose_at h.(h_files) f; Done (with_files files h)
              else Done h
          | None => Done h
          end;
      h ← match c.(c_window) with Some _ => free_buffer h c.(c_window) | None => Done h end;
      h ← match c.(c_end_time) with Some _ => free_time h c.(c_end_time) | None => Done h end;
      free_client h p
  end.

(** ** Lemmas *)

#[local] Arguments free_buffer : simpl never.

(** [zeroed_packet] is what [allocate_packet] returns. *)
Lemma allocate_packet_zeroed p : allocate_packet (Some p) = Some zeroed_packet.
Proof. done. Qed.

Lemma free_values_UB {V} (vals : gmap ptr V) nodes r : free_values vals nodes = Stuck r -> r = UB.
Proof.
  revert vals. induction nodes as [|n nodes IH]; [done|]. intros vals. cbn [free_values].
  destruct (n.(n_value)) as [p|]; cbn [free]; [|apply IH].
  destruct (vals !! p); unbind; [apply IH|]. by intros [= <-].
Qed.

Section initialize.
Context (hc : gmap ptr client_t) (hm : gmap ptr bool) (ha : gmap ptr sockaddr_in6)
  (hf : gmap ptr file_t) (hb : gmap ptr buf_t) (hp : gmap ptr packet_t) (ht : gmap ptr unit).
Context (client : ptr) (c0 : client_t) (id : Z) (format : str) (address : sockaddr_in6) (addr_len : Z).
#[local] Abbreviation h := (mk_heap hc hm ha hf hb hp ht).
Context (lock file addr window : ptr) (garbage : buf_t).
Context (Hclient : hc !! client = Some c0).
Context (Hlock : hm !! lock = None) (Haddr : ha !! addr = None).
Context (Hfile : hf !! file = None) (Hwindow : hb !! window = None).
Context (Hgarbage : length garbage.(b_nodes) = MAX_BUFFER_SIZE).

(** The environment in which every call before the packets succeeds. *)
Definition env_ok (packets : list (option ptr)) (ip_fails : bool) : client_env :=
  mk_env (Some lock) false (Some file) (Some addr) (Some window) garbage packets ip_fails.

(** The client record when [initialize_client] is done. *)
Definition new_client : client_t :=
  mk_client true (Some lock) (Some file) (Some addr) addr_len (Some window) id 0 None 0.

(** The heap then. *)
Definition heap_with_client (ps : list ptr) : heap_t :=
  mk_heap (<[client := new_client]> hc) (<[lock := false]> hm)
    (<[addr := address]> ha) (<[file := mk_file true 0 []]> hf)
    (<[window := mk_buf 0 0 (fresh_node <$> ps)]> hb)
    (allocated zeroed_packet hp ps) ht.

(** The heap without the client, with the file left open or closed. *)
Definition heap_without_client (opened : bool) : heap_t :=
  mk_heap (delete client hc) hm ha
    (<[file := mk_file opened 0 []]> hf) hb hp ht.

(** A name that does not fit is written behind its array. *)
Lemma initialize_client_overflows packets ip_fails :
  (forall nm, file_name format id <> Done nm) ->
  initialize_client h client id format address addr_len (env_ok packets ip_fails) = Stuck UB.
Proof.
  intros Hno. rw /initialize_client (load_Some _ _ _ Hclient). cbn [mbind comp_bind e_lock e_mutex_fails env_ok].
  destruct (file_name format id) as [nm|r] eqn:E; [by destruct (Hno nm)|]. rw (file_name_UB _ _ _ E). reflexivity.
Qed.

Context (name : str) (Hname : file_name format id = Done name).

Lemma initialize_client_ok ps :
  length ps = MAX_BUFFER_SIZE ->
  initialize_client h client id format address addr_len (env_ok (map Some ps) false) =
  Done (heap_with_client ps, None).
Proof.
  intros Hps.
  pose proof (initialize_buffer_ok zeroed_packet hp (<[window := garbage]> hb) window
    garbage ps [] ltac:(apply lookup_insert_eq) Hgarbage Hps) as Hb. rw app_nil_r in Hb.
  rw /initialize_client (load_Some _ _ _ Hclient). cbn [mbind comp_bind e_lock e_mutex_fails env_ok]. rw Hname. cbn. rw Hb. cbn. by rw !insert_insert_eq.
Qed.

(** Freeing the window gives back the packets and the buffer. *)
Lemma free_new_window ps h' :
  NoDup ps -> Forall (fun p => hp !! p = None) ps ->
  h'.(h_packets) = allocated zeroed_packet hp ps ->
  h'.(h_bufs) = <[window := mk_buf 0 0 (fresh_node <$> ps)]> hb ->
  free_buffer h' (Some window) = Done (with_packets hp (with_bufs hb h')).
Proof.
  intros Hnd Hfresh Hp Hb. rw /free_buffer /deallocate_buffer Hb.
  rw (load_Some _ _ _ (lookup_insert_eq _ _ _)). cbn [mbind comp_bind b_nodes].
  rw Hp -(app_nil_r (fresh_node <$> ps)) free_allocated //. cbn [free_values mbind comp_bind].
  rw (free_Some _ _ _ (lookup_insert_eq _ _ _)). unbind.
  rw delete_insert_eq (delete_id hb) //.
Qed.

Lemma deallocate_new_client ps :
  NoDup ps -> Forall (fun p => hp !! p = None) ps ->
  deallocate_client (heap_with_client ps) (Some client) true true = Done (heap_without_client false).
Proof.
  intros Hnd Hfresh. rw /deallocate_client /heap_with_client.
  rw (load_Some _ _ new_client); [|by cbn; rw lookup_insert_eq].
  cbn [mbind comp_bind c_lock new_client c_out_file c_window c_end_time c_address c_active andb].
  rw /free_mutex (free_Some _ _ false); [|by cbn; rw lookup_insert_eq]. unbind.
  rw /free_address (free_Some _ _ address); [|by cbn; rw lookup_insert_eq]. unbind.
  rw /fclose_at (load_Some _ _ (mk_file true 0 [])); [|by cbn; rw lookup_insert_eq]. unbind.
  rw /fclose. cbn [f_open mbind comp_bind].
  rw (store_Some _ _ _ (mk_file true 0 [])); [|by cbn; rw lookup_insert_eq]. unbind.
  rw (free_new_window ps) //. unbind.
  rw /free_client (free_Some _ _ new_client); [|by cbn; rw lookup_insert_eq]. cbn.
  rw !insert_insert_eq !delete_insert_eq (delete_id hm) // (delete_id ha) //.
Qed.

Lemma initialize_client_leaks env :
  env = mk_env (Some lock) false (Some file) None env.(e_window) env.(e_window_garbage)
          env.(e_packets) env.(e_ip_fails) \/
  env = mk_env (Some lock) false (Some file) (Some addr) None env.(e_window_garbage)
          env.(e_packets) env.(e_ip_fails) \/
  (exists ps, env = env_ok (map Some ps) true /\ length ps = MAX_BUFFER_SIZE /\
     NoDup ps /\ Forall (fun p => hp !! p = None) ps) ->
  initialize_client h client id format address addr_len env =
  Done (heap_without_client true, Some FAILED_TO_ALLOCATE).
Proof.
  intros [->|[->|(ps & -> & Hps & Hnd & Hfresh)]];
    rw /initialize_client (load_Some _ _ _ Hclient); cbn [mbind comp_bind e_lock e_mutex_fails env_ok]; rw Hname; cbn; rw ?insert_insert_eq.
  - rw lookup_insert_eq. cbn. rw lookup_insert_eq. cbn.
    rw /heap_without_client !delete_insert_eq (delete_id hm) //.
  - rw lookup_insert_eq. cbn. rw lookup_insert_eq. cbn. rw lookup_insert_eq. cbn.
    rw /heap_without_client !delete_insert_eq (delete_id hm) // (delete_id ha) //.
  - pose proof (initialize_buffer_ok zeroed_packet hp (<[window := garbage]> hb) window
      garbage ps [] ltac:(apply lookup_insert_eq) Hgarbage Hps) as Hb. rw app_nil_r in Hb.
    rw Hb. unbind. rw (free_new_window ps _ Hnd Hfresh); [|reflexivity|cbn; by rw insert_insert_eq].
    cbn.
    rw lookup_insert_eq. cbn. rw lookup_insert_eq. cbn. rw lookup_insert_eq. cbn.
    rw /heap_without_client !delete_insert_eq (delete_id hm) // (delete_id ha) //.
Qed.

(** When the allocator fails inside the window, its failure path frees the
    window, which the client's failure path frees again. *)
Lemma initialize_client_double_free ps rest ip_fails :
  NoDup ps -> Forall (fun p => hp !! p = None) ps -> (length ps < MAX_BUFFER_SIZE)%nat ->
  initialize_client h client id format address addr_len (env_ok (map Some ps ++ None :: rest) ip_fails) =
  Stuck UB.
Proof.
  intros Hnd Hfresh Hps.
  pose proof (initialize_buffer_fails zeroed_packet hp (<[window := garbage]> hb) window
    garbage ps rest ltac:(apply lookup_insert_eq) Hgarbage Hnd Hfresh Hps) as Hb.
  rw /initialize_client (load_Some _ _ _ Hclient). cbn [mbind comp_bind e_lock e_mutex_fails env_ok]. rw Hname. cbn. rw Hb.
  destruct (free_values _ _) as [packets|r] eqn:E; cbn; [|by apply free_values_UB in E as ->].
  rw ?insert_insert_eq lookup_insert_eq. cbn. rw lookup_insert_eq. cbn. by rw lookup_delete_eq.
Qed.
End initialize.

(** ** Properties *)

(** The blocks the environment hands out are not in use. *)
Record fresh_blocks (h : heap_t) (lock file addr window : ptr) (ps : list ptr) : Prop := {
  fresh_lock : h.(h_mutexes) !! lock = None;
  fresh_file : h.(h_files) !! file = None;
  fresh_addr : h.(h_addrs) !! addr = None;
  fresh_window : h.(h_bufs) !! window = None;
  fresh_packets : NoDup ps /\ Forall (fun p => h.(h_packets) !! p = None) ps }.

(** C25: the life of a client.  Let every allocation succeed.  When the
    name that the format makes of the id fits the array [name] (255
    characters, as it always does for the default format),
    [initialize_client] makes an active client with an unlocked mutex, an
    empty window at 0 whose 32 nodes own zeroed packets, and an empty
    open file; [deallocate_client] then closes the file and frees every
    block [initialize_client] allocated and the client, each once, and
    nothing else.  When the name does not fit, as with [%300d], which the
    command line accepts, the behaviour is undefined. *)
Theorem client_lifecycle h client c0 id format address addr_len lock file addr window garbage ps :
  h.(h_clients) !! client = Some c0 -> fresh_blocks h lock file addr window ps ->
  length garbage.(b_nodes) = MAX_BUFFER_SIZE -> length ps = MAX_BUFFER_SIZE ->
  (forall name, file_name format id = Done name ->
   exists h',
    initialize_client h client id format address addr_len
      (env_ok lock file addr window garbage (map Some ps) false) = Done (h', None) /\
    h'.(h_clients) !! client = Some (new_client id addr_len lock file addr window) /\
    h'.(h_mutexes) !! lock = Some false /\ h'.(h_addrs) !! addr = Some address /\
    h'.(h_files) !! file = Some (mk_file true 0 []) /\
    h'.(h_bufs) !! window = Some (mk_buf 0 0 (fresh_node <$> ps)) /\
    (forall p, p ∈ ps -> h'.(h_packets) !! p = Some zeroed_packet) /\
    deallocate_client h' (Some client) true true =
      Done (upd_files (<[file := mk_file false 0 []]>) (upd_clients (delete client) h))) /\
  ((forall name, file_name format id <> Done name) ->
   initialize_client h client id format address addr_len
     (env_ok lock file addr window garbage (map Some ps) false) = Stuck UB) /\
  (format = DEFAULT_OUT_FORMAT -> 0 <= id <= INT_MAX -> file_name format id = Done (decimal id)).
Proof.
  intros Hc [Hl Hf Ha Hw [Hnd Hfr]] Hg Hps. destruct h as [hc hm ha hf hb hp ht]. cbn in *.
  split; [|split].
  - intros name Hname. eexists. split; [by eapply initialize_client_ok|]. cbn.
    split_and!; try apply lookup_insert_eq; [intros; by apply allocated_in|].
    by apply deallocate_new_client.
  - intros Hname. by apply (initialize_client_overflows _ _ _ _ _ _ _ _ c0).
  - intros -> Hid. by apply file_name_default.
Qed.

(** An uninitialised client, an address, and pointers. *)
Definition blank_client : client_t := mk_client false None None None 0 None 0 0 None 0.
Definition heap0 : heap_t := mk_heap (<[1%positive := blank_client]> ∅) ∅ ∅ ∅ ∅ ∅ ∅.
Definition garbage0 : buf_t := mk_buf 77 77 (replicate 32 (mk_node (Some 99%positive) true)).
Definition pointers (n : nat) : list ptr := Pos.of_nat <$> seq 10 n.
Definition address0 : sockaddr_in6 := mk_addr 4000 (replicate 16 0).

Lemma heap0_fresh n :
  bool_decide (NoDup (pointers n)) = true -> fresh_blocks heap0 2%positive 3%positive 4%positive 5%positive (pointers n).
Proof.
  intros H%bool_decide_eq_true_1. split; try reflexivity. split; [done|].
  apply Forall_forall. reflexivity.
Qed.

(** The first client with the default format, and with a wide one. *)
Lemma client_lifecycle_witness :
  (exists h',
    initialize_client heap0 1%positive 7 DEFAULT_OUT_FORMAT address0 28
      (env_ok 2%positive 3%positive 4%positive 5%positive garbage0 (map Some (pointers 32)) false) = Done (h', None) /\
    h'.(h_clients) !! 1%positive = Some (new_client 7 28 2%positive 3%positive 4%positive 5%positive) /\
    h'.(h_mutexes) !! 2%positive = Some false /\ h'.(h_addrs) !! 4%positive = Some address0 /\
    h'.(h_files) !! 3%positive = Some (mk_file true 0 []) /\
    h'.(h_bufs) !! 5%positive = Some (mk_buf 0 0 (fresh_node <$> pointers 32)) /\
    (forall p, p ∈ pointers 32 -> h'.(h_packets) !! p = Some zeroed_packet) /\
    deallocate_client h' (Some 1%positive) true true =
      Done (upd_files (<[3%positive := mk_file false 0 []]>) (upd_clients (delete 1%positive) heap0))) /\
  format_matches wide_format = true /\
  initialize_client heap0 1%positive 7 wide_format address0 28
    (env_ok 2%positive 3%positive 4%positive 5%positive garbage0 (map Some (pointers 32)) false) = Stuck UB.
Proof.
  split; [|split; [reflexivity|]].
  - apply (client_lifecycle heap0 1%positive blank_client 7 DEFAULT_OUT_FORMAT address0 28 2%positive 3%positive 4%positive 5%positive garbage0 (pointers 32))
      with (name := decimal 7);
      [reflexivity|apply heap0_fresh; vm_compute; reflexivity|reflexivity|reflexivity|reflexivity].
  - apply (client_lifecycle heap0 1%positive blank_client 7 wide_format address0 28 2%positive 3%positive 4%positive 5%positive garbage0 (pointers 32));
      [reflexivity|apply heap0_fresh; vm_compute; reflexivity|reflexivity|reflexivity|].
    intros name. rw file_name_overflows. discriminate.
Defined.

(** failures behind [fopen] (no memory for the address or for the
    window, or an address that cannot be printed) free every block and
    the client, but the output file stays open: no reference to it is left. *)
Theorem initialize_client_failure_leaks_file
    h client c0 id format address addr_len lock file addr window garbage ps env name :
  file_name format id = Done name ->
  h.(h_clients) !! client = Some c0 -> fresh_blocks h lock file addr window ps ->
  length garbage.(b_nodes) = MAX_BUFFER_SIZE -> length ps = MAX_BUFFER_SIZE ->
  env ∈ [mk_env (Some lock) false (Some file) None (Some window) garbage (map Some ps) false;
         mk_env (Some lock) false (Some file) (Some addr) None garbage (map Some ps) false;
         env_ok lock file addr window garbage (map Some ps) true] ->
  initialize_client h client id format address addr_len env =
    Done (upd_files (<[file := mk_file true 0 []]>) (upd_clients (delete client) h),
          Some FAILED_TO_ALLOCATE).
Proof.
  intros Hname Hc [Hl Hf Ha Hw [Hnd Hfr]] Hg Hps Henv. destruct h as [hc hm ha hf hb hp ht]. cbn in *.
  apply (initialize_client_leaks hc hm ha hf hb hp ht client c0 id format address addr_len lock file addr
    window garbage) with (name := name); [done..|].
  repeat (apply elem_of_cons in Henv as [->|Henv]); [by left|by right; left| |by apply not_elem_of_nil in Henv].
  right. right. by exists ps.
Qed.

Lemma initialize_client_failure_leaks_file_witness :
  initialize_client heap0 1%positive 7 DEFAULT_OUT_FORMAT address0 28
    (mk_env (Some 2%positive) false (Some 3%positive) (Some 4%positive) None garbage0
       (map Some (pointers 32)) false) =
    Done (upd_files (<[3%positive := mk_file true 0 []]>) (upd_clients (delete 1%positive) heap0),
          Some FAILED_TO_ALLOCATE).
Proof.
  apply (initialize_client_failure_leaks_file heap0 1%positive blank_client 7 DEFAULT_OUT_FORMAT address0 28 2%positive 3%positive 4%positive 5%positive garbage0
    (pointers 32)) with (name := decimal 7); [reflexivity|reflexivity|apply heap0_fresh; vm_compute; reflexivity|reflexivity|reflexivity|].
  right. left.
Defined.

(** when there is no memory for one of the packets of the window,
    [initialize_client] runs into undefined behaviour: [initialize_buffer]
    frees the window on its way out, and the client frees it again. *)
Theorem initialize_client_double_frees_window
    h client c0 id format address addr_len lock file addr window garbage ps rest ip_fails name :
  file_name format id = Done name ->
  h.(h_clients) !! client = Some c0 -> fresh_blocks h lock file addr window ps ->
  length garbage.(b_nodes) = MAX_BUFFER_SIZE -> (length ps < MAX_BUFFER_SIZE)%nat ->
  initialize_client h client id format address addr_len
    (env_ok lock file addr window garbage (map Some ps ++ None :: rest) ip_fails) = Stuck UB.
Proof.
  intros Hname Hc [Hl Hf Ha Hw [Hnd Hfr]] Hg Hps. destruct h as [hc hm ha hf hb hp ht]. cbn in *.
  by eapply initialize_client_double_free.
Qed.

Lemma initialize_client_double_frees_window_witness :
  initialize_client heap0 1%positive 7 DEFAULT_OUT_FORMAT address0 28
    (env_ok 2%positive 3%positive 4%positive 5%positive garbage0 (map Some (pointers 3) ++ None :: []) false) = Stuck UB.
Proof.
  apply (initialize_client_double_frees_window heap0 1%positive blank_client 7 DEFAULT_OUT_FORMAT address0 28 2%positive 3%positive 4%positive 5%positive garbage0
    (pointers 3)) with (name := decimal 7); [reflexivity|reflexivity|apply heap0_fresh; vm_compute; reflexivity|reflexivity|vm_compute; lia].
Defined.
