(* ===== verification/ClientOwn.v ===== *)
(** * ClientOwn: the blocks a client owns

    A client in use owns its record, its mutex, the copy of its address,
    its window with the packets in it, perhaps an end time, and its file
    while that is open.  [owns] lists these blocks; [deallocate_client]
    gives back exactly them.  Clients that own disjoint blocks can be freed
    in any order without touching each other.  Main's removal of clients and
    its final deallocation are proved against this file. *)

From S2P Require Import Prelude Global Memory Packet Buffer Client.

(** ** Sets of blocks *)

(** The blocks of each type, and the files that are to be closed. *)
Record blocks := mk_blocks {
  k_clients : list ptr;
  k_mutexes : list ptr;
  k_addrs : list ptr;
  k_files : list ptr;
  k_bufs : list ptr;
  k_packets : list ptr;
  k_times : list ptr }.

Definition remove_all {V} (ps : list ptr) (m : gmap ptr V) : gmap ptr V :=
  fold_left (fun m p => delete p m) ps m.

Definition close_file (f : file_t) : file_t := mk_file false f.(f_pos) f.(f_data).

Definition close_all (ps : list ptr) (m : gmap ptr file_t) : gmap ptr file_t :=
  fold_left (fun m p => alter close_file p m) ps m.

(** The heap without some blocks, and with some files closed. *)
Definition erase (k : blocks) (h : heap_t) : heap_t :=
  mk_heap (remove_all k.(k_clients) h.(h_clients)) (remove_all k.(k_mutexes) h.(h_mutexes))
    (remove_all k.(k_addrs) h.(h_addrs)) (close_all k.(k_files) h.(h_files))
    (remove_all k.(k_bufs) h.(h_bufs)) (remove_all k.(k_packets) h.(h_packets))
    (remove_all k.(k_times) h.(h_times)).

Record apart (k l : blocks) : Prop := {
  ap_clients : k.(k_clients) ## l.(k_clients);
  ap_mutexes : k.(k_mutexes) ## l.(k_mutexes);
  ap_addrs : k.(k_addrs) ## l.(k_addrs);
  ap_files : k.(k_files) ## l.(k_files);
  ap_bufs : k.(k_bufs) ## l.(k_bufs);
  ap_packets : k.(k_packets) ## l.(k_packets);
  ap_times : k.(k_times) ## l.(k_times) }.

(** ** What a client owns *)

(** The packets in a window. *)
Definition values (b : buf_t) : list ptr := omap n_value b.(b_nodes).

(** A block that is always there, and one that may be missing. *)
Definition block {V} (m : gmap ptr V) (p : option ptr) (ps : list ptr) : Prop :=
  exists q v, p = Some q /\ m !! q = Some v /\ ps = [q].
Definition may_block {V} (m : gmap ptr V) (p : option ptr) (ps : list ptr) : Prop :=
  match p with None => ps = [] | Some q => is_Some (m !! q) /\ ps = [q] end.

(** The file is the client's to close while the client is active. *)
Definition own_file (files : gmap ptr file_t) (c : client_t) (ps : list ptr) : Prop :=
  match c.(c_out_file) with
  | Some f => if c.(c_active) then exists v, files !! f = Some v /\ v.(f_open) = true /\ ps = [f] else ps = []
  | None => ps = []
  end.

Definition own_window (h : heap_t) (w : option ptr) (bufs packets : list ptr) : Prop :=
  match w with
  | None => bufs = [] /\ packets = []
  | Some w => exists b, h.(h_bufs) !! w = Some b /\ bufs = [w] /\ packets = values b /\ NoDup packets /\
                Forall (fun p => is_Some (h.(h_packets) !! p)) packets
  end.

Definition owns (h : heap_t) (p : ptr) (k : blocks) : Prop :=
  exists c, h.(h_clients) !! p = Some c /\ k.(k_clients) = [p] /\
    block h.(h_mutexes) c.(c_lock) k.(k_mutexes) /\ block h.(h_addrs) c.(c_address) k.(k_addrs) /\
    own_file h.(h_files) c k.(k_files) /\ own_window h c.(c_window) k.(k_bufs) k.(k_packets) /\
    may_block h.(h_times) c.(c_end_time) k.(k_times).

(** Clients in a set own blocks of their own. *)
Record owned (h : heap_t) (X : gset ptr) (k : ptr -> blocks) : Prop := {
  od_owns p : p ∈ X -> owns h p (k p);
  od_apart p q : p ∈ X -> q ∈ X -> p <> q -> apart (k p) (k q) }.

(** ** Lemmas on the heap without some blocks *)

Lemma lookup_remove_all {V} ps (m : gmap ptr V) q :
  remove_all ps m !! q = if decide (q ∈ ps) then None else m !! q.
Proof.
  revert m. induction ps as [|p ps IH]; intros m; [done|]. cbn [remove_all fold_left] in *.
  change (remove_all ps (delete p m) !! q = if decide (q ∈ p :: ps) then None else m !! q).
  rw IH. destruct (decide (q ∈ ps)), (decide (q ∈ p :: ps)) as [|Hn]; try done; try set_solver.
  - assert (q = p) as -> by set_solver. apply lookup_delete_eq.
  - apply lookup_delete_ne. set_solver.
Qed.

Lemma remove_all_out {V} ps (m : gmap ptr V) q : q ∉ ps -> remove_all ps m !! q = m !! q.
Proof. intros. by rw lookup_remove_all decide_False. Qed.

Lemma remove_all_apart {V} ps qs (m : gmap ptr V) q :
  ps ## qs -> q ∈ qs -> remove_all ps m !! q = m !! q.
Proof. intros Hd Hq. apply remove_all_out. intros Hp. exact (Hd q Hp Hq). Qed.

Lemma remove_all_Some {V} ps (m : gmap ptr V) q v : remove_all ps m !! q = Some v -> m !! q = Some v.
Proof. rw lookup_remove_all. by case_decide. Qed.

Lemma close_all_out ps m q : q ∉ ps -> close_all ps m !! q = m !! q.
Proof.
  revert m. induction ps as [|p ps IH]; intros m Hq; [done|].
  change (close_all ps (alter close_file p m) !! q = m !! q).
  rw IH; [|set_solver]. apply lookup_alter_ne. set_solver.
Qed.

Lemma free_all {V} ps (m : gmap ptr V) nodes :
  omap n_value nodes = ps -> NoDup ps -> Forall (fun p => is_Some (m !! p)) ps ->
  free_values m nodes = Done (remove_all ps m).
Proof.
  revert ps m. induction nodes as [|[[p|] u] nodes IH]; intros ps m <-; cbn; [done| |].
  - intros [Hp Hnd]%NoDup_cons [[v Hv] Hall]%Forall_cons. rw Hv. unbind.
    apply IH; [done..|]. eapply Forall_impl; [apply Forall_and; split; [exact Hall|]|].
    + apply Forall_forall. exact (fun q Hq => Hq).
    + cbn. intros q [Hq Hin]. rw lookup_delete_ne //. intros ->. contradiction.
  - intros Hnd Hall. by apply IH.
Qed.

(** ** Freeing a client *)

(** [deallocate_client] gives back what the client owns, and closes its
    file. *)
Lemma deallocate_owned h p k :
  owns h p k -> deallocate_client h (Some p) true true = Done (erase k h).
Proof.
  intros (c & Hc & Hkc & (l & lv & Hl & Hlv & Hkl) & (a & av & Ha & Hav & Hka) & Hf & Hw & Ht).
  destruct h as [hc hm ha hf hb hp ht], k as [kc kl ka kf kb kp kt]. cbn in *. subst kc kl ka.
  rw /deallocate_client. cbn [h_clients]. rw (load_Some _ _ _ Hc). unbind. rw Hl Ha.
  rw /free_mutex. cbn [h_mutexes]. rw (free_Some _ _ _ Hlv). unbind.
  rw /free_address. cbn [h_addrs with_mutexes upd_mutexes]. rw (free_Some _ _ _ Hav). unbind.
  cbn [with_addrs upd_addrs].
  assert (match c.(c_out_file) with
          | Some f => if true && c.(c_active)
              then files ← fclose_at hf f; Done (with_files files (mk_heap hc (delete l hm) (delete a ha) hf hb hp ht))
              else Done (mk_heap hc (delete l hm) (delete a ha) hf hb hp ht)
          | None => Done (mk_heap hc (delete l hm) (delete a ha) hf hb hp ht) end =
    Done (mk_heap hc (delete l hm) (delete a ha) (close_all kf hf) hb hp ht)) as Hclose.
  { rw /own_file in Hf. destruct c.(c_out_file) as [f|]; [|by subst]. cbn [andb].
    destruct c.(c_active); [|by subst]. destruct Hf as (v & Hv & Hopen & ->).
    rw /fclose_at (load_Some _ _ _ Hv). unbind. rw /fclose Hopen. unbind.
    rw (store_Some _ _ _ _ Hv). unbind. cbn. do 2 f_equal.
    apply map_eq. intros q. destruct (decide (q = f)) as [->|].
    - by rw lookup_insert_eq lookup_alter_eq Hv.
    - by rw lookup_insert_ne // lookup_alter_ne. }
  cbn [h_files]. rw Hclose. unbind.
  assert (match c.(c_window) with
          | Some _ => free_buffer (mk_heap hc (delete l hm) (delete a ha) (close_all kf hf) hb hp ht) c.(c_window)
          | None => Done (mk_heap hc (delete l hm) (delete a ha) (close_all kf hf) hb hp ht) end =
    Done (mk_heap hc (delete l hm) (delete a ha) (close_all kf hf) (remove_all kb hb) (remove_all kp hp) ht)) as Hwin.
  { rw /own_window in Hw. destruct c.(c_window) as [w|]; [|by destruct Hw as [-> ->]].
    destruct Hw as (b & Hb & -> & -> & Hnd & Hall). rw /free_buffer /deallocate_buffer. cbn [h_bufs h_packets] in *.
    rw (load_Some _ _ _ Hb). unbind. rw (free_all (values b)) //. unbind. rw (free_Some _ _ _ Hb). by unbind. }
  rw Hwin. unbind.
  rw /may_block in Ht. destruct c.(c_end_time) as [e|].
  - destruct Ht as [[tv Htv] ->]. rw /free_time. cbn [h_times]. rw (free_Some _ _ _ Htv). unbind.
    rw /free_client /free. cbn [h_clients with_times upd_times]. rw Hc. by unbind.
  - subst kt. unbind. rw /free_client /free. cbn [h_clients]. rw Hc. by unbind.
Qed.

(** The blocks of another client stay. *)
Lemma owns_erase h p k l : owns h p k -> apart l k -> owns (erase l h) p k.
Proof.
  intros (c & Hc & Hkc & (lk & lv & Hl & Hlv & Hkl) & (a & av & Ha & Hav & Hka) & Hf & Hw & Ht).
  intros [A1 A2 A3 A4 A5 A6 A7]. exists c. cbn [erase h_clients h_mutexes h_addrs h_files h_times].
  split; [rw (remove_all_apart _ _ _ _ A1) // Hkc; apply list_elem_of_here|]. split; [done|].
  split; [exists lk, lv; rw (remove_all_apart _ _ _ _ A2) // Hkl; apply list_elem_of_here|].
  split; [exists a, av; rw (remove_all_apart _ _ _ _ A3) // Hka; apply list_elem_of_here|].
  split.
  { revert Hf. rw /own_file. destruct c.(c_out_file) as [f|]; [|done]. destruct c.(c_active); [|done].
    intros (v & Hv & Ho & Hk). exists v. rw close_all_out //. intros Hq. apply (A4 f Hq).
    rw Hk. apply list_elem_of_here. }
  split.
  - revert Hw. rw /own_window. destruct c.(c_window) as [w|]; [|done]. intros (b & Hb & Hkb & Hkp & Hnd & Hall).
    exists b. cbn [erase h_bufs h_packets].
    split; [rw (remove_all_apart _ _ _ _ A5) // Hkb; apply list_elem_of_here|].
    split_and!; try done. apply Forall_forall. intros q Hq. rewrite -> Forall_forall in Hall.
    rw (remove_all_apart _ _ _ _ A6) //. by apply Hall.
  - revert Ht. rw /may_block. destruct c.(c_end_time) as [e|]; [|done]. intros [He Hk].
    split; [|done]. rw (remove_all_apart _ _ _ _ A7) // Hk. apply list_elem_of_here.
Qed.

(** ** Freeing several clients *)

Definition erase_all (k : ptr -> blocks) (ps : list ptr) (h : heap_t) : heap_t :=
  fold_left (fun h p => erase (k p) h) ps h.

Lemma owned_erase h X k p : owned h X k -> p ∈ X -> owned (erase (k p) h) (X ∖ {[p]}) k.
Proof.
  intros [Ho Ha] Hp. split.
  - intros q Hq. apply owns_erase; [apply Ho; set_solver|]. apply Ha; set_solver.
  - intros q r Hq Hr. apply Ha; set_solver.
Qed.

Lemma owned_subset h X Y k : owned h X k -> Y ⊆ X -> owned h Y k.
Proof. intros [Ho Ha] Hs. split; [intros p Hp; apply Ho; set_solver|intros p q Hp Hq; apply Ha; set_solver]. Qed.

Lemma owned_client h X k p : owned h X k -> p ∈ X -> is_Some (h.(h_clients) !! p).
Proof. intros [Ho _] Hp. destruct (Ho p Hp) as (c & Hc & _). by exists c. Qed.

(** ** All blocks of several clients *)

Lemma remove_all_app {V} ps qs (m : gmap ptr V) : remove_all (ps ++ qs) m = remove_all qs (remove_all ps m).
Proof. apply fold_left_app. Qed.

Lemma close_all_app ps qs m : close_all (ps ++ qs) m = close_all qs (close_all ps m).
Proof. apply fold_left_app. Qed.

(** The lists of blocks of some clients, type by type. *)
Definition all_of (f : blocks -> list ptr) (k : ptr -> blocks) (ps : list ptr) : list ptr :=
  concat (map (fun p => f (k p)) ps).

Lemma elem_of_all_of f k ps q : q ∈ all_of f k ps <-> exists p, p ∈ ps /\ q ∈ f (k p).
Proof.
  rw /all_of. induction ps as [|p ps IH]; cbn.
  - split; [by intros ?%not_elem_of_nil|]. by intros (p & ?%not_elem_of_nil & _).
  - rw elem_of_app IH. split.
    + intros [Hq|(r & Hr & Hq)]; [exists p|exists r]; split; try done; [apply list_elem_of_here|by apply list_elem_of_further].
    + intros (r & [->|Hr]%elem_of_cons & Hq); [by left|right; by exists r].
Qed.

Lemma erase_all_eq k ps h :
  erase_all k ps h =
  mk_heap (remove_all (all_of k_clients k ps) h.(h_clients)) (remove_all (all_of k_mutexes k ps) h.(h_mutexes))
    (remove_all (all_of k_addrs k ps) h.(h_addrs)) (close_all (all_of k_files k ps) h.(h_files))
    (remove_all (all_of k_bufs k ps) h.(h_bufs)) (remove_all (all_of k_packets k ps) h.(h_packets))
    (remove_all (all_of k_times k ps) h.(h_times)).
Proof.
  revert h. induction ps as [|p ps IH]; intros h; [by destruct h|].
  change (erase_all k (p :: ps) h) with (erase_all k ps (erase (k p) h)). rw IH.
  rw /all_of. cbn [map concat erase h_clients h_mutexes h_addrs h_files h_bufs h_packets h_times].
  by rw !remove_all_app close_all_app.
Qed.

(** Nothing is on the heap but what some clients own. *)
Record covered (h : heap_t) (X : gset ptr) (k : ptr -> blocks) : Prop := {
  cv_clients q : q ∈ dom h.(h_clients) -> exists p, p ∈ X /\ q ∈ (k p).(k_clients);
  cv_mutexes q : q ∈ dom h.(h_mutexes) -> exists p, p ∈ X /\ q ∈ (k p).(k_mutexes);
  cv_addrs q : q ∈ dom h.(h_addrs) -> exists p, p ∈ X /\ q ∈ (k p).(k_addrs);
  cv_files q f : h.(h_files) !! q = Some f -> f.(f_open) = true -> exists p, p ∈ X /\ q ∈ (k p).(k_files);
  cv_bufs q : q ∈ dom h.(h_bufs) -> exists p, p ∈ X /\ q ∈ (k p).(k_bufs);
  cv_packets q : q ∈ dom h.(h_packets) -> exists p, p ∈ X /\ q ∈ (k p).(k_packets);
  cv_times q : q ∈ dom h.(h_times) -> exists p, p ∈ X /\ q ∈ (k p).(k_times) }.

(** A heap with nothing on it; files are closed. *)
Definition heap_empty (h : heap_t) : Prop :=
  h.(h_clients) = ∅ /\ h.(h_mutexes) = ∅ /\ h.(h_addrs) = ∅ /\ h.(h_bufs) = ∅ /\ h.(h_packets) = ∅ /\
  h.(h_times) = ∅ /\ forall q f, h.(h_files) !! q = Some f -> f.(f_open) = false.

Lemma remove_all_covers {V} ps (m : gmap ptr V) :
  (forall q, q ∈ dom m -> q ∈ ps) -> remove_all ps m = ∅.
Proof.
  intros H. apply map_empty. intros q. rw lookup_remove_all. case_decide as Hq; [done|].
  apply not_elem_of_dom. by intros ?%H.
Qed.

Lemma close_all_in ps m q f : q ∈ ps -> close_all ps m !! q = Some f -> f.(f_open) = false.
Proof.
  revert m. induction ps as [|p ps IH]; intros m Hq; [by apply not_elem_of_nil in Hq|].
  change (close_all ps (alter close_file p m) !! q = Some f -> f.(f_open) = false).
  apply elem_of_cons in Hq as [->|Hq]; [|by apply IH].
  destruct (decide (p ∈ ps)); [by apply IH|]. rw close_all_out // lookup_alter_eq.
  intros (f0 & _ & ->)%fmap_Some. done.
Qed.

Lemma erase_all_covered h X k ps :
  covered h X k -> (forall p, p ∈ X -> p ∈ ps) -> heap_empty (erase_all k ps h).
Proof.
  intros [C1 C2 C3 C4 C5 C6 C7] HX. rw erase_all_eq.
  assert (forall f q, (exists p, p ∈ X /\ q ∈ f (k p)) -> q ∈ all_of f k ps) as Hin.
  { intros f q (p & Hp & Hq). apply elem_of_all_of. exists p. auto. }
  split_and!; cbn; try (apply remove_all_covers; intros q Hq; apply Hin; auto).
  intros q f Hf. destruct (decide (q ∈ all_of k_files k ps)) as [Hq|Hq]; [by eapply close_all_in|].
  rewrite -> close_all_out in Hf by done. destruct (f_open f) eqn:E; [|done].
  exfalso. by apply Hq, Hin, (C4 q f).
Qed.

(** When some clients are freed the others still account for the heap. *)
Lemma covered_erase_all h X Y k ps :
  covered h X k -> (forall p, p ∈ X -> p ∉ ps -> p ∈ Y) -> covered (erase_all k ps h) Y k.
Proof.
  intros [C1 C2 C3 C4 C5 C6 C7] HX. rw erase_all_eq.
  assert (forall f q, q ∉ all_of f k ps -> (exists p, p ∈ X /\ q ∈ f (k p)) -> exists p, p ∈ Y /\ q ∈ f (k p)) as Hin.
  { intros f q Hq (p & Hp & Hqp). exists p. split; [|done]. apply HX; [done|].
    intros Hps. apply Hq, elem_of_all_of. by exists p. }
  assert (forall V (m : gmap ptr V) f q, q ∈ dom (remove_all (all_of f k ps) m) -> q ∈ dom m /\ q ∉ all_of f k ps) as Hdom.
  { intros V m f q [v Hv]%elem_of_dom. rewrite -> lookup_remove_all in Hv. case_decide as Hq; [done|].
    split; [by eapply elem_of_dom_2|done]. }
  split; cbn; try (intros q [Hq Hn]%Hdom; apply Hin; auto).
  intros q f Hf Ho. assert (q ∉ all_of k_files k ps) as Hn.
  { intros Hq. pose proof (close_all_in _ _ _ _ Hq Hf). congruence. }
  rewrite -> close_all_out in Hf by done. apply Hin; [done|]. by eapply C4.
Qed.
