(* ===== verification/HashTable.v ===== *)
(** * HashTable: src/hash_table.c, the table of clients

    An open-addressing table with linear probing, from (port, address) to
    clients.  Arrays of items are blocks of a heap of their own; what
    [calloc] returns for a new array is chosen by the environment.  The
    table is proved to be a finite map. *)

From S2P Require Import Prelude Global Memory Packet Buffer Client.

(** ** Data *)

Record item_t := mk_item {
  i_used : bool;
  i_value : option ptr;
  i_port : Z;           (* uint16_t *)
  i_ip : list Z }.      (* 16 bytes *)

Record ht_t := mk_ht {
  ht_lock : option bool;      (* the mutex; [None] when there is none *)
  ht_items : option ptr;
  ht_size : Z;                (* size_t *)
  ht_len : Z }.               (* size_t *)

Definition INITIAL_SIZE : Z := 16.

Abbreviation arrays_t := (gmap ptr (list item_t)).

(** [calloc] of [n] items. *)
Definition zero_item : item_t := mk_item false None 0 (replicate 16 0).
Definition zero_items (n : Z) : list item_t := replicate (Z.to_nat n) zero_item.

Definition with_lock (l : bool) (t : ht_t) : ht_t := mk_ht (Some l) t.(ht_items) t.(ht_size) t.(ht_len).

Definition lock_table (t : ht_t) : comp ht_t :=
  match t.(ht_lock) with
  | None => Stuck UB
  | Some held => held ← mutex_lock held; Done (with_lock held t)
  end.
Definition unlock_table (t : ht_t) : comp ht_t :=
  match t.(ht_lock) with
  | None => Stuck UB
  | Some held => held ← mutex_unlock held; Done (with_lock held t)
  end.

(** The items of a table: a null pointer is dereferenced. *)
Definition load_items (arrays : arrays_t) (t : ht_t) : comp (ptr * list item_t) :=
  match t.(ht_items) with
  | None => Stuck UB
  | Some a => items ← load arrays a; Done (a, items)
  end.

(** ** Creation *)

(** [e_items], [e_mutex]: what the two calls of [calloc] return. *)
Definition allocate_ht (arrays : arrays_t) (e_items e_mutex : option ptr) (mutex_fails : bool)
    : comp (arrays_t * ht_t * option errors_t) :=
  let arrays := malloc arrays e_items (zero_items INITIAL_SIZE) in
  let t := mk_ht None e_items INITIAL_SIZE 0 in
  match e_items with
  | None => Done (arrays, t, Some FAILED_TO_ALLOCATE)
  | Some _ =>
      match e_mutex with
      | None => arrays ← free arrays e_items; Done (arrays, t, Some FAILED_TO_ALLOCATE)
      | Some _ =>
          if mutex_fails then arrays ← free arrays e_items; Done (arrays, t, Some FAILED_TO_ALLOCATE)
          else Done (arrays, mk_ht (Some false) e_items INITIAL_SIZE 0, None)
      end
  end.

(** ** Probing *)

(** The division by zero of an empty table is undefined. *)
Definition ht_hash (size port : Z) : comp Z :=
  if size =? 0 then Stuck UB else Done (u16 (port mod size)).

Definition matches (item : item_t) (port : Z) (ip : list Z) : bool :=
  (item.(i_port) =? port) && ip_equals item.(i_ip) ip.

(** The loop over the items from [index] on: it stops at an item that is
    not used ([false]) or at the one with the key ([true]). *)
Fixpoint probe (fuel : nat) (items : list item_t) (size index port : Z) (ip : list Z) : comp (nat * bool) :=
  match fuel with
  | O => Stuck NoFuel
  | S fuel =>
      item ← rd items (Z.to_nat index);
      if item.(i_used) then
        if matches item port ip then Done (Z.to_nat index, true)
        else probe fuel items size (u16 ((index + 1) mod size)) port ip
      else Done (Z.to_nat index, false)
  end.

(** The loop of [ht_get] and [ht_put_nolock]; it cannot take more rounds
    than the array has items without coming back to where it started. *)
Definition find_item (items : list item_t) (size port : Z) (ip : list Z) : comp (nat * bool) :=
  index ← ht_hash size port;
  probe (S (length items)) items size index port ip.

Definition ht_get (arrays : arrays_t) (t : ht_t) (port : Z) (ip : list Z) : comp (ht_t * option ptr) :=
  t ← lock_table t;
  '(_, items) ← load_items arrays t;
  '(index, found) ← find_item items t.(ht_size) port ip;
  item ← rd items index;
  t ← unlock_table t;
  Done (t, if found : bool then item.(i_value) else None).

Definition ht_contains (arrays : arrays_t) (t : ht_t) (port : Z) (ip : list Z) : comp (ht_t * bool) :=
  '(t, v) ← ht_get arrays t port ip;
  Done (t, bool_decide (is_Some v)).

Definition ht_length (t : ht_t) : Z := t.(ht_len).

(** ** Insertion *)

(** [ht_put_nolock] behind its resize: the array, the length and the old value. *)
Definition put_item (items : list item_t) (size len port : Z) (ip : list Z) (item : option ptr)
    : comp (list item_t * Z * option ptr) :=
  '(index, found) ← find_item items size port ip;
  at_index ← rd items index;
  let old := if found : bool then at_index.(i_value) else None in
  let used := bool_decide (is_Some item) in
  ip16 ← slice ip 0 16;
  items ← wr items index (mk_item used item port ip16);
  let len := match old with
             | None => if used then u64 (len + 1) else len
             | Some _ => if used then len else u64 (len - 1)
             end in
  Done (items, len, old).

(** ** Resizing *)

(** The loop over the old items from [i] on: used ones go into the new
    array, and their value in the old array is cleared. *)
Fixpoint rehash (n i : nat) (old new : list item_t) (size len : Z) : comp (list item_t * list item_t * Z) :=
  match n with
  | O => Done (old, new, len)
  | S n =>
      item ← rd old i;
      if item.(i_used) then
        '(new, len, _) ← put_item new size len item.(i_port) item.(i_ip) item.(i_value);
        old ← wr old i (mk_item item.(i_used) None item.(i_port) item.(i_ip));
        rehash n (S i) old new size len
      else rehash n (S i) old new size len
  end.

Fixpoint dealloc_values (n i : nat) (h : heap_t) (items : list item_t) : comp heap_t :=
  match n with
  | O => Done h
  | S n =>
      item ← rd items i;
      h ← match item.(i_value) with
          | Some _ => deallocate_client h item.(i_value) true true
          | None => Done h
          end;
      dealloc_values n (S i) h items
  end.

(** The clients an array holds, and the array itself, are freed. *)
Definition dealloc_items (h : heap_t) (arrays : arrays_t) (len : Z) (items : option ptr)
    : comp (heap_t * arrays_t) :=
  match items with
  | None => if len =? 0 then Done (h, arrays) else Stuck UB
  | Some a =>
      l ← load arrays a;
      h ← dealloc_values (Z.to_nat len) 0 h l;
      arrays ← free arrays (Some a);
      Done (h, arrays)
  end.

(** [e_items] is what [calloc] returns. *)
Definition ht_resize (h : heap_t) (arrays : arrays_t) (t : ht_t) (new_size : Z) (e_items : option ptr)
    : comp (heap_t * arrays_t * ht_t * option errors_t) :=
  let old_values := t.(ht_items) in
  let old_size := t.(ht_size) in
  let arrays := malloc arrays e_items (zero_items new_size) in
  let t := mk_ht t.(ht_lock) e_items new_size 0 in
  match e_items with
  | None => Done (h, arrays, t, Some FAILED_TO_ALLOCATE)
  | Some a =>
      match old_values with
      | None => if old_size =? 0 then Done (h, arrays, t, None) else Stuck UB
      | Some o =>
          old ← load arrays o;
          '(old, new, len) ← rehash (Z.to_nat old_size) 0 old (zero_items new_size) new_size 0;
          arrays ← store arrays o old;
          arrays ← store arrays a new;
          '(h, arrays) ← dealloc_items h arrays old_size (Some o);
          Done (h, arrays, mk_ht t.(ht_lock) t.(ht_items) new_size len, None)
      end
  end.

(** A table that is more than half full is doubled first; when that fails
    the function returns with the lock held. *)
Definition ht_put (h : heap_t) (arrays : arrays_t) (t : ht_t) (port : Z) (ip : list Z) (item : option ptr)
    (e_items : option ptr) : comp (heap_t * arrays_t * ht_t * (errors_t + option ptr)) :=
  t ← lock_table t;
  '(h, arrays, t, r) ←
    (if t.(ht_size) / 2 <? t.(ht_len) then ht_resize h arrays t (u64 (t.(ht_size) * 2)) e_items
     else Done (h, arrays, t, None));
  match r with
  | Some _ => Done (h, arrays, t, inl FAILED_TO_RESIZE)
  | None =>
      '(a, items) ← load_items arrays t;
      '(items, len, old) ← put_item items t.(ht_size) t.(ht_len) port ip item;
      arrays ← store arrays a items;
      t ← unlock_table (mk_ht t.(ht_lock) t.(ht_items) t.(ht_size) len);
      Done (h, arrays, t, inr old)
  end.

(** The variant for callers that hold the lock; when it resizes it goes on
    with [ht_put], which takes the lock. *)
Definition ht_put_nolock (h : heap_t) (arrays : arrays_t) (t : ht_t) (port : Z) (ip : list Z)
    (item : option ptr) (resize : bool) (e_items e_items2 : option ptr)
    : comp (heap_t * arrays_t * ht_t * (errors_t + option ptr)) :=
  if (t.(ht_size) / 2 <? t.(ht_len)) && resize then
    '(h, arrays, t, r) ← ht_resize h arrays t (u64 (t.(ht_size) * 2)) e_items;
    match r with
    | Some _ => Done (h, arrays, t, inl FAILED_TO_RESIZE)
    | None => ht_put h arrays t port ip item e_items2
    end
  else
    '(a, items) ← load_items arrays t;
    '(items, len, old) ← put_item items t.(ht_size) t.(ht_len) port ip item;
    arrays ← store arrays a items;
    Done (h, arrays, mk_ht t.(ht_lock) t.(ht_items) t.(ht_size) len, inr old).

(** ** Removal *)

(** A null value is put in the item's place, and the items are entered
    into a new array (a failure to resize is only reported by the null
    pointer of [ht_put]). *)
Definition ht_remove (h : heap_t) (arrays : arrays_t) (t : ht_t) (port : Z) (ip : list Z)
    (e_put e_resize : option ptr) : comp (heap_t * arrays_t * ht_t * option ptr) :=
  '(h, arrays, t, r) ← ht_put h arrays t port ip None e_put;
  match r with
  | inl _ | inr None => Done (h, arrays, t, None)
  | inr (Some del) =>
      '(h, arrays, t, _) ← ht_resize h arrays t t.(ht_size) e_resize;
      Done (h, arrays, t, Some del)
  end.

(** ** Destruction *)

Definition dealloc_ht (h : heap_t) (arrays : arrays_t) (t : option ht_t)
    : comp (heap_t * arrays_t * option ht_t * option errors_t) :=
  match t with
  | None => Done (h, arrays, None, Some ALREADY_DEALLOCATED)
  | Some t =>
      t ← lock_table t;
      '(h, arrays) ← dealloc_items h arrays t.(ht_size) t.(ht_items);
      t ← unlock_table t;
      Done (h, arrays, Some (mk_ht None t.(ht_items) 0 0), None)
  end.

(** ** Lemmas on probing *)

Abbreviation key := (Z * list Z)%type.

Definition key_ok (k : key) : Prop := is_u16 k.1 /\ length k.2 = 16%nat.

Definition item_key (it : item_t) : key := (it.(i_port), it.(i_ip)).

(** The [d]-th item behind the one the port hashes to. *)
Definition at_dist (size port : Z) (d : nat) : nat := Z.to_nat ((port + Z.of_nat d) mod size).

Lemma at_dist_lt size port d : 0 < size -> (at_dist size port d < Z.to_nat size)%nat.
Proof. intros H. rw /at_dist. pose proof (Z.mod_pos_bound (port + Z.of_nat d) size H). lia. Qed.

Lemma at_dist_mod size port d : at_dist size (port mod size) d = at_dist size port d.
Proof. by rw /at_dist Zplus_mod_idemp_l. Qed.

Lemma at_dist_succ size port d : at_dist size ((port + 1) mod size) d = at_dist size port (S d).
Proof. rw at_dist_mod /at_dist. do 2 f_equal. lia. Qed.

(** Every index lies at some distance. *)
Lemma at_dist_surj size port i :
  0 < size -> (i < Z.to_nat size)%nat -> exists d, (d < Z.to_nat size)%nat /\ at_dist size port d = i.
Proof.
  intros Hs Hi. exists (Z.to_nat ((Z.of_nat i - port) mod size)).
  pose proof (Z.mod_pos_bound (Z.of_nat i - port) size Hs). split; [lia|].
  rw /at_dist Z2Nat.id; [|lia]. rw Zplus_mod_idemp_r.
  replace (port + (Z.of_nat i - port)) with (Z.of_nat i) by lia. rw Z.mod_small; lia.
Qed.

Lemma at_dist_inj size port j d :
  0 < size -> (j < Z.to_nat size)%nat -> (d < Z.to_nat size)%nat ->
  at_dist size port j = at_dist size port d -> j = d.
Proof.
  intros Hs Hj Hd Heq. rw /at_dist in Heq.
  pose proof (Z.mod_pos_bound (port + Z.of_nat j) size Hs).
  pose proof (Z.mod_pos_bound (port + Z.of_nat d) size Hs).
  assert (forall a b, 0 <= a - b < size -> (port + a) mod size = (port + b) mod size -> a = b) as Hinj.
  { intros a b Hab Hmod.
    assert ((a - b) mod size = 0) as Hz.
    { replace (a - b) with (port + a - (port + b)) by lia. by rw Zminus_mod Hmod Z.sub_diag. }
    rewrite -> Z.mod_small in Hz by done. lia. }
  destruct (decide (j <= d)%nat).
  - assert (Z.of_nat d = Z.of_nat j) by (apply Hinj; lia). lia.
  - assert (Z.of_nat j = Z.of_nat d) by (apply Hinj; lia). lia.
Qed.

Lemma matches_key it k : length it.(i_ip) = 16%nat -> length k.2 = 16%nat ->
  matches it k.1 k.2 = bool_decide (item_key it = k).
Proof.
  intros H1 H2. destruct k as [port ip]. cbn in *.
  rw /matches /ip_equals !take_ge; [|lia..]. rw /item_key.
  destruct (Z.eqb_spec it.(i_port) port) as [<-|Hne]; cbn [andb].
  - apply bool_decide_ext. naive_solver.
  - symmetry. apply bool_decide_eq_false. naive_solver.
Qed.

(** A smallest number with a decidable property. *)
Lemma least_nat (P : nat -> Prop) `{!forall n, Decision (P n)} n :
  P n -> exists d, (d <= n)%nat /\ P d /\ forall k, (k < d)%nat -> ~ P k.
Proof.
  intros Hn. assert (forall m, (exists d, (d < m)%nat /\ P d /\ forall k, (k < d)%nat -> ~ P k) \/
    forall k, (k < m)%nat -> ~ P k) as H'.
  { intros m. induction m as [|m [(d & Hd & H')|IH]]; [right; lia|left; exists d; split; [lia|done]|].
    destruct (decide (P m)) as [HP|HP]; [left; by exists m; split; [lia|]|].
    right. intros k Hk. destruct (decide (k = m)) as [->|]; [done|]. apply IH. lia. }
  destruct (H' (S n)) as [(d & Hd & H1)|Hno]; [exists d; split; [lia|done]|].
  exfalso. by apply (Hno n); [lia|].
Qed.

(** The items before the place [i] at distance [d] are taken. *)
Definition reachable (items : list item_t) (size port : Z) (d : nat) : Prop :=
  forall k, (k < d)%nat -> exists it, items !! at_dist size port k = Some it /\ it.(i_used) = true.

Lemma probe_stops d fuel items size index k it found :
  (d < fuel)%nat -> 0 < size <= 2 ^ 16 -> 0 <= index < size ->
  (forall j, (j < d)%nat -> exists it', items !! at_dist size index j = Some it' /\
     it'.(i_used) = true /\ matches it' k.1 k.2 = false) ->
  items !! at_dist size index d = Some it ->
  it.(i_used) = found -> (found = true -> matches it k.1 k.2 = true) ->
  probe fuel items size index k.1 k.2 = Done (at_dist size index d, found).
Proof.
  revert fuel index. induction d as [|d IH]; intros fuel index Hf Hs Hi Hbefore Hit Hu Hm;
    (destruct fuel as [|fuel]; [lia|]); cbn [probe].
  - assert (at_dist size index 0 = Z.to_nat index) as E.
    { rw /at_dist Z.add_0_r Z.mod_small //. }
    rewrite -> E in Hit |- *. rw (proj2 (rd_Done _ _ _) Hit). unbind. rw Hu.
    destruct found; [|done]. by rw Hm.
  - destruct (Hbefore 0%nat ltac:(lia)) as (it' & Hit' & Hu' & Hm').
    assert (at_dist size index 0 = Z.to_nat index) as E.
    { rw /at_dist Z.add_0_r Z.mod_small //. }
    rewrite -> E in Hit'. rw (proj2 (rd_Done _ _ _) Hit'). unbind. rw Hu' Hm'.
    pose proof (Z.mod_pos_bound (index + 1) size ltac:(lia)) as Hb.
    rw /u16 (Z.mod_small ((index + 1) mod size)); [|lia].
    rw (IH fuel ((index + 1) mod size)) //; [by rw at_dist_succ|lia| |by rw at_dist_succ].
    intros j Hj. rw at_dist_succ. apply Hbefore. lia.
Qed.

(** ** The table as a map *)

(** The items hold the entries of [m], each once, wherever. *)
Record items_ok (items : list item_t) (m : gmap key ptr) : Prop := {
  ik_shape : forall i it, items !! i = Some it ->
    it.(i_used) = bool_decide (is_Some it.(i_value)) /\ key_ok (item_key it);
  ik_unique : forall i j it it', items !! i = Some it -> items !! j = Some it' ->
    it.(i_used) = true -> it'.(i_used) = true -> item_key it = item_key it' -> i = j;
  ik_map : forall k v, m !! k = Some v <->
    exists i it, items !! i = Some it /\ item_key it = k /\ it.(i_value) = Some v }.

(** The probing of [find_item] reaches them, and finds a free item. *)
Record table_ok (items : list item_t) (size : Z) (m : gmap key ptr) : Prop := {
  tk_items : items_ok items m;
  tk_size : 0 < size <= 2 ^ 16 /\ length items = Z.to_nat size;
  tk_reach : forall i it, items !! i = Some it -> it.(i_used) = true ->
    exists d, (d < Z.to_nat size)%nat /\ i = at_dist size it.(i_port) d /\ reachable items size it.(i_port) d;
  tk_room : (base.size m < Z.to_nat size)%nat }.

(** As many items as entries: an item is free while there is room. *)
Lemma free_item items size m :
  table_ok items size m -> exists i it, items !! i = Some it /\ it.(i_used) = false.
Proof.
  intros [[Hsh Hun Hm] [Hs Hl] _ Hroom].
  destruct (decide (Exists (fun it => it.(i_used) = false) items)) as [H|H].
  - apply Exists_exists in H as (it & Hin & Hu). apply list_elem_of_lookup in Hin as [i Hi].
    by exists i, it.
  - exfalso. rewrite <- Forall_Exists_neg in H.
    assert (NoDup (item_key <$> items)) as Hnd.
    { apply NoDup_alt. intros i j k Hi Hj.
      apply list_lookup_fmap_Some in Hi as (it & -> & Hi), Hj as (it' & Hk & Hj).
      pose proof (Forall_lookup_1 _ _ _ _ H Hi) as Hu. pose proof (Forall_lookup_1 _ _ _ _ H Hj) as Hu'.
      cbn beta in Hu, Hu'. apply not_false_is_true in Hu, Hu'. by apply (Hun i j it it'). }
    assert (length items <= base.size m)%nat as Hle; [|lia].
    rw -(length_fmap item_key) -(size_list_to_set (C := gset key) (item_key <$> items)) // -size_dom.
    apply subseteq_size. intros k Hk%elem_of_list_to_set. apply list_elem_of_fmap in Hk as (it & -> & Hin).
    apply list_elem_of_lookup in Hin as [i Hi]. destruct (Hsh i it Hi) as [Hu _].
    pose proof (Forall_lookup_1 _ _ _ _ H Hi) as Hnu. cbn beta in Hnu.
    rewrite -> Hu in Hnu. apply not_false_is_true, bool_decide_eq_true in Hnu as [v Hv].
    apply elem_of_dom. exists v. apply Hm. by exists i, it.
Qed.

(** ** Finding *)

Lemma find_item_stops items size m k d it found :
  table_ok items size m -> key_ok k -> (d < Z.to_nat size)%nat ->
  reachable items size k.1 d ->
  (forall j it', (j < d)%nat -> items !! at_dist size k.1 j = Some it' -> item_key it' <> k) ->
  items !! at_dist size k.1 d = Some it -> it.(i_used) = found -> (found = true -> item_key it = k) ->
  find_item items size k.1 k.2 = Done (at_dist size k.1 d, found).
Proof.
  intros [[Hsh _ _] [Hs Hl] _ _] [Hp Hip] Hd Hr Hne Hit Hu Hk.
  rw /find_item /ht_hash. destruct (Z.eqb_spec size 0); [lia|]. unbind.
  pose proof (Z.mod_pos_bound k.1 size ltac:(lia)) as Hb.
  rw /u16 (Z.mod_small (k.1 mod size)); [|lia].
  rw (probe_stops d _ items size (k.1 mod size) k it found) //; [by rw at_dist_mod|lia| |by rw at_dist_mod|].
  - intros j Hj. rw at_dist_mod. destruct (Hr j Hj) as (it' & Hit' & Hu'). exists it'.
    split; [done|]. split; [done|]. destruct (Hsh _ _ Hit') as [_ [_ Hl16]].
    rw matches_key //. apply bool_decide_eq_false. by eapply Hne.
  - intros Hf. destruct (Hsh _ _ Hit) as [_ [_ Hl16]]. rw matches_key //. apply bool_decide_eq_true. by apply Hk.
Qed.

Lemma used_value it v :
  it.(i_used) = bool_decide (is_Some it.(i_value)) -> it.(i_value) = Some v -> it.(i_used) = true.
Proof. intros -> ->. by apply bool_decide_eq_true. Qed.

Lemma used_is_Some it :
  it.(i_used) = bool_decide (is_Some it.(i_value)) -> it.(i_used) = true -> is_Some it.(i_value).
Proof. intros -> H. by apply bool_decide_eq_true in H. Qed.

Lemma unused_None it :
  it.(i_used) = bool_decide (is_Some it.(i_value)) -> it.(i_used) = false -> it.(i_value) = None.
Proof. intros -> H. apply bool_decide_eq_false in H. by apply eq_None_not_Some. Qed.

Lemma find_present items size m k v :
  table_ok items size m -> key_ok k -> m !! k = Some v ->
  exists i it, find_item items size k.1 k.2 = Done (i, true) /\ items !! i = Some it /\
    item_key it = k /\ it.(i_value) = Some v /\ it.(i_used) = true.
Proof.
  intros Hok Hk Hv. pose proof Hok as [[Hsh Hun Hm] [Hs Hl] Hreach _].
  apply Hm in Hv as (i & it & Hi & Hik & Hv). destruct (Hsh _ _ Hi) as [Hu _].
  pose proof (used_value _ _ Hu Hv) as Hused.
  destruct (Hreach i it Hi Hused) as (d & Hd & -> & Hr).
  assert (it.(i_port) = k.1) as Hport by by rw -Hik.
  rewrite -> Hport in Hi, Hr.
  exists (at_dist size k.1 d), it. split_and!; try done.
  eapply find_item_stops; try done. intros j it' Hj Hit' Hk'.
  destruct (Hr j Hj) as (it2 & Hit2 & Hu2). rewrite -> Hit' in Hit2. injection Hit2 as <-.
  assert (at_dist size k.1 j = at_dist size k.1 d) as Heq.
  { apply (Hun _ _ it' it); try done. by rw Hk'. }
  apply at_dist_inj in Heq; lia.
Qed.

Lemma find_absent items size m k :
  table_ok items size m -> key_ok k -> m !! k = None ->
  exists d it, find_item items size k.1 k.2 = Done (at_dist size k.1 d, false) /\ (d < Z.to_nat size)%nat /\
    items !! at_dist size k.1 d = Some it /\ it.(i_used) = false /\ reachable items size k.1 d.
Proof.
  intros Hok Hk Hnone. pose proof Hok as [[Hsh Hun Hm] [Hs Hl] _ _].
  destruct (free_item _ _ _ Hok) as (i & it0 & Hi & Hu0).
  destruct (at_dist_surj size k.1 i) as (d0 & Hd0 & Hd0i); [lia|apply lookup_lt_Some in Hi; lia|].
  destruct (least_nat (fun d => i_used <$> items !! at_dist size k.1 d = Some false) d0)
    as (d & Hd & (it & Hit & Hu)%fmap_Some & Hleast).
  { by rw Hd0i Hi /= Hu0. }
  assert (reachable items size k.1 d) as Hr.
  { intros j Hj. destruct (lookup_lt_is_Some_2 items (at_dist size k.1 j)) as [it' Hit'].
    { rw Hl. apply at_dist_lt. lia. }
    exists it'. split; [done|]. apply not_false_is_true. intros Hf. apply (Hleast j Hj). by rw Hit' /= Hf. }
  exists d, it. split; [|split; [lia|done]].
  eapply find_item_stops; try done; [lia|]. intros j it' Hj Hit' Hkey.
  destruct (Hr j Hj) as (it2 & Hit2 & Hu2). rewrite -> Hit' in Hit2. injection Hit2 as <-.
  destruct (Hsh _ _ Hit') as [Hub _]. destruct (used_is_Some _ Hub Hu2) as [v Hv].
  assert (m !! k = Some v) as Habs by (apply Hm; by exists (at_dist size k.1 j), it').
  by rewrite -> Hnone in Habs.
Qed.

(** ** Storing *)

Lemma reachable_insert items size port d i it :
  (i < length items)%nat -> it.(i_used) = true ->
  reachable items size port d -> reachable (<[i := it]> items) size port d.
Proof.
  intros Hi Hu Hr k Hk. destruct (Hr k Hk) as (it' & Hit' & Hu').
  destruct (decide (at_dist size port k = i)) as [->|Hne].
  - exists it. by rw list_lookup_insert_eq.
  - exists it'. by rw list_lookup_insert_ne.
Qed.

Lemma insert_cases (items : list item_t) i new j it :
  <[i := new]> items !! j = Some it -> (j = i /\ it = new) \/ (j <> i /\ items !! j = Some it).
Proof. intros [(-> & <- & _)|[Hne H]]%list_lookup_insert_Some; [by left|by right]. Qed.

(** A new entry at the first free item behind its hash. *)
Lemma table_insert items size m k v d it :
  table_ok items size m -> key_ok k -> m !! k = None -> (S (base.size m) < Z.to_nat size)%nat ->
  items !! at_dist size k.1 d = Some it -> it.(i_used) = false -> (d < Z.to_nat size)%nat ->
  reachable items size k.1 d ->
  table_ok (<[at_dist size k.1 d := mk_item true (Some v) k.1 k.2]> items) size (<[k := v]> m).
Proof.
  intros [[Hsh Hun Hm] [Hs Hl] Hreach Hroom] Hk Hnone Hsz Hit Hu Hd Hr.
  set (i := at_dist size k.1 d) in *. set (new := mk_item true (Some v) k.1 k.2).
  pose proof (lookup_lt_Some _ _ _ Hit) as Hlt.
  assert (item_key new = k) as Hnk by by destruct k.
  pose proof (insert_cases items i new) as Hcase.
  assert (forall j it', items !! j = Some it' -> it'.(i_used) = true -> j <> i) as Hold
    by (intros j it' Hj Hu' ->; congruence).
  assert (forall j it', items !! j = Some it' -> it'.(i_used) = true -> item_key it' <> k) as Hother.
  { intros j it' Hj Hu' Hk'. destruct (Hsh _ _ Hj) as [Hub _]. destruct (used_is_Some _ Hub Hu') as [v' Hv'].
    assert (m !! k = Some v') as Habs by (apply Hm; by exists j, it'). by rewrite -> Hnone in Habs. }
  split; [split| | |].
  - intros j it' [[-> ->]|[_ Hj]]%Hcase; [|by eapply Hsh]. split; [done|]. by rw Hnk.
  - intros j j' it1 it2 [[-> ->]|[Hne Hj]]%Hcase [[-> ->]|[Hne' Hj']]%Hcase Hu1 Hu2 Hkk; [done|..].
    + exfalso. eapply Hother; [exact Hj'|done|]. by rw -Hkk.
    + exfalso. eapply Hother; [exact Hj|done|]. by rw Hkk.
    + by eapply Hun.
  - intros k' v'. split.
    + intros [[<- <-]|[Hne Hv']]%lookup_insert_Some.
      * exists i, new. by rw list_lookup_insert_eq.
      * apply Hm in Hv' as (j & it' & Hj & Hk' & Hv'). exists j, it'. destruct (Hsh _ _ Hj) as [Hub _].
        rw list_lookup_insert_ne; [done|]. intros <-. by eapply Hold; [|eapply used_value|].
    + intros (j & it' & [[-> ->]|[_ Hj]]%Hcase & <- & Hv').
      * rw Hnk lookup_insert_eq. done.
      * destruct (Hsh _ _ Hj) as [Hub _].
        rw lookup_insert_ne; [apply Hm; by exists j, it'|]. intros Heq. by eapply Hother; [|eapply used_value|].
  - by rw length_insert.
  - intros j it' [[-> ->]|[_ Hj]]%Hcase Hu'.
    + exists d. split; [done|]. split; [done|]. by apply reachable_insert.
    + destruct (Hreach j it' Hj Hu') as (d' & Hd' & -> & Hr'). exists d'.
      split; [done|]. split; [done|]. by apply reachable_insert.
  - rw map_size_insert_None //.
Qed.

Lemma put_new items size m k v len :
  table_ok items size m -> key_ok k -> m !! k = None -> (S (base.size m) < Z.to_nat size)%nat ->
  exists items', put_item items size len k.1 k.2 (Some v) = Done (items', u64 (len + 1), None) /\
    table_ok items' size (<[k := v]> m).
Proof.
  intros Hok Hk Hnone Hsz. destruct (find_absent _ _ _ _ Hok Hk Hnone) as (d & it & Hf & Hd & Hit & Hu & Hr).
  rw /put_item Hf. unbind. rw (proj2 (rd_Done _ _ _) Hit). unbind.
  destruct Hk as [Hp Hip]. rw slice_fits; [|lia]. rw drop_0 take_ge; [|lia]. unbind.
  rw wr_lt; [|by eapply lookup_lt_Some]. unbind. eexists.
  split; [reflexivity|]. by eapply table_insert.
Qed.

(** An entry that is there gets another value. *)
Lemma table_update items size m k v v0 i it :
  table_ok items size m -> m !! k = Some v0 ->
  items !! i = Some it -> item_key it = k -> it.(i_used) = true ->
  table_ok (<[i := mk_item true (Some v) k.1 k.2]> items) size (<[k := v]> m).
Proof.
  intros [[Hsh Hun Hm] [Hs Hl] Hreach Hroom] Hv0 Hit Hik Hu.
  set (new := mk_item true (Some v) k.1 k.2).
  pose proof (lookup_lt_Some _ _ _ Hit) as Hlt.
  assert (item_key new = k) as Hnk by by destruct k.
  pose proof (insert_cases items i new) as Hcase.
  split; [split| | |].
  - intros j it' [[-> ->]|[_ Hj]]%Hcase; [|by eapply Hsh]. split; [done|].
    destruct (Hsh _ _ Hit) as [_ Hko]. by rw Hnk -Hik.
  - intros j j' it1 it2 [[-> ->]|[Hne Hj]]%Hcase [[-> ->]|[Hne' Hj']]%Hcase Hu1 Hu2 Hkk; [done|..].
    + symmetry. apply (Hun j' i it2 it); try done. by rw -Hkk Hnk.
    + apply (Hun j i it1 it); try done. by rw Hkk Hnk.
    + by eapply Hun.
  - intros k' v'. split.
    + intros [[<- <-]|[Hne Hv']]%lookup_insert_Some.
      * exists i, new. by rw list_lookup_insert_eq.
      * apply Hm in Hv' as (j & it' & Hj & Hk' & Hv'). exists j, it'.
        rw list_lookup_insert_ne; [done|]. intros <-. congruence.
    + intros (j & it' & [[-> ->]|[Hne Hj]]%Hcase & <- & Hv').
      * rw Hnk lookup_insert_eq. done.
      * rw lookup_insert_ne; [apply Hm; by exists j, it'|]. intros Heq. apply Hne.
        destruct (Hsh _ _ Hj) as [Hub _]. apply (Hun j i it' it); try done; [by eapply used_value|congruence].
  - by rw length_insert.
  - intros j it' [[-> ->]|[_ Hj]]%Hcase Hu'.
    + destruct (Hreach i it Hit Hu) as (d & Hd & Hi & Hr).
      assert (it.(i_port) = k.1) as Hport by by rw -Hik. cbn [new i_port]. rw -Hport.
      exists d. split; [done|]. split; [done|]. by apply reachable_insert.
    + destruct (Hreach j it' Hj Hu') as (d' & Hd' & -> & Hr'). exists d'.
      split; [done|]. split; [done|]. by apply reachable_insert.
  - rw map_size_insert_Some //.
Qed.

Lemma put_update items size m k v v0 len :
  table_ok items size m -> key_ok k -> m !! k = Some v0 ->
  exists items', put_item items size len k.1 k.2 (Some v) = Done (items', len, Some v0) /\
    table_ok items' size (<[k := v]> m).
Proof.
  intros Hok Hk Hv0. destruct (find_present _ _ _ _ _ Hok Hk Hv0) as (i & it & Hf & Hit & Hik & Hv & Hu).
  rw /put_item Hf. unbind. rw (proj2 (rd_Done _ _ _) Hit). unbind. rw Hv.
  destruct Hk as [Hp Hip]. rw slice_fits; [|lia]. rw drop_0 take_ge; [|lia]. unbind.
  rw wr_lt; [|by eapply lookup_lt_Some]. unbind. eexists.
  split; [reflexivity|]. by eapply table_update.
Qed.

(** An item is cleared: that of the key [k], or a free one when there is none. *)
Lemma items_clear items m k i it :
  items_ok items m -> key_ok k -> items !! i = Some it ->
  (it.(i_used) = true -> item_key it = k) -> (it.(i_used) = false -> m !! k = None) ->
  items_ok (<[i := mk_item false None k.1 k.2]> items) (delete k m).
Proof.
  intros [Hsh Hun Hm] Hk Hit Hused Hfree. set (new := mk_item false None k.1 k.2).
  pose proof (lookup_lt_Some _ _ _ Hit) as Hlt. pose proof (insert_cases items i new) as Hcase.
  split.
  - intros j it' [[-> ->]|[_ Hj]]%Hcase; [|by eapply Hsh]. split; [done|]. by destruct k.
  - intros j j' it1 it2 [[-> ->]|[Hne Hj]]%Hcase [[-> ->]|[Hne' Hj']]%Hcase Hu1 Hu2 Hkk; try done.
    by eapply Hun.
  - intros k' v'. rw lookup_delete_Some. split.
    + intros [Hne Hv']. apply Hm in Hv' as (j & it' & Hj & Hk' & Hv'). exists j, it'.
      destruct (Hsh _ _ Hj) as [Hub _]. pose proof (used_value _ _ Hub Hv') as Hu'.
      rw list_lookup_insert_ne; [done|]. intros <-. rewrite -> Hit in Hj. injection Hj as <-.
      by rewrite -> (Hused Hu') in Hk'.
    + intros (j & it' & [[-> ->]|[Hne Hj]]%Hcase & <- & Hv'); [done|].
      assert (m !! item_key it' = Some v') as Hmv by (apply Hm; by exists j, it').
      split; [|done]. intros Heq. destruct (it.(i_used)) eqn:Hu.
      * destruct (Hsh _ _ Hj) as [Hub _]. apply Hne. apply (Hun j i it' it); try done; [by eapply used_value|].
        by rw -Heq Hused.
      * specialize (Hfree eq_refl). by rewrite -> Heq, Hmv in Hfree.
Qed.

Lemma put_null_present items size m k v0 len :
  table_ok items size m -> key_ok k -> m !! k = Some v0 ->
  exists items', put_item items size len k.1 k.2 None = Done (items', u64 (len - 1), Some v0) /\
    items_ok items' (delete k m) /\ length items' = length items.
Proof.
  intros Hok Hk Hv0. destruct (find_present _ _ _ _ _ Hok Hk Hv0) as (i & it & Hf & Hit & Hik & Hv & Hu).
  rw /put_item Hf. unbind. rw (proj2 (rd_Done _ _ _) Hit). unbind. rw Hv.
  pose proof Hk as [Hp Hip]. rw slice_fits; [|lia]. rw drop_0 take_ge; [|lia]. unbind.
  rw wr_lt; [|by eapply lookup_lt_Some]. unbind. eexists.
  split; [reflexivity|]. split; [|apply length_insert]. eapply items_clear; try done; [apply Hok|congruence].
Qed.

Lemma put_null_absent items size m k len :
  table_ok items size m -> key_ok k -> m !! k = None ->
  exists items', put_item items size len k.1 k.2 None = Done (items', len, None) /\
    table_ok items' size m.
Proof.
  intros Hok Hk Hnone. destruct (find_absent _ _ _ _ Hok Hk Hnone) as (d & it & Hf & Hd & Hit & Hu & Hr).
  rw /put_item Hf. unbind. rw (proj2 (rd_Done _ _ _) Hit). unbind.
  pose proof Hk as [Hp Hip]. rw slice_fits; [|lia]. rw drop_0 take_ge; [|lia]. unbind.
  rw wr_lt; [|by eapply lookup_lt_Some]. unbind. eexists. split; [reflexivity|].
  pose proof Hok as [Hik [Hs Hl] Hreach Hroom]. set (i := at_dist size k.1 d) in *.
  assert (forall port d', reachable items size port d' ->
    reachable (<[i := mk_item false None k.1 k.2]> items) size port d') as Hkeep.
  { intros port d' H' j Hj. destruct (H' j Hj) as (it' & Hit' & Hu'). exists it'. split; [|done].
    rw list_lookup_insert_ne //. intros Heq. rewrite <- Heq, Hit in Hit'. congruence. }
  split; [|by rw length_insert| |done].
  - rw -(delete_id m k Hnone). eapply items_clear; try done. congruence.
  - intros j it' [[-> ->]|[_ Hj]]%insert_cases Hu'; [done|].
    destruct (Hreach j it' Hj Hu') as (d' & Hd' & -> & Hr'). exists d'. auto.
Qed.

(** ** Rehashing *)

Lemma zero_items_ok size : 0 < size <= 2 ^ 16 -> table_ok (zero_items size) size ∅.
Proof.
  intros Hs.
  assert (forall i it, zero_items size !! i = Some it -> it = zero_item) as Hz
    by (rw /zero_items; intros i it H; by apply lookup_replicate in H as [-> _]).
  split; [split| | |].
  - by intros i it ->%Hz.
  - by intros i j it it' ->%Hz.
  - intros k v. rw lookup_empty. split; [done|]. by intros (i & it & ->%Hz & _ & Hv).
  - split; [done|]. apply length_replicate.
  - by intros i it ->%Hz.
  - rw map_size_empty. lia.
Qed.

(** The entries at the places from [i] on. *)
Definition entries_from (i : nat) (old : list item_t) (k : key) (v : ptr) : Prop :=
  exists j it, (i <= j)%nat /\ old !! j = Some it /\ item_key it = k /\ it.(i_value) = Some v.

(** What is left to do from place [i] on: the items of [old] from there
    and the entries [m] entered so far make [mf], without overlap. *)
Record rehashing (i : nat) (old : list item_t) (m mf : gmap key ptr) : Prop := {
  rh_shape : forall j it, (i <= j)%nat -> old !! j = Some it ->
    it.(i_used) = bool_decide (is_Some it.(i_value)) /\ key_ok (item_key it);
  rh_unique : forall j j' it it', (i <= j)%nat -> (i <= j')%nat -> old !! j = Some it -> old !! j' = Some it' ->
    it.(i_used) = true -> it'.(i_used) = true -> item_key it = item_key it' -> j = j';
  rh_new : forall j it, (i <= j)%nat -> old !! j = Some it -> it.(i_used) = true -> m !! item_key it = None;
  rh_final : forall k v, mf !! k = Some v <-> m !! k = Some v \/ entries_from i old k v }.

Lemma rehashing_start old m : items_ok old m -> rehashing 0 old ∅ m.
Proof.
  intros [Hsh Hun Hm]. split;
    [intros j it _; apply Hsh|intros j j' it it' _ _; apply Hun|intros; by rw lookup_empty|].
  intros k v. rw Hm lookup_empty /entries_from. split.
  - intros (i & it & H). right. exists i, it. split; [lia|done].
  - intros [|(i & it & _ & H)]; [done|]. by exists i, it.
Qed.

Lemma rehashing_end i old m mf : (length old <= i)%nat -> rehashing i old m mf -> mf = m.
Proof.
  intros Hi [_ _ _ Hmf]. apply map_eq. intros k. apply option_eq. intros v. rw Hmf. split; [|by left].
  intros [|(j & it & Hj & Hit & _)]; [done|]. apply lookup_lt_Some in Hit. lia.
Qed.

Lemma rehashing_skip i old m mf it :
  rehashing i old m mf -> old !! i = Some it -> it.(i_used) = false -> rehashing (S i) old m mf.
Proof.
  intros [Hsh Hun Hdis Hmf] Hit Hu. split.
  - intros j it' Hj. apply Hsh. lia.
  - intros j j' it1 it2 Hj Hj'. apply Hun; lia.
  - intros j it' Hj. apply Hdis. lia.
  - intros k v. rw Hmf. split; (intros [|(j & it' & Hj & Hit' & Hk' & Hv')]; [by left|right]);
      exists j, it'; split_and!; try done; [|lia].
    destruct (decide (j = i)) as [->|]; [|lia]. destruct (Hsh i it ltac:(lia) Hit) as [Hub _].
    pose proof (unused_None it Hub Hu). congruence.
Qed.

Lemma rehashing_move i old m mf it it' v :
  rehashing i old m mf -> old !! i = Some it -> it.(i_used) = true -> it.(i_value) = Some v ->
  rehashing (S i) (<[i := it']> old) (<[item_key it := v]> m) mf /\ <[item_key it := v]> m ⊆ mf.
Proof.
  intros [Hsh Hun Hdis Hmf] Hit Hu Hv. set (old1 := <[i := it']> old).
  assert (forall j, (S i <= j)%nat -> old1 !! j = old !! j) as Hsame
    by (intros j Hj; apply list_lookup_insert_ne; lia).
  pose proof (Hdis i it ltac:(lia) Hit Hu) as Hnone.
  split; [split|].
  - intros j it2 Hj. rw Hsame; [|lia]. apply Hsh. lia.
  - intros j j' it1 it2 Hj Hj'. rw !Hsame; [|lia..]. apply Hun; lia.
  - intros j it2 Hj. rw Hsame; [|lia]. intros Hit2 Hu2.
    rw lookup_insert_ne; [by eapply Hdis; [|done|]; [lia|]|]. intros Heq.
    assert (i = j); [|lia]. eapply Hun; [| |exact Hit|exact Hit2|..]; try done; lia.
  - intros k' v'. rw Hmf lookup_insert_Some. split.
    + intros [Hv'|(j & it2 & Hj & Hit2 & Hk' & Hv')].
      * left. right. split; [|done]. intros Heq. by rewrite <- Heq, Hnone in Hv'.
      * destruct (decide (j = i)) as [->|Hne].
        -- left. left. rewrite -> Hit in Hit2. injection Hit2 as <-. split; [done|congruence].
        -- right. exists j, it2. rw Hsame; [|lia]. split_and!; try done. lia.
    + intros [[[<- <-]|[_ Hv']]|(j & it2 & Hj & Hit2 & Hk' & Hv')]; [right|by left|right].
      * by exists i, it.
      * exists j, it2. rewrite -> Hsame in Hit2 by lia. split_and!; try done. lia.
  - apply map_subseteq_spec. intros k' v' [[<- <-]|[Hne Hv']]%lookup_insert_Some; apply Hmf; [right|by left].
    by exists i, it.
Qed.

Lemma rehash_spec n i old new size len m mf :
  (n + i = length old)%nat -> table_ok new size m -> len = Z.of_nat (base.size m) ->
  rehashing i old m mf -> (base.size mf < Z.to_nat size)%nat ->
  exists old' new', rehash n i old new size len = Done (old', new', Z.of_nat (base.size mf)) /\
    table_ok new' size mf /\ length old' = length old /\
    (forall j it, old' !! j = Some it -> ((i <= j)%nat -> it.(i_value) = None) /\
       ((j < i)%nat -> old !! j = Some it)).
Proof.
  revert i old new len m. induction n as [|n IH]; intros i old new len m Hn Hok Hlen Hrh Hsz.
  { rewrite -> (rehashing_end i old m mf ltac:(lia) Hrh) in *.
    exists old, new. cbn [rehash]. rw Hlen. split; [done|]. split; [done|]. split; [done|].
    intros j it Hj. apply lookup_lt_Some in Hj as Hlt. split; [lia|done]. }
  cbn [rehash]. destruct (rd_lt old i) as (it & Hrd & Hit); [lia|]. rw Hrd. unbind.
  destruct (rh_shape _ _ _ _ Hrh i it ltac:(lia) Hit) as [Hub Hk].
  destruct (it.(i_used)) eqn:Hu.
  - destruct (used_is_Some it ltac:(by rw Hu) Hu) as [v Hv].
    pose proof (rh_new _ _ _ _ Hrh i it ltac:(lia) Hit Hu) as Hnone.
    destruct (rehashing_move i old m mf it (mk_item true None it.(i_port) it.(i_ip)) v Hrh Hit Hu Hv) as [Hrh' Hsub].
    pose proof (map_subseteq_size _ _ Hsub) as Hle. rewrite -> map_size_insert_None in Hle by done.
    destruct (put_new new size m (item_key it) v len Hok Hk Hnone) as (new1 & Hput & Hok1); [lia|].
    cbn in Hput. rw Hv Hput. unbind. rw wr_lt; [|lia]. unbind.
    destruct (IH (S i) (<[i := mk_item true None it.(i_port) it.(i_ip)]> old) new1 (u64 (len + 1))
      (<[item_key it := v]> m)) as (old' & new' & Hrun & Hok' & Hlen' & Hold');
      [|exact Hok1| |exact Hrh'|done|].
    + rw length_insert. lia.
    + destruct (tk_size _ _ _ Hok) as [[_ Hs16] _]. rw map_size_insert_None // Hlen /u64 Z.mod_small; lia.
    + exists old', new'. split; [done|]. split; [done|]. split; [by rw Hlen' length_insert|].
      intros j it' Hj. destruct (Hold' j it' Hj) as [Hge Hlt]. split.
      * intros Hij. destruct (decide (j = i)) as [->|Hne]; [|apply Hge; lia].
        specialize (Hlt ltac:(lia)). rewrite -> list_lookup_insert_eq in Hlt by lia. by injection Hlt as <-.
      * intros Hji. specialize (Hlt ltac:(lia)). by rewrite -> list_lookup_insert_ne in Hlt by lia.
  - destruct (IH (S i) old new len m) as (old' & new' & Hrun & Hok' & Hlen' & Hold');
      [|exact Hok|exact Hlen|by eapply rehashing_skip|done|]; [lia|].
    exists old', new'. split; [done|]. split; [done|]. split; [done|].
    intros j it' Hj. destruct (Hold' j it' Hj) as [Hge Hlt]. split; [|intros; apply Hlt; lia].
    intros Hij. destruct (decide (j = i)) as [->|Hne]; [|apply Hge; lia].
    specialize (Hlt ltac:(lia)). rewrite -> Hit in Hlt. injection Hlt as <-. by apply unused_None; [rw Hu|].
Qed.

(** ** The operations on the heap *)

Lemma dealloc_values_none n i h items :
  (n + i <= length items)%nat -> (forall j it, items !! j = Some it -> (i <= j)%nat -> it.(i_value) = None) ->
  dealloc_values n i h items = Done h.
Proof.
  revert i. induction n as [|n IH]; intros i Hn Hnone; [done|]. cbn [dealloc_values].
  destruct (rd_lt items i) as (it & Hrd & Hit); [lia|]. rw Hrd. unbind.
  rw (Hnone i it Hit); [|done]. unbind. apply IH; [lia|]. intros j it' Hj Hi.
  apply (Hnone j it' Hj). lia.
Qed.

(** The items of a table are those of [m]; where they are does not matter. *)
Record holds (arrays : arrays_t) (t : ht_t) (a : ptr) (m : gmap key ptr) : Prop := {
  hd_ptr : t.(ht_items) = Some a;
  hd_items : exists items, arrays !! a = Some items /\ items_ok items m /\
    length items = Z.to_nat t.(ht_size) }.

Lemma ht_resize_spec h arrays t a m new_size a' :
  holds arrays t a m -> arrays !! a' = None -> 0 < new_size <= 2 ^ 16 ->
  (base.size m < Z.to_nat new_size)%nat ->
  exists items', ht_resize h arrays t new_size (Some a') =
    Done (h, <[a' := items']> (delete a arrays), mk_ht t.(ht_lock) (Some a') new_size (Z.of_nat (base.size m)), None) /\
    table_ok items' new_size m.
Proof.
  intros [Hp (items & Hi & Hok & Hlen)] Hfresh Hs Hsz.
  assert (a' <> a) as Hne by congruence.
  destruct (rehash_spec (length items) 0 items (zero_items new_size) new_size 0 ∅ m)
    as (old' & new' & Hrun & Hok' & Hlen' & Hold'); [lia|by apply zero_items_ok|by rw map_size_empty|
    by apply rehashing_start|done|].
  exists new'. split; [|done]. rw /ht_resize Hp. cbn [malloc ht_items ht_lock].
  rw (load_Some _ _ items); [|by rw lookup_insert_ne]. unbind. rw -Hlen Hrun. unbind.
  rw (store_Some _ _ _ items); [|by rw lookup_insert_ne]. unbind.
  rw (store_Some _ _ _ (zero_items new_size)); [|by rw lookup_insert_ne // lookup_insert_eq].
  unbind. rw /dealloc_items (load_Some _ _ old'); [|by rw lookup_insert_ne // lookup_insert_eq].
  unbind. rw -Hlen dealloc_values_none; [|lia|].
  2:{ intros j it Hj Hz. by apply (Hold' j it Hj). }
  unbind. rw (free_Some _ _ old'); [|by rw lookup_insert_ne // lookup_insert_eq].
  unbind. do 4 f_equal.
  apply map_eq. intros q. destruct (decide (q = a)) as [->|Hqa].
  - by rw lookup_delete_eq lookup_insert_ne // lookup_delete_eq.
  - rw lookup_delete_ne //. destruct (decide (q = a')) as [->|Hqa'].
    + by rw !lookup_insert_eq.
    + by rw !lookup_insert_ne // lookup_delete_ne.
Qed.

(** A table that is not locked stands for the map [m]: its capacity is a
    power of two up to [2^16], at most half of it and one more is used. *)
Record ht_rep (arrays : arrays_t) (t : ht_t) (m : gmap key ptr) : Prop := {
  rp_lock : t.(ht_lock) = Some false;
  rp_table : exists a items, t.(ht_items) = Some a /\ arrays !! a = Some items /\
    table_ok items t.(ht_size) m;
  rp_len : t.(ht_len) = Z.of_nat (base.size m);
  rp_load : t.(ht_len) <= t.(ht_size) / 2 + 1;
  rp_pow : exists e, 4 <= e <= 16 /\ t.(ht_size) = 2 ^ e }.

Lemma pow_range e : 4 <= e <= 16 -> 2 ^ 4 <= 2 ^ e <= 2 ^ 16 /\ 2 ^ e / 2 = 2 ^ (e - 1) /\ 2 ^ e = 2 * 2 ^ (e - 1).
Proof.
  intros He. split; [split; apply Z.pow_le_mono_r; lia|].
  assert (2 ^ e = 2 * 2 ^ (e - 1)) as E by (rw -Z.pow_succ_r; [|lia]; f_equal; lia).
  split; [|done]. rw E Z.mul_comm Z.div_mul //.
Qed.

(** The first half of [ht_put]: the lock is taken, and afterwards there is
    room for one more entry. *)
Lemma ht_put_room h arrays t m e_items :
  ht_rep arrays t m -> Z.of_nat (base.size m) <= 2 ^ 15 ->
  (exists a', e_items = Some a' /\ arrays !! a' = None) ->
  exists arrays' t' a items, (if t.(ht_size) / 2 <? t.(ht_len)
      then ht_resize h arrays (with_lock true t) (u64 (t.(ht_size) * 2)) e_items
      else Done (h, arrays, with_lock true t, None)) = Done (h, arrays', t', None) /\
    t' = mk_ht (Some true) (Some a) t'.(ht_size) (Z.of_nat (base.size m)) /\
    arrays' !! a = Some items /\ table_ok items t'.(ht_size) m /\
    Z.of_nat (base.size m) <= t'.(ht_size) / 2 /\ (exists e, 4 <= e <= 16 /\ t'.(ht_size) = 2 ^ e) /\
    base.size arrays' = base.size arrays /\
    (forall q, arrays !! q = None -> e_items <> Some q -> arrays' !! q = None).
Proof.
  intros [Hl (a & items & Ha & Hi & Hok) Hlen Hload (e & He & Hsz)] Hm (a' & -> & Hfresh).
  destruct (pow_range e He) as (Hr & Hhalf & Hdbl).
  destruct (Z.ltb_spec (t.(ht_size) / 2) t.(ht_len)) as [Hfull|Hroom].
  - rewrite -> Hlen, Hsz in *. rewrite -> Hhalf in *.
    assert (e <= 15) as He15.
    { destruct (decide (e = 16)) as [->|]; [|lia]. change (2 ^ (16 - 1)) with 32768 in Hfull. lia. }
    pose proof (proj1 (pow_range (e + 1) ltac:(lia))) as Hr1.
    assert (2 ^ (e + 1) = 2 ^ e * 2) as E1 by (rw Z.pow_add_r; lia).
    assert (u64 (2 ^ e * 2) = 2 ^ (e + 1)) as -> by (rw /u64 Z.mod_small; lia).
    destruct (ht_resize_spec h arrays (with_lock true t) a m (2 ^ (e + 1)) a') as (items' & Hrun & Hok'); try done; try lia.
    { split; [done|]. exists items. split; [done|]. destruct Hok as [Hik [_ Hll] _ _]. split; [done|]. cbn. by rw Hsz. }
    rw Hrun. do 4 eexists. split; [reflexivity|]. cbn [ht_size ht_lock with_lock].
    split; [done|]. split; [by apply lookup_insert_eq|]. split; [done|].
    split; [|split; [exists (e + 1); lia|]].
    + rw (proj1 (proj2 (pow_range (e + 1) ltac:(lia)))). replace (e + 1 - 1) with e by lia. lia.
    + split; [|intros q Hq Hne; rw lookup_insert_ne; [|congruence]; by apply lookup_delete_None; right].
      rw map_size_insert_None; [|by rw lookup_delete_ne; [|congruence]].
      rw map_size_delete_Some; [|by exists items].
      assert (0 < base.size arrays)%nat; [|lia]. apply Nat.neq_0_lt_0. intros Hz%map_size_empty_inv. by rw Hz in Hi.
  - exists arrays, (with_lock true t), a, items. split; [done|]. rw /with_lock Ha Hlen. cbn [ht_size]. rw Hlen in Hroom.
    split; [done|]. split; [done|]. split; [done|]. split; [done|]. split; [by exists e|done].
Qed.

Lemma ht_put_ok h arrays t m port ip v a' :
  ht_rep arrays t m -> key_ok (port, ip) -> Z.of_nat (base.size m) <= 2 ^ 15 -> arrays !! a' = None ->
  exists arrays' t', ht_put h arrays t port ip (Some v) (Some a') = Done (h, arrays', t', inr (m !! (port, ip))) /\
    ht_rep arrays' t' (<[(port, ip) := v]> m) /\ base.size arrays' = base.size arrays /\
    (forall q, arrays !! q = None -> q <> a' -> arrays' !! q = None).
Proof.
  intros Hrep Hk Hm Hfresh. pose proof (rp_lock _ _ _ Hrep) as Hl.
  destruct (ht_put_room h arrays t m (Some a') Hrep Hm ltac:(by exists a'))
    as (arrays1 & t1 & a & items & Hrun & Ht1 & Ha & Hok & Hroom & Hpow & Hsize & Hfr).
  rw /ht_put /lock_table Hl. cbn [mbind comp_bind mutex_lock]. rw Hrun. unbind.
  rw Ht1 /load_items. cbn [ht_items ht_size ht_len ht_lock]. rw (load_Some _ _ _ Ha). unbind.
  destruct Hpow as (e & He & Hsz). destruct (pow_range e He) as (Hr & Hhalf & Hdbl).
  pose proof Hroom as Hroom'. rewrite -> Hsz, Hhalf in Hroom'.
  assert (base.size (<[(port, ip) := v]> m) <= S (base.size m))%nat as Hle
    by (rw map_size_insert; destruct (m !! (port, ip)); cbn; lia).
  assert (exists items' len', put_item items t1.(ht_size) (Z.of_nat (base.size m)) port ip (Some v) =
    Done (items', len', m !! (port, ip)) /\ table_ok items' t1.(ht_size) (<[(port, ip) := v]> m) /\
    len' = Z.of_nat (base.size (<[(port, ip) := v]> m))) as (items' & len' & Hput & Hok' & Hlen').
  { destruct (m !! (port, ip)) as [v0|] eqn:E.
    - destruct (put_update items _ m (port, ip) v v0 (Z.of_nat (base.size m)) Hok Hk E) as (items' & Hput & Hok').
      exists items', (Z.of_nat (base.size m)). split; [done|]. split; [done|].
      by rw map_size_insert_Some; [|by exists v0].
    - destruct (put_new items _ m (port, ip) v (Z.of_nat (base.size m)) Hok Hk E) as (items' & Hput & Hok');
        [rw Hsz; lia|].
      exists items', (u64 (Z.of_nat (base.size m) + 1)). split; [done|]. split; [done|].
      rw map_size_insert_None // /u64 Z.mod_small; lia. }
  rw Hput. unbind. rw (store_Some _ _ _ _ Ha). cbn [mbind comp_bind unlock_table ht_lock mutex_unlock].
  do 2 eexists. split; [reflexivity|]. cbn [with_lock ht_items ht_size ht_len]. split.
  - split; cbn [ht_lock ht_items ht_size ht_len with_lock]; try done; [| |by exists e].
    + exists a, items'. by rw lookup_insert_eq.
    + rw Hlen'. lia.
  - split; [rw map_size_insert_Some //|]. intros q Hq Hne. rw lookup_insert_ne; [apply Hfr; congruence|].
    intros <-. rewrite -> (Hfr a Hq ltac:(congruence)) in Ha. done.
Qed.

Lemma ht_remove_ok h arrays t m port ip a1 a2 :
  ht_rep arrays t m -> key_ok (port, ip) -> Z.of_nat (base.size m) <= 2 ^ 15 ->
  arrays !! a1 = None -> arrays !! a2 = None -> a1 <> a2 ->
  exists arrays' t', ht_remove h arrays t port ip (Some a1) (Some a2) = Done (h, arrays', t', m !! (port, ip)) /\
    ht_rep arrays' t' (delete (port, ip) m) /\ base.size arrays' = base.size arrays /\
    (forall q, arrays !! q = None -> q <> a1 -> q <> a2 -> arrays' !! q = None).
Proof.
  intros Hrep Hk Hm Hf1 Hf2 Hne. pose proof (rp_lock _ _ _ Hrep) as Hl.
  destruct (ht_put_room h arrays t m (Some a1) Hrep Hm ltac:(by exists a1))
    as (arrays1 & t1 & a & items & Hrun & Ht1 & Ha & Hok & Hroom & (e & He & Hsz) & Hsize & Hfr).
  destruct (pow_range e He) as (Hr & Hhalf & Hdbl).
  pose proof (Hfr a2 Hf2 ltac:(congruence)) as Hfresh.
  pose proof Hroom as Hroom'. rewrite -> Hsz, Hhalf in Hroom'.
  assert (base.size (delete (port, ip) m) <= base.size m)%nat as Hle
    by (apply map_subseteq_size, delete_subseteq).
  rw /ht_remove /ht_put /lock_table Hl. cbn [mbind comp_bind mutex_lock]. rw Hrun. unbind.
  rw Ht1 /load_items. cbn [ht_items ht_size ht_len ht_lock]. rw (load_Some _ _ _ Ha). unbind.
  destruct (m !! (port, ip)) as [v0|] eqn:E.
  - destruct (put_null_present items _ m (port, ip) v0 (Z.of_nat (base.size m)) Hok Hk E)
      as (items' & Hput & Hik & Hlen'). cbn [fst snd] in Hput.
    rw Hput. unbind. rw (store_Some _ _ _ _ Ha).
    cbn [mbind comp_bind unlock_table ht_lock mutex_unlock with_lock ht_items ht_size ht_len].
    destruct (ht_resize_spec h (<[a := items']> arrays1)
      (mk_ht (Some false) (Some a) t1.(ht_size) (u64 (Z.of_nat (base.size m) - 1))) a (delete (port, ip) m)
      t1.(ht_size) a2) as (items2 & Hres & Hok2).
    + split; [done|]. exists items'. rw lookup_insert_eq Hlen'. destruct (tk_size _ _ _ Hok) as [_ ->]. done.
    + rw lookup_insert_ne //. intros ->. congruence.
    + lia.
    + rw Hsz. lia.
    + cbn [ht_lock] in Hres. rw Hres. unbind. do 2 eexists. split; [reflexivity|]. split.
      { split; cbn [ht_lock ht_items ht_size ht_len]; try done; [| |by exists e].
        - exists a2, items2. by rw lookup_insert_eq.
        - lia. }
      rw delete_insert_eq. split.
      * rw map_size_insert_None; [|by rw lookup_delete_None; right].
        rw map_size_delete_Some; [|by exists items]. rw -Hsize.
        assert (base.size arrays1 <> 0)%nat; [|lia]. intros Hz%map_size_empty_inv. by rw Hz in Ha.
      * intros q Hq Hq1 Hq2. rw lookup_insert_ne; [|congruence].
        apply lookup_delete_None. right. apply Hfr; congruence.
  - destruct (put_null_absent items _ m (port, ip) (Z.of_nat (base.size m)) Hok Hk E)
      as (items' & Hput & Hok'). cbn [fst snd] in Hput.
    rw Hput. unbind. rw (store_Some _ _ _ _ Ha).
    cbn [mbind comp_bind unlock_table ht_lock mutex_unlock with_lock ht_items ht_size ht_len].
    do 2 eexists. split; [reflexivity|]. rw delete_id //. split.
    { split; cbn [ht_lock ht_items ht_size ht_len]; try done; [| |by exists e].
      - exists a, items'. by rw lookup_insert_eq.
      - cbn. lia. }
    split; [rw map_size_insert_Some //|]. intros q Hq Hq1 Hq2.
    rw lookup_insert_ne; [apply Hfr; congruence|].
    intros <-. rewrite -> (Hfr a Hq ltac:(congruence)) in Ha. done.
Qed.

Lemma ht_get_ok arrays t m port ip :
  ht_rep arrays t m -> key_ok (port, ip) ->
  ht_get arrays t port ip = Done (t, m !! (port, ip)).
Proof.
  intros [Hl (a & items & Ha & Hi & Hok) Hlen Hload Hpow] Hk.
  rw /ht_get /lock_table Hl. cbn [mbind comp_bind mutex_lock]. rw /load_items. cbn [ht_items with_lock ht_size].
  rw Ha (load_Some _ _ _ Hi). unbind.
  assert (with_lock false (with_lock true t) = t) as Ht by (destruct t; cbn in *; by rw Hl).
  destruct (m !! (port, ip)) as [v|] eqn:E.
  - destruct (find_present _ _ _ _ _ Hok Hk E) as (i & it & Hf & Hit & _ & Hv & _). cbn [fst snd] in Hf.
    rw Hf. unbind. rw (proj2 (rd_Done _ _ _) Hit) /unlock_table. cbn. by rw Hv -{2}Ht.
  - destruct (find_absent _ _ _ _ Hok Hk E) as (d & it & Hf & _ & Hit & _). cbn [fst snd] in Hf, Hit.
    rw Hf. unbind. rw (proj2 (rd_Done _ _ _) Hit) /unlock_table. cbn. by rw -{2}Ht.
Qed.

(** ** Properties *)

(** C26: [ht_get] looks up the map.  For a table in use, searching any port
    and address ends (the probing finds the entry or a free item), inside
    the array, with the lock free again, and returns the client of that
    port and address, or null when there is none. *)
Theorem ht_get_refines arrays t m port ip :
  ht_rep arrays t m -> key_ok (port, ip) ->
  ht_get arrays t port ip = Done (t, m !! (port, ip)).
Proof. apply ht_get_ok. Qed.

(** C13: [ht_put] inserts into the map.  With up to 32768 entries and memory
    for a larger array, storing a client ends with the lock free, returns
    the client that was stored for that port and address (null if none),
    leaves a table that stands for the map with the new entry, whether it
    had to be doubled or not, frees no client and leaks no array. *)
Theorem ht_put_refines h arrays t m port ip v a' :
  ht_rep arrays t m -> key_ok (port, ip) -> Z.of_nat (base.size m) <= 2 ^ 15 -> arrays !! a' = None ->
  exists arrays' t', ht_put h arrays t port ip (Some v) (Some a') = Done (h, arrays', t', inr (m !! (port, ip))) /\
    ht_rep arrays' t' (<[(port, ip) := v]> m) /\ base.size arrays' = base.size arrays.
Proof.
  intros Hrep Hk Hm Hfresh. destruct (ht_put_ok h arrays t m port ip v a' Hrep Hk Hm Hfresh)
    as (arrays' & t' & H1 & H2 & H3 & _). by exists arrays', t'.
Qed.

(** C14: [ht_remove] deletes from the map.  With up to 32768 entries and
    memory for the two arrays (a larger one if the table is more than half
    full, then one for entering the items again; without the second see
    ht_remove_no_memory), it returns the client stored for
    the port and address (null if there is none) and leaves a table that
    stands for the map without it: entering all items again closes the gap
    that a cleared item would leave in the probing of the others.  The
    client itself is not freed, and no array is leaked. *)
Theorem ht_remove_refines h arrays t m port ip a1 a2 :
  ht_rep arrays t m -> key_ok (port, ip) -> Z.of_nat (base.size m) <= 2 ^ 15 ->
  arrays !! a1 = None -> arrays !! a2 = None -> a1 <> a2 ->
  exists arrays' t', ht_remove h arrays t port ip (Some a1) (Some a2) = Done (h, arrays', t', m !! (port, ip)) /\
    ht_rep arrays' t' (delete (port, ip) m) /\ base.size arrays' = base.size arrays.
Proof.
  intros Hrep Hk Hm Hf1 Hf2 Hne. destruct (ht_remove_ok h arrays t m port ip a1 a2 Hrep Hk Hm Hf1 Hf2 Hne)
    as (arrays' & t' & H1 & H2 & H3 & _). by exists arrays', t'.
Qed.

(** a table that cannot grow.  When a table is more than half full and
    there is no memory for a larger array, [ht_put] reports the failure
    with the lock held and the items gone: every later [ht_get] waits for
    ever, and the old array stays allocated without a reference to it. *)
Theorem ht_put_no_memory h arrays t m port ip item a items port' ip' :
  ht_rep arrays t m -> t.(ht_size) / 2 < t.(ht_len) -> t.(ht_items) = Some a -> arrays !! a = Some items ->
  exists t', ht_put h arrays t port ip item None = Done (h, arrays, t', inl FAILED_TO_RESIZE) /\
    t'.(ht_items) = None /\ ht_length t' = 0 /\ arrays !! a = Some items /\
    ht_get arrays t' port' ip' = Stuck Deadlock.
Proof.
  intros [Hl _ _ _ _] Hfull Ha Hi.
  rw /ht_put /lock_table Hl. cbn [mbind comp_bind mutex_lock with_lock ht_size ht_len].
  destruct (Z.ltb_spec (t.(ht_size) / 2) t.(ht_len)); [|lia]. cbn [ht_resize malloc mbind comp_bind].
  eexists. split; [reflexivity|]. done.
Qed.

(** a removal without memory for the new array.  [ht_remove] still
    returns the client, but every other client is lost: the table is left
    without items, and the next [ht_get] dereferences a null pointer. *)
Theorem ht_remove_no_memory h arrays t m port ip v a1 port' ip' :
  ht_rep arrays t m -> key_ok (port, ip) -> Z.of_nat (base.size m) <= 2 ^ 15 -> arrays !! a1 = None ->
  m !! (port, ip) = Some v ->
  exists arrays' t', ht_remove h arrays t port ip (Some a1) None = Done (h, arrays', t', Some v) /\
    t'.(ht_items) = None /\ ht_length t' = 0 /\ ht_get arrays' t' port' ip' = Stuck UB.
Proof.
  intros Hrep Hk Hm Hf1 E. pose proof (rp_lock _ _ _ Hrep) as Hl.
  destruct (ht_put_room h arrays t m (Some a1) Hrep Hm ltac:(by exists a1))
    as (arrays1 & t1 & a & items & Hrun & Ht1 & Ha & Hok & _ & _ & _ & _).
  rw /ht_remove /ht_put /lock_table Hl. cbn [mbind comp_bind mutex_lock]. rw Hrun. unbind.
  rw Ht1 /load_items. cbn [ht_items ht_size ht_len ht_lock]. rw (load_Some _ _ _ Ha). unbind.
  destruct (put_null_present items _ m (port, ip) v (Z.of_nat (base.size m)) Hok Hk E)
    as (items' & Hput & _ & _). cbn [fst snd] in Hput.
  rw Hput. unbind. rw (store_Some _ _ _ _ Ha).
  cbn [mbind comp_bind unlock_table ht_lock mutex_unlock with_lock ht_items ht_size ht_len ht_resize malloc].
  do 2 eexists. split; [reflexivity|]. done.
Qed.

Lemma empty_rep arrays a :
  ht_rep (<[a := zero_items INITIAL_SIZE]> arrays) (mk_ht (Some false) (Some a) INITIAL_SIZE 0) ∅.
Proof.
  split; cbn [ht_lock ht_items ht_size ht_len]; rw /INITIAL_SIZE; try done.
  - exists a, (zero_items 16). rw lookup_insert_eq. split; [done|]. split; [done|]. by apply zero_items_ok.
  - by exists 4.
Qed.

(** a new table is the empty map; when one of the three calls of
    [allocate_ht] fails it reports that and leaves no array behind. *)
Theorem allocate_ht_spec arrays e_items e_mutex mutex_fails :
  fresh_in arrays e_items ->
  match allocate_ht arrays e_items e_mutex mutex_fails with
  | Done (arrays', t, None) => ht_rep arrays' t ∅ /\ is_Some e_items /\ is_Some e_mutex /\ mutex_fails = false
  | Done (arrays', t, Some e) => e = FAILED_TO_ALLOCATE /\ arrays' = arrays /\
      (e_items = None \/ e_mutex = None \/ mutex_fails = true)
  | Stuck _ => False
  end.
Proof.
  intros Hfresh. rw /allocate_ht. destruct e_items as [a|]; cbn in Hfresh |- *; [|by auto].
  destruct e_mutex as [l|]; [destruct mutex_fails|];
    rw ?lookup_insert_eq; cbn; rw ?delete_insert_eq ?(delete_id _ _ Hfresh); auto.
  split; [apply empty_rep|eauto].
Qed.

Lemma allocate_ht_spec_witness :
  ht_rep (<[7%positive := zero_items INITIAL_SIZE]> ∅) (mk_ht (Some false) (Some 7%positive) INITIAL_SIZE 0) ∅ /\
  is_Some (Some 7%positive) /\ is_Some (Some 8%positive) /\ false = false.
Proof. exact (allocate_ht_spec ∅ (Some 7%positive) (Some 8%positive) false eq_refl). Defined.

(** ** Concrete tables *)

Definition test_ip : list Z := replicate 16 1.
Definition test_key (n : nat) : key := (Z.of_nat n, test_ip).

(** Tables with the clients of [n] ports, and what they stand for. *)
Fixpoint put_ports (n : nat) : comp (arrays_t * ht_t) :=
  match n with
  | O => Done (<[7%positive := zero_items INITIAL_SIZE]> ∅, mk_ht (Some false) (Some 7%positive) INITIAL_SIZE 0)
  | S n =>
      '(arrays, t) ← put_ports n;
      '(_, arrays, t, _) ←
        ht_put heap0 arrays t (Z.of_nat n) test_ip (Some (Pos.of_succ_nat n)) (Some (100 + Pos.of_succ_nat n)%positive);
      Done (arrays, t)
  end.
Definition ports (n : nat) : gmap key ptr := list_to_map ((fun i => (test_key i, Pos.of_succ_nat i)) <$> rev (seq 0 n)).

Lemma ports_S n : ports (S n) = <[test_key n := Pos.of_succ_nat n]> (ports n).
Proof. by rw /ports seq_S rev_app_distr. Qed.

Lemma put_ports_rep n :
  (n <= 2 ^ 10)%nat ->
  exists arrays t, put_ports n = Done (arrays, t) /\ ht_rep arrays t (ports n) /\
    forall q, (100 + Pos.of_succ_nat n <= q)%positive -> arrays !! q = None.
Proof.
  change (2 ^ 10)%nat with 1024%nat.
  induction n as [|n IH]; intros Hn.
  { do 2 eexists. split; [reflexivity|]. split; [apply empty_rep|]. intros q Hq.
    rw lookup_insert_ne //. lia. }
  destruct IH as (arrays & t & Hrun & Hrep & Hfree); [lia|].
  assert (Z.of_nat (base.size (ports n)) <= 2 ^ 15) as Hsz.
  { clear -Hn. assert (base.size (ports n) <= n)%nat; [|lia]. clear Hn. induction n as [|n IH]; [done|].
    rw ports_S map_size_insert. destruct (_ !! _); cbn; lia. }
  destruct (ht_put_ok heap0 arrays t (ports n) (Z.of_nat n) test_ip (Pos.of_succ_nat n)
    (100 + Pos.of_succ_nat n)%positive Hrep) as (arrays' & t' & Hput & Hrep' & _ & Hfr);
    [split; cbn; [lia|done]|done|by apply Hfree|].
  exists arrays', t'. cbn [put_ports]. rw Hrun. unbind. rw Hput. split; [done|].
  rw ports_S. split; [exact Hrep'|]. intros q Hq. apply Hfr; [apply Hfree; lia|lia].
Qed.

Lemma ports_size : base.size (ports 9) = 9%nat.
Proof. vm_compute. reflexivity. Qed.

Lemma test_key_ok n : (n < 2 ^ 10)%nat -> key_ok (Z.of_nat n, test_ip).
Proof. change (2 ^ 10)%nat with 1024%nat. split; cbn; [lia|done]. Qed.

Lemma ht_get_refines_witness :
  exists arrays t, put_ports 9 = Done (arrays, t) /\
    ht_get arrays t 4 test_ip = Done (t, Some 5%positive) /\ ht_get arrays t 20 test_ip = Done (t, None).
Proof.
  destruct (put_ports_rep 9) as (arrays & t & Hrun & Hrep & _); [cbn; lia|].
  exists arrays, t. split; [exact Hrun|]. split.
  - rw (ht_get_refines arrays t (ports 9) 4 test_ip Hrep (test_key_ok 4 ltac:(cbn; lia))). reflexivity.
  - rw (ht_get_refines arrays t (ports 9) 20 test_ip Hrep (test_key_ok 20 ltac:(cbn; lia))). reflexivity.
Defined.

(** The tenth entry doubles the table. *)
Lemma ht_put_refines_witness :
  exists arrays t, put_ports 9 = Done (arrays, t) /\
  exists arrays' t', ht_put heap0 arrays t 99 test_ip (Some 77%positive) (Some 200%positive) =
      Done (heap0, arrays', t', inr None) /\
    ht_rep arrays' t' (<[(99, test_ip) := 77%positive]> (ports 9)) /\ base.size arrays' = base.size arrays.
Proof.
  destruct (put_ports_rep 9) as (arrays & t & Hrun & Hrep & Hfree); [cbn; lia|].
  exists arrays, t. split; [exact Hrun|].
  apply (ht_put_refines heap0 arrays t (ports 9) 99 test_ip 77%positive 200%positive Hrep);
    [exact (test_key_ok 99 ltac:(cbn; lia))|rw ports_size; lia|apply Hfree; lia].
Defined.

Lemma ht_remove_refines_witness :
  exists arrays t, put_ports 9 = Done (arrays, t) /\
  exists arrays' t', ht_remove heap0 arrays t 4 test_ip (Some 200%positive) (Some 201%positive) =
      Done (heap0, arrays', t', Some 5%positive) /\
    ht_rep arrays' t' (delete (4, test_ip) (ports 9)) /\ base.size arrays' = base.size arrays.
Proof.
  destruct (put_ports_rep 9) as (arrays & t & Hrun & Hrep & Hfree); [cbn; lia|].
  exists arrays, t. split; [exact Hrun|].
  apply (ht_remove_refines heap0 arrays t (ports 9) 4 test_ip 200%positive 201%positive Hrep);
    [exact (test_key_ok 4 ltac:(cbn; lia))|rw ports_size; lia|apply Hfree; lia|apply Hfree; lia|done].
Defined.

Lemma ht_put_no_memory_witness :
  exists arrays t a items, put_ports 9 = Done (arrays, t) /\
  exists t', ht_put heap0 arrays t 99 test_ip (Some 77%positive) None = Done (heap0, arrays, t', inl FAILED_TO_RESIZE) /\
    t'.(ht_items) = None /\ ht_length t' = 0 /\ arrays !! a = Some items /\
    ht_get arrays t' 4 test_ip = Stuck Deadlock.
Proof.
  destruct (put_ports_rep 9) as (arrays & t & Hrun & Hrep & _); [cbn; lia|].
  destruct (rp_table _ _ _ Hrep) as (a & items & Ha & Hi & _).
  exists arrays, t, a, items. split; [exact Hrun|].
  apply (ht_put_no_memory heap0 arrays t (ports 9) 99 test_ip (Some 77%positive) a items 4 test_ip Hrep);
    [|exact Ha|exact Hi].
  rw (rp_len _ _ _ Hrep) ports_size.
  assert (t.(ht_size) = 16) as ->; [|done].
  apply (f_equal (fun r => match r with Done (_, t) => t.(ht_size) | Stuck _ => 0 end)) in Hrun.
  rw -Hrun. vm_compute. reflexivity.
Defined.

Lemma ht_remove_no_memory_witness :
  exists arrays t, put_ports 9 = Done (arrays, t) /\
  exists arrays' t', ht_remove heap0 arrays t 4 test_ip (Some 200%positive) None = Done (heap0, arrays', t', Some 5%positive) /\
    t'.(ht_items) = None /\ ht_length t' = 0 /\ ht_get arrays' t' 3 test_ip = Stuck UB.
Proof.
  destruct (put_ports_rep 9) as (arrays & t & Hrun & Hrep & Hfree); [cbn; lia|].
  exists arrays, t. split; [exact Hrun|].
  apply (ht_remove_no_memory heap0 arrays t (ports 9) 4 test_ip 5%positive 200%positive 3 test_ip Hrep);
    [exact (test_key_ok 4 ltac:(cbn; lia))|rw ports_size; lia|apply Hfree; lia|reflexivity].
Defined.
