(* ===== verification/Protocol.v ===== *)
(** * Protocol: the receiving side as a state machine on sequence numbers

    This is what the handler is meant to do, without buffers, pointers or
    bytes: a state is the next sequence number [x_low], the packets
    received ahead of it, and the data delivered so far; the events are
    decoded datagrams.  [rx_step] handles a batch of them.  The handler is
    proved to implement it; here the state machine itself is proved to
    deliver what a sender sent, in order and exactly once. *)

From S2P Require Import Prelude Global Lookup Packet.

(** ** Events, states and replies *)

(** Timestamp and payload of a stored packet. *)
Definition chunk : Type := (Z * list Z)%type.

Inductive event : Type :=
| Bad                                               (* not a valid packet *)
| Other (timestamp : Z)                             (* a packet that is not DATA *)
| Truncated (seqnum timestamp : Z)                  (* DATA without its payload *)
| Data (seqnum timestamp : Z) (payload : list Z).

Record rx_state := mk_rx {
  x_active : bool;
  x_low : Z;
  x_pending : gmap Z chunk;
  x_file : list Z;
  x_timestamp : Z;
  x_transferred : Z }.

Record reply_t := mk_reply {
  a_type : ptype_t; a_seqnum : Z; a_window : Z; a_timestamp : Z }.

(** The advertised window: the configured maximum or the free places. *)
Definition advertised (max used : Z) : Z := u8 (Z.min max (MAX_WINDOW_SIZE - used)).

Definition ack (max low : Z) (pending : gmap Z chunk) (timestamp : Z) : reply_t :=
  mk_reply ACK low (advertised max (Z.of_nat (size pending))) timestamp.

(** The refusal of a truncated packet.  Its window is computed from the
    window's lowest sequence number, not from the number of stored packets. *)
Definition nack (max low seqnum timestamp : Z) : reply_t :=
  mk_reply NACK seqnum (advertised max low) timestamp.

(** ** One event

    [pending] and [ts] change from event to event, the rest does not. *)
Definition rx_event (max : Z) (x : rx_state) (pt : gmap Z chunk * Z) (ev : event)
    : gmap Z chunk * Z * list reply_t :=
  let '(pending, ts) := pt in
  match ev with
  | Bad => (pending, ts, [ack max x.(x_low) pending x.(x_timestamp)])
  | Other t => (pending, t, if x.(x_active) then [] else [ack max x.(x_low) pending t])
  | Truncated s t =>
      (pending, t, [if x.(x_active) then nack max x.(x_low) s t else ack max x.(x_low) pending t])
  | Data s t payload =>
      if x.(x_active) && in_window x.(x_low) s && bool_decide (pending !! s = None)
      then (<[s := (t, payload)]> pending, t, [])
      else (pending, t, [ack max x.(x_low) pending t])
  end.

Fixpoint rx_events (max : Z) (x : rx_state) (pt : gmap Z chunk * Z) (evs : list event)
    : gmap Z chunk * Z * list reply_t :=
  match evs with
  | [] => (pt, [])
  | ev :: evs =>
      let '(pt, rs) := rx_event max x pt ev in
      let '(pt, rs') := rx_events max x pt evs in
      (pt, rs ++ rs')
  end.

(** ** Delivery *)

(** The sequence number [k] places behind [low]. *)
Definition seq_at (low : Z) (k : nat) : Z := (low + Z.of_nat k) mod 2 ^ 8.

(** The stored packets from [low] on without a gap, [n] at most; an empty
    payload is the end of the file and stops the run. *)
Fixpoint next_chunks (n : nat) (low : Z) (pending : gmap Z chunk) : list chunk :=
  match n with
  | O => []
  | S n =>
      match pending !! low with
      | None => []
      | Some (ts, []) => [(ts, [])]
      | Some c => c :: next_chunks n (seq_at low 1) pending
      end
  end.

Definition contents (cs : list chunk) : list Z := concat (snd <$> cs).

Definition ends_file (cs : list chunk) : bool :=
  match last cs with Some (_, []) => true | _ => false end.

(** [n] sequence numbers from [low] on are not pending any more. *)
Fixpoint forget (n : nat) (low : Z) (pending : gmap Z chunk) : gmap Z chunk :=
  match n with
  | O => pending
  | S n => forget n (seq_at low 1) (delete low pending)
  end.

(** The state after the chunks [cs], the last one with timestamp [ts]. *)
Definition rx_delivered (x : rx_state) (cs : list chunk) (ts : Z) : rx_state :=
  mk_rx (x.(x_active) && negb (ends_file cs)) (seq_at x.(x_low) (length cs))
    (forget (length cs) x.(x_low) x.(x_pending)) (x.(x_file) ++ contents cs) ts
    (u64 (x.(x_transferred) + Z.of_nat (length (contents cs)))).

Definition rx_deliver (max : Z) (x : rx_state) : rx_state * list reply_t :=
  let cs := next_chunks (Z.to_nat MAX_WINDOW_SIZE) x.(x_low) x.(x_pending) in
  match last cs with
  | None => (x, [])
  | Some (ts, _) =>
      let x' := rx_delivered x cs ts in (x', [ack max x'.(x_low) x'.(x_pending) ts])
  end.

(** A batch: all events, then one delivery.  The timestamp of the last
    event is kept only within the batch. *)
Definition rx_step (max : Z) (x : rx_state) (evs : list event) : rx_state * list reply_t :=
  let '(pending, _, rs) := rx_events max x (x.(x_pending), x.(x_timestamp)) evs in
  let '(x', rs') :=
    rx_deliver max (mk_rx x.(x_active) x.(x_low) pending x.(x_file) x.(x_timestamp) x.(x_transferred)) in
  (x', rs ++ rs').

(** ** Lemmas on sequence numbers *)

Lemma seq_at_range low k : is_u8 (seq_at low k).
Proof. by apply Z.mod_pos_bound. Qed.

Lemma seq_at_0 low : is_u8 low -> seq_at low 0 = low.
Proof. intros. rw /seq_at Z.add_0_r Z.mod_small //. Qed.

Lemma seq_at_seq_at low j k : seq_at (seq_at low j) k = seq_at low (j + k).
Proof. rw /seq_at Zplus_mod_idemp_l. f_equal. lia. Qed.

Lemma seq_at_inj low j k :
  (j < 256)%nat -> (k < 256)%nat -> seq_at low j = seq_at low k -> j = k.
Proof. rw /seq_at. intros. divmod. Qed.

Lemma seq_at_in_window low k : (k < 31)%nat -> in_window low (seq_at low k) = true.
Proof. intros. rw /in_window /MAX_WINDOW_SIZE /seq_at Z.ltb_lt. divmod. Qed.

Lemma in_window_seq_at low s :
  is_u8 s -> in_window low s = true -> exists k, (k < 31)%nat /\ s = seq_at low k.
Proof.
  intros Hs H%in_window_offset; [|done]. destruct H as (k & Hk & ->). rw /MAX_WINDOW_SIZE in Hk.
  exists (Z.to_nat k). rw /seq_at Z2Nat.id; lia.
Qed.

(** ** Lemmas on delivery *)

Lemma forget_None n low pending s : pending !! s = None -> forget n low pending !! s = None.
Proof.
  revert low pending. induction n as [|n IH]; [done|]. intros low pending H. apply IH.
  by apply lookup_delete_None; right.
Qed.

Lemma forget_gone n low pending k :
  is_u8 low -> (k < n)%nat -> forget n low pending !! seq_at low k = None.
Proof.
  revert low pending k. induction n as [|n IH]; [lia|]. intros low pending k Hlow Hk. cbn [forget].
  destruct k as [|k].
  - apply forget_None. by rw seq_at_0 // lookup_delete_eq.
  - replace (seq_at low (S k)) with (seq_at (seq_at low 1) k) by by rw seq_at_seq_at.
    apply IH; [apply seq_at_range|lia].
Qed.

Lemma forget_kept n low pending s :
  is_u8 low -> (forall k, (k < n)%nat -> s <> seq_at low k) -> forget n low pending !! s = pending !! s.
Proof.
  revert low pending. induction n as [|n IH]; [done|]. intros low pending Hlow H. cbn [forget].
  rw IH; [|apply seq_at_range|].
  - apply lookup_delete_ne. intros Heq. apply (H 0%nat); [lia|]. by rw seq_at_0.
  - intros k Hk. rw seq_at_seq_at. apply H. lia.
Qed.

Lemma forget_Some n low pending s c :
  is_u8 low -> forget n low pending !! s = Some c ->
  pending !! s = Some c /\ forall k, (k < n)%nat -> s <> seq_at low k.
Proof.
  intros Hlow H. assert (forall k, (k < n)%nat -> s <> seq_at low k) as Hne.
  { intros k Hk ->. by rw forget_gone in H. }
  split; [|done]. by rw forget_kept in H.
Qed.

Lemma next_chunks_length n low pending : (length (next_chunks n low pending) <= n)%nat.
Proof.
  revert low. induction n as [|n IH]; [done|]. intros low. cbn [next_chunks].
  destruct (pending !! low) as [[ts [|b p]]|]; cbn [length]; [lia| |lia].
  specialize (IH (seq_at low 1)). lia.
Qed.

Lemma next_chunks_lookup n low pending k c :
  is_u8 low -> next_chunks n low pending !! k = Some c -> pending !! seq_at low k = Some c.
Proof.
  revert low k. induction n as [|n IH]; [done|]. intros low k Hlow. cbn [next_chunks].
  destruct (pending !! low) as [[ts p]|] eqn:E; [|done].
  destruct k as [|k].
  - rw seq_at_0 // E. by destruct p.
  - destruct p as [|b p]; [done|]. cbn [lookup list_lookup]. intros H%IH; [|apply seq_at_range].
    by rw -H seq_at_seq_at.
Qed.

(** Pending packets that lie in a window are at most 31. *)
Lemma pending_size low (pending : gmap Z chunk) :
  (forall s c, pending !! s = Some c -> is_u8 s /\ in_window low s = true) -> (size pending <= 31)%nat.
Proof.
  intros H. rw -size_dom.
  trans (size (list_to_set (seq_at low <$> seq 0 31) : gset Z)).
  - apply subseteq_size. intros s [c Hc]%elem_of_dom. apply elem_of_list_to_set, list_elem_of_fmap.
    destruct (H s c Hc) as [Hs Hw]. destruct (in_window_seq_at low s Hs Hw) as (k & Hk & ->).
    exists k. split; [done|]. apply elem_of_seq. lia.
  - rw size_list_to_set; [by rw length_fmap length_seq|].
    apply NoDup_fmap_2_strong; [|apply NoDup_seq]. intros j k Hj%elem_of_seq Hk%elem_of_seq.
    apply seq_at_inj; lia.
Qed.

Lemma forget_size n low pending cs :
  is_u8 low -> (n <= 256)%nat -> length cs = n ->
  (forall k c, cs !! k = Some c -> pending !! seq_at low k = Some c) ->
  (size (forget n low pending) + n = size pending)%nat.
Proof.
  intros Hlow Hn <- H. revert low pending Hlow H Hn. induction cs as [|c cs IH]; intros low pending Hlow H Hn.
  { cbn. lia. }
  assert (pending !! low = Some c) as Hc by by rw -(H 0%nat c) // seq_at_0.
  assert (0 < size pending)%nat as Hpos.
  { apply Nat.neq_0_lt_0. intros Hz%map_size_empty_inv. by rw Hz in Hc. }
  cbn [length forget] in Hn |- *.
  assert (size (forget (length cs) (seq_at low 1) (delete low pending)) + length cs =
    size (delete low pending))%nat as E.
  { apply IH; [apply seq_at_range| |lia].
    intros k c' Hk. rw seq_at_seq_at lookup_delete_ne; [by apply (H (S k))|].
    rw -{1}(seq_at_0 low Hlow). intros Heq%seq_at_inj; [lia|lia|].
    apply lookup_lt_Some in Hk. lia. }
  rewrite -> map_size_delete_Some in E; [lia|by exists c].
Qed.

(** ** What a transfer delivers

    The sender numbers its payloads [data 0], [data 1], ... [data N]; the
    last one, and no other, is empty.  Packet [n] carries the sequence
    number [n] modulo 256. *)

Definition seq_of (n : nat) : Z := Z.of_nat n mod 2 ^ 8.

Lemma seq_of_range n : is_u8 (seq_of n).
Proof. by apply Z.mod_pos_bound. Qed.

Lemma seq_at_seq_of k j : seq_at (seq_of k) j = seq_of (k + j).
Proof. rw /seq_at /seq_of Zplus_mod_idemp_l. f_equal. lia. Qed.

Section transfer.
Context (data : nat -> list Z) (N : nat) (max : Z).

(** The packets that can arrive when [k] payloads have been delivered: any
    packet of the sender that is not older than 225 packets and not newer
    than 255, in any order and any number of times; and anything that is
    not valid untruncated DATA. *)
Definition genuine (k : nat) (ev : event) : Prop :=
  match ev with
  | Data s _ p => exists n, (n <= N)%nat /\ (k <= n + 225)%nat /\ (n < k + 256)%nat /\
                            s = seq_of n /\ p = data n
  | _ => True
  end.

(** The number of payloads a batch delivers. *)
Definition rx_count (x : rx_state) (evs : list event) : nat :=
  let '(pending, _, _) := rx_events max x (x.(x_pending), x.(x_timestamp)) evs in
  length (next_chunks (Z.to_nat MAX_WINDOW_SIZE) x.(x_low) pending).

Definition rx_init : rx_state := mk_rx true 0 ∅ [] 0 0.

(** The states of the receiver, with the number of payloads delivered. *)
Inductive rx_reach : nat -> rx_state -> Prop :=
| reach_init : rx_reach 0 rx_init
| reach_step k x evs x' rs :
    rx_reach k x -> Forall (genuine k) evs -> rx_step max x evs = (x', rs) ->
    rx_reach (k + rx_count x evs) x'.

(** Every stored packet is one of the sender's, ahead of the [k] delivered. *)
Definition pending_inv (k : nat) (pending : gmap Z chunk) : Prop :=
  forall s c, pending !! s = Some c ->
    exists n, (k <= n < k + 31)%nat /\ (n <= N)%nat /\ s = seq_of n /\ c.2 = data n.

Record rx_inv (k : nat) (x : rx_state) : Prop := {
  inv_low : x.(x_low) = seq_of k;
  inv_count : (k <= S N)%nat;
  inv_file : x.(x_file) = concat (data <$> seq 0 k);
  inv_active : x.(x_active) = bool_decide (k <= N)%nat;
  inv_transferred : x.(x_transferred) = u64 (Z.of_nat (length x.(x_file)));
  inv_pending : pending_inv k x.(x_pending) }.

Lemma genuine_in_window k n :
  (k <= n + 225)%nat -> (n < k + 256)%nat -> in_window (seq_of k) (seq_of n) = true ->
  (k <= n < k + 31)%nat.
Proof. rw /in_window /seq_of /MAX_WINDOW_SIZE Z.ltb_lt. intros. divmod. Qed.

Lemma rx_event_inv k x pt ev :
  x.(x_low) = seq_of k -> pending_inv k pt.1 -> genuine k ev ->
  pending_inv k (rx_event max x pt ev).1.1 /\ (forall s c, pt.1 !! s = Some c ->
    (rx_event max x pt ev).1.1 !! s = Some c).
Proof.
  destruct pt as [pending ts]. intros Hlow Hinv Hg.
  destruct ev as [|t|s t|s t p]; cbn; try done.
  destruct (x.(x_active) && in_window x.(x_low) s && bool_decide (pending !! s = None)) eqn:E; [|done].
  rewrite -> !andb_true_iff, bool_decide_eq_true in E. destruct E as [[_ Hw] Hnone]. cbn.
  destruct Hg as (n & HN & H1 & H2 & -> & ->). rewrite -> Hlow in Hw. split.
  - intros s' c. destruct (decide (s' = seq_of n)) as [->|Hne].
    + rw lookup_insert_eq. intros [= <-]. exists n. split_and!; try done; by apply genuine_in_window.
    + rw lookup_insert_ne //. apply Hinv.
  - intros s' c Hs. rw lookup_insert_ne //. intros <-. by rw Hnone in Hs.
Qed.

Lemma rx_events_inv k x pt evs :
  x.(x_low) = seq_of k -> pending_inv k pt.1 -> Forall (genuine k) evs ->
  pending_inv k (rx_events max x pt evs).1.1 /\ (forall s c, pt.1 !! s = Some c ->
    (rx_events max x pt evs).1.1 !! s = Some c).
Proof.
  intros Hlow Hinv Hg. revert pt Hinv. induction Hg as [|ev evs Hev _ IH]; [done|].
  intros pt Hinv. cbn [rx_events].
  pose proof (rx_event_inv k x pt ev Hlow Hinv Hev) as [H1 H2].
  destruct (rx_event max x pt ev) as [pt' rs].
  specialize (IH pt' H1). destruct (rx_events max x pt' evs) as [pt'' rs'].
  destruct IH as [H3 H4]. split; [exact H3|]. intros s c Hs. by apply H4, H2.
Qed.

(** After the events, the packet that is next is pending if it is in the batch. *)
Lemma rx_events_next k x pt evs t :
  x.(x_low) = seq_of k -> x.(x_active) = true -> pending_inv k pt.1 -> Forall (genuine k) evs ->
  Data (seq_of k) t (data k) ∈ evs ->
  is_Some ((rx_events max x pt evs).1.1 !! seq_of k).
Proof.
  intros Hlow Hact Hinv Hg. revert pt Hinv.
  induction Hg as [|ev evs Hev Hevs IH]; intros pt Hinv Hin; [by apply not_elem_of_nil in Hin|].
  cbn [rx_events].
  pose proof (rx_event_inv k x pt ev Hlow Hinv Hev) as [H1 H2].
  apply elem_of_cons in Hin as [<-|Hin].
  - assert (is_Some ((rx_event max x pt (Data (seq_of k) t (data k))).1.1 !! seq_of k)) as [c Hc].
    { destruct pt as [pending ts]. cbn. rw Hact Hlow.
      assert (in_window (seq_of k) (seq_of k) = true) as ->
        by (rw /in_window Z.sub_diag; done). cbn [andb].
      destruct (bool_decide_reflect (pending !! seq_of k = None)) as [Hn|Hn]; cbn.
      - rw lookup_insert_eq. eauto.
      - by apply not_eq_None_Some in Hn. }
    destruct (rx_event max x pt _) as [pt' rs].
    pose proof (rx_events_inv k x pt' evs Hlow H1 Hevs) as [_ H4].
    destruct (rx_events max x pt' evs) as [pt'' rs']. exists c. by apply H4.
  - destruct (rx_event max x pt ev) as [pt' rs]. specialize (IH pt' H1 Hin).
    by destruct (rx_events max x pt' evs) as [pt'' rs'].
Qed.

Context (Hdata : forall n, (n < N)%nat -> data n <> []) (Heof : data N = []).

Lemma ends_file_cons c c' cs : ends_file (c :: c' :: cs) = ends_file (c' :: cs).
Proof. done. Qed.

Lemma pending_at k m pending c :
  pending_inv k pending -> (k <= m < k + 31)%nat -> pending !! seq_of m = Some c ->
  (m <= N)%nat /\ c.2 = data m.
Proof.
  intros Hinv Hm Hc. destruct (Hinv _ _ Hc) as (n & Hn & HN & Heq & Hd).
  assert (n = m) as -> by (rw /seq_of in Heq; divmod). done.
Qed.

(** The run from [m] on is the sender's payloads from [m] on, and it ends
    the file exactly when it contains the last one. *)
Lemma next_chunks_data n k m pending (cs := next_chunks n (seq_of m) pending) :
  pending_inv k pending -> (k <= m)%nat -> (m + n <= k + 31)%nat ->
  snd <$> cs = data <$> seq m (length cs) /\ (cs <> [] -> (m + length cs <= S N)%nat) /\
  (ends_file cs = true <-> cs <> [] /\ (m + length cs = S N)%nat).
Proof using Hdata Heof.
  subst cs. revert m. induction n as [|n IH]; intros m Hinv Hk Hn.
  { cbn. split_and!; naive_solver. }
  cbn [next_chunks]. destruct (pending !! seq_of m) as [[ts p]|] eqn:E.
  2:{ cbn. split_and!; naive_solver. }
  destruct (pending_at k m pending _ Hinv ltac:(lia) E) as [HN Hd]. cbn in Hd.
  destruct p as [|b p].
  - assert (m = N) as -> by (apply Nat.le_antisymm; [done|];
      apply Nat.nlt_ge; intros Hlt; by apply (Hdata m)).
    cbn. rw -Hd. split; [done|]. split; [lia|]. split; [|done]. intros _. split; [done|lia].
  - assert (m <> N) by (intros ->; congruence).
    destruct (IH (S m) Hinv ltac:(lia) ltac:(lia)) as (H1 & H2 & H3).
    rw seq_at_seq_of Nat.add_1_r. cbn [fmap list_fmap length seq]. rw -Hd H1.
    destruct (next_chunks n (seq_of (S m)) pending) as [|c cs].
    + cbn. split; [done|]. split; [lia|]. split; [done|]. intros [_ Heq]. lia.
    + rw ends_file_cons H3. split; [done|].
      split; [intros _; specialize (H2 ltac:(done)); cbn in H2 |- *; lia|].
      cbn. split; intros [_ Heq]; (split; [done|lia]).
Qed.

(** One batch keeps the invariant. *)
Lemma rx_step_inv k x evs x' rs :
  rx_inv k x -> Forall (genuine k) evs -> rx_step max x evs = (x', rs) ->
  rx_inv (k + rx_count x evs) x' /\
  (x.(x_active) = true -> forall t, Data (seq_of k) t (data k) ∈ evs -> (0 < rx_count x evs)%nat).
Proof using Hdata Heof.
  intros [Hlow Hk Hfile Hact Htr Hpend] Hg. rw /rx_step /rx_count.
  pose proof (rx_events_inv k x (x.(x_pending), x.(x_timestamp)) evs Hlow Hpend Hg) as [Hp1 _].
  pose proof (fun t Ha => rx_events_next k x (x.(x_pending), x.(x_timestamp)) evs t Hlow Ha Hpend Hg) as Hnext.
  destruct (rx_events max x _ evs) as [[pending ts] rs1]. cbn in Hp1, Hnext.
  rw /rx_deliver. cbn [x_low x_pending]. rw Hlow.
  change (Z.to_nat MAX_WINDOW_SIZE) with 31%nat.
  destruct (next_chunks_data 31 k k pending Hp1 ltac:(lia) ltac:(lia)) as (H1 & H2 & H3).
  pose proof (next_chunks_length 31 (seq_of k) pending) as Hle.
  assert (forall m, is_Some (pending !! seq_of k) -> next_chunks (S m) (seq_of k) pending <> []) as Hne.
  { intros m [[t [|]] Hc]; cbn; by rw Hc. }
  specialize (Hne 30%nat). 
  destruct (next_chunks 31 (seq_of k) pending) as [|c cs] eqn:Ecs.
  - cbn. intros [= <- _]. rw Nat.add_0_r. split; [by split|].
    intros Ha t Hin. exfalso. by apply Hne; [eapply Hnext|].
  - specialize (H2 ltac:(done)). rw (last_lookup (c :: cs)). cbn [length] in *.
    destruct ((c :: cs) !! pred (S (length cs))) as [[ts' p']|] eqn:Elast.
    2:{ apply lookup_ge_None in Elast. cbn in Elast. lia. }
    intros [= <- _]. split; [|lia].
    split; cbn [rx_delivered x_low x_file x_active x_pending x_transferred length]; rw ?Hlow.
    + by rw seq_at_seq_of.
    + lia.
    + rw seq_app fmap_app concat_app Hfile /contents H1. done.
    + rw Hact. destruct (bool_decide_reflect (k <= N)%nat); cbn [andb]; [|lia].
      apply eq_true_iff_eq. rw negb_true_iff bool_decide_eq_true -not_true_iff_false H3.
      split; [|intros Hn [_ Heq]; lia]. intros Hn.
      destruct (decide (k + S (length cs) = S N)%nat); [|lia]. exfalso. by apply Hn.
    + rw Htr /u64 Zplus_mod_idemp_l length_app. f_equal. lia.
    + intros s c' Hs. apply (forget_Some (S (length cs)) (seq_of k)) in Hs as [Hs Hne']; [|apply seq_of_range].
      destruct (Hp1 s c' Hs) as (n & Hn & HN & -> & Hd). exists n. split_and!; try done; [|lia].
      apply Nat.nlt_ge. intros Hlt. apply (Hne' (n - k)%nat); [lia|]. rw seq_at_seq_of.
      f_equal. lia.
Qed.

Lemma rx_reach_inv k x : rx_reach k x -> rx_inv k x.
Proof using Hdata Heof.
  induction 1 as [|k x evs x' rs _ IH Hg Hstep].
  - split; [done|lia|done|by rw bool_decide_eq_true_2; [|lia]|done|].
    intros s c H. by rw lookup_empty in H.
  - by eapply rx_step_inv.
Qed.
End transfer.

(** ** Properties *)

(** in-order, exactly-once delivery.  Whatever batches of the sender's
    packets arrive, reordered, duplicated, with losses, together with
    corrupted, truncated or foreign packets, the file is at every moment
    the concatenation of the first [k] payloads, where [k] is the number
    of payloads delivered; the transfer is over exactly when the last,
    empty payload has been delivered, so the file is then complete. *)
Theorem delivery_in_order data N max k x :
  (forall n, (n < N)%nat -> data n <> []) -> data N = [] -> rx_reach data N max k x ->
  x.(x_file) = concat (data <$> seq 0 k) /\ x.(x_low) = seq_of k /\ (k <= S N)%nat /\
  (x.(x_active) = false <-> k = S N).
Proof.
  intros Hdata Heof Hr. destruct (rx_reach_inv data N max Hdata Heof k x Hr) as [Hl Hk Hf Ha _ _].
  split_and!; [done..|]. rw Ha bool_decide_eq_false. lia.
Qed.

(** A file of two payloads, sent as packets 0, 1 and 2. *)
Definition two_payloads (n : nat) : list Z :=
  match n with O => [10; 11] | 1%nat => [12] | _ => [] end.
Definition two_batch : list event := [Data 1 5 [12]; Bad; Data 0 6 [10; 11]; Data 1 7 [12]].

Lemma delivery_in_order_witness :
  let x := (rx_step 31 rx_init two_batch).1 in
  let k := rx_count 31 rx_init two_batch in
  x.(x_file) = concat (two_payloads <$> seq 0 k) /\ x.(x_low) = seq_of k /\ (k <= 3)%nat /\
  (x.(x_active) = false <-> k = 3%nat).
Proof.
  apply (delivery_in_order two_payloads 2 31 (rx_count 31 rx_init two_batch)).
  - intros [|[|n]] Hn; [done|done|lia].
  - reflexivity.
  - apply (reach_step two_payloads 2 31 0 rx_init two_batch _ (rx_step 31 rx_init two_batch).2).
    + constructor.
    + assert (forall s t p n, (n <= 2)%nat -> s = seq_of n -> p = two_payloads n ->
        genuine two_payloads 2 0 (Data s t p)) as Hg.
      { intros s t p n Hn -> ->. exists n. split_and!; try done; lia. }
      repeat (apply Forall_cons_2 || apply Forall_nil_2); try exact I.
      * by apply (Hg _ _ _ 1%nat); [lia|..].
      * by apply (Hg _ _ _ 0%nat); [lia|..].
      * by apply (Hg _ _ _ 1%nat); [lia|..].
    + by destruct (rx_step 31 rx_init two_batch).
Defined.

(** progress.  As long as the transfer is not over, every batch that
    contains the next packet delivers at least one payload. *)
Theorem delivery_progress data N max k x evs t :
  (forall n, (n < N)%nat -> data n <> []) -> data N = [] -> rx_reach data N max k x ->
  (k <= N)%nat -> Forall (genuine data N k) evs -> Data (seq_of k) t (data k) ∈ evs ->
  (0 < rx_count max x evs)%nat.
Proof.
  intros Hdata Heof Hr Hk Hg Hin.
  pose proof (rx_reach_inv data N max Hdata Heof k x Hr) as Hinv.
  destruct (rx_step max x evs) as [x' rs] eqn:Hstep.
  destruct (rx_step_inv data N max Hdata Heof k x evs x' rs Hinv Hg Hstep) as [_ Hp].
  eapply Hp; [|done]. rw (inv_active _ _ _ _ Hinv). by apply bool_decide_eq_true_2.
Qed.

Lemma delivery_progress_witness : (0 < rx_count 31%Z rx_init [Data 0 9 [10; 11]]%Z)%nat.
Proof.
  apply (delivery_progress two_payloads 2 31 0 rx_init [Data 0 9 [10; 11]] 9).
  - intros [|[|n]] Hn; [done|done|lia].
  - reflexivity.
  - constructor.
  - lia.
  - apply Forall_singleton. exists 0%nat. split_and!; try done; lia.
  - apply list_elem_of_here.
Defined.
