(* ===== verification/Handler.v ===== *)
(** * Handler: src/handler.c, from received datagrams to the output file

    A handler takes a request (up to 31 datagrams of one client) from a
    stream, decodes each of them, stores the packets that lie in the
    client's window, writes the packets that are next in order to the
    client's file and answers with acknowledgements.

    This file is the code; Protocol is what it is meant to do, HandlerSpec
    and HandlerThm prove that it does. *)

From stdpp Require Import strings.
From S2P Require Import Prelude Global Memory Lookup Packet Buffer Client Stream.

(** ** Data *)

Record hd_req_t := mk_req {
  r_stop : bool;
  r_client : option ptr;
  r_num : nat;                  (* size_t *)
  r_lengths : list Z;           (* MAX_WINDOW_SIZE lengths, uint16_t *)
  r_buffer : list (list Z) }.   (* MAX_WINDOW_SIZE buffers of MAX_PACKET_SIZE bytes *)

(** The part of the configuration a run uses. *)
Record hd_cfg_t := mk_cfg { cfg_max_window_size : Z }.

(** What [allocate_handle_request] puts into the block it gets. *)
Definition new_request : hd_req_t :=
  mk_req false None 0 (replicate (Z.to_nat MAX_WINDOW_SIZE) 0)
    (replicate (Z.to_nat MAX_WINDOW_SIZE) (replicate (Z.to_nat MAX_PACKET_SIZE) 0)).
Definition allocate_handle_request (req : option ptr) : option hd_req_t * option errors_t :=
  match req with
  | None => (None, Some FAILED_TO_ALLOCATE)
  | Some _ => (Some new_request, None)
  end.

(** The local state of [hd_run_once] while it goes over the datagrams. *)
Record hd_st := mk_hd {
  s_packets : gmap ptr packet_t;
  s_decoded : ptr;                  (* *decoded *)
  s_window : buf_t;                 (* *client->window *)
  s_last_timestamp : Z;
  s_to_send : packet_t;
  s_len : nat;                      (* len_to_send *)
  s_out : list (list Z);            (* packets_to_send *)
  s_names : list (option ptr) }.    (* msg[].msg_hdr.msg_name *)

Definition st_received packets ts st :=
  mk_hd packets st.(s_decoded) st.(s_window) ts st.(s_to_send) st.(s_len) st.(s_out) st.(s_names).
Definition st_swapped packets decoded window st :=
  mk_hd packets decoded window st.(s_last_timestamp) st.(s_to_send) st.(s_len) st.(s_out) st.(s_names).

(** ** Replies *)

(** The macro [min(num1, num2)] is [num1 > num2 ? num2 : num1]. *)
Definition min (num1 num2 : Z) : Z := if num2 <? num1 then num2 else num1.

(** Fills [to_send], enters the client's address and packs the packet into
    the next output buffer; a packet that cannot be packed is not counted. *)
Definition reply (type : ptype_t) (seqnum window timestamp : Z) (address : option ptr) (st : hd_st)
    : comp hd_st :=
  let t := st.(s_to_send) in
  let to_send := mk_packet type false (u8 window) false 0 seqnum timestamp
                   t.(p_crc1) t.(p_crc2) t.(p_payload) in
  names ← wr st.(s_names) st.(s_len) address;
  packet ← rd st.(s_out) st.(s_len);
  '(packed, r) ← pack (Some packet) (Some to_send) false;
  out ← wr st.(s_out) st.(s_len) (default packet packed);
  let len := match r with None => S st.(s_len) | Some _ => st.(s_len) end in
  Done (mk_hd st.(s_packets) st.(s_decoded) st.(s_window) st.(s_last_timestamp) to_send len out names).

(** The acknowledgement of the window as it is. *)
Definition reply_ack (cfg : hd_cfg_t) (timestamp : Z) (address : option ptr) (st : hd_st) : comp hd_st :=
  reply ACK st.(s_window).(b_window_low)
    (min cfg.(cfg_max_window_size) (MAX_WINDOW_SIZE - st.(s_window).(b_length)))
    timestamp address st.

(** ** One datagram *)

(** A packet of the window is stored by exchanging it with the packet the
    node has: the node takes [*decoded], and [*decoded] the old one. *)
Definition store_packet (seqnum : Z) (st : hd_st) : comp hd_st :=
  '(window, spot, _) ← next (Some st.(s_window)) seqnum;
  match window, spot with
  | Some window, Some spot =>
      node ← rd window.(b_nodes) spot;
      match node.(n_value) with
      | Some temp =>
          nodes ← wr window.(b_nodes) spot (set_value (Some st.(s_decoded)) node);
          Done (st_swapped st.(s_packets) temp
                  (mk_buf window.(b_window_low) window.(b_length) nodes) st)
      | None => Stuck UB
      end
  | _, _ => Stuck UB
  end.

(** One round of the loop of [hd_run_once]; the datagram comes back as
    [unpack] leaves it. *)
Definition receive (cfg : hd_cfg_t) (client : client_t) (buffer : list Z) (length : Z) (st : hd_st)
    : comp (list Z * hd_st) :=
  decoded ← load st.(s_packets) st.(s_decoded);
  '(buffer, decoded, r) ← unpack buffer length decoded;
  packets ← store st.(s_packets) st.(s_decoded) decoded;
  match r with
  | Some _ =>
      let st := st_received packets st.(s_last_timestamp) st in
      st ← reply_ack cfg client.(c_last_timestamp) client.(c_address) st;
      Done (buffer, st)
  | None =>
      let st := st_received packets decoded.(p_timestamp) st in
      st ← (if negb client.(c_active) then
              reply_ack cfg decoded.(p_timestamp) client.(c_address) st
            else if bool_decide (decoded.(p_type) = DATA) then
              if decoded.(p_truncated) then
                reply NACK decoded.(p_seqnum)
                  (min cfg.(cfg_max_window_size) (MAX_WINDOW_SIZE - st.(s_window).(b_window_low)))
                  decoded.(p_timestamp) client.(c_address) st
              else
                in_window ← sequences_at st.(s_window).(b_window_low) decoded.(p_seqnum);
                if in_window =? 0 then
                  reply_ack cfg decoded.(p_timestamp) client.(c_address) st
                else
                  '(used, _) ← is_used (Some st.(s_window)) decoded.(p_seqnum);
                  if used : bool then reply_ack cfg decoded.(p_timestamp) client.(c_address) st
                  else store_packet decoded.(p_seqnum) st
            else Done st);
      Done (buffer, st)
  end.

(** The loop over the [n] datagrams from [i] on. *)
Fixpoint receive_all (cfg : hd_cfg_t) (client : client_t) (n i : nat) (req : hd_req_t) (st : hd_st)
    : comp (hd_req_t * hd_st) :=
  match n with
  | O => Done (req, st)
  | S n =>
      buffer ← rd req.(r_buffer) i;
      length ← rd req.(r_lengths) i;
      '(buffer, st) ← receive cfg client buffer length st;
      buffers ← wr req.(r_buffer) i buffer;
      receive_all cfg client n (S i)
        (mk_req req.(r_stop) req.(r_client) req.(r_num) req.(r_lengths) buffers) st
  end.

(** ** The packets that are next in order *)

Record drain_st := mk_drain {
  d_window : buf_t;
  d_i : Z;                  (* size_t *)
  d_cnt : Z;                (* int *)
  d_offset : nat;
  d_remove : bool;
  d_file_buffer : list Z;   (* MAX_PAYLOAD_SIZE * MAX_WINDOW_SIZE bytes *)
  d_last_timestamp : Z }.

(** The body of the loop for a node that [get] returned. *)
Definition drain_node (packets : gmap ptr packet_t) (window : buf_t) (node : nat) (d : drain_st)
    : comp drain_st :=
  n ← rd window.(b_nodes) node;
  match n.(n_value) with
  | None => Stuck UB
  | Some p =>
      pak ← load packets p;
      '(file_buffer, offset, remove) ←
        (if 0 <? pak.(p_length) then
           payload ← slice pak.(p_payload) 0 (Z.to_nat pak.(p_length));
           file_buffer ← memcpy d.(d_file_buffer) d.(d_offset) payload;
           Done (file_buffer, (d.(d_offset) + Z.to_nat pak.(p_length))%nat, false)
         else if (pak.(p_length) =? 0) && negb d.(d_remove) then
           Done (d.(d_file_buffer), d.(d_offset), true)
         else Done (d.(d_file_buffer), d.(d_offset), d.(d_remove)));
      Done (mk_drain window (d.(d_i) + 1) (d.(d_cnt) + 1) offset remove file_buffer
              pak.(p_timestamp))
  end.

(** The do-while loop; it counts up to [MAX_WINDOW_SIZE] rounds that find
    a node. *)
Fixpoint drain (fuel : nat) (packets : gmap ptr packet_t) (d : drain_st) : comp drain_st :=
  match fuel with
  | O => Stuck NoFuel
  | S fuel =>
      '(window, node, _) ← get (Some d.(d_window)) (Z.land d.(d_i) 0xFF) false;
      match window with
      | None => Stuck UB
      | Some window =>
          d ← match node with
              | Some node => drain_node packets window node d
              | None => Done d
              end;
          again ← sequences_at d.(d_window).(b_window_low) (Z.land d.(d_i) 0xFF);
          if negb (again =? 0) && bool_decide (is_Some node) && (d.(d_cnt) <? MAX_WINDOW_SIZE) &&
             negb d.(d_remove)
          then drain fuel packets d
          else Done d
      end
  end.

(** ** After the loop: file, window and acknowledgement *)

(** What the environment decides: the values of the variables that are not
    initialised, how many bytes [fwrite] writes, and the block [malloc]
    returns for the end time. *)
Record hd_env := mk_hd_env {
  v_remove : bool;
  v_to_send : packet_t;
  v_written : nat;
  v_end_time : option ptr }.

Definition set_client_state (active : bool) (ts : Z) (end_time : option ptr) (transferred : Z)
    (c : client_t) : client_t :=
  mk_client active c.(c_lock) c.(c_out_file) c.(c_address) c.(c_addr_len) c.(c_window) c.(c_id)
    ts end_time transferred.

(** The end of a transfer: the file is closed and the end time taken (a
    null [end_time] is dereferenced). *)
Definition end_transfer (h : heap_t) (client : client_t) (env : hd_env) : comp (heap_t * client_t) :=
  match client.(c_out_file) with
  | None => Stuck UB
  | Some f =>
      files ← fclose_at h.(h_files) f;
      match env.(v_end_time) with
      | None => Stuck UB
      | Some t =>
          Done (upd_times (<[t := tt]>) (with_files files h),
                set_client_state false client.(c_last_timestamp) (Some t) client.(c_transferred) client)
      end
  end.

(** How the run ended: the client and local state to go on with, or the
    early return after a failed write. *)
Definition finish (cfg : hd_cfg_t) (env : hd_env) (h : heap_t) (client : client_t) (d : drain_st)
    (st : hd_st) : comp (heap_t * client_t * hd_st * bool) :=
  if 0 <? d.(d_cnt) then
    match client.(c_out_file) with
    | None => Stuck UB
    | Some f =>
        file ← load h.(h_files) f;
        bytes ← slice d.(d_file_buffer) 0 d.(d_offset);
        file ← fwrite file bytes env.(v_written);
        if negb (env.(v_written) =? d.(d_offset))%nat then
          file ← fseek_set file (- Z.of_nat env.(v_written));
          files ← store h.(h_files) f file;
          Done (with_files files h, client,
                st_swapped st.(s_packets) st.(s_decoded) d.(d_window) st, false)
        else
          files ← store h.(h_files) f file;
          let h := with_files files h in
          let window := mk_buf (u8 (d.(d_window).(b_window_low) + d.(d_cnt)))
                          (u8 (d.(d_window).(b_length) - d.(d_cnt))) d.(d_window).(b_nodes) in
          let client := set_client_state client.(c_active) d.(d_last_timestamp) client.(c_end_time)
                          (u64 (client.(c_transferred) + Z.of_nat d.(d_offset))) client in
          '(h, client) ← (if d.(d_remove) && client.(c_active) then end_transfer h client env
                          else Done (h, client));
          st ← reply_ack cfg d.(d_last_timestamp) client.(c_address)
                 (st_swapped st.(s_packets) st.(s_decoded) window st);
          Done (h, client, st, true)
    end
  else Done (h, client, st_swapped st.(s_packets) st.(s_decoded) d.(d_window) st, true).

(** The handling of a request between locking and unlocking the client.
    [decoded] is [*decoded]; the result has the new [*decoded], the output
    buffers and, unless the write failed, the datagrams that are sent:
    the first 11 bytes of each output buffer, with its destination. *)
Definition handle_request (cfg : hd_cfg_t) (env : hd_env) (h : heap_t) (decoded : ptr)
    (file_buffer : list Z) (out : list (list Z)) (names : list (option ptr)) (req : hd_req_t)
    : comp (heap_t * hd_req_t * ptr * (list Z * list (list Z) * list (option ptr)) *
            option (list (option ptr * list Z))) :=
  match req.(r_client) with
  | None => Stuck UB
  | Some p =>
      client ← load h.(h_clients) p;
      match client.(c_window), client_get_lock client with
      | Some w, Some lock =>
          window ← load h.(h_bufs) w;
          held ← load h.(h_mutexes) lock;
          held ← mutex_lock held;
          let st := mk_hd h.(h_packets) decoded window client.(c_last_timestamp) env.(v_to_send)
                      0 out names in
          '(req, st) ← receive_all cfg client req.(r_num) 0 req st;
          let i := st.(s_window).(b_window_low) in
          d ← drain (S (Z.to_nat MAX_WINDOW_SIZE)) st.(s_packets)
                (mk_drain st.(s_window) i 0 0 env.(v_remove) file_buffer st.(s_last_timestamp));
          '(h, client, st, sent) ← finish cfg env h client d st;
          held ← mutex_unlock held;
          let h := upd_clients (<[p := client]>) (upd_bufs (<[w := st.(s_window)]>)
                     (upd_mutexes (<[lock := held]>) (with_packets st.(s_packets) h))) in
          Done (h, req, st.(s_decoded), (d.(d_file_buffer), st.(s_out), st.(s_names)),
                if sent : bool
                then Some (take st.(s_len) (zip st.(s_names) (take 11 <$> st.(s_out))))
                else None)
      | _, _ => Stuck UB
      end
  end.

(** ** One run of a handler *)

Definition enqueue_or_free {R} (h : nodes_t) (reqs : gmap ptr R) (stream : stream_t) (node : option ptr)
    : comp (nodes_t * gmap ptr R * stream_t) :=
  '(h, stream, ok) ← stream_enqueue h stream node;
  if ok : bool then Done (h, reqs, stream)
  else '(h, reqs) ← deallocate_node h reqs node; Done (h, reqs, stream).

(** What a handler thread sees: the heap, the nodes and requests of the
    streams, its two streams, and its own variables. *)
Record hd_world := mk_world {
  w_heap : heap_t;
  w_nodes : nodes_t;
  w_reqs : gmap ptr hd_req_t;
  w_rx : stream_t;
  w_tx : stream_t;
  w_decoded : ptr;
  w_exit : bool;
  w_file_buffer : list Z;
  w_out : list (list Z);
  w_names : list (option ptr);
  w_sent : list (option ptr * list Z) }.   (* all datagrams sent so far *)

Definition hd_run_once (wait : bool) (cfg : hd_cfg_t) (env : hd_env) (w : hd_world) : comp hd_world :=
  '(nodes, rx, node_rx) ← stream_pop w.(w_nodes) w.(w_rx) wait;
  match node_rx with
  | None =>
      Done (mk_world w.(w_heap) nodes w.(w_reqs) rx w.(w_tx) w.(w_decoded) w.(w_exit)
              w.(w_file_buffer) w.(w_out) w.(w_names) w.(w_sent))
  | Some n =>
      node ← load nodes n;
      match node.(sn_content) with
      | Some r =>
          req ← load w.(w_reqs) r;
          if req.(r_stop) then
            packets ← free w.(w_heap).(h_packets) (Some w.(w_decoded));
            '(nodes, reqs) ← deallocate_node nodes w.(w_reqs) (Some n);
            Done (mk_world (with_packets packets w.(w_heap)) nodes reqs rx w.(w_tx) w.(w_decoded) true
                    w.(w_file_buffer) w.(w_out) w.(w_names) w.(w_sent))
          else
            '(h, req, decoded, (file_buffer, out, names), sent) ←
              handle_request cfg env w.(w_heap) w.(w_decoded) w.(w_file_buffer) w.(w_out) w.(w_names) req;
            reqs ← store w.(w_reqs) r req;
            '(nodes, reqs, tx) ← enqueue_or_free nodes reqs w.(w_tx) (Some n);
            Done (mk_world h nodes reqs rx tx decoded w.(w_exit) file_buffer out names
                    (w.(w_sent) ++ default [] sent))
      | None =>
          nodes ← free nodes (Some n);
          Done (mk_world w.(w_heap) nodes w.(w_reqs) rx w.(w_tx) w.(w_decoded) w.(w_exit)
                  w.(w_file_buffer) w.(w_out) w.(w_names) w.(w_sent))
      end
  end.

(** ** The thread *)

(** The loop of [handle_thread]: one environment for each round; a list
    that is too short stands for a thread that has not stopped yet. *)
Fixpoint handle_loop (cfg : hd_cfg_t) (envs : list hd_env) (w : hd_world) : comp hd_world :=
  if w.(w_exit) then Done w else
  match envs with
  | [] => Stuck NoFuel
  | env :: envs => w ← hd_run_once true cfg env w; handle_loop cfg envs w
  end.

(** The thread: its arrays have arbitrary contents at first, the message
    headers are cleared, and [decoded] is what the allocator returns;
    without memory the thread ends at once. *)
Definition handle_thread (cfg : hd_cfg_t) (envs : list hd_env) (decoded : option ptr)
    (file_buffer : list Z) (out : list (list Z)) (h : heap_t) (nodes : nodes_t)
    (reqs : gmap ptr hd_req_t) (rx tx : stream_t) : comp (option hd_world) :=
  match decoded with
  | None => Done None
  | Some d =>
      w ← handle_loop cfg envs
        (mk_world (upd_packets (<[d := zeroed_packet]>) h) nodes reqs rx tx d false file_buffer out
           (replicate (Z.to_nat MAX_WINDOW_SIZE + 1) None) []);
      Done (Some w)
  end.

(** A node from the stream of free nodes, or a new one.  [node] and
    [content] are what the allocator returns for a new node and its
    request, [r0] is what the request holds; a null [node] is passed on to
    [initialize_node]. *)
Definition pop_and_check_req {R} (h : nodes_t) (reqs : gmap ptr R) (stream : stream_t)
    (node content : option ptr) (garbage : s_node_t) (r0 : R)
    : comp (nodes_t * gmap ptr R * stream_t * option ptr) :=
  '(h, stream, popped) ← stream_pop h stream false;
  match popped with
  | Some p => Done (h, reqs, stream, Some p)
  | None =>
      let h := malloc h node garbage in
      '(h, reqs, r) ← initialize_node h reqs node content r0;
      match r with
      | Some _ => h ← free h node; Done (h, reqs, stream, None)
      | None => Done (h, reqs, stream, node)
      end
  end.

(** ** Log messages *)

(** What is logged about a packet that could not be decoded; [None] is the
    message for unknown errors. *)
Definition print_unpack_error (errno : errors_t) : option string :=
  match errno with
  | TYPE_IS_WRONG => Some "Type is wrong"
  | NON_DATA_TRUNCATED => Some "Non-PData packet truncated"
  | CRC_VALIDATION_FAILED => Some "Header could not be validated"
  | PAYLOAD_VALIDATION_FAILED => Some "Payload could not be validated"
  | PACKET_TOO_SHORT => Some "Packet has incorrect size (too short)"
  | PACKET_TOO_LONG => Some "Packet has incorrect size (too long)"
  | PAYLOAD_TOO_LONG => Some "Payload has incorrect size (too long)"
  | _ => None
  end%string.

Definition size_units : list string := ["B"; "KiB"; "MiB"; "GiB"; "TiB"]%string.

(** The rounds of [bytes_to_unit] from [i] on: the unit and the multiplier
    (a double that only takes powers of 1024). *)
Fixpoint bytes_to_unit_from (n i : nat) (total multiplier : Z) : option (string * Z) :=
  match n with
  | O => None
  | S n =>
      if (1024 <? total) && negb (i =? 4)%nat
      then bytes_to_unit_from n (S i) (total / 1024) (multiplier * 1024)
      else (fun u => (u, multiplier)) <$> size_units !! i
  end.
Definition bytes_to_unit (total : Z) : option (string * Z) := bytes_to_unit_from 5 0 total 1.
