(* ===== verification/Receiver.v ===== *)
(** * Receiver: src/receiver.c, from the socket to the handlers

    A receiver reads a batch of datagrams, looks up (or creates) the client
    of each and passes them on in requests: consecutive datagrams of one
    client share a request.  The request nodes come back from the handlers
    on a second stream. *)

From S2P Require Import Prelude Global Cli Memory Packet Buffer Client Stream HashTable Handler.

(** ** Data *)

(** A received datagram: where it is from, its length, and the buffer of
    [MAX_PACKET_SIZE] bytes it is in. *)
Record dgram_t := mk_dgram { g_addr : sockaddr_in6; g_len : Z; g_buf : list Z }.

(** The configuration of a receiver: the limit of clients, the format of
    the file names, and the number of datagrams its arrays have room for. *)
Record rx_cfg_t := mk_rx_cfg { cfg_max_clients : Z; cfg_format : str; cfg_window_size : Z }.

(** What the environment answers while a datagram is processed: the blocks
    for a client, for the array of a larger table, for a node, its request
    and a missing request, and the outcome of [initialize_client]'s calls. *)
Record rx_env := mk_rx_env {
  e_client : option ptr;
  e_init : client_env;
  e_table : option ptr;
  e_node : option ptr;
  e_garbage : s_node_t;
  e_content : option ptr;
  e_content2 : option ptr }.

(** What a receiver thread sees, and its local variables; [None] for
    [q_req] is a variable that is null or not initialised. *)
Record rcv_st := mk_rcv {
  q_heap : heap_t;
  q_arrays : arrays_t;
  q_table : ht_t;
  q_nodes : nodes_t;
  q_reqs : gmap ptr hd_req_t;
  q_rx : stream_t;
  q_tx : stream_t;
  q_idx : Z;                     (* uint32_t *)
  q_contained : option ptr;
  q_node : option ptr;
  q_req : option ptr }.

Definition set_table h arrays t idx contained (s : rcv_st) : rcv_st :=
  mk_rcv h arrays t s.(q_nodes) s.(q_reqs) s.(q_rx) s.(q_tx) idx contained s.(q_node) s.(q_req).
Definition set_streams nodes reqs rx tx node req (s : rcv_st) : rcv_st :=
  mk_rcv s.(q_heap) s.(q_arrays) s.(q_table) nodes reqs rx tx s.(q_idx) s.(q_contained) node req.

(** How a part of the loop body ends. *)
Inductive flow : Type := Go | Continue | Break.

(** What [calloc] returns for a client. *)
Definition zero_client : client_t := mk_client false None None None 0 None 0 0 None 0.

(** ** The steps of the loop body *)

(** The request of the previous client is passed on. *)
Definition send_node (s : rcv_st) : comp rcv_st :=
  match s.(q_node) with
  | None => Done s
  | Some n =>
      '(nodes, tx, _) ← stream_enqueue s.(q_nodes) s.(q_tx) (Some n);
      Done (set_streams nodes s.(q_reqs) s.(q_rx) tx None s.(q_req) s)
  end.

(** The client of the address, created when it is not known. *)
Definition find_client (cfg : rx_cfg_t) (env : rx_env) (addr : sockaddr_in6) (s : rcv_st)
    : comp (rcv_st * flow) :=
  '(t, contained) ← ht_get s.(q_arrays) s.(q_table) addr.(sin6_port) addr.(sin6_addr);
  match contained with
  | Some c => Done (set_table s.(q_heap) s.(q_arrays) t s.(q_idx) (Some c) s, Go)
  | None =>
      t ← lock_table t;
      if cfg.(cfg_max_clients) <=? ht_length t then
        t ← unlock_table t;
        Done (set_table s.(q_heap) s.(q_arrays) t s.(q_idx) None s, Continue)
      else
        match env.(e_client) with
        | None => Done (set_table s.(q_heap) s.(q_arrays) t s.(q_idx) None s, Break)
        | Some c =>
            let h := upd_clients (<[c := zero_client]>) s.(q_heap) in
            '(h, r) ← initialize_client h c s.(q_idx) cfg.(cfg_format) addr 28 env.(e_init);
            let idx := u32 (s.(q_idx) + 1) in
            match r with
            | Some _ => Done (set_table h s.(q_arrays) t idx (Some c) s, Continue)
            | None =>
                t ← unlock_table t;
                '(h, arrays, t, _) ← ht_put h s.(q_arrays) t addr.(sin6_port) addr.(sin6_addr) (Some c) env.(e_table);
                Done (set_table h arrays t idx (Some c) s, Go)
            end
        end
  end.

(** A node with a request for the client. *)
Definition take_node (env : rx_env) (s : rcv_st) : comp (rcv_st * flow) :=
  '(nodes, rx, popped) ← stream_pop s.(q_nodes) s.(q_rx) false;
  '(nodes, reqs, node, flow) ←
    match popped with
    | Some n => Done (nodes, s.(q_reqs), Some n, Go)
    | None =>
        let nodes := malloc nodes env.(e_node) env.(e_garbage) in
        '(nodes, reqs, r) ← initialize_node nodes s.(q_reqs) env.(e_node) env.(e_content) new_request;
        Done (nodes, reqs, env.(e_node), match r with Some _ => Break | None => Go end)
    end;
  match flow, node with
  | Go, Some n =>
      sn ← load nodes n;
      '(nodes, reqs, content) ←
        match sn.(sn_content) with
        | Some r => Done (nodes, reqs, Some r)
        | None =>
            nodes ← store nodes n (mk_snode env.(e_content2) sn.(sn_next));
            Done (nodes, malloc reqs env.(e_content2) new_request, env.(e_content2))
        end;
      match content with
      | None => Stuck UB
      | Some r =>
          req ← load reqs r;
          let req := mk_req req.(r_stop) s.(q_contained) 0 req.(r_lengths) req.(r_buffer) in
          Done (set_streams nodes (<[r := req]> reqs) rx s.(q_tx) node (Some r) s, Go)
      end
  | _, _ => Done (set_streams nodes reqs rx s.(q_tx) node s.(q_req) s, Break)
  end.

(** The datagram is copied into the next buffer of the request; one whose
    length no packet has is dropped. *)
Definition add_datagram (d : dgram_t) (s : rcv_st) : comp rcv_st :=
  if (d.(g_len) <=? MAX_PACKET_SIZE) && (MIN_PACKET_SIZE <=? d.(g_len)) then
    match s.(q_req) with
    | None => Stuck UB
    | Some r =>
        req ← load s.(q_reqs) r;
        let idx := req.(r_num) in
        lengths ← wr req.(r_lengths) idx (u16 d.(g_len));
        buffer ← rd req.(r_buffer) idx;
        src ← slice d.(g_buf) 0 (Z.to_nat d.(g_len));
        buffer ← memcpy buffer 0 src;
        buffers ← wr req.(r_buffer) idx buffer;
        let req := mk_req req.(r_stop) req.(r_client) (S idx) lengths buffers in
        Done (set_streams s.(q_nodes) (<[r := req]> s.(q_reqs)) s.(q_rx) s.(q_tx) s.(q_node) s.(q_req) s)
    end
  else Done s.

(** The datagram is from the client of the previous one, and the request
    has room: the test bounds the index of the datagram. *)
Definition same_client (i : nat) (prev : option sockaddr_in6) (d : dgram_t) (s : rcv_st) : bool :=
  match s.(q_contained), prev with
  | Some _, Some prev =>
      ip_equals d.(g_addr).(sin6_addr) prev.(sin6_addr) &&
      (prev.(sin6_port) =? d.(g_addr).(sin6_port)) && (Z.of_nat i <? MAX_WINDOW_SIZE)
  | _, _ => false
  end.

Definition rx_datagram (cfg : rx_cfg_t) (env : rx_env) (i : nat) (prev : option sockaddr_in6) (d : dgram_t)
    (s : rcv_st) : comp (rcv_st * flow) :=
  if same_client i prev d s then s ← add_datagram d s; Done (s, Go)
  else
    s ← send_node s;
    '(s, flow) ← find_client cfg env d.(g_addr) s;
    match flow with
    | Continue | Break => Done (s, flow)
    | Go =>
        '(s, flow) ← take_node env s;
        match flow with
        | Continue | Break => Done (s, flow)
        | Go => s ← add_datagram d s; Done (s, Go)
        end
    end.

(** The loop over the datagrams from index [i] on. *)
Fixpoint rx_loop (cfg : rx_cfg_t) (i : nat) (prev : option sockaddr_in6) (ds : list (dgram_t * rx_env))
    (s : rcv_st) : comp rcv_st :=
  match ds with
  | [] => Done s
  | (d, env) :: ds =>
      '(s, flow) ← rx_datagram cfg env i prev d s;
      match flow with
      | Break => Done s
      | _ => rx_loop cfg (S i) (Some d.(g_addr)) ds s
      end
  end.

(** [recvmmsg] returns an error ([None]) or the datagrams; the local
    variables are new in every run. *)
Definition rx_run_once (cfg : rx_cfg_t) (received : option (list (dgram_t * rx_env))) (s : rcv_st)
    : comp rcv_st :=
  match received with
  | None | Some [] => Done s
  | Some ds =>
      let s := mk_rcv s.(q_heap) s.(q_arrays) s.(q_table) s.(q_nodes) s.(q_reqs) s.(q_rx) s.(q_tx)
                 s.(q_idx) None None None in
      s ← rx_loop cfg 0 None ds s;
      send_node s
  end.

(** One batch after the other until the thread is told to stop. *)
Fixpoint receive_loop (cfg : rx_cfg_t) (batches : list (option (list (dgram_t * rx_env)))) (s : rcv_st)
    : comp rcv_st :=
  match batches with
  | [] => Done s
  | b :: batches => s ← rx_run_once cfg b s; receive_loop cfg batches s
  end.

(** [window_size], a 64-bit number that is stored in an [int], is the length
    of the arrays on the stack: there is no array of no elements. *)
Definition stack_arrays (window_size : Z) : comp unit :=
  if window_size <=? 0 then Stuck UB else Done ().

Definition receive_thread (cfg : rx_cfg_t) (batches : list (option (list (dgram_t * rx_env)))) (s : rcv_st)
    : comp rcv_st :=
  _ ← stack_arrays (i32 cfg.(cfg_window_size));
  receive_loop cfg batches s.

Definition move_ip (destination source : list Z) : comp (list Z) :=
  ip ← slice source 0 16; memcpy destination 0 ip.
