(* ===== verification/HandlerSpec.v ===== *)
(** * HandlerSpec: the handler implements the protocol

    The heap of a handler stands for a state of the protocol when the
    client's window holds exactly the pending packets; [handle_request]
    then does what [rx_step] does, sends its replies, and leaves a heap
    that stands for the new state. *)

From S2P Require Import Prelude Global Memory Lookup Crc32 Packet Buffer Client Stream Protocol Handler.

(** ** What the datagrams and the packets of the window mean *)

(** The event a datagram is; [out] is the structure it is decoded into. *)
Definition event_of (buf : list Z) (len : Z) (out : packet_t) : event :=
  match wire_error buf len out with
  | Some _ => Bad
  | None =>
      let d := decoded buf out in
      match d.(p_type) with
      | DATA =>
          if d.(p_truncated) then Truncated d.(p_seqnum) d.(p_timestamp)
          else Data d.(p_seqnum) d.(p_timestamp) (take (Z.to_nat d.(p_length)) d.(p_payload))
      | _ => Other d.(p_timestamp)
      end
  end.

Definition chunk_of (pk : packet_t) : chunk :=
  (pk.(p_timestamp), take (Z.to_nat pk.(p_length)) pk.(p_payload)).

(** A packet that may be in the window. *)
Definition storable (pk : packet_t) : Prop :=
  payload_ok pk /\ 0 <= pk.(p_length) <= MAX_PAYLOAD_SIZE /\ is_u32 pk.(p_timestamp).

Definition packet_at (packets : gmap ptr packet_t) (window : buf_t) (s : Z) : option packet_t :=
  n ← window.(b_nodes) !! Z.to_nat (hash s);
  p ← n.(n_value);
  packets !! p.

(** The nodes and [*decoded] own 33 different packets. *)
Definition owned (packets : gmap ptr packet_t) (decoded : ptr) (nodes : list node_t) : Prop :=
  exists ptrs, n_value <$> nodes = Some <$> ptrs /\ NoDup (decoded :: ptrs) /\
    Forall (fun p => exists pk, packets !! p = Some pk /\ payload_ok pk) (decoded :: ptrs).

(** The window holds the pending packets. *)
Record window_rep (packets : gmap ptr packet_t) (decoded : ptr) (window : buf_t) (low : Z)
    (pending : gmap Z chunk) : Prop := {
  rep_low : window.(b_window_low) = low;
  rep_low_range : is_u8 low;
  rep_nodes : length window.(b_nodes) = MAX_BUFFER_SIZE;
  rep_owned : owned packets decoded window.(b_nodes);
  rep_length : window.(b_length) = Z.of_nat (size pending);
  rep_dom : forall s c, pending !! s = Some c -> is_u8 s /\ in_window low s = true;
  rep_slots : forall s, is_u8 s -> in_window low s = true ->
    match pending !! s with
    | None => used_at window s = false
    | Some c => used_at window s = true /\
        exists pk, packet_at packets window s = Some pk /\ storable pk /\ chunk_of pk = c
    end;
  rep_free : used_at window (seq_at low 31) = false }.

Lemma rep_buf_ok packets decoded window low pending :
  window_rep packets decoded window low pending -> buf_ok window.
Proof.
  intros H. split; [apply H|]. rw (rep_low _ _ _ _ _ H) (rep_length _ _ _ _ _ H).
  split; [apply H|]. pose proof (pending_size low pending (rep_dom _ _ _ _ _ H)). lia.
Qed.

(** ** Replies *)

(** The packet and the datagram of a reply. *)
Definition reply_packet (r : reply_t) : packet_t :=
  mk_packet r.(a_type) false r.(a_window) false 0 r.(a_seqnum) r.(a_timestamp) 0 0 [].
Definition reply_wire (r : reply_t) : list Z := wire (reply_packet r) false.

Definition reply_ok (r : reply_t) : Prop :=
  r.(a_type) <> DATA /\ is_u8 r.(a_seqnum) /\ is_u32 r.(a_timestamp).

(** The output buffers hold the replies given so far, addressed to the client. *)
Record out_rep (address : option ptr) (st : hd_st) (rs : list reply_t) : Prop := {
  out_len : st.(s_len) = length rs;
  out_rows : length st.(s_out) = 32%nat /\ Forall (fun row => length row = 12%nat) st.(s_out);
  out_names : length st.(s_names) = 32%nat;
  out_to_send : payload_ok st.(s_to_send) /\ is_u32 st.(s_to_send).(p_crc2);
  out_replies : forall i r, rs !! i = Some r ->
    st.(s_names) !! i = Some address /\
    exists row, st.(s_out) !! i = Some row /\ take 11 row = reply_wire r }.

Lemma be_bytes_length w : length (be_bytes w) = 4%nat.
Proof. done. Qed.

Lemma reply_wire_length r : length (reply_wire r) = 11%nat.
Proof.
  rw /reply_wire /wire /carries_payload. cbn [p_length reply_packet p_truncated].
  rw andb_false_r. reflexivity.
Qed.

Lemma fields_wire p r :
  p.(p_type) = r.(a_type) -> p.(p_truncated) = false -> p.(p_window) = r.(a_window) ->
  p.(p_long_length) = false -> p.(p_length) = 0 -> p.(p_seqnum) = r.(a_seqnum) ->
  p.(p_timestamp) = r.(a_timestamp) -> wire p false = reply_wire r.
Proof.
  intros H1 H2 H3 H4 H5 H6 H7.
  rw /reply_wire /wire /header_bytes /len_bytes /first_byte /carries_payload /payload_bytes /reply_packet.
  cbn [p_type p_truncated p_window p_long_length p_length p_seqnum p_timestamp p_crc2 p_payload].
  by rw H1 H2 H3 H4 H5 H6 H7 !andb_false_r.
Qed.

Lemma reply_spec r address st rs :
  out_rep address st rs -> reply_ok r -> (length rs < 32)%nat ->
  forall window, r.(a_window) = u8 window ->
  exists st', reply r.(a_type) r.(a_seqnum) window r.(a_timestamp) address st = Done st' /\
    out_rep address st' (rs ++ [r]) /\
    st'.(s_packets) = st.(s_packets) /\ st'.(s_decoded) = st.(s_decoded) /\
    st'.(s_window) = st.(s_window) /\ st'.(s_last_timestamp) = st.(s_last_timestamp).
Proof.
  intros [Hlen [Hrows Hrow] Hnames [Hok Hcrc] Hreps] (Hty & Hseq & Hts) Hlt window Hw.
  rw /reply. set (p := mk_packet r.(a_type) _ _ _ _ _ _ _ _ _).
  rw wr_lt; [|lia]. unbind.
  destruct (rd_lt st.(s_out) st.(s_len)) as (row & Hrd & Hrowat); [lia|]. rw Hrd. unbind.
  assert (length row = 12%nat) as Hrl by (rewrite -> Forall_lookup in Hrow; by eapply Hrow).
  assert (wire p false = reply_wire r) as Hwire by by apply fields_wire.
  assert (fields_ok p) as Hfok.
  { refine (conj Hseq (conj Hts (conj Hcrc (conj _ (conj Hok _)))));
      [cbn; lia|intros _; rw /MAX_PAYLOAD_SIZE; cbn; lia]. }
  rw pack_spec; [|done|rw Hwire reply_wire_length; lia]. cbn [mbind comp_bind default].
  rw wr_lt; [|lia]. unbind. eexists. split; [reflexivity|].
  split; [|repeat split; reflexivity]. rw Hwire. split; cbn [s_len s_out s_names s_to_send].
  - rw length_app Hlen /=. lia.
  - split; [by rw length_insert|]. apply Forall_insert; [done|].
    rw length_app length_drop reply_wire_length. lia.
  - by rw length_insert.
  - exact (conj Hok Hcrc).
  - intros i r' [Hi|[Hi Hr]]%lookup_app_Some.
    + pose proof (lookup_lt_Some _ _ _ Hi). destruct (Hreps _ _ Hi) as (Hn & row' & Ho & Ht).
      rw !list_lookup_insert_ne; [|lia..]. eauto.
    + assert (i = st.(s_len)) as ->.
      { apply list_lookup_singleton_Some in Hr as [Hr _]. lia. }
      assert (r' = r) as -> by by apply list_lookup_singleton_Some in Hr as [_ <-].
      rw !list_lookup_insert_eq; [|lia..]. split; [done|]. eexists. split; [done|].
      rw take_app_le; [|rw reply_wire_length; lia].
      by rw take_ge; [|rw reply_wire_length; lia].
Qed.

(** ** The window *)

Lemma owned_slot packets decoded nodes i n :
  owned packets decoded nodes -> nodes !! i = Some n ->
  exists p pk, n.(n_value) = Some p /\ p <> decoded /\ packets !! p = Some pk /\ payload_ok pk.
Proof.
  intros (ptrs & Hv & [Hd _]%NoDup_cons & [_ Hp]%Forall_cons) Hn.
  assert ((n_value <$> nodes) !! i = Some n.(n_value)) as H by by rw list_lookup_fmap Hn.
  rw Hv list_lookup_fmap in H. destruct (ptrs !! i) as [p|] eqn:E; [|done]. cbn in H.
  apply list_elem_of_lookup_2 in E. rewrite -> Forall_forall in Hp.
  destruct (Hp p E) as (pk & Hpk & Hok). exists p, pk. split_and!; [congruence| |done..].
  by intros ->.
Qed.

Lemma owned_decoded packets decoded nodes :
  owned packets decoded nodes -> exists pk, packets !! decoded = Some pk /\ payload_ok pk.
Proof. by intros (ptrs & _ & _ & [H _]%Forall_cons). Qed.

Lemma owned_store packets decoded nodes pk :
  owned packets decoded nodes -> payload_ok pk -> owned (<[decoded := pk]> packets) decoded nodes.
Proof.
  intros (ptrs & Hv & Hnd & Hp) Hok. exists ptrs. split_and!; [done..|].
  apply Forall_cons in Hp as [_ Hp]. apply Forall_cons. split.
  - exists pk. by rw lookup_insert_eq.
  - apply NoDup_cons in Hnd as [Hd _]. rewrite -> Forall_forall in Hp |- *. intros p Hin.
    rw lookup_insert_ne; [by apply Hp|]. by intros <-.
Qed.

Lemma swap_Permutation {A} (l : list A) k x y :
  l !! k = Some y -> y :: <[k := x]> l ≡ₚ x :: l.
Proof. intros H. by apply (Permutation_insert_swap (x :: l) 0 (S k) x y). Qed.

(** Exchanging [*decoded] with the value of a node. *)
Lemma owned_swap packets decoded nodes k n u temp :
  owned packets decoded nodes -> nodes !! k = Some n -> n.(n_value) = Some temp ->
  owned packets temp (<[k := mk_node (Some decoded) u]> nodes).
Proof.
  intros (ptrs & Hv & Hnd & Hp) Hn Ht.
  assert (ptrs !! k = Some temp) as Hk.
  { assert ((n_value <$> nodes) !! k = Some (Some temp)) as H by by rw list_lookup_fmap Hn /= Ht.
    rw Hv list_lookup_fmap in H. destruct (ptrs !! k); naive_solver. }
  pose proof (swap_Permutation ptrs k decoded temp Hk) as Hperm.
  exists (<[k := decoded]> ptrs). rw Hperm. split_and!; [|done..].
  by rw !list_fmap_insert Hv.
Qed.

Lemma owned_used packets decoded nodes f k :
  (forall n, (f n).(n_value) = n.(n_value)) ->
  owned packets decoded nodes -> owned packets decoded (alter f k nodes).
Proof.
  intros Hf (ptrs & Hv & H). exists ptrs. split; [|done]. rw -Hv.
  apply list_eq => i. rw !list_lookup_fmap list_lookup_alter.
  destruct (decide _) as [->|]; [|done]. destruct (nodes !! i); [|done]. cbn. by rw Hf.
Qed.

Lemma packet_at_used packets window low len s u s' :
  packet_at packets (set_slot window low len s u) s' = packet_at packets window s'.
Proof.
  rw /packet_at /set_slot. cbn [b_nodes]. rw list_lookup_alter.
  destruct (decide _) as [->|]; [|done]. by destruct (window.(b_nodes) !! _).
Qed.

(** Writing [*decoded] does not touch the window. *)
Lemma window_rep_decoded packets decoded window low pending pk :
  window_rep packets decoded window low pending -> payload_ok pk ->
  window_rep (<[decoded := pk]> packets) decoded window low pending.
Proof.
  intros [Hlow Hr Hn Ho Hlen Hdom Hs Hf] Hok. split; try done; [by apply owned_store|].
  intros s Hs1 Hs2. specialize (Hs s Hs1 Hs2). destruct (pending !! s) as [c|]; [|done].
  destruct Hs as (Hu & pk' & Hpk & H). split; [done|]. exists pk'. split; [|done].
  rw /packet_at in Hpk |- *. destruct (window.(b_nodes) !! _) as [n|] eqn:En; [|done].
  destruct (owned_slot _ _ _ _ _ Ho En) as (p & pk2 & Hp & Hne & _). cbn in Hpk |- *. rw Hp in Hpk |- *.
  cbn in Hpk |- *. by rw lookup_insert_ne.
Qed.

Lemma node_of packets decoded window low pending s :
  window_rep packets decoded window low pending ->
  exists n, window.(b_nodes) !! Z.to_nat (hash s) = Some n.
Proof.
  intros H%rep_buf_ok. by apply lookup_lt_is_Some_2, hash_index.
Qed.

Lemma in_window_hash_inj low s s' :
  is_u8 s -> is_u8 s' -> in_window low s = true -> in_window low s' = true ->
  hash s = hash s' -> s = s'.
Proof.
  rw /in_window /MAX_WINDOW_SIZE !Z.ltb_lt. intros. apply (hash_inj low); try done; lia.
Qed.

Lemma hash_index_inj s s' : Z.to_nat (hash s) = Z.to_nat (hash s') -> hash s = hash s'.
Proof. pose proof (hash_range s). pose proof (hash_range s'). lia. Qed.

(** The number just behind the window shares no node with the window. *)
Lemma hash_behind low s :
  is_u8 s -> in_window low s = true -> hash s <> hash (seq_at low 31).
Proof.
  rw /in_window /MAX_WINDOW_SIZE Z.ltb_lt /seq_at !hash_mod. intros. divmod.
Qed.

(** [store_packet] on a free place of the window. *)
Lemma store_packet_spec st low pending s pk :
  window_rep st.(s_packets) st.(s_decoded) st.(s_window) low pending ->
  st.(s_packets) !! st.(s_decoded) = Some pk -> storable pk ->
  is_u8 s -> in_window low s = true -> pending !! s = None ->
  exists decoded window, store_packet s st = Done (st_swapped st.(s_packets) decoded window st) /\
    window_rep st.(s_packets) decoded window low (<[s := chunk_of pk]> pending).
Proof.
  intros Hrep Hpk Hsto Hs Hw Hnone.
  pose proof (rep_buf_ok _ _ _ _ _ Hrep) as Hbok.
  assert (size (<[s := chunk_of pk]> pending) = S (size pending)) as Hsize
    by by apply map_size_insert_None.
  assert (forall s' c, <[s := chunk_of pk]> pending !! s' = Some c -> is_u8 s' /\ in_window low s' = true)
    as Hdom.
  { intros s' c [[<- <-]|[Hne Hc]]%lookup_insert_Some; [done|]. by eapply Hrep. }
  pose proof (pending_size low _ Hdom) as H31.
  destruct Hrep as [Hlow Hr Hn Ho Hlen _ Hslots Hfree].
  set (k := Z.to_nat (hash s)). set (nodes := st.(s_window).(b_nodes)).
  destruct (lookup_lt_is_Some_2 nodes k (hash_index s _ Hbok)) as [n En].
  destruct (owned_slot _ _ _ _ _ Ho En) as (temp & pk' & Hv & Hne & Htemp & Hok').
  exists temp, (mk_buf low (Z.of_nat (S (size pending))) (<[k := mk_node (Some st.(s_decoded)) true]> nodes)).
  split.
  - rw /store_packet (next_spec _ _ Hbok). unbind. fold k.
    rw /set_slot. cbn [b_nodes b_window_low b_length]. fold k nodes.
    assert (alter (set_used true) k nodes !! k = Some (set_used true n)) as E2
      by by rw list_lookup_alter_eq En.
    rw (proj2 (rd_Done _ _ _) E2). cbn [mbind comp_bind set_used n_value]. rw Hv.
    rw /wr E2. unbind. rw Hlow Hlen. do 2 f_equal. f_equal.
    + rw /u8 Z.mod_small; lia.
    + apply list_eq => i. destruct (decide (i = k)) as [->|Hi].
      * rw !list_lookup_insert_eq //; [by apply lookup_lt_Some in En|by apply lookup_lt_Some in E2].
      * by rw !list_lookup_insert_ne // list_lookup_alter_ne.
  - assert (forall s', hash s' <> hash s ->
      <[k := mk_node (Some st.(s_decoded)) true]> nodes !! Z.to_nat (hash s') = nodes !! Z.to_nat (hash s'))
      as Hother.
    { intros s' Hh. apply list_lookup_insert_ne. intros Heq. by apply Hh, hash_index_inj. }
    assert (<[k := mk_node (Some st.(s_decoded)) true]> nodes !! k = Some (mk_node (Some st.(s_decoded)) true))
      as Hhere by (apply list_lookup_insert_eq; by apply lookup_lt_Some in En).
    split; cbn [b_window_low b_length b_nodes]; try done.
    + by rw length_insert.
    + by eapply owned_swap.
    + by rw Hsize.
    + intros s' Hs' Hw'. destruct (decide (s' = s)) as [->|Hne'].
      * rw lookup_insert_eq. rw /used_at /packet_at. cbn [b_nodes]. fold k. rw Hhere. cbn.
        split; [done|]. by exists pk.
      * rw lookup_insert_ne //.
        assert (hash s' <> hash s) as Hh by (intros ?; by apply Hne', (in_window_hash_inj low)).
        specialize (Hslots s' Hs' Hw'). rw /used_at /packet_at in Hslots |- *. cbn [b_nodes].
        by rw Hother.
    + rw /used_at in Hfree |- *. cbn [b_nodes]. rw Hother //. intros Heq. symmetry in Heq.
      by apply hash_behind in Heq.
Qed.

(** ** One datagram *)

Lemma be32_range buf off : bytes buf -> is_u32 (be32 buf off).
Proof.
  intros Hb. rw /be32.
  pose proof (byte_range buf off Hb). pose proof (byte_range buf (off + 1) Hb).
  pose proof (byte_range buf (off + 2) Hb). pose proof (byte_range buf (off + 3) Hb).
  by apply word_of_bytes.
Qed.

Lemma decoded_fields buf out :
  bytes buf -> is_u8 (decoded buf out).(p_seqnum) /\ is_u32 (decoded buf out).(p_timestamp).
Proof.
  intros Hb.
  assert ((decoded buf out).(p_seqnum) = (header_of buf out).(p_seqnum) /\
    (decoded buf out).(p_timestamp) = (header_of buf out).(p_timestamp)) as [-> ->].
  { rw /decoded. by destruct (has_payload _). }
  cbn. split; [by apply byte_range|by apply be32_range].
Qed.

Lemma accepted_length buf len out :
  bytes buf -> wire_error buf len out = None -> 0 <= (decoded buf out).(p_length) <= MAX_PAYLOAD_SIZE.
Proof.
  intros Hb. pose proof (header_of_length_range buf out Hb) as HL.
  assert ((decoded buf out).(p_length) = (header_of buf out).(p_length)) as ->.
  { rw /decoded. by destruct (has_payload _). }
  rw /wire_error. destruct (_ <? _); [done|]. destruct (negb _); [done|]. destruct (_ && _); [done|].
  destruct (Z.ltb_spec MAX_PAYLOAD_SIZE (header_of buf out).(p_length)); [done|]. lia.
Qed.

Lemma min_Z a b : min a b = Z.min a b.
Proof. rw /min. destruct (Z.ltb_spec b a); lia. Qed.

(** The shape of a request: the arrays have their sizes, and the lengths
    do not exceed the buffers. *)
Record req_ok (req : hd_req_t) : Prop := {
  ok_num : (req.(r_num) <= 31)%nat;
  ok_lengths : length req.(r_lengths) = 31%nat /\ Forall (fun l => l <= MAX_PACKET_SIZE) req.(r_lengths);
  ok_buffers : length req.(r_buffer) = 31%nat /\
    Forall (fun b => bytes b /\ length b = Z.to_nat MAX_PACKET_SIZE) req.(r_buffer) }.

(** The [n] datagrams of a request from index [i] on, with their lengths. *)
Definition datagrams (req : hd_req_t) (i n : nat) : list (list Z * Z) :=
  zip (take n (drop i req.(r_buffer))) (take n (drop i req.(r_lengths))).

(** The events the datagrams are, for some earlier contents of the
    structure they are decoded into. *)
Definition events_of (evs : list event) (dgrams : list (list Z * Z)) : Prop :=
  Forall2 (fun ev d => exists out, payload_ok out /\ ev = event_of d.1 d.2 out) evs dgrams.

Lemma datagrams_S req i n buf len :
  req.(r_buffer) !! i = Some buf -> req.(r_lengths) !! i = Some len ->
  datagrams req i (S n) = (buf, len) :: datagrams req (S i) n.
Proof. intros H1 H2. rw /datagrams (drop_S _ _ _ H1) (drop_S _ _ _ H2). done. Qed.

Section receiving.
Context (cfg : hd_cfg_t) (client : client_t) (low : Z) (x : rx_state).
Context (Hxlow : x.(x_low) = low) (Hxact : x.(x_active) = client.(c_active)).
Context (Hxts : x.(x_timestamp) = client.(c_last_timestamp)) (Hts : is_u32 client.(c_last_timestamp)).

Abbreviation address := (client.(c_address)).
Abbreviation max := (cfg.(cfg_max_window_size)).

(** The local state stands for [pending], [ts] and the replies [rs]. *)
Definition st_rep (st : hd_st) (pt : gmap Z chunk * Z) (rs : list reply_t) : Prop :=
  window_rep st.(s_packets) st.(s_decoded) st.(s_window) low pt.1 /\
  st.(s_last_timestamp) = pt.2 /\ is_u32 pt.2 /\ out_rep address st rs.

Lemma out_rep_same st st' rs :
  out_rep address st rs -> st'.(s_len) = st.(s_len) -> st'.(s_out) = st.(s_out) ->
  st'.(s_names) = st.(s_names) -> st'.(s_to_send) = st.(s_to_send) -> out_rep address st' rs.
Proof. intros [] H1 H2 H3 H4. split; by rw ?H1 ?H2 ?H3 ?H4. Qed.

Lemma reply_st st pt rs r window :
  st_rep st pt rs -> reply_ok r -> (length rs < 32)%nat -> r.(a_window) = u8 window ->
  exists st', reply r.(a_type) r.(a_seqnum) window r.(a_timestamp) address st = Done st' /\
    st_rep st' pt (rs ++ [r]).
Proof.
  intros (Hw & Ht & Hr & Ho) Hok Hlen Hwin.
  destruct (reply_spec _ _ _ _ Ho Hok Hlen window Hwin) as (st' & Hrun & Ho' & H1 & H2 & H3 & H4).
  exists st'. split; [done|]. rw /st_rep H1 H2 H3 H4. done.
Qed.

Lemma reply_ack_st st pt rs ts :
  st_rep st pt rs -> is_u32 ts -> (length rs < 32)%nat ->
  exists st', reply_ack cfg ts address st = Done st' /\ st_rep st' pt (rs ++ [ack max low pt.1 ts]).
Proof.
  intros Hst Hts' Hlen. pose proof Hst as (Hw & _).
  rw /reply_ack (rep_low _ _ _ _ _ Hw) (rep_length _ _ _ _ _ Hw) min_Z.
  apply (reply_st st pt rs (ack max low pt.1 ts)); try done.
  split; [done|]. split; [apply Hw|done].
Qed.

(** Receiving a packet into [*decoded] keeps the rest. *)
Lemma received_st st pt rs pk ts :
  st_rep st pt rs -> payload_ok pk -> is_u32 ts ->
  st_rep (st_received (<[st.(s_decoded) := pk]> st.(s_packets)) ts st) (pt.1, ts) rs.
Proof.
  intros (Hw & Ht & Hr & Ho) Hok Hts'. split; [by apply window_rep_decoded|].
  split; [done|]. split; [done|]. by eapply out_rep_same.
Qed.

Lemma receive_spec st pt rs buf len :
  st_rep st pt rs -> (length rs < 32)%nat -> bytes buf -> len <= Z.of_nat (length buf) ->
  exists out buf' st', payload_ok out /\ receive cfg client buf len st = Done (buf', st') /\
    length buf' = length buf /\ bytes buf' /\
    let '(pt', rs') := rx_event max x pt (event_of buf len out) in
    st_rep st' pt' (rs ++ rs') /\ (length rs' <= 1)%nat.
Proof using Hxlow Hxact Hxts Hts.
  intros Hst Hlen Hb Hl. pose proof Hst as (Hw & Ht & Hr & Ho).
  destruct (owned_decoded _ _ _ (rep_owned _ _ _ _ _ Hw)) as (out & Hout & Hok). exists out.
  destruct (unpack_spec buf len out Hb Hl Hok) as (buf' & out' & Hun & _ & Hdec).
  destruct (unpack_shape _ _ _ _ _ _ Hb Hok Hun) as (Hok' & Hlen' & Hb').
  rw /receive (load_Some _ _ _ Hout). unbind. rw Hun. unbind.
  rw (store_Some _ _ _ _ Hout). unbind. rw /event_of.
  exists buf'. destruct pt as [pending ts0]. cbn [fst snd] in *.
  destruct (wire_error buf len out) as [e|] eqn:E.
  { pose proof (received_st st _ rs out' st.(s_last_timestamp) Hst Hok' ltac:(by rw Ht)) as Hst'.
    destruct (reply_ack_st _ _ _ client.(c_last_timestamp) Hst' Hts Hlen) as (st' & -> & Hst'').
    exists st'. split_and!; try done. cbn. rw Hxlow Hxts. split; [|lia]. cbn in Hst''. by rw Ht in Hst''. }
  destruct (Hdec eq_refl) as [_ Hd]. rw -Hd. rewrite <- Hd in Hdec.
  destruct (decoded_fields buf out Hb) as [Hseq Hts']. rewrite <- Hd in Hseq, Hts'.
  pose proof (accepted_length _ _ _ Hb E) as HL. rewrite <- Hd in HL.
  pose proof (received_st st _ rs out' out'.(p_timestamp) Hst Hok' Hts') as Hst'. cbn [fst] in Hst'.
  set (st1 := st_received _ _ _) in Hst' |- *.
  destruct (reply_ack_st st1 _ _ out'.(p_timestamp) Hst' Hts' Hlen) as (stA & HA & HstA). cbn [fst] in HstA.
  destruct (client.(c_active)) eqn:Hact; cbn [negb].
  2:{ rw HA. unbind. exists stA. split_and!; try done.
      destruct (out'.(p_type)); [|destruct (out'.(p_truncated))|..];
        cbn; rw ?Hxact ?Hact ?Hxlow; split; try done; lia. }
  destruct (out'.(p_type)) eqn:Hty.
  1,3,4: exists st1; split_and!; try done; cbn; rw Hxact ?Hact; cbn; rw app_nil_r; split; [done|lia].
  rw bool_decide_eq_true_2 //.
  destruct (out'.(p_truncated)).
  { destruct (reply_st st1 _ rs (nack max low out'.(p_seqnum) out'.(p_timestamp))
      (min max (MAX_WINDOW_SIZE - low)) Hst') as (st' & HN & HstN); [done|done|by rw min_Z|].
    cbn in HN. pose proof (rep_low _ _ _ _ _ (proj1 Hst')) as Hlow1. cbn [s_window] in Hlow1.
    rw Hlow1 HN. unbind. exists st'. split_and!; try done. cbn. rw Hxact Hxlow.
    split; [done|lia]. }
  pose proof (proj1 Hst') as Hw1.
  rw (rep_low _ _ _ _ _ Hw1) sequences_at_spec; [|apply Hw|done]. unbind.
  cbn [rx_event]. rw Hxact Hxlow. cbn [andb].
  destruct (in_window low out'.(p_seqnum)) eqn:Hin; cbn [andb Z.eqb].
  2:{ rw HA. unbind. exists stA. split_and!; try done; cbn; lia. }
  rw is_used_spec; [|by eapply rep_buf_ok]. unbind.
  pose proof (rep_slots _ _ _ _ _ Hw1 _ Hseq Hin) as Hslot. cbn [fst] in Hslot.
  destruct (pending !! out'.(p_seqnum)) as [c|] eqn:Hp.
  { destruct Hslot as [-> _]. rw HA. unbind. exists stA.
    split_and!; done. }
  rw Hslot. destruct (store_packet_spec st1 low pending out'.(p_seqnum) out') as (d & w & Hrun & Hw2);
    try done; [by cbn; rw lookup_insert_eq|].
  rw Hrun. unbind. eexists. split_and!; [done..|]. cbn. rw app_nil_r.
  split; [|lia]. split; [done|]. split; [done|]. split; [done|].
  by eapply out_rep_same; [apply Hst'|..].
Qed.

Lemma receive_all_spec n i req st pt rs :
  st_rep st pt rs -> (length rs + n < 32)%nat -> (i + n <= 31)%nat -> req_ok req ->
  exists evs req' st', receive_all cfg client n i req st = Done (req', st') /\
    events_of evs (datagrams req i n) /\ req_ok req' /\
    req'.(r_stop) = req.(r_stop) /\ req'.(r_client) = req.(r_client) /\
    let '(pt', rs') := rx_events max x pt evs in
    st_rep st' pt' (rs ++ rs') /\ (length rs' <= n)%nat.
Proof using Hxlow Hxact Hxts Hts.
  revert i req st pt rs. induction n as [|n IH]; intros i req st pt rs Hst Hlen Hi Hreq.
  { exists [], req, st. cbn. rw app_nil_r. split_and!; try done. constructor. }
  pose proof Hreq as [Hnum [Hll Hlens] [Hbl Hbufs]].
  destruct (rd_lt req.(r_buffer) i) as (buf & Hrb & Hbuf); [lia|].
  destruct (rd_lt req.(r_lengths) i) as (len & Hrl & Hln); [lia|].
  destruct (proj1 (Forall_lookup _ _) Hbufs _ _ Hbuf) as [Hb Hbn].
  pose proof (proj1 (Forall_lookup _ _) Hlens _ _ Hln) as Hle. cbn beta in Hle.
  destruct (receive_spec st pt rs buf len Hst) as (out & buf' & st1 & Hok & Hrun & Hl' & Hb' & Hev);
    [lia|done|rw Hbn /MAX_PACKET_SIZE in Hle |- *; lia|].
  cbn [receive_all]. rw Hrb. unbind. rw Hrl. unbind.
  rw Hrun. unbind. rw wr_lt; [|lia]. unbind.
  set (req1 := mk_req _ _ _ _ _).
  destruct (rx_event max x pt (event_of buf len out)) as [pt1 rs1] eqn:E1.
  destruct Hev as [Hst1 Hrs1].
  assert (req_ok req1) as Hreq1.
  { split; cbn; [done|done|]. split; [by rw length_insert|].
    apply Forall_insert; [done|]. by rw Hl'. }
  destruct (IH (S i) req1 st1 pt1 (rs ++ rs1) Hst1) as (evs & req2 & st2 & Hrun2 & Hevs & Hreq2 & Hs & Hc & H2);
    [rw length_app; lia|lia|done|].
  exists (event_of buf len out :: evs), req2, st2. split; [done|].
  split.
  { rw (datagrams_S _ _ _ buf len) //. constructor; [by exists out|].
    assert (datagrams req1 (S i) n = datagrams req (S i) n) as <-; [|done].
    rw /datagrams. cbn. by rw drop_insert_lt; [|lia]. }
  split; [done|]. split; [done|]. split; [done|].
  cbn [rx_events]. rw E1. destruct (rx_events max x pt1 evs) as [pt2 rs2].
  rw app_assoc length_app. destruct H2. split; [done|lia].
Qed.
End receiving.

(** ** The run of packets that is next in order *)

(** [n] nodes from that of [s] on are marked unused. *)
Fixpoint clear_slots (n : nat) (s : Z) (window : buf_t) : buf_t :=
  match n with
  | O => window
  | S n => clear_slots n (seq_at s 1) (set_slot window window.(b_window_low) window.(b_length) s false)
  end.

Lemma clear_slots_low n s w : (clear_slots n s w).(b_window_low) = w.(b_window_low).
Proof. revert s w. induction n as [|n IH]; [done|]. intros. cbn [clear_slots]. by rw IH. Qed.

Lemma clear_slots_length n s w : (clear_slots n s w).(b_length) = w.(b_length).
Proof. revert s w. induction n as [|n IH]; [done|]. intros. cbn [clear_slots]. by rw IH. Qed.

Lemma set_unused_ok w s : buf_ok w -> buf_ok (set_slot w w.(b_window_low) w.(b_length) s false).
Proof. intros H. apply set_slot_ok; [done|apply H..]. Qed.

Lemma clear_slots_ok n s w : buf_ok w -> buf_ok (clear_slots n s w).
Proof.
  revert s w. induction n as [|n IH]; [done|]. intros. cbn [clear_slots]. by apply IH, set_unused_ok.
Qed.

Lemma clear_slots_packet_at n s w packets s' :
  packet_at packets (clear_slots n s w) s' = packet_at packets w s'.
Proof.
  revert s w. induction n as [|n IH]; [done|]. intros. cbn [clear_slots]. by rw IH packet_at_used.
Qed.

Lemma clear_slots_owned n s w packets decoded :
  owned packets decoded w.(b_nodes) -> owned packets decoded (clear_slots n s w).(b_nodes).
Proof.
  revert s w. induction n as [|n IH]; [done|]. intros s w H. cbn [clear_slots].
  apply IH. by apply owned_used.
Qed.

Lemma clear_slots_kept n s w s' :
  is_u8 s -> (forall k, (k < n)%nat -> hash (seq_at s k) <> hash s') ->
  used_at (clear_slots n s w) s' = used_at w s'.
Proof.
  revert s w. induction n as [|n IH]; [done|]. intros s w Hs H. cbn [clear_slots].
  rw IH; [|apply seq_at_range|].
  - apply used_at_set_ne. rw -{1}(seq_at_0 s Hs). apply H. lia.
  - intros k Hk. rw seq_at_seq_at. apply H. lia.
Qed.

Lemma clear_slots_unused n s w s' :
  buf_ok w -> used_at w s' = false -> used_at (clear_slots n s w) s' = false.
Proof.
  revert s w. induction n as [|n IH]; [done|]. intros s w Hw H. cbn [clear_slots].
  apply IH; [by apply set_unused_ok|]. destruct (decide (hash s = hash s')) as [Heq|Hne].
  - assert (used_at (set_slot w w.(b_window_low) w.(b_length) s false) s' =
      used_at (set_slot w w.(b_window_low) w.(b_length) s false) s) as ->
      by by rw /used_at Heq.
    by apply used_at_set.
  - by rw used_at_set_ne.
Qed.

Lemma clear_slots_cleared n s w k :
  buf_ok w -> is_u8 s -> (k < n)%nat -> used_at (clear_slots n s w) (seq_at s k) = false.
Proof.
  revert s w k. induction n as [|n IH]; [lia|]. intros s w k Hw Hs Hk. cbn [clear_slots].
  destruct k as [|k].
  - rw seq_at_0 //. apply clear_slots_unused; [by apply set_unused_ok|]. by apply used_at_set.
  - replace (seq_at s (S k)) with (seq_at (seq_at s 1) k) by by rw seq_at_seq_at.
    apply IH; [by apply set_unused_ok|apply seq_at_range|lia].
Qed.

Lemma in_window_seq_at_31 low : in_window low (seq_at low 31) = false.
Proof. rw /in_window /MAX_WINDOW_SIZE /seq_at Z.ltb_ge. divmod. Qed.

Lemma again_spec low k :
  (k <= 31)%nat -> in_window low (seq_at low k) = bool_decide (k < 31)%nat.
Proof.
  intros. destruct (decide (k = 31%nat)) as [->|]; [by rw in_window_seq_at_31|].
  rw seq_at_in_window; [|lia]. symmetry. apply bool_decide_eq_true. lia.
Qed.

Lemma land_seq_at low k : Z.land (low + Z.of_nat k) 0xFF = seq_at low k.
Proof. apply land_0xFF. Qed.

Definition FILE_BUFFER : nat := Z.to_nat (MAX_PAYLOAD_SIZE * MAX_WINDOW_SIZE).

Section draining.
Context (packets : gmap ptr packet_t) (low : Z) (pending : gmap Z chunk) (Hlow : is_u8 low).

(** From the [k]-th number of the window on the nodes hold the pending packets. *)
Definition slots_from (k : nat) (window : buf_t) : Prop :=
  buf_ok window /\ window.(b_window_low) = low /\
  forall j, (k <= j < 31)%nat ->
    match pending !! seq_at low j with
    | None => used_at window (seq_at low j) = false
    | Some c => used_at window (seq_at low j) = true /\
        exists pk, packet_at packets window (seq_at low j) = Some pk /\ storable pk /\ chunk_of pk = c
    end.

(** The state of the loop after [k] rounds. *)
Record drain_ok (k : nat) (d : drain_st) : Prop := {
  dok_slots : slots_from k d.(d_window);
  dok_i : d.(d_i) = low + Z.of_nat k;
  dok_cnt : d.(d_cnt) = Z.of_nat k;
  dok_buffer : length d.(d_file_buffer) = FILE_BUFFER;
  dok_offset : (d.(d_offset) <= 512 * k)%nat;
  dok_remove : k = 0%nat \/ d.(d_remove) = false }.

Lemma slots_from_clear k w :
  (k < 31)%nat -> slots_from k w ->
  slots_from (S k) (set_slot w w.(b_window_low) w.(b_length) (seq_at low k) false).
Proof.
  intros Hk (Hok & Hl & H). split; [by apply set_unused_ok|]. split; [done|].
  intros j Hj. specialize (H j ltac:(lia)). rw packet_at_used.
  assert (hash (seq_at low k) <> hash (seq_at low j)) as Hne.
  { intros Heq%(in_window_hash_inj low); try apply seq_at_range; try (apply seq_at_in_window; lia).
    apply seq_at_inj in Heq; lia. }
  by rw used_at_set_ne.
Qed.

(** The body of the loop on a node that holds the chunk [(ts, data)]. *)
Lemma drain_node_spec k d ts data :
  (k < 31)%nat -> drain_ok k d -> pending !! seq_at low k = Some (ts, data) ->
  let w := set_slot d.(d_window) d.(d_window).(b_window_low) d.(d_window).(b_length) (seq_at low k) false in
  exists d', drain_node packets w (Z.to_nat (hash (seq_at low k))) d = Done d' /\
    d'.(d_window) = w /\ d'.(d_i) = low + Z.of_nat (S k) /\ d'.(d_cnt) = Z.of_nat (S k) /\
    length d'.(d_file_buffer) = FILE_BUFFER /\ d'.(d_offset) = (d.(d_offset) + length data)%nat /\
    (d'.(d_offset) <= 512 * S k)%nat /\ d'.(d_last_timestamp) = ts /\
    d'.(d_remove) = bool_decide (data = []) /\
    take d'.(d_offset) d'.(d_file_buffer) = take d.(d_offset) d.(d_file_buffer) ++ data.
Proof.
  intros Hk [(Hok & Hl & Hs) Hi Hcnt Hbuf Hoff Hrem] Hp w.
  specialize (Hs k ltac:(lia)). rw Hp in Hs. destruct Hs as (_ & pk & Hpk & ((Hpl & Hpb) & HL & _) & Hc).
  injection Hc as Hts Hdata.
  rewrite -> (eq_sym (packet_at_used packets d.(d_window) d.(d_window).(b_window_low)
    d.(d_window).(b_length) (seq_at low k) false (seq_at low k))) in Hpk. fold w in Hpk.
  rw /packet_at in Hpk. rw /drain_node.
  destruct (w.(b_nodes) !! _) as [n|] eqn:En; [|done]. cbn in Hpk.
  rw (proj2 (rd_Done _ _ _) En). unbind.
  destruct (n.(n_value)) as [p|]; [|done]. cbn in Hpk. rw (load_Some _ _ _ Hpk). unbind.
  rw /MAX_PAYLOAD_SIZE in HL Hpl.
  assert (length data = Z.to_nat pk.(p_length)) as Hlen by (rw -Hdata length_take; lia).
  rw /FILE_BUFFER /MAX_PAYLOAD_SIZE /MAX_WINDOW_SIZE in Hbuf.
  destruct (Z.ltb_spec 0 pk.(p_length)).
  - rw slice_fits; [|lia]. unbind. rw drop_0 Hdata memcpy_fits; [|lia].
    unbind. eexists. split; [reflexivity|]. cbn.
    rw /FILE_BUFFER /MAX_PAYLOAD_SIZE /MAX_WINDOW_SIZE -Hlen.
    split_and!; try done; try lia.
    + rw !length_app length_take length_drop. lia.
    + symmetry. apply bool_decide_eq_false. intros ->. cbn in Hlen. lia.
    + rw app_assoc take_app_length'; [done|]. rw length_app length_take. lia.
  - assert (pk.(p_length) = 0) as H0 by lia. rw H0. cbn [Z.eqb andb].
    assert (data = []) as -> by (apply nil_length_inv; lia).
    assert ((if negb d.(d_remove) then Done (d.(d_file_buffer), d.(d_offset), true)
      else Done (d.(d_file_buffer), d.(d_offset), d.(d_remove))) =
      Done (d.(d_file_buffer), d.(d_offset), true)) as -> by by destruct (d.(d_remove)).
    unbind. eexists. split; [reflexivity|]. cbn.
    rw /FILE_BUFFER /MAX_PAYLOAD_SIZE /MAX_WINDOW_SIZE app_nil_r.
    split_and!; try done; lia.
Qed.

Lemma contents_cons ts p cs : contents ((ts, p) :: cs) = p ++ contents cs.
Proof. done. Qed.

(** The result of the loop: the chunks [cs] have been copied out. *)
Record drained (k : nat) (d d' : drain_st) (cs : list chunk) : Prop := {
  dr_window : d'.(d_window) = clear_slots (length cs) (seq_at low k) d.(d_window);
  dr_cnt : d'.(d_cnt) = Z.of_nat (k + length cs);
  dr_offset : d'.(d_offset) = (d.(d_offset) + length (contents cs))%nat;
  dr_buffer : length d'.(d_file_buffer) = FILE_BUFFER /\ (d'.(d_offset) <= FILE_BUFFER)%nat;
  dr_bytes : take d'.(d_offset) d'.(d_file_buffer) = take d.(d_offset) d.(d_file_buffer) ++ contents cs;
  dr_last : forall ts p, last cs = Some (ts, p) ->
    d'.(d_last_timestamp) = ts /\ d'.(d_remove) = ends_file cs;
  dr_none : cs = [] ->
    d'.(d_last_timestamp) = d.(d_last_timestamp) /\ d'.(d_remove) = d.(d_remove) }.

Lemma drain_spec n fuel k d :
  (n + k = 31)%nat -> (0 < n <= fuel)%nat -> drain_ok k d ->
  exists d', drain fuel packets d = Done d' /\ drained k d d' (next_chunks n (seq_at low k) pending).
Proof using Hlow.
  revert fuel k d. induction n as [|n IH]; intros fuel k d Hn Hf Hd; [lia|].
  destruct fuel as [|fuel]; [lia|]. cbn [drain]. pose proof Hd as [(Hok & Hl & Hs) Hi Hcnt Hbuf Hoff Hrem].
  rw Hi land_seq_at get_spec //; [|apply seq_at_range].
  specialize (Hs k ltac:(lia)). cbn [next_chunks].
  destruct (pending !! seq_at low k) as [[ts data]|] eqn:Hp.
  2:{ rw Hs. unbind. rw Hl Hi land_seq_at sequences_at_spec; [|done|apply seq_at_range].
      unbind. rw andb_false_r. cbn [andb].
      exists d. split; [done|]. split; cbn; try done; rw ?Nat.add_0_r ?app_nil_r //.
      split; [done|]. rw /FILE_BUFFER /MAX_PAYLOAD_SIZE /MAX_WINDOW_SIZE. lia. }
  destruct Hs as [-> _]. unbind.
  destruct (drain_node_spec k d ts data ltac:(lia) Hd Hp)
    as (d1 & Hrun & Hw1 & Hi1 & Hc1 & Hb1 & Ho1 & Ho1' & Ht1 & Hr1 & Hby1).
  rw Hrun. unbind.
  assert (d1.(d_window).(b_window_low) = low) as -> by by rw Hw1.
  rw Hi1 land_seq_at sequences_at_spec; [|done|apply seq_at_range]. unbind.
  rw again_spec; [|lia]. rw Hc1 Hr1 (bool_decide_eq_true_2 (is_Some _)); [|by eexists].
  assert (d1.(d_offset) <= FILE_BUFFER)%nat as Hle
    by (rw /FILE_BUFFER /MAX_PAYLOAD_SIZE /MAX_WINDOW_SIZE; lia).
  assert (drained k d d1 [(ts, data)] ) as Hone.
  { assert (contents [(ts, data)] = data) as Hcd by by rw /contents /= app_nil_r.
    split; rw ?Hcd; try done; [rw Hc1 /=; lia|].
    intros ts' p [= <- <-]. split; [done|]. rw Hr1. rw /ends_file. cbn. by destruct data. }
  destruct data as [|b data].
  { cbn [bool_decide decide]. rw (bool_decide_eq_true_2 ([] = [])) //. rw andb_false_r.
    by exists d1. }
  rw (bool_decide_eq_false_2 (b :: data = [])) // andb_true_r.
  destruct n as [|n].
  { assert (k = 30%nat) as -> by lia. cbn [bool_decide]. rw (bool_decide_eq_false_2 (31 < 31)%nat); [|lia].
    cbn [negb andb Z.eqb next_chunks]. by exists d1. }
  rw (bool_decide_eq_true_2 (S k < 31)%nat); [|lia].
  assert (Z.of_nat (S k) <? MAX_WINDOW_SIZE = true) as ->
    by (apply Z.ltb_lt; rw /MAX_WINDOW_SIZE; lia).
  cbn [negb andb Z.eqb].
  destruct (IH fuel (S k) d1) as (d' & Hrun' & [Hw Hc Ho [Hb Hob] Hby Hlast Hnone]); [lia|lia| |].
  { split; try done; [|by right]. rw Hw1. apply slots_from_clear; [lia|by apply Hd]. }
  exists d'. split; [done|]. rw seq_at_seq_at Nat.add_1_r.
  destruct Hone as [_ _ Ho1'' _ Hby1' _ _].
  set (cs := next_chunks (S n) (seq_at low (S k)) pending) in *.
  split; [|rw Hc /=; lia| |done| | |done].
  - by rw Hw Hw1 /= seq_at_seq_at Nat.add_1_r.
  - rw Ho Ho1'' !contents_cons !length_app. change (contents []) with (@nil Z). cbn [length]. lia.
  - by rw Hby Hby1' !contents_cons app_nil_r -app_assoc.
  - intros ts' p. destruct cs as [|c cs'] eqn:Ecs.
    + intros [= -> <-]. by destruct (Hnone eq_refl) as [-> ->].
    + rw ends_file_cons. exact (Hlast ts' p).
Qed.
End draining.

(** ** The window moves on *)

Lemma used_at_hash w s s' : hash s = hash s' -> used_at w s = used_at w s'.
Proof. by rw /used_at => ->. Qed.

Lemma hash_seq_at_32 low j : hash (seq_at low (j + 32)) = hash (seq_at low j).
Proof. rw !hash_mod /seq_at. divmod. Qed.

Lemma window_rep_advance packets decoded w low pending m :
  let cs := next_chunks 31 low pending in
  window_rep packets decoded w low pending -> m = length cs -> (0 < m)%nat ->
  window_rep packets decoded
    (mk_buf (u8 (low + Z.of_nat m)) (u8 (w.(b_length) - Z.of_nat m)) (clear_slots m low w).(b_nodes))
    (seq_at low m) (forget m low pending).
Proof.
  intros cs Hrep Hm Hpos.
  pose proof (rep_buf_ok _ _ _ _ _ Hrep) as Hok.
  pose proof (next_chunks_length 31 low pending) as H31. fold cs in H31. rewrite <- Hm in H31.
  destruct Hrep as [Hl Hr Hn Ho Hlen Hdom Hslots Hfree].
  pose proof (forget_size m low pending cs Hr ltac:(lia) (eq_sym Hm)
    (fun k c => next_chunks_lookup 31 low pending k c Hr)) as Hsize.
  pose proof (pending_size low pending Hdom) as Hs31.
  assert (forall j, (j < m)%nat -> used_at (clear_slots m low w) (seq_at low j) = false) as Hclear
    by (intros; by apply clear_slots_cleared).
  assert (forall s, used_at (mk_buf (u8 (low + Z.of_nat m)) (u8 (w.(b_length) - Z.of_nat m))
    (clear_slots m low w).(b_nodes)) s = used_at (clear_slots m low w) s) as Hused by done.
  split; cbn [b_window_low b_length b_nodes].
  - done.
  - apply seq_at_range.
  - by apply clear_slots_ok.
  - by apply clear_slots_owned.
  - rw Hlen /u8 Z.mod_small; lia.
  - intros s c Hs. apply forget_Some in Hs as [Hs Hne]; [|done].
    destruct (Hdom s c Hs) as [Hs8 Hw]. split; [done|].
    destruct (in_window_seq_at low s Hs8 Hw) as (j & Hj & ->).
    assert (m <= j)%nat by (apply Nat.nlt_ge; intros Hlt; by apply (Hne j)).
    replace j with (m + (j - m))%nat by lia. rw -seq_at_seq_at. apply seq_at_in_window. lia.
  - intros s Hs8 Hw. destruct (in_window_seq_at _ s Hs8 Hw) as (j & Hj & ->). rw seq_at_seq_at.
    rw Hused. destruct (decide (m + j < 31)%nat) as [Hin|Hout].
    + specialize (Hslots (seq_at low (m + j)) (seq_at_range _ _) (seq_at_in_window _ _ Hin)).
      rw forget_kept //; [|intros k Hk Heq%seq_at_inj; lia].
      rw /packet_at. change (_.(b_nodes)) with ((clear_slots m low w).(b_nodes)) at 1.
      fold (packet_at packets (clear_slots m low w) (seq_at low (m + j))).
      rw clear_slots_packet_at clear_slots_kept //.
      intros k Hk Heq%(in_window_hash_inj low); try apply seq_at_range; try (apply seq_at_in_window; lia).
      apply seq_at_inj in Heq; lia.
    + assert (pending !! seq_at low (m + j) = None) as Hnone.
      { destruct (pending !! _) as [c|] eqn:E; [|done]. apply Hdom in E as [_ E].
        rw /in_window /MAX_WINDOW_SIZE /seq_at Z.ltb_lt in E. divmod. }
      rw forget_None //. destruct (decide (m + j = 31)%nat) as [->|].
      * by apply clear_slots_unused.
      * replace (m + j)%nat with (m + j - 32 + 32)%nat by lia.
        rw (used_at_hash _ _ _ (hash_seq_at_32 _ _)). apply Hclear. lia.
  - rw Hused seq_at_seq_at. replace (m + 31)%nat with (m - 1 + 32)%nat by lia.
    rw (used_at_hash _ _ _ (hash_seq_at_32 _ _)). apply Hclear. lia.
Qed.

(** ** A whole request *)

(** The heap at a client stands for the state [x]. *)
Record client_at (h : heap_t) (decoded p : ptr) (x : rx_state)
    (c : client_t) (w lock f : ptr) (window : buf_t) : Prop := {
  at_client : h.(h_clients) !! p = Some c;
  at_active : c.(c_active) = x.(x_active);
  at_timestamp : c.(c_last_timestamp) = x.(x_timestamp) /\ is_u32 x.(x_timestamp);
  at_transferred : c.(c_transferred) = x.(x_transferred);
  at_window : c.(c_window) = Some w /\ h.(h_bufs) !! w = Some window;
  at_lock : c.(c_lock) = Some lock /\ h.(h_mutexes) !! lock = Some false;
  at_file : c.(c_out_file) = Some f /\
    h.(h_files) !! f = Some (mk_file x.(x_active) (length x.(x_file)) x.(x_file));
  at_rep : window_rep h.(h_packets) decoded window x.(x_low) x.(x_pending) }.

Definition hd_rep (h : heap_t) (decoded p : ptr) (address : option ptr) (x : rx_state) : Prop :=
  exists c w lock f window, client_at h decoded p x c w lock f window /\ c.(c_address) = address.

(** The buffers of a handler thread. *)
Record buffers_ok (file_buffer : list Z) (out : list (list Z)) (names : list (option ptr)) : Prop := {
  bok_file : length file_buffer = FILE_BUFFER;
  bok_out : length out = 32%nat /\ Forall (fun row => length row = 12%nat) out;
  bok_names : length names = 32%nat }.

(** Everything the run delivers is written, and there is memory for the
    end time. *)
Record env_good (env : hd_env) (x x' : rx_state) : Prop := {
  eg_written : env.(v_written) = (length x'.(x_file) - length x.(x_file))%nat;
  eg_end_time : is_Some env.(v_end_time);
  eg_to_send : payload_ok env.(v_to_send) /\ is_u32 env.(v_to_send).(p_crc2) }.

Lemma sent_replies address st rs :
  out_rep address st rs ->
  take st.(s_len) (zip st.(s_names) (take 11 <$> st.(s_out))) =
  (fun r => (address, reply_wire r)) <$> rs.
Proof.
  intros [Hlen [Hrows _] Hnames _ Hreps]. rw Hlen. apply list_eq => i. rw list_lookup_fmap.
  destruct (rs !! i) as [r|] eqn:Er.
  - destruct (Hreps i r Er) as (Hn & row & Ho & Ht).
    rw lookup_take_lt; [|by eapply lookup_lt_Some].
    cbn. rw lookup_zip_with Hn. cbn. rw list_lookup_fmap Ho. cbn. by rw Ht.
  - apply lookup_ge_None in Er. cbn. by apply lookup_take_ge.
Qed.

Lemma concat_replicate_len {A} (l : list A) : take (length l) l = l.
Proof. by apply take_ge. Qed.

Lemma fwrite_append (data bytes : list Z) n :
  n = length bytes ->
  fwrite (mk_file true (length data) data) bytes n =
  Done (mk_file true (length (data ++ bytes)) (data ++ bytes)).
Proof.
  intros ->. rw /fwrite. cbn [f_open f_pos f_data]. do 2 f_equal.
  - by rw length_app.
  - rw !take_ge // drop_ge; [|lia]. by rw app_nil_r.
Qed.

(** What [finish] leaves, when the write succeeds. *)
Record finished (h h' : heap_t) (client client' : client_t) (f : ptr) (st st' : hd_st)
    (x' : rx_state) (rs : list reply_t) : Prop := {
  fin_heap : h'.(h_clients) = h.(h_clients) /\ h'.(h_mutexes) = h.(h_mutexes) /\
    h'.(h_bufs) = h.(h_bufs) /\ h'.(h_packets) = h.(h_packets);
  fin_file : h'.(h_files) !! f = Some (mk_file x'.(x_active) (length x'.(x_file)) x'.(x_file));
  fin_client : client'.(c_active) = x'.(x_active) /\ client'.(c_last_timestamp) = x'.(x_timestamp) /\
    client'.(c_transferred) = x'.(x_transferred) /\ client'.(c_lock) = client.(c_lock) /\
    client'.(c_window) = client.(c_window) /\ client'.(c_out_file) = client.(c_out_file) /\
    client'.(c_address) = client.(c_address);
  fin_timestamp : is_u32 x'.(x_timestamp);
  fin_st : st'.(s_packets) = st.(s_packets) /\ st'.(s_decoded) = st.(s_decoded);
  fin_window : window_rep st.(s_packets) st.(s_decoded) st'.(s_window) x'.(x_low) x'.(x_pending);
  fin_out : out_rep client.(c_address) st' rs }.

(** The last chunk of a run is a pending packet. *)
Lemma last_chunk_timestamp packets decoded w low pending ts p :
  window_rep packets decoded w low pending ->
  last (next_chunks 31 low pending) = Some (ts, p) -> is_u32 ts.
Proof.
  intros Hrep. rw last_lookup. intros Hl%next_chunks_lookup; [|apply Hrep].
  destruct (rep_dom _ _ _ _ _ Hrep _ _ Hl) as [H8 Hw].
  pose proof (rep_slots _ _ _ _ _ Hrep _ H8 Hw) as Hs. rw Hl in Hs.
  destruct Hs as (_ & pk & _ & (_ & _ & Hts) & Hc). by injection Hc as <- _.
Qed.

Lemma swapped_out_rep address st rs packets decoded window :
  out_rep address st rs -> out_rep address (st_swapped packets decoded window st) rs.
Proof. by intros []. Qed.

(** The acknowledgement behind a delivery. *)
Lemma final_ack cfg address st rs low pending ts :
  window_rep st.(s_packets) st.(s_decoded) st.(s_window) low pending ->
  out_rep address st rs -> (length rs < 32)%nat -> is_u32 ts ->
  exists st', reply_ack cfg ts address st = Done st' /\
    out_rep address st' (rs ++ [ack cfg.(cfg_max_window_size) low pending ts]) /\
    st'.(s_packets) = st.(s_packets) /\ st'.(s_decoded) = st.(s_decoded) /\
    st'.(s_window) = st.(s_window).
Proof.
  intros Hw Ho Hlen Hts.
  rw /reply_ack (rep_low _ _ _ _ _ Hw) (rep_length _ _ _ _ _ Hw) min_Z.
  destruct (reply_spec (ack cfg.(cfg_max_window_size) low pending ts) address st rs Ho)
    with (window := Z.min cfg.(cfg_max_window_size) (MAX_WINDOW_SIZE - Z.of_nat (size pending)))
    as (st' & Hrun & Ho' & H1 & H2 & H3 & _); [|done|done|by exists st'].
  split; [done|]. split; [apply Hw|done].
Qed.

Lemma files_with_files v h : (with_files v h).(h_files) = v.
Proof. by destruct h. Qed.

Section finishing.
Context (cfg : hd_cfg_t) (env : hd_env) (h : heap_t) (client : client_t) (f : ptr) (x : rx_state).
Context (st : hd_st) (rs : list reply_t) (d0 d : drain_st).
Context (cs : list chunk) (Hcs : cs = next_chunks 31 x.(x_low) x.(x_pending)).
Context (Hfile : client.(c_out_file) = Some f).
Context (Hf : h.(h_files) !! f = Some (mk_file x.(x_active) (length x.(x_file)) x.(x_file))).
Context (Hact : client.(c_active) = x.(x_active)) (Hts : client.(c_last_timestamp) = x.(x_timestamp)).
Context (Hu32 : is_u32 x.(x_timestamp)) (Htr : client.(c_transferred) = x.(x_transferred)).
Context (Hrep : window_rep st.(s_packets) st.(s_decoded) st.(s_window) x.(x_low) x.(x_pending)).
Context (Hout : out_rep client.(c_address) st rs) (Hlen : (length rs < 32)%nat).
Context (Hdr : drained x.(x_low) 0 d0 d cs) (Hw0 : d0.(d_window) = st.(s_window)).
Context (Hoff : d0.(d_offset) = 0%nat) (Hactive : x.(x_active) = true \/ cs = []).

Lemma finish_nothing :
  cs = [] ->
  exists h' client' st', finish cfg env h client d st = Done (h', client', st', true) /\
    finished h h' client client' f st st' x rs.
Proof using All.
  intros Hnil. destruct Hdr as [Hw Hcnt _ _ _ _ _]. rw Hnil /= in Hw Hcnt.
  rw /finish Hcnt. cbn [Nat.add length Z.of_nat Z.ltb Z.compare].
  do 3 eexists. split; [reflexivity|]. split; try done.
  - cbn. by rw Hw Hw0.
  - by apply swapped_out_rep.
Qed.

Lemma finish_delivers ts p (x' := rx_delivered x cs ts) :
  last cs = Some (ts, p) -> env_good env x x' ->
  exists h' client' st', finish cfg env h client d st = Done (h', client', st', true) /\
    finished h h' client client' f st st' x'
      (rs ++ [ack cfg.(cfg_max_window_size) x'.(x_low) x'.(x_pending) ts]).
Proof using All.
  intros Hl [Hwr [t Het] _]. destruct Hactive as [Hxa|Hnil]; [|by rw Hnil in Hl].
  pose proof (rep_buf_ok _ _ _ _ _ Hrep) as Hok.
  destruct Hdr as [Hw Hcnt Ho [Hb Hbo] Hby Hlast _].
  rewrite -> Hoff in Ho, Hby. cbn [take app Nat.add] in Ho, Hby, Hcnt. rewrite -> Hw0 in Hw.
  rewrite -> (seq_at_0 x.(x_low)) in Hw by apply Hrep.
  destruct (Hlast ts p Hl) as [Hdts Hdrem].
  assert (is_u32 ts) as Hts32 by (eapply last_chunk_timestamp; [done|by rw -Hcs]).
  assert (env.(v_written) = length (contents cs)) as Hwr' by (rw Hwr /= length_app; lia).
  assert (0 < length cs)%nat as Hpos by (destruct cs; [done|cbn; lia]).
  pose proof (window_rep_advance _ _ _ _ _ (length cs) Hrep ltac:(by rw Hcs) Hpos) as Hrep'.
  rw /finish Hcnt. destruct (Z.ltb_spec 0 (Z.of_nat (length cs))); [|lia].
  rw Hfile (load_Some _ _ _ Hf). unbind.
  rw slice_fits; [|by rw Hb]. unbind.
  rewrite -> (drop_0 d.(d_file_buffer)), Hby, Hxa, (fwrite_append _ _ _ Hwr'). unbind.
  rw Ho Hwr' Nat.eqb_refl. cbn [negb]. rw (store_Some _ _ _ _ Hf). unbind.
  set (file' := mk_file true _ _). rw Hdrem Hdts Hact Hxa.
  rw Hw clear_slots_low clear_slots_length (rep_low _ _ _ _ _ Hrep). set (window := mk_buf _ _ _).
  destruct (final_ack cfg client.(c_address) (st_swapped st.(s_packets) st.(s_decoded) window st) rs
    (seq_at x.(x_low) (length cs)) (forget (length cs) x.(x_low) x.(x_pending)) ts)
    as (st' & Hrun & Hout' & Hp & Hd & Hwin); [exact Hrep'|by apply swapped_out_rep|done|done|].
  destruct (ends_file cs) eqn:Hend.
  - cbn [andb c_active set_client_state]. rw /end_transfer /fclose_at. cbn [c_out_file set_client_state].
    rw Hfile files_with_files (load_Some _ _ file'); [|by apply lookup_insert_eq].
    cbn [mbind comp_bind fclose f_open file' f_pos f_data].
    rw (store_Some _ _ _ file'); [|by apply lookup_insert_eq]. rw Het. cbn [mbind comp_bind c_address set_client_state].
    rw Hrun. unbind. do 3 eexists. split; [reflexivity|].
    split; try done.
    + by destruct h.
    + destruct h. cbn in Hf |- *. by rw lookup_insert_eq /x' /= Hend andb_false_r.
    + cbn. rw Hxa Hend Htr. done.
    + by rw Hwin.
  - cbn [andb c_address set_client_state mbind comp_bind].
    rw Hrun. unbind. do 3 eexists. split; [reflexivity|].
    split; try done.
    + by destruct h.
    + destruct h. cbn in Hf |- *. by rw lookup_insert_eq /x' /= Hend Hxa.
    + cbn. rw Hxa Hend Htr. done.
    + by rw Hwin.
Qed.
End finishing.
