(* ===== verification/HandlerThm.v ===== *)
(** * HandlerThm: what a run of the handler does

    The refinement of the protocol by [handle_request], and what follows
    from it for whole transfers. *)

From S2P Require Import Prelude Global Memory Lookup Crc32 Packet Buffer Client Stream Protocol Handler HandlerSpec.

(** An inactive client stores nothing. *)
Lemma rx_events_inactive max x pt evs :
  x.(x_active) = false -> (rx_events max x pt evs).1.1 = pt.1.
Proof.
  intros Ha. revert pt. induction evs as [|ev evs IH]; intros pt; [done|]. cbn [rx_events].
  assert ((rx_event max x pt ev).1.1 = pt.1) as <-.
  { destruct pt as [pending ts], ev; cbn; by rw ?Ha. }
  destruct (rx_event max x pt ev) as [pt' rs]. specialize (IH pt').
  by destruct (rx_events max x pt' evs).
Qed.

Section run.
Context (cfg : hd_cfg_t) (remove : bool) (to_send : packet_t) (h : heap_t) (decoded p : ptr) (x : rx_state).
Context (c : client_t) (w lock f : ptr) (window : buf_t).
Context (Hat : client_at h decoded p x c w lock f window).
Context (req : hd_req_t) (Hreq : req_ok req) (Hclient : req.(r_client) = Some p).
Context (file_buffer : list Z) (out : list (list Z)) (names : list (option ptr)).
Context (Hbufs : buffers_ok file_buffer out names).
Context (Hsend : payload_ok to_send /\ is_u32 to_send.(p_crc2)).

(** The environment, of which only the part behind the loops is open. *)
Abbreviation env n t := (mk_hd_env remove to_send n t).

Abbreviation max := (cfg.(cfg_max_window_size)).

(** The local state behind the loops: the datagrams are the events [evs],
    and what is left to do is to write the chunks that are next. *)
Record looped (evs : list event) (req' : hd_req_t) (st : hd_st) (d0 d : drain_st)
    (pending : gmap Z chunk) (ts : Z) (rs : list reply_t) : Prop := {
  lp_events : events_of evs (datagrams req 0 req.(r_num));
  lp_req : req_ok req' /\ req'.(r_stop) = req.(r_stop) /\ req'.(r_client) = req.(r_client);
  lp_rx : rx_events max x (x.(x_pending), x.(x_timestamp)) evs = (pending, ts, rs);
  lp_few : (length rs < 32)%nat;
  lp_st : st_rep c x.(x_low) st (pending, ts) rs;
  lp_drained : drained x.(x_low) 0 d0 d (next_chunks 31 x.(x_low) pending);
  lp_d0 : d0.(d_window) = st.(s_window) /\ d0.(d_offset) = 0%nat;
  lp_rest : forall n t, handle_request cfg (env n t) h decoded file_buffer out names req =
    ('(h, client, st, sent) ← finish cfg (env n t) h c d st;
     held ← mutex_unlock true;
     let h := upd_clients (<[p := client]>) (upd_bufs (<[w := st.(s_window)]>)
                (upd_mutexes (<[lock := held]>) (with_packets st.(s_packets) h))) in
     Done (h, req', st.(s_decoded), (d.(d_file_buffer), st.(s_out), st.(s_names)),
           if sent : bool
           then Some (take st.(s_len) (zip st.(s_names) (take 11 <$> st.(s_out))))
           else None)) }.

(** The loops run to the end, whatever the datagrams are. *)
Lemma handle_request_loops : exists evs req' st d0 d pending ts rs, looped evs req' st d0 d pending ts rs.
Proof using Hat Hreq Hclient Hbufs Hsend.
  destruct Hat as [Hc Ha [Ht Hu] Htr [Hw Hbuf] [Hl Hm] [Hfl Hf] Hrep].
  destruct Hbufs as [Hfb [Ho Hor] Hns].
  set (st0 := mk_hd h.(h_packets) decoded window c.(c_last_timestamp) to_send 0 out names).
  assert (st_rep c x.(x_low) st0 (x.(x_pending), x.(x_timestamp)) []) as Hst0.
  { split; [exact Hrep|]. split; [exact Ht|]. split; [done|].
    split; cbn; [done|done|done|done|]. intros i r Hi. by rw lookup_nil in Hi. }
  destruct (receive_all_spec cfg c x.(x_low) x eq_refl (eq_sym Ha) (eq_sym Ht) ltac:(by rw Ht)
    req.(r_num) 0 req st0 _ [] Hst0) as (evs & req' & st & Hrun & Hevs & Hreq' & Hs & Hcl & Hst);
    [pose proof (ok_num _ Hreq); cbn; lia|apply Hreq|done|].
  destruct (rx_events max x _ evs) as [[pending ts] rs] eqn:Ers. destruct Hst as [Hst Hlen].
  set (d0 := mk_drain st.(s_window) st.(s_window).(b_window_low) 0 0 remove file_buffer
    st.(s_last_timestamp)).
  pose proof (proj1 Hst) as Hwin.
  destruct (drain_spec st.(s_packets) x.(x_low) pending ltac:(apply Hrep) 31 32 0 d0)
    as (d & Hdrain & Hdr); [lia|lia| |].
  { split; cbn; [|rw (rep_low _ _ _ _ _ Hwin); lia|done|done|lia|by left].
    split; [by eapply rep_buf_ok|]. split; [by apply Hwin|]. intros j Hj.
    apply Hwin; [apply seq_at_range|apply seq_at_in_window; lia]. }
  rewrite -> seq_at_0 in Hdr by apply Hrep.
  exists evs, req', st, d0, d, pending, ts, rs. split; try done.
  - pose proof (ok_num _ Hreq). lia.
  - intros n t. rw /handle_request Hclient. rw (load_Some _ _ _ Hc). unbind.
    rw Hw /client_get_lock Hl (load_Some _ _ _ Hbuf). unbind.
    rw (load_Some _ _ _ Hm). cbn [mbind comp_bind mutex_lock]. fold st0.
    rw Hrun. unbind. fold d0.
    change (S (Z.to_nat MAX_WINDOW_SIZE)) with 32%nat. rw Hdrain. reflexivity.
Qed.

(** A finished run, put back into the heap. *)
Lemma finished_rep h1 c1 st st1 x1 rs :
  finished h h1 c c1 f st st1 x1 rs ->
  hd_rep (upd_clients (<[p := c1]>) (upd_bufs (<[w := st1.(s_window)]>)
    (upd_mutexes (<[lock := false]>) (with_packets st1.(s_packets) h1)))) st1.(s_decoded) p c.(c_address) x1.
Proof using Hat.
  destruct Hat as [Hc Ha [Ht Hu] Htr [Hw Hbuf] [Hl Hm] [Hfl Hf] Hrep].
  intros [(Hhc & Hhm & Hhb & Hhp) Hfin (Fa & Ft & Ftr & Fl & Fw & Ff & Fad) Fu [Fp Fd] Fwin Fo].
  exists c1, w, lock, f, st1.(s_window). split; [|done].
  destruct h1 as [hc1 hm1 ha1 hf1 hb1 hp1 ht1]. cbn in *.
  split; cbn; try done.
  - by rw lookup_insert_eq.
  - by rw Fw lookup_insert_eq.
  - by rw Fl lookup_insert_eq.
  - by rw Ff.
  - by rw Fp Fd.
Qed.

Lemma finished_buffers d0 d st1 rs cs :
  drained x.(x_low) 0 d0 d cs -> out_rep c.(c_address) st1 rs ->
  buffers_ok d.(d_file_buffer) st1.(s_out) st1.(s_names).
Proof. intros [_ _ _ [Hb _] _ _ _] [_ Ho Hn _ _]. by split. Qed.

(** An inactive client has nothing to write. *)
Lemma looped_idle evs req' st d0 d pending ts rs :
  looped evs req' st d0 d pending ts rs -> x.(x_active) = false -> x.(x_pending) !! x.(x_low) = None ->
  next_chunks 31 x.(x_low) pending = [].
Proof.
  intros [_ _ Hrx _ _ _ _ _] Hact Hnone.
  pose proof (rx_events_inactive max x (x.(x_pending), x.(x_timestamp)) evs Hact) as Hp.
  rw Hrx in Hp. cbn in Hp. cbn [next_chunks]. by rw Hp Hnone.
Qed.

(** The whole request, when everything is written. *)
Lemma handle_request_writes evs req' st d0 d pending ts0 rs1 n t x' rs :
  looped evs req' st d0 d pending ts0 rs1 -> rx_step max x evs = (x', rs) ->
  (next_chunks 31 x.(x_low) pending <> [] -> n = (length x'.(x_file) - length x.(x_file))%nat) ->
  is_Some t -> (x.(x_active) = true \/ x.(x_pending) !! x.(x_low) = None) ->
  exists h' decoded' file_buffer' out' names',
    handle_request cfg (env n t) h decoded file_buffer out names req =
      Done (h', req', decoded', (file_buffer', out', names'),
            Some ((fun r => (c.(c_address), reply_wire r)) <$> rs)) /\
    hd_rep h' decoded' p c.(c_address) x' /\ buffers_ok file_buffer' out' names'.
Proof using Hat Hreq Hclient Hbufs Hsend.
  intros Hlp Hstep Hn Ht' Hact. pose proof Hlp as [Hevs Hreq' Hrx Hlen Hst Hdr [Hw0 Hoff] Hrun].
  destruct Hat as [Hc Ha [Ht Hu] Htr Hwb Hlm [Hfl Hf] Hrep].
  destruct Hst as (Hwin & Hts & Hu' & Hout). cbn [fst snd] in *.
  set (x1 := mk_rx x.(x_active) x.(x_low) pending x.(x_file) x.(x_timestamp) x.(x_transferred)).
  rw /rx_step Hrx in Hstep. fold x1 in Hstep. rw /rx_deliver in Hstep.
  change (Z.to_nat MAX_WINDOW_SIZE) with 31%nat in Hstep.
  remember (next_chunks 31 x.(x_low) pending) as cs eqn:Hcs.
  change (next_chunks 31 x1.(x_low) x1.(x_pending)) with (next_chunks 31 x.(x_low) pending) in Hstep.
  rewrite <- Hcs in Hstep.
  assert (x1.(x_active) = true \/ cs = []) as Hact1.
  { destruct (x.(x_active)) eqn:Hxa; [by left|]. right. destruct Hact as [Hact|Hnone]; [done|].
    rw Hcs. by eapply looped_idle. }
  destruct (last cs) as [[ts pl]|] eqn:Hlast.
  - injection Hstep as <- <-. specialize (Hn ltac:(by intros ->)).
    destruct (finish_delivers cfg (env n t) h c f x1 st rs1 d0 d cs Hcs Hfl Hf Ha Ht Hu Htr Hwin Hout Hlen Hdr Hw0
      Hoff Hact1 ts pl Hlast ltac:(by split)) as (h1 & c1 & st1 & Hfin & Hfinished).
    rw Hrun Hfin. cbn [mbind comp_bind mutex_unlock]. do 5 eexists. split.
    { rw (sent_replies _ _ _ (fin_out _ _ _ _ _ _ _ _ _ Hfinished)). reflexivity. }
    split; [by eapply finished_rep|].
    eapply finished_buffers; [done|]. by eapply fin_out.
  - injection Hstep as <- <-.
    assert (cs = []) as Hnil by by apply last_None in Hlast.
    destruct (finish_nothing cfg (env n t) h c f x1 st rs1 d0 d cs Hcs Hfl Hf Ha Ht Hu Htr Hwin Hout Hlen Hdr Hw0
      Hoff Hact1 Hnil) as (h1 & c1 & st1 & Hfin & Hfinished).
    rw Hrun Hfin. cbn [mbind comp_bind mutex_unlock]. do 5 eexists. split.
    { rw (sent_replies _ _ _ (fin_out _ _ _ _ _ _ _ _ _ Hfinished)) app_nil_r. reflexivity. }
    split; [by eapply finished_rep|].
    eapply finished_buffers; [done|]. by eapply fin_out.
Qed.

(** The file after a write of [n] bytes that came up short: when nothing
    was written the file is rewound to its start, otherwise the position
    asked for is negative and stays. *)
Definition short_write (n : nat) (bytes : list Z) : file_t :=
  mk_file true (if (n =? 0)%nat then 0%nat else (length x.(x_file) + n)%nat) (x.(x_file) ++ take n bytes).

Lemma finish_fails n t st d0 d cs :
  drained x.(x_low) 0 d0 d cs -> d0.(d_offset) = 0%nat -> cs <> [] -> x.(x_active) = true ->
  n <> length (contents cs) ->
  finish cfg (env n t) h c d st =
    Done (with_files (<[f := short_write n (contents cs)]> h.(h_files)) h, c,
          st_swapped st.(s_packets) st.(s_decoded) d.(d_window) st, false).
Proof using Hat.
  destruct Hat as [_ _ _ _ _ _ [Hfl Hf] _].
  intros [_ Hcnt Ho [Hb Hbo] Hby _ _] Hoff Hne Hact Hwr. rewrite -> Hoff in Ho, Hby.
  cbn [take app Nat.add] in Ho, Hby, Hcnt.
  rw /finish Hcnt. destruct (Z.ltb_spec 0 (Z.of_nat (length cs))); [|destruct cs; cbn in *; [done|lia]].
  rw Hfl (load_Some _ _ _ Hf). unbind.
  rw slice_fits; [|by rw Hb]. unbind. rewrite -> (drop_0 d.(d_file_buffer)), Hby, Hact.
  rw /fwrite. cbn [f_open f_pos f_data mbind comp_bind v_written]. rw Ho.
  destruct (Nat.eqb_spec n (length (contents cs))) as [|_]; [done|]. cbn [negb].
  rw take_ge // drop_ge; [|lia]. rw app_nil_r /fseek_set. cbn [f_open].
  assert ((if - Z.of_nat n <? 0 then
      mk_file true (length x.(x_file) + n) (x.(x_file) ++ take n (contents cs))
    else mk_file true (Z.to_nat (- Z.of_nat n)) (x.(x_file) ++ take n (contents cs)))
    = short_write n (contents cs)) as Hshort.
  { rw /short_write. destruct (Z.ltb_spec (- Z.of_nat n) 0) as [|Hz].
    - destruct (Nat.eqb_spec n 0); [lia|done].
    - assert (n = 0%nat) as -> by lia. done. }
  cbn [f_data]. rw Hshort. unbind. rw (store_Some _ _ _ _ Hf). done.
Qed.

(** The whole request when the write comes up short: the replies of the
    batch are dropped. *)
Lemma handle_request_short evs req' st d0 d pending ts rs n t (cs := next_chunks 31 x.(x_low) pending) :
  looped evs req' st d0 d pending ts rs ->
  cs <> [] -> x.(x_active) = true -> n <> length (contents cs) ->
  exists h' decoded' bufs' w',
    handle_request cfg (env n t) h decoded file_buffer out names req = Done (h', req', decoded', bufs', None) /\
    h'.(h_clients) !! p = Some c /\ h'.(h_mutexes) !! lock = Some false /\
    h'.(h_files) !! f = Some (short_write n (contents cs)) /\
    h'.(h_bufs) !! w = Some w' /\ w'.(b_window_low) = x.(x_low) /\
    w'.(b_length) = Z.of_nat (size pending) /\
    (forall j, (j < length cs)%nat -> used_at w' (seq_at x.(x_low) j) = false).
Proof using Hat Hreq Hclient Hbufs Hsend.
  intros [Hevs Hreq' Hrx Hlen Hst Hdr [Hw0 Hoff] Hrun] Hne Hact Hwr.
  pose proof (proj1 Hst) as Hwin. cbn [fst] in Hwin.
  pose proof (finish_fails n t st d0 d _ Hdr Hoff Hne Hact Hwr) as Hfin.
  rw Hrun Hfin. cbn [mbind comp_bind mutex_unlock]. do 4 eexists. split; [reflexivity|].
  destruct Hat as [Hc _ _ _ _ _ _ Hrep]. destruct h as [hc1 hm1 ha1 hf1 hb1 hp1 ht1]. cbn in *.
  rw !lookup_insert_eq. split_and!; try done.
  - destruct Hdr as [-> _ _ _ _ _ _]. rw clear_slots_low Hw0. by apply Hwin.
  - destruct Hdr as [-> _ _ _ _ _ _]. rw clear_slots_length Hw0. by apply Hwin.
  - intros j Hj. destruct Hdr as [-> _ _ _ _ _ _]. rw Hw0 seq_at_0; [|apply Hrep].
    apply clear_slots_cleared; [by eapply rep_buf_ok|apply Hrep|done].
Qed.
End run.

(** ** A new client *)

(** The heap [initialize_client] makes stands for the initial state of the
    protocol, for a thread that owns another packet. *)
Lemma new_client_rep h client address id addr_len lock file addr window ps decoded pk :
  NoDup (decoded :: ps) -> length ps = MAX_BUFFER_SIZE -> payload_ok pk ->
  h.(h_clients) !! client = Some (new_client id addr_len lock file addr window) ->
  h.(h_mutexes) !! lock = Some false -> h.(h_addrs) !! addr = Some address ->
  h.(h_files) !! file = Some (mk_file true 0 []) ->
  h.(h_bufs) !! window = Some (mk_buf 0 0 (fresh_node <$> ps)) ->
  (forall p, p ∈ ps -> h.(h_packets) !! p = Some zeroed_packet) ->
  h.(h_packets) !! decoded = Some pk ->
  hd_rep h decoded client (Some addr) rx_init.
Proof.
  intros Hnd Hps Hok Hc Hm Ha Hf Hb Hz Hd.
  exists (new_client id addr_len lock file addr window), window, lock, file, (mk_buf 0 0 (fresh_node <$> ps)).
  split; [|done]. split; try done.
  assert (forall s, used_at (mk_buf 0 0 (fresh_node <$> ps)) s = false) as Hun.
  { intros s. rw /used_at. cbn [b_nodes]. rw list_lookup_fmap. by destruct (ps !! _). }
  split; cbn [b_window_low b_length b_nodes rx_init x_low x_pending]; try done.
  - by rw length_fmap.
  - exists ps. split_and!; [|done|].
    + rw -list_fmap_compose. done.
    + apply Forall_cons. split; [by exists pk|]. apply Forall_forall. intros q Hq.
      exists zeroed_packet. split; [by apply Hz|]. split; [done|]. apply Forall_replicate. lia.
  - intros s _ _. by rw lookup_empty.
Qed.

(** ** Transfers *)

(** The sequence number the client's window starts with. *)
Definition next_seq (h : heap_t) (p : ptr) : option Z :=
  c ← h.(h_clients) !! p; w ← c.(c_window); b ← h.(h_bufs) !! w; Some b.(b_window_low).

Lemma next_seq_rep h decoded p address x :
  hd_rep h decoded p address x -> next_seq h p = Some x.(x_low).
Proof.
  intros (c & w & lock & f & window & [Hc _ _ _ [Hw Hb] _ _ Hrep] & _).
  rw /next_seq Hc. cbn. rw Hw. cbn. rw Hb. cbn. by rw (rep_low _ _ _ _ _ Hrep).
Qed.

(** What a handler thread keeps between two requests. *)
Record thread := mk_thread {
  t_heap : heap_t; t_decoded : ptr; t_file_buffer : list Z;
  t_out : list (list Z); t_names : list (option ptr) }.

Definition run_request (cfg : hd_cfg_t) (env : hd_env) (t : thread) (req : hd_req_t) :=
  handle_request cfg env t.(t_heap) t.(t_decoded) t.(t_file_buffer) t.(t_out) t.(t_names) req.

Section transfers.
Context (data : nat -> list Z) (N : nat) (cfg : hd_cfg_t) (p : ptr) (address : option ptr).

(** A datagram that can arrive when [k] payloads are in the file: one of
    the sender's data packets of the last 225 or the next 255, or anything
    that [unpack] does not accept as an untruncated data packet. *)
Definition genuine_datagram (k : nat) (d : list Z * Z) : Prop :=
  forall out, payload_ok out -> genuine data N k (event_of d.1 d.2 out).

Lemma genuine_events k evs ds :
  events_of evs ds -> Forall (genuine_datagram k) ds -> Forall (genuine data N k) evs.
Proof.
  induction 1 as [|ev d evs ds (out & Hok & ->) _ IH]; [done|].
  intros [Hd Hds]%Forall_cons. constructor; [by apply Hd|by apply IH].
Qed.

Definition thread_ok (t : thread) (x : rx_state) : Prop :=
  hd_rep t.(t_heap) t.(t_decoded) p address x /\ buffers_ok t.(t_file_buffer) t.(t_out) t.(t_names).

(** The states of a transfer, with the number of payloads delivered: each
    request is handled, and its write succeeds. *)
Inductive transfer : nat -> thread -> Prop :=
| transfer_start t : thread_ok t rx_init -> transfer 0 t
| transfer_step k t env req k' h' req' decoded' fb' out' names' sent :
    transfer k t -> req_ok req -> req.(r_client) = Some p ->
    Forall (genuine_datagram k) (datagrams req 0 req.(r_num)) ->
    payload_ok env.(v_to_send) -> is_u32 env.(v_to_send).(p_crc2) -> is_Some env.(v_end_time) ->
    run_request cfg env t req = Done (h', req', decoded', (fb', out', names'), Some sent) ->
    (k <= k' <= k + 31)%nat -> next_seq h' p = Some (seq_of k') ->
    transfer k' (mk_thread h' decoded' fb' out' names').

Context (Hdata : forall n, (n < N)%nat -> data n <> []) (Heof : data N = []).

Lemma rx_inv_idle k x : rx_inv data N k x -> x.(x_active) = true \/ x.(x_pending) !! x.(x_low) = None.
Proof.
  intros [Hlow _ _ Hact _ Hp]. destruct (decide (k <= N)%nat) as [Hk|Hk].
  - left. rw Hact. by apply bool_decide_eq_true.
  - right. destruct (x.(x_pending) !! x.(x_low)) as [ch|] eqn:E; [|done].
    destruct (Hp _ _ E) as (n & Hn & HN & _). lia.
Qed.

Lemma seq_of_inj k k' : (k <= k' <= k + 31)%nat -> forall k1, (k <= k1 <= k + 31)%nat ->
  seq_of k' = seq_of k1 -> k' = k1.
Proof. rw /seq_of. intros. divmod. Qed.

Lemma rx_count_le max x evs : (rx_count max x evs <= 31)%nat.
Proof.
  rw /rx_count. destruct (rx_events _ _ _ _) as [[pending ts] rs].
  exact (next_chunks_length (Z.to_nat MAX_WINDOW_SIZE) x.(x_low) pending).
Qed.

(** The file grows by the payloads that are next. *)
Lemma rx_step_file max x evs x' rs pending ts rs1 :
  rx_step max x evs = (x', rs) ->
  rx_events max x (x.(x_pending), x.(x_timestamp)) evs = (pending, ts, rs1) ->
  x'.(x_file) = x.(x_file) ++ contents (next_chunks 31 x.(x_low) pending) /\
  rx_count max x evs = length (next_chunks 31 x.(x_low) pending).
Proof.
  intros Hstep Hrx. rw /rx_count Hrx. rw /rx_step Hrx /rx_deliver in Hstep.
  cbn [x_low x_pending] in Hstep. change (Z.to_nat MAX_WINDOW_SIZE) with 31%nat in *.
  remember (next_chunks 31 x.(x_low) pending) as cs eqn:Hcs. split; [|done].
  destruct (last cs) as [[ts' pl]|] eqn:Hlast; injection Hstep as <- _; [done|].
  apply last_None in Hlast as ->. by rw app_nil_r.
Qed.

Lemma seq_of_step x k evs max x' rs :
  rx_inv data N k x -> Forall (genuine data N k) evs -> rx_step max x evs = (x', rs) ->
  rx_inv data N (k + rx_count max x evs) x' /\ x'.(x_low) = seq_of (k + rx_count max x evs).
Proof using Hdata Heof.
  intros Hinv Hg Hstep. destruct (rx_step_inv data N max Hdata Heof k x evs x' rs Hinv Hg Hstep) as [H _].
  split; [done|]. apply H.
Qed.

(** A request of a transfer whose write is complete is handled as the
    protocol says. *)
Lemma run_request_ok k t x env req evs req' st d0 d pending ts rs1 c w lock f window :
  rx_inv data N k x -> buffers_ok t.(t_file_buffer) t.(t_out) t.(t_names) ->
  client_at t.(t_heap) t.(t_decoded) p x c w lock f window -> c.(c_address) = address ->
  req_ok req -> req.(r_client) = Some p ->
  Forall (genuine_datagram k) (datagrams req 0 req.(r_num)) ->
  payload_ok env.(v_to_send) -> is_u32 env.(v_to_send).(p_crc2) -> is_Some env.(v_end_time) ->
  looped cfg env.(v_remove) env.(v_to_send) t.(t_heap) t.(t_decoded) p x c w lock req
    t.(t_file_buffer) t.(t_out) t.(t_names) evs req' st d0 d pending ts rs1 ->
  (next_chunks 31 x.(x_low) pending <> [] ->
   env.(v_written) = length (contents (next_chunks 31 x.(x_low) pending))) ->
  exists x' rs t' (k' := (k + rx_count cfg.(cfg_max_window_size) x evs)%nat),
    rx_step cfg.(cfg_max_window_size) x evs = (x', rs) /\
    run_request cfg env t req =
      Done (t'.(t_heap), req', t'.(t_decoded), (t'.(t_file_buffer), t'.(t_out), t'.(t_names)),
            Some ((fun r => (address, reply_wire r)) <$> rs)) /\
    thread_ok t' x' /\ rx_inv data N k' x' /\ (k <= k' <= k + 31)%nat /\
    next_seq t'.(t_heap) p = Some (seq_of k').
Proof using Hdata Heof.
  intros Hinv Hbufs Hat Had Hreq Hcl Hgen Hs1 Hs2 Het Hlp Hn.
  pose proof Hlp as [Hevs _ Hrx _ _ _ _ _]. pose proof (genuine_events k evs _ Hevs Hgen) as Hg.
  destruct (rx_step cfg.(cfg_max_window_size) x evs) as [x' rs] eqn:Hstep.
  destruct (rx_step_file _ _ _ _ _ _ _ _ Hstep Hrx) as [Hfile _].
  destruct (seq_of_step _ _ _ _ _ _ Hinv Hg Hstep) as [Hinv' Hlow'].
  pose proof (rx_count_le cfg.(cfg_max_window_size) x evs) as Hle.
  destruct (handle_request_writes cfg env.(v_remove) env.(v_to_send) t.(t_heap) t.(t_decoded) p x c w lock f
    window Hat req Hreq Hcl t.(t_file_buffer) t.(t_out) t.(t_names) Hbufs (conj Hs1 Hs2) evs req' st d0 d pending ts
    rs1 env.(v_written) env.(v_end_time) x' rs Hlp Hstep) as (h' & dec' & fb' & out' & names' & Hrun & Hrep' & Hbufs');
    [|done|by eapply rx_inv_idle|].
  { intros Hne. rw (Hn Hne) Hfile length_app. lia. }
  rewrite -> Had in Hrun, Hrep'.
  exists x', rs, (mk_thread h' dec' fb' out' names'). cbn [t_heap t_decoded t_file_buffer t_out t_names].
  split; [done|]. split; [rw /run_request -Hrun; by destruct env|]. split; [by split|]. split; [done|].
  split; [lia|]. by rw (next_seq_rep _ _ _ _ _ Hrep') Hlow'.
Qed.

Lemma transfer_inv k t : transfer k t -> exists x, thread_ok t x /\ rx_inv data N k x.
Proof using Hdata Heof.
  induction 1 as [t Hok|k t env req k' h' req' decoded' fb' out' names' sent _ (x & [Hrep Hbufs] & Hinv)
    Hreq Hcl Hgen Hs1 Hs2 Het Hrun Hk Hnext].
  - exists rx_init. split; [done|]. by apply (rx_reach_inv data N 31); [..|constructor].
  - pose proof Hrep as (c & w & lock & f & window & Hat & Had).
    destruct (handle_request_loops cfg env.(v_remove) env.(v_to_send) t.(t_heap) t.(t_decoded) p x c w lock f
      window Hat req Hreq Hcl t.(t_file_buffer) t.(t_out) t.(t_names) Hbufs (conj Hs1 Hs2))
      as (evs & req1 & st & d0 & d & pending & ts & rs1 & Hlp).
    assert (next_chunks 31 x.(x_low) pending <> [] ->
      env.(v_written) = length (contents (next_chunks 31 x.(x_low) pending))) as Hn.
    { intros Hne. destruct (decide (env.(v_written) = length (contents (next_chunks 31 x.(x_low) pending))))
        as [|Hwr]; [done|exfalso].
      destruct (x.(x_active)) eqn:Hact.
      - destruct (handle_request_short _ _ _ _ _ _ _ _ _ _ _ _ Hat req Hreq Hcl _ _ _ Hbufs (conj Hs1 Hs2)
          evs req1 st d0 d pending ts rs1 env.(v_written) env.(v_end_time) Hlp Hne Hact Hwr)
          as (h1 & dec1 & bufs1 & w1 & Hrun1 & _).
        rw /run_request in Hrun. destruct env. cbn in Hrun1. rw Hrun1 in Hrun. discriminate.
      - apply Hne. destruct (rx_inv_idle _ _ Hinv) as [|Hnone]; [congruence|].
        by rw (looped_idle _ _ _ _ _ _ _ _ _ _ _ _ _ _ _ _ _ _ _ _ _ _ Hlp Hact). }
    destruct (run_request_ok k t x env req evs req1 st d0 d pending ts rs1 c w lock f window)
      as (x' & rs & t' & Hstep & Hrun' & Hok' & Hinv' & Hk' & Hnext'); try done.
    rewrite -> Hrun in Hrun'. injection Hrun' as -> _ -> -> -> -> _.
    rewrite -> Hnext in Hnext'. injection Hnext' as Heq.
    apply (seq_of_inj k) in Heq; [|done..]. rw Heq. exists x'. by destruct t'.
Qed.
(** A further request of a transfer, whose write is complete. *)
Lemma transfer_run k t req to_send e remove :
  transfer k t -> req_ok req -> req.(r_client) = Some p ->
  Forall (genuine_datagram k) (datagrams req 0 req.(r_num)) ->
  payload_ok to_send -> is_u32 to_send.(p_crc2) ->
  exists x evs k' t' req' sent, rx_inv data N k x /\ events_of evs (datagrams req 0 req.(r_num)) /\
    k' = (k + rx_count cfg.(cfg_max_window_size) x evs)%nat /\ (k <= k' <= k + 31)%nat /\
    run_request cfg (mk_hd_env remove to_send (length (concat (data <$> seq k (k' - k)))) (Some e)) t req =
      Done (t'.(t_heap), req', t'.(t_decoded), (t'.(t_file_buffer), t'.(t_out), t'.(t_names)), Some sent) /\
    transfer k' t' /\ req_ok req'.
Proof using Hdata Heof.
  intros Ht Hreq Hcl Hgen Hs1 Hs2. destruct (transfer_inv k t Ht) as (x & [Hrep Hbufs] & Hinv).
  pose proof Hrep as (c & w & lock & f & window & Hat & Had).
  destruct (handle_request_loops cfg remove to_send t.(t_heap) t.(t_decoded) p x c w lock f window Hat req Hreq Hcl
    _ _ _ Hbufs (conj Hs1 Hs2)) as (evs & req' & st & d0 & dr & pending & ts0 & rs1 & Hlp).
  pose proof Hlp as [Hevs Hreq' Hrx _ _ _ _ _]. pose proof (genuine_events k evs _ Hevs Hgen) as Hg.
  destruct (rx_step cfg.(cfg_max_window_size) x evs) as [x' rs] eqn:Hstep.
  destruct (rx_step_file _ _ _ _ _ _ _ _ Hstep Hrx) as [Hfile _].
  destruct (rx_step_inv data N _ Hdata Heof k x evs x' rs Hinv Hg Hstep) as [Hinv' _].
  set (k' := (k + rx_count cfg.(cfg_max_window_size) x evs)%nat) in *.
  assert (contents (next_chunks 31 x.(x_low) pending) = concat (data <$> seq k (k' - k))) as Hcont.
  { apply (app_inv_head x.(x_file)). rw -Hfile (inv_file _ _ _ _ Hinv') (inv_file _ _ _ _ Hinv).
    rw -concat_app -fmap_app -seq_app. do 3 f_equal. lia. }
  set (env := mk_hd_env remove to_send (length (concat (data <$> seq k (k' - k)))) (Some e)).
  destruct (run_request_ok k t x env req evs req' st d0 dr pending ts0 rs1
    c w lock f window Hinv Hbufs Hat Had Hreq Hcl Hgen Hs1 Hs2 ltac:(by eexists) Hlp)
    as (x1 & rs2 & t' & _ & Hrun & Hok' & _ & Hk' & Hnext); [intros _; by rw Hcont|].
  fold k' in Hk', Hnext. exists x, evs, k', t', req', ((fun r => (address, reply_wire r)) <$> rs2).
  split; [done|]. split; [done|]. split; [done|]. split; [lia|]. split; [exact Hrun|]. split; [|apply Hreq'].
  destruct t' as [h' dec' fb' out' names'].
  eapply (transfer_step k t env); done.
Qed.

(** It delivers something when it contains the packet that is next. *)
Lemma transfer_run_next k x evs req d ts :
  (k <= N)%nat -> rx_inv data N k x -> events_of evs (datagrams req 0 req.(r_num)) ->
  Forall (genuine_datagram k) (datagrams req 0 req.(r_num)) -> d ∈ datagrams req 0 req.(r_num) ->
  (forall out, payload_ok out -> event_of d.1 d.2 out = Data (seq_of k) ts (data k)) ->
  (0 < rx_count cfg.(cfg_max_window_size) x evs)%nat.
Proof using Hdata Heof.
  intros Hk Hinv Hevs Hgen Hd Hev. pose proof (genuine_events k evs _ Hevs Hgen) as Hg.
  destruct (rx_step cfg.(cfg_max_window_size) x evs) as [x' rs] eqn:Hstep.
  destruct (rx_step_inv data N _ Hdata Heof k x evs x' rs Hinv Hg Hstep) as [_ Hpos].
  apply (Hpos ltac:(rw (inv_active _ _ _ _ Hinv); by apply bool_decide_eq_true) ts).
  apply list_elem_of_lookup in Hd as [i Hi].
  destruct (Forall2_lookup_r _ _ _ _ _ Hevs Hi) as (ev & Hei & out & Hok & ->).
  rewrite -> (Hev out Hok) in Hei. by eapply list_elem_of_lookup_2.
Qed.
End transfers.

(** ** Datagrams of a sender *)

(** A data packet that is packed and sent arrives as its event, whatever
    the structure it is decoded into held before. *)
Lemma wire_event pk rest out :
  sendable pk -> pk.(p_type) = DATA -> pk.(p_truncated) = false -> bytes rest -> payload_ok out ->
  event_of (wire pk true ++ rest) (Z.of_nat (length (wire pk true))) out =
  Data pk.(p_seqnum) pk.(p_timestamp) (payload_bytes pk).
Proof.
  intros Hs Hty Htr Hrest Hok.
  rw /event_of wire_accepted //; [|by left]. rw wire_decoded //; [|by left].
  rw /delivered Hty Htr. cbn [p_type p_truncated p_seqnum p_timestamp p_length p_payload].
  f_equal. pose proof (sendable_length _ Hs) as HL.
  pose proof (wire_payload_length pk Hs) as Hn. destruct (carries_payload pk) eqn:Hc.
  - specialize (Hn eq_refl). by rw -Hn take_app_length.
  - rw /carries_payload Hty Htr bool_decide_eq_true_2 // in Hc. cbn in Hc.
    apply Z.ltb_ge in Hc.
    assert (pk.(p_length) = 0) as H0 by lia. by rw /payload_bytes H0.
Qed.

(** ** Properties *)

(** C4: [handle_request] implements the protocol.  The client's heap
    stands for a protocol state [x] whose transfer is active, or which has
    no packet stored at the start of its window (otherwise, after the end of
    the transfer, the call is undefined: see C28); the request holds up to
    31 arbitrary datagrams; there is memory for the end time, and [fwrite]
    writes all that is to be written.  The code reads the datagrams as
    events [evs] and ends, without an access outside an array and without
    waiting for a lock, in a heap that stands for the state the protocol
    goes to, after having sent exactly the replies of the protocol, in
    order, to the client's address; the variables the code does not
    initialise ([remove], [to_send]) have no influence. *)
Theorem handle_request_refines cfg h decoded p address x req file_buffer out names to_send t :
  hd_rep h decoded p address x -> req_ok req -> req.(r_client) = Some p ->
  buffers_ok file_buffer out names -> payload_ok to_send -> is_u32 to_send.(p_crc2) ->
  (x.(x_active) = true \/ x.(x_pending) !! x.(x_low) = None) ->
  forall remove, exists evs x' rs, events_of evs (datagrams req 0 req.(r_num)) /\
  rx_step cfg.(cfg_max_window_size) x evs = (x', rs) /\
  exists h' req' decoded' file_buffer' out' names',
    handle_request cfg (mk_hd_env remove to_send (length x'.(x_file) - length x.(x_file)) (Some t))
      h decoded file_buffer out names req =
      Done (h', req', decoded', (file_buffer', out', names'),
            Some ((fun r => (address, reply_wire r)) <$> rs)) /\
    hd_rep h' decoded' p address x' /\ req_ok req' /\ buffers_ok file_buffer' out' names'.
Proof.
  intros (c & w & lock & f & window & Hat & <-) Hreq Hcl Hbufs Hs1 Hs2 Hact remove.
  destruct (handle_request_loops cfg remove to_send h decoded p x c w lock f window Hat req Hreq Hcl
    file_buffer out names Hbufs (conj Hs1 Hs2)) as (evs & req' & st & d0 & d & pending & ts & rs1 & Hlp).
  destruct (rx_step cfg.(cfg_max_window_size) x evs) as [x' rs] eqn:Hstep.
  destruct (handle_request_writes cfg remove to_send h decoded p x c w lock f window Hat req Hreq Hcl
    file_buffer out names Hbufs (conj Hs1 Hs2) evs req' st d0 d pending ts rs1
    (length x'.(x_file) - length x.(x_file)) (Some t) x' rs Hlp Hstep)
    as (h' & dec' & fb' & out' & names' & Hrun & Hrep & Hb); [done|done|done|].
  exists evs, x', rs. split; [apply Hlp|]. split; [done|].
  exists h', req', dec', fb', out', names'. split; [done|]. split; [done|]. split; [apply Hlp|done].
Qed.

(** C3: in-order, exactly-once delivery by the handler.  Start with a new
    client and let a thread handle any sequence of requests, each with a
    complete write and memory for the end time.  The datagrams of a request
    that starts with [k] payloads delivered are packets of the sender,
    lost, reordered and repeated at will, but from the current cycle of
    sequence numbers (packet [n] with [k <= n + 225] and [n < k + 256]: an
    older repeat has the number of a new packet and is delivered as one),
    and anything that is not a valid data packet.  At every moment the
    client's file is the concatenation of the first [k] payloads, where [k]
    is the number of payloads the window has moved by, the counter of
    transferred bytes is its length, and the client's lock is free; the
    file is closed and the client inactive exactly when the final, empty
    payload has been delivered, and then the file is complete. *)
Theorem transfer_in_order data N cfg p address k t :
  (forall n, (n < N)%nat -> data n <> []) -> data N = [] -> transfer data N cfg p address k t ->
  let file := concat (data <$> seq 0 k) in
  exists c f lock, t.(t_heap).(h_clients) !! p = Some c /\
    c.(c_out_file) = Some f /\
    t.(t_heap).(h_files) !! f = Some (mk_file (bool_decide (k <= N)%nat) (length file) file) /\
    c.(c_active) = bool_decide (k <= N)%nat /\ (k <= S N)%nat /\
    c.(c_transferred) = u64 (Z.of_nat (length file)) /\
    next_seq t.(t_heap) p = Some (seq_of k) /\
    c.(c_lock) = Some lock /\ t.(t_heap).(h_mutexes) !! lock = Some false.
Proof.
  intros Hdata Heof Ht file.
  destruct (transfer_inv data N cfg p address Hdata Heof k t Ht) as (x & [Hrep _] & [Hlow Hk Hf Ha Htr _]).
  pose proof (next_seq_rep _ _ _ _ _ Hrep) as Hnext.
  destruct Hrep as (c & w & lock & f & window & [Hc Hca _ Hctr _ [Hl Hm] [Hfl Hff] _] & _).
  exists c, f, lock. rewrite -> Hf in Htr, Hff. rewrite -> Ha in Hca, Hff.
  split_and!; try done; [by rw Hctr Htr|by rw -Hlow].
Qed.

(** C5: progress of the handler.  While the transfer of C3 is not over, let
    a request contain the packet that is next, [k]; its other datagrams are
    packets of the sender with the bounds of C3 on their age and anything
    that is not a valid data packet.  Let there be memory for the end time.
    Then the request is handled to the end and the window moves on, by at
    least one payload and up to 31, if [fwrite] writes exactly the payloads
    delivered; and the transfer goes on from the new number of payloads. *)
Theorem transfer_progress data N cfg p address k t req d ts to_send e :
  (forall n, (n < N)%nat -> data n <> []) -> data N = [] -> transfer data N cfg p address k t ->
  (k <= N)%nat -> req_ok req -> req.(r_client) = Some p ->
  Forall (genuine_datagram data N k) (datagrams req 0 req.(r_num)) ->
  d ∈ datagrams req 0 req.(r_num) ->
  (forall out, payload_ok out -> event_of d.1 d.2 out = Data (seq_of k) ts (data k)) ->
  payload_ok to_send -> is_u32 to_send.(p_crc2) ->
  forall remove, exists k' t' req' sent, (k < k' <= k + 31)%nat /\
    run_request cfg (mk_hd_env remove to_send (length (concat (data <$> seq k (k' - k)))) (Some e)) t req =
      Done (t'.(t_heap), req', t'.(t_decoded), (t'.(t_file_buffer), t'.(t_out), t'.(t_names)), Some sent) /\
    transfer data N cfg p address k' t'.
Proof.
  intros Hdata Heof Ht Hk Hreq Hcl Hgen Hd Hev Hs1 Hs2 remove.
  destruct (transfer_run data N cfg p address Hdata Heof k t req to_send e remove Ht Hreq Hcl Hgen Hs1 Hs2)
    as (x & evs & k' & t' & req' & sent & Hinv & Hevs & Hk' & Hle & Hrun & Ht' & _).
  pose proof (transfer_run_next data N cfg Hdata Heof k x evs req d ts Hk Hinv Hevs Hgen Hd Hev).
  exists k', t', req', sent. split; [lia|]. by split.
Qed.

(** a write that comes up short.  When [fwrite] does not write all the
    payloads that are next, no reply of the batch is sent and the client's
    window keeps its first number and its length, as the code intends; but
    the payloads that were next are no longer marked as received although
    the length still counts them, and the file is not taken back to where
    it was: what was written stays, and when nothing was written the
    position is the start of the file. *)
Theorem handle_request_short_write cfg h decoded p x c w lock f window req file_buffer out names to_send
    remove n t :
  client_at h decoded p x c w lock f window -> req_ok req -> req.(r_client) = Some p ->
  buffers_ok file_buffer out names -> payload_ok to_send -> is_u32 to_send.(p_crc2) ->
  x.(x_active) = true ->
  exists evs pending ts rs, events_of evs (datagrams req 0 req.(r_num)) /\
  rx_events cfg.(cfg_max_window_size) x (x.(x_pending), x.(x_timestamp)) evs = (pending, ts, rs) /\
  let cs := next_chunks 31 x.(x_low) pending in
  cs <> [] -> n <> length (contents cs) ->
  exists h' req' decoded' bufs' w',
    handle_request cfg (mk_hd_env remove to_send n t) h decoded file_buffer out names req =
      Done (h', req', decoded', bufs', None) /\
    h'.(h_clients) !! p = Some c /\ h'.(h_mutexes) !! lock = Some false /\
    h'.(h_files) !! f = Some (mk_file true (if (n =? 0)%nat then 0%nat else (length x.(x_file) + n)%nat)
                                (x.(x_file) ++ take n (contents cs))) /\
    h'.(h_bufs) !! w = Some w' /\ w'.(b_window_low) = x.(x_low) /\
    w'.(b_length) = Z.of_nat (size pending) /\
    (forall j, (j < length cs)%nat -> used_at w' (seq_at x.(x_low) j) = false).
Proof.
  intros Hat Hreq Hcl Hbufs Hs1 Hs2 Hact.
  destruct (handle_request_loops cfg remove to_send h decoded p x c w lock f window Hat req Hreq Hcl
    file_buffer out names Hbufs (conj Hs1 Hs2)) as (evs & req' & st & d0 & d & pending & ts & rs & Hlp).
  exists evs, pending, ts, rs. split; [apply Hlp|]. split; [apply Hlp|]. intros cs Hne Hn.
  destruct (handle_request_short cfg remove to_send h decoded p x c w lock f window Hat req Hreq Hcl
    file_buffer out names Hbufs (conj Hs1 Hs2) evs req' st d0 d pending ts rs n t Hlp Hne Hact Hn)
    as (h' & dec' & bufs' & w' & H). by exists h', req', dec', bufs', w'.
Qed.

(** C28: data behind the end of the file.  If a packet with the number just
    behind the final, empty one was stored before the end was delivered,
    then the next request, whatever it holds, makes the handler write to
    the file it has closed, which is undefined. *)
Theorem handle_request_after_end cfg env h decoded p address x req file_buffer out names :
  hd_rep h decoded p address x -> req_ok req -> req.(r_client) = Some p ->
  buffers_ok file_buffer out names -> payload_ok env.(v_to_send) -> is_u32 env.(v_to_send).(p_crc2) ->
  x.(x_active) = false -> is_Some (x.(x_pending) !! x.(x_low)) ->
  handle_request cfg env h decoded file_buffer out names req = Stuck UB.
Proof.
  intros (c & w & lock & f & window & Hat & _) Hreq Hcl Hbufs Hs1 Hs2 Hact [ch Hch].
  destruct (handle_request_loops cfg env.(v_remove) env.(v_to_send) h decoded p x c w lock f window Hat req
    Hreq Hcl file_buffer out names Hbufs (conj Hs1 Hs2)) as (evs & req' & st & d0 & d & pending & ts & rs & Hlp).
  destruct Hlp as [_ _ Hrx _ _ [_ Hcnt Ho [Hb Hbo] Hby _ _] [_ Hoff] Hrun].
  pose proof (rx_events_inactive cfg.(cfg_max_window_size) x (x.(x_pending), x.(x_timestamp)) evs Hact) as Hp.
  rw Hrx in Hp. cbn [fst] in Hp.
  assert (0 < length (next_chunks 31 x.(x_low) pending))%nat as Hpos.
  { rw Hp. cbn [next_chunks fst]. rw Hch. destruct ch as [? []]; cbn [length]; lia. }
  destruct Hat as [_ _ _ _ _ _ [Hfl Hff] _]. destruct env as [remove to_send n t]. cbn [v_to_send] in *.
  rw Hrun /finish Hcnt. destruct (Z.ltb_spec 0 (Z.of_nat (0 + length (next_chunks 31 x.(x_low) pending)))); [|lia].
  rw Hfl (load_Some _ _ _ Hff) slice_fits; [|by rw Hb]. rw Hact. reflexivity.
Qed.

(** ** Concrete runs *)

(** The data packets of a file of two payloads. *)
Definition data_packet (n : nat) : packet_t :=
  let payload := two_payloads n in
  mk_packet DATA false 31 false (Z.of_nat (length payload)) (seq_of n) 100 0 0
    (payload ++ replicate (512 - length payload) 0).

Definition data_wire (n : nat) : list Z := wire (data_packet n) true.

Definition pad (d : list Z) : list Z := d ++ replicate (528 - length d) 0.

(** A request for the client at 1 with the given datagrams. *)
Definition request_of (ds : list (list Z)) : hd_req_t :=
  mk_req false (Some 1%positive) (length ds)
    (((fun d => Z.of_nat (length d)) <$> ds) ++ replicate (31 - length ds) 0)
    ((pad <$> ds) ++ replicate (31 - length ds) (pad [])).

(** Packet 1, three bytes of noise, packet 0. *)
Definition request1 : hd_req_t := request_of [data_wire 1; [1; 2; 3]; data_wire 0].

Definition new_buffers : list Z * list (list Z) * list (option ptr) :=
  (replicate FILE_BUFFER 0, replicate 32 (replicate 12 0), replicate 32 None).

(** A heap with the client at 1 that [initialize_client] makes there, and
    the thread's packet at 60. *)
Definition ready_heap : heap_t :=
  mk_heap (<[1%positive := new_client 7 28 2%positive 3%positive 4%positive 5%positive]> ∅)
    (<[2%positive := false]> ∅) (<[4%positive := address0]> ∅) (<[3%positive := mk_file true 0 []]> ∅)
    (<[5%positive := mk_buf 0 0 (fresh_node <$> pointers 32)]> ∅)
    (<[60%positive := zeroed_packet]> (allocated zeroed_packet ∅ (pointers 32))) ∅.

Definition ready_thread : thread :=
  mk_thread ready_heap 60%positive new_buffers.1.1 new_buffers.1.2 new_buffers.2.

Lemma zeroed_packet_ok : payload_ok zeroed_packet.
Proof. split; [done|]. apply Forall_replicate. lia. Qed.

Lemma zeroed_packet_send : payload_ok zeroed_packet /\ is_u32 zeroed_packet.(p_crc2).
Proof. split; [apply zeroed_packet_ok|cbn; lia]. Qed.

Lemma ready_rep : hd_rep ready_heap 60%positive 1%positive (Some 4%positive) rx_init.
Proof.
  apply (new_client_rep ready_heap 1%positive address0 7 28 2%positive 3%positive 4%positive 5%positive
    (pointers 32) 60%positive zeroed_packet); try reflexivity.
  - apply (bool_decide_eq_true_1 _). vm_compute. reflexivity.
  - apply zeroed_packet_ok.
  - apply Forall_forall. repeat (apply Forall_cons_2; [reflexivity|]). apply Forall_nil_2.
Qed.

Lemma new_buffers_ok : buffers_ok new_buffers.1.1 new_buffers.1.2 new_buffers.2.
Proof.
  split; [apply length_replicate| |reflexivity]. split; [reflexivity|]. apply Forall_replicate. done.
Qed.

Lemma ready_thread_ok : thread_ok 1%positive (Some 4%positive) ready_thread rx_init.
Proof. split; [apply ready_rep|apply new_buffers_ok]. Qed.

Lemma request_of_ok ds :
  (length ds <= 31)%nat -> Forall (fun d => bytes d /\ (length d <= 528)%nat) ds -> req_ok (request_of ds).
Proof.
  intros Hn Hds. split; cbn [request_of r_num r_lengths r_buffer]; [done| |].
  - split; [rw length_app length_fmap length_replicate; lia|]. apply Forall_app. split.
    + apply Forall_fmap. eapply Forall_impl; [exact Hds|]. cbn. rw /MAX_PACKET_SIZE. lia.
    + apply Forall_replicate. rw /MAX_PACKET_SIZE. lia.
  - split; [rw length_app length_fmap length_replicate; lia|].
    assert (forall d, bytes d -> (length d <= 528)%nat ->
      bytes (pad d) /\ length (pad d) = Z.to_nat MAX_PACKET_SIZE) as Hpad.
    { intros d Hb Hl. rw /pad length_app length_replicate /MAX_PACKET_SIZE. split; [|lia].
      apply Forall_app. split; [done|]. apply Forall_replicate. lia. }
    apply Forall_app. split.
    + apply Forall_fmap. eapply Forall_impl; [exact Hds|]. intros d [Hb Hl]. by apply Hpad.
    + apply Forall_replicate. apply Hpad; [done|cbn; lia].
Qed.

Lemma two_payloads_bytes n : bytes (two_payloads n) /\ (length (two_payloads n) <= 2)%nat.
Proof. destruct n as [|[|n]]; cbn; (split; [forall_list lia|lia]). Qed.

Lemma data_packet_sendable n : sendable (data_packet n).
Proof.
  destruct (two_payloads_bytes n) as [Hb Hl].
  split; cbn [data_packet p_long_length p_length p_window p_type p_truncated]; try done; try lia.
  assert (payload_ok (data_packet n)) as Hok.
  { split; cbn [p_payload data_packet].
    - rw length_app length_replicate /MAX_PAYLOAD_SIZE. lia.
    - apply Forall_app. split; [done|]. apply Forall_replicate. lia. }
  refine (conj (seq_of_range n) (conj _ (conj _ (conj _ (conj Hok _))))); cbn [data_packet p_crc2 p_length p_timestamp];
    rw /MAX_PAYLOAD_SIZE; lia.
Qed.

(** The datagram of packet [n], padded to the size of a buffer. *)
Lemma data_wire_event n out :
  payload_ok out ->
  event_of (pad (data_wire n)) (Z.of_nat (length (data_wire n))) out = Data (seq_of n) 100 (two_payloads n).
Proof.
  intros Hok. rw /pad /data_wire wire_event //; [|apply data_packet_sendable|apply Forall_replicate; lia].
  rw /payload_bytes. cbn [data_packet p_length p_payload p_seqnum p_timestamp]. by rw Nat2Z.id take_app_length.
Qed.

Lemma short_datagram d out : (length d < 11)%nat -> event_of (pad d) (Z.of_nat (length d)) out = Bad.
Proof.
  intros Hd. rw /event_of /wire_error.
  destruct (Z.ltb_spec (Z.of_nat (length d)) (Z.of_nat (hdr_len (pad d)))) as [|Hge]; [done|].
  rw /hdr_len in Hge. destruct (wire_long _); lia.
Qed.

Lemma data_wire_genuine k n :
  (n <= 2)%nat -> (k <= 2)%nat ->
  genuine_datagram two_payloads 2 k (pad (data_wire n), Z.of_nat (length (data_wire n))).
Proof.
  intros Hn Hk out Hok. cbn [fst snd]. rw data_wire_event //. exists n. split_and!; try done; lia.
Qed.

Lemma request1_ok : req_ok request1.
Proof.
  apply request_of_ok; [cbn; lia|].
  apply (bool_decide_eq_true_1 _). vm_compute. reflexivity.
Qed.

Lemma datagrams_request_of ds :
  datagrams (request_of ds) 0 (length ds) = (fun d => (pad d, Z.of_nat (length d))) <$> ds.
Proof.
  rw /datagrams !drop_0. cbn [request_of r_buffer r_lengths].
  rw !take_app_length'; [|by rw length_fmap..].
  induction ds as [|d ds IH]; [done|]. cbn. by f_equal.
Qed.

Lemma request1_genuine :
  Forall (genuine_datagram two_payloads 2 0) (datagrams request1 0 request1.(r_num)).
Proof.
  rw (datagrams_request_of [data_wire 1; [1; 2; 3]; data_wire 0]). cbn [fmap list_fmap].
  repeat (apply Forall_cons_2 || apply Forall_nil_2); try (apply data_wire_genuine; lia).
  intros out _. cbn [fst snd]. rw (short_datagram [1; 2; 3]) //. cbn. lia.
Qed.

Definition cfg31 : hd_cfg_t := mk_cfg 31.

Lemma handle_request_refines_witness :
  exists evs x' rs, events_of evs (datagrams request1 0 3) /\
  rx_step 31 rx_init evs = (x', rs) /\
  exists h' req' decoded' file_buffer' out' names',
    handle_request cfg31 (mk_hd_env true zeroed_packet (length x'.(x_file) - 0) (Some 9%positive))
      ready_heap 60%positive new_buffers.1.1 new_buffers.1.2 new_buffers.2 request1 =
      Done (h', req', decoded', (file_buffer', out', names'),
            Some ((fun r => (Some 4%positive, reply_wire r)) <$> rs)) /\
    hd_rep h' decoded' 1%positive (Some 4%positive) x' /\ req_ok req' /\ buffers_ok file_buffer' out' names'.
Proof.
  apply (handle_request_refines cfg31 ready_heap 60%positive 1%positive (Some 4%positive) rx_init request1
    new_buffers.1.1 new_buffers.1.2 new_buffers.2 zeroed_packet 9%positive);
    [apply ready_rep|apply request1_ok|reflexivity|apply new_buffers_ok|apply zeroed_packet_ok|cbn; lia|by left].
Defined.

(** The thread after [request1]: its two payloads (numbers 1 and 0, a bad
    datagram between them) have been delivered, the final one has not. *)
Definition env1 : hd_env := mk_hd_env true zeroed_packet 3 (Some 9%positive).
Definition thread1 : thread :=
  match run_request cfg31 env1 ready_thread request1 with
  | Done (h', _, decoded', (fb', out', names'), _) => mk_thread h' decoded' fb' out' names'
  | _ => ready_thread
  end.

Lemma thread1_transfer : transfer two_payloads 2 cfg31 1%positive (Some 4%positive) 2 thread1.
Proof.
  assert (exists req' sent, run_request cfg31 env1 ready_thread request1 =
    Done (thread1.(t_heap), req', thread1.(t_decoded), (thread1.(t_file_buffer), thread1.(t_out), thread1.(t_names)),
          Some sent)) as (req' & sent & Hrun).
  { assert (match run_request cfg31 env1 ready_thread request1 with
            | Done (_, _, _, _, Some _) => true | _ => false end = true) as H by (vm_compute; reflexivity).
    rw /thread1. destruct (run_request cfg31 env1 ready_thread request1) as [[[[[h r] d] [[fb o] n]] [sent|]]|]; try done.
    by exists r, sent. }
  assert (thread1 = mk_thread thread1.(t_heap) thread1.(t_decoded) thread1.(t_file_buffer) thread1.(t_out)
    thread1.(t_names)) as -> by by destruct thread1.
  eapply (transfer_step two_payloads 2 cfg31 1%positive (Some 4%positive) 0 ready_thread env1 request1); try exact Hrun.
  - apply transfer_start, ready_thread_ok.
  - apply request1_ok.
  - reflexivity.
  - apply request1_genuine.
  - apply zeroed_packet_ok.
  - cbn. lia.
  - by eexists.
  - lia.
  - vm_compute. reflexivity.
Qed.

Lemma transfer_in_order_witness :
  exists c f lock, thread1.(t_heap).(h_clients) !! 1%positive = Some c /\
    c.(c_out_file) = Some f /\
    thread1.(t_heap).(h_files) !! f = Some (mk_file true 3 [10; 11; 12]) /\
    c.(c_active) = true /\ (2 <= 3)%nat /\
    c.(c_transferred) = 3 /\ next_seq thread1.(t_heap) 1%positive = Some 2 /\
    c.(c_lock) = Some lock /\ thread1.(t_heap).(h_mutexes) !! lock = Some false.
Proof.
  apply (transfer_in_order two_payloads 2 cfg31 1%positive (Some 4%positive) 2 thread1).
  - intros [|[|n]] Hn; [done|done|lia].
  - reflexivity.
  - apply thread1_transfer.
Defined.

Lemma transfer_progress_witness :
  exists k' t' req' sent, (0 < k' <= 31)%nat /\
    run_request cfg31 (mk_hd_env true zeroed_packet (length (concat (two_payloads <$> seq 0 (k' - 0))))
      (Some 9%positive)) ready_thread request1 =
      Done (t'.(t_heap), req', t'.(t_decoded), (t'.(t_file_buffer), t'.(t_out), t'.(t_names)), Some sent) /\
    transfer two_payloads 2 cfg31 1%positive (Some 4%positive) k' t'.
Proof.
  apply (transfer_progress two_payloads 2 cfg31 1%positive (Some 4%positive) 0 ready_thread request1
    (pad (data_wire 0), Z.of_nat (length (data_wire 0))) 100 zeroed_packet 9%positive).
  - intros [|[|n]] Hn; [done|done|lia].
  - reflexivity.
  - apply transfer_start, ready_thread_ok.
  - lia.
  - apply request1_ok.
  - reflexivity.
  - apply request1_genuine.
  - rw (datagrams_request_of [data_wire 1; [1; 2; 3]; data_wire 0]). cbn [fmap list_fmap].
    apply list_elem_of_further, list_elem_of_further, list_elem_of_here.
  - intros out Hok. by apply data_wire_event.
  - apply zeroed_packet_ok.
  - cbn. lia.
Defined.

(** What the datagrams of [request1] are is determined. *)
Lemma request1_events evs :
  events_of evs (datagrams request1 0 3) -> evs = [Data 1 100 [12]; Bad; Data 0 100 [10; 11]].
Proof.
  rw /request1 (datagrams_request_of [data_wire 1; [1; 2; 3]; data_wire 0]). cbn [fmap list_fmap].
  intros (e1 & evs1 & (o1 & Ho1 & ->) & H1 & ->)%Forall2_cons_inv_r.
  destruct (Forall2_cons_inv_r _ _ _ _ H1) as (e2 & evs2 & (o2 & Ho2 & ->) & H2 & ->).
  destruct (Forall2_cons_inv_r _ _ _ _ H2) as (e3 & evs3 & (o3 & Ho3 & ->) & ->%Forall2_nil_inv_r & ->).
  cbn [fst snd]. rw !data_wire_event // short_datagram //.
Qed.

(** The client at 1, its window, lock and file. *)
Lemma ready_at : exists window,
  client_at ready_heap 60%positive 1%positive rx_init
    (new_client 7 28 2%positive 3%positive 4%positive 5%positive) 5%positive 2%positive 3%positive window.
Proof.
  destruct ready_rep as (c & w & lock & f & window & Hat & _). exists window.
  pose proof (at_client _ _ _ _ _ _ _ _ _ Hat) as Hc. cbn in Hc. rw lookup_insert_eq in Hc.
  injection Hc as <-. destruct (at_window _ _ _ _ _ _ _ _ _ Hat) as [[= <-] _].
  destruct (at_lock _ _ _ _ _ _ _ _ _ Hat) as [[= <-] _].
  destruct (at_file _ _ _ _ _ _ _ _ _ Hat) as [[= <-] _]. exact Hat.
Qed.

(** One byte of three is written. *)
Lemma handle_request_short_write_witness :
  exists h' req' decoded' bufs' w',
    handle_request cfg31 (mk_hd_env true zeroed_packet 1 None) ready_heap 60%positive
      new_buffers.1.1 new_buffers.1.2 new_buffers.2 request1 = Done (h', req', decoded', bufs', None) /\
    h'.(h_files) !! 3%positive = Some (mk_file true 1 [10]) /\
    h'.(h_bufs) !! 5%positive = Some w' /\ w'.(b_window_low) = 0 /\ w'.(b_length) = 2 /\
    used_at w' 0 = false /\ used_at w' 1 = false.
Proof.
  destruct ready_at as [window Hat].
  destruct (handle_request_short_write cfg31 ready_heap 60%positive 1%positive rx_init _ _ _ _ window request1
    new_buffers.1.1 new_buffers.1.2 new_buffers.2 zeroed_packet true 1 None Hat)
    as (evs & pending & ts & rs & Hevs & Hrx & H);
    [apply request1_ok|reflexivity|apply new_buffers_ok|apply zeroed_packet_ok|cbn; lia|reflexivity|].
  apply request1_events in Hevs as ->.
  assert (pending = <[0 := (100, [10; 11])]> (<[1 := (100, [12])]> ∅)) as ->
    by exact (eq_sym (f_equal (fun z => z.1.1) Hrx)).
  assert (next_chunks 31 0 (<[0 := (100, [10; 11])]> (<[1 := (100, [12])]> ∅)) = [(100, [10; 11]); (100, [12])])
    as Hcs by (vm_compute; reflexivity).
  cbn [rx_init x_low] in H. rewrite -> Hcs in H. clear Hcs Hrx.
  destruct H as (h' & req' & dec' & bufs' & w' & Hrun & _ & _ & Hf & Hb & Hl & Hlen & Hu); [done|done|].
  exists h', req', dec', bufs', w'.
  exact (conj Hrun (conj Hf (conj Hb (conj Hl (conj Hlen
    (conj (Hu 0%nat ltac:(cbn; lia)) (Hu 1%nat ltac:(cbn; lia)))))))).
Defined.

(** The end of the file together with a packet behind it, and then
    nothing: the second request writes to the closed file. *)
Definition eof_packet : packet_t := mk_packet DATA false 31 false 0 0 100 0 0 (replicate 512 0).
Definition request_eof : hd_req_t := request_of [wire eof_packet true; data_wire 1].

Lemma request_eof_events evs :
  events_of evs (datagrams request_eof 0 2) -> evs = [Data 0 100 []; Data 1 100 [12]].
Proof.
  assert (sendable eof_packet) as Hs.
  { split; cbn; try done. split_and!; cbn; try lia; try done. split; [done|]. apply Forall_replicate. lia. }
  rw /request_eof (datagrams_request_of [wire eof_packet true; data_wire 1]). cbn [fmap list_fmap].
  intros (e1 & evs1 & (o1 & Ho1 & ->) & H1 & ->)%Forall2_cons_inv_r.
  destruct (Forall2_cons_inv_r _ _ _ _ H1) as (e2 & evs2 & (o2 & Ho2 & ->) & ->%Forall2_nil_inv_r & ->).
  cbn [fst snd]. rw data_wire_event // /pad wire_event //.
Qed.

Lemma handle_request_after_end_witness :
  exists h' req' decoded' fb' out' names' sent,
    handle_request cfg31 (mk_hd_env true zeroed_packet 0 (Some 9%positive)) ready_heap 60%positive
      new_buffers.1.1 new_buffers.1.2 new_buffers.2 request_eof =
      Done (h', req', decoded', (fb', out', names'), sent) /\
    handle_request cfg31 (mk_hd_env true zeroed_packet 0 (Some 9%positive)) h' decoded' fb' out' names'
      (request_of []) = Stuck UB.
Proof.
  destruct ready_at as [window Hat].
  assert (req_ok request_eof) as Hreq.
  { apply request_of_ok; [cbn; lia|]. apply (bool_decide_eq_true_1 _). vm_compute. reflexivity. }
  destruct (handle_request_loops cfg31 true zeroed_packet ready_heap 60%positive 1%positive rx_init _ _ _ _ window
    Hat request_eof Hreq eq_refl _ _ _ new_buffers_ok zeroed_packet_send)
    as (evs & req' & st & d0 & d & pending & ts & rs1 & Hlp).
  pose proof Hlp as [Hevs _ Hrx _ _ _ _ _]. apply request_eof_events in Hevs as ->.
  destruct (rx_step 31 rx_init [Data 0 100 []; Data 1 100 [12]]) as [x' rs] eqn:Hstep.
  assert (x'.(x_active) = false /\ is_Some (x'.(x_pending) !! x'.(x_low)) /\ x'.(x_file) = []) as (Ha & Hp & Hx).
  { replace x' with (rx_step 31 rx_init [Data 0 100 []; Data 1 100 [12]]).1 by by rw Hstep.
    split; [reflexivity|]. split; [|reflexivity]. by exists (100, [12]). }
  destruct (handle_request_writes cfg31 true zeroed_packet ready_heap 60%positive 1%positive rx_init _ _ _ _ window
    Hat request_eof Hreq eq_refl _ _ _ new_buffers_ok zeroed_packet_send
    _ req' st d0 d pending ts rs1 0 (Some 9%positive) x' rs Hlp Hstep)
    as (h' & dec' & fb' & out' & names' & Hrun & Hrep & Hb); [by rw Hx|by eexists|by left|].
  do 7 eexists. split; [exact Hrun|].
  apply (handle_request_after_end cfg31 _ h' dec' 1%positive (Some 4%positive) x' (request_of []) fb' out' names' Hrep);
    [|reflexivity|exact Hb|apply zeroed_packet_ok|cbn; lia|exact Ha|exact Hp].
  apply request_of_ok; [cbn; lia|apply Forall_nil_2].
Defined.
