(* ===== verification/HandlerLoop.v ===== *)
(** * HandlerLoop: the handler thread and its streams

    One round of a handler takes a node from its incoming stream, handles
    the request and gives the node back on the other stream; a stop
    request ends the thread.  The state a new client starts in, and the
    units of the final log message. *)

From stdpp Require Import strings.
From S2P Require Import Prelude Global Cli Printf Memory Lookup Packet Buffer Client Stream Protocol Handler HandlerSpec HandlerThm.

(** ** One round *)

(** The two streams of a handler hold different nodes of the same heap. *)
Record streams_rep (w : hd_world) (rxq txq : list ptr) : Prop := {
  sr_rx : stream_rep w.(w_nodes) w.(w_rx) rxq;
  sr_tx : stream_rep w.(w_nodes) w.(w_tx) txq;
  sr_disjoint : NoDup (rxq ++ txq);
  sr_length : w.(w_rx).(st_length) = Z.of_nat (length rxq);
  sr_waiting : w.(w_rx).(st_waiting) = 0 }.

(** Taking the first node off the incoming stream. *)
Lemma pop_rx w n q txq wait :
  streams_rep w (n :: q) txq ->
  exists nodes' rx', stream_pop w.(w_nodes) w.(w_rx) wait = Done (nodes', rx', Some n) /\
    stream_rep nodes' rx' q /\ stream_rep nodes' w.(w_tx) txq /\
    rx'.(st_length) = i32 (Z.of_nat (length q)) /\ rx'.(st_waiting) = 0 /\
    sn_content <$> nodes' = sn_content <$> w.(w_nodes).
Proof.
  intros [Hrx Htx Hnd Hlen Hwait].
  destruct (pop_rep w.(w_nodes) w.(w_rx) (n :: q) wait Hrx) as (h' & st' & Hrun & Hq & Hc & Hl & Hw & Hfr);
    [intros _; rw Hlen; cbn; lia|rw Hwait; lia|].
  exists h', st'. split; [done|]. split; [done|]. split.
  { eapply stream_rep_frame; [|done]. intros p Hp. apply Hfr. intros Hin.
    apply NoDup_app in Hnd as (_ & Hd & _). by apply (Hd p). }
  split; [|by rw Hw]. rw Hl Hlen. f_equal. cbn [length]. lia.
Qed.

Lemma node_content (nodes nodes' : nodes_t) n r :
  content_of nodes n = Some r -> sn_content <$> nodes' = sn_content <$> nodes ->
  exists node, nodes' !! n = Some node /\ node.(sn_content) = Some r.
Proof.
  intros H Hc. rewrite <- (content_of_eq nodes nodes' n Hc) in H. rw /content_of in H.
  destruct (nodes' !! n) as [node|]; [|done]. by exists node.
Qed.

(** A round with a request that is not a stop request, in full. *)
Lemma hd_run_once_ok wait cfg env w n q txq r req h' req' decoded' fb' out' names' sent :
  streams_rep w (n :: q) txq -> Z.of_nat (length q) < 2 ^ 31 ->
  content_of w.(w_nodes) n = Some r -> w.(w_reqs) !! r = Some req -> req.(r_stop) = false ->
  handle_request cfg env w.(w_heap) w.(w_decoded) w.(w_file_buffer) w.(w_out) w.(w_names) req =
    Done (h', req', decoded', (fb', out', names'), sent) ->
  exists nodes' rx' tx' (w' := mk_world h' nodes' (<[r := req']> w.(w_reqs)) rx' tx' decoded' w.(w_exit)
      fb' out' names' (w.(w_sent) ++ default [] sent)),
    hd_run_once wait cfg env w = Done w' /\ streams_rep w' q (txq ++ [n]) /\
    tx'.(st_waiting) = w.(w_tx).(st_waiting) /\
    sn_content <$> nodes' = sn_content <$> w.(w_nodes).
Proof.
  intros Hs Hsize Hn Hr Hstop Hrun.
  destruct (pop_rx w n q txq wait Hs) as (nodes1 & rx1 & Hpop & Hq & Htx & Hlen & Hwait & Hc1).
  destruct (node_content _ _ _ _ Hn Hc1) as (node & Hnode & Hcont).
  pose proof (sr_disjoint _ _ _ Hs) as Hnd. cbn in Hnd. apply NoDup_cons in Hnd as [Hnin Hnd].
  rw not_elem_of_app in Hnin. destruct Hnin as [Hnq Hntx].
  destruct (enqueue_rep nodes1 w.(w_tx) txq n node Htx Hntx Hnode)
    as (nodes2 & tx2 & Henq & Htx2 & Hc2 & _ & Hw2 & Hfr).
  rw /hd_run_once Hpop. unbind. rw (load_Some _ _ _ Hnode). unbind.
  rw Hcont (load_Some _ _ _ Hr). unbind. rw Hstop Hrun. unbind.
  rw (store_Some _ _ _ _ Hr). unbind. rw /enqueue_or_free Henq. unbind.
  do 3 eexists. split; [reflexivity|]. split; [|split; [exact Hw2|by rw -Hc1 -Hc2]].
  split; cbn [w_nodes w_rx w_tx]; try done.
  - eapply stream_rep_frame; [|exact Hq]. intros p Hp. apply Hfr. rw not_elem_of_app list_elem_of_singleton.
    apply NoDup_app in Hnd as (_ & Hd & _). split; [by apply Hd|]. by intros ->.
  - rw app_assoc Permutation_app_comm. apply NoDup_cons. by rw not_elem_of_app.
  - by rw Hlen i32_small; [|lia].
Qed.

(** ** Properties *)

(** C27: a round of the handler.  With a request for a client in the first
    node of the incoming stream, and the rest of the stream behind it, the
    round does to the heap what [handle_request] does, moves the node
    (with its request) to the end of the other stream, appends what it
    sends to what was sent, and does not ask the thread to stop.  No node
    is lost, freed or in both streams. *)
Theorem hd_run_once_serves wait cfg env w n q txq r req h' req' decoded' fb' out' names' sent :
  streams_rep w (n :: q) txq -> Z.of_nat (length q) < 2 ^ 31 ->
  content_of w.(w_nodes) n = Some r -> w.(w_reqs) !! r = Some req -> req.(r_stop) = false ->
  handle_request cfg env w.(w_heap) w.(w_decoded) w.(w_file_buffer) w.(w_out) w.(w_names) req =
    Done (h', req', decoded', (fb', out', names'), sent) ->
  exists w', hd_run_once wait cfg env w = Done w' /\
    streams_rep w' q (txq ++ [n]) /\ w'.(w_heap) = h' /\ w'.(w_reqs) = <[r := req']> w.(w_reqs) /\
    w'.(w_decoded) = decoded' /\ w'.(w_exit) = w.(w_exit) /\
    w'.(w_sent) = w.(w_sent) ++ default [] sent /\
    sn_content <$> w'.(w_nodes) = sn_content <$> w.(w_nodes).
Proof.
  intros Hs Hsize Hn Hr Hstop Hrun.
  destruct (hd_run_once_ok wait cfg env w n q txq r req h' req' decoded' fb' out' names' sent Hs Hsize Hn Hr Hstop Hrun)
    as (nodes' & rx' & tx' & Hw & Hq & _ & Hc).
  eexists. split; [exact Hw|]. by split.
Qed.

(** stopping a handler.  A stop request makes the round free the
    thread's packet, the node and the request, each once, and ask the
    thread to stop; nothing is sent and the other nodes stay in the stream. *)
Theorem hd_run_once_stops wait cfg env w n q txq r req pk :
  streams_rep w (n :: q) txq -> Z.of_nat (length q) < 2 ^ 31 ->
  content_of w.(w_nodes) n = Some r -> w.(w_reqs) !! r = Some req -> req.(r_stop) = true ->
  w.(w_heap).(h_packets) !! w.(w_decoded) = Some pk ->
  exists w', hd_run_once wait cfg env w = Done w' /\
    streams_rep w' q txq /\ w'.(w_exit) = true /\ w'.(w_sent) = w.(w_sent) /\
    w'.(w_heap) = upd_packets (delete w.(w_decoded)) w.(w_heap) /\
    w'.(w_reqs) = delete r w.(w_reqs) /\
    sn_content <$> w'.(w_nodes) = delete n (sn_content <$> w.(w_nodes)) /\
    handle_loop cfg [] w' = Done w'.
Proof.
  intros Hs Hsize Hn Hr Hstop Hpk.
  destruct (pop_rx w n q txq wait Hs) as (nodes1 & rx1 & Hpop & Hq & Htx & Hlen & Hwait & Hc1).
  destruct (node_content _ _ _ _ Hn Hc1) as (node & Hnode & Hcont).
  pose proof (sr_disjoint _ _ _ Hs) as Hnd. cbn in Hnd. apply NoDup_cons in Hnd as [Hnin Hnd].
  rw not_elem_of_app in Hnin. destruct Hnin as [Hnq Hntx].
  rw /hd_run_once Hpop. unbind. rw (load_Some _ _ _ Hnode). unbind.
  rw Hcont (load_Some _ _ _ Hr). unbind. rw Hstop (free_Some _ _ _ Hpk). unbind.
  rw /deallocate_node (load_Some _ _ _ Hnode). unbind.
  rw Hcont (free_Some _ _ _ Hr). unbind. rw (free_Some _ _ _ Hnode). unbind.
  eexists. split; [reflexivity|]. cbn [w_nodes w_exit w_sent w_heap w_reqs].
  split; [split; cbn [w_nodes w_rx w_tx]; try done|].
  - eapply stream_rep_frame; [|exact Hq]. intros p Hp. apply lookup_delete_ne. by intros ->.
  - eapply stream_rep_frame; [|exact Htx]. intros p Hp. apply lookup_delete_ne. by intros ->.
  - by rw Hlen i32_small; [|lia].
  - split_and!; try done; [by destruct (w.(w_heap))|]. by rw fmap_delete Hc1.
Qed.

(** a new client is ready.  When every allocation succeeds,
    [initialize_client] leaves a heap that stands for the initial state of
    the protocol, for any thread whose own packet is another block: a
    transfer can start there. *)
Theorem new_client_ready h client c0 id format name address addr_len lock file addr window garbage ps decoded pk :
  file_name format id = Done name ->
  h.(h_clients) !! client = Some c0 -> fresh_blocks h lock file addr window ps ->
  length garbage.(b_nodes) = MAX_BUFFER_SIZE -> length ps = MAX_BUFFER_SIZE ->
  h.(h_packets) !! decoded = Some pk -> payload_ok pk ->
  exists h', initialize_client h client id format address addr_len
      (env_ok lock file addr window garbage (map Some ps) false) = Done (h', None) /\
    hd_rep h' decoded client (Some addr) rx_init.
Proof.
  intros Hname Hc [Hl Hf Ha Hw [Hnd Hfr]] Hg Hps Hd Hok.
  assert (decoded ∉ ps) as Hnin.
  { intros Hin. rewrite -> Forall_forall in Hfr. by rewrite -> (Hfr _ Hin) in Hd. }
  destruct h as [hc hm ha hf hb hp ht]. cbn in *.
  eexists. split; [by eapply initialize_client_ok|].
  eapply (new_client_rep _ client address id addr_len lock file addr window ps decoded pk); cbn; try done;
    try apply lookup_insert_eq; [by apply NoDup_cons|intros; by apply allocated_in|].
  by rw allocated_notin.
Qed.

(** [heap0] with a packet at 60. *)
Lemma new_client_ready_witness :
  exists h', initialize_client (upd_packets (<[60%positive := zeroed_packet]>) heap0) 1%positive 7 DEFAULT_OUT_FORMAT address0 28
      (env_ok 2%positive 3%positive 4%positive 5%positive garbage0 (map Some (pointers 32)) false) =
      Done (h', None) /\
    hd_rep h' 60%positive 1%positive (Some 4%positive) rx_init.
Proof.
  apply (new_client_ready (upd_packets (<[60%positive := zeroed_packet]>) heap0) 1%positive blank_client 7
    DEFAULT_OUT_FORMAT (decimal 7) address0 28 2%positive 3%positive 4%positive 5%positive garbage0 (pointers 32) 60%positive zeroed_packet);
    [reflexivity|reflexivity| |reflexivity|reflexivity|reflexivity|apply zeroed_packet_ok].
  split; try reflexivity. split; [apply (bool_decide_eq_true_1 _); vm_compute; reflexivity|].
  apply (bool_decide_eq_true_1 _). vm_compute. reflexivity.
Defined.

(** A world with two nodes in the incoming stream: [request1] (or a stop
    request) at 101, and one behind it. *)
Definition world_of (req : hd_req_t) : hd_world :=
  mk_world ready_heap
    (<[101%positive := mk_snode (Some 201%positive) (Node 102%positive)]>
      (<[102%positive := mk_snode (Some 202%positive) Null]> ∅))
    (<[201%positive := req]> (<[202%positive := request1]> ∅))
    (mk_stream Null (Node 101%positive) false 2 0) (mk_stream Null Null false 0 0) 60%positive false
    new_buffers.1.1 new_buffers.1.2 new_buffers.2 [].

Lemma world_streams req : streams_rep (world_of req) [101%positive; 102%positive] [].
Proof.
  split; cbn [world_of w_nodes w_rx w_tx st_length st_waiting]; try done.
  - exists [101%positive; 102%positive], []. split; [done|]. split; [apply (bool_decide_eq_true_1 _); reflexivity|].
    split; [|done]. split; [done|]. eexists. split; [reflexivity|]. split; [done|]. eexists. by split.
  - exists [], []. split_and!; try done. constructor.
  - apply (bool_decide_eq_true_1 _). reflexivity.
Qed.

Definition stop_request : hd_req_t := mk_req true None 0 [] [].

Lemma hd_run_once_stops_witness :
  exists w', hd_run_once true cfg31 (mk_hd_env true zeroed_packet 0 None) (world_of stop_request) = Done w' /\
    streams_rep w' [102%positive] [] /\ w'.(w_exit) = true /\ w'.(w_sent) = [] /\
    w'.(w_heap) = upd_packets (delete 60%positive) ready_heap /\
    w'.(w_reqs) = delete 201%positive (world_of stop_request).(w_reqs) /\
    sn_content <$> w'.(w_nodes) = delete 101%positive (sn_content <$> (world_of stop_request).(w_nodes)) /\
    handle_loop cfg31 [] w' = Done w'.
Proof.
  apply (hd_run_once_stops true cfg31 (mk_hd_env true zeroed_packet 0 None) (world_of stop_request)
    101%positive [102%positive] [] 201%positive stop_request zeroed_packet);
    [apply world_streams|cbn; lia|reflexivity|reflexivity|reflexivity|reflexivity].
Defined.

(** A request without datagrams is handled without effect. *)
Lemma hd_run_once_serves_witness :
  exists h' req' decoded' fb' out' names' sent w',
    handle_request cfg31 (mk_hd_env true zeroed_packet 0 None) ready_heap 60%positive
      new_buffers.1.1 new_buffers.1.2 new_buffers.2 (request_of []) =
      Done (h', req', decoded', (fb', out', names'), sent) /\
    hd_run_once true cfg31 (mk_hd_env true zeroed_packet 0 None) (world_of (request_of [])) = Done w' /\
    streams_rep w' [102%positive] [101%positive] /\ w'.(w_heap) = h'.
Proof.
  assert (exists h' req' decoded' fb' out' names' sent,
    handle_request cfg31 (mk_hd_env true zeroed_packet 0 None) ready_heap 60%positive
      new_buffers.1.1 new_buffers.1.2 new_buffers.2 (request_of []) =
      Done (h', req', decoded', (fb', out', names'), sent)) as (h' & req' & dec' & fb' & out' & names' & sent & Hrun)
    by (do 7 eexists; reflexivity).
  destruct (hd_run_once_serves true cfg31 (mk_hd_env true zeroed_packet 0 None) (world_of (request_of []))
    101%positive [102%positive] [] 201%positive (request_of []) h' req' dec' fb' out' names' sent)
    as (w' & Hw & Hs & Hh & _);
    [apply world_streams|cbn; lia|reflexivity|reflexivity|reflexivity|exact Hrun|].
  exists h', req', dec', fb', out', names', sent, w'. exact (conj Hrun (conj Hw (conj Hs Hh))).
Defined.

(** ** The units of a size *)

Lemma bytes_to_unit_from_spec n i total m :
  (n + i = 5)%nat -> (0 < n)%nat -> 0 <= total -> 0 < m ->
  exists j u, (i <= j < 5)%nat /\ size_units !! j = Some u /\
    bytes_to_unit_from n i total m = Some (u, m * 1024 ^ Z.of_nat (j - i)) /\
    (total / 1024 ^ Z.of_nat (j - i) <= 1024 \/ j = 4%nat) /\
    (j = i \/ 1 <= total / 1024 ^ Z.of_nat (j - i)).
Proof.
  revert i total m. induction n as [|n IH]; intros i total m Hn Hpos Ht Hm; [lia|].
  cbn [bytes_to_unit_from].
  destruct ((1024 <? total) && negb (i =? 4)%nat) eqn:E.
  - rewrite -> andb_true_iff, Z.ltb_lt, negb_true_iff, Nat.eqb_neq in E. destruct E as [Hgt Hi].
    destruct (IH (S i) (total / 1024) (m * 1024)) as (j & u & Hj & Hu & Hrun & Hle & Hge);
      [lia|lia|divmod|lia|].
    exists j, u. split; [lia|]. split; [done|].
    assert (1024 ^ Z.of_nat (j - i) = 1024 * 1024 ^ Z.of_nat (j - S i)) as Hpow.
    { rw -Z.pow_succ_r; [|lia]. f_equal. lia. }
    rw Hpow -Z.div_div; [|lia|by apply Z.pow_pos_nonneg; lia].
    rw Hrun Z.mul_assoc. split; [done|]. split; [done|]. right.
    destruct Hge as [->|Hge]; [|done]. rw Nat.sub_diag Z.div_1_r. divmod.
  - destruct (lookup_lt_is_Some_2 size_units i) as [u Hu]; [cbn; lia|]. exists i, u.
    rw Nat.sub_diag Z.mul_1_r Z.div_1_r. split; [lia|]. split; [done|]. split; [by rw Hu|].
    split; [|by left]. rewrite -> andb_false_iff, Z.ltb_ge, negb_false_iff, Nat.eqb_eq in E. done.
Qed.

(** [bytes_to_unit] always chooses a unit, its name fits the four bytes
    the caller has for it (with the terminating zero), and the multiplier
    is the unit's power of 1024: the largest unit below the total, up to a
    quotient of 1024, which the loop still shows in the smaller unit. *)
Theorem bytes_to_unit_fits total :
  0 <= total < 2 ^ 64 ->
  exists i u, bytes_to_unit total = Some (u, 1024 ^ Z.of_nat i) /\ size_units !! i = Some u /\
    (String.length u < 4)%nat /\ (total / 1024 ^ Z.of_nat i <= 1024 \/ i = 4%nat) /\
    (i = 0%nat \/ 1 <= total / 1024 ^ Z.of_nat i).
Proof.
  intros Ht. destruct (bytes_to_unit_from_spec 5 0 total 1) as (i & u & Hi & Hu & Hrun & H); [lia..|].
  rewrite -> Nat.sub_0_r, Z.mul_1_l in Hrun. rewrite -> Nat.sub_0_r in H.
  exists i, u. split; [done|]. split; [done|]. split; [|done].
  do 5 (destruct i as [|i]; [injection Hu as <-; cbn; lia|]). lia.
Qed.

Lemma bytes_to_unit_fits_witness :
  exists i u, bytes_to_unit 5000000 = Some (u, 1024 ^ Z.of_nat i) /\ size_units !! i = Some u /\
    (String.length u < 4)%nat /\ (5000000 / 1024 ^ Z.of_nat i <= 1024 \/ i = 4%nat) /\
    (i = 0%nat \/ 1 <= 5000000 / 1024 ^ Z.of_nat i).
Proof. apply (bytes_to_unit_fits 5000000). lia. Defined.
