(* ===== verification/ReceiverThm.v ===== *)
(** * ReceiverThm: what a receiver passes on

    For datagrams of known clients every datagram of a possible length ends
    up in exactly one request, in order, with its client; the requests are
    well formed, as the handler needs them, in nodes from the second stream
    or, when that has none left, from [malloc].  What a new client needs (a
    file name that fits, among other things), and what happens when it
    cannot be created. *)

From S2P Require Import Prelude Global Cli Printf Memory Packet Buffer Client Stream HashTable Protocol Handler Receiver HandlerSpec.

(** ** Datagrams in requests *)

Definition valid_len (d : dgram_t) : bool :=
  (d.(g_len) <=? MAX_PACKET_SIZE) && (MIN_PACKET_SIZE <=? d.(g_len)).

Definition dgram_ok (d : dgram_t) : Prop :=
  bytes d.(g_buf) /\ length d.(g_buf) = Z.to_nat MAX_PACKET_SIZE /\
  key_ok (d.(g_addr).(sin6_port), d.(g_addr).(sin6_addr)).

Definition dgram_key (d : dgram_t) : key := (d.(g_addr).(sin6_port), d.(g_addr).(sin6_addr)).

(** The datagrams of a batch that are passed on. *)
Definition passed (ds : list dgram_t) : list dgram_t := filter (fun d => valid_len d = true) ds.

Lemma passed_app ds ds' : passed (ds ++ ds') = passed ds ++ passed ds'.
Proof. apply filter_app. Qed.

Lemma passed_one d : passed [d] = if valid_len d then [d] else [].
Proof. rw /passed filter_cons filter_nil. by destruct (valid_len d). Qed.

(** The request holds the datagrams [ds], in order. *)
Record carries (req : hd_req_t) (ds : list dgram_t) : Prop := {
  ca_ok : req_ok req;
  ca_num : req.(r_num) = length ds;
  ca_each : forall i d, ds !! i = Some d ->
    req.(r_lengths) !! i = Some d.(g_len) /\
    exists b, req.(r_buffer) !! i = Some b /\ take (Z.to_nat d.(g_len)) b = take (Z.to_nat d.(g_len)) d.(g_buf) }.

(** A node carries a request of the client [g.1] with the datagrams [g.2]. *)
Definition serves (contents : gmap ptr (option ptr)) (reqs : gmap ptr hd_req_t) (n : ptr)
    (g : ptr * list dgram_t) : Prop :=
  exists r req, contents !! n = Some (Some r) /\ reqs !! r = Some req /\ req.(r_stop) = false /\
    req.(r_client) = Some g.1 /\ carries req g.2.

(** Adding a datagram to a request with room. *)
Lemma add_to_request s r req ds d :
  dgram_ok d -> valid_len d = true -> s.(q_req) = Some r -> s.(q_reqs) !! r = Some req ->
  carries req ds -> (length ds < 31)%nat ->
  exists req', add_datagram d s =
      Done (set_streams s.(q_nodes) (<[r := req']> s.(q_reqs)) s.(q_rx) s.(q_tx) s.(q_node) s.(q_req) s) /\
    carries req' (ds ++ [d]) /\ req'.(r_stop) = req.(r_stop) /\ req'.(r_client) = req.(r_client).
Proof.
  intros (Hb & Hbl & _) Hv Hr Hreq [[Hnum [Hll Hlens] [Hbll Hbufs]] Hn Heach] Hlt.
  rw /valid_len in Hv. rw /add_datagram Hv Hr (load_Some _ _ _ Hreq). unbind.
  apply andb_true_iff in Hv as [H1%Z.leb_le H2%Z.leb_le].
  rw /MAX_PACKET_SIZE /MIN_PACKET_SIZE in H1 H2 Hbl Hlens Hbufs.
  rw wr_lt; [|lia]. unbind.
  destruct (rd_lt req.(r_buffer) req.(r_num)) as (b & Hrb & Hbuf); [lia|]. rw Hrb. unbind.
  destruct (proj1 (Forall_lookup _ _) Hbufs _ _ Hbuf) as [Hbb Hb528].
  rw slice_fits; [|lia]. unbind. rw drop_0.
  rw memcpy_fits; [|rw length_take; lia]. unbind. rw wr_lt; [|lia]. unbind.
  eexists. split; [reflexivity|]. split; [|done]. change (take 0 b) with (@nil Z). rw app_nil_l.
  rw /u16 Z.mod_small; [|lia].
  split; cbn [r_num r_lengths r_buffer]; [split; cbn [r_num r_lengths r_buffer]| |].
  - lia.
  - split; [by rw length_insert|]. apply Forall_insert; [done|]. rw /MAX_PACKET_SIZE. lia.
  - split; [by rw length_insert|]. apply Forall_insert; [done|]. split.
    + apply Forall_app. split; [by apply Forall_take|by apply Forall_drop].
    + rw length_app length_drop !length_take Hb528 /MAX_PACKET_SIZE. lia.
  - rw length_app Hn /=. lia.
  - intros i d' [Hi|[Hi Hd]]%lookup_app_Some.
    + pose proof (lookup_lt_Some _ _ _ Hi). destruct (Heach i d' Hi) as (Hl & b' & Hb' & Ht).
      rw !list_lookup_insert_ne; [|lia..]. eauto.
    + apply list_lookup_singleton_Some in Hd as [Hi0 <-]. assert (i = req.(r_num)) as -> by lia.
      rw !list_lookup_insert_eq; [|lia..]. split; [done|]. eexists. split; [done|].
      rw take_app_length' //. rw length_take. lia.
Qed.

Lemma add_dropped s d : valid_len d = false -> add_datagram d s = Done s.
Proof. rw /valid_len /add_datagram. by intros ->. Qed.

(** ** The loop over datagrams of known clients *)

(** A node that is neither in the queues nor among those passed on. *)
Lemma current_apart (sent q tq : list ptr) n :
  NoDup ((sent ++ [n]) ++ q ++ tq) ->
  n ∉ tq ++ sent /\ forall p, p ∈ q -> p ∉ (tq ++ sent) ++ [n].
Proof.
  rw !NoDup_app. intros ((_ & H1 & _) & H2 & _ & H3 & _).
  split; [|intros p Hp]; rw !elem_of_app ?list_elem_of_singleton; intros Hin.
  - destruct Hin as [Hin|Hin].
    + apply (H2 n); rw !elem_of_app ?list_elem_of_singleton; auto.
    + by apply (H1 n); [|apply list_elem_of_singleton].
  - destruct Hin as [[Hin|Hin]| ->].
    + by apply (H3 p).
    + apply (H2 p); rw !elem_of_app; auto.
    + apply (H2 n); rw !elem_of_app ?list_elem_of_singleton; auto.
Qed.

(** The stream has grown by [n] nodes. *)
Definition grown (tx0 tx : stream_t) (n : nat) : Prop :=
  tx.(st_waiting) = tx0.(st_waiting) /\
  (- 2 ^ 31 <= tx0.(st_length) < 2 ^ 31 -> tx.(st_length) = i32 (tx0.(st_length) + Z.of_nat n)).

Lemma grown_0 tx : grown tx tx 0.
Proof. split; [done|]. intros H. rw i32_small; [lia|]. by rw Z.add_0_r. Qed.

Lemma grown_S tx0 tx tx' n :
  grown tx0 tx n -> tx'.(st_waiting) = tx.(st_waiting) -> tx'.(st_length) = i32 (tx.(st_length) + 1) ->
  grown tx0 tx' (S n).
Proof.
  intros [Hw Hl] Hw' Hl'. split; [by rw Hw'|]. intros H. rw Hl' (Hl H) i32_add. f_equal. lia.
Qed.

Lemma new_request_ok : req_ok new_request.
Proof.
  split; cbn [new_request r_num r_lengths r_buffer]; [lia| |].
  - split; [done|]. apply Forall_replicate. rw /MAX_PACKET_SIZE. lia.
  - split; [done|]. apply Forall_replicate. split; [apply Forall_replicate; lia|]. apply length_replicate.
Qed.

(** The nodes that are taken: those of the queue first, then new ones. *)
Definition supply (contents : gmap ptr (option ptr)) (U : ptr -> Prop) (dn dr : gset ptr)
    (ds : list (dgram_t * rx_env)) : Prop :=
  Forall (fun de : dgram_t * rx_env => exists n r, de.2.(e_node) = Some n /\ de.2.(e_content) = Some r /\
    n ∉ dn /\ r ∉ dr /\ contents !! n = Some (Some r) /\ U n) ds /\
  NoDup (map (fun de : dgram_t * rx_env => de.2.(e_node)) ds).

Lemma supply_drop contents U dn dr k ds : supply contents U dn dr ds -> supply contents U dn dr (drop k ds).
Proof.
  intros [H1 H2]. split; [by apply Forall_drop|]. rw -skipn_map. rewrite <- (take_drop k (map _ ds)) in H2.
  by apply NoDup_app in H2 as (_ & _ & ?).
Qed.

Section known.
Context (cfg : rx_cfg_t) (m : gmap key ptr).
(** The nodes that may be used and what they contain; the nodes of the two
    streams and of the heap at the start. *)
Context (contents : gmap ptr (option ptr)) (U : ptr -> Prop) (q0 tq0 : list ptr) (d0 : gset ptr).
Context (tx0 : stream_t) (hp0 : heap_t).
Context (Hdistinct : forall n n' r, U n -> U n' ->
  contents !! n = Some (Some r) -> contents !! n' = Some (Some r) -> n = n').

(** A node that can be taken for a request. *)
Definition pooled (reqs : gmap ptr hd_req_t) (n : ptr) : Prop :=
  exists r req, contents !! n = Some (Some r) /\ reqs !! r = Some req /\ req_ok req /\ req.(r_stop) = false.

(** The nodes [ns] have been taken, [q] are left; the last of [ns] is the
    current node, the others have been passed on; there is memory for the
    datagrams of [ds], those that are to come, for which [q] is too short. *)
Record rcv_inv (s : rcv_st) (q ns : list ptr) (gs : list (ptr * list dgram_t)) (ds : list (dgram_t * rx_env)) : Prop := {
  ri_table : ht_rep s.(q_arrays) s.(q_table) m;
  ri_contents : (sn_content <$> s.(q_nodes)) ⊆ contents;
  ri_heap : s.(q_heap) = hp0;
  ri_nodes : exists taken fresh, ns = taken ++ fresh /\ q0 = taken ++ q /\ (fresh <> [] -> q = []) /\
    Forall (fun n => n ∉ d0) fresh /\ dom s.(q_nodes) = d0 ∪ list_to_set fresh;
  ri_nodup : NoDup (ns ++ q ++ tq0);
  ri_used : forall n, n ∈ ns ++ q ++ tq0 -> U n;
  ri_rx : stream_rep s.(q_nodes) s.(q_rx) q;
  ri_waiting : s.(q_rx).(st_waiting) = 0;
  ri_tx : exists sent, stream_rep s.(q_nodes) s.(q_tx) (tq0 ++ sent) /\ grown tx0 s.(q_tx) (length sent) /\
    match s.(q_node) with
    | None => ns = sent
    | Some n => ns = sent ++ [n] /\ n ∈ dom s.(q_nodes) /\ exists r, s.(q_req) = Some r /\ contents !! n = Some (Some r)
    end;
  ri_pool : forall n, n ∈ q -> pooled s.(q_reqs) n;
  ri_served : Forall2 (serves contents s.(q_reqs)) ns gs;
  ri_supply : supply contents U (dom s.(q_nodes)) (dom s.(q_reqs)) (drop (length q) ds) }.

Lemma node_of_contents (nodes : nodes_t) n r :
  (sn_content <$> nodes) ⊆ contents -> n ∈ dom nodes -> contents !! n = Some (Some r) ->
  exists sn, nodes !! n = Some sn /\ sn.(sn_content) = Some r.
Proof.
  intros Hsub [sn Hsn]%elem_of_dom Hc. exists sn. split; [done|].
  assert (contents !! n = Some (sn.(sn_content))) as E; [|congruence].
  eapply lookup_weaken; [|exact Hsub]. by rw lookup_fmap Hsn.
Qed.

(** Passing the current node on. *)
Lemma send_node_inv s q ns gs ds :
  rcv_inv s q ns gs ds ->
  exists s', send_node s = Done s' /\ rcv_inv s' q ns gs ds /\ s'.(q_contained) = s.(q_contained) /\
    s'.(q_node) = None /\ s'.(q_table) = s.(q_table) /\ s'.(q_arrays) = s.(q_arrays).
Proof.
  intros Hinv. pose proof Hinv as [Htab Hcont Hheap Hns Hnd Hu Hrx Hwait (sent & Htx & Hgr & Hcur) Hpool Hserved Hsup].
  rw /send_node. destruct (s.(q_node)) as [n|] eqn:En; [|by exists s].
  destruct Hcur as (Hsn & Hdom & r & Hr & Hc).
  assert (n ∉ tq0 ++ sent /\ forall p, p ∈ q -> p ∉ (tq0 ++ sent) ++ [n]) as [Hn1 Hn2].
  { rewrite -> Hsn in Hnd. by apply current_apart. }
  apply elem_of_dom in Hdom as [node Hnode].
  destruct (enqueue_rep s.(q_nodes) s.(q_tx) (tq0 ++ sent) n node Htx Hn1 Hnode)
    as (nodes' & tx' & Hrun & Htx' & Hc' & Hl' & Hw' & Hfr).
  rw Hrun. unbind. eexists. split; [reflexivity|]. split; [|done].
  split; cbn [set_streams q_arrays q_table q_nodes q_rx q_tx q_node q_contained q_req q_reqs q_heap]; try done.
  - by rw Hc'.
  - rw (content_dom _ _ Hc') //.
  - eapply stream_rep_frame; [|exact Hrx]. intros p Hp. by apply Hfr, Hn2.
  - exists ns. rw Hsn app_assoc. split; [done|]. split; [|done].
    rw length_app Nat.add_1_r. by eapply grown_S.
  - rw (content_dom _ _ Hc') //.
Qed.

(** A change of the request of node [n] does not touch the other nodes. *)
Lemma serves_frame reqs r req n n' g :
  U n -> U n' -> n' <> n -> contents !! n = Some (Some r) ->
  serves contents reqs n' g -> serves contents (<[r := req]> reqs) n' g.
Proof using Hdistinct.
  intros Hn Hn' Hne Hc (r' & req' & Hc' & Hr' & H). exists r', req'. split; [done|].
  rw lookup_insert_ne //. intros <-. by apply Hne, (Hdistinct n' n r).
Qed.

Lemma served_frame reqs r req n ns gs :
  U n -> (forall n', n' ∈ ns -> U n' /\ n' <> n) -> contents !! n = Some (Some r) ->
  Forall2 (serves contents reqs) ns gs -> Forall2 (serves contents (<[r := req]> reqs)) ns gs.
Proof using Hdistinct.
  intros Hn Hns Hc H. induction H as [|n' g ns gs Hs _ IH]; constructor.
  - destruct (Hns n') as [Hin Hne]; [apply list_elem_of_here|]. by apply (serves_frame reqs r req n).
  - apply IH. intros n2 Hn2. apply Hns. by apply list_elem_of_further.
Qed.

Lemma pool_frame reqs r req n (q : list ptr) :
  U n -> (forall n', n' ∈ q -> U n' /\ n' <> n) -> contents !! n = Some (Some r) ->
  (forall n', n' ∈ q -> pooled reqs n') -> forall n', n' ∈ q -> pooled (<[r := req]> reqs) n'.
Proof using Hdistinct.
  intros Hn Hq Hc Hpool n' Hn'. destruct (Hpool n' Hn') as (r' & req' & Hc' & Hr' & H). exists r', req'.
  split; [done|]. rw lookup_insert_ne //. intros <-. destruct (Hq n' Hn') as [Hin Hne].
  by apply Hne, (Hdistinct n' n r).
Qed.

(** The current node is not among the others. *)
Lemma last_apart ns n (q : list ptr) :
  NoDup ((ns ++ [n]) ++ q ++ tq0) -> (forall n', n' ∈ ns -> n' <> n) /\ (forall n', n' ∈ q -> n' <> n).
Proof.
  rw !NoDup_app. intros ((_ & H1 & _) & H2 & _). split; intros n' Hn' ->.
  - by apply (H1 n); [|apply list_elem_of_singleton].
  - apply (H2 n); rw !elem_of_app ?list_elem_of_singleton; auto.
Qed.

(** A datagram that is added to the current request. *)
Lemma add_inv s q ns gs n c ds d pending :
  rcv_inv s q (ns ++ [n]) (gs ++ [(c, ds)]) pending -> s.(q_node) = Some n -> dgram_ok d ->
  (length ds < 31)%nat ->
  exists s', add_datagram d s = Done s' /\ rcv_inv s' q (ns ++ [n]) (gs ++ [(c, ds ++ passed [d])]) pending /\
    s'.(q_node) = Some n /\ s'.(q_contained) = s.(q_contained).
Proof using Hdistinct.
  intros Hinv Hnode Hd Hlt.
  pose proof Hinv as [Htab Hcont Hheap Hns Hnd Hu Hrx Hwait (sent & Htx & Hgr & Hcur) Hpool Hserved Hsup].
  rw Hnode in Hcur. destruct Hcur as (Hsn & Hdom & r & Hr & Hc).
  rw passed_one. destruct (valid_len d) eqn:Hv.
  2:{ rw (add_dropped s d Hv). exists s. by rw app_nil_r. }
  apply Forall2_app_inv in Hserved as [Hs1 Hs2]; [|by apply Forall2_length in Hserved; rw !length_app /= in Hserved; lia].
  apply Forall2_cons_1 in Hs2 as [(r' & req & Hc' & Hreq & Hstop & Hcl & Hca) _].
  rewrite -> Hc in Hc'. injection Hc' as <-. cbn [fst snd] in Hcl, Hca.
  destruct (add_to_request s r req ds d Hd Hv Hr Hreq Hca Hlt) as (req' & Hrun & Hca' & Hst' & Hcl').
  eexists. split; [exact Hrun|]. cbn [q_node q_contained set_streams]. split; [|done].
  assert (U n) as Hin by (apply Hu; rw !elem_of_app list_elem_of_singleton; auto).
  destruct (last_apart _ _ _ Hnd) as [Hnd1 Hnd2].
  split; cbn [set_streams q_arrays q_table q_nodes q_rx q_tx q_node q_contained q_req q_reqs]; try done.
  - exists sent. split; [done|]. split; [done|]. rw Hnode. split; [done|]. split; [done|]. by exists r.
  - eapply pool_frame; try done. intros n' Hn'. split; [apply Hu; rw !elem_of_app; auto|by apply Hnd2].
  - apply Forall2_app.
    + eapply served_frame; try done. intros n' Hn'. split; [apply Hu; rw !elem_of_app; auto|by apply Hnd1].
    + constructor; [|constructor]. exists r, req'. cbn [fst snd]. rw lookup_insert_eq. split_and!; try done; congruence.
  - rw dom_insert_lookup_L //.
Qed.

(** The state when the node [n] has been taken, from the queue or from the
    allocator, and its request emptied. *)
Lemma opened_inv s q q' ns gs n r req c nodes reqs rx pending pending' :
  rcv_inv s q ns gs pending -> s.(q_node) = None -> s.(q_contained) = Some c ->
  (sn_content <$> nodes) ⊆ contents -> n ∈ dom nodes ->
  (exists taken fresh, ns ++ [n] = taken ++ fresh /\ q0 = taken ++ q' /\ (fresh <> [] -> q' = []) /\
    Forall (fun n => n ∉ d0) fresh /\ dom nodes = d0 ∪ list_to_set fresh) ->
  NoDup ((ns ++ [n]) ++ q' ++ tq0) -> (forall p, p ∈ (ns ++ [n]) ++ q' ++ tq0 -> U p) ->
  stream_rep nodes rx q' -> rx.(st_waiting) = 0 -> (forall p, p ∈ tq0 ++ ns -> nodes !! p = s.(q_nodes) !! p) ->
  (forall p, p ∈ q' -> pooled reqs p) -> Forall2 (serves contents reqs) ns gs ->
  contents !! n = Some (Some r) -> reqs !! r = Some req -> req_ok req -> req.(r_stop) = false ->
  supply contents U (dom nodes) (dom reqs) (drop (length q') pending') ->
  rcv_inv (set_streams nodes (<[r := mk_req req.(r_stop) s.(q_contained) 0 req.(r_lengths) req.(r_buffer)]> reqs)
      rx s.(q_tx) (Some n) (Some r) s) q' (ns ++ [n]) (gs ++ [(c, [])]) pending'.
Proof using Hdistinct.
  intros [Htab _ Hheap _ _ _ _ _ (sent & Htx & Hgr & Hcur) _ _ _] Hnode Hcont Hsub Hdom Hns Hnd Hu Hrx Hwait Hfr
    Hpool Hserved Hc Hreq Hok Hstop Hsup.
  rw Hnode in Hcur. subst sent. destruct (last_apart _ _ _ Hnd) as [Hnd1 Hnd2].
  assert (U n) as Hin by (apply Hu; rw !elem_of_app list_elem_of_singleton; auto).
  split; cbn [set_streams q_arrays q_table q_nodes q_rx q_tx q_node q_contained q_req q_reqs q_heap]; try done.
  - exists ns. split; [by eapply stream_rep_frame|]. split; [done|]. split; [done|]. split; [done|]. by exists r.
  - eapply pool_frame; try done. intros n' Hn'. split; [apply Hu; rw !elem_of_app; auto|by apply Hnd2].
  - apply Forall2_app.
    + eapply served_frame; try done. intros n' Hn'. split; [apply Hu; rw !elem_of_app; auto|by apply Hnd1].
    + constructor; [|constructor]. exists r. eexists. rw lookup_insert_eq. split; [done|]. split; [done|].
      split; [done|]. split; [done|]. destruct Hok. split; [split; cbn; try done; lia|done|].
      intros j d' Hj. by rw lookup_nil in Hj.
  - rw dom_insert_lookup_L //.
Qed.

(** A node from the queue. *)
Lemma take_queued env s n q ns gs c d pending :
  rcv_inv s (n :: q) ns gs ((d, env) :: pending) -> s.(q_node) = None -> s.(q_contained) = Some c ->
  exists s', take_node env s = Done (s', Go) /\ rcv_inv s' q (ns ++ [n]) (gs ++ [(c, [])]) pending /\
    s'.(q_node) = Some n /\ s'.(q_contained) = Some c.
Proof using Hdistinct.
  intros Hinv Hnode Hcont.
  pose proof Hinv as [_ Hsub _ (taken & fresh & Hns & Hq & Hlast & Hfd & Hdn) Hnd Hu Hrx Hwait (sent & Htx & _ & Hcur) Hpool Hserved Hsup].
  rw Hnode in Hcur. subst sent. assert (fresh = []) as -> by (destruct fresh; [done|by specialize (Hlast ltac:(done))]).
  rewrite -> app_nil_r in Hns. subst taken.
  destruct (pop_rep s.(q_nodes) s.(q_rx) (n :: q) false Hrx) as (nodes2 & rx2 & Hpop & Hq2 & Hc2 & _ & Hw2 & Hfr);
    [done|rw Hwait; lia|].
  cbn [head tail] in Hpop, Hq2. rw /take_node Hpop. unbind.
  destruct (Hpool n ltac:(apply list_elem_of_here)) as (r & req & Hcn & Hreq & Hok & Hstop).
  assert (n ∈ dom nodes2) as Hn2.
  { rw (content_dom _ _ Hc2). eapply stream_rep_in_heap; [exact Hrx|apply list_elem_of_here]. }
  rewrite <- Hc2 in Hsub.
  destruct (node_of_contents nodes2 n r Hsub Hn2 Hcn) as (sn & Hsn & Hsc).
  rw (load_Some _ _ _ Hsn). unbind. rw Hsc. unbind. rw (load_Some _ _ _ Hreq). unbind.
  eexists. split; [reflexivity|]. split; [|done].
  cbn [app] in Hnd, Hu. rewrite -> (cons_middle n) in Hnd, Hu, Hq. eapply opened_inv; try done.
  - exists (ns ++ [n]), []. rw app_nil_r -app_assoc (content_dom _ _ Hc2). done.
  - by rewrite <- !app_assoc in *.
  - intros p Hp. apply Hu. by rewrite <- !app_assoc in *.
  - by rw Hw2.
  - intros p Hp. apply Hfr. intros Hp'. rewrite <- cons_middle in Hnd.
    change (n :: q ++ tq0) with ((n :: q) ++ tq0) in Hnd.
    apply NoDup_app in Hnd as (_ & H1 & (_ & H2 & _)%NoDup_app). apply elem_of_app in Hp as [Hp|Hp].
    + by apply (H2 p).
    + apply (H1 p); [done|]. rw elem_of_app. by left.
  - intros p Hp. apply Hpool. by apply list_elem_of_further.
  - by rw (content_dom _ _ Hc2).
Qed.

(** A new node, when the queue is empty. *)
Lemma take_fresh env s ns gs c d pending :
  rcv_inv s [] ns gs ((d, env) :: pending) -> s.(q_node) = None -> s.(q_contained) = Some c ->
  exists s' n, take_node env s = Done (s', Go) /\ rcv_inv s' [] (ns ++ [n]) (gs ++ [(c, [])]) pending /\
    s'.(q_node) = Some n /\ s'.(q_contained) = Some c.
Proof using Hdistinct.
  intros Hinv Hnode Hcont.
  pose proof Hinv as [_ Hsub _ (taken & fresh & Hns & Hq & Hlast & Hfd & Hdn) Hnd Hu Hrx Hwait (sent & Htx & _ & Hcur) Hpool Hserved [Hs1 Hs2]].
  rw Hnode in Hcur. subst sent. cbn [length] in Hs1, Hs2. rewrite -> drop_0 in Hs1, Hs2.
  apply Forall_cons in Hs1 as [(n & r & En & Er & Hn & Hr & Hcn & Hun) Hs1]. cbn [map snd] in Hs2, En, Er.
  apply NoDup_cons in Hs2 as [Hnew Hs2].
  destruct (pop_rep s.(q_nodes) s.(q_rx) [] false Hrx) as (nodes2 & rx2 & Hpop & Hq2 & Hc2 & _ & Hw2 & Hfr);
    [done|rw Hwait; lia|].
  assert (nodes2 = s.(q_nodes)) as -> by (apply map_eq; intros p; apply Hfr, not_elem_of_nil).
  cbn [head tail] in Hpop, Hq2. rw /take_node Hpop. unbind. rw En Er. cbn [malloc].
  rw initialize_node_ok. unbind. rw (load_Some _ _ _ (lookup_insert_eq _ _ _)). unbind. cbn [sn_content].
  unbind. rw (load_Some _ _ _ (lookup_insert_eq _ _ _)). unbind.
  eexists _, n. split; [reflexivity|]. split; [|done].
  assert (forall p, p ∈ ns ++ tq0 -> p <> n) as Hne.
  { intros p Hp ->. apply Hn. eapply stream_rep_in_heap; [exact Htx|]. by rw Permutation_app_comm. }
  rewrite -> app_nil_l in Hnd, Hu.
  eapply opened_inv; try done.
  - apply map_subseteq_spec. intros p x. rw fmap_insert. cbn [sn_content].
    destruct (decide (p = n)) as [->|Hp]; [rw lookup_insert_eq; by intros [= <-]|rw lookup_insert_ne //].
    intros Hx. by eapply lookup_weaken.
  - rw dom_insert. set_solver.
  - exists taken, (fresh ++ [n]). rw Hns app_assoc. split; [done|]. split; [done|]. split; [done|].
    split; [apply Forall_app; split; [done|]; apply Forall_singleton; intros Hd; apply Hn; rw Hdn; set_solver|].
    rw dom_insert_L Hdn list_to_set_app_L /=. set_solver.
  - rw app_nil_l -app_assoc -Permutation_middle. apply NoDup_cons. split; [|done]. intros Hp. by eapply Hne.
  - intros p. rw app_nil_l -app_assoc -Permutation_middle. intros [->|Hp]%elem_of_cons; [done|by apply Hu].
  - eapply stream_rep_frame; [|exact Hq2]. by intros p Hp%elem_of_nil.
  - by rw Hw2.
  - intros p Hp. apply lookup_insert_ne. intros <-. eapply Hne; [|done]. by rw Permutation_app_comm.
  - by intros p Hp%elem_of_nil.
  - eapply Forall2_impl; [exact Hserved|]. intros p g (r' & req' & Hcp & Hrp & H). exists r', req'. split; [done|].
    split; [|done]. rw lookup_insert_ne //. intros <-. apply Hr, elem_of_dom. by eexists.
  - apply lookup_insert_eq.
  - apply new_request_ok.
  - cbn [length]. rw drop_0. split; [|done]. eapply Forall_impl; [apply Forall_and; split; [exact Hs1|]|].
    { apply Forall_forall. intros de Hde. exact (list_elem_of_fmap_2 (fun de : dgram_t * rx_env => de.2.(e_node)) _ _ Hde). }
    intros de [(n' & r' & En' & Er' & Hn' & Hr' & Hc' & Hu') Hin]. cbn in Hin.
    assert (n' <> n) as Hnn by (intros ->; apply Hnew; by rw En -En').
    exists n', r'. rw !dom_insert !not_elem_of_union !not_elem_of_singleton. split_and!; try done.
    intros ->. by apply Hnn, (Hdistinct n' n r).
Qed.

(** A datagram of another client (or the first) opens a new request. *)
Lemma open_inv env s q ns gs c i prev d pending :
  rcv_inv s q ns gs ((d, env) :: pending) -> dgram_ok d -> m !! dgram_key d = Some c -> same_client i prev d s = false ->
  exists s' q' n, rx_datagram cfg env i prev d s = Done (s', Go) /\
    rcv_inv s' q' (ns ++ [n]) (gs ++ [(c, passed [d])]) pending /\ s'.(q_node) = Some n /\ s'.(q_contained) = Some c.
Proof using Hdistinct.
  intros Hinv Hd Hm Hsame. rw /rx_datagram Hsame.
  destruct (send_node_inv s _ ns gs _ Hinv) as (s1 & Hsend & Hinv1 & _ & Hnode & _).
  rw Hsend. unbind. rw /find_client.
  rw (ht_get_ok _ _ _ _ _ (ri_table _ _ _ _ _ Hinv1) (proj2 (proj2 Hd))). unbind. rw Hm. unbind.
  set (s2 := set_table _ _ _ _ _ s1).
  assert (rcv_inv s2 q ns gs ((d, env) :: pending)) as Hinv2 by (by destruct Hinv1; split).
  assert (exists s3 q' n, take_node env s2 = Done (s3, Go) /\ rcv_inv s3 q' (ns ++ [n]) (gs ++ [(c, [])]) pending /\
    s3.(q_node) = Some n /\ s3.(q_contained) = Some c) as (s3 & q' & n & Htake & Hinv3 & Hn3 & Hc3).
  { destruct q as [|n q].
    - destruct (take_fresh env s2 ns gs c d pending Hinv2) as (s3 & n & H); [done..|]. by exists s3, [], n.
    - destruct (take_queued env s2 n q ns gs c d pending Hinv2) as (s3 & H); [done..|]. by exists s3, q, n. }
  rw Htake. unbind.
  destruct (add_inv s3 q' ns gs n c [] d pending Hinv3 Hn3 Hd ltac:(cbn; lia)) as (s4 & Hadd & Hinv4 & Hn4 & Hc4).
  rw Hadd. unbind. exists s4, q', n. by rw Hc4.
Qed.
Lemma skip_inv s q ns gs de pending : rcv_inv s q ns gs (de :: pending) -> rcv_inv s q ns gs pending.
Proof.
  intros [H1 H2 H3 H4 H5 H6 H7 H8 H9 H10 H11 Hsup]. split; try done.
  assert (drop (length q) pending = drop 1 (drop (length q) (de :: pending))) as ->.
  { rw drop_drop Nat.add_1_r //. }
  by apply supply_drop.
Qed.

(** The client of a request is that of a datagram of the batch. *)
Definition from_batch (ds : list dgram_t) (g : ptr * list dgram_t) : Prop :=
  exists d, d ∈ ds /\ m !! dgram_key d = Some g.1.

Lemma from_batch_app ds ds' gs : Forall (from_batch ds) gs -> Forall (from_batch (ds ++ ds')) gs.
Proof. intros H. eapply Forall_impl; [exact H|]. intros g (d & Hd & Hg). exists d. rw elem_of_app. auto. Qed.

(** What holds when the datagrams [seen] have been processed and those of
    [pending] are to come. *)
Definition loop_inv (s : rcv_st) (seen : list dgram_t) (pending : list (dgram_t * rx_env)) : Prop :=
  exists q ns gs, rcv_inv s q ns gs pending /\ concat (snd <$> gs) = passed seen /\
    Forall (fun g => Forall (fun d => m !! dgram_key d = Some g.1) g.2) gs /\ Forall (from_batch seen) gs /\
    (length ns <= length seen)%nat /\
    match last seen with
    | None => s.(q_contained) = None
    | Some prev => exists ns' n gs' c ds, ns = ns' ++ [n] /\ gs = gs' ++ [(c, ds)] /\ s.(q_node) = Some n /\
        s.(q_contained) = Some c /\ m !! dgram_key prev = Some c /\ (length ds <= length seen)%nat
    end.

(** The test for the same client compares with the previous datagram. *)
Lemma same_client_key i prev d s :
  dgram_ok prev -> dgram_ok d -> same_client i (Some prev.(g_addr)) d s = true ->
  dgram_key d = dgram_key prev /\ (i < 31)%nat.
Proof.
  intros (_ & _ & _ & Hl) (_ & _ & _ & Hl') Hs. cbn in Hl, Hl'.
  rw /same_client in Hs. destruct (s.(q_contained)); [|done].
  rewrite -> !andb_true_iff, Z.eqb_eq, Z.ltb_lt in Hs. destruct Hs as [[Hip Hport] Hi].
  rw /ip_equals in Hip. apply bool_decide_eq_true in Hip. rewrite -> !take_ge in Hip by lia.
  rw /MAX_WINDOW_SIZE in Hi. rw /dgram_key Hport Hip. split; [done|lia].
Qed.

Lemma passed_length ds : (length (passed ds) <= length ds)%nat.
Proof. apply length_filter. Qed.

Lemma step_inv env s seen d pending :
  loop_inv s seen ((d, env) :: pending) -> dgram_ok d -> Forall dgram_ok seen -> is_Some (m !! dgram_key d) ->
  exists s', rx_datagram cfg env (length seen) (g_addr <$> last seen) d s = Done (s', Go) /\
    loop_inv s' (seen ++ [d]) pending.
Proof using Hdistinct.
  intros (q & ns & gs & Hinv & Hconc & Hown & Hfrom & Hlen & Hlast) Hd Hseen [c Hm].
  rw /loop_inv last_snoc passed_app length_app. cbn [length].
  destruct (same_client (length seen) (g_addr <$> last seen) d s) eqn:Hsame.
  - destruct (last seen) as [prev|] eqn:Hl; [|by rw /same_client in Hsame; destruct (s.(q_contained))].
    destruct Hlast as (ns' & n & gs' & c' & ds & -> & -> & Hnode & Hcont & Hprev & Hds).
    assert (dgram_ok prev) as Hpo.
    { rewrite -> last_lookup in Hl. by eapply Forall_lookup_1. }
    destruct (same_client_key _ _ _ _ Hpo Hd Hsame) as [Hkey Hi].
    assert (c' = c) as -> by congruence.
    destruct (add_inv s q ns' gs' n c ds d pending (skip_inv _ _ _ _ _ _ Hinv) Hnode Hd ltac:(lia))
      as (s' & Hadd & Hinv' & Hn' & Hc').
    rw /rx_datagram Hsame Hadd. unbind. exists s'. split; [done|].
    exists q, (ns' ++ [n]), (gs' ++ [(c, ds ++ passed [d])]). split; [done|].
    rewrite -> fmap_app, concat_app in Hconc. cbn in Hconc. rewrite -> app_nil_r in Hconc.
    apply Forall_app in Hown as [Hown1 [Hown2 _]%Forall_cons]. cbn in Hown2.
    split; [rw fmap_app concat_app /= app_nil_r app_assoc Hconc //|]. split.
    { apply Forall_app. split; [done|]. apply Forall_singleton. cbn [fst snd]. apply Forall_app. split; [done|].
      rw passed_one. destruct (valid_len d); [by apply Forall_singleton|done]. }
    split.
    { apply from_batch_app. apply Forall_app in Hfrom as [Hf1 [Hf2 _]%Forall_cons]. apply Forall_app.
      split; [done|]. by apply Forall_singleton. }
    split; [lia|]. exists ns', n, gs', c, (ds ++ passed [d]).
    split_and!; try done; [by rw Hc'|]. pose proof (passed_length [d]) as H1. rw length_app. cbn [length] in H1. lia.
  - destruct (open_inv env s q ns gs c (length seen) (g_addr <$> last seen) d pending Hinv Hd Hm Hsame)
      as (s' & q' & n & Hrun & Hinv' & Hn' & Hc').
    exists s'. split; [done|]. exists q', (ns ++ [n]), (gs ++ [(c, passed [d])]). split; [done|].
    split; [rw fmap_app concat_app /= app_nil_r Hconc //|]. split.
    { apply Forall_app. split; [done|]. apply Forall_singleton. cbn [fst snd]. rw passed_one.
      destruct (valid_len d); [by apply Forall_singleton|done]. }
    split.
    { apply Forall_app. split; [by apply from_batch_app|]. apply Forall_singleton. exists d.
      by rw elem_of_app list_elem_of_singleton; auto. }
    split; [rw length_app /=; lia|]. exists ns, n, gs, c, (passed [d]). split_and!; try done.
    pose proof (passed_length [d]) as H1. cbn [length] in H1. lia.
Qed.

Lemma loop_known ds s seen :
  loop_inv s seen ds -> Forall dgram_ok seen -> Forall (fun de => dgram_ok de.1) ds ->
  Forall (fun de => is_Some (m !! dgram_key de.1)) ds ->
  exists s', rx_loop cfg (length seen) (g_addr <$> last seen) ds s = Done s' /\
    loop_inv s' (seen ++ (fst <$> ds)) [].
Proof using Hdistinct.
  revert s seen. induction ds as [|[d env] ds IH]; intros s seen Hinv Hseen Hok Hm.
  { exists s. split; [done|]. by rw app_nil_r. }
  apply Forall_cons in Hok as [Hd Hok]. apply Forall_cons in Hm as [Hmd Hm]. cbn [fst] in *.
  destruct (step_inv env s seen d ds Hinv Hd Hseen Hmd) as (s1 & Hrun & Hinv1).
  cbn [rx_loop]. rw Hrun. unbind.
  destruct (IH s1 (seen ++ [d]) Hinv1) as (s2 & Hrun2 & Hinv2); [by apply Forall_app; split; [|apply Forall_singleton]|
    done|done|].
  rewrite -> length_app, Nat.add_1_r, last_snoc in Hrun2. exists s2. split; [exact Hrun2|].
  rewrite <- app_assoc in Hinv2. exact Hinv2.
Qed.
End known.

(** What the allocator must have for a batch when [q] free nodes are there:
    at most one node per datagram is needed, so the datagrams behind the
    first [length q] find a node and a request that nobody else has. *)
Record memory_for (nodes : nodes_t) (reqs : gmap ptr hd_req_t) (ds : list (dgram_t * rx_env)) : Prop := {
  mf_each : Forall (fun de : dgram_t * rx_env => exists n r, de.2.(e_node) = Some n /\ de.2.(e_content) = Some r /\
    nodes !! n = None /\ reqs !! r = None /\ forall n', content_of nodes n' <> Some r) ds;
  mf_nodes : NoDup (map (fun de : dgram_t * rx_env => de.2.(e_node)) ds);
  mf_contents : NoDup (map (fun de : dgram_t * rx_env => de.2.(e_content)) ds) }.

Lemma memory_for_none nodes reqs q (ds : list (dgram_t * rx_env)) :
  (length ds <= length q)%nat -> memory_for nodes reqs (drop (length (q : list ptr)) ds).
Proof. intros H. rw drop_ge //. split; [done|apply NoDup_nil_2|apply NoDup_nil_2]. Qed.

(** What the nodes will contain. *)
Lemma memory_contents nodes reqs ds :
  memory_for nodes reqs ds ->
  exists contents : gmap ptr (option ptr), (sn_content <$> nodes) ⊆ contents /\
    Forall (fun de : dgram_t * rx_env => exists n, de.2.(e_node) = Some n /\ contents !! n = Some de.2.(e_content)) ds /\
    forall n x, contents !! n = Some x -> (sn_content <$> nodes) !! n = Some x \/
      exists de, de ∈ ds /\ de.2.(e_node) = Some n /\ x = de.2.(e_content).
Proof.
  intros [H1 H2 _]. induction H1 as [|de ds (n & r & En & Er & Hn & Hr & _) _ IH]; [exists (sn_content <$> nodes); auto|].
  cbn [map] in H2. apply NoDup_cons in H2 as [Hnew H2]. destruct (IH H2) as (contents & Hsub & Hin & Hout).
  exists (<[n := Some r]> contents). split; [|split].
  - apply map_subseteq_spec. intros p x Hp. rw lookup_insert_ne; [by eapply lookup_weaken|].
    intros <-. by rewrite -> lookup_fmap, Hn in Hp.
  - constructor; [exists n; by rw En Er lookup_insert_eq|].
    eapply Forall_impl; [apply Forall_and; split; [exact Hin|]|].
    { apply Forall_forall. intros de' Hde. exact (list_elem_of_fmap_2 (fun de : dgram_t * rx_env => de.2.(e_node)) _ _ Hde). }
    intros de' [(n' & En' & Hc') Hde']. cbn in Hde'. exists n'. split; [done|]. rw lookup_insert_ne //.
    intros ->. apply Hnew. by rw En -En'.
  - intros p x. destruct (decide (p = n)) as [->|Hp].
    + rw lookup_insert_eq. intros [= <-]. right. exists de. split; [apply list_elem_of_here|]. by rw Er.
    + rw lookup_insert_ne //. intros [H|(de' & Hde & H)]%Hout; [by left|]. right. exists de'.
      split; [by apply list_elem_of_further|done].
Qed.

Lemma NoDup_map_inj {A B} (f : A -> B) l x y : NoDup (map f l) -> x ∈ l -> y ∈ l -> f x = f y -> x = y.
Proof.
  intros Hnd [i Hi]%list_elem_of_lookup [j Hj]%list_elem_of_lookup E.
  assert (i = j) as ->; [|congruence]. eapply (NoDup_lookup (map f l)); [done| |].
  - rw list_lookup_fmap Hi. reflexivity.
  - rw list_lookup_fmap Hj /= E. reflexivity.
Qed.

Lemma content_of_contents (nodes : nodes_t) n r :
  content_of nodes n = Some r <-> (sn_content <$> nodes) !! n = Some (Some r).
Proof. rw /content_of lookup_fmap. destruct (nodes !! n) as [sn|]; cbn; split; congruence. Qed.

(** Different nodes have different requests. *)
Lemma memory_distinct nodes reqs ds (contents : gmap ptr (option ptr)) (us : list ptr) :
  memory_for nodes reqs ds ->
  (forall n n' r, n ∈ us -> n' ∈ us -> content_of nodes n = Some r -> content_of nodes n' = Some r -> n = n') ->
  (forall n x, contents !! n = Some x -> (sn_content <$> nodes) !! n = Some x \/
      exists de, de ∈ ds /\ de.2.(e_node) = Some n /\ x = de.2.(e_content)) ->
  forall n n' r, (n ∈ us \/ nodes !! n = None) -> (n' ∈ us \/ nodes !! n' = None) ->
    contents !! n = Some (Some r) -> contents !! n' = Some (Some r) -> n = n'.
Proof.
  intros [H1 H2 H3] Hus Hout n n' r Hn Hn' Hc Hc'. rewrite -> Forall_forall in H1.
  assert (forall p, (sn_content <$> nodes) !! p = Some (Some r) -> forall de, de ∈ ds -> de.2.(e_content) = Some r -> False) as Hold.
  { intros p Hp de Hde Er. destruct (H1 de Hde) as (n1 & r1 & _ & Er1 & _ & _ & Hno).
    apply (Hno p). rw content_of_contents. congruence. }
  assert (forall p, p ∈ us \/ nodes !! p = None -> (sn_content <$> nodes) !! p = Some (Some r) ->
    p ∈ us /\ content_of nodes p = Some r) as Hin.
  { intros p Hp Hcp. split; [|by apply content_of_contents]. destruct Hp as [?|Hp]; [done|].
    by rewrite -> lookup_fmap, Hp in Hcp. }
  apply Hout in Hc as [Hc|(de & Hde & En & Er)]; apply Hout in Hc' as [Hc'|(de' & Hde' & En' & Er')].
  - destruct (Hin n Hn Hc), (Hin n' Hn' Hc'). by eapply Hus.
  - by destruct (Hold n Hc de' Hde').
  - by destruct (Hold n' Hc' de Hde).
  - assert (de = de') as <-; [|congruence]. eapply (NoDup_map_inj _ ds); [exact H3|done|done|]. congruence.
Qed.

(** Two maps below a third: the smaller domain has the smaller map. *)
Lemma sub_below {V} (m1 m2 c : gmap ptr V) : m1 ⊆ c -> m2 ⊆ c -> dom m1 ⊆ dom m2 -> m1 ⊆ m2.
Proof.
  intros H1 H2 Hd. apply map_subseteq_spec. intros p x Hp.
  assert (p ∈ dom m2) as [y Hy]%elem_of_dom by (apply Hd, elem_of_dom; by eexists).
  pose proof (lookup_weaken _ _ _ _ Hp H1). pose proof (lookup_weaken _ _ _ _ Hy H2). congruence.
Qed.

(** The local variables are new in every run. *)
Definition as_new (s : rcv_st) : rcv_st :=
  mk_rcv s.(q_heap) s.(q_arrays) s.(q_table) s.(q_nodes) s.(q_reqs) s.(q_rx) s.(q_tx) s.(q_idx) None None None.

(** ** Properties *)

(** A receiver between two batches: its table stands for [m], [q] are the
    free nodes and [tq] those on their way to the handlers, all different,
    with different requests, and the free ones well formed. *)
Record rcv_ready (s : rcv_st) (m : gmap key ptr) (q tq : list ptr) : Prop := {
  ry_table : ht_rep s.(q_arrays) s.(q_table) m;
  ry_rx : stream_rep s.(q_nodes) s.(q_rx) q;
  ry_tx : stream_rep s.(q_nodes) s.(q_tx) tq;
  ry_nodup : NoDup (q ++ tq);
  ry_waiting : s.(q_rx).(st_waiting) = 0;
  ry_distinct : forall n n' r, n ∈ q ++ tq -> n' ∈ q ++ tq ->
    content_of s.(q_nodes) n = Some r -> content_of s.(q_nodes) n' = Some r -> n = n';
  ry_pool : forall n, n ∈ q -> exists r req, content_of s.(q_nodes) n = Some r /\ s.(q_reqs) !! r = Some req /\
    req_ok req /\ req.(r_stop) = false }.

(** What a batch does: the nodes [taken] from the queue and [fresh] from the
    allocator carry its datagrams, [q'] is left of the queue. *)
Record batch_done (s s' : rcv_st) (m : gmap key ptr) (q tq : list ptr) (ds : list (dgram_t * rx_env))
    (taken fresh q' : list ptr) (gs : list (ptr * list dgram_t)) : Prop := {
  bd_queue : q = taken ++ q' /\ (fresh <> [] -> q' = []);
  bd_fresh : Forall (fun n => s.(q_nodes) !! n = None) fresh;
  bd_dom : dom s'.(q_nodes) = dom s.(q_nodes) ∪ list_to_set fresh;
  bd_contents : (sn_content <$> s.(q_nodes)) ⊆ (sn_content <$> s'.(q_nodes));
  bd_rx : stream_rep s'.(q_nodes) s'.(q_rx) q';
  bd_tx : stream_rep s'.(q_nodes) s'.(q_tx) (tq ++ taken ++ fresh);
  bd_nodup : NoDup ((taken ++ fresh) ++ q' ++ tq);
  bd_distinct : forall n n' r, n ∈ (taken ++ fresh) ++ q' ++ tq -> n' ∈ (taken ++ fresh) ++ q' ++ tq ->
    content_of s'.(q_nodes) n = Some r -> content_of s'.(q_nodes) n' = Some r -> n = n';
  bd_served : Forall2 (serves (sn_content <$> s'.(q_nodes)) s'.(q_reqs)) (taken ++ fresh) gs;
  bd_all : concat (snd <$> gs) = passed (fst <$> ds);
  bd_clients : Forall (fun g => Forall (fun d => m !! dgram_key d = Some g.1) g.2) gs;
  bd_table : ht_rep s'.(q_arrays) s'.(q_table) m;
  bd_heap : s'.(q_heap) = s.(q_heap);
  bd_waiting : s'.(q_rx).(st_waiting) = 0;
  bd_grown : grown s.(q_tx) s'.(q_tx) (length (taken ++ fresh));
  bd_pool : forall n, n ∈ q' -> pooled (sn_content <$> s'.(q_nodes)) s'.(q_reqs) n;
  bd_count : (length (taken ++ fresh) <= length ds)%nat;
  bd_from : Forall (from_batch m (fst <$> ds)) gs }.

Lemma ready_inv s m q tq contents ds :
  rcv_ready s m q tq -> memory_for s.(q_nodes) s.(q_reqs) (drop (length q) ds) ->
  (sn_content <$> s.(q_nodes)) ⊆ contents ->
  Forall (fun de : dgram_t * rx_env => exists n, de.2.(e_node) = Some n /\ contents !! n = Some de.2.(e_content))
    (drop (length q) ds) ->
  rcv_inv m contents (fun n => n ∈ q ++ tq \/ s.(q_nodes) !! n = None) q tq (dom s.(q_nodes)) s.(q_tx) s.(q_heap)
    (as_new s) q [] [] ds.
Proof.
  intros [Ht Hrx Htx Hnd Hw Hdist Hpool] [Hm1 Hm2 _] Hsub Hin.
  split; cbn [as_new q_heap q_arrays q_table q_nodes q_reqs q_rx q_tx q_node q_contained]; try done.
  - exists [], []. split_and!; try done. by rw union_empty_r_L.
  - intros n Hn. by left.
  - exists []. rw app_nil_r. split; [done|]. split; [apply grown_0|done].
  - intros n Hn. destruct (Hpool n Hn) as (r & req & Hc%content_of_contents & H). exists r, req.
    split; [by eapply lookup_weaken|done].
  - split; [|done]. apply Forall_forall. intros de Hde. rewrite -> Forall_forall in Hm1, Hin.
    destruct (Hm1 de Hde) as (n & r & En & Er & Hn & Hr & _), (Hin de Hde) as (n' & En' & Hc).
    exists n, r. rw !not_elem_of_dom. assert (n' = n) as -> by congruence. rewrite -> Er in Hc. by split_and!; auto.
Qed.

(** A batch of datagrams of known clients. *)
Lemma rx_run_once_ok cfg ds s m q tq :
  rcv_ready s m q tq -> Forall (fun de => dgram_ok de.1) ds ->
  Forall (fun de => is_Some (m !! dgram_key de.1)) ds -> ds <> [] ->
  memory_for s.(q_nodes) s.(q_reqs) (drop (length q) ds) ->
  exists s' taken fresh q' gs, rx_run_once cfg (Some ds) s = Done s' /\ batch_done s s' m q tq ds taken fresh q' gs.
Proof.
  intros Hry Hok Hm Hne Hmem. destruct (memory_contents _ _ _ Hmem) as (contents & Hsub & Hin & Hout).
  pose proof (ready_inv _ _ _ _ _ _ Hry Hmem Hsub Hin) as Hinv. set (U := fun n => _ \/ _) in Hinv.
  assert (forall n n' r, U n -> U n' -> contents !! n = Some (Some r) -> contents !! n' = Some (Some r) -> n = n') as Hdist.
  { eapply memory_distinct; [exact Hmem|exact (ry_distinct _ _ _ _ Hry)|exact Hout]. }
  destruct (loop_known cfg m contents U q tq (dom s.(q_nodes)) s.(q_tx) s.(q_heap) Hdist ds (as_new s) [])
    as (s1 & Hrun & q1 & ns & gs & Hinv1 & Hconc & Hown & Hfrom & Hnlen & _); [|done..|].
  { exists q, [], []. by split_and!. }
  destruct (send_node_inv m _ _ _ _ _ _ _ s1 q1 ns gs _ Hinv1) as (s2 & Hsend & Hinv2 & _ & Hnode & _).
  destruct Hinv2 as [Ht Hsub2 Hheap (taken & fresh & -> & Hq & Hlast & Hfr & Hdom) Hnd Hu Hrx Hw (sent & Htx & Hgr & Hcur) Hpool Hserved _].
  rw Hnode in Hcur. subst sent. exists s2, taken, fresh, q1, gs. split.
  { rw /rx_run_once. destruct ds as [|de ds]; [done|]. cbn [length last] in Hrun. rw Hrun. exact Hsend. }
  assert (forall n, n ∈ (taken ++ fresh) ++ q1 ++ tq -> n ∈ dom s2.(q_nodes)) as Hall.
  { intros n Hn. assert (n ∈ q1 \/ n ∈ tq ++ taken ++ fresh) as [H|H] by (rewrite -> !elem_of_app in *; tauto).
    - exact (stream_rep_in_heap _ _ _ _ Hrx H).
    - exact (stream_rep_in_heap _ _ _ _ Htx H). }
  assert (forall n x, n ∈ (taken ++ fresh) ++ q1 ++ tq -> contents !! n = Some x -> (sn_content <$> s2.(q_nodes)) !! n = Some x) as Hback.
  { intros n x [sn Hsn]%Hall%elem_of_dom Hx. rw lookup_fmap Hsn /=.
    assert (contents !! n = Some (sn.(sn_content))) as E; [|congruence].
    eapply lookup_weaken; [|exact Hsub2]. by rw lookup_fmap Hsn. }
  split; try done.
  - eapply Forall_impl; [exact Hfr|]. intros n. apply not_elem_of_dom.
  - eapply sub_below; [exact Hsub|exact Hsub2|]. rw !dom_fmap Hdom. set_solver.
  - intros n n' r Hn Hn' Hc%content_of_contents Hc'%content_of_contents.
    apply (Hdist n n' r); [by apply Hu|by apply Hu|by eapply lookup_weaken|by eapply lookup_weaken].
  - apply Forall2_same_length_lookup. pose proof (Forall2_length _ _ _ Hserved) as Hl. split; [done|].
    intros i n g Hi Hg. destruct (Forall2_lookup_lr _ _ _ _ _ _ Hserved Hi Hg) as (r & req & Hc & H).
    exists r, req. split; [|done]. apply Hback; [|done]. apply elem_of_app. left. by eapply list_elem_of_lookup_2.
  - intros n Hn. destruct (Hpool n Hn) as (r & req & Hc & H). exists r, req. split; [|done].
    apply Hback; [|done]. rw !elem_of_app. auto.
  - cbn [app] in Hnlen. rw length_fmap in Hnlen. done.
Qed.

(** C15: a batch of datagrams of known clients.  Let the free nodes be well
    formed, and let there be memory for the datagrams for which there is no
    free node (at the start there is none at all).  Whatever datagrams
    arrive from clients that are in the table, the receiver takes nodes
    from the front of the free ones, in order, and, when they are used up,
    allocates one node with its request for each that is missing; it
    appends them to the stream of the handlers.  Every datagram of a
    possible length (11 to 528 bytes) is in exactly one of their requests,
    in the order of arrival, with its length, its bytes and its client; no
    request exceeds 31 datagrams, and all are well formed for the handler.
    The table and the requests of the nodes that were there before stay
    where they were. *)
Theorem rx_run_once_known cfg ds s m q tq :
  rcv_ready s m q tq -> Forall (fun de => dgram_ok de.1) ds ->
  Forall (fun de => is_Some (m !! dgram_key de.1)) ds -> ds <> [] ->
  memory_for s.(q_nodes) s.(q_reqs) (drop (length q) ds) ->
  exists s' taken fresh q' gs, rx_run_once cfg (Some ds) s = Done s' /\
    q = taken ++ q' /\ (fresh <> [] -> q' = []) /\
    Forall (fun n => s.(q_nodes) !! n = None) fresh /\ dom s'.(q_nodes) = dom s.(q_nodes) ∪ list_to_set fresh /\
    stream_rep s'.(q_nodes) s'.(q_rx) q' /\ stream_rep s'.(q_nodes) s'.(q_tx) (tq ++ taken ++ fresh) /\
    Forall2 (serves (sn_content <$> s'.(q_nodes)) s'.(q_reqs)) (taken ++ fresh) gs /\
    concat (snd <$> gs) = passed (fst <$> ds) /\
    Forall (fun g => Forall (fun d => m !! dgram_key d = Some g.1) g.2) gs /\
    (sn_content <$> s.(q_nodes)) ⊆ (sn_content <$> s'.(q_nodes)) /\
    ht_rep s'.(q_arrays) s'.(q_table) m.
Proof.
  intros Hry Hok Hm Hne Hmem. destruct (rx_run_once_ok cfg ds s m q tq Hry Hok Hm Hne Hmem)
    as (s' & taken & fresh & q' & gs & Hrun & [[] ? ? ? ? ? _ _ ? ? ? ? _ _ _ _ _ _]).
  by exists s', taken, fresh, q', gs.
Qed.

(** C29: a datagram of an unknown client.  With room in the table, memory,
    a file, and a name for it that fits its array (as C25 says), the client is created from the address of the datagram
    with the next number, entered into the table, and the table's lock is
    free; the search goes on with the new client. *)
Theorem find_client_new cfg env addr s m c lock file w garbage ps a' ad name :
  file_name cfg.(cfg_format) s.(q_idx) = Done name ->
  ht_rep s.(q_arrays) s.(q_table) m -> key_ok (addr.(sin6_port), addr.(sin6_addr)) ->
  m !! (addr.(sin6_port), addr.(sin6_addr)) = None ->
  Z.of_nat (base.size m) < cfg.(cfg_max_clients) -> Z.of_nat (base.size m) <= 2 ^ 15 ->
  env.(e_client) = Some c -> env.(e_init) = env_ok lock file ad w garbage (map Some ps) false ->
  s.(q_heap).(h_clients) !! c = None -> fresh_blocks s.(q_heap) lock file ad w ps ->
  length garbage.(b_nodes) = MAX_BUFFER_SIZE -> length ps = MAX_BUFFER_SIZE ->
  env.(e_table) = Some a' -> s.(q_arrays) !! a' = None ->
  exists s', find_client cfg env addr s = Done (s', Go) /\ s'.(q_contained) = Some c /\
    ht_rep s'.(q_arrays) s'.(q_table) (<[(addr.(sin6_port), addr.(sin6_addr)) := c]> m) /\
    s'.(q_heap).(h_clients) !! c = Some (new_client s.(q_idx) 28 lock file ad w) /\
    s'.(q_idx) = u32 (s.(q_idx) + 1).
Proof.
  intros Hname Ht Hk Hm Hmax H15 Hc Hinit Hcl [Hl Hf Ha Hw [Hnd Hfr]] Hg Hps Htab Hfresh.
  rw /find_client (ht_get_ok _ _ _ _ _ Ht Hk) Hm. unbind.
  rw /lock_table (rp_lock _ _ _ Ht). cbn [mbind comp_bind mutex_lock].
  assert (ht_length (with_lock true s.(q_table)) = Z.of_nat (base.size m)) as -> by apply Ht.
  destruct (Z.leb_spec cfg.(cfg_max_clients) (Z.of_nat (base.size m))); [lia|].
  rw Hc Hinit. destruct s.(q_heap) as [hc hm ha hf hb hp htm] eqn:Eh. cbn [h_clients h_mutexes h_files h_addrs h_bufs h_packets upd_clients] in *.
  rw (initialize_client_ok (<[c := zero_client]> hc) hm ha hf hb hp htm c zero_client s.(q_idx) cfg.(cfg_format) addr 28
    lock file ad w garbage (lookup_insert_eq _ _ _) Hg name Hname ps Hps).
  cbn [mbind comp_bind unlock_table with_lock ht_lock mutex_unlock].
  assert (with_lock false (with_lock true s.(q_table)) = s.(q_table)) as Hunl.
  { pose proof (rp_lock _ _ _ Ht). destruct (s.(q_table)). cbn in *. by subst. }
  change (mk_ht (Some false) _ _ _) with (with_lock false (with_lock true s.(q_table))). rw Hunl Htab.
  destruct (ht_put_ok (heap_with_client (<[c := zero_client]> hc) hm ha hf hb hp htm c s.(q_idx) addr 28 lock file ad w ps)
    s.(q_arrays) s.(q_table) m addr.(sin6_port) addr.(sin6_addr) c a' Ht Hk H15 Hfresh)
    as (arrays' & t' & Hput & Hrep' & _). rw Hput. unbind.
  eexists. split; [reflexivity|]. cbn. split_and!; try done. by rw lookup_insert_eq.
Qed.

(** a full table.  A datagram of an unknown client is ignored when
    the table holds the maximal number of clients: nothing is allocated,
    the table, the streams and the requests are untouched, and the table's
    lock is free. *)
Theorem find_client_refuses cfg env addr s m :
  ht_rep s.(q_arrays) s.(q_table) m -> key_ok (addr.(sin6_port), addr.(sin6_addr)) ->
  m !! (addr.(sin6_port), addr.(sin6_addr)) = None -> cfg.(cfg_max_clients) <= Z.of_nat (base.size m) ->
  find_client cfg env addr s =
    Done (set_table s.(q_heap) s.(q_arrays) s.(q_table) s.(q_idx) None s, Continue).
Proof.
  intros Ht Hk Hm Hmax. rw /find_client (ht_get_ok _ _ _ _ _ Ht Hk) Hm. unbind.
  rw /lock_table (rp_lock _ _ _ Ht). cbn [mbind comp_bind mutex_lock].
  assert (ht_length (with_lock true s.(q_table)) = Z.of_nat (base.size m)) as -> by apply Ht.
  destruct (Z.leb_spec cfg.(cfg_max_clients) (Z.of_nat (base.size m))); [|lia].
  cbn [mbind comp_bind unlock_table with_lock ht_lock mutex_unlock].
  pose proof (rp_lock _ _ _ Ht) as Hl. destruct (s.(q_table)). cbn in Hl. by subst.
Qed.

(** a client that cannot be initialised.  When [initialize_client]
    fails, the receiver goes on to the next datagram with the table locked
    and with a pointer to the client that was freed: if the next datagram
    is from another address the receiver waits for ever for the table; if
    it is from the same address it is stored through the request pointer,
    which has not been set. *)
Theorem new_client_failure_blocks cfg env addr s m c h' e :
  ht_rep s.(q_arrays) s.(q_table) m -> key_ok (addr.(sin6_port), addr.(sin6_addr)) ->
  m !! (addr.(sin6_port), addr.(sin6_addr)) = None -> Z.of_nat (base.size m) < cfg.(cfg_max_clients) ->
  env.(e_client) = Some c ->
  initialize_client (upd_clients (<[c := zero_client]>) s.(q_heap)) c s.(q_idx) cfg.(cfg_format) addr 28 env.(e_init) =
    Done (h', Some e) ->
  s.(q_node) = None -> s.(q_req) = None ->
  exists s', find_client cfg env addr s = Done (s', Continue) /\
    forall env' i d, dgram_ok d -> (0 < i < 31)%nat ->
      rx_datagram cfg env' i (Some addr) d s' =
        (if decide (dgram_key d = (addr.(sin6_port), addr.(sin6_addr)))
         then if valid_len d then Stuck UB else Done (s', Go)
         else Stuck Deadlock).
Proof.
  intros Ht Hk Hm Hmax Hc Hinit Hnode Hreq. rw /find_client (ht_get_ok _ _ _ _ _ Ht Hk) Hm. unbind.
  rw /lock_table (rp_lock _ _ _ Ht). cbn [mbind comp_bind mutex_lock].
  assert (ht_length (with_lock true s.(q_table)) = Z.of_nat (base.size m)) as -> by apply Ht.
  destruct (Z.leb_spec cfg.(cfg_max_clients) (Z.of_nat (base.size m))); [lia|].
  rw Hc Hinit. unbind. eexists. split; [reflexivity|]. intros env' i d (Hb & Hbl & Hkd & Hip) Hi.
  set (s' := set_table _ _ _ _ _ _). destruct Hk as [Hp Hl16]. cbn in Hl16, Hip.
  assert (same_client i (Some addr) d s' = bool_decide (dgram_key d = (addr.(sin6_port), addr.(sin6_addr)))) as Hsame.
  { rw /same_client. cbn [s' q_contained set_table]. rw /ip_equals !take_ge; [|lia..].
    assert (Z.of_nat i <? MAX_WINDOW_SIZE = true) as -> by (apply Z.ltb_lt; rw /MAX_WINDOW_SIZE; lia).
    rw andb_true_r /dgram_key. apply eq_true_iff_eq. rw andb_true_iff !bool_decide_eq_true Z.eqb_eq.
    split; [intros [-> ->]; done|]. by intros [= -> ->]. }
  rw /rx_datagram Hsame. case_decide as Heq.
  - rw bool_decide_eq_true_2 //. destruct (valid_len d) eqn:Hv; [|by rw add_dropped].
    rw /add_datagram. rw /valid_len in Hv. rw Hv. cbn [s' q_req set_table]. by rw Hreq.
  - rw bool_decide_eq_false_2 // /send_node. cbn [s' q_node set_table]. rw Hnode. reflexivity.
Qed.

(** ** Concrete batches *)

(** A configuration with the default format and window. *)
Definition test_rx_cfg (max_clients : Z) : rx_cfg_t := mk_rx_cfg max_clients DEFAULT_OUT_FORMAT MAX_WINDOW_SIZE.

(** A receiver with the clients of nine ports and two free nodes. *)
Definition rcv_of (arrays : arrays_t) (t : ht_t) : rcv_st :=
  mk_rcv heap0 arrays t
    (<[101%positive := mk_snode (Some 201%positive) (Node 102%positive)]>
      (<[102%positive := mk_snode (Some 202%positive) Null]> ∅))
    (<[201%positive := new_request]> (<[202%positive := new_request]> ∅))
    (mk_stream Null (Node 101%positive) false 2 0) (mk_stream Null Null false 0 0) 9 None None None.

Definition dgram_from (port len : Z) : dgram_t := mk_dgram (mk_addr port test_ip) len (replicate 528 7).

Definition env0 : rx_env := mk_rx_env None (mk_env None false None None None garbage0 [] false) None None
  (mk_snode None Null) None None.

Lemma rcv_of_ready arrays t m :
  ht_rep arrays t m -> rcv_ready (rcv_of arrays t) m [101%positive; 102%positive] [].
Proof.
  intros Ht. split; cbn [rcv_of q_arrays q_table q_nodes q_rx q_tx q_reqs st_waiting]; try done.
  - exists [101%positive; 102%positive], []. split; [done|]. split; [apply (bool_decide_eq_true_1 _); reflexivity|].
    split; [|done]. split; [done|]. eexists. split; [reflexivity|]. split; [done|]. eexists. by split.
  - exists [], []. split_and!; try done. constructor.
  - apply (bool_decide_eq_true_1 _). reflexivity.
  - intros n n' r Hn Hn'. rewrite -> app_nil_r, !elem_of_cons in Hn, Hn'.
    destruct Hn as [->|[->|Hn%not_elem_of_nil]], Hn' as [->|[->|Hn'%not_elem_of_nil]]; try done;
      intros Hc Hc'; vm_compute in Hc, Hc'; congruence.
  - intros n [->|[->|Hn%not_elem_of_nil]%elem_of_cons]%elem_of_cons; [..|done];
      do 2 eexists; (split; [reflexivity|]); (split; [reflexivity|]); (split; [apply new_request_ok|done]).
Qed.

Lemma dgram_from_ok port len : is_u16 port -> dgram_ok (dgram_from port len).
Proof.
  intros Hp. split; [apply Forall_replicate; lia|]. split; [apply length_replicate|]. by split.
Qed.

(** The third datagram is of another client and finds no free node. *)
Definition env_fresh (n r : ptr) : rx_env := mk_rx_env None (mk_env None false None None None garbage0 [] false) None (Some n)
  (mk_snode None Null) (Some r) None.

Lemma test_memory arrays t d n r :
  (rcv_of arrays t).(q_nodes) !! n = None -> (rcv_of arrays t).(q_reqs) !! r = None -> r <> 201%positive -> r <> 202%positive ->
  memory_for (rcv_of arrays t).(q_nodes) (rcv_of arrays t).(q_reqs) [(d, env_fresh n r)].
Proof.
  intros Hn Hr H1 H2. split; [|apply NoDup_singleton|apply NoDup_singleton]. apply Forall_singleton.
  exists n, r. split_and!; try done. intros n'. rw /content_of. cbn [rcv_of q_nodes].
  destruct (decide (n' = 101%positive)) as [->|H3]; [rw lookup_insert_eq; cbn; congruence|].
  destruct (decide (n' = 102%positive)) as [->|H4]; [rw lookup_insert_ne // lookup_insert_eq; cbn; congruence|].
  rw !lookup_insert_ne //.
Qed.

Lemma rx_run_once_known_witness :
  exists arrays t s' taken fresh q' gs,
    rx_run_once (test_rx_cfg 100) (Some [(dgram_from 4 20, env0); (dgram_from 5 5, env0); (dgram_from 6 11, env_fresh 103%positive 203%positive)])
      (rcv_of arrays t) = Done s' /\
    [101%positive; 102%positive] = taken ++ q' /\ (fresh <> [] -> q' = []) /\
    Forall (fun n => (rcv_of arrays t).(q_nodes) !! n = None) fresh /\
    dom s'.(q_nodes) = dom (rcv_of arrays t).(q_nodes) ∪ list_to_set fresh /\
    stream_rep s'.(q_nodes) s'.(q_rx) q' /\ stream_rep s'.(q_nodes) s'.(q_tx) ([] ++ taken ++ fresh) /\
    Forall2 (serves (sn_content <$> s'.(q_nodes)) s'.(q_reqs)) (taken ++ fresh) gs /\
    concat (snd <$> gs) = [dgram_from 4 20; dgram_from 6 11] /\
    Forall (fun g => Forall (fun d => ports 9 !! dgram_key d = Some g.1) g.2) gs /\
    (sn_content <$> (rcv_of arrays t).(q_nodes)) ⊆ (sn_content <$> s'.(q_nodes)) /\
    ht_rep s'.(q_arrays) s'.(q_table) (ports 9).
Proof.
  destruct (put_ports_rep 9) as (arrays & t & _ & Hrep & _); [cbn; lia|]. exists arrays, t.
  apply (rx_run_once_known (test_rx_cfg 100)
    [(dgram_from 4 20, env0); (dgram_from 5 5, env0); (dgram_from 6 11, env_fresh 103%positive 203%positive)] (rcv_of arrays t)
    (ports 9) [101%positive; 102%positive] []).
  - by apply rcv_of_ready.
  - repeat (apply Forall_cons_2 || apply Forall_nil_2); apply dgram_from_ok; lia.
  - repeat (apply Forall_cons_2 || apply Forall_nil_2); eexists; vm_compute; reflexivity.
  - done.
  - by apply test_memory.
Defined.

Lemma find_client_refuses_witness :
  exists arrays t,
    find_client (test_rx_cfg 9) env0 (mk_addr 99 test_ip) (rcv_of arrays t) =
      Done (set_table heap0 arrays t 9 None (rcv_of arrays t), Continue).
Proof.
  destruct (put_ports_rep 9) as (arrays & t & _ & Hrep & _); [cbn; lia|]. exists arrays, t.
  apply (find_client_refuses (test_rx_cfg 9) env0 (mk_addr 99 test_ip) (rcv_of arrays t) (ports 9));
    [exact Hrep|exact (test_key_ok 99 ltac:(cbn; lia))|vm_compute; reflexivity|rw ports_size; cbn; lia].
Defined.

Lemma new_client_failure_blocks_witness :
  exists arrays t env s', find_client (test_rx_cfg 10) env (mk_addr 99 test_ip) (rcv_of arrays t) = Done (s', Continue) /\
    rx_datagram (test_rx_cfg 10) env 1 (Some (mk_addr 99 test_ip)) (dgram_from 4 20) s' = Stuck Deadlock /\
    rx_datagram (test_rx_cfg 10) env 1 (Some (mk_addr 99 test_ip)) (dgram_from 99 20) s' = Stuck UB.
Proof.
  destruct (put_ports_rep 9) as (arrays & t & _ & Hrep & _); [cbn; lia|].
  set (env := mk_rx_env (Some 50%positive) (mk_env None false None None None garbage0 [] false) None None
    (mk_snode None Null) None None).
  destruct (new_client_failure_blocks (test_rx_cfg 10) env (mk_addr 99 test_ip) (rcv_of arrays t) (ports 9) 50%positive
    (upd_clients (fun m => delete 50%positive (<[50%positive := mk_client true None None None 0 None 9 0 None 0]>
      (<[50%positive := zero_client]> m))) heap0) FAILED_TO_ALLOCATE) as (s' & Hrun & Hafter);
    [exact Hrep|exact (test_key_ok 99 ltac:(cbn; lia))|vm_compute; reflexivity|rw ports_size; cbn; lia|
     reflexivity|reflexivity|reflexivity|reflexivity|].
  exists arrays, t, env, s'. split; [exact Hrun|]. split.
  - rw (Hafter env 1%nat (dgram_from 4 20)); [reflexivity|apply dgram_from_ok; lia|lia].
  - rw (Hafter env 1%nat (dgram_from 99 20)); [reflexivity|apply dgram_from_ok; lia|lia].
Defined.

Lemma find_client_new_witness :
  exists arrays t env s', find_client (test_rx_cfg 100) env (mk_addr 99 test_ip) (rcv_of arrays t) = Done (s', Go) /\
    s'.(q_contained) = Some 50%positive /\
    ht_rep s'.(q_arrays) s'.(q_table) (<[(99, test_ip) := 50%positive]> (ports 9)) /\
    s'.(q_heap).(h_clients) !! 50%positive = Some (new_client 9 28 2%positive 3%positive 4%positive 5%positive) /\
    s'.(q_idx) = 10.
Proof.
  destruct (put_ports_rep 9) as (arrays & t & _ & Hrep & Hfree); [cbn; lia|].
  set (env := mk_rx_env (Some 50%positive)
    (env_ok 2%positive 3%positive 4%positive 5%positive garbage0 (map Some (pointers 32)) false)
    (Some 200%positive) None (mk_snode None Null) None None).
  exists arrays, t, env.
  apply (find_client_new (test_rx_cfg 100) env (mk_addr 99 test_ip) (rcv_of arrays t) (ports 9) 50%positive
    2%positive 3%positive 5%positive garbage0 (pointers 32) 200%positive 4%positive (decimal 9));
    [reflexivity|exact Hrep|exact (test_key_ok 99 ltac:(cbn; lia))|vm_compute; reflexivity|rw ports_size; cbn; lia|
     rw ports_size; lia|reflexivity|reflexivity|reflexivity|apply heap0_fresh; vm_compute; reflexivity|
     reflexivity|reflexivity|reflexivity|apply Hfree; lia].
Defined.
