(* ===== verification/Main.v ===== *)
(** * Main: src/main.c, the program around the components

    What [main] decides before the threads start (the streams and which
    thread uses which), the sequential mode, in which one thread runs the
    receiver and the handler in turns, and the removal of clients whose
    transfer is over.  What it acquires and frees around that is Setup. *)

From S2P Require Import Prelude Global Cli Memory Packet Buffer Stream Client HashTable Handler Receiver.

(** ** Streams and threads *)

(** The result of the configuration: numbers of receivers and handlers,
    the stream of each, and the number of streams. *)
Record setup_t := mk_setup {
  su_receive_num : Z;
  su_handle_num : Z;
  su_receive_streams : list Z;
  su_handle_streams : list Z;
  su_stream_count : Z }.

(** The configuration behind the options: the sequential mode has one
    thread of each kind; without an accepted stream file there is one
    stream for all.  [alloc_r], [alloc_h] are the allocations of
    [parse_streams_file], which leaves both arrays null when one of them
    fails; [calloc_h], [calloc_r] are those of [main]. *)
Definition configure (config : config_rcv_t) (alloc_r alloc_h : bool) (file : option str) (calloc_h calloc_r : bool)
    : comp (option setup_t) :=
  let sequential := config.(cf_sequential) in
  let handle_num := if sequential then 1 else config.(cf_handle_num) in
  let receive_num := if sequential then 1 else config.(cf_receive_num) in
  r ← (if sequential then Done None else parse_streams_file receive_num handle_num alloc_r alloc_h file);
  match r with
  | Some (rs, hs, count) => Done (Some (mk_setup receive_num handle_num rs hs count))
  | None =>
      let null := sequential || negb alloc_r || negb alloc_h in
      if null && negb (calloc_h && calloc_r) then Done None else
      Done (Some (mk_setup receive_num handle_num (replicate (Z.to_nat receive_num) 0)
                    (replicate (Z.to_nat handle_num) 0) 1))
  end.

(** What a thread's configuration points to: its socket, the stream it
    takes from and the one it gives to, and the CPU it is bound to. *)
Record wiring_t := mk_wiring {
  wi_id : nat; wi_sockfd : Z; wi_rx : ptr; wi_tx : ptr; wi_affinity : option Z }.

Definition affinity_of (affinities : option (list Z)) (i : nat) : comp (option Z) :=
  match affinities with
  | None => Done None
  | Some cpus => cpu ← rd cpus i; Done (Some cpu)
  end.

Definition wire_receiver (su : setup_t) (sockfds : list Z) (rx_to_hd hd_to_rx : list ptr)
    (affinities : option (list Z)) (i : nat) : comp wiring_t :=
  stream ← rd su.(su_receive_streams) i;
  fd ← rd sockfds (Z.to_nat stream);
  rx ← rd hd_to_rx (Z.to_nat stream);
  tx ← rd rx_to_hd (Z.to_nat stream);
  a ← affinity_of affinities i;
  Done (mk_wiring i fd rx tx a).

Definition wire_handler (su : setup_t) (sockfds : list Z) (rx_to_hd hd_to_rx : list ptr)
    (affinities : option (list Z)) (i : nat) : comp wiring_t :=
  stream ← rd su.(su_handle_streams) i;
  fd ← rd sockfds (Z.to_nat stream);
  rx ← rd rx_to_hd (Z.to_nat stream);
  tx ← rd hd_to_rx (Z.to_nat stream);
  a ← affinity_of affinities i;
  Done (mk_wiring i fd rx tx a).

(** The two loops over the threads. *)
Definition wire_threads (su : setup_t) (sockfds : list Z) (rx_to_hd hd_to_rx : list ptr)
    (receive_affinities handle_affinities : option (list Z)) : comp (list wiring_t * list wiring_t) :=
  rs ← mapM (wire_receiver su sockfds rx_to_hd hd_to_rx receive_affinities) (seq 0 (Z.to_nat su.(su_receive_num)));
  hs ← mapM (wire_handler su sockfds rx_to_hd hd_to_rx handle_affinities) (seq 0 (Z.to_nat su.(su_handle_num)));
  Done (rs, hs).

(** ** Removal of clients *)

(** The loop over the items from [i] on: the clients that are not active
    and have an end time that is long ago.  The comparison of the clock
    with the end time, in floating point, is left to [long_ago]. *)
Fixpoint due_clients (n i : nat) (clients : gmap ptr client_t) (long_ago : ptr -> bool) (items : list item_t)
    : comp (list ptr) :=
  match n with
  | O => Done []
  | S n =>
      item ← rd items i;
      due ← (if item.(i_used) then
               match item.(i_value) with
               | None => Stuck UB
               | Some p =>
                   c ← load clients p;
                   Done (match c.(c_end_time) with
                         | Some e => if negb c.(c_active) && long_ago e then [p] else []
                         | None => []
                         end)
               end
             else Done []);
      rest ← due_clients n (S i) clients long_ago items;
      Done (due ++ rest)
  end.

(** Each of them is removed from the table and freed; [envs] are the
    arrays the allocator has for [ht_remove]. *)
Fixpoint remove_clients (ps : list ptr) (envs : list (option ptr * option ptr)) (h : heap_t) (arrays : arrays_t)
    (t : ht_t) : comp (heap_t * arrays_t * ht_t) :=
  match ps with
  | [] => Done (h, arrays, t)
  | p :: ps =>
      c ← load h.(h_clients) p;
      match c.(c_address), envs with
      | None, _ => Stuck UB
      | _, [] => Stuck NoFuel
      | Some a, (e1, e2) :: envs =>
          address ← load h.(h_addrs) a;
          '(h, arrays, t, _) ← ht_remove h arrays t address.(sin6_port) address.(sin6_addr) e1 e2;
          h ← deallocate_client h (Some p) true true;
          remove_clients ps envs h arrays t
      end
  end.

Definition expire (long_ago : ptr -> bool) (envs : list (option ptr * option ptr)) (h : heap_t)
    (arrays : arrays_t) (t : ht_t) : comp (heap_t * arrays_t * ht_t) :=
  t ← lock_table t;
  '(_, items) ← load_items arrays t;
  ps ← due_clients (Z.to_nat t.(ht_size)) 0 h.(h_clients) long_ago items;
  t ← unlock_table t;
  remove_clients ps envs h arrays t.

(** ** The sequential mode *)

(** Everything the one thread works on. *)
Record main_st := mk_main {
  m_heap : heap_t;
  m_arrays : arrays_t;
  m_table : ht_t;
  m_nodes : nodes_t;
  m_reqs : gmap ptr hd_req_t;
  m_rx_to_hd : stream_t;
  m_hd_to_rx : stream_t;
  m_idx : Z;
  m_decoded : ptr;
  m_exit : bool;
  m_file_buffer : list Z;
  m_out : list (list Z);
  m_names : list (option ptr);
  m_sent : list (option ptr * list Z);
  m_cnt : Z }.                  (* int *)

(** What the receiver sees of it, and what it leaves. *)
Definition as_rcv (m : main_st) : rcv_st :=
  mk_rcv m.(m_heap) m.(m_arrays) m.(m_table) m.(m_nodes) m.(m_reqs) m.(m_hd_to_rx) m.(m_rx_to_hd) m.(m_idx)
    None None None.
Definition from_rcv (s : rcv_st) (m : main_st) : main_st :=
  mk_main s.(q_heap) s.(q_arrays) s.(q_table) s.(q_nodes) s.(q_reqs) s.(q_tx) s.(q_rx) s.(q_idx)
    m.(m_decoded) m.(m_exit) m.(m_file_buffer) m.(m_out) m.(m_names) m.(m_sent) m.(m_cnt).

(** The same for the handler. *)
Definition as_hd (m : main_st) : hd_world :=
  mk_world m.(m_heap) m.(m_nodes) m.(m_reqs) m.(m_rx_to_hd) m.(m_hd_to_rx) m.(m_decoded) m.(m_exit)
    m.(m_file_buffer) m.(m_out) m.(m_names) m.(m_sent).
Definition from_hd (w : hd_world) (m : main_st) : main_st :=
  mk_main w.(w_heap) m.(m_arrays) m.(m_table) w.(w_nodes) w.(w_reqs) w.(w_rx) w.(w_tx) m.(m_idx)
    w.(w_decoded) w.(w_exit) w.(w_file_buffer) w.(w_out) w.(w_names) w.(w_sent) m.(m_cnt).

Definition with_table (h : heap_t) (arrays : arrays_t) (t : ht_t) (m : main_st) : main_st :=
  mk_main h arrays t m.(m_nodes) m.(m_reqs) m.(m_rx_to_hd) m.(m_hd_to_rx) m.(m_idx)
    m.(m_decoded) m.(m_exit) m.(m_file_buffer) m.(m_out) m.(m_names) m.(m_sent) m.(m_cnt).
Definition with_cnt (cnt : Z) (m : main_st) : main_st :=
  mk_main m.(m_heap) m.(m_arrays) m.(m_table) m.(m_nodes) m.(m_reqs) m.(m_rx_to_hd) m.(m_hd_to_rx) m.(m_idx)
    m.(m_decoded) m.(m_exit) m.(m_file_buffer) m.(m_out) m.(m_names) m.(m_sent) cnt.

(** [while (hd_configs[0]->rx->length != 0) hd_run_once(...)]: one
    environment for each round. *)
Fixpoint seq_drain (cfg : hd_cfg_t) (envs : list hd_env) (w : hd_world) : comp hd_world :=
  if w.(w_rx).(st_length) =? 0 then Done w else
  match envs with
  | [] => Stuck NoFuel
  | env :: envs => w ← hd_run_once false cfg env w; seq_drain cfg envs w
  end.

(** What the environment answers during a round: the datagrams, the
    handler's choices, and those of the removal of clients. *)
Record seq_env := mk_seq_env {
  se_received : option (list (dgram_t * rx_env));
  se_handler : list hd_env;
  se_long_ago : ptr -> bool;
  se_removal : list (option ptr * option ptr) }.

(** [cnt++] at the head of the loop: the counter is an [int], whose
    overflow is undefined. *)
Definition count_round (m : main_st) : comp main_st :=
  if m.(m_cnt) =? INT_MAX then Stuck UB else Done (with_cnt (m.(m_cnt) + 1) m).

(** One round of the loop; every tenth removes clients. *)
Definition seq_round (rcfg : rx_cfg_t) (hcfg : hd_cfg_t) (env : seq_env) (m : main_st) : comp main_st :=
  m ← count_round m;
  s ← rx_run_once rcfg env.(se_received) (as_rcv m);
  let m := from_rcv s m in
  w ← seq_drain hcfg env.(se_handler) (as_hd m);
  let m := from_hd w m in
  if Z.rem m.(m_cnt) 10 =? 0 then
    '(h, arrays, t) ← expire env.(se_long_ago) env.(se_removal) m.(m_heap) m.(m_arrays) m.(m_table);
    Done (with_table h arrays t m)
  else Done m.

(** The loop: the signal to stop comes behind the last of the rounds, and
    the next one, which is counted, ends at its test. *)
Fixpoint seq_loop (rcfg : rx_cfg_t) (hcfg : hd_cfg_t) (envs : list seq_env) (m : main_st) : comp main_st :=
  match envs with
  | [] => count_round m
  | env :: envs => m ← seq_round rcfg hcfg env m; seq_loop rcfg hcfg envs m
  end.
