(* ===== verification/Setup.v ===== *)
(** * Setup: src/main.c from the sockets to the final deallocation

    What [main] acquires before the threads run (sockets, streams, the table
    of clients, the configurations of the threads, the threads themselves),
    [deallocate_everything], which the error paths and the end of the
    program share, and [main] in sequential mode as a whole.  Whether
    [pthread_join] returns, and what the thread has done by then, is a
    parameter ([de_rx_joined], [de_hd_joined]). *)

From S2P Require Import Prelude Global Cli Memory Packet Buffer Stream Client HashTable Handler Receiver Main.

(** ** State *)

(** A thread's configuration ([rx_cfg_t], [hd_cfg_t]): the [pthread_t] it
    points to, the request to stop, and what it is connected to. *)
Record thread_cfg := mk_tcfg { tc_thread : option ptr; tc_stop : bool; tc_wiring : option wiring_t }.
Definition zero_cfg : thread_cfg := mk_tcfg None false None.

(** Everything the program has acquired.  A [pthread_t] holds the number of
    a thread, or nothing that names one ([None]). *)
Record sys_t := mk_sys {
  y_fds : gset Z;                          (* open descriptors *)
  y_blocks : gset ptr;                     (* the blocks of the configuration *)
  y_ptrs : gmap ptr (list (option ptr));   (* arrays of pointers *)
  y_streams : gmap ptr stream_t;
  y_nodes : nodes_t;
  y_reqs : gmap ptr hd_req_t;
  y_tables : gmap ptr ht_t;
  y_arrays : arrays_t;
  y_heap : heap_t;
  y_cfgs : gmap ptr thread_cfg;
  y_threads : gmap ptr (option nat) }.

Definition with_fds x y := mk_sys x y.(y_blocks) y.(y_ptrs) y.(y_streams) y.(y_nodes) y.(y_reqs) y.(y_tables) y.(y_arrays) y.(y_heap) y.(y_cfgs) y.(y_threads).
Definition with_blocks x y := mk_sys y.(y_fds) x y.(y_ptrs) y.(y_streams) y.(y_nodes) y.(y_reqs) y.(y_tables) y.(y_arrays) y.(y_heap) y.(y_cfgs) y.(y_threads).
Definition with_ptrs x y := mk_sys y.(y_fds) y.(y_blocks) x y.(y_streams) y.(y_nodes) y.(y_reqs) y.(y_tables) y.(y_arrays) y.(y_heap) y.(y_cfgs) y.(y_threads).
Definition with_queues streams nodes reqs y := mk_sys y.(y_fds) y.(y_blocks) y.(y_ptrs) streams nodes reqs y.(y_tables) y.(y_arrays) y.(y_heap) y.(y_cfgs) y.(y_threads).
Definition with_clients_table tables arrays heap y := mk_sys y.(y_fds) y.(y_blocks) y.(y_ptrs) y.(y_streams) y.(y_nodes) y.(y_reqs) tables arrays heap y.(y_cfgs) y.(y_threads).
Definition with_cfgs cfgs threads y := mk_sys y.(y_fds) y.(y_blocks) y.(y_ptrs) y.(y_streams) y.(y_nodes) y.(y_reqs) y.(y_tables) y.(y_arrays) y.(y_heap) cfgs threads.

(** The configuration: what [configure] decided and the blocks it owns;
    the affinities come with their contents. *)
Record conf_t := mk_conf {
  cn_sequential : bool;
  cn_window_size : Z;       (* receive_window_size, uint16_t *)
  cn_setup : setup_t;
  cn_addr_info : option ptr;
  cn_receive_affinities : option (ptr * list Z);
  cn_handle_affinities : option (ptr * list Z);
  cn_receive_streams : option ptr;
  cn_handle_streams : option ptr }.

Definition stream_count (c : conf_t) : nat := Z.to_nat c.(cn_setup).(su_stream_count).
Definition receive_num (c : conf_t) : nat := Z.to_nat c.(cn_setup).(su_receive_num).
Definition handle_num (c : conf_t) : nat := Z.to_nat c.(cn_setup).(su_handle_num).

(** The variables of [main]; the pointers are null at first. *)
Record vars_t := mk_vars {
  v_sockfds : list Z;
  v_rx_to_hd : option ptr;
  v_hd_to_rx : option ptr;
  v_clients : option ptr;
  v_rx_configs : option ptr;
  v_hd_configs : option ptr }.

(** [array[i]] of an array of pointers. *)
Definition entry (y : sys_t) (array : option ptr) (i : nat) : comp (option ptr) :=
  match array with
  | None => Stuck UB
  | Some a => l ← load y.(y_ptrs) a; rd l i
  end.
Definition set_entry (y : sys_t) (array : option ptr) (i : nat) (v : option ptr) : comp sys_t :=
  match array with
  | None => Stuck UB
  | Some a => l ← load y.(y_ptrs) a; l ← wr l i v; ptrs ← store y.(y_ptrs) a l; Done (with_ptrs ptrs y)
  end.

(** ** deallocate_everything *)

(** What the allocator has for a stop request: the node, what the node
    holds, and the request. *)
Record stop_env := mk_stop_env { sp_node : option ptr; sp_garbage : s_node_t; sp_content : option ptr }.

(** What the environment decides: what the threads have done when a
    [pthread_join] returns, if it returns at all ([None] is a wait without
    end), and the allocations of the stop request of handler [i] for stream
    [j].  A thread is given by its number and by its configuration at the
    call; what a handler does depends on the state the stop requests have
    left, too, in which its own may still be queued. *)
Record dealloc_env := mk_dealloc_env {
  de_rx_joined : nat -> thread_cfg -> sys_t -> option sys_t;
  de_hd_joined : sys_t -> nat -> thread_cfg -> sys_t -> option sys_t;
  de_stops : nat -> nat -> stop_env }.

Definition free_cfg (y : sys_t) (p : ptr) : comp sys_t :=
  cfgs ← free y.(y_cfgs) (Some p); Done (with_cfgs cfgs y.(y_threads) y).
Definition free_thread (y : sys_t) (th : option ptr) : comp sys_t :=
  threads ← free y.(y_threads) th; Done (with_cfgs y.(y_cfgs) threads y).

(** The configuration [p]: its thread, if it has one, is told to stop (the
    receivers only, [stop]) and waited for; waiting for what is not a
    thread is undefined, and waiting for a thread that does not end is a
    wait without end. *)
Definition join_thread (stop : bool) (joined : nat -> thread_cfg -> sys_t -> option sys_t) (p : ptr) (y : sys_t) : comp sys_t :=
  c ← load y.(y_cfgs) p;
  y ← match c.(tc_thread) with
      | None => Done y
      | Some th =>
          let c := if stop then mk_tcfg c.(tc_thread) true c.(tc_wiring) else c in
          let y := with_cfgs (<[p := c]> y.(y_cfgs)) y.(y_threads) y in
          t ← load y.(y_threads) th;
          match t with
          | None => Stuck UB
          | Some id =>
              match joined id c y with
              | None => Stuck Deadlock
              | Some y => c ← load y.(y_cfgs) p; free_thread y c.(tc_thread)
              end
          end
      end;
  free_cfg y p.

(** The loop over the configurations [configs] from [i] on. *)
Fixpoint join_threads (stop : bool) (n i : nat) (joined : nat -> thread_cfg -> sys_t -> option sys_t) (configs : option ptr)
    (y : sys_t) : comp sys_t :=
  match n with
  | O => Done y
  | S n =>
      e ← entry y configs i;
      y ← match e with None => Done y | Some p => join_thread stop joined p y end;
      join_threads stop n (S i) joined configs y
  end.

Definition free_array (y : sys_t) (array : option ptr) : comp sys_t :=
  ptrs ← free y.(y_ptrs) array; Done (with_ptrs ptrs y).

(** A stop request for the stream [j]; without memory for the node there
    is none, and a node that cannot be initialised is left behind. *)
Definition send_stop (env : stop_env) (rx_to_hd : option ptr) (j : nat) (y : sys_t) : comp sys_t :=
  match env.(sp_node) with
  | None => Done y
  | Some n =>
      let nodes := malloc y.(y_nodes) (Some n) env.(sp_garbage) in
      '(nodes, reqs, r) ← initialize_node nodes y.(y_reqs) (Some n) env.(sp_content) new_request;
      let y := with_queues y.(y_streams) nodes reqs y in
      match r with
      | Some _ => Done y
      | None =>
          node ← load nodes n;
          match node.(sn_content) with
          | None => Stuck UB
          | Some r =>
              req ← load reqs r;
              let reqs := <[r := mk_req true req.(r_client) req.(r_num) req.(r_lengths) req.(r_buffer)]> reqs in
              e ← entry y rx_to_hd j;
              match e with
              | None => Stuck UB
              | Some s =>
                  st ← load y.(y_streams) s;
                  '(nodes, st, _) ← stream_enqueue nodes st (Some n);
                  Done (with_queues (<[s := st]> y.(y_streams)) nodes reqs y)
              end
          end
      end
  end.

(** The two loops over handlers and streams, as the list of their rounds. *)
Fixpoint send_stops (rounds : list (stop_env * nat)) (rx_to_hd : option ptr) (y : sys_t) : comp sys_t :=
  match rounds with
  | [] => Done y
  | (env, j) :: rounds => y ← send_stop env rx_to_hd j y; send_stops rounds rx_to_hd y
  end.

Definition stop_rounds (env : dealloc_env) (handlers streams : nat) : list (stop_env * nat) :=
  map (fun '(i, j) => (env.(de_stops) i j, j)) (list_prod (seq 0 handlers) (seq 0 streams)).

Definition free_block (y : sys_t) (b : option ptr) : comp sys_t :=
  match b with
  | None => Done y
  | Some p => if decide (p ∈ y.(y_blocks)) then Done (with_blocks (y.(y_blocks) ∖ {[p]}) y) else Stuck UB
  end.

(** The sockets that were opened are closed. *)
Fixpoint close_sockets (n i : nat) (sockfds : list Z) (y : sys_t) : comp sys_t :=
  match n with
  | O => Done y
  | S n =>
      fd ← rd sockfds i;
      let y := if fd =? -1 then y else with_fds (y.(y_fds) ∖ {[fd]}) y in
      close_sockets n (S i) sockfds y
  end.

(** The loop over the streams of an array; a null stream is skipped. *)
Fixpoint free_streams (n j : nat) (array : option ptr) (y : sys_t) : comp sys_t :=
  match n with
  | O => Done y
  | S n =>
      e ← entry y array j;
      y ← match e with
          | None => Done y
          | Some s =>
              st ← load y.(y_streams) s;
              '(nodes, reqs, st) ← dealloc_stream y.(y_nodes) y.(y_reqs) (Some st);
              streams ← free y.(y_streams) (Some s);
              Done (with_queues streams nodes reqs y)
          end;
      free_streams n (S j) array y
  end.

Definition free_stream_array (n : nat) (array : option ptr) (y : sys_t) : comp sys_t :=
  match array with
  | None => Done y
  | Some _ => y ← free_streams n 0 array y; free_array y array
  end.

Definition free_table (clients : option ptr) (y : sys_t) : comp sys_t :=
  match clients with
  | None => Done y
  | Some p =>
      t ← load y.(y_tables) p;
      '(h, arrays, _, _) ← dealloc_ht y.(y_heap) y.(y_arrays) (Some t);
      tables ← free y.(y_tables) (Some p);
      Done (with_clients_table tables arrays h y)
  end.

(** The configurations of the handlers, which may not be there yet. *)
Definition free_handlers (n : nat) (joined : nat -> thread_cfg -> sys_t -> option sys_t) (hd_configs : option ptr) (y : sys_t) : comp sys_t :=
  match hd_configs with
  | None => Done y
  | Some _ =>
      y ← join_threads false n 0 joined hd_configs y;
      free_array y hd_configs
  end.

(** The blocks of the configuration. *)
Definition free_config (config : conf_t) (y : sys_t) : comp sys_t :=
  y ← free_block y config.(cn_addr_info);
  y ← free_block y (fst <$> config.(cn_receive_affinities));
  y ← free_block y (fst <$> config.(cn_handle_affinities));
  y ← free_block y config.(cn_handle_streams);
  free_block y config.(cn_receive_streams).

Definition deallocate_everything (config : conf_t) (v : vars_t) (env : dealloc_env) (y : sys_t) : comp sys_t :=
  y ← join_threads true (receive_num config) 0 env.(de_rx_joined) v.(v_rx_configs) y;
  y ← free_array y v.(v_rx_configs);
  y ← send_stops (stop_rounds env (handle_num config) (stream_count config)) v.(v_rx_to_hd) y;
  y ← free_handlers (handle_num config) (env.(de_hd_joined) y) v.(v_hd_configs) y;
  y ← free_config config y;
  y ← close_sockets (stream_count config) 0 v.(v_sockfds) y;
  y ← free_stream_array (stream_count config) v.(v_rx_to_hd) y;
  y ← free_stream_array (stream_count config) v.(v_hd_to_rx) y;
  free_table v.(v_clients) y.

(** ** Set-up *)

(** The answers to the calls for a socket: the descriptor, and whether one
    of the calls behind [socket] fails. *)
Record socket_env := mk_socket_env { sk_fd : Z; sk_fails : bool }.

(** The answers for a stream. *)
Record stream_env := mk_stream_env { sm_ptr : option ptr; sm_lock_fails : bool; sm_cond_fails : bool }.

Record setup_env := mk_setup_env {
  en_sockfds : list Z;          (* what the array holds at first *)
  en_sockets : nat -> socket_env;
  en_rx_to_hd : option ptr;
  en_rx_streams : nat -> stream_env;
  en_hd_to_rx : option ptr;
  en_hd_streams : nat -> stream_env;
  en_table : option ptr;
  en_items : option ptr;
  en_mutex : option ptr;
  en_mutex_fails : bool;
  en_rx_configs : option ptr;
  en_rx_config : nat -> option ptr;
  en_hd_configs : option ptr;
  en_hd_config : nat -> option ptr;
  en_rx_thread : nat -> option ptr;
  en_rx_create_fails : nat -> bool;
  en_hd_thread : nat -> option ptr;
  en_hd_create_fails : nat -> bool;
  en_stop_mutex_fails : bool;
  en_stop_cond_fails : bool;
  en_dealloc : dealloc_env }.

(** Each stage returns whether it succeeded. *)

(** The loop over the sockets from [i] on: on a failure the socket is
    closed and [main] returns at once. *)
Fixpoint open_sockets (n i : nat) (env : nat -> socket_env) (sockfds : list Z) (y : sys_t)
    : comp (list Z * sys_t * bool) :=
  match n with
  | O => Done (sockfds, y, true)
  | S n =>
      let fd := (env i).(sk_fd) in
      sockfds ← wr sockfds i fd;
      if fd =? -1 then Done (sockfds, y, false) else
      let y := with_fds ({[fd]} ∪ y.(y_fds)) y in
      if (env i).(sk_fails) then Done (sockfds, with_fds (y.(y_fds) ∖ {[fd]}) y, false) else
      open_sockets n (S i) env sockfds y
  end.

(** [calloc] of an array of [n] pointers. *)
Definition alloc_array (p : option ptr) (n : nat) (y : sys_t) : sys_t :=
  with_ptrs (malloc y.(y_ptrs) p (replicate n None)) y.

(** The loop over the streams of an array; [calloc] leaves a stream of
    zeros. *)
Fixpoint alloc_streams (n i : nat) (env : nat -> stream_env) (array : option ptr) (y : sys_t)
    : comp (sys_t * bool) :=
  match n with
  | O => Done (y, true)
  | S n =>
      let p := (env i).(sm_ptr) in
      let y := with_queues (malloc y.(y_streams) p (mk_stream Null Null false 0 0)) y.(y_nodes) y.(y_reqs) y in
      y ← set_entry y array i p;
      match p with
      | None => Done (y, false)
      | Some s =>
          '(nodes, reqs, st, r) ← initialize_stream y.(y_nodes) y.(y_reqs) (env i).(sm_lock_fails) (env i).(sm_cond_fails);
          let y := with_queues (<[s := st]> y.(y_streams)) nodes reqs y in
          match r with
          | Some _ => Done (y, false)
          | None => alloc_streams n (S i) env array y
          end
      end
  end.

(** The array and its streams. *)
Definition alloc_stream_array (n : nat) (p : option ptr) (env : nat -> stream_env) (y : sys_t)
    : comp (sys_t * bool) :=
  match p with
  | None => Done (y, false)
  | Some _ => alloc_streams n 0 env p (alloc_array p n y)
  end.

Definition alloc_table (env : setup_env) (y : sys_t) : comp (sys_t * bool) :=
  match env.(en_table) with
  | None => Done (y, false)
  | Some p =>
      '(arrays, t, r) ← allocate_ht y.(y_arrays) env.(en_items) env.(en_mutex) env.(en_mutex_fails);
      Done (with_clients_table (<[p := t]> y.(y_tables)) arrays y.(y_heap) y,
            match r with None => true | Some _ => false end)
  end.

(** The loop over the configurations of one kind, and their array. *)
Fixpoint alloc_cfgs (n i : nat) (env : nat -> option ptr) (array : option ptr) (y : sys_t) : comp (sys_t * bool) :=
  match n with
  | O => Done (y, true)
  | S n =>
      let y := with_cfgs (malloc y.(y_cfgs) (env i) zero_cfg) y.(y_threads) y in
      y ← set_entry y array i (env i);
      match env i with
      | None => Done (y, false)
      | Some _ => alloc_cfgs n (S i) env array y
      end
  end.

Definition alloc_cfg_array (n : nat) (p : option ptr) (env : nat -> option ptr) (y : sys_t) : comp (sys_t * bool) :=
  match p with
  | None => Done (y, false)
  | Some _ => alloc_cfgs n 0 env p (alloc_array p n y)
  end.

(** The pointers of an array all of which are set. *)
Definition entries (y : sys_t) (array : option ptr) : comp (list ptr) :=
  match array with
  | None => Stuck UB
  | Some a => l ← load y.(y_ptrs) a; mapM (fun e : option ptr => match e with Some p => Done p | None => Stuck UB end) l
  end.

(** The fields of the configurations of one kind. *)
Fixpoint connect (ws : list wiring_t) (i : nat) (configs : option ptr) (y : sys_t) : comp sys_t :=
  match ws with
  | [] => Done y
  | w :: ws =>
      e ← entry y configs i;
      match e with
      | None => Stuck UB
      | Some p =>
          c ← load y.(y_cfgs) p;
          connect ws (S i) configs (with_cfgs (<[p := mk_tcfg c.(tc_thread) false (Some w)]> y.(y_cfgs)) y.(y_threads) y)
      end
  end.

Definition connect_threads (config : conf_t) (v : vars_t) (y : sys_t) : comp sys_t :=
  rx_to_hd ← entries y v.(v_rx_to_hd);
  hd_to_rx ← entries y v.(v_hd_to_rx);
  '(rs, hs) ← wire_threads config.(cn_setup) v.(v_sockfds) rx_to_hd hd_to_rx
                (snd <$> config.(cn_receive_affinities)) (snd <$> config.(cn_handle_affinities));
  y ← connect rs 0 v.(v_rx_configs) y;
  connect hs 0 v.(v_hd_configs) y.

(** The loop that starts the threads of one kind; the first has the number
    [id]. *)
Fixpoint start_threads (n i id : nat) (thread : nat -> option ptr) (fails : nat -> bool) (configs : option ptr)
    (y : sys_t) : comp (sys_t * bool) :=
  match n with
  | O => Done (y, true)
  | S n =>
      e ← entry y configs i;
      match e with
      | None => Stuck UB
      | Some p =>
          c ← load y.(y_cfgs) p;
          let y := with_cfgs (<[p := mk_tcfg (thread i) c.(tc_stop) c.(tc_wiring)]> y.(y_cfgs))
                     (malloc y.(y_threads) (thread i) None) y in
          match thread i with
          | None => Done (y, false)
          | Some th =>
              if fails i then Done (y, false) else
              start_threads n (S i) (S id) thread fails configs
                (with_cfgs y.(y_cfgs) (<[th := Some id]> y.(y_threads)) y)
          end
      end
  end.

(** The stages in order: each leaves the variables and the state, and
    whether to go on; the first failure ends the set-up. *)
Definition stage (m : comp (vars_t * sys_t * bool)) (f : vars_t -> sys_t -> comp (vars_t * sys_t * bool))
    : comp (vars_t * sys_t * bool) :=
  '(v, y, ok) ← m; if ok : bool then f v y else Done (v, y, false).

(** The streams and the table. *)
Definition acquire_shared (config : conf_t) (env : setup_env) (sockfds : list Z) (y : sys_t)
    : comp (vars_t * sys_t * bool) :=
  stage (
  stage (
  let v := mk_vars sockfds env.(en_rx_to_hd) None None None None in
  '(y, ok) ← alloc_stream_array (stream_count config) env.(en_rx_to_hd) env.(en_rx_streams) y;
  Done (v, y, ok)) (fun v y =>
  let v := mk_vars v.(v_sockfds) v.(v_rx_to_hd) env.(en_hd_to_rx) None None None in
  '(y, ok) ← alloc_stream_array (stream_count config) env.(en_hd_to_rx) env.(en_hd_streams) y;
  Done (v, y, ok))) (fun v y =>
  let v := mk_vars v.(v_sockfds) v.(v_rx_to_hd) v.(v_hd_to_rx) env.(en_table) None None in
  '(y, ok) ← alloc_table env y;
  Done (v, y, ok)).

(** The configurations of the threads. *)
Definition acquire_cfgs (config : conf_t) (env : setup_env) (v : vars_t) (y : sys_t) : comp (vars_t * sys_t * bool) :=
  stage (
  let v := mk_vars v.(v_sockfds) v.(v_rx_to_hd) v.(v_hd_to_rx) v.(v_clients) env.(en_rx_configs) None in
  '(y, ok) ← alloc_cfg_array (receive_num config) env.(en_rx_configs) env.(en_rx_config) y;
  Done (v, y, ok)) (fun v y =>
  let v := mk_vars v.(v_sockfds) v.(v_rx_to_hd) v.(v_hd_to_rx) v.(v_clients) v.(v_rx_configs) env.(en_hd_configs) in
  '(y, ok) ← alloc_cfg_array (handle_num config) env.(en_hd_configs) env.(en_hd_config) y;
  Done (v, y, ok)).

(** The threads, outside the sequential mode. *)
Definition acquire_threads (config : conf_t) (env : setup_env) (v : vars_t) (y : sys_t) : comp (vars_t * sys_t * bool) :=
  y ← connect_threads config v y;
  if config.(cn_sequential) then Done (v, y, true) else
  stage (
  '(y, ok) ← start_threads (receive_num config) 0 0 env.(en_rx_thread) env.(en_rx_create_fails) v.(v_rx_configs) y;
  Done (v, y, ok)) (fun v y =>
  '(y, ok) ← start_threads (handle_num config) 0 (receive_num config) env.(en_hd_thread) env.(en_hd_create_fails) v.(v_hd_configs) y;
  Done (v, y, ok)).

(** [main] up to its loop: [inl] when it has returned -1.  A failure of a
    socket returns without freeing anything; a failure of the two calls
    behind the threads frees everything and goes on. *)
Definition main_setup (config : conf_t) (env : setup_env) (y : sys_t) : comp (sys_t + vars_t * sys_t) :=
  '(sockfds, y, ok) ← open_sockets (stream_count config) 0 env.(en_sockets) env.(en_sockfds) y;
  if negb ok then Done (inl y) else
  '(v, y, ok) ← stage (stage (acquire_shared config env sockfds y) (acquire_cfgs config env)) (acquire_threads config env);
  if negb ok then y ← deallocate_everything config v env.(en_dealloc) y; Done (inl y) else
  y ← (if env.(en_stop_mutex_fails) then deallocate_everything config v env.(en_dealloc) y else Done y);
  y ← (if env.(en_stop_cond_fails) then deallocate_everything config v env.(en_dealloc) y else Done y);
  Done (inr (v, y)).

(** ** The sequential mode as a whole *)

(** The local variables of the sequential mode: the blocks [decoded] and
    [*decoded], and what the arrays on the stack hold at first. *)
Record seq_vars := mk_seq_vars {
  sv_decoded : option ptr;
  sv_packet : option ptr;
  sv_file_buffer : list Z;
  sv_out : list (list Z);
  sv_names : list (option ptr) }.

(** What the two functions of the loop see: the configuration of the
    receiver leads to its streams (those of the handler, the other way
    round), to which the results are written back. *)
Definition load_main (v : vars_t) (sv : seq_vars) (packet : ptr) (y : sys_t) : comp (wiring_t * ptr * main_st) :=
  e ← entry y v.(v_rx_configs) 0;
  match e, v.(v_clients) with
  | Some p, Some tp =>
      c ← load y.(y_cfgs) p;
      match c.(tc_wiring) with
      | None => Stuck UB
      | Some w =>
          t ← load y.(y_tables) tp;
          tx ← load y.(y_streams) w.(wi_tx);
          rx ← load y.(y_streams) w.(wi_rx);
          Done (w, tp, mk_main y.(y_heap) y.(y_arrays) t y.(y_nodes) y.(y_reqs) tx rx 0 packet false
                         sv.(sv_file_buffer) sv.(sv_out) sv.(sv_names) [] 0)
      end
  | _, _ => Stuck UB
  end.

Definition store_main (w : wiring_t) (tp : ptr) (m : main_st) (y : sys_t) : sys_t :=
  with_clients_table (<[tp := m.(m_table)]> y.(y_tables)) m.(m_arrays) m.(m_heap)
    (with_queues (<[w.(wi_rx) := m.(m_hd_to_rx)]> (<[w.(wi_tx) := m.(m_rx_to_hd)]> y.(y_streams)))
       m.(m_nodes) m.(m_reqs) y).

(** [memset(hd_iovecs, 0, sizeof(iovecs))]: [hd_iovecs] has an entry for
    each packet that can be sent, [iovecs] one for each that can be
    received; an entry is a number here. *)
Definition clear_iovecs (config : conf_t) : comp (list Z) :=
  memcpy (replicate (Z.to_nat MAX_WINDOW_SIZE + 1) 1) 0 (replicate (Z.to_nat config.(cn_window_size)) 0).

(** [main] in sequential mode, and what it returns; the signal to stop
    comes behind the last round of [envs]. *)
Definition main_sequential (config : conf_t) (rcfg : rx_cfg_t) (hcfg : hd_cfg_t) (env : setup_env) (sv : seq_vars)
    (envs : list seq_env) (y : sys_t) : comp (sys_t * Z) :=
  r ← main_setup config env y;
  match r with
  | inl y => Done (y, -1)
  | inr (v, y) =>
      _ ← stack_arrays config.(cn_window_size);
      match sv.(sv_decoded) with
      | None => Done (y, -1)
      | Some decoded =>
          let y := with_blocks ({[decoded]} ∪ y.(y_blocks)) y in
          match sv.(sv_packet) with
          | None => Done (y, -1)
          | Some packet =>
              let h := upd_packets (<[packet := zeroed_packet]>) y.(y_heap) in
              let y := with_clients_table y.(y_tables) y.(y_arrays) h y in
              _ ← clear_iovecs config;
              '(w, tp, m) ← load_main v sv packet y;
              m ← seq_loop rcfg hcfg envs m;
              let y := store_main w tp m y in
              packets ← free y.(y_heap).(h_packets) (Some m.(m_decoded));
              let y := with_clients_table y.(y_tables) y.(y_arrays) (with_packets packets y.(y_heap)) y in
              y ← free_block y (Some decoded);
              y ← deallocate_everything config v env.(en_dealloc) y;
              Done (y, 0)
          end
      end
  end.

(** ** The parallel mode, as the main thread runs it *)

(** A round: what the threads have done since the last one, which clients
    ended long ago, and the arrays the allocator has for their removal. *)
Record round_env := mk_round_env {
  ro_threads : sys_t -> sys_t;
  ro_long_ago : ptr -> bool;
  ro_removal : list (option ptr * option ptr) }.

(** The removal of clients, as in the sequential mode. *)
Definition expire_clients (tp : ptr) (r : round_env) (y : sys_t) : comp sys_t :=
  t ← load y.(y_tables) tp;
  '(h, arrays, t) ← expire r.(ro_long_ago) r.(ro_removal) y.(y_heap) y.(y_arrays) t;
  Done (with_clients_table (<[tp := t]> y.(y_tables)) arrays h y).

(** The loop; the signal to stop comes behind the last of the rounds.  The
    threads run while main sleeps. *)
Fixpoint parallel_loop (rounds : list round_env) (clients : option ptr) (y : sys_t) : comp sys_t :=
  match rounds with
  | [] => Done y
  | r :: rounds =>
      match clients with
      | None => Stuck UB
      | Some tp => y ← expire_clients tp r (r.(ro_threads) y); parallel_loop rounds clients y
      end
  end.

Definition main_parallel (config : conf_t) (env : setup_env) (rounds : list round_env) (y : sys_t) : comp (sys_t * Z) :=
  r ← main_setup config env y;
  match r with
  | inl y => Done (y, -1)
  | inr (v, y) =>
      y ← parallel_loop rounds v.(v_clients) y;
      y ← deallocate_everything config v env.(en_dealloc) y;
      Done (y, 0)
  end.

(** ** The signal *)

(** [handle_stop]: the state is [global_stop] and whether [stop_mutex] is
    held; [None] when the program exits at once. *)
Definition handle_stop (s : bool * bool) : comp (option (bool * bool)) :=
  let (global_stop, held) := s in
  if global_stop then Done None else
  held ← mutex_lock held;
  held ← mutex_unlock held;
  Done (Some (true, held)).

(** The test at the head of the loops of [main]; the signal arrives before
    ([0]), while the mutex is held ([1]), behind the test ([2]), or not at
    all.  The result is whether the loop ends, and the new state. *)
Definition poll_stop (signal : option nat) (s : bool * bool) : comp (option (bool * (bool * bool))) :=
  let interrupt (n : nat) (s : bool * bool) : comp (option (bool * bool)) :=
    if decide (signal = Some n) then handle_stop s else Done (Some s) in
  s ← interrupt 0%nat s;
  match s with None => Done None | Some (global_stop, held) =>
  held ← mutex_lock held;
  s ← interrupt 1%nat (global_stop, held);
  match s with None => Done None | Some (global_stop, held) =>
  held ← mutex_unlock held;
  let leave := global_stop in
  s ← interrupt 2%nat (global_stop, held);
  match s with None => Done None | Some s => Done (Some (leave, s)) end
  end end.
