(* ===== verification/Expire.v ===== *)
(** * Expire: the removal of clients whose transfer is over

    [expire] of Main walks over the table of clients, collects those that
    are due and removes and frees them one by one, each removal building the
    table anew.  Proved here: on a table whose clients own disjoint blocks
    it removes exactly the clients that are due, gives back exactly what
    they own, and leaves the others as they were. *)

From S2P Require Import Prelude Global Memory Packet Buffer Client ClientOwn Stream HashTable Handler Receiver Main.

(** ** Registered clients *)

Definition has_address (h : heap_t) (p : ptr) (k : key) : Prop :=
  exists c a ad, h.(h_clients) !! p = Some c /\ c.(c_address) = Some a /\ h.(h_addrs) !! a = Some ad /\
    k = (ad.(sin6_port), ad.(sin6_addr)).

Abbreviation clients_of m := (map_img (SA := gset ptr) (m : gmap key ptr)).

(** Each client of the table owns its blocks and is entered under its own
    address. *)
Record registered (h : heap_t) (m : gmap key ptr) (k : ptr -> blocks) : Prop := {
  rg_owned : owned h (clients_of m) k;
  rg_address key p : m !! key = Some p -> has_address h p key }.

(** A client is due when it is not active and its end is long ago. *)
Definition due (h : heap_t) (long_ago : ptr -> bool) (p : ptr) : bool :=
  match h.(h_clients) !! p with
  | Some c => match c.(c_end_time) with Some e => negb c.(c_active) && long_ago e | None => false end
  | None => false
  end.

(** What the allocator has for [ht_remove]: two arrays each time, all of
    them different and not in use. *)
Definition removal_envs (qs : list (ptr * ptr)) : list (option ptr * option ptr) :=
  map (fun q => (Some q.1, Some q.2)) qs.
Fixpoint arrays_free (arrays : arrays_t) (qs : list (ptr * ptr)) : Prop :=
  match qs with
  | [] => True
  | (q1, q2) :: qs =>
      arrays !! q1 = None /\ arrays !! q2 = None /\ q1 <> q2 /\
      Forall (fun r => r.1 <> q1 /\ r.1 <> q2 /\ r.2 <> q1 /\ r.2 <> q2) qs /\ arrays_free arrays qs
  end.

(** The entries that are kept when the clients [ps] are removed. *)
Definition without (ps : list ptr) (m : gmap key ptr) : gmap key ptr := filter (fun e => e.2 ∉ ps) m.

(** ** Lemmas *)

Lemma has_address_inj h p k1 k2 : has_address h p k1 -> has_address h p k2 -> k1 = k2.
Proof. intros (c & a & ad & H1 & H2 & H3 & ->) (c' & a' & ad' & H1' & H2' & H3' & ->). congruence. Qed.

Lemma registered_inj h m k k1 k2 p :
  registered h m k -> m !! k1 = Some p -> m !! k2 = Some p -> k1 = k2.
Proof. intros [_ Ha] H1 H2. by eapply has_address_inj; apply Ha. Qed.

Lemma registered_subset h m m' k : registered h m k -> m' ⊆ m -> registered h m' k.
Proof.
  intros [Ho Ha] Hs. split.
  - eapply owned_subset; [exact Ho|]. by apply map_subseteq_img.
  - intros key p Hp. apply Ha. by eapply lookup_weaken.
Qed.

Lemma clients_of_delete m key p k h :
  registered h m k -> m !! key = Some p -> clients_of (delete key m) = clients_of m ∖ {[p]}.
Proof.
  intros Hr Hp. apply set_eq. intros q. rw elem_of_difference !elem_of_map_img elem_of_singleton. split.
  - intros (key' & [Hne Hq]%lookup_delete_Some). split; [by exists key'|]. intros ->.
    by apply Hne, (registered_inj h m k key key' p).
  - intros ((key' & Hq) & Hne). exists key'. apply lookup_delete_Some. split; [|done]. congruence.
Qed.

Lemma has_address_erase h p q key k :
  owns h p (k p) -> owns h q (k q) -> apart (k q) (k p) -> has_address h p key ->
  has_address (erase (k q) h) p key.
Proof.
  intros Hp Hq Hap (c & a & ad & Hc & Ha & Had & ->). pose proof (owns_erase h p (k p) (k q) Hp Hap) as He.
  destruct He as (c' & Hc' & _ & _ & (a' & v' & Ha' & Hv' & _) & _).
  cbn [erase h_clients h_addrs] in *.
  assert (c' = c) as -> by (apply remove_all_Some in Hc'; congruence).
  assert (a' = a) as -> by congruence. exists c, a, ad. split_and!; try done.
  cbn [erase h_addrs]. rw Hv'. apply remove_all_Some in Hv'. congruence.
Qed.

(** Freeing one client and taking it out of the table. *)
Lemma registered_remove h m k key p :
  registered h m k -> m !! key = Some p -> registered (erase (k p) h) (delete key m) k.
Proof.
  intros Hr Hp. pose proof Hr as [Ho Ha]. split.
  - rw (clients_of_delete m key p k h) //. apply owned_erase; [done|]. by eapply elem_of_map_img_2.
  - intros key' q [Hne Hq]%lookup_delete_Some.
    assert (p ∈ clients_of m) as Hpin by by eapply elem_of_map_img_2.
    assert (q ∈ clients_of m) as Hqin by by eapply elem_of_map_img_2.
    apply has_address_erase; [by apply Ho|by apply Ho| |by apply Ha].
    apply (od_apart _ _ _ Ho); [done..|]. intros ->. by apply Hne, (registered_inj h m k key key' q).
Qed.

Lemma arrays_free_frame arrays arrays' qs q1 q2 :
  (forall q, arrays !! q = None -> q <> q1 -> q <> q2 -> arrays' !! q = None) ->
  Forall (fun r => r.1 <> q1 /\ r.1 <> q2 /\ r.2 <> q1 /\ r.2 <> q2) qs ->
  arrays_free arrays qs -> arrays_free arrays' qs.
Proof.
  intros Hf. induction qs as [|[r1 r2] qs IH]; [done|]. cbn.
  intros [(? & ? & ? & ?) Hall]%Forall_cons (? & ? & ? & ? & ?). split_and!; auto.
Qed.

Lemma without_delete m p ps key h k :
  registered h m k -> m !! key = Some p -> without ps (delete key m) = without (p :: ps) m.
Proof.
  intros Hr Hp. apply map_eq. intros key'. apply option_eq. intros q.
  rw /without !map_lookup_filter_Some lookup_delete_Some. cbn. rw not_elem_of_cons. split.
  - intros [[Hne Hq] Hq']. split; [done|]. split; [|done]. intros ->.
    by apply Hne, (registered_inj h m k key key' p).
  - intros [Hq [Hne Hq']]. split; [|done]. split; [|done]. congruence.
Qed.

Lemma remove_clients_ok ps qs h arrays t m k :
  NoDup ps -> (forall p, p ∈ ps -> p ∈ clients_of m) -> (length ps <= length qs)%nat ->
  registered h m k -> (forall key p, m !! key = Some p -> key_ok key) ->
  ht_rep arrays t m -> Z.of_nat (base.size m) <= 2 ^ 15 -> arrays_free arrays qs ->
  exists arrays' t', remove_clients ps (removal_envs qs) h arrays t = Done (erase_all k ps h, arrays', t') /\
    ht_rep arrays' t' (without ps m) /\ base.size arrays' = base.size arrays /\
    registered (erase_all k ps h) (without ps m) k.
Proof.
  revert qs h arrays t m. induction ps as [|p ps IH] => qs h arrays t m Hnd Hin Hqs Hr Hk Hrep Hsz Hfree.
  { exists arrays, t. rw /without map_filter_id; [done|]. intros ???. apply not_elem_of_nil. }
  destruct qs as [|[q1 q2] qs]; [simpl in Hqs; lia|]. destruct Hfree as (Hq1 & Hq2 & Hne & Hothers & Hfree).
  apply NoDup_cons in Hnd as [Hp Hnd].
  destruct (elem_of_map_img_1 _ _ (Hin p (list_elem_of_here _ _))) as [[port ip] Hm].
  destruct (rg_address _ _ _ Hr _ _ Hm) as (c & a & ad & Hc & Ha & Had & [= -> ->]).
  cbn [remove_clients removal_envs map fst snd].
  rw (load_Some _ _ _ Hc). unbind. rw Ha. unbind. rw (load_Some _ _ _ Had). unbind.
  destruct (ht_remove_ok h arrays t m _ _ q1 q2 Hrep (Hk _ _ Hm) Hsz Hq1 Hq2 Hne)
    as (arrays1 & t1 & Hrun & Hrep1 & Hsize1 & Hfr1).
  rw Hrun. unbind. rw (deallocate_owned h p (k p)).
  2:{ apply (rg_owned _ _ _ Hr). by eapply elem_of_map_img_2. }
  unbind. change (map _ qs) with (removal_envs qs).
  destruct (IH qs (erase (k p) h) arrays1 t1 (delete (ad.(sin6_port), ad.(sin6_addr)) m))
    as (arrays' & t' & Hrun' & Hrep' & Hsize' & Hr').
  - done.
  - intros q Hq. rw (clients_of_delete m _ p k h) //. apply elem_of_difference.
    split; [by apply Hin, list_elem_of_further|]. rw elem_of_singleton. intros ->. contradiction.
  - simpl in Hqs. lia.
  - by apply registered_remove.
  - intros key q [_ Hq]%lookup_delete_Some. by eapply Hk.
  - done.
  - pose proof (map_subseteq_size _ _ (delete_subseteq m (ad.(sin6_port), ad.(sin6_addr)))). lia.
  - by eapply arrays_free_frame.
  - rewrite -> (without_delete m p ps _ h k Hr Hm) in *. exists arrays', t'. rw Hrun' Hsize' Hsize1. done.
Qed.

(** ** The clients that are due *)

(** Those at the places from [i] on. *)
Fixpoint due_from (h : heap_t) (long_ago : ptr -> bool) (items : list item_t) : list ptr :=
  match items with
  | [] => []
  | it :: items =>
      (match it.(i_value) with Some p => if due h long_ago p then [p] else [] | None => [] end)
      ++ due_from h long_ago items
  end.

Lemma due_clients_ok n i h long_ago items :
  (n + i = length items)%nat ->
  (forall j it, items !! j = Some it -> it.(i_used) = bool_decide (is_Some it.(i_value))) ->
  (forall j it p, items !! j = Some it -> it.(i_value) = Some p -> is_Some (h.(h_clients) !! p)) ->
  due_clients n i h.(h_clients) long_ago items = Done (due_from h long_ago (drop i items)).
Proof.
  revert i. induction n as [|n IH]; intros i Hn Hu Hc.
  { rw drop_ge; [done|lia]. }
  cbn [due_clients]. destruct (rd_lt items i) as (it & Hrd & Hit); [lia|]. rw Hrd. unbind.
  rw (drop_S _ _ _ Hit) (Hu i it Hit). cbn [due_from].
  destruct (it.(i_value)) as [p|] eqn:Ev; cbn [bool_decide decide is_Some].
  - rw bool_decide_true; [|by exists p]. destruct (Hc i it p Hit Ev) as [c Hcp].
    rw (load_Some _ _ _ Hcp). unbind. rw (IH (S i)); [|lia|done|done]. unbind.
    rw /due Hcp. destruct (c_end_time c) as [e|]; done.
  - rw bool_decide_false; [|by intros []]. unbind. rw (IH (S i)); [done|lia|done|done].
Qed.

Lemma elem_of_due_from h long_ago items p :
  p ∈ due_from h long_ago items <->
  due h long_ago p = true /\ exists j it, items !! j = Some it /\ it.(i_value) = Some p.
Proof.
  induction items as [|it items IH]; cbn [due_from].
  { split; [by intros ?%not_elem_of_nil|]. intros (_ & j & it & Hj & _). done. }
  rw elem_of_app IH. split.
  - intros [Hp|(Hd & j & it' & Hj & Hv)]; [|split; [done|]; by exists (S j), it'].
    destruct (it.(i_value)) as [q|] eqn:Ev; [|by apply not_elem_of_nil in Hp].
    destruct (due h long_ago q) eqn:Eq; [|by apply not_elem_of_nil in Hp].
    apply list_elem_of_singleton in Hp as ->. split; [done|]. by exists 0%nat, it.
  - intros (Hd & [|j] & it' & Hj & Hv); [left|right; split; [done|]; by exists j, it'].
    cbn in Hj. injection Hj as ->. rw Hv Hd. apply list_elem_of_here.
Qed.

(** Items with different values have a list of values without duplicates. *)
Lemma NoDup_omap_lookup (items : list item_t) :
  (forall i j it it' p, items !! i = Some it -> items !! j = Some it' ->
     it.(i_value) = Some p -> it'.(i_value) = Some p -> i = j) ->
  NoDup (omap i_value items).
Proof.
  induction items as [|it items IH]; intros Hinj; cbn; [constructor|].
  assert (NoDup (omap i_value items)) as Hnd.
  { apply IH. intros i j ???????. by apply (eq_add_S i j), (Hinj (S i) (S j) it0 it' p). }
  destruct (it.(i_value)) as [p|] eqn:Ev; [|done]. apply NoDup_cons. split; [|done].
  intros (it' & [j Hj]%list_elem_of_lookup & Hv)%list_elem_of_omap.
  by specialize (Hinj 0%nat (S j) it it' p eq_refl Hj Ev Hv).
Qed.

Lemma due_from_NoDup h long_ago items :
  (forall i j it it' p, items !! i = Some it -> items !! j = Some it' ->
     it.(i_value) = Some p -> it'.(i_value) = Some p -> i = j) ->
  NoDup (due_from h long_ago items).
Proof.
  induction items as [|it items IH]; intros Hinj; cbn [due_from]; [constructor|].
  assert (NoDup (due_from h long_ago items)) as Hnd.
  { apply IH. intros i j ???????. by apply (eq_add_S i j), (Hinj (S i) (S j) it0 it' p). }
  apply NoDup_app. split_and!; [|intros q Hq Hin|done].
  - destruct (it.(i_value)); [|constructor]. case_match; [apply NoDup_singleton|constructor].
  - apply elem_of_due_from in Hin as (_ & j & it' & Hj & Hv).
    destruct (it.(i_value)) as [p|] eqn:Ev; [|by apply not_elem_of_nil in Hq].
    case_match; [|by apply not_elem_of_nil in Hq]. apply list_elem_of_singleton in Hq as ->.
    by specialize (Hinj 0%nat (S j) it it' p eq_refl Hj Ev Hv).
Qed.

(** ** The end of the table *)

Lemma owned_NoDup_erase h ps p k :
  owned h (list_to_set (p :: ps)) k -> p ∉ ps -> owned (erase (k p) h) (list_to_set ps) k.
Proof.
  intros Ho Hp. eapply owned_subset; [apply (owned_erase h (list_to_set (p :: ps)) k p); [done|set_solver]|].
  intros q Hq. set_solver.
Qed.

Lemma dealloc_values_ok n i h items k :
  (n + i = length items)%nat -> NoDup (omap i_value (drop i items)) ->
  owned h (list_to_set (omap i_value (drop i items))) k ->
  dealloc_values n i h items = Done (erase_all k (omap i_value (drop i items)) h).
Proof.
  revert i h. induction n as [|n IH]; intros i h Hn.
  { rw drop_ge //. lia. }
  destruct (rd_lt items i) as (it & Hrd & Hit); [lia|]. cbn [dealloc_values]. rw Hrd. unbind.
  rw (drop_S _ _ _ Hit). cbn [omap list_omap]. destruct (it.(i_value)) as [p|] eqn:Ev.
  - intros [Hp Hnd]%NoDup_cons Ho. rw (deallocate_owned h p (k p)); [|apply (od_owns _ _ _ Ho); set_solver].
    unbind. apply IH; [lia|done|]. by apply owned_NoDup_erase.
  - unbind. intros Hnd Ho. apply IH; [lia|done..].
Qed.

(** The table and all its clients are freed. *)
Lemma dealloc_ht_ok h arrays t m k :
  ht_rep arrays t m -> registered h m k ->
  exists ps a t', dealloc_ht h arrays (Some t) = Done (erase_all k ps h, delete a arrays, Some t', None) /\
    t.(ht_items) = Some a /\ (forall p, p ∈ clients_of m -> p ∈ ps).
Proof.
  intros [Hl (a & items & Ha & Hi & Hok) _ _ _] Hr. destruct Hok as [Hik [Hs Hlen] _ _].
  assert (forall p, p ∈ omap i_value items <-> p ∈ clients_of m) as Hps.
  { intros p. rw elem_of_map_img list_elem_of_omap. split.
    - intros (it & [j Hj]%list_elem_of_lookup & Hv). exists (item_key it). apply (ik_map _ _ Hik). by exists j, it.
    - intros (key & (j & it & Hj & _ & Hv)%(ik_map _ _ Hik)). exists it. split; [by eapply list_elem_of_lookup_2|done]. }
  assert (NoDup (omap i_value items)) as Hnd.
  { apply (NoDup_omap_lookup items). intros i j it it' p Hit Hit' Hv Hv'.
    apply (ik_unique _ _ Hik i j it it' Hit Hit').
    - eapply used_value; [by apply (ik_shape _ _ Hik i it Hit)|exact Hv].
    - eapply used_value; [by apply (ik_shape _ _ Hik j it' Hit')|exact Hv'].
    - eapply (registered_inj h m k); [done|apply (ik_map _ _ Hik); by exists i, it|
        apply (ik_map _ _ Hik); by exists j, it']. }
  exists (omap i_value items), a. rw /dealloc_ht /lock_table Hl. cbn [mbind comp_bind mutex_lock].
  cbn [ht_size ht_items with_lock]. rw Ha /dealloc_items (load_Some _ _ _ Hi). unbind.
  rw (dealloc_values_ok _ 0 h items k); [|lia|done|].
  2:{ eapply owned_subset; [apply (rg_owned _ _ _ Hr)|]. rw drop_0. intros p Hp%elem_of_list_to_set. by apply Hps. }
  unbind. rw (free_Some _ _ _ Hi). unbind. cbn [unlock_table ht_lock with_lock mutex_unlock]. unbind.
  rw drop_0. eexists. split; [reflexivity|]. split; [done|]. intros p. apply Hps.
Qed.

(** ** Properties *)

Lemma table_keys arrays t m key p : ht_rep arrays t m -> m !! key = Some p -> key_ok key.
Proof.
  intros [_ (a & items & _ & _ & [[Hs _ Hm] _ _ _]) _ _ _] Hp.
  apply Hm in Hp as (i & it & Hi & <- & _). by apply Hs in Hi as [_ ?].
Qed.

Lemma NoDup_length_le (ps : list ptr) (X : gset ptr) :
  NoDup ps -> (forall p, p ∈ ps -> p ∈ X) -> (length ps <= base.size X)%nat.
Proof.
  intros Hnd Hin. rw -(size_list_to_set (C := gset ptr) ps) //.
  apply subseteq_size. intros p Hp%elem_of_list_to_set. by apply Hin.
Qed.

(** Nobody is due: nothing changes. *)
Lemma expire_nobody long_ago envs h arrays t m :
  ht_rep arrays t m -> (forall key p, m !! key = Some p -> is_Some (h.(h_clients) !! p) /\ due h long_ago p = false) ->
  expire long_ago envs h arrays t = Done (h, arrays, t).
Proof.
  intros Hrep Hno. pose proof Hrep as [Hl (a & items & Ha & Hi & Hok) _ _ _]. destruct Hok as [Hik [Hs Hlen] _ _].
  rw /expire /lock_table Hl. cbn [mbind comp_bind mutex_lock]. rw /load_items. cbn [ht_items with_lock].
  rw Ha (load_Some _ _ _ Hi). unbind. cbn [ht_size with_lock].
  assert (forall j it p, items !! j = Some it -> it.(i_value) = Some p -> m !! item_key it = Some p) as Hm.
  { intros j it p Hj Hv. apply (ik_map _ _ Hik). by exists j, it. }
  rw (due_clients_ok (Z.to_nat t.(ht_size)) 0 h long_ago items);
    [|lia|intros j it Hj; by apply (ik_shape _ _ Hik j it Hj)|intros j it p Hj Hv; by eapply Hno, Hm].
  unbind. rw drop_0. cbn [unlock_table ht_lock with_lock mutex_unlock]. unbind.
  destruct (due_from h long_ago items) as [|p ps] eqn:E.
  - unbind. by destruct t; cbn in *; rw Hl.
  - assert (p ∈ due_from h long_ago items) as Hp by (rw E; apply list_elem_of_here).
    apply elem_of_due_from in Hp as (Hd & j & it & Hj & Hv). destruct (Hno _ _ (Hm j it p Hj Hv)). congruence.
Qed.

Lemma expire_ok long_ago qs h arrays t m k :
  ht_rep arrays t m -> registered h m k -> Z.of_nat (base.size m) <= 2 ^ 15 ->
  (base.size (clients_of m) <= length qs)%nat -> arrays_free arrays qs ->
  exists ps arrays' t', expire long_ago (removal_envs qs) h arrays t = Done (erase_all k ps h, arrays', t') /\
    NoDup ps /\ (forall p, p ∈ ps <-> p ∈ clients_of m /\ due h long_ago p = true) /\
    ht_rep arrays' t' (filter (fun e => due h long_ago e.2 = false) m) /\
    registered (erase_all k ps h) (filter (fun e => due h long_ago e.2 = false) m) k /\
    base.size arrays' = base.size arrays.
Proof.
  intros Hrep Hr Hsz Hqs Hfree. pose proof Hrep as [Hl (a & items & Ha & Hi & Hok) _ _ _].
  destruct Hok as [Hik [Hs Hlen] _ _].
  rw /expire /lock_table Hl. cbn [mbind comp_bind mutex_lock]. rw /load_items. cbn [ht_items with_lock].
  rw Ha (load_Some _ _ _ Hi). unbind. cbn [ht_size with_lock].
  assert (forall j it p, items !! j = Some it -> it.(i_value) = Some p -> m !! item_key it = Some p) as Hm.
  { intros j it p Hj Hv. apply (ik_map _ _ Hik). by exists j, it. }
  rw (due_clients_ok (Z.to_nat t.(ht_size)) 0 h long_ago items);
    [|lia|intros j it Hj; by apply (ik_shape _ _ Hik j it Hj)|].
  2:{ intros j it p Hj Hv. eapply owned_client; [apply (rg_owned _ _ _ Hr)|].
      by eapply elem_of_map_img_2, Hm. }
  unbind. rw drop_0. cbn [unlock_table ht_lock with_lock mutex_unlock]. unbind.
  set (ps := due_from h long_ago items).
  assert (forall p, p ∈ ps <-> p ∈ clients_of m /\ due h long_ago p = true) as Hps.
  { intros p. rw elem_of_due_from elem_of_map_img. split.
    - intros (Hd & j & it & Hj & Hv). split; [|done]. exists (item_key it). by eapply Hm.
    - intros ((key & Hp) & Hd). split; [done|]. apply (ik_map _ _ Hik) in Hp as (j & it & Hj & _ & Hv).
      by exists j, it. }
  assert (NoDup ps) as Hnd.
  { apply due_from_NoDup. intros i j it it' p Hit Hit' Hv Hv'.
    apply (ik_unique _ _ Hik i j it it' Hit Hit').
    - eapply used_value; [by apply (ik_shape _ _ Hik i it Hit)|exact Hv].
    - eapply used_value; [by apply (ik_shape _ _ Hik j it' Hit')|exact Hv'].
    - eapply (registered_inj h m k); [done|by eapply Hm|by eapply Hm]. }
  assert (with_lock false (with_lock true t) = t) as -> by (destruct t; cbn in *; by rw Hl).
  destruct (remove_clients_ok ps qs h arrays t m k) as (arrays' & t' & Hrun & Hrep' & Hsize & Hr'); try done.
  - intros p Hp. by apply Hps.
  - etrans; [|exact Hqs]. apply NoDup_length_le; [done|]. intros p Hp. by apply Hps.
  - intros key p Hp. by eapply table_keys.
  - assert (without ps m = filter (fun e => due h long_ago e.2 = false) m) as E.
    { apply map_filter_ext. intros key p Hp. cbn. rw Hps not_and_r. split.
      - intros [Hno|Hd]; [by exfalso; eapply Hno, elem_of_map_img_2|by apply not_true_iff_false].
      - intros Hd. right. by apply not_true_iff_false. }
    rewrite -> E in *. by exists ps, arrays', t'.
Qed.

(** C8: the removal of clients.  With up to 32768 clients, and memory for the
    two arrays each removal may ask for (without it a removal loses the
    other clients: ht_remove_no_memory), it ends, without an invalid
    access, and removes from the table exactly the clients that are not active and ended
    long ago; it gives back what each of them owns, nothing else and nothing
    twice, leaks no array of the table, and leaves the clients that stay
    registered with what they own. *)
Theorem expire_removes_due long_ago qs h arrays t m k :
  ht_rep arrays t m -> registered h m k -> Z.of_nat (base.size m) <= 2 ^ 15 ->
  (base.size (clients_of m) <= length qs)%nat -> arrays_free arrays qs ->
  exists ps arrays' t', expire long_ago (removal_envs qs) h arrays t = Done (erase_all k ps h, arrays', t') /\
    NoDup ps /\ (forall p, p ∈ ps <-> p ∈ clients_of m /\ due h long_ago p = true) /\
    ht_rep arrays' t' (filter (fun e => due h long_ago e.2 = false) m) /\
    registered (erase_all k ps h) (filter (fun e => due h long_ago e.2 = false) m) k /\
    base.size arrays' = base.size arrays.
Proof. apply expire_ok. Qed.

(** Two clients, of ports 0 and 1: the first has ended, the second is active. *)
Definition test_client (active : bool) (p : ptr) (end_time : option ptr) : client_t :=
  mk_client active (Some p) (Some p) (Some p) 28 (Some p) 1 0 end_time 0.
Definition test_heap : heap_t :=
  mk_heap {[1%positive := test_client false 1%positive (Some 1%positive); 2%positive := test_client true 2%positive None]}
    {[1%positive := false; 2%positive := false]}
    {[1%positive := mk_addr 0 test_ip; 2%positive := mk_addr 1 test_ip]}
    {[1%positive := mk_file false 3 [7; 8; 9]; 2%positive := mk_file true 0 []]}
    {[1%positive := mk_buf 1 0 [mk_node (Some 11%positive) false];
      2%positive := mk_buf 0 0 [mk_node (Some 12%positive) false]]}
    {[11%positive := zeroed_packet; 12%positive := zeroed_packet]} {[1%positive := ()]}.
Definition test_blocks (p : ptr) : blocks :=
  if decide (p = 1%positive)
  then mk_blocks [1%positive] [1%positive] [1%positive] [] [1%positive] [11%positive] [1%positive]
  else mk_blocks [2%positive] [2%positive] [2%positive] [2%positive] [2%positive] [12%positive] [].

Lemma apart_one (p q : ptr) : p <> q -> [p] ## [q].
Proof. intros Hne x ->%list_elem_of_singleton ?%list_elem_of_singleton. contradiction. Qed.
Lemma apart_nil (l : list ptr) : [] ## l.
Proof. by intros x ?%not_elem_of_nil. Qed.
Lemma apart_sym (k l : blocks) : apart k l -> apart l k.
Proof. intros [H1 H2 H3 H4 H5 H6 H7]. split; intros x Hx Hy; eauto. Qed.

Lemma test_apart : apart (test_blocks 1%positive) (test_blocks 2%positive).
Proof.
  split; [apply apart_one; discriminate..|apply apart_nil|apply apart_one; discriminate|
    apply apart_one; discriminate|intros x _ Hx; by apply not_elem_of_nil in Hx].
Qed.

Lemma test_registered : registered test_heap (ports 2) test_blocks.
Proof.
  assert (clients_of (ports 2) = {[1%positive; 2%positive]}) as E by (vm_compute; reflexivity).
  split; [split|].
  - rw E. intros p. rw elem_of_union !elem_of_singleton. intros [->| ->].
    + exists (test_client false 1%positive (Some 1%positive)). do 2 (split; [reflexivity|]).
      split; [exists 1%positive, false; by split_and!|].
      split; [exists 1%positive, (mk_addr 0 test_ip); by split_and!|]. split; [reflexivity|].
      split; [|split; [exists (); reflexivity|reflexivity]].
      exists (mk_buf 1 0 [mk_node (Some 11%positive) false]). do 3 (split; [reflexivity|]).
      split; [apply NoDup_singleton|]. apply Forall_singleton. exists zeroed_packet. reflexivity.
    + exists (test_client true 2%positive None). do 2 (split; [reflexivity|]).
      split; [exists 2%positive, false; by split_and!|].
      split; [exists 2%positive, (mk_addr 1 test_ip); by split_and!|].
      split; [exists (mk_file true 0 []); by split_and!|]. split; [|reflexivity].
      exists (mk_buf 0 0 [mk_node (Some 12%positive) false]). do 3 (split; [reflexivity|]).
      split; [apply NoDup_singleton|]. apply Forall_singleton. exists zeroed_packet. reflexivity.
  - rw E. intros p q. rw !elem_of_union !elem_of_singleton.
    intros [->| ->] [->| ->] Hne; try contradiction; [|apply apart_sym]; exact test_apart.
  - intros key p. rw /ports. cbn. rw lookup_insert_Some.
    intros [[<- <-]|[_ [[<- <-]|[_ Hn]]%lookup_insert_Some]]; [..|done].
    + exists (test_client true 2%positive None), 2%positive, (mk_addr 1 test_ip).
      repeat split; reflexivity.
    + exists (test_client false 1%positive (Some 1%positive)), 1%positive, (mk_addr 0 test_ip).
      repeat split; reflexivity.
Qed.

Lemma expire_removes_due_witness :
  exists arrays t, put_ports 2 = Done (arrays, t) /\
  exists ps arrays' t',
    expire (fun _ => true) (removal_envs [(200%positive, 201%positive); (202%positive, 203%positive)])
      test_heap arrays t = Done (erase_all test_blocks ps test_heap, arrays', t') /\
    NoDup ps /\ (forall p, p ∈ ps <-> p ∈ clients_of (ports 2) /\ due test_heap (fun _ => true) p = true) /\
    ht_rep arrays' t' (filter (fun e => due test_heap (fun _ => true) e.2 = false) (ports 2)) /\
    registered (erase_all test_blocks ps test_heap)
      (filter (fun e => due test_heap (fun _ => true) e.2 = false) (ports 2)) test_blocks /\
    base.size arrays' = base.size arrays.
Proof.
  destruct (put_ports_rep 2) as (arrays & t & Hrun & Hrep & Hfree); [cbn; lia|].
  exists arrays, t. split; [exact Hrun|].
  apply (expire_removes_due (fun _ => true) [(200%positive, 201%positive); (202%positive, 203%positive)]
    test_heap arrays t (ports 2) test_blocks Hrep test_registered);
    [vm_compute; discriminate|vm_compute; lia|].
  cbn. split_and!; try done; try (apply Hfree; lia).
  apply Forall_singleton. cbn. done.
Defined.
