(* ===== verification/MainThm.v ===== *)
(** * MainThm: the components put together

    The streams [main] sets up fit the threads that use them; a round of
    the sequential mode takes a transfer on. *)

From stdpp Require Import strings.
From S2P Require Import Prelude Global Cli Memory Packet Buffer Stream Client HashTable Protocol Handler Receiver HandlerSpec HandlerThm HandlerLoop ReceiverThm Main Expire.

(** ** A request in the handler keeps its kind *)



(** ** The handler neither adds nor removes clients *)





(** ** The datagrams of a request *)



(** ** A sender and the handler *)



Section sender.
Context (data : nat -> list Z) (N : nat) (hcfg : hd_cfg_t) (p : ptr) (address : option ptr).
Context (Hdata : forall n, (n < N)%nat -> data n <> []) (Heof : data N = []).









(** ** A round of the sequential mode *)








End sender.

(** ** Streams and threads *)

Lemma mapM_Done {A B} (f : A -> comp B) (P : A -> B -> Prop) l :
  Forall (fun x => exists y, f x = Done y /\ P x y) l -> exists ys, mapM f l = Done ys /\ Forall2 P l ys.
Proof.
  induction 1 as [|x l (y & Hf & HP) _ (ys & Hl & H2)]; [by exists []|].
  exists (y :: ys). split; [|by constructor]. cbn [mapM]. rw Hf. unbind. by rw Hl.
Qed.

(** Every thread has one of the streams. *)
Definition streams_ok (num count : Z) (streams : list Z) : Prop :=
  length streams = Z.to_nat num /\ Forall (fun s => 0 <= s < count) streams.

Lemma configure_ok config alloc_r alloc_h file calloc_h calloc_r su :
  0 <= config.(cf_receive_num) -> 0 <= config.(cf_handle_num) ->
  configure config alloc_r alloc_h file calloc_h calloc_r = Done (Some su) ->
  0 < su.(su_stream_count) /\ streams_ok su.(su_receive_num) su.(su_stream_count) su.(su_receive_streams) /\
  streams_ok su.(su_handle_num) su.(su_stream_count) su.(su_handle_streams).
Proof.
  intros Hr Hh. rw /configure. intros (r & Hp & H)%bind_Done.
  destruct r as [[[rs hs] count]|].
  - injection H as <-. destruct config.(cf_sequential); [done|].
    apply parse_streams_file_ok in Hp as (Hl1 & Hl2 & Hc & H1 & H2); [|done..]. cbn.
    split; [lia|]. split; (split; [lia|done]).
  - destruct (_ && _); [done|]. injection H as <-. cbn. split; [lia|].
    split; (split; [by rw length_replicate|apply Forall_replicate; lia]).
Qed.

Lemma affinity_of_total affinities i (num : nat) :
  (i < num)%nat -> (forall l, affinities = Some l -> length l = num) ->
  exists a, affinity_of affinities i = Done a /\ (forall l, affinities = Some l -> l !! i = a).
Proof.
  intros Hi Hl. destruct affinities as [l|]; [|by exists None].
  destruct (rd_lt l i) as (v & Hr & Hv); [rw (Hl l) //|]. exists (Some v). cbn. rw Hr. unbind.
  split; [done|]. by intros l' [= <-].
Qed.

(** The thread [i] has the stream [s], whose ends are in [from] and [to]. *)
Definition wired (streams : list Z) (sockfds : list Z) (from to : list ptr) (affinities : option (list Z)) (i : nat)
    (w : wiring_t) : Prop :=
  exists s, streams !! i = Some s /\ w.(wi_id) = i /\ sockfds !! Z.to_nat s = Some w.(wi_sockfd) /\
    from !! Z.to_nat s = Some w.(wi_rx) /\ to !! Z.to_nat s = Some w.(wi_tx) /\
    forall l, affinities = Some l -> l !! i = w.(wi_affinity).

Lemma wire_one streams count num sockfds from to affinities i :
  streams_ok num count streams -> length sockfds = Z.to_nat count -> length from = Z.to_nat count ->
  length to = Z.to_nat count -> (i < Z.to_nat num)%nat ->
  (forall l, affinities = Some l -> length l = Z.to_nat num) ->
  exists s fd rx tx a, rd streams i = Done s /\ rd sockfds (Z.to_nat s) = Done fd /\
    rd from (Z.to_nat s) = Done rx /\ rd to (Z.to_nat s) = Done tx /\ affinity_of affinities i = Done a /\
    wired streams sockfds from to affinities i (mk_wiring i fd rx tx a).
Proof.
  intros [Hl Hs] H1 H2 H3 Hi Ha. destruct (rd_lt streams i) as (s & Hrs & Hv); [by rw Hl|].
  pose proof (Forall_lookup_1 _ _ _ _ Hs Hv) as Hrange. cbn in Hrange.
  destruct (rd_lt sockfds (Z.to_nat s)) as (fd & Hfd & Hfd'); [lia|].
  destruct (rd_lt from (Z.to_nat s)) as (rx & Hrx & Hrx'); [lia|].
  destruct (rd_lt to (Z.to_nat s)) as (tx & Htx & Htx'); [lia|].
  destruct (affinity_of_total affinities i _ Hi Ha) as (a & Hra & Ha').
  exists s, fd, rx, tx, a. do 5 (split; [done|]). by exists s.
Qed.

Lemma wire_threads_ok su sockfds rx_to_hd hd_to_rx ra ha :
  streams_ok su.(su_receive_num) su.(su_stream_count) su.(su_receive_streams) ->
  streams_ok su.(su_handle_num) su.(su_stream_count) su.(su_handle_streams) ->
  length sockfds = Z.to_nat su.(su_stream_count) -> length rx_to_hd = Z.to_nat su.(su_stream_count) ->
  length hd_to_rx = Z.to_nat su.(su_stream_count) ->
  (forall l, ra = Some l -> length l = Z.to_nat su.(su_receive_num)) ->
  (forall l, ha = Some l -> length l = Z.to_nat su.(su_handle_num)) ->
  exists rs hs, wire_threads su sockfds rx_to_hd hd_to_rx ra ha = Done (rs, hs) /\
    Forall2 (wired su.(su_receive_streams) sockfds hd_to_rx rx_to_hd ra) (seq 0 (Z.to_nat su.(su_receive_num))) rs /\
    Forall2 (wired su.(su_handle_streams) sockfds rx_to_hd hd_to_rx ha) (seq 0 (Z.to_nat su.(su_handle_num))) hs.
Proof.
  intros Hrs Hhs H1 H2 H3 Hra Hha.
  destruct (mapM_Done (wire_receiver su sockfds rx_to_hd hd_to_rx ra)
    (wired su.(su_receive_streams) sockfds hd_to_rx rx_to_hd ra) (seq 0 (Z.to_nat su.(su_receive_num)))) as (rs & Hrun1 & Hw1).
  { apply Forall_forall. intros i Hi%elem_of_seq.
    destruct (wire_one _ _ _ sockfds hd_to_rx rx_to_hd ra i Hrs H1 H3 H2 ltac:(lia) Hra)
      as (s & fd & rx & tx & a & E1 & E2 & E3 & E4 & E5 & Hw).
    eexists. split; [|exact Hw]. rw /wire_receiver E1 /= E2 /= E3 /= E4 /= E5 //. }
  destruct (mapM_Done (wire_handler su sockfds rx_to_hd hd_to_rx ha)
    (wired su.(su_handle_streams) sockfds rx_to_hd hd_to_rx ha) (seq 0 (Z.to_nat su.(su_handle_num)))) as (hs & Hrun2 & Hw2).
  { apply Forall_forall. intros i Hi%elem_of_seq.
    destruct (wire_one _ _ _ sockfds rx_to_hd hd_to_rx ha i Hhs H1 H2 H3 ltac:(lia) Hha)
      as (s & fd & rx & tx & a & E1 & E2 & E3 & E4 & E5 & Hw).
    eexists. split; [|exact Hw]. rw /wire_handler E1 /= E2 /= E3 /= E4 /= E5 //. }
  exists rs, hs. split; [rw /wire_threads Hrun1 /= Hrun2 //|done].
Qed.

(** ** Properties *)




(** ** A concrete round *)




Lemma data_wire_size n : (length (data_wire n) <= 528)%nat.
Proof. destruct n as [|[|n]]; vm_compute; lia. Qed.









(** C33: the streams [main] sets up fit the threads.  Whatever the options
    and the stream file, once the configuration succeeds there is a stream,
    and with as many sockets and streams as configured the loops that fill
    the threads' configurations stay within all arrays: every thread has
    the socket, the two streams and the CPU of its entry, and a receiver
    and a handler of one stream are connected: each gives to the stream the
    other takes from. *)
Theorem wire_threads_connect config alloc_r alloc_h file calloc_h calloc_r su sockfds rx_to_hd hd_to_rx ra ha :
  0 <= config.(cf_receive_num) -> 0 <= config.(cf_handle_num) ->
  configure config alloc_r alloc_h file calloc_h calloc_r = Done (Some su) ->
  length sockfds = Z.to_nat su.(su_stream_count) -> length rx_to_hd = Z.to_nat su.(su_stream_count) ->
  length hd_to_rx = Z.to_nat su.(su_stream_count) ->
  (forall l, ra = Some l -> length l = Z.to_nat su.(su_receive_num)) ->
  (forall l, ha = Some l -> length l = Z.to_nat su.(su_handle_num)) ->
  0 < su.(su_stream_count) /\
  exists rs hs, wire_threads su sockfds rx_to_hd hd_to_rx ra ha = Done (rs, hs) /\
    Forall2 (wired su.(su_receive_streams) sockfds hd_to_rx rx_to_hd ra) (seq 0 (Z.to_nat su.(su_receive_num))) rs /\
    Forall2 (wired su.(su_handle_streams) sockfds rx_to_hd hd_to_rx ha) (seq 0 (Z.to_nat su.(su_handle_num))) hs /\
    (forall r h s, r ∈ rs -> h ∈ hs -> su.(su_receive_streams) !! r.(wi_id) = Some s ->
       su.(su_handle_streams) !! h.(wi_id) = Some s ->
       r.(wi_tx) = h.(wi_rx) /\ r.(wi_rx) = h.(wi_tx) /\ r.(wi_sockfd) = h.(wi_sockfd)).
Proof.
  intros Hr Hh Hconf H1 H2 H3 Hra Hha.
  destruct (configure_ok _ _ _ _ _ _ _ Hr Hh Hconf) as (Hc & Hrs & Hhs). split; [done|].
  destruct (wire_threads_ok su sockfds rx_to_hd hd_to_rx ra ha Hrs Hhs H1 H2 H3 Hra Hha)
    as (rs & hs & Hrun & Hw1 & Hw2).
  exists rs, hs. split; [exact Hrun|]. split; [done|]. split; [done|].
  intros r h s [i Hir]%list_elem_of_lookup [j Hjh]%list_elem_of_lookup Hsr Hsh.
  destruct (Forall2_lookup_r _ _ _ _ _ Hw1 Hir) as (i' & _ & s1 & E1 & <- & E2 & E3 & E4 & _).
  destruct (Forall2_lookup_r _ _ _ _ _ Hw2 Hjh) as (j' & _ & s2 & F1 & <- & F2 & F3 & F4 & _).
  assert (s1 = s) as -> by congruence. assert (s2 = s) as -> by congruence. split_and!; congruence.
Qed.

(** Two receivers and three handlers on two streams. *)
Lemma wire_threads_connect_witness :
  0 < 2 /\
  exists rs hs, wire_threads (mk_setup 2 3 [0; 1] [0; 1; 0] 2) [7; 8] [10; 11]%positive [20; 21]%positive
      (Some [0; 1]) None = Done (rs, hs) /\
    Forall2 (wired [0; 1] [7; 8] [20; 21]%positive [10; 11]%positive (Some [0; 1])) (seq 0 2) rs /\
    Forall2 (wired [0; 1; 0] [7; 8] [10; 11]%positive [20; 21]%positive None) (seq 0 3) hs /\
    (forall r h s, r ∈ rs -> h ∈ hs -> [0; 1] !! r.(wi_id) = Some s -> [0; 1; 0] !! h.(wi_id) = Some s ->
       r.(wi_tx) = h.(wi_rx) /\ r.(wi_rx) = h.(wi_tx) /\ r.(wi_sockfd) = h.(wi_sockfd)).
Proof.
  apply (wire_threads_connect (mk_config false (lit "%d"%string) 2 false 100 4464 3 2 7 31) true true
    (Some (lit "0:0,2"%string ++ [newline] ++ lit "1:1"%string)) true true (mk_setup 2 3 [0; 1] [0; 1; 0] 2)
    [7; 8] [10; 11]%positive [20; 21]%positive (Some [0; 1]) None);
    [cbn; lia|cbn; lia|reflexivity|reflexivity|reflexivity|reflexivity|by intros l [= <-]|done].
Defined.
