(* ===== verification/SetupThm.v ===== *)
(** * SetupThm: what main acquires, it frees

    [deallocate_everything] frees, without an invalid access, all that a
    state of the program holds whose queues, clients and threads are
    accounted for ([deallocate_everything_ok]), and whose threads end when
    they are told to ([joins_ok], [told_to_stop]).  The set-up leads to such
    states (MainRun), and MainEnd draws the conclusions about main. *)

From S2P Require Import Prelude Global Cli Memory Packet Buffer Stream Client ClientOwn HashTable Handler Receiver Main Expire Setup.

(** ** Queues *)

(** The streams [ps] hold the queues [qs]; every node is in one of them,
    every request in one node. *)
Record queues_ok (ps : list ptr) (streams : gmap ptr stream_t) (nodes : nodes_t) (reqs : gmap ptr hd_req_t)
    (qs : list (list ptr)) : Prop := {
  qk_streams : dom streams = list_to_set ps;
  qk_queues : Forall2 (fun p q => exists st, streams !! p = Some st /\ st.(st_waiting) = 0 /\ stream_rep nodes st q) ps qs;
  qk_once : NoDup (concat qs);
  qk_nodes : dom nodes = list_to_set (concat qs);
  qk_contents : NoDup (omap (content_of nodes) (concat qs));
  qk_reqs : dom reqs = list_to_set (omap (content_of nodes) (concat qs)) }.

Lemma queues_frame (streams streams' : gmap ptr stream_t) nodes nodes' ps qs :
  (forall p, p ∈ ps -> streams' !! p = streams !! p) ->
  (forall r, r ∈ concat qs -> nodes' !! r = nodes !! r) ->
  Forall2 (fun p q => exists st, streams !! p = Some st /\ st.(st_waiting) = 0 /\ stream_rep nodes st q) ps qs ->
  Forall2 (fun p q => exists st, streams' !! p = Some st /\ st.(st_waiting) = 0 /\ stream_rep nodes' st q) ps qs.
Proof.
  intros Hs Hn H. induction H as [|p q ps qs (st & Hst & Hw & Hrep) _ IH]; constructor.
  - exists st. rw Hs; [|apply list_elem_of_here]. split_and!; [done..|].
    eapply stream_rep_frame; [|exact Hrep]. intros r Hr. apply Hn. cbn. apply elem_of_app. by left.
  - apply IH; intros r Hr; [apply Hs; by apply list_elem_of_further|].
    apply Hn. cbn. apply elem_of_app. by right.
Qed.

(** The first stream is emptied and freed. *)
Lemma queues_free p ps streams nodes reqs q qs :
  NoDup (p :: ps) -> queues_ok (p :: ps) streams nodes reqs (q :: qs) ->
  exists st nodes' reqs' st', streams !! p = Some st /\
    dealloc_stream nodes reqs (Some st) = Done (nodes', reqs', Some st') /\
    queues_ok ps (delete p streams) nodes' reqs' qs.
Proof.
  intros [Hp Hps]%NoDup_cons [Hs Hq Hnd Hn Hc Hr].
  apply Forall2_cons in Hq as [(st & Hst & Hw & Hrep) Hq].
  cbn [concat] in *. rewrite -> omap_app in Hc, Hr.
  apply NoDup_app in Hnd as (_ & Hdis & Hnd). apply NoDup_app in Hc as (Hc1 & Hcd & Hc2).
  destruct (dealloc_stream_ok nodes reqs st q Hrep Hw Hc1) as (nodes' & reqs' & st' & Hrun & _ & Hd & Hdr & Hfr).
  { intros c Hcin. rw Hr. set_solver. }
  exists st, nodes', reqs', st'. split_and!; [done..|].
  assert (omap (content_of nodes') (concat qs) = omap (content_of nodes) (concat qs)) as E.
  { apply omap_ext_in. intros r Hr'. rw /content_of Hfr //. intros Hin. by apply (Hdis r). }
  split.
  - rw dom_delete_L Hs. cbn. set_solver.
  - eapply queues_frame; [| |exact Hq].
    + intros r Hr'. apply lookup_delete_ne. intros ->. contradiction.
    + intros r Hr'. apply Hfr. intros Hin. by apply (Hdis r).
  - done.
  - rw Hd Hn. set_solver.
  - by rw E.
  - rw Hdr Hr E. set_solver.
Qed.

Lemma entry_Some y a l i e : y.(y_ptrs) !! a = Some l -> l !! i = Some e -> entry y (Some a) i = Done e.
Proof. intros Ha Hi. rw /entry (load_Some _ _ _ Ha). unbind. by rw rd_Done. Qed.

Lemma with_queues_eq s n r s' n' r' y : with_queues s n r (with_queues s' n' r' y) = with_queues s n r y.
Proof. done. Qed.

(** The loop over an array of streams; [rest] are the streams elsewhere. *)
Lemma free_streams_ok a l ps j rest y qs qrest :
  y.(y_ptrs) !! a = Some l -> drop j l = map Some ps -> length qs = length ps -> NoDup (ps ++ rest) ->
  queues_ok (ps ++ rest) y.(y_streams) y.(y_nodes) y.(y_reqs) (qs ++ qrest) ->
  exists streams nodes reqs, free_streams (length ps) j (Some a) y = Done (with_queues streams nodes reqs y) /\
    queues_ok rest streams nodes reqs qrest.
Proof.
  revert j y qs. induction ps as [|p ps IH] => j y [|q qs] Ha Hl Hlen Hnd Hok; try done.
  { exists y.(y_streams), y.(y_nodes), y.(y_reqs). split; [by destruct y|done]. }
  assert (l !! j = Some (Some p)) as Hj by (rw -(Nat.add_0_r j) -lookup_drop Hl //).
  cbn [length free_streams]. rw (entry_Some _ _ _ _ _ Ha Hj). unbind.
  destruct (queues_free p (ps ++ rest) _ _ _ q (qs ++ qrest) Hnd Hok) as (st & nodes & reqs & st' & Hst & Hrun & Hok').
  rw (load_Some _ _ _ Hst). unbind. rw Hrun. unbind. rw (free_Some _ _ _ Hst). unbind.
  destruct (IH (S j) (with_queues (delete p y.(y_streams)) nodes reqs y) qs) as (s2 & n2 & r2 & Hrun2 & Hok2);
    [done| |by injection Hlen| |exact Hok'|].
  - rewrite -> (drop_S _ _ _ Hj) in Hl. by injection Hl.
  - by apply NoDup_cons in Hnd as [_ Hnd].
  - exists s2, n2, r2. by rw Hrun2.
Qed.

(** ** Stop requests *)

(** A stop request gets both of its blocks or none. *)
Definition stop_block (e : stop_env) : option ptr :=
  match e.(sp_node) with Some _ => e.(sp_content) | None => None end.

Record stops_ok (rounds : list (stop_env * nat)) (nodes : nodes_t) (reqs : gmap ptr hd_req_t) : Prop := {
  so_both e j : (e, j) ∈ rounds -> e.(sp_node) <> None -> e.(sp_content) <> None;
  so_nodes : NoDup (omap (fun r => r.1.(sp_node)) rounds) /\
    forall n, n ∈ omap (fun r => r.1.(sp_node)) rounds -> nodes !! n = None;
  so_contents : NoDup (omap (fun r => stop_block r.1) rounds) /\
    forall c, c ∈ omap (fun r => stop_block r.1) rounds -> reqs !! c = None }.

(** A node put at the end of one of several queues. *)
Lemma concat_snoc_perm (qs : list (list ptr)) j q n :
  qs !! j = Some q -> concat (<[j := q ++ [n]]> qs) ≡ₚ n :: concat qs.
Proof.
  revert j. induction qs as [|q0 qs IH]; intros [|j] Hj; try done; cbn in *.
  - injection Hj as ->. rw -app_assoc. cbn. by rw -Permutation_middle.
  - rw (IH j Hj). by rw -Permutation_middle.
Qed.

Lemma elem_of_concat_lookup (qs : list (list ptr)) j q n : qs !! j = Some q -> n ∈ q -> n ∈ concat qs.
Proof.
  revert j. induction qs as [|q0 qs IH]; intros [|j] Hj Hn; try done; cbn in *; apply elem_of_app.
  - injection Hj as ->. by left.
  - right. by eapply IH.
Qed.

Lemma concat_disjoint (qs : list (list ptr)) i j q r p :
  NoDup (concat qs) -> qs !! i = Some q -> qs !! j = Some r -> p ∈ q -> p ∈ r -> i = j.
Proof.
  revert i j. induction qs as [|q0 qs IH]; intros i j Hnd; [done|]. cbn in Hnd.
  apply NoDup_app in Hnd as (_ & Hdis & Hnd). destruct i as [|i], j as [|j]; cbn; try done.
  - intros [= ->] Hr Hp Hp'. exfalso. eapply Hdis; [exact Hp|]. by eapply elem_of_concat_lookup.
  - intros Hq [= ->] Hp Hp'. exfalso. eapply Hdis; [exact Hp'|]. by eapply elem_of_concat_lookup.
  - intros. f_equal. by eapply IH.
Qed.

(** The other queues after a change of the nodes of queue [j] only. *)
Lemma queues_insert (streams streams' : gmap ptr stream_t) (nodes nodes' : nodes_t) ps qs j s st q :
  NoDup ps -> ps !! j = Some s ->
  (forall p, p <> s -> streams' !! p = streams !! p) ->
  (forall i r p, i <> j -> qs !! i = Some r -> p ∈ r -> nodes' !! p = nodes !! p) ->
  streams' !! s = Some st -> st.(st_waiting) = 0 -> stream_rep nodes' st q ->
  Forall2 (fun p q => exists st, streams !! p = Some st /\ st.(st_waiting) = 0 /\ stream_rep nodes st q) ps qs ->
  Forall2 (fun p q => exists st, streams' !! p = Some st /\ st.(st_waiting) = 0 /\ stream_rep nodes' st q) ps (<[j := q]> qs).
Proof.
  intros Hps Hj Hs Hn Hst Hw Hrep H. apply Forall2_same_length_lookup_2.
  { by rw length_insert -(Forall2_length _ _ _ H). }
  intros i p q' Hp Hq'. destruct (decide (i = j)) as [->|Hne].
  - assert (p = s) as -> by congruence.
    rewrite -> list_lookup_insert_eq in Hq'; [|rw -(Forall2_length _ _ _ H); by eapply lookup_lt_Some].
    injection Hq' as <-. by exists st.
  - rewrite -> list_lookup_insert_ne in Hq' by done.
    destruct (Forall2_lookup_lr _ _ _ _ _ _ H Hp Hq') as (st' & Hst' & Hw' & Hrep').
    exists st'. rw Hs.
    + split_and!; [done..|]. eapply stream_rep_frame; [|exact Hrep']. intros r Hr. by apply (Hn i q').
    + intros ->. by apply Hne, (NoDup_lookup ps i j s).
Qed.

Lemma content_of_insert (nodes : nodes_t) n c l (q : list ptr) :
  n ∉ q -> omap (content_of (<[n := mk_snode c l]> nodes)) q = omap (content_of nodes) q.
Proof.
  intros Hn. apply omap_ext_in. intros r Hr. rw /content_of lookup_insert_ne //. by intros ->.
Qed.

(** One more node, in the queue of stream [j]. *)
Lemma queues_enqueue ps streams nodes reqs qs j s n c r :
  queues_ok ps streams nodes reqs qs -> NoDup ps -> ps !! j = Some s -> nodes !! n = None -> reqs !! c = None ->
  exists st nodes' st', streams !! s = Some st /\
    stream_enqueue (<[n := mk_snode (Some c) Poison]> nodes) st (Some n) = Done (nodes', st', true) /\
    (exists q, qs !! j = Some q /\ queues_ok ps (<[s := st']> streams) nodes' (<[c := r]> reqs) (<[j := q ++ [n]]> qs)) /\
    (forall q, nodes !! q = None -> q <> n -> nodes' !! q = None) /\
    content_of nodes' n = Some c /\ (forall q, q <> n -> content_of nodes' q = content_of nodes q).
Proof.
  intros [Hs Hq Hnd Hn Hc Hr] Hps Hj Hfn Hfc.
  assert (n ∉ concat qs) as Hnin.
  { intros H. assert (n ∈ dom nodes) as [? ?]%elem_of_dom by (rw Hn; set_solver). congruence. }
  destruct (Forall2_lookup_l _ _ _ _ _ Hq Hj) as (q & Hqj & st & Hst & Hw & Hrep).
  assert (n ∉ q) as Hnq by (intros H; by eapply Hnin, elem_of_concat_lookup).
  set (nodes1 := <[n := mk_snode (Some c) Poison]> nodes).
  assert (stream_rep nodes1 st q) as Hrep1.
  { eapply stream_rep_frame; [|exact Hrep]. intros p Hp. apply lookup_insert_ne. by intros ->. }
  destruct (enqueue_rep nodes1 st q n _ Hrep1 Hnq (lookup_insert_eq _ _ _))
    as (nodes' & st' & Hrun & Hrep' & Hk & _ & Hwt & Hfr).
  exists st, nodes', st'. split; [done|]. split; [done|].
  assert (forall p, p ∉ q -> p <> n -> nodes' !! p = nodes !! p) as Hout.
  { intros p Hp Hne. rw Hfr; [apply lookup_insert_ne; congruence|].
    rw elem_of_app list_elem_of_singleton. by intros [?|?]. }
  assert (forall p, content_of nodes' p = content_of nodes1 p) as Hcont by (intros p; by apply content_of_eq).
  assert (omap (content_of nodes') (concat (<[j := q ++ [n]]> qs)) ≡ₚ c :: omap (content_of nodes) (concat qs)) as Hom.
  { rw (concat_snoc_perm qs j q n Hqj). cbn. rw Hcont {1}/content_of lookup_insert_eq /=.
    rw (omap_ext_in _ (content_of nodes1)) //. rw content_of_insert //. }
  assert (c ∉ omap (content_of nodes) (concat qs)) as Hcnew.
  { intros H. assert (c ∈ dom reqs) as [? ?]%elem_of_dom by (rw Hr; set_solver). congruence. }
  split; [|split; [|split]].
  - exists q. split; [done|]. split.
    + rw dom_insert_lookup_L //.
    + eapply (queues_insert streams _ nodes _ ps qs j s st' (q ++ [n])); try done.
      * intros p Hp. by apply lookup_insert_ne.
      * intros i r' p Hij Hi Hp. apply Hout.
        -- intros Hpq. by apply Hij, (concat_disjoint qs i j r' q p).
        -- intros ->. by eapply Hnin, elem_of_concat_lookup.
      * apply lookup_insert_eq.
      * by rw Hwt.
    + rw (concat_snoc_perm qs j q n Hqj). by apply NoDup_cons.
    + rw (content_dom _ _ Hk) /nodes1 dom_insert_L Hn. apply set_eq. intros x.
      rw elem_of_list_to_set (concat_snoc_perm qs j q n Hqj). set_solver.
    + rw Hom. by apply NoDup_cons.
    + rw dom_insert_L Hr. apply set_eq. intros x. rw elem_of_list_to_set Hom. set_solver.
  - intros p Hp Hne. rw Hout //. intros Hpq.
    assert (p ∈ dom nodes) as [? ?]%elem_of_dom; [|congruence].
    rw Hn elem_of_list_to_set. by eapply elem_of_concat_lookup.
  - by rw Hcont /content_of /nodes1 lookup_insert_eq.
  - intros p Hne. by rw Hcont /content_of /nodes1 lookup_insert_ne.
Qed.

(** The request a node holds, and the stop requests for stream [j]. *)
Definition req_of (nodes : nodes_t) (reqs : gmap ptr hd_req_t) (n : ptr) : option hd_req_t :=
  c ← content_of nodes n; reqs !! c.
Definition stop_req : hd_req_t :=
  mk_req true new_request.(r_client) new_request.(r_num) new_request.(r_lengths) new_request.(r_buffer).
Definition sent_to (rounds : list (stop_env * nat)) (j : nat) : list ptr :=
  omap (fun r => if decide (r.2 = j) then r.1.(sp_node) else None) rounds.

Lemma send_stop_ok a ps rest y qs e j n c :
  y.(y_ptrs) !! a = Some (map Some ps) -> (j < length ps)%nat -> NoDup (ps ++ rest) ->
  queues_ok (ps ++ rest) y.(y_streams) y.(y_nodes) y.(y_reqs) qs ->
  e.(sp_node) = Some n -> e.(sp_content) = Some c -> y.(y_nodes) !! n = None -> y.(y_reqs) !! c = None ->
  exists streams nodes reqs q, send_stop e (Some a) j y = Done (with_queues streams nodes reqs y) /\
    qs !! j = Some q /\ queues_ok (ps ++ rest) streams nodes reqs (<[j := q ++ [n]]> qs) /\
    (forall q, y.(y_nodes) !! q = None -> q <> n -> nodes !! q = None) /\
    (forall q, y.(y_reqs) !! q = None -> q <> c -> reqs !! q = None) /\
    req_of nodes reqs n = Some stop_req /\
    (forall x r, req_of y.(y_nodes) y.(y_reqs) x = Some r -> req_of nodes reqs x = Some r).
Proof.
  intros Ha Hj Hnd Hok Hn Hc Hfn Hfc.
  destruct (lookup_lt_is_Some_2 ps j Hj) as [s Hs].
  destruct (queues_enqueue _ _ _ _ _ j s n c stop_req Hok Hnd)
    as (st & nodes' & st' & Hst & Hrun & (q & Hq & Hok') & Hfr & Hcn & Hco);
    [by apply lookup_app_l_Some|done..|].
  rw /send_stop Hn Hc. cbn [malloc]. rw initialize_node_ok. unbind.
  rw (load_Some _ _ _ (lookup_insert_eq _ _ _)). unbind. cbn [sn_content].
  rw (load_Some _ _ _ (lookup_insert_eq _ _ _)). unbind.
  rw (entry_Some _ a (map Some ps) j (Some s)); [|done|by rw list_lookup_fmap Hs]. unbind.
  cbn [y_streams with_queues]. rw (load_Some _ _ _ Hst). unbind. rw Hrun. unbind.
  rw insert_insert_eq. do 4 eexists. split; [reflexivity|]. split; [exact Hq|]. split; [exact Hok'|].
  split; [exact Hfr|]. split; [intros p Hp Hne; by rw lookup_insert_ne|]. split.
  - rw /req_of Hcn. cbn. apply lookup_insert_eq.
  - intros x r (d & Hd & Hr)%bind_Some. rw /req_of Hco.
    + rw Hd. cbn. rw lookup_insert_ne //. congruence.
    + intros ->. unfold content_of in Hd. by rewrite -> Hfn in Hd.
Qed.

Lemma stops_ok_tail e j rounds nodes reqs nodes' reqs' :
  stops_ok ((e, j) :: rounds) nodes reqs ->
  (forall q, nodes !! q = None -> e.(sp_node) <> Some q -> nodes' !! q = None) ->
  (forall q, reqs !! q = None -> stop_block e <> Some q -> reqs' !! q = None) ->
  stops_ok rounds nodes' reqs'.
Proof.
  intros [Hb [Hn Hnf] [Hc Hcf]] Hn' Hc'. cbn in *. split.
  - intros e' j' Hin. apply (Hb e' j'). by apply list_elem_of_further.
  - destruct (sp_node e) as [n|] eqn:E; [apply NoDup_cons in Hn as [Hnin Hn]|]; (split; [done|]).
    + intros q Hq. apply Hn'; [by apply Hnf, list_elem_of_further|]. intros [= ->]. contradiction.
    + intros q Hq. apply Hn'; [by apply Hnf|done].
  - destruct (stop_block e) as [c|] eqn:E; [apply NoDup_cons in Hc as [Hcin Hc]|]; (split; [done|]).
    + intros q Hq. apply Hc'; [by apply Hcf, list_elem_of_further|]. intros [= ->]. contradiction.
    + intros q Hq. apply Hc'; [by apply Hcf|done].
Qed.

Lemma send_stops_ok a ps rest rounds y qs :
  y.(y_ptrs) !! a = Some (map Some ps) -> Forall (fun r => (r.2 < length ps)%nat) rounds -> NoDup (ps ++ rest) ->
  queues_ok (ps ++ rest) y.(y_streams) y.(y_nodes) y.(y_reqs) qs -> stops_ok rounds y.(y_nodes) y.(y_reqs) ->
  exists streams nodes reqs qs', send_stops rounds (Some a) y = Done (with_queues streams nodes reqs y) /\
    queues_ok (ps ++ rest) streams nodes reqs qs' /\
    (forall i, qs' !! i = (fun q => q ++ sent_to rounds i) <$> qs !! i) /\
    (forall e i n, (e, i) ∈ rounds -> e.(sp_node) = Some n -> req_of nodes reqs n = Some stop_req) /\
    (forall x r, req_of y.(y_nodes) y.(y_reqs) x = Some r -> req_of nodes reqs x = Some r).
Proof.
  intros Ha Hj Hnd. revert y qs Ha. induction Hj as [|[e j] rounds Hj _ IH] => y qs Ha Hok Hs.
  { exists y.(y_streams), y.(y_nodes), y.(y_reqs), qs. split; [by destruct y|]. split; [done|].
    split; [|split; [by intros ??? ?%not_elem_of_nil|done]]. intros i. destruct (qs !! i); [|done]. cbn. by rw app_nil_r. }
  cbn [send_stops]. pose proof Hs as [Hb [_ Hn] [_ Hc]]. cbn in Hn, Hc.
  destruct (sp_node e) as [n|] eqn:En.
  - destruct (sp_content e) as [c|] eqn:Ec; [|by destruct (Hb e j (list_elem_of_here _ _)); congruence].
    assert (stop_block e = Some c) as Eb by by rw /stop_block En.
    rewrite -> Eb in Hc.
    destruct (send_stop_ok a ps rest y qs e j n c) as (s1 & n1 & r1 & q & Hrun & Hq & Hok1 & Hfn & Hfr & Hst & Hkeep); try done.
    { apply Hn, list_elem_of_here. }
    { apply Hc, list_elem_of_here. }
    rw Hrun. unbind.
    destruct (IH (with_queues s1 n1 r1 y) (<[j := q ++ [n]]> qs)) as (s2 & n2 & r2 & qs2 & Hrun2 & Hok2 & Hq2 & Hst2 & Hkeep2);
      [done|done| |].
    { eapply stops_ok_tail; [exact Hs| |]; cbn; intros p Hp; [rw En|rw Eb]; intros Hne;
        [apply Hfn|apply Hfr]; congruence. }
    exists s2, n2, r2, qs2. rw Hrun2. split; [done|]. split; [done|]. split; [|split].
    + intros i. rw Hq2 /sent_to. cbn. destruct (decide (j = i)) as [<-|Hne].
      * rw En list_lookup_insert_eq; [|by eapply lookup_lt_Some]. rw Hq. cbn. by rw -app_assoc.
      * by rw list_lookup_insert_ne.
    + intros e' i n' [[= -> ->]|Hin]%elem_of_cons Hn'; [|by eapply Hst2]. assert (n' = n) as -> by congruence. by apply Hkeep2.
    + intros x r Hx. by apply Hkeep2, Hkeep.
  - rw {1}/send_stop En. unbind.
    destruct (IH y qs Ha Hok) as (s2 & n2 & r2 & qs2 & Hrun2 & Hok2 & Hq2 & Hst2 & Hkeep2).
    { eapply stops_ok_tail; [exact Hs|done..]. }
    exists s2, n2, r2, qs2. split; [done|]. split; [done|]. split; [|split; [|done]].
    + intros i. rw Hq2 /sent_to. cbn. rw En. by destruct (decide (j = i)).
    + intros e' i n' [[= -> ->]|Hin]%elem_of_cons Hn'; [congruence|by eapply Hst2].
Qed.

(** ** Threads *)

(** The configurations [ps] are those there are; each has its own thread or
    none, and every [pthread_t] belongs to one. *)
Record threads_ok (ps : list ptr) (cfgs : gmap ptr thread_cfg) (threads : gmap ptr (option nat)) : Prop := {
  th_cfgs : dom cfgs = list_to_set ps;
  th_live p c th : cfgs !! p = Some c -> c.(tc_thread) = Some th -> exists id, threads !! th = Some (Some id);
  th_own p q c d th : cfgs !! p = Some c -> cfgs !! q = Some d ->
    c.(tc_thread) = Some th -> d.(tc_thread) = Some th -> p = q;
  th_all th : th ∈ dom threads -> exists p c, cfgs !! p = Some c /\ c.(tc_thread) = Some th }.

(** What the table of clients and the queues hold, whatever threads did. *)
Definition table_ok_at (tp : ptr) (y : sys_t) : Prop :=
  exists t m k a, y.(y_tables) = {[tp := t]} /\ ht_rep y.(y_arrays) t m /\ registered y.(y_heap) m k /\
    covered y.(y_heap) (clients_of m) k /\ t.(ht_items) = Some a /\ dom y.(y_arrays) = {[a]}.
Definition shared_ok (ps : list ptr) (tp : ptr) (y : sys_t) : Prop :=
  (exists qs, queues_ok ps y.(y_streams) y.(y_nodes) y.(y_reqs) qs) /\ table_ok_at tp y.

(** The stream [s] has at least [n] stop requests in its queue. *)
Definition is_stop (y : sys_t) (p : ptr) : bool :=
  match req_of y.(y_nodes) y.(y_reqs) p with Some r => r.(r_stop) | None => false end.
Definition told_to_stop (y : sys_t) (s : ptr) (n : nat) : Prop :=
  exists st q, y.(y_streams) !! s = Some st /\ stream_rep y.(y_nodes) st q /\
    (n <= length (filter (fun p => is_stop y p = true) q))%nat.

(** While main waits the threads go on with the queues and the clients:
    they leave the rest alone, keep the queues and the table accounted for,
    and do not take the blocks of the stop requests.  The state does not show
    what only a running thread holds (the node it works on, its packet),
    which it gives back to a queue or frees before it ends. *)
Record joined_ok (ps : list ptr) (tp : ptr) (rounds : list (stop_env * nat)) (y y' : sys_t) : Prop := {
  jn_frame : y_fds y' = y_fds y /\ y_blocks y' = y_blocks y /\ y_ptrs y' = y_ptrs y /\ y_cfgs y' = y_cfgs y /\
    y_threads y' = y_threads y;
  jn_shared : shared_ok ps tp y -> shared_ok ps tp y';
  jn_stops : stops_ok rounds y.(y_nodes) y.(y_reqs) -> stops_ok rounds y'.(y_nodes) y'.(y_reqs) }.

(** Which waits end: that for a receiver that has been told to stop (it waits
    for datagrams for a limited time only), and that for a handler for whose
    stream there were, once main had sent its stop requests, as many of them
    as there are handlers ([n]): each of these takes one. *)
Record joins_ok (ps : list ptr) (tp : ptr) (rounds : list (stop_env * nat)) (n : nat) (env : dealloc_env) : Prop := {
  jo_rx id c y y' : env.(de_rx_joined) id c y = Some y' -> joined_ok ps tp rounds y y';
  jo_hd y0 id c y y' : env.(de_hd_joined) y0 id c y = Some y' -> joined_ok ps tp [] y y';
  jo_rx_ends id c y : c.(tc_stop) = true -> is_Some (env.(de_rx_joined) id c y);
  jo_hd_ends y0 id c w y : c.(tc_wiring) = Some w -> told_to_stop y0 w.(wi_rx) n -> is_Some (env.(de_hd_joined) y0 id c y) }.

Lemma threads_drop p ps cfgs threads c :
  p ∉ ps -> threads_ok (p :: ps) cfgs threads -> cfgs !! p = Some c ->
  threads_ok ps (delete p cfgs) (match c.(tc_thread) with Some th => delete th threads | None => threads end).
Proof.
  intros Hp [Hd Hl Ho Ha] Hc. split.
  - rw dom_delete_L Hd. cbn. set_solver.
  - intros q d th [Hne Hq]%lookup_delete_Some Hth. destruct (Hl q d th Hq Hth) as [id Hid].
    exists id. destruct (tc_thread c) as [th'|] eqn:E; [|done]. rw lookup_delete_ne //.
    intros ->. by apply Hne, (Ho p q c d th).
  - intros q r d e th [_ Hq]%lookup_delete_Some [_ Hr]%lookup_delete_Some. by apply Ho.
  - intros th Hth.
    assert (th ∈ dom threads) as (q & d & Hq & Hqd)%Ha by (destruct (tc_thread c); [set_solver|done]).
    exists q, d. split; [|done]. apply lookup_delete_Some. split; [|done]. intros <-.
    assert (d = c) as -> by congruence. rewrite -> Hqd in Hth.
    rewrite -> dom_delete_L, elem_of_difference, elem_of_singleton in Hth. by destruct Hth.
Qed.

(** The configuration a thread has when it is waited for. *)
Definition stopped (stop : bool) (c : thread_cfg) : thread_cfg :=
  if stop then mk_tcfg c.(tc_thread) true c.(tc_wiring) else c.

(** One round of the loop over the configurations. *)
Lemma join_thread_ok stop p ps qsx tp rounds joined y :
  NoDup (p :: ps) -> threads_ok (p :: ps) y.(y_cfgs) y.(y_threads) ->
  (forall id c y1 y2, joined id c y1 = Some y2 -> joined_ok qsx tp rounds y1 y2) ->
  (forall id c y1, y.(y_cfgs) !! p = Some c -> c.(tc_thread) <> None -> is_Some (joined id (stopped stop c) y1)) ->
  shared_ok qsx tp y -> stops_ok rounds y.(y_nodes) y.(y_reqs) ->
  exists y', join_thread stop joined p y = Done y' /\
    y_fds y' = y_fds y /\ y_blocks y' = y_blocks y /\ y_ptrs y' = y_ptrs y /\
    (forall q, q <> p -> y'.(y_cfgs) !! q = y.(y_cfgs) !! q) /\
    threads_ok ps y'.(y_cfgs) y'.(y_threads) /\ shared_ok qsx tp y' /\ stops_ok rounds y'.(y_nodes) y'.(y_reqs).
Proof.
  intros [Hp _]%NoDup_cons Hth Hj Hends Hs Hst.
  assert (p ∈ dom y.(y_cfgs)) as [c Hc]%elem_of_dom by (rw (th_cfgs _ _ _ Hth); set_solver).
  pose proof (threads_drop p ps _ _ c Hp Hth Hc) as Hth'.
  rw /join_thread (load_Some _ _ _ Hc). unbind. destruct (tc_thread c) as [th|] eqn:Et.
  - destruct (th_live _ _ _ Hth p c th Hc Et) as [id Hid]. cbn [y_threads with_cfgs]. rw (load_Some _ _ _ Hid). unbind.
    set (c1 := if stop then _ else c).
    assert (c1 = stopped stop c) as E1 by (subst c1; destruct stop; [by rw /stopped Et|done]).
    assert (c1.(tc_thread) = Some th) as Et1 by (subst c1; by destruct stop).
    clearbody c1. set (y1 := with_cfgs _ _ y).
    destruct (Hends id c y1 Hc ltac:(congruence)) as [y2 Hy2]. rewrite <- E1 in Hy2. rw Hy2.
    destruct (Hj _ _ _ _ Hy2) as [(Ef & Eb & Ep & Ec & Et') Hsh Hstp].
    rw Ec. cbn [y1 y_cfgs with_cfgs]. rw (load_Some _ _ _ (lookup_insert_eq _ _ _)). unbind. rw Et1.
    rw /free_thread Et'. cbn [y1 y_threads with_cfgs]. rw (free_Some _ _ _ Hid). unbind.
    rw /free_cfg. cbn [y_cfgs y_threads with_cfgs]. rw Ec. cbn [y1 y_cfgs with_cfgs].
    rw (free_Some _ _ _ (lookup_insert_eq _ _ _)). unbind.
    eexists. split; [reflexivity|]. cbn. rw delete_insert_eq Ef Eb Ep. split_and!; try done.
    + intros q Hq. by rw lookup_delete_ne.
    + exact (Hsh Hs).
    + exact (Hstp Hst).
  - unbind. rw /free_cfg (free_Some _ _ _ Hc). unbind. eexists. split; [reflexivity|]. split_and!; try done.
    intros q Hq. cbn. by rw lookup_delete_ne.
Qed.

(** The entries of an array that are set. *)
Abbreviation set_entries l := (omap (fun e : option ptr => e) l).

Lemma join_threads_ok stop l i a full rest qsx tp rounds joined y :
  y.(y_ptrs) !! a = Some full -> drop i full = l -> NoDup (set_entries l ++ rest) ->
  threads_ok (set_entries l ++ rest) y.(y_cfgs) y.(y_threads) ->
  (forall id c y1 y2, joined id c y1 = Some y2 -> joined_ok qsx tp rounds y1 y2) ->
  (forall p id c y1, p ∈ set_entries l -> y.(y_cfgs) !! p = Some c -> c.(tc_thread) <> None ->
     is_Some (joined id (stopped stop c) y1)) ->
  shared_ok qsx tp y -> stops_ok rounds y.(y_nodes) y.(y_reqs) ->
  exists y', join_threads stop (length l) i joined (Some a) y = Done y' /\
    y_fds y' = y_fds y /\ y_blocks y' = y_blocks y /\ y_ptrs y' = y_ptrs y /\
    (forall q, q ∉ set_entries l -> y'.(y_cfgs) !! q = y.(y_cfgs) !! q) /\
    threads_ok rest y'.(y_cfgs) y'.(y_threads) /\ shared_ok qsx tp y' /\ stops_ok rounds y'.(y_nodes) y'.(y_reqs).
Proof.
  revert i y. induction l as [|e l IH] => i y Ha Hl Hnd Hth Hj Hends Hs Hst; [by exists y|].
  assert (full !! i = Some e) as He by (rw -(Nat.add_0_r i) -lookup_drop Hl //).
  assert (drop (S i) full = l) as Hl' by (rewrite -> (drop_S _ _ _ He) in Hl; by injection Hl).
  cbn [length join_threads]. rw (entry_Some _ _ _ _ _ Ha He). unbind.
  destruct e as [p|]; cbn [omap list_omap] in *.
  - destruct (join_thread_ok stop p (set_entries l ++ rest) qsx tp rounds joined y)
      as (y1 & -> & Hf & Hb & Hp & Hout & Hth1 & Hs1 & Hst1); [done..| |done|done|].
    { intros id c y1. apply Hends, list_elem_of_here. }
    unbind. apply NoDup_cons in Hnd as [Hpn Hnd].
    destruct (IH (S i) y1) as (y2 & -> & ? & ? & ? & Hout2 & ?); try done; [by rw Hp| |].
    { intros q id c y2 Hq Hc. apply (Hends q); [by apply list_elem_of_further|]. rw -Hout //.
      intros ->. apply Hpn, elem_of_app. by left. }
    exists y2. split; [done|]. do 3 (split; [congruence|]). split; [|done].
    intros q [Hne Hq]%not_elem_of_cons. by rw Hout2 // Hout.
  - unbind. by apply IH.
Qed.

(** ** Every handler finds a stop request *)

(** The round of handler [i] sends one request to stream [j]. *)
Lemma sent_to_row env i j k s :
  sent_to (map (fun '(i, j) => (env.(de_stops) i j, j)) (map (pair i) (seq k s))) j =
    if decide (k <= j < k + s)%nat then match (env.(de_stops) i j).(sp_node) with Some n => [n] | None => [] end else [].
Proof.
  revert k. induction s as [|s IH] => k; cbn; [rw decide_False //; lia|].
  destruct (decide (k = j)) as [->|Hne].
  - rw /sent_to in IH. rw IH decide_False; [|lia]. rw decide_True; [|lia]. by destruct (sp_node _).
  - rw /sent_to in IH. rw IH. destruct (decide (S k <= j < S k + s)%nat); [rw decide_True //; lia|rw decide_False //; lia].
Qed.

Lemma sent_to_app rounds rounds' j : sent_to (rounds ++ rounds') j = sent_to rounds j ++ sent_to rounds' j.
Proof. apply omap_app. Qed.

Lemma sent_to_length env h s j :
  (j < s)%nat -> (forall i, (i < h)%nat -> (env.(de_stops) i j).(sp_node) <> None) ->
  length (sent_to (stop_rounds env h s) j) = h.
Proof.
  intros Hj. rw /stop_rounds.
  assert (forall k, (forall i, (k <= i < k + h)%nat -> (env.(de_stops) i j).(sp_node) <> None) ->
    length (sent_to (map (fun '(i, j) => (env.(de_stops) i j, j)) (list_prod (seq k h) (seq 0 s))) j) = h) as H.
  { clear -Hj. induction h as [|h IH]; intros k Hk; [done|]. cbn [seq list_prod].
    rw map_app sent_to_app length_app sent_to_row decide_True; [|lia]. destruct (sp_node (de_stops env k j)) eqn:E; [|by destruct (Hk k); [lia|]].
    cbn. f_equal. apply IH. intros i Hi. apply Hk. lia. }
  intros Hn. apply H. intros i Hi. apply Hn. lia.
Qed.

Lemma stop_rounds_range env h s : Forall (fun r => (r.2 < s)%nat) (stop_rounds env h s).
Proof.
  apply Forall_map, Forall_forall. intros [i j] Hij%list_elem_of_In%in_prod_iff. cbn.
  destruct Hij as [_ Hj%in_seq]. lia.
Qed.

(** When there is memory for the stop requests. *)
Definition stop_memory (env : dealloc_env) (h s : nat) : Prop :=
  forall i j, (i < h)%nat -> (j < s)%nat -> (env.(de_stops) i j).(sp_node) <> None.

Lemma length_filter_all {A} (P : A -> Prop) `{!forall x, Decision (P x)} l :
  Forall P l -> length (filter P l) = length l.
Proof. induction 1 as [|x l Hx _ IH]; [done|]. rw filter_cons_True //=. by rw IH. Qed.

Lemma all_told a ps rest env h y qs :
  y.(y_ptrs) !! a = Some (map Some ps) -> NoDup (ps ++ rest) ->
  queues_ok (ps ++ rest) y.(y_streams) y.(y_nodes) y.(y_reqs) qs ->
  stops_ok (stop_rounds env h (length ps)) y.(y_nodes) y.(y_reqs) ->
  exists streams nodes reqs qs', send_stops (stop_rounds env h (length ps)) (Some a) y = Done (with_queues streams nodes reqs y) /\
    queues_ok (ps ++ rest) streams nodes reqs qs' /\
    (stop_memory env h (length ps) -> forall s, s ∈ ps -> told_to_stop (with_queues streams nodes reqs y) s h).
Proof.
  intros Ha Hnd Hq Hst.
  destruct (send_stops_ok a ps rest (stop_rounds env h (length ps)) y qs Ha)
    as (streams & nodes & reqs & qs' & Hrun & Hok & Hqs & Hreq & _); [apply stop_rounds_range|done..|].
  exists streams, nodes, reqs, qs'. split; [done|]. split; [done|]. intros Hmem s [j Hj]%list_elem_of_lookup.
  pose proof (lookup_lt_Some _ _ _ Hj) as Hlt.
  destruct (Forall2_lookup_l _ _ _ _ _ (qk_queues _ _ _ _ _ Hok) (lookup_app_l_Some _ rest _ _ Hj)) as (q & Hqj & st & Hs & _ & Hrep).
  exists st, q. split; [done|]. split; [done|]. rewrite -> Hqs in Hqj. destruct (qs !! j) as [q0|]; [|done]. injection Hqj as <-.
  rw filter_app length_app (length_filter_all _ (sent_to _ j)).
  - rw sent_to_length //; [lia|]. intros i Hi. by apply Hmem.
  - apply Forall_forall. intros p ([e i] & Hin & Hp)%list_elem_of_omap. cbn in Hp. destruct (decide (i = j)) as [->|]; [|done].
    rw /is_stop. cbn [y_nodes y_reqs with_queues]. by rw (Hreq e j p).
Qed.

(** ** Sockets and blocks of the configuration *)

Lemma close_sockets_ok n i sockfds y :
  (n + i = length sockfds)%nat ->
  exists fds, close_sockets n i sockfds y = Done (with_fds fds y) /\
    forall fd, fd ∈ fds <-> fd ∈ y.(y_fds) /\ (fd = -1 \/ fd ∉ drop i sockfds).
Proof.
  revert i y. induction n as [|n IH]; intros i y Hn; cbn [close_sockets].
  { exists y.(y_fds). rw drop_ge; [split; [by destruct y|]|lia].
    intros fd. split; [intros ?; split; [done|]; right; apply not_elem_of_nil|by intros [? _]]. }
  destruct (rd_lt sockfds i) as (fd0 & Hrd & Hfd0); [lia|]. rw Hrd. unbind.
  rw (drop_S _ _ _ Hfd0). destruct (Z.eqb_spec fd0 (-1)) as [->|Hne].
  - destruct (IH (S i) y) as (fds & -> & Hfds); [lia|]. exists fds. split; [done|].
    intros fd. rw Hfds not_elem_of_cons. destruct (decide (fd = -1)); tauto.
  - destruct (IH (S i) (with_fds (y.(y_fds) ∖ {[fd0]}) y)) as (fds & -> & Hfds); [lia|].
    exists fds. split; [done|]. intros fd. rw Hfds not_elem_of_cons. cbn [y_fds with_fds].
    rw elem_of_difference elem_of_singleton. split; [naive_solver|]. intros [Hfd [->|[H1 H2]]]; naive_solver.
Qed.

Lemma free_block_ok b bs y :
  NoDup (set_entries (b :: bs)) -> y.(y_blocks) = list_to_set (set_entries (b :: bs)) ->
  free_block y b = Done (with_blocks (list_to_set (set_entries bs)) y).
Proof.
  intros Hnd Hb. destruct b as [p|]; cbn [omap list_omap] in *; [|cbn; rw -Hb; by destruct y].
  apply NoDup_cons in Hnd as [Hp _]. rw /free_block Hb decide_True; [|set_solver].
  do 2 f_equal. set_solver.
Qed.

(** ** deallocate_everything *)

(** Where the pointers of [main] lead. *)
Record layout := mk_layout {
  l_rx_to_hd : ptr; l_rx_streams : list ptr;
  l_hd_to_rx : ptr; l_hd_streams : list ptr;
  l_rx_configs : ptr; l_rx_cfgs : list (option ptr);
  l_hd_configs : option ptr; l_hd_cfgs : list (option ptr);
  l_table : ptr }.

Definition pointer_arrays (l : layout) : gmap ptr (list (option ptr)) :=
  <[l.(l_rx_configs) := l.(l_rx_cfgs)]> (
  match l.(l_hd_configs) with Some a => insert a l.(l_hd_cfgs) | None => id end (
  <[l.(l_rx_to_hd) := map Some l.(l_rx_streams)]> (<[l.(l_hd_to_rx) := map Some l.(l_hd_streams)]> ∅))).

Definition config_blocks (config : conf_t) : list (option ptr) :=
  [config.(cn_addr_info); fst <$> config.(cn_receive_affinities); fst <$> config.(cn_handle_affinities);
   config.(cn_handle_streams); config.(cn_receive_streams)].

(** The streams and the table are there, as many configurations as threads
    (null where one could not be allocated; those of the handlers may be
    missing altogether), what is acquired is what they lead to, and a
    handler that runs is connected to a stream of the receivers. *)
Record acquired (config : conf_t) (l : layout) (v : vars_t) (y : sys_t) : Prop := {
  aq_vars : exists sockfds, v = mk_vars sockfds (Some l.(l_rx_to_hd)) (Some l.(l_hd_to_rx)) (Some l.(l_table))
                      (Some l.(l_rx_configs)) l.(l_hd_configs) /\
    length sockfds = stream_count config /\
    forall fd, fd ∈ y.(y_fds) -> fd <> -1 /\ fd ∈ sockfds;
  aq_blocks : NoDup (set_entries (config_blocks config)) /\
    y.(y_blocks) = list_to_set (set_entries (config_blocks config));
  aq_lengths : length l.(l_rx_streams) = stream_count config /\ length l.(l_hd_streams) = stream_count config /\
    length l.(l_rx_cfgs) = receive_num config /\
    match l.(l_hd_configs) with Some _ => length l.(l_hd_cfgs) = handle_num config | None => l.(l_hd_cfgs) = [] end;
  aq_arrays : NoDup (l.(l_rx_configs) :: l.(l_rx_to_hd) :: l.(l_hd_to_rx) :: set_entries [l.(l_hd_configs)]) /\
    y.(y_ptrs) = pointer_arrays l;
  aq_streams : NoDup (l.(l_rx_streams) ++ l.(l_hd_streams));
  aq_cfgs : NoDup (set_entries l.(l_rx_cfgs) ++ set_entries l.(l_hd_cfgs)) /\
    threads_ok (set_entries l.(l_rx_cfgs) ++ set_entries l.(l_hd_cfgs)) y.(y_cfgs) y.(y_threads);
  aq_wired p c : p ∈ set_entries l.(l_hd_cfgs) -> y.(y_cfgs) !! p = Some c -> c.(tc_thread) <> None ->
    exists w, c.(tc_wiring) = Some w /\ w.(wi_rx) ∈ l.(l_rx_streams);
  aq_shared : shared_ok (l.(l_rx_streams) ++ l.(l_hd_streams)) l.(l_table) y }.

(** Nothing is left. *)
Record nothing_left (y : sys_t) : Prop := {
  nl_fds : y.(y_fds) = ∅;
  nl_blocks : y.(y_blocks) = ∅;
  nl_ptrs : y.(y_ptrs) = ∅;
  nl_streams : y.(y_streams) = ∅;
  nl_nodes : y.(y_nodes) = ∅;
  nl_reqs : y.(y_reqs) = ∅;
  nl_tables : y.(y_tables) = ∅;
  nl_arrays : y.(y_arrays) = ∅;
  nl_heap : heap_empty y.(y_heap);
  nl_cfgs : y.(y_cfgs) = ∅;
  nl_threads : y.(y_threads) = ∅ }.

Lemma dom_nil_empty {V} (m : gmap ptr V) : dom m = list_to_set (C := gset ptr) [] -> m = ∅.
Proof. intros H. apply dom_empty_iff_L. exact H. Qed.

Lemma threads_none cfgs threads : threads_ok [] cfgs threads -> cfgs = ∅ /\ threads = ∅.
Proof.
  intros [Hd _ _ Ha]. apply dom_nil_empty in Hd as ->. split; [done|].
  apply map_empty. intros th. apply not_elem_of_dom. intros (p & c & Hp & _)%Ha. by rewrite -> lookup_empty in Hp.
Qed.

Lemma queues_none streams nodes reqs qs : queues_ok [] streams nodes reqs qs -> streams = ∅ /\ nodes = ∅ /\ reqs = ∅.
Proof.
  intros [Hs Hq _ Hn _ Hr]. apply Forall2_nil_inv_l in Hq as ->. cbn in *.
  split_and!; by apply dom_nil_empty.
Qed.

Lemma free_table_ok tp y :
  table_ok_at tp y -> exists h, free_table (Some tp) y = Done (with_clients_table ∅ ∅ h y) /\ heap_empty h.
Proof.
  intros (t & m & k & a & Ht & Hrep & Hr & Hcov & Ha & Hd). rw /free_table Ht.
  rw (load_Some _ _ _ (lookup_insert_eq _ _ _)). unbind.
  destruct (dealloc_ht_ok _ _ _ _ _ Hrep Hr) as (ps & a' & t' & Hrun & Ha' & Hps).
  rw Hrun. unbind. rw (free_Some _ _ _ (lookup_insert_eq _ _ _)). unbind.
  exists (erase_all k ps y.(y_heap)). split; [|by eapply erase_all_covered].
  assert (a' = a) as -> by congruence. do 2 f_equal; [rw delete_insert_eq; apply delete_empty|].
  apply dom_empty_iff_L. rw dom_delete_L Hd. set_solver.
Qed.

Lemma pointer_arrays_lookup l :
  NoDup (l.(l_rx_configs) :: l.(l_rx_to_hd) :: l.(l_hd_to_rx) :: set_entries [l.(l_hd_configs)]) ->
  pointer_arrays l !! l.(l_rx_configs) = Some l.(l_rx_cfgs) /\
  delete l.(l_rx_configs) (pointer_arrays l) =
    match l.(l_hd_configs) with Some a => insert a l.(l_hd_cfgs) | None => id end
      (<[l.(l_rx_to_hd) := map Some l.(l_rx_streams)]> (<[l.(l_hd_to_rx) := map Some l.(l_hd_streams)]> ∅)).
Proof.
  intros [Hn1 [Hn2 [Hn3 _]%NoDup_cons]%NoDup_cons]%NoDup_cons. rw /pointer_arrays lookup_insert_eq.
  split; [done|]. rw delete_insert_eq delete_id //.
  destruct (l_hd_configs l) as [a|]; cbn [omap list_omap id] in *;
    rewrite -> ?lookup_insert_ne by set_solver; apply lookup_empty.
Qed.

Lemma free_config_ok config y :
  NoDup (set_entries (config_blocks config)) -> y.(y_blocks) = list_to_set (set_entries (config_blocks config)) ->
  free_config config y = Done (with_blocks ∅ y).
Proof.
  intros Hnd Hb. rw /free_config /config_blocks in Hnd Hb |- *.
  assert (forall (b : option ptr) bs, NoDup (set_entries (b :: bs)) -> NoDup (set_entries bs)) as Htl.
  { intros [p|] bs; cbn; [by intros [_ ?]%NoDup_cons|done]. }
  rewrite -> (free_block_ok _ _ _ Hnd Hb). apply Htl in Hnd. unbind.
  do 4 (rewrite -> (free_block_ok _ _ (with_blocks _ _) Hnd eq_refl); apply Htl in Hnd; unbind).
  reflexivity.
Qed.

Lemma free_handlers_ok l n ps joined y :
  match l.(l_hd_configs) with Some _ => length l.(l_hd_cfgs) = n | None => l.(l_hd_cfgs) = [] end ->
  NoDup (l.(l_rx_to_hd) :: l.(l_hd_to_rx) :: set_entries [l.(l_hd_configs)]) ->
  y.(y_ptrs) = match l.(l_hd_configs) with Some a => insert a l.(l_hd_cfgs) | None => id end
      (<[l.(l_rx_to_hd) := map Some l.(l_rx_streams)]> (<[l.(l_hd_to_rx) := map Some l.(l_hd_streams)]> ∅)) ->
  NoDup (set_entries l.(l_hd_cfgs)) -> threads_ok (set_entries l.(l_hd_cfgs)) y.(y_cfgs) y.(y_threads) ->
  (forall id c y1 y2, joined id c y1 = Some y2 -> joined_ok ps l.(l_table) [] y1 y2) ->
  (forall p id c y1, p ∈ set_entries l.(l_hd_cfgs) -> y.(y_cfgs) !! p = Some c -> c.(tc_thread) <> None ->
     is_Some (joined id c y1)) ->
  shared_ok ps l.(l_table) y ->
  exists y', free_handlers n joined l.(l_hd_configs) y = Done y' /\
    y_fds y' = y_fds y /\ y_blocks y' = y_blocks y /\
    y_ptrs y' = <[l.(l_rx_to_hd) := map Some l.(l_rx_streams)]> (<[l.(l_hd_to_rx) := map Some l.(l_hd_streams)]> ∅) /\
    y_cfgs y' = ∅ /\ y_threads y' = ∅ /\ shared_ok ps l.(l_table) y'.
Proof.
  intros Hlen Hnd Hp Hcn Hc Hj Hends Hs. destruct (l_hd_configs l) as [a|] eqn:El; cbn [free_handlers].
  - assert (stops_ok [] y.(y_nodes) y.(y_reqs)) as Hst.
    { split; [|split|split]; cbn; try apply NoDup_nil_2;
        first [by intros ?? ?%not_elem_of_nil|by intros ? ?%not_elem_of_nil]. }
    destruct (join_threads_ok false (l_hd_cfgs l) 0 a (l_hd_cfgs l) [] ps (l_table l) [] joined y)
      as (y1 & Hrun & Hf1 & Hb1 & Hp1 & _ & Hc1 & Hs1 & _); try done; rewrite -> ?app_nil_r; try done.
    { rw Hp. apply lookup_insert_eq. }
    rw -Hlen Hrun. unbind. rw /free_array Hp1 Hp (free_Some _ _ _ (lookup_insert_eq _ _ _)). unbind.
    apply threads_none in Hc1 as [Ec Et]. eexists. split; [reflexivity|]. cbn [y_fds y_blocks y_ptrs y_cfgs y_threads with_ptrs].
    split_and!; try done. cbn in Hnd. apply NoDup_cons in Hnd as [Hn1 [Hn2 _]%NoDup_cons].
    rw delete_insert_eq delete_id //. rewrite -> !lookup_insert_ne by set_solver. apply lookup_empty.
  - rewrite -> Hlen in Hc. cbn in Hc. apply threads_none in Hc as [Ec Et]. by exists y.
Qed.

Lemma free_stream_array_ok a ps rest y :
  y.(y_ptrs) !! a = Some (map Some ps) -> NoDup (ps ++ rest) ->
  (exists qs, queues_ok (ps ++ rest) y.(y_streams) y.(y_nodes) y.(y_reqs) qs) ->
  exists streams nodes reqs, free_stream_array (length ps) (Some a) y =
      Done (with_ptrs (delete a y.(y_ptrs)) (with_queues streams nodes reqs y)) /\
    exists qs, queues_ok rest streams nodes reqs qs.
Proof.
  intros Ha Hnd [qs Hq]. pose proof (Forall2_length _ _ _ (qk_queues _ _ _ _ _ Hq)) as Hlq.
  rewrite -> length_app in Hlq. rewrite <- (take_drop (length ps) qs) in Hq.
  destruct (free_streams_ok a (map Some ps) ps 0 rest y (take (length ps) qs) (drop (length ps) qs))
    as (s1 & n1 & r1 & Hrun1 & Hq1); [done|by rw drop_0|rw length_take; lia|done|done|].
  exists s1, n1, r1. rw /free_stream_array Hrun1. unbind. rw /free_array. cbn [y_ptrs with_queues].
  rw (free_Some _ _ _ Ha). unbind. split; [done|by eexists].
Qed.

(** The two arrays of streams, the sockets and the table. *)
Lemma free_rest_ok l n sockfds y :
  length l.(l_rx_streams) = n -> length l.(l_hd_streams) = n -> length sockfds = n ->
  (forall fd, fd ∈ y.(y_fds) -> fd <> -1 /\ fd ∈ sockfds) ->
  y.(y_ptrs) = <[l.(l_rx_to_hd) := map Some l.(l_rx_streams)]> (<[l.(l_hd_to_rx) := map Some l.(l_hd_streams)]> ∅) ->
  l.(l_rx_to_hd) <> l.(l_hd_to_rx) -> NoDup (l.(l_rx_streams) ++ l.(l_hd_streams)) ->
  y.(y_blocks) = ∅ -> y.(y_cfgs) = ∅ -> y.(y_threads) = ∅ ->
  shared_ok (l.(l_rx_streams) ++ l.(l_hd_streams)) l.(l_table) y ->
  exists y', (y ← close_sockets n 0 sockfds y;
    y ← free_stream_array n (Some l.(l_rx_to_hd)) y;
    y ← free_stream_array n (Some l.(l_hd_to_rx)) y;
    free_table (Some l.(l_table)) y) = Done y' /\ nothing_left y'.
Proof.
  intros H1 H2 Hlf Hfds Hp Hne Hnd Hb Hc Ht [[qs Hq] Htab].
  destruct (close_sockets_ok n 0 sockfds y) as (fds & Hrun & Hin); [lia|]. rw Hrun. unbind.
  assert (fds = ∅) as ->.
  { apply set_eq. intros fd. rw Hin drop_0. split; [|set_solver]. intros [Hfd Hor].
    destruct (Hfds fd Hfd) as [? ?]. by destruct Hor. }
  destruct (free_stream_array_ok l.(l_rx_to_hd) l.(l_rx_streams) l.(l_hd_streams) (with_fds ∅ y))
    as (s1 & n1 & r1 & Hrun1 & Hq1); [cbn; rw Hp; apply lookup_insert_eq|done|by exists qs|].
  rewrite -> H1 in Hrun1. rw Hrun1. unbind. cbn [y_ptrs with_fds]. rw Hp delete_insert_eq delete_id.
  2:{ rw lookup_insert_ne //; apply lookup_empty. }
  destruct (free_stream_array_ok l.(l_hd_to_rx) l.(l_hd_streams) []
    (with_ptrs (<[l.(l_hd_to_rx) := map Some l.(l_hd_streams)]> ∅) (with_queues s1 n1 r1 (with_fds ∅ y))))
    as (s2 & n2 & r2 & Hrun2 & qs2 & Hq2); [apply lookup_insert_eq|rw app_nil_r; by apply NoDup_app in Hnd as (_ & _ & ?)|
      by rw app_nil_r|].
  rewrite -> H2 in Hrun2. rw Hrun2. unbind. apply queues_none in Hq2 as (-> & -> & ->).
  set (y2 := with_ptrs _ _).
  destruct (free_table_ok l.(l_table) y2) as (h & -> & Hh); [exact Htab|].
  eexists. split; [reflexivity|]. split; cbn; try done. rw delete_insert_eq. apply delete_empty.
Qed.

Lemma deallocate_everything_ok config l v env y :
  acquired config l v y ->
  joins_ok (l.(l_rx_streams) ++ l.(l_hd_streams)) l.(l_table)
    (stop_rounds env (handle_num config) (stream_count config)) (handle_num config) env ->
  stops_ok (stop_rounds env (handle_num config) (stream_count config)) y.(y_nodes) y.(y_reqs) ->
  (forall p c, p ∈ set_entries l.(l_hd_cfgs) -> y.(y_cfgs) !! p = Some c -> c.(tc_thread) <> None ->
     stop_memory env (handle_num config) (stream_count config)) ->
  exists y', deallocate_everything config v env y = Done y' /\ nothing_left y'.
Proof.
  intros [(fds & -> & Hlf & Hfds) [Hbn Hb] (Hl1 & Hl2 & Hl3 & Hl4) [Han Ha] Hsn [Hcn Hc] Hwired Hs] [Hjr Hjh Hrends Hhends] Hst Hmem.
  set (ps := l_rx_streams l ++ l_hd_streams l) in *.
  destruct (pointer_arrays_lookup l Han) as [Hrx Hdel]. apply NoDup_app in Hcn as (Hcr & Hcd & Hch).
  rw /deallocate_everything. cbn [v_rx_configs v_rx_to_hd v_hd_configs v_sockfds v_hd_to_rx v_clients].
  destruct (join_threads_ok true (l_rx_cfgs l) 0 (l_rx_configs l) (l_rx_cfgs l) (set_entries (l_hd_cfgs l))
    ps (l_table l) (stop_rounds env (handle_num config) (stream_count config)) env.(de_rx_joined) y)
    as (y1 & Hj1 & Hf1 & Hb1 & Hp1 & Hout1 & Hc1 & [[qs1 Hq1] Ht1] & Hst1);
    [by rw Ha|done|by apply NoDup_app|done|exact Hjr| |exact Hs|exact Hst|].
  { intros p id c y1 _ _ _. by apply Hrends. }
  rw -Hl3 Hj1. unbind. rw /free_array Hp1 Ha (free_Some _ _ _ Hrx). unbind. rw Hdel.
  apply NoDup_cons in Han as [_ Han]. pose proof Han as [Hne1 [Hne2 _]%NoDup_cons]%NoDup_cons.
  rewrite <- Hl1 in Hst1 |- *. set (y2 := with_ptrs _ y1).
  destruct (all_told (l_rx_to_hd l) (l_rx_streams l) (l_hd_streams l) env (handle_num config) y2 qs1)
    as (s3 & n3 & r3 & qs3 & Hrun3 & Hq3 & Htold); [|done..|].
  { subst y2. cbn. destruct (l_hd_configs l) as [a|]; cbn [id]; [|apply lookup_insert_eq].
    rw lookup_insert_ne; [apply lookup_insert_eq|]. intros ->. apply Hne1. cbn. right. left. }
  rw Hrun3. unbind. set (y3 := with_queues s3 n3 r3 y2).
  destruct (free_handlers_ok l (handle_num config) ps (env.(de_hd_joined) y3) y3)
    as (y4 & -> & Hf4 & Hb4 & Hp4 & Hc4 & Ht4 & Hs4); try done; [exact (Hjh y3)| | |].
  { intros p id c y' Hp Hpc Hth. assert (y.(y_cfgs) !! p = Some c) as Hpc0.
    { rw -Hout1; [done|]. intros Hp'. by apply (Hcd p). }
    destruct (Hwired p c Hp Hpc0 Hth) as (w & Hw & Hin). apply (Hhends y3 id c w y' Hw), Htold; [|done].
    rw Hl1. by eapply Hmem. }
  { split; [by exists qs3|exact Ht1]. }
  unbind. rw free_config_ok; [|done|rw Hb4 -Hb -Hb1; reflexivity]. unbind.
  apply (free_rest_ok l (length (l_rx_streams l)) fds (with_blocks ∅ y4)); rewrite -> ?Hl1; try done.
  - intros fd. change (y_fds (with_blocks ∅ y4)) with (y_fds y4). rw Hf4.
    change (y_fds y3) with (y_fds y1). rw Hf1. apply Hfds.
  - intros E. apply Hne1. rw E. left.
Qed.
