(* ===== verification/MainRun.v ===== *)
(** * MainRun: what the set-up of main acquires

    The stages of [main_setup] are followed one by one, for an environment
    that gives all the sockets, the streams and the table, and some or all of
    the configurations and threads: the state behind each stage is the one
    [with_threads] describes, which is [acquired] in the sense of SetupThm. *)

From S2P Require Import Prelude Global Cli Memory Packet Buffer Stream Client ClientOwn HashTable Handler Receiver Main Setup MainThm Expire SetupThm.

(** ** Allocations *)

(** The environment of a loop of [calloc]: the blocks [ps], then none. *)
Definition hands_out {A} (env : nat -> A) (f : A -> option ptr) (i : nat) (ps : list ptr) : Prop :=
  forall j p, ps !! j = Some p -> f (env (i + j)%nat) = Some p.

Lemma hands_out_cons {A} (env : nat -> A) f i p ps :
  hands_out env f i (p :: ps) -> f (env i) = Some p /\ hands_out env f (S i) ps.
Proof.
  intros H. split; [specialize (H 0%nat p eq_refl); by rewrite -> Nat.add_0_r in H|].
  intros j q Hq. specialize (H (S j) q Hq). by rewrite -> Nat.add_succ_r in H.
Qed.

Lemma insert_middle {A} (pre post : list A) e v : <[length pre := v]> (pre ++ e :: post) = pre ++ v :: post.
Proof. by rw -{1}(Nat.add_0_r (length pre)) insert_app_r. Qed.

Lemma set_entry_ok y a (pre post : list (option ptr)) e v :
  y.(y_ptrs) !! a = Some (pre ++ e :: post) ->
  set_entry y (Some a) (length pre) v = Done (with_ptrs (<[a := pre ++ v :: post]> y.(y_ptrs)) y).
Proof.
  intros Ha. rw /set_entry (load_Some _ _ _ Ha). unbind.
  rw wr_lt; [|rw length_app /=; lia]. unbind. rw (store_Some _ _ _ _ Ha). unbind.
  by rw insert_middle.
Qed.

Lemma allocated_app {V} (v : V) m ps qs : allocated v m (ps ++ qs) = allocated v (allocated v m ps) qs.
Proof. apply foldl_app. Qed.

Lemma alloc_cfgs_ok n env a y pre ps :
  y.(y_ptrs) !! a = Some (pre ++ replicate n None) -> hands_out env id (length pre) ps ->
  (length ps <= n)%nat -> (length ps <> n -> env (length pre + length ps)%nat = None) ->
  alloc_cfgs n (length pre) env (Some a) y =
    Done (with_ptrs (<[a := pre ++ map Some ps ++ replicate (n - length ps) None]> y.(y_ptrs))
            (with_cfgs (allocated zero_cfg y.(y_cfgs) ps) y.(y_threads) y),
          bool_decide (length ps = n)).
Proof.
  revert y pre ps. induction n as [|n IH] => y pre ps Ha Hps Hn Hend.
  { destruct ps; [|simpl in Hn; lia]. cbn in *. rw insert_id //. by destruct y. }
  cbn [alloc_cfgs]. destruct ps as [|p ps].
  - cbn [length] in *. rewrite -> Nat.add_0_r in Hend. rw Hend // /malloc.
    rw (set_entry_ok _ a pre (replicate n None) None None); [|exact Ha]. done.
  - apply hands_out_cons in Hps as [Hp Hps]. cbn [id] in Hp. rewrite -> Hp. cbn [malloc].
    set (y1 := with_cfgs _ _ y).
    rw (set_entry_ok y1 a pre (replicate n None) None (Some p)); [|exact Ha]. unbind.
    replace (S (length pre)) with (length (pre ++ [Some p])) by (rw length_app /=; lia).
    rw (IH _ (pre ++ [Some p]) ps).
    + cbn. rw insert_insert_eq -!app_assoc /=. do 2 f_equal. apply bool_decide_ext. lia.
    + cbn. rw lookup_insert_eq -app_assoc //.
    + rw length_app Nat.add_1_r. exact Hps.
    + simpl in Hn. lia.
    + intros Hne. rw length_app Nat.add_1_r. cbn [length] in Hend. rw -Hend; [|lia]. f_equal. lia.
Qed.

(** The environment gives each stream and its lock and condition. *)
Definition stream_ready (e : stream_env) : Prop := e.(sm_lock_fails) = false /\ e.(sm_cond_fails) = false.

Lemma alloc_streams_ok n env a y pre ps :
  y.(y_ptrs) !! a = Some (pre ++ replicate n None) -> hands_out env sm_ptr (length pre) ps -> length ps = n ->
  (forall i, stream_ready (env i)) ->
  alloc_streams n (length pre) env (Some a) y =
    Done (with_ptrs (<[a := pre ++ map Some ps]> y.(y_ptrs))
            (with_queues (allocated new_stream y.(y_streams) ps) y.(y_nodes) y.(y_reqs) y), true).
Proof.
  intros Ha Hps Hn Hr. revert y pre n Ha Hn Hps. induction ps as [|p ps IH] => y pre n Ha Hn Hps; subst n; cbn [length alloc_streams].
  { cbn in *. rw insert_id //. by destruct y. }
  apply hands_out_cons in Hps as [Hp Hps]. rw Hp. cbn [malloc].
  set (y1 := with_queues _ _ _ y).
  rw (set_entry_ok y1 a pre (replicate (length ps) None) None (Some p)); [|exact Ha]. unbind.
  destruct (Hr (length pre)) as [E1 E2]. rw /initialize_stream E1 E2. cbn [orb]. unbind.
  replace (S (length pre)) with (length (pre ++ [Some p])) by (rw length_app /=; lia).
  rw (IH _ (pre ++ [Some p]) (length ps)); [|cbn; by rw lookup_insert_eq -app_assoc|done|].
  - cbn. by rw !insert_insert_eq -!app_assoc.
  - rw length_app Nat.add_1_r. exact Hps.
Qed.

Lemma alloc_stream_array_ok n a env y ps :
  y.(y_ptrs) !! a = None -> hands_out env sm_ptr 0 ps -> length ps = n -> (forall i, stream_ready (env i)) ->
  alloc_stream_array n (Some a) env y =
    Done (with_ptrs (<[a := map Some ps]> y.(y_ptrs))
            (with_queues (allocated new_stream y.(y_streams) ps) y.(y_nodes) y.(y_reqs) y), true).
Proof.
  intros Ha Hps Hn Hr. rw /alloc_stream_array (alloc_streams_ok n env a _ [] ps) //.
  - cbn. by rw insert_insert_eq.
  - cbn. apply lookup_insert_eq.
Qed.

Lemma alloc_cfg_array_ok n a env y ps :
  hands_out env id 0 ps -> (length ps <= n)%nat -> (length ps <> n -> env (length ps) = None) ->
  alloc_cfg_array n (Some a) env y =
    Done (with_ptrs (<[a := map Some ps ++ replicate (n - length ps) None]> y.(y_ptrs))
            (with_cfgs (allocated zero_cfg y.(y_cfgs) ps) y.(y_threads) y),
          bool_decide (length ps = n)).
Proof.
  intros Hps Hn Hend. rw /alloc_cfg_array (alloc_cfgs_ok n env a _ [] ps) //.
  - cbn. by rw insert_insert_eq.
  - cbn. apply lookup_insert_eq.
Qed.

(** ** Sockets *)

(** The descriptors the environment hands out. *)
Definition opens (env : nat -> socket_env) (fds : list Z) : Prop :=
  forall i fd, fds !! i = Some fd -> env i = mk_socket_env fd false /\ fd <> -1.

Lemma open_sockets_ok n env y pre post fds :
  length fds = n -> length post = n ->
  (forall i fd, fds !! i = Some fd -> env (length pre + i)%nat = mk_socket_env fd false /\ fd <> -1) ->
  open_sockets n (length pre) env (pre ++ post) y =
    Done (pre ++ fds, with_fds (list_to_set fds ∪ y.(y_fds)) y, true).
Proof.
  revert y pre post fds. induction n as [|n IH] => y pre [|g post] [|fd fds] Hf Hp Hall; try done.
  { cbn. rw union_empty_l_L. by destruct y. }
  cbn [open_sockets]. destruct (Hall 0%nat fd eq_refl) as [E Hne]. rewrite -> Nat.add_0_r in E. rw E. cbn [sk_fd sk_fails].
  rw wr_lt; [|rw length_app /=; lia]. unbind. rw insert_middle.
  destruct (Z.eqb_spec fd (-1)); [done|].
  replace (S (length pre)) with (length (pre ++ [fd])) by (rw length_app /=; lia).
  replace (pre ++ fd :: post) with ((pre ++ [fd]) ++ post) by (by rw -app_assoc).
  rw (IH _ (pre ++ [fd]) post fds); [|by injection Hf|by injection Hp|].
  - rw -app_assoc. cbn. by rw (assoc_L (∪)) (comm_L (∪) (list_to_set fds)).
  - intros i fd' Hi. specialize (Hall (S i) fd' Hi).
    replace (length (pre ++ [fd]) + i)%nat with (length pre + S i)%nat by (rw length_app /=; lia). done.
Qed.

(** ** Connecting the threads *)

Lemma entries_ok y a ps : y.(y_ptrs) !! a = Some (map Some ps) -> entries y (Some a) = Done ps.
Proof.
  intros Ha. rw /entries (load_Some _ _ _ Ha). unbind. clear Ha.
  induction ps as [|p ps IH]; [done|]. cbn [map mapM]. unbind. rw IH. done.
Qed.

(** A configuration connected to a stream. *)
Definition connected (c : thread_cfg) (w : wiring_t) : Prop :=
  c.(tc_thread) = None /\ c.(tc_stop) = false /\ c.(tc_wiring) = Some w.

Lemma connect_ok ws i a l y :
  y.(y_ptrs) !! a = Some l -> (i + length ws <= length l)%nat ->
  (forall j e, l !! j = Some e -> exists p, e = Some p /\ is_Some (y.(y_cfgs) !! p)) ->
  (forall p c, y.(y_cfgs) !! p = Some c -> c.(tc_thread) = None) -> NoDup l ->
  exists cfgs, connect ws i (Some a) y = Done (with_cfgs cfgs y.(y_threads) y) /\
    dom cfgs = dom y.(y_cfgs) /\ (forall p c, cfgs !! p = Some c -> c.(tc_thread) = None) /\
    (forall p, (forall j, (i <= j)%nat -> l !! j <> Some (Some p)) -> cfgs !! p = y.(y_cfgs) !! p) /\
    (forall j w, ws !! j = Some w -> exists p c, l !! (i + j)%nat = Some (Some p) /\ cfgs !! p = Some c /\ connected c w).
Proof.
  revert i y. induction ws as [|w ws IH] => i y Ha Hlen Hl Hn Hnd; cbn [connect].
  { exists y.(y_cfgs). split; [by destruct y|]. split_and!; done. }
  destruct (lookup_lt_is_Some_2 l i) as [e He]; [simpl in Hlen; lia|].
  destruct (Hl i e He) as (p & -> & c & Hc). rw (entry_Some _ _ _ _ _ Ha He). unbind.
  rw (load_Some _ _ _ Hc). unbind.
  set (y1 := with_cfgs _ _ y).
  destruct (IH (S i) y1) as (cfgs & Hrun & Hd & Hn1 & Hout & Hin); [done|simpl in Hlen; lia| | |done|].
  - intros j e' He'. destruct (Hl j e' He') as (p' & -> & Hp'). exists p'. split; [done|].
    cbn. destruct (decide (p = p')) as [->|Hne]; [rw lookup_insert_eq; by eexists|by rw lookup_insert_ne].
  - intros q d. cbn. destruct (decide (p = q)) as [->|Hne]; [|rw lookup_insert_ne //; apply Hn].
    rw lookup_insert_eq. intros [= <-]. exact (Hn _ _ Hc).
  - exists cfgs. split; [exact Hrun|]. split; [rw Hd; cbn; apply dom_insert_lookup_L; by eexists|].
    split; [done|]. split.
    + intros q Hq. rw Hout; [|intros j Hj; apply Hq; lia]. cbn. apply lookup_insert_ne.
      intros ->. by apply (Hq i).
    + intros [|j] w' Hw'.
      * injection Hw' as ->. rw Nat.add_0_r. exists p. rw Hout; [|].
        -- cbn. rw lookup_insert_eq. eexists. split; [done|]. split; [done|]. split; [exact (Hn _ _ Hc)|done].
        -- intros j Hj Hlj. assert (i = j) as ->; [|lia]. by eapply NoDup_lookup.
      * destruct (Hin j w' Hw') as (q & d & ? & ? & ?). exists q, d. by rw Nat.add_succ_r.
Qed.

(** ** The set-up *)

(** A configuration as [configure] makes it. *)
Record conf_ok (config : conf_t) : Prop := {
  co_receivers : streams_ok config.(cn_setup).(su_receive_num) config.(cn_setup).(su_stream_count) config.(cn_setup).(su_receive_streams);
  co_handlers : streams_ok config.(cn_setup).(su_handle_num) config.(cn_setup).(su_stream_count) config.(cn_setup).(su_handle_streams);
  co_receive_affinities b l : config.(cn_receive_affinities) = Some (b, l) -> length l = receive_num config;
  co_handle_affinities b l : config.(cn_handle_affinities) = Some (b, l) -> length l = handle_num config;
  co_blocks : NoDup (set_entries (config_blocks config)) }.

(** The environment gives sockets, streams and a table. *)
Record shared_env (config : conf_t) (env : setup_env) (l : layout) (fds : list Z) (items : ptr) : Prop := {
  se_fds : length env.(en_sockfds) = stream_count config /\ length fds = stream_count config /\ opens env.(en_sockets) fds;
  se_rx : env.(en_rx_to_hd) = Some l.(l_rx_to_hd) /\ hands_out env.(en_rx_streams) sm_ptr 0 l.(l_rx_streams) /\
    length l.(l_rx_streams) = stream_count config /\ forall i, stream_ready (env.(en_rx_streams) i);
  se_hd : env.(en_hd_to_rx) = Some l.(l_hd_to_rx) /\ hands_out env.(en_hd_streams) sm_ptr 0 l.(l_hd_streams) /\
    length l.(l_hd_streams) = stream_count config /\ forall i, stream_ready (env.(en_hd_streams) i);
  se_table : env.(en_table) = Some l.(l_table) /\ env.(en_items) = Some items /\ is_Some env.(en_mutex) /\
    env.(en_mutex_fails) = false;
  se_arrays : NoDup (l.(l_rx_configs) :: l.(l_rx_to_hd) :: l.(l_hd_to_rx) :: set_entries [l.(l_hd_configs)]);
  se_streams : NoDup (l.(l_rx_streams) ++ l.(l_hd_streams)) }.

(** Before the set-up there are the blocks of the configuration. *)
Definition empty_heap : heap_t := mk_heap ∅ ∅ ∅ ∅ ∅ ∅ ∅.
Definition initial (config : conf_t) : sys_t :=
  mk_sys ∅ (list_to_set (set_entries (config_blocks config))) ∅ ∅ ∅ ∅ ∅ ∅ empty_heap ∅ ∅.

(** Behind the sockets, the streams and the table. *)
Definition with_shared (config : conf_t) (l : layout) (fds : list Z) (items : ptr) : sys_t :=
  mk_sys (list_to_set fds) (list_to_set (set_entries (config_blocks config)))
    (<[l.(l_hd_to_rx) := map Some l.(l_hd_streams)]> (<[l.(l_rx_to_hd) := map Some l.(l_rx_streams)]> ∅))
    (allocated new_stream ∅ (l.(l_rx_streams) ++ l.(l_hd_streams))) ∅ ∅
    (<[l.(l_table) := mk_ht (Some false) (Some items) INITIAL_SIZE 0]> ∅)
    (<[items := zero_items INITIAL_SIZE]> ∅) empty_heap ∅ ∅.

Lemma acquire_shared_ok config env l fds items :
  shared_env config env l fds items ->
  acquire_shared config env fds (with_fds (list_to_set fds) (initial config)) =
    Done (mk_vars fds (Some l.(l_rx_to_hd)) (Some l.(l_hd_to_rx)) (Some l.(l_table)) None None,
          with_shared config l fds items, true).
Proof.
  intros [Hf (E1 & Hr & Hlr & Hrr) (E2 & Hh & Hlh & Hrh) (E3 & E4 & [mx E5] & E6) Hn Hs].
  rw /acquire_shared /stage E1.
  rw (alloc_stream_array_ok _ _ _ _ _ _ Hr Hlr Hrr); [|done]. unbind. cbn [v_sockfds v_rx_to_hd]. rw E2.
  apply NoDup_cons in Hn as [_ [Hne _]%NoDup_cons].
  rw (alloc_stream_array_ok _ _ _ _ _ _ Hh Hlh Hrh).
  2:{ cbn. rw lookup_insert_ne; [apply lookup_empty|]. intros E. apply Hne. rw E. left. }
  unbind. cbn [v_sockfds v_rx_to_hd v_hd_to_rx]. rw /alloc_table E3 /allocate_ht E4 E5 E6. unbind.
  rw /with_shared allocated_app. done.
Qed.

(** ** What the set-up has acquired *)

Lemma dom_allocated {V} (v : V) m ps : dom (allocated v m ps) = dom m ∪ list_to_set ps.
Proof.
  revert m. induction ps as [|p ps IH]; intros m; cbn.
  { symmetry. apply union_empty_r_L. }
  rw (IH (<[p := v]> m)) dom_insert_L. set_solver.
Qed.

Lemma allocated_value {V} (v w : V) ps p : allocated v ∅ ps !! p = Some w -> w = v.
Proof.
  assert (forall m : gmap ptr V, (forall q u, m !! q = Some u -> u = v) -> forall q u, allocated v m ps !! q = Some u -> u = v) as H.
  { induction ps as [|q ps IH]; intros m Hm; [done|]. cbn. apply IH. intros r u.
    destruct (decide (q = r)) as [->|Hne]; [rw lookup_insert_eq; by intros [= <-]|rw lookup_insert_ne //; apply Hm]. }
  apply H. by intros q u Hq%lookup_empty_Some.
Qed.

Lemma queues_new ps : NoDup ps -> queues_ok ps (allocated new_stream ∅ ps) ∅ ∅ (replicate (length ps) []).
Proof.
  intros Hnd. assert (concat (replicate (length ps) ([] : list ptr)) = []) as E by (by induction (length ps)).
  split; rewrite -> ?E; try done; try apply NoDup_nil_2.
  - rw dom_allocated dom_empty_L union_empty_l_L //.
  - apply Forall2_same_length_lookup_2; [by rw length_replicate|]. intros i p q Hp [-> _]%lookup_replicate.
    exists new_stream. rw allocated_in //; [|by eapply list_elem_of_lookup_2].
    split_and!; [done..|apply new_stream_rep].
Qed.

Lemma empty_registered h k : registered h ∅ k.
Proof. split; [split|]; intros *; try (by intros Hp%lookup_empty_Some); by rw map_img_empty_L; intros ?%not_elem_of_empty. Qed.

(** A table without clients, as long as it is the only one. *)
Lemma empty_table_ok tp t a y :
  y.(y_tables) = {[tp := t]} -> ht_rep y.(y_arrays) t ∅ -> t.(ht_items) = Some a -> dom y.(y_arrays) = {[a]} ->
  y.(y_heap) = empty_heap -> table_ok_at tp y.
Proof.
  intros Ht Hrep Ha Hd Hh. exists t, ∅, (fun _ => mk_blocks [] [] [] [] [] [] []), a. rw Hh.
  split; [done|]. split; [done|]. split; [apply empty_registered|]. split; [|done].
  split; cbn; intros q; try (by rw dom_empty_L; intros ?%not_elem_of_empty).
  by intros f Hq%lookup_empty_Some.
Qed.

Lemma shared_new l items y :
  NoDup (l.(l_rx_streams) ++ l.(l_hd_streams)) ->
  y.(y_streams) = allocated new_stream ∅ (l.(l_rx_streams) ++ l.(l_hd_streams)) -> y.(y_nodes) = ∅ -> y.(y_reqs) = ∅ ->
  y.(y_tables) = <[l.(l_table) := mk_ht (Some false) (Some items) INITIAL_SIZE 0]> ∅ ->
  y.(y_arrays) = <[items := zero_items INITIAL_SIZE]> ∅ -> y.(y_heap) = empty_heap ->
  shared_ok (l.(l_rx_streams) ++ l.(l_hd_streams)) l.(l_table) y.
Proof.
  intros Hnd Hs Hn Hr Ht Ha Hh. split; [eexists; rw Hs Hn Hr; by apply queues_new|].
  eapply empty_table_ok; [by rw Ht|rw Ha; apply empty_rep|done| |done].
  rw Ha dom_insert_L dom_empty_L union_empty_r_L //.
Qed.

(** Configurations none of which has a thread. *)
Lemma threads_ok_none ps cfgs :
  dom cfgs = list_to_set ps -> (forall p c, cfgs !! p = Some c -> c.(tc_thread) = None) -> threads_ok ps cfgs ∅.
Proof.
  intros Hd Hn. split; [done|..].
  - intros p c th Hc Hth. rewrite -> (Hn p c Hc) in Hth. done.
  - intros p q c d th Hc _ Hth. rewrite -> (Hn p c Hc) in Hth. done.
  - intros th. rw dom_empty_L. by intros ?%not_elem_of_empty.
Qed.

(** The environment gives the arrays and the configurations of the threads,
    the first of them at least. *)
Definition padded (ps : list ptr) (n : nat) : list (option ptr) := map Some ps ++ replicate (n - length ps) None.

Record cfgs_env (config : conf_t) (env : setup_env) (l : layout) (rxs hds : list ptr) : Prop := {
  ce_rx : env.(en_rx_configs) = Some l.(l_rx_configs) /\ hands_out env.(en_rx_config) id 0 rxs /\
    (length rxs <= receive_num config)%nat /\
    (length rxs <> receive_num config -> env.(en_rx_config) (length rxs) = None) /\
    l.(l_rx_cfgs) = padded rxs (receive_num config);
  ce_hd : match l.(l_hd_configs) with
    | Some a => length rxs = receive_num config /\ env.(en_hd_configs) = Some a /\
        hands_out env.(en_hd_config) id 0 hds /\ (length hds <= handle_num config)%nat /\
        (length hds <> handle_num config -> env.(en_hd_config) (length hds) = None) /\
        l.(l_hd_cfgs) = padded hds (handle_num config)
    | None => (length rxs = receive_num config -> env.(en_hd_configs) = None) /\ hds = [] /\ l.(l_hd_cfgs) = []
    end;
  ce_once : NoDup (rxs ++ hds) }.

Definition all_cfgs (config : conf_t) (l : layout) (rxs hds : list ptr) : bool :=
  bool_decide (length rxs = receive_num config /\ is_Some l.(l_hd_configs) /\ length hds = handle_num config).

Definition vars_of (l : layout) (fds : list Z) : vars_t :=
  mk_vars fds (Some l.(l_rx_to_hd)) (Some l.(l_hd_to_rx)) (Some l.(l_table)) (Some l.(l_rx_configs)) l.(l_hd_configs).

(** Behind the configurations, some of which may be missing. *)
Definition with_threads (config : conf_t) (l : layout) (fds : list Z) (items : ptr) (cfgs : gmap ptr thread_cfg)
    (threads : gmap ptr (option nat)) : sys_t :=
  with_cfgs cfgs threads (with_ptrs (pointer_arrays l) (with_shared config l fds items)).

Lemma set_entries_padded ps n : set_entries (padded ps n) = ps.
Proof.
  rw /padded omap_app. assert (set_entries (replicate (n - length ps) (@None ptr)) = []) as -> by (by induction (n - length ps)%nat).
  rw app_nil_r. induction ps as [|p ps IH]; [done|]. cbn. by f_equal.
Qed.

Lemma length_padded ps n : (length ps <= n)%nat -> length (padded ps n) = n.
Proof. intros H. rw /padded length_app length_map length_replicate. lia. Qed.

Lemma rx_arrays l fds items config :
  NoDup (l.(l_rx_configs) :: l.(l_rx_to_hd) :: l.(l_hd_to_rx) :: set_entries [l.(l_hd_configs)]) ->
  match l.(l_hd_configs) with Some a => insert a l.(l_hd_cfgs) | None => id end
    (<[l.(l_rx_configs) := l.(l_rx_cfgs)]> (y_ptrs (with_shared config l fds items))) = pointer_arrays l.
Proof.
  intros [Hn1 [Hn2 [Hn3 _]%NoDup_cons]%NoDup_cons]%NoDup_cons. rw /pointer_arrays /=.
  assert (l.(l_rx_to_hd) <> l.(l_hd_to_rx)) as Hne by (intros E; apply Hn2; rw E; left).
  rw (insert_insert_ne ∅ _ _ _ _ Hne). destruct (l_hd_configs l) as [a|]; cbn in *; [|done].
  apply insert_insert_ne. intros ->. apply Hn1. do 2 right. left.
Qed.

Lemma acquire_cfgs_ok config env l fds items rxs hds :
  shared_env config env l fds items -> cfgs_env config env l rxs hds ->
  acquire_cfgs config env (mk_vars fds (Some l.(l_rx_to_hd)) (Some l.(l_hd_to_rx)) (Some l.(l_table)) None None)
      (with_shared config l fds items) =
    Done (vars_of l fds, with_threads config l fds items (allocated zero_cfg ∅ (rxs ++ hds)) ∅, all_cfgs config l rxs hds).
Proof.
  intros Hs [(E1 & Hr & Hlr & Hrend & Erx) Hhd _]. pose proof (rx_arrays l fds items config (se_arrays _ _ _ _ _ Hs)) as Ha.
  rw /acquire_cfgs /stage. cbn [v_sockfds v_rx_to_hd v_hd_to_rx v_clients v_rx_configs]. rw E1.
  rw (alloc_cfg_array_ok _ _ _ _ _ Hr Hlr Hrend). unbind. fold (padded rxs (receive_num config)). rw -Erx.
  rw /all_cfgs /vars_of /with_threads -Ha. destruct (l_hd_configs l) as [a|] eqn:El; cbn [id].
  - destruct Hhd as (Hlen & E2 & Hh & Hlh & Hhend & Ehd). rw bool_decide_eq_true_2 // E2.
    rw (alloc_cfg_array_ok _ _ _ _ _ Hh Hlh Hhend). unbind. fold (padded hds (handle_num config)). rw -Ehd.
    rw allocated_app. do 2 f_equal. apply bool_decide_ext. naive_solver.
  - destruct Hhd as (E2 & -> & Ehd). rw app_nil_r.
    assert (bool_decide (length rxs = receive_num config /\ is_Some (@None ptr) /\ length (@nil ptr) = handle_num config) = false) as ->.
    { apply bool_decide_eq_false_2. intros (_ & [? ?] & _). done. }
    destruct (decide (length rxs = receive_num config)) as [Hlen|Hlen].
    + rw bool_decide_eq_true_2 // E2 //.
    + rw bool_decide_eq_false_2 //.
Qed.

Lemma env_lengths config env l rxs hds :
  cfgs_env config env l rxs hds ->
  length l.(l_rx_cfgs) = receive_num config /\
  match l.(l_hd_configs) with Some _ => length l.(l_hd_cfgs) = handle_num config | None => l.(l_hd_cfgs) = [] end /\
  set_entries l.(l_rx_cfgs) = rxs /\ set_entries l.(l_hd_cfgs) = hds.
Proof.
  intros [(_ & _ & Hlr & _ & ->) Hhd _]. rw length_padded // set_entries_padded.
  destruct (l_hd_configs l); [destruct Hhd as (_ & _ & _ & Hlh & _ & ->)|by destruct Hhd as (_ & -> & ->)].
  rw length_padded // set_entries_padded //.
Qed.

(** A handler that runs takes requests from a stream of the receivers. *)
Definition handlers_wired (l : layout) (hds : list ptr) (cfgs : gmap ptr thread_cfg) : Prop :=
  forall p c, p ∈ hds -> cfgs !! p = Some c -> c.(tc_thread) <> None ->
    exists w, c.(tc_wiring) = Some w /\ w.(wi_rx) ∈ l.(l_rx_streams).

Lemma with_threads_acquired config env l fds items rxs hds cfgs threads :
  conf_ok config -> shared_env config env l fds items -> cfgs_env config env l rxs hds ->
  threads_ok (rxs ++ hds) cfgs threads -> handlers_wired l hds cfgs ->
  acquired config l (vars_of l fds) (with_threads config l fds items cfgs threads).
Proof.
  intros Hc Hs Hcf Hth Hhw. destruct (env_lengths _ _ _ _ _ Hcf) as (H1 & H2 & H3 & H4).
  pose proof Hs as [(_ & Hfl & Hop) (_ & _ & Hlr & _) (_ & _ & Hlh & _) _ Hn Hst].
  split; rewrite -> ?H3, ?H4; try done.
  - exists fds. split; [done|]. split; [done|]. intros fd Hfd%elem_of_list_to_set. split; [|done].
    apply list_elem_of_lookup in Hfd as [i Hi]. by destruct (Hop i fd Hi).
  - split; [apply (co_blocks _ Hc)|done].
  - split; [apply (ce_once _ _ _ _ _ Hcf)|done].
  - by eapply shared_new.
Qed.

(** ** Up to the threads *)

Lemma main_setup_until config env l fds items rxs hds :
  shared_env config env l fds items -> cfgs_env config env l rxs hds ->
  open_sockets (stream_count config) 0 env.(en_sockets) env.(en_sockfds) (initial config) =
    Done (fds, with_fds (list_to_set fds) (initial config), true) /\
  stage (acquire_shared config env fds (with_fds (list_to_set fds) (initial config))) (acquire_cfgs config env) =
    Done (vars_of l fds, with_threads config l fds items (allocated zero_cfg ∅ (rxs ++ hds)) ∅, all_cfgs config l rxs hds).
Proof.
  intros Hs Hcf. pose proof Hs as [(Hl1 & Hl2 & Hop) _ _ _ _ _]. split.
  - rw (open_sockets_ok _ _ _ [] env.(en_sockfds) fds) //. cbn. rw union_empty_r_L //.
  - rw /stage (acquire_shared_ok _ _ _ _ _ Hs). unbind. by rw (acquire_cfgs_ok _ _ _ _ _ _ _ Hs Hcf).
Qed.

(** ** Starting the threads *)

Lemma map_Some_lookup (ps : list ptr) i e : map Some ps !! i = Some e -> exists p, e = Some p /\ ps !! i = Some p.
Proof. rw list_lookup_fmap. destruct (ps !! i) as [p|]; [|done]. intros [= <-]. by exists p. Qed.

Lemma threads_ok_start ps cfgs threads p c th id :
  threads_ok ps cfgs threads -> cfgs !! p = Some c -> c.(tc_thread) = None -> threads !! th = None ->
  threads_ok ps (<[p := mk_tcfg (Some th) c.(tc_stop) c.(tc_wiring)]> cfgs) (<[th := Some id]> threads).
Proof.
  intros [Hd Hl Ho Ha] Hp Hc Hth.
  assert (forall q d, cfgs !! q = Some d -> d.(tc_thread) = Some th -> False) as Hno.
  { intros q d Hq Hqd. destruct (Hl q d th Hq Hqd). congruence. }
  split.
  - rw dom_insert_lookup_L //.
  - intros q d th'. rw lookup_insert_Some. intros [[<- <-]|[Hne Hq]] Hqd; cbn in Hqd.
    + injection Hqd as <-. exists id. apply lookup_insert_eq.
    + destruct (Hl q d th' Hq Hqd) as [id' Hid]. exists id'. rw lookup_insert_ne //. intros ->. by eapply Hno.
  - intros q r d e th'. rw !lookup_insert_Some. intros [[<- <-]|[Hne Hq]] [[<- <-]|[Hne' Hr]] H1 H2; cbn in *; try done.
    + injection H1 as <-. by destruct (Hno r e).
    + injection H2 as <-. by destruct (Hno q d).
    + by apply (Ho q r d e th').
  - intros th'. rw dom_insert_L elem_of_union elem_of_singleton. intros [->|(q & d & Hq & Hqd)%Ha].
    + exists p. eexists. by rw lookup_insert_eq.
    + exists q, d. rw lookup_insert_ne //. intros ->. congruence.
Qed.

Lemma start_threads_ok n ths i id thread fails a l all y :
  y.(y_ptrs) !! a = Some (map Some l) -> (i + n <= length l)%nat -> (length ths <= n)%nat -> NoDup l ->
  (forall j th, ths !! j = Some th -> thread (i + j)%nat = Some th /\ fails (i + j)%nat = false) ->
  (length ths <> n -> thread (i + length ths)%nat = None) -> NoDup ths ->
  (forall th, th ∈ ths -> y.(y_threads) !! th = None) -> threads_ok all y.(y_cfgs) y.(y_threads) ->
  (forall p, p ∈ drop i l -> exists c, y.(y_cfgs) !! p = Some c /\ c.(tc_thread) = None) ->
  exists cfgs threads, start_threads n i id thread fails (Some a) y =
      Done (with_cfgs cfgs threads y, bool_decide (length ths = n)) /\
    threads_ok all cfgs threads /\ (forall p, p ∉ drop i l -> cfgs !! p = y.(y_cfgs) !! p) /\
    (forall p c, y.(y_cfgs) !! p = Some c -> exists c', cfgs !! p = Some c' /\ c'.(tc_wiring) = c.(tc_wiring)) /\
    (forall th, th ∉ ths -> threads !! th = y.(y_threads) !! th).
Proof.
  revert i id y n. induction ths as [|th ths IH] => i id y n Ha Hlen Hn Hl Hth Hend Hnd Hnew Hok Hc.
  { exists y.(y_cfgs), y.(y_threads). split; [|split_and!; try done; by intros p c Hp; exists c].
    destruct n as [|n]; cbn [start_threads]; [by destruct y|].
    destruct (lookup_lt_is_Some_2 l i) as [p Hp]; [lia|].
    rw (entry_Some _ a (map Some l) i (Some p)); [|done|by rw list_lookup_fmap Hp]. unbind.
    destruct (Hc p) as (c & Hpc & Hcn); [rw (drop_S _ _ _ Hp); left|]. rw (load_Some _ _ _ Hpc). unbind.
    rewrite -> Nat.add_0_r in Hend. rw (Hend ltac:(done)). cbn [malloc].
    do 2 f_equal. rw insert_id; [by destruct y|]. rw Hpc -Hcn. by destruct c. }
  destruct n as [|n]; [simpl in Hn; lia|]. cbn [start_threads].
  destruct (lookup_lt_is_Some_2 l i) as [p Hp]; [lia|].
  rw (entry_Some _ a (map Some l) i (Some p)); [|done|by rw list_lookup_fmap Hp]. unbind.
  pose proof (drop_S _ _ _ Hp) as Hdr.
  destruct (Hc p) as (c & Hpc & Hcn); [rw Hdr; left|]. rw (load_Some _ _ _ Hpc). unbind.
  destruct (Hth 0%nat th eq_refl) as [E1 E2]. rewrite -> Nat.add_0_r in E1, E2. rw E1 E2. cbn [malloc].
  cbn [y_cfgs y_threads with_cfgs]. rw insert_insert_eq.
  apply NoDup_cons in Hnd as [Hthn Hnd].
  assert (p ∉ drop (S i) l) as Hpn.
  { intros [j Hj]%list_elem_of_lookup. rewrite -> lookup_drop in Hj.
    pose proof (NoDup_lookup _ _ _ _ Hl Hp Hj). lia. }
  set (y1 := with_cfgs _ _ _).
  destruct (IH (S i) (S id) y1 n) as (cfgs & threads & Hrun & Hok1 & Hout & Hw & Hthout); try done.
  - lia.
  - simpl in Hn. lia.
  - intros j th' Hj. specialize (Hth (S j) th' Hj). by rewrite -> Nat.add_succ_r in Hth.
  - intros Hne. rw -Hend; [f_equal; simpl; lia|simpl; lia].
  - intros th' Hin. subst y1. cbn. rw lookup_insert_ne; [apply Hnew; by right|]. by intros ->.
  - subst y1. cbn. apply threads_ok_start; [done..|]. apply Hnew. left.
  - intros q Hq. subst y1. cbn. rw lookup_insert_ne; [apply Hc; rw Hdr; by right|]. by intros ->.
  - exists cfgs, threads. split; [rw Hrun; do 2 f_equal; apply bool_decide_ext; simpl; lia|]. split; [done|]. split; [|split].
    + intros q Hq. rewrite -> Hdr in Hq. apply not_elem_of_cons in Hq as [Hne Hq]. rw Hout //. subst y1. cbn. by rw lookup_insert_ne.
    + intros q d Hq. subst y1. cbn [y_cfgs with_cfgs] in Hw. destruct (decide (p = q)) as [->|Hne].
      * destruct (Hw q _ (lookup_insert_eq _ _ _)) as (c' & Hc' & Hcw). exists c'. split; [done|]. rw Hcw. cbn. congruence.
      * apply Hw. by rw lookup_insert_ne.
    + intros th' Hne. apply not_elem_of_cons in Hne as [Hne Hni]. rw Hthout //. subst y1. cbn. by rw lookup_insert_ne.
Qed.

(** ** The whole set-up *)

Lemma pointer_arrays_all l :
  NoDup (l.(l_rx_configs) :: l.(l_rx_to_hd) :: l.(l_hd_to_rx) :: set_entries [l.(l_hd_configs)]) ->
  pointer_arrays l !! l.(l_rx_configs) = Some l.(l_rx_cfgs) /\
  pointer_arrays l !! l.(l_rx_to_hd) = Some (map Some l.(l_rx_streams)) /\
  pointer_arrays l !! l.(l_hd_to_rx) = Some (map Some l.(l_hd_streams)) /\
  (forall a, l.(l_hd_configs) = Some a -> pointer_arrays l !! a = Some l.(l_hd_cfgs)).
Proof.
  intros [Hn1 [Hn2 [Hn3 _]%NoDup_cons]%NoDup_cons]%NoDup_cons. rw /pointer_arrays.
  apply not_elem_of_cons in Hn1 as [H12 [H13 H14]%not_elem_of_cons], Hn2 as [H23 H24].
  destruct (l_hd_configs l) as [a|]; cbn in *;
    [apply not_elem_of_cons in H14 as [H14 _], H24 as [H24 _], Hn3 as [H34 _]|];
    (split; [apply lookup_insert_eq|]); (split; [|split]).
  - rewrite -> !lookup_insert_ne by congruence; apply lookup_insert_eq.
  - rewrite -> !lookup_insert_ne by congruence; apply lookup_insert_eq.
  - intros b [= <-]. rewrite -> !lookup_insert_ne by congruence; apply lookup_insert_eq.
  - rewrite -> !lookup_insert_ne by congruence; apply lookup_insert_eq.
  - rewrite -> !lookup_insert_ne by congruence; apply lookup_insert_eq.
  - done.
Qed.

(** The configurations [ps] are connected as the setup says. *)
Definition all_connected (streams : list Z) (sockfds : list Z) (from to : list ptr) (affinities : option (list Z))
    (ps : list ptr) (cfgs : gmap ptr thread_cfg) : Prop :=
  forall i p, ps !! i = Some p -> exists c w, cfgs !! p = Some c /\ c.(tc_wiring) = Some w /\
    wired streams sockfds from to affinities i w.

Lemma padded_full ps n : length ps = n -> padded ps n = map Some ps.
Proof. intros <-. by rw /padded Nat.sub_diag app_nil_r. Qed.

Lemma NoDup_map_Some (ps : list ptr) : NoDup ps -> NoDup (map Some ps).
Proof. apply NoDup_fmap_2. by intros p q [= ->]. Qed.

Lemma connect_array ws a ps y :
  y.(y_ptrs) !! a = Some (map Some ps) -> length ws = length ps -> NoDup ps ->
  (forall p, p ∈ ps -> is_Some (y.(y_cfgs) !! p)) -> (forall p c, y.(y_cfgs) !! p = Some c -> c.(tc_thread) = None) ->
  exists cfgs, connect ws 0 (Some a) y = Done (with_cfgs cfgs y.(y_threads) y) /\
    dom cfgs = dom y.(y_cfgs) /\ (forall p c, cfgs !! p = Some c -> c.(tc_thread) = None) /\
    (forall p, p ∉ ps -> cfgs !! p = y.(y_cfgs) !! p) /\
    (forall i p w, ps !! i = Some p -> ws !! i = Some w -> exists c, cfgs !! p = Some c /\ c.(tc_wiring) = Some w).
Proof.
  intros Ha Hlen Hnd Hin Hnone.
  destruct (connect_ok ws 0 a (map Some ps) y) as (cfgs & Hrun & Hd & Hn & Hout & Hw); try done.
  - rw length_map Hlen. lia.
  - intros j e (p & -> & Hp)%map_Some_lookup. exists p. split; [done|]. apply Hin. by eapply list_elem_of_lookup_2.
  - by apply NoDup_map_Some.
  - exists cfgs. split_and!; try done.
    + intros p Hp. apply Hout. intros j _ (q & [= <-] & Hq)%map_Some_lookup. by eapply Hp, list_elem_of_lookup_2.
    + intros i p w Hp Hwi. destruct (Hw i w Hwi) as (q & c & (q' & [= <-] & Hq)%map_Some_lookup & Hc & _ & _ & Hcw).
      assert (q = p) as -> by (cbn in Hq; congruence). by exists c.
Qed.

Definition connections (config : conf_t) (l : layout) (fds : list Z) (rxs hds : list ptr) (cfgs : gmap ptr thread_cfg) : Prop :=
  all_connected config.(cn_setup).(su_receive_streams) fds l.(l_hd_streams) l.(l_rx_streams)
    (snd <$> config.(cn_receive_affinities)) rxs cfgs /\
  all_connected config.(cn_setup).(su_handle_streams) fds l.(l_rx_streams) l.(l_hd_streams)
    (snd <$> config.(cn_handle_affinities)) hds cfgs.

Lemma connections_wired config l fds rxs hds cfgs :
  connections config l fds rxs hds cfgs -> handlers_wired l hds cfgs.
Proof.
  intros [_ Hco] p c [i Hi]%list_elem_of_lookup Hc _. destruct (Hco i p Hi) as (c' & w & Hc' & Hw & s & _ & _ & _ & Hrx & _).
  assert (c' = c) as -> by congruence. exists w. split; [done|]. by eapply list_elem_of_lookup_2.
Qed.

Lemma connect_threads_ok config env l fds items rxs hds :
  conf_ok config -> shared_env config env l fds items -> cfgs_env config env l rxs hds ->
  all_cfgs config l rxs hds = true ->
  exists cfgs, connect_threads config (vars_of l fds) (with_threads config l fds items (allocated zero_cfg ∅ (rxs ++ hds)) ∅) =
      Done (with_threads config l fds items cfgs ∅) /\
    dom cfgs = list_to_set (rxs ++ hds) /\ (forall p c, cfgs !! p = Some c -> c.(tc_thread) = None) /\
    connections config l fds rxs hds cfgs.
Proof.
  intros Hc Hs Hcf (Hlr & [b Eb] & Hlh)%bool_decide_eq_true_1.
  pose proof Hs as [(_ & Hlf & _) (_ & _ & Hl1 & _) (_ & _ & Hl2 & _) _ Hn _].
  destruct (pointer_arrays_all l Hn) as (Hp1 & Hp2 & Hp3 & Hp4). specialize (Hp4 b Eb).
  pose proof Hcf as [(_ & _ & _ & _ & Erx) Hhd Hnd]. rewrite -> Eb in Hhd. destruct Hhd as (_ & _ & _ & _ & _ & Ehd).
  rewrite -> (padded_full _ _ Hlr) in Erx. rewrite -> (padded_full _ _ Hlh) in Ehd. rewrite -> Erx in Hp1. rewrite -> Ehd in Hp4.
  apply NoDup_app in Hnd as (Hnr & Hdis & Hnh).
  destruct (wire_threads_ok config.(cn_setup) fds l.(l_rx_streams) l.(l_hd_streams)
    (snd <$> config.(cn_receive_affinities)) (snd <$> config.(cn_handle_affinities)))
    as (rs & hs & Hw & Hwr & Hwh); [apply Hc|apply Hc|done..| | |].
  { intros la H. destruct (cn_receive_affinities config) as [[? ?]|] eqn:E; [|done]. injection H as <-. by eapply co_receive_affinities. }
  { intros la H. destruct (cn_handle_affinities config) as [[? ?]|] eqn:E; [|done]. injection H as <-. by eapply co_handle_affinities. }
  pose proof (Forall2_length _ _ _ Hwr) as Hl3. pose proof (Forall2_length _ _ _ Hwh) as Hl4.
  rewrite -> length_seq in Hl3, Hl4.
  set (y0 := with_threads _ _ _ _ _ _).
  destruct (connect_array rs l.(l_rx_configs) rxs y0) as (c1 & Hr1 & Hd1 & Hn1 & Ho1 & Hw1);
    [done|by rw -Hl3 Hlr|done| | |].
  { intros p Hp. apply elem_of_dom. rw dom_allocated. set_solver. }
  { by intros p c ->%allocated_value. }
  destruct (connect_array hs b hds (with_cfgs c1 ∅ y0)) as (c2 & Hr2 & Hd2 & Hn2 & Ho2 & Hw2);
    [done|by rw -Hl4 Hlh|done| |done|].
  { intros p Hp. apply elem_of_dom. cbn [y_cfgs with_cfgs]. rw Hd1 dom_allocated. set_solver. }
  exists c2. split.
  { rw /connect_threads (entries_ok y0 _ _ Hp2). unbind. rw (entries_ok y0 _ _ Hp3). unbind. rw Hw. unbind. rw Hr1. unbind.
    cbn [v_hd_configs vars_of]. rw Eb Hr2. done. }
  split; [rw Hd2; cbn [y_cfgs with_cfgs]; rw Hd1 dom_allocated dom_empty_L union_empty_l_L //|]. split; [done|]. split.
  - intros i p Hp. destruct (Forall2_lookup_l _ _ _ i i Hwr) as (w & Hwi & Hwd).
    { apply lookup_seq. split; [done|]. pose proof (lookup_lt_Some _ _ _ Hp) as Hlt. by rewrite -> Hlr in Hlt. }
    destruct (Hw1 i p w Hp Hwi) as (c & Hcc & Hcw). exists c, w. rw Ho2 //.
    intros Hph. eapply Hdis; [by eapply list_elem_of_lookup_2|done].
  - intros i p Hp. destruct (Forall2_lookup_l _ _ _ i i Hwh) as (w & Hwi & Hwd).
    { apply lookup_seq. split; [done|]. pose proof (lookup_lt_Some _ _ _ Hp) as Hlt. by rewrite -> Hlh in Hlt. }
    destruct (Hw2 i p w Hp Hwi) as (c & Hcc & Hcw). by exists c, w.
Qed.

(** The environment gives the blocks of the threads, the first of them at
    least, and the threads themselves. *)
Definition threads_given (thread : nat -> option ptr) (fails : nat -> bool) (ths : list ptr) (n : nat) : Prop :=
  hands_out thread id 0 ths /\ (forall i, (i < length ths)%nat -> fails i = false) /\
  (length ths <= n)%nat /\ (length ths <> n -> thread (length ths) = None).

Record threads_env (config : conf_t) (env : setup_env) (rths hths : list ptr) : Prop := {
  te_rx : threads_given env.(en_rx_thread) env.(en_rx_create_fails) rths (receive_num config);
  te_hd : if decide (length rths = receive_num config)
    then threads_given env.(en_hd_thread) env.(en_hd_create_fails) hths (handle_num config) else hths = [];
  te_once : NoDup (rths ++ hths) }.

Definition all_threads (config : conf_t) (rths hths : list ptr) : bool :=
  bool_decide (length rths = receive_num config /\ length hths = handle_num config).

Lemma all_connected_mono streams fds from to aff ps (cfgs cfgs' : gmap ptr thread_cfg) :
  (forall p c, cfgs !! p = Some c -> exists c', cfgs' !! p = Some c' /\ c'.(tc_wiring) = c.(tc_wiring)) ->
  all_connected streams fds from to aff ps cfgs -> all_connected streams fds from to aff ps cfgs'.
Proof.
  intros Hm H i p Hp. destruct (H i p Hp) as (c & w & Hc & Hw & Hwd). destruct (Hm p c Hc) as (c' & Hc' & Hcw).
  exists c', w. split; [done|]. split; [by rw Hcw|done].
Qed.

(** One of the two loops that start threads. *)
Lemma start_array n ths id thread fails a l all y :
  threads_given thread fails ths n -> NoDup ths -> NoDup l -> length l = n -> y.(y_ptrs) !! a = Some (map Some l) ->
  (forall th, th ∈ ths -> y.(y_threads) !! th = None) -> threads_ok all y.(y_cfgs) y.(y_threads) ->
  (forall p, p ∈ l -> exists c, y.(y_cfgs) !! p = Some c /\ c.(tc_thread) = None) ->
  exists cfgs threads, start_threads n 0 id thread fails (Some a) y =
      Done (with_cfgs cfgs threads y, bool_decide (length ths = n)) /\
    threads_ok all cfgs threads /\ (forall p, p ∉ l -> cfgs !! p = y.(y_cfgs) !! p) /\
    (forall p c, y.(y_cfgs) !! p = Some c -> exists c', cfgs !! p = Some c' /\ c'.(tc_wiring) = c.(tc_wiring)) /\
    (forall th, th ∉ ths -> threads !! th = y.(y_threads) !! th).
Proof.
  intros (Hh & Hf & Hn & Hend) Hnd Hl Hlen Ha Hnew Hok Hc.
  apply (start_threads_ok n ths 0 id thread fails a l all y); try done; [lia|].
  intros j th Hj. split; [exact (Hh j th Hj)|]. apply Hf. by eapply lookup_lt_Some.
Qed.

Lemma acquire_threads_ok config env l fds items rxs hds rths hths :
  conf_ok config -> shared_env config env l fds items -> cfgs_env config env l rxs hds ->
  all_cfgs config l rxs hds = true -> threads_env config env rths hths ->
  exists cfgs threads, acquire_threads config env (vars_of l fds)
      (with_threads config l fds items (allocated zero_cfg ∅ (rxs ++ hds)) ∅) =
      Done (vars_of l fds, with_threads config l fds items cfgs threads, config.(cn_sequential) || all_threads config rths hths) /\
    threads_ok (rxs ++ hds) cfgs threads /\ connections config l fds rxs hds cfgs /\
    (config.(cn_sequential) = true -> threads = ∅).
Proof.
  intros Hc Hs Hcf Hall [Hrt Hht Hnd].
  destruct (connect_threads_ok _ _ _ _ _ _ _ Hc Hs Hcf Hall) as (c0 & Hrun & Hd & Hn0 & Hco).
  pose proof (threads_ok_none _ _ Hd Hn0) as Hok0.
  rw /acquire_threads Hrun. unbind. destruct (cn_sequential config); [by exists c0, ∅|]. cbn [orb].
  apply bool_decide_eq_true_1 in Hall as (Hlr & [b Eb] & Hlh).
  destruct (pointer_arrays_all l (se_arrays _ _ _ _ _ Hs)) as (Hp1 & _ & _ & Hp4). specialize (Hp4 b Eb).
  pose proof Hcf as [(_ & _ & _ & _ & Erx) Hhd Hnc]. rewrite -> Eb in Hhd. destruct Hhd as (_ & _ & _ & _ & _ & Ehd).
  rewrite -> (padded_full _ _ Hlr) in Erx. rewrite -> (padded_full _ _ Hlh) in Ehd. rewrite -> Erx in Hp1. rewrite -> Ehd in Hp4.
  apply NoDup_app in Hnc as (Hnr & Hdis & Hnh). apply NoDup_app in Hnd as (Hnrt & Hdt & Hnht).
  set (y0 := with_threads _ _ _ _ _ _).
  assert (forall p, p ∈ rxs ++ hds -> exists c, c0 !! p = Some c /\ c.(tc_thread) = None) as Hidle.
  { intros p Hp. assert (p ∈ dom c0) as [c Hpc]%elem_of_dom by (rw Hd; set_solver). exists c. split; [done|by eapply Hn0]. }
  destruct (start_array _ _ 0 _ _ l.(l_rx_configs) rxs (rxs ++ hds) y0 Hrt Hnrt Hnr Hlr Hp1)
    as (c1 & t1 & Hr1 & Hok1 & Ho1 & Hw1 & Ht1); [done|done|intros p Hp; apply Hidle; set_solver|].
  cbn [v_rx_configs vars_of]. rw Hr1 /stage. unbind.
  rw /all_threads. destruct (decide (length rths = receive_num config)) as [Hlt|Hlt].
  - rw (bool_decide_eq_true_2 _ Hlt).
    destruct (start_array _ _ (receive_num config) _ _ b hds (rxs ++ hds) (with_cfgs c1 t1 y0) Hht Hnht Hnh Hlh Hp4)
      as (c2 & t2 & Hr2 & Hok2 & Ho2 & Hw2 & Ht2); [|done| |].
    { intros th Hth. cbn [y_threads with_cfgs]. rw Ht1 //. intros Hth'. by apply (Hdt th). }
    { intros p Hp. cbn [y_cfgs with_cfgs]. rw Ho1; [apply Hidle; set_solver|]. intros Hp'. by apply (Hdis p). }
    cbn [v_hd_configs vars_of]. rw Eb Hr2. unbind. exists c2, t2. split; [do 2 f_equal; apply bool_decide_ext; tauto|].
    split; [done|]. split; [|done].
    destruct Hco as [Hco1 Hco2]. split; (eapply all_connected_mono; [exact Hw2|]; eapply all_connected_mono; [exact Hw1|done]).
  - rw (bool_decide_eq_false_2 _ Hlt). exists c1, t1. split; [do 2 f_equal; symmetry; apply bool_decide_eq_false_2; tauto|].
    split; [done|]. split; [|done]. destruct Hco as [Hco1 Hco2]. split; (eapply all_connected_mono; [exact Hw1|done]).
Qed.
