(* ===== verification/MainEnd.v ===== *)
(** * MainEnd: main as a whole, from the first socket to the last [free]

    [main_setup] acquires everything or, when it fails late, frees what it
    has acquired; when it fails early, or a thread cannot be created, its
    clean-up is undefined.  The runs of the sequential mode in which no
    datagram arrives are followed to their end, which they have unless the
    arrays on the stack have no elements or more than [memset] is meant for. *)

From S2P Require Import Prelude Global Cli Memory Packet Buffer Stream Client ClientOwn HashTable Protocol Handler Receiver HandlerSpec HandlerThm ReceiverThm Main Setup MainThm Expire SetupThm MainRun.

(** ** The set-up *)

(** What is assumed of the environment at the end: the threads that are
    waited for keep queues and clients in order and end when they have been
    told to; a stop request gets both of its blocks or none, and, when there
    are threads, each gets them. *)
Record end_env (config : conf_t) (env : setup_env) (l : layout) : Prop := {
  ee_joins : joins_ok (l.(l_rx_streams) ++ l.(l_hd_streams)) l.(l_table)
    (stop_rounds env.(en_dealloc) (handle_num config) (stream_count config)) (handle_num config) env.(en_dealloc);
  ee_stops : stops_ok (stop_rounds env.(en_dealloc) (handle_num config) (stream_count config)) ∅ ∅;
  ee_memory : config.(cn_sequential) = false -> stop_memory env.(en_dealloc) (handle_num config) (stream_count config) }.

(** There are threads outside the sequential mode only. *)
Lemma running config env l all cfgs threads p c :
  end_env config env l -> threads_ok all cfgs threads -> (config.(cn_sequential) = true -> threads = ∅) ->
  cfgs !! p = Some c -> c.(tc_thread) <> None -> stop_memory env.(en_dealloc) (handle_num config) (stream_count config).
Proof.
  intros He Hth Hseq Hc Ht. destruct (tc_thread c) as [th|] eqn:E; [|done].
  destruct (th_live _ _ _ Hth p c th Hc E) as [id Hid]. apply (ee_memory _ _ _ He).
  destruct (cn_sequential config); [|done]. rewrite -> (Hseq eq_refl) in Hid. by rewrite -> lookup_empty in Hid.
Qed.

Lemma deallocate_ok config env l fds items rxs hds cfgs threads :
  conf_ok config -> shared_env config env l fds items -> cfgs_env config env l rxs hds -> end_env config env l ->
  threads_ok (rxs ++ hds) cfgs threads -> handlers_wired l hds cfgs -> (config.(cn_sequential) = true -> threads = ∅) ->
  exists y', deallocate_everything config (vars_of l fds) env.(en_dealloc)
      (with_threads config l fds items cfgs threads) = Done y' /\ nothing_left y'.
Proof.
  intros Hc Hs Hcf He Hth Hw Hseq. eapply deallocate_everything_ok; [by eapply with_threads_acquired|apply He|apply He|].
  intros p c _ Hpc Hpt. by eapply running.
Qed.

Lemma main_setup_ok config env l fds items rxs hds rths hths :
  conf_ok config -> shared_env config env l fds items -> cfgs_env config env l rxs hds ->
  threads_env config env rths hths -> end_env config env l ->
  env.(en_stop_mutex_fails) = false -> env.(en_stop_cond_fails) = false ->
  if all_cfgs config l rxs hds && (config.(cn_sequential) || all_threads config rths hths) then
    exists cfgs threads,
      main_setup config env (initial config) = Done (inr (vars_of l fds, with_threads config l fds items cfgs threads)) /\
      threads_ok (rxs ++ hds) cfgs threads /\ connections config l fds rxs hds cfgs /\
      (config.(cn_sequential) = true -> threads = ∅)
  else exists y', main_setup config env (initial config) = Done (inl y') /\ nothing_left y'.
Proof.
  intros Hc Hs Hcf Hte He Em Ec. destruct (main_setup_until _ _ _ _ _ _ _ Hs Hcf) as [E1 E2].
  rw /main_setup E1. unbind. cbn [negb]. rw E2. unfold stage. unbind.
  destruct (all_cfgs config l rxs hds) eqn:Hall; cbn [andb].
  - destruct (acquire_threads_ok _ _ _ _ _ _ _ _ _ Hc Hs Hcf Hall Hte) as (cfgs & threads & Hrun & Hok & Hco & Hseq).
    rw Hrun. unbind. destruct (_ || _) eqn:Hthr; cbn [negb].
    + rw Em Ec. unbind. by exists cfgs, threads.
    + destruct (deallocate_ok _ _ _ _ _ _ _ _ _ Hc Hs Hcf He Hok (connections_wired _ _ _ _ _ _ Hco) Hseq) as (y' & -> & Hy').
      unbind. by exists y'.
  - destruct (deallocate_ok config env l fds items rxs hds (allocated zero_cfg ∅ (rxs ++ hds)) ∅ Hc Hs Hcf He)
      as (y' & Hd & Hy').
    + apply threads_ok_none; [rw dom_allocated dom_empty_L union_empty_l_L //|by intros p c ->%allocated_value].
    + by intros p c _ ->%allocated_value.
    + done.
    + cbn [mbind comp_bind negb]. rw Hd. unbind. by exists y'.
Qed.

(** ** Rounds without datagrams *)

Definition idle (e : seq_env) : Prop := (e.(se_received) = None \/ e.(se_received) = Some []) /\ e.(se_removal) = [].

Lemma expire_empty long_ago h arrays t :
  ht_rep arrays t ∅ ->
  exists arrays' t', expire long_ago [] h arrays t = Done (h, arrays', t') /\ ht_rep arrays' t' ∅ /\
    base.size arrays' = base.size arrays.
Proof.
  intros Ht. destruct (expire_ok long_ago [] h arrays t ∅ (fun _ => mk_blocks [] [] [] [] [] [] []) Ht)
    as (ps & arrays' & t' & Hrun & _ & Hps & Hrep & _ & Hsize); [apply empty_registered|rw map_size_empty; lia|
      rw map_img_empty_L size_empty; cbn; lia|done|].
  assert (ps = []) as ->.
  { destruct ps as [|p ps]; [done|]. destruct (proj1 (Hps p)) as [Hp _]; [left|].
    rewrite -> map_img_empty_L in Hp. by apply not_elem_of_empty in Hp. }
  rewrite -> map_filter_empty in Hrep. by exists arrays', t'.
Qed.

Lemma seq_round_idle rcfg hcfg e m :
  idle e -> ht_rep m.(m_arrays) m.(m_table) ∅ -> m.(m_rx_to_hd).(st_length) = 0 -> m.(m_cnt) <> INT_MAX ->
  exists arrays' t', seq_round rcfg hcfg e m = Done (with_cnt (m.(m_cnt) + 1) (with_table m.(m_heap) arrays' t' m)) /\
    ht_rep arrays' t' ∅ /\ base.size arrays' = base.size m.(m_arrays).
Proof.
  intros [Hr Hq] Ht Hl Hcnt. rw /seq_round /count_round. destruct (Z.eqb_spec m.(m_cnt) INT_MAX); [done|]. unbind.
  assert (forall s, rx_run_once rcfg e.(se_received) s = Done s) as -> by (intros s; by destruct Hr as [-> | ->]). unbind.
  set (m1 := from_rcv _ _). assert (m1 = with_cnt (m.(m_cnt) + 1) m) as -> by (by destruct m).
  assert (forall envs, seq_drain hcfg envs (as_hd (with_cnt (m.(m_cnt) + 1) m)) = Done (as_hd (with_cnt (m.(m_cnt) + 1) m))) as ->.
  { intros envs. destruct envs; cbn [seq_drain]; by rw /as_hd /= Hl. }
  unbind. set (m2 := from_hd _ _). assert (m2 = with_cnt (m.(m_cnt) + 1) m) as -> by (by destruct m).
  destruct (_ =? 0).
  - rw Hq. destruct (expire_empty e.(se_long_ago) m.(m_heap) m.(m_arrays) m.(m_table) Ht) as (arrays' & t' & Hx & Hrep & Hs).
    cbn [m_heap m_arrays m_table with_cnt]. rw Hx. unbind. by exists arrays', t'.
  - exists m.(m_arrays), m.(m_table). split; [by destruct m|done].
Qed.

Lemma seq_loop_idle rcfg hcfg envs m :
  Forall idle envs -> ht_rep m.(m_arrays) m.(m_table) ∅ -> m.(m_rx_to_hd).(st_length) = 0 ->
  m.(m_cnt) + Z.of_nat (length envs) < INT_MAX ->
  exists arrays' t' cnt, seq_loop rcfg hcfg envs m = Done (with_cnt cnt (with_table m.(m_heap) arrays' t' m)) /\
    ht_rep arrays' t' ∅ /\ base.size arrays' = base.size m.(m_arrays).
Proof.
  intros He. revert m. induction He as [|e envs He _ IH] => m Ht Hl Hcnt; cbn [seq_loop length] in *.
  { exists m.(m_arrays), m.(m_table), (m.(m_cnt) + 1). rw /count_round. destruct (Z.eqb_spec m.(m_cnt) INT_MAX); [lia|].
    split; [by destruct m|done]. }
  destruct (seq_round_idle rcfg hcfg e m He Ht Hl ltac:(lia)) as (a1 & t1 & -> & Ht1 & Hs1). unbind.
  destruct (IH (with_cnt (m.(m_cnt) + 1) (with_table m.(m_heap) a1 t1 m)) Ht1 Hl) as (a2 & t2 & c2 & -> & Ht2 & Hs2);
    [cbn; lia|].
  exists a2, t2, c2. split; [done|]. split; [done|]. by rw Hs2.
Qed.

(** ** The sequential mode *)

Lemma acquired_table config l v y tables arrays h :
  acquired config l v y -> table_ok_at l.(l_table) (with_clients_table tables arrays h y) ->
  acquired config l v (with_clients_table tables arrays h y).
Proof. intros [H1 H2 H3 H4 H5 H6 H7 [H8 _]] Ht. by split. Qed.

(** An array that is the only one is the table's. *)
Lemma only_array arrays t m :
  ht_rep arrays t m -> base.size arrays = 1%nat -> exists a, t.(ht_items) = Some a /\ dom arrays = {[a]}.
Proof.
  intros [_ (a & items & Ha & Hi & _) _ _] Hs. exists a. split; [done|].
  rewrite <- size_dom in Hs. symmetry. apply set_eq. intros b. split.
  - intros ->%elem_of_singleton. by eapply elem_of_dom_2.
  - intros Hb. apply elem_of_singleton. apply size_1_elem_of in Hs as [x Hx].
    pose proof (elem_of_dom_2 _ _ _ Hi) as Hd.
    rewrite -> Hx, elem_of_singleton in Hb, Hd. congruence.
Qed.

Lemma load_main_ok config env l fds items rxs hds cfgs sv packet y :
  conf_ok config -> shared_env config env l fds items -> cfgs_env config env l rxs hds ->
  all_cfgs config l rxs hds = true -> (0 < receive_num config)%nat -> connections config l fds rxs hds cfgs ->
  y.(y_ptrs) = pointer_arrays l -> y.(y_cfgs) = cfgs ->
  y.(y_streams) = allocated new_stream ∅ (l.(l_rx_streams) ++ l.(l_hd_streams)) ->
  forall t, y.(y_tables) !! l.(l_table) = Some t ->
  exists w, y.(y_streams) !! w.(wi_tx) = Some new_stream /\ y.(y_streams) !! w.(wi_rx) = Some new_stream /\
    load_main (vars_of l fds) sv packet y =
      Done (w, l.(l_table), mk_main y.(y_heap) y.(y_arrays) t y.(y_nodes) y.(y_reqs) new_stream new_stream 0 packet false
                              sv.(sv_file_buffer) sv.(sv_out) sv.(sv_names) [] 0).
Proof.
  intros Hc Hs Hcf (Hlr & _)%bool_decide_eq_true_1 Hpos [Hco _] Hp <- Hst t Ht.
  destruct (pointer_arrays_all l (se_arrays _ _ _ _ _ Hs)) as (Hp1 & _). rewrite <- Hp in Hp1.
  pose proof Hcf as [(_ & _ & _ & _ & Erx) _ _]. rewrite -> Erx, (padded_full _ _ Hlr) in Hp1.
  destruct rxs as [|p rxs]; [cbn in Hlr; lia|].
  destruct (Hco 0%nat p eq_refl) as (c & w & Hpc & Hcw & s & _ & _ & _ & Hrx & Htx & _).
  assert (forall q, q ∈ l.(l_rx_streams) ++ l.(l_hd_streams) -> y.(y_streams) !! q = Some new_stream) as Hnew.
  { intros q Hq. rw Hst allocated_in //. exact (se_streams _ _ _ _ _ Hs). }
  exists w. assert (y.(y_streams) !! w.(wi_tx) = Some new_stream) as Etx
    by (apply Hnew, elem_of_app; left; by eapply list_elem_of_lookup_2).
  assert (y.(y_streams) !! w.(wi_rx) = Some new_stream) as Erx'
    by (apply Hnew, elem_of_app; right; by eapply list_elem_of_lookup_2).
  split; [done|]. split; [done|]. rw /load_main. cbn [v_rx_configs v_clients vars_of].
  rw (entry_Some y _ _ 0 (Some p) Hp1 eq_refl). unbind. rw (load_Some _ _ _ Hpc). unbind. rw Hcw.
  rw (load_Some _ _ _ Ht). unbind. rw (load_Some _ _ _ Etx). unbind. rw (load_Some _ _ _ Erx'). by unbind.
Qed.

(** What the loop leaves is put back, and the packet is freed. *)
Lemma store_idle l y w packet t arrays' t' :
  y.(y_heap) = empty_heap -> y.(y_tables) = <[l.(l_table) := t]> ∅ ->
  y.(y_streams) !! w.(wi_tx) = Some new_stream -> y.(y_streams) !! w.(wi_rx) = Some new_stream ->
  forall m, m.(m_heap) = upd_packets (<[packet := zeroed_packet]>) empty_heap -> m.(m_arrays) = arrays' -> m.(m_table) = t' ->
  m.(m_nodes) = y.(y_nodes) -> m.(m_reqs) = y.(y_reqs) -> m.(m_rx_to_hd) = new_stream -> m.(m_hd_to_rx) = new_stream ->
  let y1 := store_main w l.(l_table) m y in
  exists packets, free y1.(y_heap).(h_packets) (Some packet) = Done packets /\
    with_clients_table y1.(y_tables) y1.(y_arrays) (with_packets packets y1.(y_heap)) y1 =
      with_clients_table (<[l.(l_table) := t']> ∅) arrays' empty_heap y.
Proof.
  intros Hh Ht Etx Erx m Em <- <- En Er Es1 Es2 y1. exists (delete packet (<[packet := zeroed_packet]> ∅)). split.
  { change (y_heap y1) with (m_heap m). rw Em. exact (free_Some _ _ _ (lookup_insert_eq _ _ _)). }
  rw /y1 /store_main /with_clients_table /with_queues /=. rw Em /with_packets /upd_packets /=.
  rw delete_insert_eq delete_empty Ht insert_insert_eq Es1 Es2 En Er.
  rw (insert_id y.(y_streams) _ _ Etx) (insert_id y.(y_streams) _ _ Erx). reflexivity.
Qed.

(** The arrays of the sequential mode: [-W] must be at least 1, and at most
    32, since more is cleared behind the end of [hd_iovecs]. *)
Definition window_fits (config : conf_t) : bool := (1 <=? config.(cn_window_size)) && (config.(cn_window_size) <=? 32).

Lemma window_arrays config :
  if window_fits config then stack_arrays config.(cn_window_size) = Done () /\ exists l, clear_iovecs config = Done l
  else stack_arrays config.(cn_window_size) = Stuck UB \/
    (stack_arrays config.(cn_window_size) = Done () /\ clear_iovecs config = Stuck UB).
Proof.
  rw /window_fits /stack_arrays /clear_iovecs /memcpy !length_replicate.
  destruct (Z.leb_spec config.(cn_window_size) 0), (Z.leb_spec 1 config.(cn_window_size)),
    (Z.leb_spec config.(cn_window_size) 32); cbn [andb]; try lia; auto; case_decide; eauto; rw /MAX_WINDOW_SIZE in H2; lia.
Qed.

Lemma idle_run_ok config env l fds items rxs hds rths hths rcfg hcfg sv decoded packet envs :
  conf_ok config -> shared_env config env l fds items -> cfgs_env config env l rxs hds ->
  threads_env config env rths hths -> end_env config env l ->
  env.(en_stop_mutex_fails) = false -> env.(en_stop_cond_fails) = false ->
  config.(cn_sequential) = true -> (0 < receive_num config)%nat -> all_cfgs config l rxs hds = true ->
  sv.(sv_decoded) = Some decoded -> decoded ∉ set_entries (config_blocks config) -> sv.(sv_packet) = Some packet ->
  Forall idle envs -> Z.of_nat (length envs) < INT_MAX ->
  if window_fits config
  then exists y', main_sequential config rcfg hcfg env sv envs (initial config) = Done (y', 0) /\ nothing_left y'
  else main_sequential config rcfg hcfg env sv envs (initial config) = Stuck UB.
Proof.
  intros Hc Hs Hcf Hte He Em Ec Hseq Hpos Hall Ed Hdec Ep Henvs Hlen.
  pose proof (main_setup_ok _ _ _ _ _ _ _ _ _ Hc Hs Hcf Hte He Em Ec) as Hset.
  rewrite -> Hall, Hseq in Hset. cbn [andb orb] in Hset.
  destruct Hset as (cfgs & threads & Hrun & Hok & Hco & Hnone).
  rw /main_sequential Hrun. unbind. rw Ed Ep. pose proof (window_arrays config) as Hwin.
  destruct (window_fits config); [destruct Hwin as [-> [iovecs Ei]]|destruct Hwin as [-> | [-> Ei]]; unbind; [done|by rw Ei]].
  unbind. rw Ei. unbind. set (y0 := with_threads config l fds items cfgs threads).
  set (h1 := upd_packets _ _). set (y1 := with_clients_table _ _ h1 _).
  set (t0 := mk_ht (Some false) (Some items) INITIAL_SIZE 0).
  destruct (load_main_ok config env l fds items rxs hds cfgs sv packet y1 Hc Hs Hcf Hall Hpos Hco eq_refl eq_refl
    eq_refl t0 (lookup_insert_eq _ _ _)) as (w & Etx & Erx & Hload).
  rw Hload. unbind. set (m0 := mk_main _ _ _ _ _ _ _ _ _ _ _ _ _ _ _).
  destruct (seq_loop_idle rcfg hcfg envs m0 Henvs (empty_rep ∅ items) eq_refl Hlen) as (a' & t' & cnt & Hloop & Hrep & Hsize).
  rw Hloop. unbind.
  destruct (store_idle l (with_blocks ({[decoded]} ∪ y_blocks y0) y0) w packet t0 a' t' eq_refl eq_refl Etx Erx
    (with_cnt cnt (with_table m0.(m_heap) a' t' m0)) eq_refl eq_refl eq_refl eq_refl eq_refl eq_refl eq_refl)
    as (packets & Hfree & Hstore).
  cbn [m_decoded with_cnt with_table m0].
  set (y2 := store_main w _ _ y1).
  assert (y2 = store_main w l.(l_table) (with_cnt cnt (with_table m0.(m_heap) a' t' m0))
    (with_blocks ({[decoded]} ∪ y_blocks y0) y0)) as -> by reflexivity.
  rw Hfree. unbind. rw Hstore /free_block decide_True; [|cbn; set_solver]. unbind.
  set (y3 := with_blocks _ (with_clients_table _ _ _ _)).
  assert (y3 = with_clients_table (<[l.(l_table) := t']> ∅) a' empty_heap y0) as ->.
  { subst y3. rw /with_blocks /with_clients_table /=. f_equal. set_solver. }
  destruct (only_array a' t' ∅ Hrep) as (a & Ha & Hda).
  { rw Hsize. cbn. by rw map_size_insert_None. }
  destruct (deallocate_everything_ok config l (vars_of l fds) env.(en_dealloc)
    (with_clients_table (<[l.(l_table) := t']> ∅) a' empty_heap y0)) as (y' & Hend & Hy').
  - apply acquired_table; [eapply with_threads_acquired; try done; by eapply connections_wired|]. by eapply empty_table_ok.
  - apply He.
  - apply He.
  - intros p c _ Hpc Hpt. exact (running _ _ _ _ _ _ _ _ He Hok (fun _ => Hnone eq_refl) Hpc Hpt).
  - rw Hend. unbind. by exists y'.
Qed.

(** ** Failures that are not handled *)

Lemma join_nothing n stop joined configs y :
  (0 < n)%nat -> (configs = None \/ y.(y_ptrs) = ∅) -> join_threads stop n 0 joined configs y = Stuck UB.
Proof.
  intros Hn H. destruct n as [|n]; [lia|]. cbn [join_threads].
  destruct configs as [a|]; [|done]. destruct H as [?|H]; [done|]. rw /entry H /load lookup_empty. done.
Qed.

Lemma acquire_shared_vars config env fds y v y' ok :
  acquire_shared config env fds y = Done (v, y', ok) -> v.(v_rx_configs) = None.
Proof.
  rw /acquire_shared /stage. destruct (alloc_stream_array _ _ _ y) as [[y1 [|]]|]; unbind; [|by intros [= <- _ _]|done].
  destruct (alloc_stream_array _ _ _ y1) as [[y2 [|]]|]; unbind; [|by intros [= <- _ _]|done].
  destruct (alloc_table env y2) as [[y3 b]|]; unbind; [|done]. by intros [= <- _ _].
Qed.

Lemma early_failure_ok config env fds v y ok :
  length env.(en_sockfds) = stream_count config -> length fds = stream_count config -> opens env.(en_sockets) fds ->
  acquire_shared config env fds (with_fds (list_to_set fds) (initial config)) = Done (v, y, ok) ->
  ok = false \/ env.(en_rx_configs) = None -> (0 < receive_num config)%nat ->
  main_setup config env (initial config) = Stuck UB.
Proof.
  intros Hl1 Hl2 Hop Hacq Hfail Hn. pose proof (acquire_shared_vars _ _ _ _ _ _ _ Hacq) as Hv.
  rw /main_setup (open_sockets_ok _ _ _ [] env.(en_sockfds) fds) //. unbind. cbn [negb app length].
  rw union_empty_r_L Hacq. unfold stage. unbind. destruct ok.
  - destruct Hfail as [?|Hfail]; [done|]. rw /acquire_cfgs /stage Hfail. cbn [alloc_cfg_array]. unbind. cbn [negb].
    rw /deallocate_everything. cbn [v_rx_configs]. rw join_nothing //. by left.
  - unbind. cbn [negb]. rw /deallocate_everything Hv join_nothing //. by left.
Qed.

Lemma thread_failure_ok config env l fds items rxs hds th :
  conf_ok config -> shared_env config env l fds items -> cfgs_env config env l rxs hds ->
  all_cfgs config l rxs hds = true -> config.(cn_sequential) = false -> (0 < receive_num config)%nat ->
  env.(en_rx_thread) 0%nat = Some th -> env.(en_rx_create_fails) 0%nat = true ->
  main_setup config env (initial config) = Stuck UB.
Proof.
  intros Hc Hs Hcf Hall Hseq Hn Eth Ef. destruct (main_setup_until _ _ _ _ _ _ _ Hs Hcf) as [E1 E2].
  destruct (connect_threads_ok _ _ _ _ _ _ _ Hc Hs Hcf Hall) as (cfgs & Hrun & Hd & _ & _).
  rw /main_setup E1. unbind. cbn [negb]. rw E2 Hall. unfold stage. unbind. rw /acquire_threads /stage Hrun. unbind.
  rw Hseq. apply bool_decide_eq_true_1 in Hall as (Hlr & _).
  destruct (pointer_arrays_all l (se_arrays _ _ _ _ _ Hs)) as (Hp1 & _).
  pose proof Hcf as [(_ & _ & _ & _ & Erx) _ _]. rewrite -> Erx, (padded_full _ _ Hlr) in Hp1.
  destruct (receive_num config) as [|n] eqn:En; [lia|]. destruct rxs as [|p rxs]; [done|].
  assert (p ∈ dom cfgs) as [c Hpc]%elem_of_dom by (rw Hd; set_solver).
  set (y0 := with_threads config l fds items cfgs ∅).
  cbn [v_rx_configs vars_of start_threads].
  rw (entry_Some y0 _ _ 0 (Some p) Hp1 eq_refl). unbind. rw (load_Some _ _ _ Hpc). unbind. rw Eth Ef. unbind. cbn [negb].
  set (y1 := with_cfgs _ _ y0). rw /deallocate_everything En. cbn [v_rx_configs vars_of join_threads].
  rw (entry_Some y1 _ _ 0 (Some p) Hp1 eq_refl). unbind. rw /join_thread. cbn [y_cfgs y1 with_cfgs].
  rw (load_Some _ _ _ (lookup_insert_eq _ _ _)). unbind. cbn [tc_thread y_threads].
  by rw (load_Some _ _ _ (lookup_insert_eq _ _ _)).
Qed.

Lemma stop_failure_ok config env l fds items rxs hds rths hths rcfg hcfg sv decoded packet envs :
  conf_ok config -> shared_env config env l fds items -> cfgs_env config env l rxs hds ->
  threads_env config env rths hths -> end_env config env l ->
  env.(en_stop_mutex_fails) = true \/ env.(en_stop_cond_fails) = true ->
  config.(cn_sequential) = true -> (0 < receive_num config)%nat -> all_cfgs config l rxs hds = true ->
  sv.(sv_decoded) = Some decoded -> sv.(sv_packet) = Some packet ->
  main_sequential config rcfg hcfg env sv envs (initial config) = Stuck UB.
Proof.
  intros Hc Hs Hcf Hte He Hfail Hseq Hn Hall Ed Ep. destruct (main_setup_until _ _ _ _ _ _ _ Hs Hcf) as [E1 E2].
  destruct (acquire_threads_ok _ _ _ _ _ _ _ _ _ Hc Hs Hcf Hall Hte) as (cfgs & threads & Hrun & Hok & Hco & Hnone).
  rewrite -> Hseq in Hrun. cbn [orb] in Hrun.
  destruct (deallocate_ok _ _ _ _ _ _ _ _ _ Hc Hs Hcf He Hok (connections_wired _ _ _ _ _ _ Hco) Hnone) as (y' & Hd & Hy').
  assert (deallocate_everything config (vars_of l fds) env.(en_dealloc) y' = Stuck UB) as Hd2.
  { rw /deallocate_everything join_nothing //. right. apply (nl_ptrs _ Hy'). }
  assert (forall (y'' : sys_t), y''.(y_ptrs) = ∅ -> load_main (vars_of l fds) sv packet y'' = Stuck UB) as Hload.
  { intros y'' Hp. by rw /load_main /entry /vars_of Hp. }
  rw /main_sequential /main_setup E1. unbind. cbn [negb]. rw E2 Hall. unfold stage. unbind. rw Hrun. unbind. cbn [negb].
  rw Hd. destruct (en_stop_mutex_fails env), (en_stop_cond_fails env); unbind; rewrite -> ?Hd2, ?Hd; unbind;
    [done| | |by destruct Hfail]; rw Ed Ep; (destruct (stack_arrays _) as [[]|r] eqn:Es; unbind;
      [|rw /stack_arrays in Es; by case_match; simplify_eq]);
    (destruct (clear_iovecs _) as [iovecs|r] eqn:Ei; unbind; [|rw /clear_iovecs /memcpy in Ei; by case_match; simplify_eq]);
    rw Hload //; apply (nl_ptrs _ Hy').
Qed.

(** ** Properties *)

(** C7: main acquires everything or leaves nothing, as far as its clean-up
    goes.  Let the sockets, the streams with their locks, the table and the
    array of the receivers' configurations be had, no [pthread_create] fail,
    and the mutex and the condition of the stop signal be initialised (C38,
    C39 and C40 are about the failures of these, which the clean-up does not
    survive).  Then the set-up either succeeds (every configuration is
    there, connected to the streams and the socket of its thread, and
    outside the sequential mode every thread runs), and
    [deallocate_everything] ends with all of it freed, once, without an
    invalid access; or memory for a configuration, for the array of the
    handlers' configurations or for a [pthread_t] is missing, and main
    returns with all that was acquired freed, the threads already running
    included.  Of the threads it is assumed that they keep queues and
    clients accounted for while main waits for them, that a receiver ends
    when its [stop] is set, and a handler when main has put as many stop
    requests into its stream as there are handlers; for these requests there
    must be memory. *)
Theorem main_setup_all_or_nothing config env l fds items rxs hds rths hths :
  conf_ok config -> shared_env config env l fds items -> cfgs_env config env l rxs hds ->
  threads_env config env rths hths -> end_env config env l ->
  env.(en_stop_mutex_fails) = false -> env.(en_stop_cond_fails) = false ->
  if all_cfgs config l rxs hds && (config.(cn_sequential) || all_threads config rths hths) then
    exists v y, main_setup config env (initial config) = Done (inr (v, y)) /\
      acquired config l v y /\ connections config l fds rxs hds y.(y_cfgs) /\
      exists y', deallocate_everything config v env.(en_dealloc) y = Done y' /\ nothing_left y'
  else exists y', main_setup config env (initial config) = Done (inl y') /\ nothing_left y'.
Proof.
  intros Hc Hs Hcf Hte He Em Ec. pose proof (main_setup_ok _ _ _ _ _ _ _ _ _ Hc Hs Hcf Hte He Em Ec) as H.
  destruct (_ && _); [|done]. destruct H as (cfgs & threads & Hrun & Hok & Hco & Hseq).
  pose proof (connections_wired _ _ _ _ _ _ Hco) as Hw.
  do 2 eexists. split; [exact Hrun|]. split; [by eapply with_threads_acquired|]. split; [exact Hco|].
  by eapply deallocate_ok.
Qed.

(** One receiver, one handler, one stream.  The receiver ends when it has been
    told to, the handler when a stop request has been queued. *)
Definition test_window (sequential : bool) (window_size : Z) : conf_t :=
  mk_conf sequential window_size (mk_setup 1 1 [0] [0] 1) (Some 1%positive) None None (Some 2%positive) (Some 3%positive).
Definition test_conf (sequential : bool) : conf_t := test_window sequential 31.
Definition test_stop : stop_env := mk_stop_env (Some 81%positive) (mk_snode None Poison) (Some 82%positive).
Definition any_stop (y : sys_t) : bool := existsb (fun e => e.2.(r_stop)) (map_to_list y.(y_reqs)).
Definition test_dealloc : dealloc_env :=
  mk_dealloc_env (fun _ c y => if c.(tc_stop) then Some y else None) (fun y0 _ _ y => if any_stop y0 then Some y else None)
    (fun _ _ => test_stop).
Definition test_env (table hd_config : option ptr) (create_fails stop_fails : bool) : setup_env :=
  let stream p := mk_stream_env (Some p) false false in
  mk_setup_env [0] (fun _ => mk_socket_env 7 false)
    (Some 10%positive) (fun _ => stream 11%positive) (Some 20%positive) (fun _ => stream 21%positive)
    table (Some 31%positive) (Some 32%positive) false
    (Some 40%positive) (fun _ => Some 41%positive) (Some 50%positive) (fun _ => hd_config)
    (fun _ => Some 61%positive) (fun _ => create_fails) (fun _ => Some 71%positive) (fun _ => false)
    stop_fails false test_dealloc.
Definition test_layout (hd_config : option ptr) : layout :=
  mk_layout 10%positive [11%positive] 20%positive [21%positive] 40%positive [Some 41%positive]
    (Some 50%positive) [hd_config] 30%positive.
Definition test_hds (hd_config : option ptr) : list ptr := match hd_config with Some p => [p] | None => [] end.

Lemma hands_out_one {A} (env : nat -> A) f p : f (env 0%nat) = Some p -> hands_out env f 0 [p].
Proof. intros H [|j] q Hq; [by injection Hq as <-|done]. Qed.

Lemma test_conf_ok sequential : conf_ok (test_conf sequential).
Proof.
  split; cbn; try done.
  - split; [done|]. apply Forall_singleton. lia.
  - split; [done|]. apply Forall_singleton. lia.
  - apply (bool_decide_eq_true_1 _). reflexivity.
Qed.

Lemma test_shared sequential hd create_fails stop_fails :
  shared_env (test_conf sequential) (test_env (Some 30%positive) hd create_fails stop_fails) (test_layout hd) [7] 31%positive.
Proof.
  split.
  - split; [done|]. split; [done|]. intros [|i] fd Hfd; [by injection Hfd as <-|done].
  - split_and!; try done. by apply hands_out_one.
  - split_and!; try done. by apply hands_out_one.
  - split_and!; try done.
  - apply (bool_decide_eq_true_1 _). reflexivity.
  - apply (bool_decide_eq_true_1 _). reflexivity.
Qed.

Lemma test_cfgs sequential table hd create_fails stop_fails :
  hd = None \/ hd = Some 51%positive ->
  cfgs_env (test_conf sequential) (test_env table hd create_fails stop_fails) (test_layout hd) [41%positive] (test_hds hd).
Proof.
  intros Hhd. split.
  - split; [done|]. split; [by apply hands_out_one|]. split; [exact (le_n 1)|]. split; [|done]. by intros [].
  - cbn [l_hd_configs test_layout]. split; [done|]. split; [done|]. destruct Hhd as [-> | ->].
    + split_and!; [intros j p; by rw lookup_nil|apply Nat.le_0_l|done|done].
    + split; [by apply hands_out_one|]. split; [exact (le_n 1)|]. split; [|done]. by intros [].
  - destruct Hhd as [-> | ->]; apply (bool_decide_eq_true_1 _); reflexivity.
Qed.

Lemma test_threads sequential table hd stop_fails :
  threads_env (test_conf sequential) (test_env table hd false stop_fails) [61%positive] [71%positive].
Proof.
  split.
  - split; [by apply hands_out_one|]. split; [done|]. split; [exact (le_n 1)|]. by intros [].
  - cbn. split; [by apply hands_out_one|]. split; [done|]. split; [exact (le_n 1)|]. by intros [].
  - apply (bool_decide_eq_true_1 _). reflexivity.
Qed.

Lemma test_stops_ok : stops_ok [(test_stop, 0%nat)] ∅ ∅.
Proof.
  split; [|split|split]; cbn; try apply NoDup_singleton; try done.
  by intros e j [= -> _]%list_elem_of_singleton.
Qed.

Lemma any_stop_told y s : told_to_stop y s 1 -> any_stop y = true.
Proof.
  intros (st & q & _ & _ & Hq). destruct (filter _ q) as [|p l] eqn:E; [cbn in Hq; lia|].
  assert (p ∈ p :: l) as Hp by apply list_elem_of_here. rewrite <- E in Hp. apply list_elem_of_filter in Hp as [Hp _].
  rw /is_stop /req_of in Hp. destruct (content_of y.(y_nodes) p) as [r|]; [|done]. cbn in Hp.
  destruct (y.(y_reqs) !! r) as [req|] eqn:Er; [|done].
  apply existsb_exists. exists (r, req). split; [|done]. by apply list_elem_of_In, elem_of_map_to_list.
Qed.

Lemma test_joins ps tp rounds : joins_ok ps tp rounds 1 test_dealloc.
Proof.
  split.
  - intros id c y y'. cbn. destruct (tc_stop c); [|done]. by intros [= <-].
  - intros y0 id c y y'. cbn. destruct (any_stop y0); [|done]. by intros [= <-].
  - intros id c y Hc. cbn. rw Hc. by eexists.
  - intros y0 id c w y _ Ht. cbn. rw (any_stop_told _ _ Ht). by eexists.
Qed.

Lemma test_end sequential table hd create_fails stop_fails :
  end_env (test_conf sequential) (test_env table hd create_fails stop_fails) (test_layout hd).
Proof. split; [apply test_joins|exact test_stops_ok|by intros _ i j]. Qed.

(** Both cases: all is there, or the handler's configuration is missing. *)
Lemma main_setup_all_or_nothing_witness :
  (exists v y, main_setup (test_conf false) (test_env (Some 30%positive) (Some 51%positive) false false) (initial (test_conf false)) =
      Done (inr (v, y)) /\
    acquired (test_conf false) (test_layout (Some 51%positive)) v y /\
    connections (test_conf false) (test_layout (Some 51%positive)) [7] [41%positive] [51%positive] y.(y_cfgs) /\
    exists y', deallocate_everything (test_conf false) v test_dealloc y = Done y' /\
      nothing_left y') /\
  exists y', main_setup (test_conf false) (test_env (Some 30%positive) None false false) (initial (test_conf false)) =
    Done (inl y') /\ nothing_left y'.
Proof.
  split.
  - exact (main_setup_all_or_nothing (test_conf false) _ _ _ _ _ _ _ _ (test_conf_ok _) (test_shared false (Some 51%positive) false false)
      (test_cfgs _ _ _ _ _ (or_intror eq_refl)) (test_threads _ _ _ _) (test_end _ _ _ _ _) eq_refl eq_refl).
  - exact (main_setup_all_or_nothing (test_conf false) _ _ _ _ _ _ _ _ (test_conf_ok _) (test_shared false None false false)
      (test_cfgs _ _ _ _ _ (or_introl eq_refl)) (test_threads _ _ _ _) (test_end _ _ _ _ _) eq_refl eq_refl).
Defined.

(** C36: a run of the sequential mode without clients.  When everything can
    be had and the number of datagrams to be received at once ([-W]) is
    between 1 and 32, main in sequential mode goes through any number of
    rounds below 2^31 - 1 in which no datagram arrives, the removals of
    clients every tenth round included, and then ends with 0, having closed
    its socket and freed every block it has acquired; no access is invalid,
    no mutex blocks, the loop around the handler ends.  With [-W 0] there are
    arrays without elements, and with more than 32, as its usage text
    recommends, [memset] clears memory behind the array [hd_iovecs]: both are
    undefined. *)
Theorem idle_run_frees config env l fds items rxs hds rths hths rcfg hcfg sv decoded packet envs :
  conf_ok config -> shared_env config env l fds items -> cfgs_env config env l rxs hds ->
  threads_env config env rths hths -> end_env config env l ->
  env.(en_stop_mutex_fails) = false -> env.(en_stop_cond_fails) = false ->
  config.(cn_sequential) = true -> (0 < receive_num config)%nat -> all_cfgs config l rxs hds = true ->
  sv.(sv_decoded) = Some decoded -> decoded ∉ set_entries (config_blocks config) -> sv.(sv_packet) = Some packet ->
  Forall idle envs -> Z.of_nat (length envs) < INT_MAX ->
  if window_fits config
  then exists y', main_sequential config rcfg hcfg env sv envs (initial config) = Done (y', 0) /\ nothing_left y'
  else main_sequential config rcfg hcfg env sv envs (initial config) = Stuck UB.
Proof. apply idle_run_ok. Qed.

Definition test_vars : seq_vars := mk_seq_vars (Some 90%positive) (Some 91%positive) [] [] [].

(** Twenty-five rounds, with two removals; and a receive window of 100. *)
Lemma idle_run_frees_witness :
  (exists y', main_sequential (test_conf true) (test_rx_cfg 100) cfg31 (test_env (Some 30%positive) (Some 51%positive) false false)
      test_vars (replicate 25 (mk_seq_env None [] (fun _ => true) [])) (initial (test_conf true)) = Done (y', 0) /\
    nothing_left y') /\
  main_sequential (test_window true 100) (test_rx_cfg 100) cfg31 (test_env (Some 30%positive) (Some 51%positive) false false)
    test_vars [] (initial (test_window true 100)) = Stuck UB.
Proof.
  split.
  - apply (idle_run_frees (test_conf true) _ _ _ _ _ _ [61%positive] [71%positive] (test_rx_cfg 100) cfg31 test_vars
      90%positive 91%positive _ (test_conf_ok _) (test_shared true (Some 51%positive) false false)
      (test_cfgs _ _ _ _ _ (or_intror eq_refl)) (test_threads _ _ _ _) (test_end _ _ _ _ _)); try reflexivity.
    + exact (le_n 1).
    + apply (bool_decide_eq_true_1 _). reflexivity.
    + apply Forall_replicate. split; [by left|done].
  - assert (conf_ok (test_window true 100)) as Hc by (destruct (test_conf_ok true); by split).
    assert (shared_env (test_window true 100) (test_env (Some 30%positive) (Some 51%positive) false false)
      (test_layout (Some 51%positive)) [7] 31%positive) as Hs by (destruct (test_shared true (Some 51%positive) false false); by split).
    assert (cfgs_env (test_window true 100) (test_env (Some 30%positive) (Some 51%positive) false false)
      (test_layout (Some 51%positive)) [41%positive] [51%positive]) as Hcf
      by (destruct (test_cfgs true (Some 30%positive) (Some 51%positive) false false (or_intror eq_refl)); by split).
    assert (threads_env (test_window true 100) (test_env (Some 30%positive) (Some 51%positive) false false)
      [61%positive] [71%positive]) as Ht by (destruct (test_threads true (Some 30%positive) (Some 51%positive) false); by split).
    assert (end_env (test_window true 100) (test_env (Some 30%positive) (Some 51%positive) false false)
      (test_layout (Some 51%positive))) as He
      by (destruct (test_end true (Some 30%positive) (Some 51%positive) false false); by split).
    apply (idle_run_frees (test_window true 100) _ _ _ _ _ _ [61%positive] [71%positive] (test_rx_cfg 100) cfg31 test_vars
      90%positive 91%positive [] Hc Hs Hcf Ht He); try reflexivity.
    + exact (le_n 1).
    + apply (bool_decide_eq_true_1 _). reflexivity.
    + by apply Forall_nil_2.
Defined.

(** C38: an early failure is not survived.  When the streams, the table of
    clients or the array of the receivers' configurations cannot be had,
    main calls [deallocate_everything] with a null array of configurations,
    which reads the configuration of the first receiver from it. *)
Theorem early_failure_undefined config env fds v y ok :
  length env.(en_sockfds) = stream_count config -> length fds = stream_count config -> opens env.(en_sockets) fds ->
  acquire_shared config env fds (with_fds (list_to_set fds) (initial config)) = Done (v, y, ok) ->
  ok = false \/ env.(en_rx_configs) = None -> (0 < receive_num config)%nat ->
  main_setup config env (initial config) = Stuck UB.
Proof. apply early_failure_ok. Qed.

(** There is no memory for the table. *)
Lemma early_failure_undefined_witness :
  main_setup (test_conf false) (test_env None (Some 51%positive) false false) (initial (test_conf false)) = Stuck UB.
Proof.
  eapply (early_failure_undefined (test_conf false) (test_env None (Some 51%positive) false false) [7]);
    [done|done| |vm_compute; reflexivity|by left|exact (le_n 1)].
  intros [|i] fd Hfd; [by injection Hfd as <-|done].
Defined.

(** C39: a thread that cannot be created is waited for.  The configuration
    of a receiver has its [pthread_t] before the thread exists; when
    [pthread_create] fails for the first receiver, the clean-up joins a
    thread that is not there. *)
Theorem thread_failure_undefined config env l fds items rxs hds th :
  conf_ok config -> shared_env config env l fds items -> cfgs_env config env l rxs hds ->
  all_cfgs config l rxs hds = true -> config.(cn_sequential) = false -> (0 < receive_num config)%nat ->
  env.(en_rx_thread) 0%nat = Some th -> env.(en_rx_create_fails) 0%nat = true ->
  main_setup config env (initial config) = Stuck UB.
Proof. apply thread_failure_ok. Qed.

Lemma thread_failure_undefined_witness :
  main_setup (test_conf false) (test_env (Some 30%positive) (Some 51%positive) true false) (initial (test_conf false)) =
    Stuck UB.
Proof.
  apply (thread_failure_undefined (test_conf false) _ _ _ _ _ _ 61%positive (test_conf_ok _)
    (test_shared false (Some 51%positive) true false) (test_cfgs _ _ _ _ _ (or_intror eq_refl)));
    [reflexivity|reflexivity|exact (le_n 1)|reflexivity|reflexivity].
Defined.

(** C40: main goes on after it has freed everything.  When the mutex or the
    condition of the stop signal cannot be initialised,
    [deallocate_everything] is called, but main does not return: in
    sequential mode it uses the configurations it has freed, or frees them
    once more. *)
Theorem stop_failure_undefined config env l fds items rxs hds rths hths rcfg hcfg sv decoded packet envs :
  conf_ok config -> shared_env config env l fds items -> cfgs_env config env l rxs hds ->
  threads_env config env rths hths -> end_env config env l ->
  env.(en_stop_mutex_fails) = true \/ env.(en_stop_cond_fails) = true ->
  config.(cn_sequential) = true -> (0 < receive_num config)%nat -> all_cfgs config l rxs hds = true ->
  sv.(sv_decoded) = Some decoded -> sv.(sv_packet) = Some packet ->
  main_sequential config rcfg hcfg env sv envs (initial config) = Stuck UB.
Proof. apply stop_failure_ok. Qed.

Lemma stop_failure_undefined_witness :
  main_sequential (test_conf true) (test_rx_cfg 100) cfg31 (test_env (Some 30%positive) (Some 51%positive) false true)
    test_vars [] (initial (test_conf true)) = Stuck UB.
Proof.
  apply (stop_failure_undefined (test_conf true) _ _ _ _ _ _ [61%positive] [71%positive] (test_rx_cfg 100) cfg31 test_vars
    90%positive 91%positive _ (test_conf_ok _) (test_shared true (Some 51%positive) false true)
    (test_cfgs _ _ _ _ _ (or_intror eq_refl)) (test_threads _ _ _ _) (test_end _ _ _ _ _));
    [by left|reflexivity|exact (le_n 1)|reflexivity|reflexivity|reflexivity].
Defined.

(** C9: the clean-up.  In any state in which every open descriptor is one of
    the sockets, every node and request is in one of the queues, what is on
    the heap is owned by the clients of the table, and every thread belongs
    to a configuration, however many requests are queued and clients
    registered, [deallocate_everything] ends, without an invalid access,
    with all of it freed, the stop requests it has put into the queues
    itself included.  The threads it waits for may go on with queues and
    clients.  It is assumed that a receiver ends once its [stop] is set, that
    a handler ends once its stream has got as many stop requests as there
    are handlers, and, if a handler runs, that there is memory for the stop
    requests: that they are sent, to the streams the handlers take from and
    before the handlers are waited for, is what makes the clean-up end. *)
Theorem deallocate_everything_frees config l v env y :
  acquired config l v y ->
  joins_ok (l.(l_rx_streams) ++ l.(l_hd_streams)) l.(l_table)
    (stop_rounds env (handle_num config) (stream_count config)) (handle_num config) env ->
  stops_ok (stop_rounds env (handle_num config) (stream_count config)) y.(y_nodes) y.(y_reqs) ->
  (forall p c, p ∈ set_entries l.(l_hd_cfgs) -> y.(y_cfgs) !! p = Some c -> c.(tc_thread) <> None ->
     stop_memory env (handle_num config) (stream_count config)) ->
  exists y', deallocate_everything config v env y = Done y' /\ nothing_left y'.
Proof. apply deallocate_everything_ok. Qed.

(** A receiver and a handler that run. *)
Definition idle_cfgs : gmap ptr thread_cfg :=
  <[41%positive := mk_tcfg None false (Some (mk_wiring 0 7 21%positive 11%positive None))]>
  (<[51%positive := mk_tcfg None false (Some (mk_wiring 0 7 11%positive 21%positive None))]> ∅).
Definition running_cfgs : gmap ptr thread_cfg :=
  <[51%positive := mk_tcfg (Some 71%positive) false (Some (mk_wiring 0 7 11%positive 21%positive None))]>
  (<[41%positive := mk_tcfg (Some 61%positive) false (Some (mk_wiring 0 7 21%positive 11%positive None))]> idle_cfgs).
Definition running_threads : gmap ptr (option nat) := <[71%positive := Some 1%nat]> (<[61%positive := Some 0%nat]> ∅).

Lemma running_ok : threads_ok [41%positive; 51%positive] running_cfgs running_threads.
Proof.
  assert (threads_ok [41%positive; 51%positive] idle_cfgs ∅) as H0.
  { apply threads_ok_none; [apply (bool_decide_eq_true_1 _); reflexivity|].
    rw /idle_cfgs. intros p c [[_ <-]|[_ [[_ <-]|[_ H%lookup_empty_Some]]%lookup_insert_Some]]%lookup_insert_Some; done. }
  pose proof (threads_ok_start _ _ _ _ _ 61%positive 0%nat H0 (lookup_insert_eq _ _ _) eq_refl eq_refl) as H1.
  exact (threads_ok_start _ _ _ 51%positive (mk_tcfg None false (Some (mk_wiring 0 7 11%positive 21%positive None)))
    71%positive 1%nat H1 eq_refl eq_refl eq_refl).
Qed.

(** With one request in the stream to the handlers. *)
Definition test_queue : sys_t :=
  let y := with_threads (test_conf false) (test_layout (Some 51%positive)) [7] 31%positive running_cfgs running_threads in
  with_queues (<[11%positive := mk_stream Null (Node 85%positive) false 1 0]> y.(y_streams))
    (<[85%positive := mk_snode (Some 86%positive) Null]> ∅) (<[86%positive := new_request]> ∅) y.

Lemma test_queue_ok :
  queues_ok [11%positive; 21%positive] test_queue.(y_streams) test_queue.(y_nodes) test_queue.(y_reqs) [[85%positive]; []].
Proof.
  split.
  - apply (bool_decide_eq_true_1 _). reflexivity.
  - apply Forall2_cons. split; [|apply Forall2_cons; split; [|by apply Forall2_nil]].
    + eexists. split; [reflexivity|]. split; [done|]. exists [85%positive], []. split; [done|].
      split; [apply NoDup_singleton|]. split; [|by split]. cbn. split; [done|]. eexists. by split.
    + eexists. split; [reflexivity|]. split; [done|]. apply new_stream_rep.
  - apply NoDup_singleton.
  - apply (bool_decide_eq_true_1 _). reflexivity.
  - apply NoDup_singleton.
  - apply (bool_decide_eq_true_1 _). reflexivity.
Qed.

Lemma test_queue_stops : stops_ok [(test_stop, 0%nat)] test_queue.(y_nodes) test_queue.(y_reqs).
Proof.
  split; [|split|split]; cbn; try apply NoDup_singleton.
  - by intros e j [= -> _]%list_elem_of_singleton.
  - by intros n ->%list_elem_of_singleton.
  - by intros c ->%list_elem_of_singleton.
Qed.

Lemma test_queue_acquired :
  acquired (test_conf false) (test_layout (Some 51%positive)) (vars_of (test_layout (Some 51%positive)) [7]) test_queue.
Proof.
  destruct (with_threads_acquired (test_conf false) _ _ _ _ _ _ running_cfgs running_threads (test_conf_ok _)
    (test_shared false (Some 51%positive) false false) (test_cfgs _ _ _ _ _ (or_intror eq_refl)) running_ok)
    as [H1 H2 H3 H4 H5 H6 H7 [_ H8]].
  - intros p c ->%list_elem_of_singleton [= <-] _. eexists. split; [done|]. apply list_elem_of_here.
  - split; try done. split; [|exact H8]. exists [[85%positive]; []]. exact test_queue_ok.
Qed.

Lemma deallocate_everything_frees_witness :
  exists y', deallocate_everything (test_conf false) (vars_of (test_layout (Some 51%positive)) [7]) test_dealloc test_queue = Done y' /\
    nothing_left y'.
Proof.
  apply (deallocate_everything_frees _ _ _ _ _ test_queue_acquired).
  - apply test_joins.
  - exact test_queue_stops.
  - by intros p c _ _ _ i j.
Defined.

(** ** Stop requests *)

(** C37: every handler is told to stop.  Whatever requests are queued, when
    there is memory for the stop requests, the loop over handlers and
    streams puts behind the queue of each stream to the handlers as many stop
    requests as there are handlers, so that each handler of the stream can
    take one; the requests already queued stay in front of them and
    unchanged. *)
Theorem stop_requests_reach config env a ps rest y qs :
  y.(y_ptrs) !! a = Some (map Some ps) -> length ps = stream_count config -> NoDup (ps ++ rest) ->
  queues_ok (ps ++ rest) y.(y_streams) y.(y_nodes) y.(y_reqs) qs ->
  stops_ok (stop_rounds env (handle_num config) (stream_count config)) y.(y_nodes) y.(y_reqs) ->
  (forall i j, (i < handle_num config)%nat -> (j < stream_count config)%nat -> (env.(de_stops) i j).(sp_node) <> None) ->
  exists streams nodes reqs qs',
    send_stops (stop_rounds env (handle_num config) (stream_count config)) (Some a) y = Done (with_queues streams nodes reqs y) /\
    queues_ok (ps ++ rest) streams nodes reqs qs' /\
    (forall j q, (j < stream_count config)%nat -> qs !! j = Some q -> exists ns, qs' !! j = Some (q ++ ns) /\
       length ns = handle_num config /\ Forall (fun n => req_of nodes reqs n = Some stop_req) ns) /\
    (forall x r, req_of y.(y_nodes) y.(y_reqs) x = Some r -> req_of nodes reqs x = Some r).
Proof.
  intros Ha Hl Hnd Hq Hst Hmem.
  destruct (send_stops_ok a ps rest (stop_rounds env (handle_num config) (stream_count config)) y qs Ha)
    as (s & n & r & qs' & Hrun & Hok & Hqs & Hreq & Hkeep); try done.
  { rw Hl. apply stop_rounds_range. }
  exists s, n, r, qs'. split; [done|]. split; [done|]. split; [|done].
  intros j q Hj Hqj. eexists. split; [rw Hqs Hqj; reflexivity|]. split; [by apply sent_to_length; [|intros; apply Hmem]|].
  apply Forall_forall. intros m ([e i] & Hin & Hm)%list_elem_of_omap. cbn in Hm. destruct (decide (i = j)); [|done].
  by eapply Hreq.
Qed.

Lemma stop_requests_reach_witness :
  exists streams nodes reqs qs',
    send_stops (stop_rounds test_dealloc 1 1) (Some 10%positive) test_queue =
      Done (with_queues streams nodes reqs test_queue) /\
    queues_ok ([11%positive] ++ [21%positive]) streams nodes reqs qs' /\
    (forall j q, (j < 1)%nat -> [[85%positive]; []] !! j = Some q -> exists ns, qs' !! j = Some (q ++ ns) /\
       length ns = 1%nat /\ Forall (fun n => req_of nodes reqs n = Some stop_req) ns) /\
    (forall x r, req_of test_queue.(y_nodes) test_queue.(y_reqs) x = Some r -> req_of nodes reqs x = Some r).
Proof.
  apply (stop_requests_reach (test_conf true)); [reflexivity|reflexivity| |exact test_queue_ok| |done].
  - apply (bool_decide_eq_true_1 _). reflexivity.
  - exact test_queue_stops.
Defined.

(** ** The signal *)

(** The loop of main as far as the signal is concerned: one entry for each
    round, with the point at which the signal arrives; the result is the
    round in which the loop is left, and the state. *)
Definition later (n : nat) (r : option (nat * (bool * bool))) : option (nat * (bool * bool)) :=
  match r with Some (k, s) => Some ((n + k)%nat, s) | None => None end.

Fixpoint polls (signals : list (option nat)) (s : bool * bool) : comp (option (nat * (bool * bool))) :=
  match signals with
  | [] => Stuck NoFuel
  | signal :: signals =>
      r ← poll_stop signal s;
      match r with
      | None => Done None
      | Some (true, s) => Done (Some (0%nat, s))
      | Some (false, s) => r ← polls signals s; Done (later 1 r)
      end
  end.

Lemma polls_quiet n signals :
  polls (replicate n None ++ signals) (false, false) =
    r ← polls signals (false, false); Done (later n r).
Proof.
  induction n as [|n IH]; cbn [replicate app].
  { destruct (polls signals _) as [[[k s]|]|]; done. }
  change (polls (None :: ?l) (false, false)) with
    (r ← polls l (false, false); Done (later 1 r)).
  rw IH. by destruct (polls signals _) as [[[k s]|]|].
Qed.

(** the signal to stop.  A signal that arrives before the test of a
    round, or anywhere behind it, ends the loop in this or in the next
    round, with the mutex free; one that arrives while the test holds the
    mutex never returns, because the signal handler waits for the mutex that
    the thread it has interrupted holds. *)
Theorem signal_ends_loop n signals :
  polls (replicate n None ++ Some 0%nat :: signals) (false, false) = Done (Some (n, (true, false))) /\
  polls (replicate n None ++ Some 2%nat :: None :: signals) (false, false) = Done (Some (S n, (true, false))) /\
  polls (replicate n None ++ Some 1%nat :: signals) (false, false) = Stuck Deadlock.
Proof.
  rw !polls_quiet. split; [|split].
  - change (polls (Some 0%nat :: signals) (false, false)) with (Done (Some (0%nat, (true, false)))). cbn. by rw Nat.add_0_r.
  - change (polls (Some 2%nat :: None :: signals) (false, false)) with (Done (Some (1%nat, (true, false)))). cbn.
    by rw Nat.add_1_r.
  - reflexivity.
Qed.
