(* ===== verification/MainPar.v ===== *)
(** * MainPar: main in parallel mode, from the set-up to its end

    The main thread starts the others and then removes, once a second, the
    clients whose transfer is over, until the signal comes.  What the other
    threads do meanwhile is an argument ([ro_threads], [de_rx_joined],
    [de_hd_joined]): as long as they leave queues and clients accounted for,
    every round removes the clients that are due ([round_done]); if they also
    end when told to, main ends with everything freed. *)

From S2P Require Import Prelude Global Cli Memory Packet Buffer Stream Client ClientOwn HashTable Protocol Handler Receiver HandlerSpec HandlerThm Main Setup MainThm Expire SetupThm MainRun MainEnd.

(** ** Rounds *)

(** What neither the threads nor the removal of clients touches. *)
Definition same_rest (y y' : sys_t) : Prop :=
  y_fds y' = y_fds y /\ y_blocks y' = y_blocks y /\ y_ptrs y' = y_ptrs y /\ y_cfgs y' = y_cfgs y /\
  y_threads y' = y_threads y.

(** Queues and clients are accounted for, there are not too many clients,
    and there are arrays for the removals. *)
Definition round_ok (ps : list ptr) (tp : ptr) (stops : list (stop_env * nat)) (r : round_env) (y : sys_t) : Prop :=
  shared_ok ps tp y /\ stops_ok stops y.(y_nodes) y.(y_reqs) /\
  exists qs t, r.(ro_removal) = removal_envs qs /\ y.(y_tables) !! tp = Some t /\ t.(ht_len) <= 2 ^ 15 /\
    t.(ht_len) <= Z.of_nat (length qs) /\ arrays_free y.(y_arrays) qs.

Fixpoint rounds_ok (ps : list ptr) (tp : ptr) (stops : list (stop_env * nat)) (rounds : list round_env) (y : sys_t) : Prop :=
  match rounds with
  | [] => True
  | r :: rounds =>
      same_rest y (r.(ro_threads) y) /\ round_ok ps tp stops r (r.(ro_threads) y) /\
      forall y2, expire_clients tp r (r.(ro_threads) y) = Done y2 -> rounds_ok ps tp stops rounds y2
  end.

Lemma clients_size (m : gmap key ptr) : (base.size (clients_of m) <= base.size m)%nat.
Proof.
  induction m as [|i p m Hi IH] using map_ind; [by rw map_img_empty_L size_empty map_size_empty|].
  rw map_size_insert_None // map_img_insert_notin_L // size_union_alt size_singleton.
  assert (clients_of m ∖ {[p]} ⊆ clients_of m) as Hs by set_solver. apply subseteq_size in Hs. lia.
Qed.

(** What a round does: the clients that are due, and no others, are out of
    the table, and what they owned is freed; the other clients, the queues
    and everything else are as the threads have left them. *)
Definition round_done (tp : ptr) (r : round_env) (y y2 : sys_t) : Prop :=
  let y1 := r.(ro_threads) y in
  exists t m k ps arrays t2, y1.(y_tables) !! tp = Some t /\ ht_rep y1.(y_arrays) t m /\ registered y1.(y_heap) m k /\
    NoDup ps /\ (forall p, p ∈ ps <-> p ∈ clients_of m /\ due y1.(y_heap) r.(ro_long_ago) p = true) /\
    ht_rep arrays t2 (filter (fun e => due y1.(y_heap) r.(ro_long_ago) e.2 = false) m) /\
    y2 = with_clients_table (<[tp := t2]> y1.(y_tables)) arrays (erase_all k ps y1.(y_heap)) y1.

(** The rounds one after the other. *)
Inductive rounds_done (tp : ptr) : list round_env -> sys_t -> sys_t -> Prop :=
| rounds_nil y : rounds_done tp [] y y
| rounds_cons r rounds y y1 y2 :
    round_done tp r y y1 -> rounds_done tp rounds y1 y2 -> rounds_done tp (r :: rounds) y y2.

Lemma expire_clients_ok ps tp stops r y :
  round_ok ps tp stops r (r.(ro_threads) y) ->
  exists y2, expire_clients tp r (r.(ro_threads) y) = Done y2 /\ round_done tp r y y2 /\
    same_rest (r.(ro_threads) y) y2 /\ shared_ok ps tp y2 /\ stops_ok stops y2.(y_nodes) y2.(y_reqs).
Proof.
  rw /round_done. set (y1 := ro_threads r y).
  intros ((Hq & t & m & k & a & Ht & Hrep & Hr & Hcov & Ha & Hd) & Hst & qs & t' & Er & Ht' & Hl1 & Hl2 & Hfree).
  assert (t' = t) as -> by (rewrite -> Ht in Ht'; by apply lookup_singleton_Some in Ht' as [_ <-]).
  rewrite -> (rp_len _ _ _ Hrep) in Hl1, Hl2. pose proof (clients_size m).
  destruct (expire_ok r.(ro_long_ago) qs y1.(y_heap) y1.(y_arrays) t m k Hrep Hr)
    as (ps' & arrays' & t2 & Hrun & Hnd & Hps & Hrep' & Hr' & Hsize); [done|lia|done|].
  rw /expire_clients (load_Some _ _ _ Ht') Er. unbind. rw Hrun. unbind. eexists. split; [reflexivity|].
  split; [by exists t, m, k, ps', arrays', t2|].
  split; [by split_and!|]. split; [|exact Hst]. split; [exact Hq|].
  destruct (only_array arrays' t2 _ Hrep') as (a2 & Ha2 & Hd2).
  { rw Hsize -size_dom Hd size_singleton //. }
  exists t2, (filter (fun e : key * ptr => due y1.(y_heap) r.(ro_long_ago) e.2 = false) m), k, a2.
  split; [cbn; rw Ht; apply (insert_insert_eq ∅)|]. split; [exact Hrep'|]. split; [exact Hr'|].
  split; [|by split]. eapply covered_erase_all; [exact Hcov|].
  intros p Hp Hn. rewrite -> Hps in Hn. apply elem_of_map_img in Hp as [key Hp]. apply elem_of_map_img. exists key.
  apply map_lookup_filter_Some. split; [done|]. cbn. apply not_true_iff_false. intros Hdue. apply Hn.
  split; [by eapply elem_of_map_img_2|done].
Qed.

Lemma acquired_same_rest config l v y y' :
  acquired config l v y -> same_rest y y' -> shared_ok (l.(l_rx_streams) ++ l.(l_hd_streams)) l.(l_table) y' ->
  acquired config l v y'.
Proof.
  intros [H1 H2 H3 H4 H5 H6 H7 _] (E1 & E2 & E3 & E4 & E5) Hs. split; rewrite -> ?E1, ?E2, ?E3, ?E4, ?E5; done.
Qed.

Lemma parallel_loop_ok config l v stops rounds y :
  acquired config l v y -> stops_ok stops y.(y_nodes) y.(y_reqs) ->
  rounds_ok (l.(l_rx_streams) ++ l.(l_hd_streams)) l.(l_table) stops rounds y ->
  exists y', parallel_loop rounds v.(v_clients) y = Done y' /\ rounds_done l.(l_table) rounds y y' /\
    acquired config l v y' /\ stops_ok stops y'.(y_nodes) y'.(y_reqs).
Proof.
  revert y. induction rounds as [|r rounds IH] => y Hacq Hst Hok; cbn [parallel_loop].
  { exists y. split; [done|]. by split; [constructor|]. }
  destruct Hok as (Hsame & Hr & Hnext). pose proof (aq_vars _ _ _ _ Hacq) as (fds & -> & _). cbn [v_clients] in *.
  destruct (expire_clients_ok _ _ _ _ _ Hr) as (y2 & Hrun & Hdone & Hsame2 & Hs2 & Hst2). rw Hrun. unbind.
  destruct (IH y2) as (y' & Hloop & Hall & H); [|exact Hst2|by apply Hnext|].
  - eapply acquired_same_rest; [|exact Hsame2|exact Hs2].
    eapply acquired_same_rest; [exact Hacq|exact Hsame|apply Hr].
  - exists y'. split; [exact Hloop|]. split; [by econstructor|exact H].
Qed.

(** ** Property *)

(** C6: a run of the parallel mode.  When everything can be had, main starts
    all threads and goes through any number of rounds.  Each round takes from
    the table exactly the clients that are due (inactive, their end 30 seconds
    ago or more, as the clock says), frees exactly what they own, and leaves the other
    clients and the queues as they are, whatever clients the threads have
    entered and requests they have queued before it (as long as queues and
    table stay accounted for, the table has at most 2^15 clients, and there
    are arrays to rebuild it).  Then main tells all threads to stop, waits
    for them and ends with 0; every descriptor is closed and every block, of
    its own, of the queues, of the table and of the clients, freed once.
    What is assumed of the threads at the end is as in C7 and C9: they end
    when they have been told to, so that the run ends depends on the stop
    requests main sends, for which there must be memory. *)
Theorem parallel_run_frees config env l fds items rxs hds rths hths rounds :
  conf_ok config -> shared_env config env l fds items -> cfgs_env config env l rxs hds ->
  threads_env config env rths hths -> end_env config env l ->
  env.(en_stop_mutex_fails) = false -> env.(en_stop_cond_fails) = false ->
  config.(cn_sequential) = false -> all_cfgs config l rxs hds = true -> all_threads config rths hths = true ->
  (forall cfgs threads, rounds_ok (l.(l_rx_streams) ++ l.(l_hd_streams)) l.(l_table)
     (stop_rounds env.(en_dealloc) (handle_num config) (stream_count config)) rounds
     (with_threads config l fds items cfgs threads)) ->
  exists v y y1 y', main_setup config env (initial config) = Done (inr (v, y)) /\
    parallel_loop rounds v.(v_clients) y = Done y1 /\ rounds_done l.(l_table) rounds y y1 /\
    deallocate_everything config v env.(en_dealloc) y1 = Done y' /\ nothing_left y' /\
    main_parallel config env rounds (initial config) = Done (y', 0).
Proof.
  intros Hc Hs Hcf Hte He Em Ec Hseq Hall Hthr Hrounds.
  pose proof (main_setup_ok _ _ _ _ _ _ _ _ _ Hc Hs Hcf Hte He Em Ec) as Hset.
  rewrite -> Hall, Hthr, Hseq in Hset. destruct Hset as (cfgs & threads & Hrun & Hok & Hco & _).
  set (y0 := with_threads config l fds items cfgs threads) in *.
  assert (acquired config l (vars_of l fds) y0) as Hacq0.
  { by eapply with_threads_acquired; [..|eapply connections_wired]. }
  destruct (parallel_loop_ok config l (vars_of l fds) _ rounds y0 Hacq0 (ee_stops _ _ _ He) (Hrounds cfgs threads))
    as (y1 & Hloop & Hdone & Hacq & Hst1).
  destruct (deallocate_everything_ok config l (vars_of l fds) env.(en_dealloc) y1 Hacq (ee_joins _ _ _ He) Hst1)
    as (y' & Hend & Hy'); [by intros p c _ _ _; apply He|].
  exists (vars_of l fds), y0, y1, y'. split_and!; try done.
  rw /main_parallel Hrun. unbind. rw Hloop. unbind. by rw Hend.
Qed.

(** A request has been queued and the two clients of [test_heap] entered. *)
Definition test_table : arrays_t * ht_t :=
  match put_ports 2 with Done x => x | Stuck _ => (∅, mk_ht None None 0 0) end.
Definition test_work (y : sys_t) : sys_t :=
  with_clients_table {[30%positive := test_table.2]} test_table.1 test_heap
    (with_queues test_queue.(y_streams) test_queue.(y_nodes) test_queue.(y_reqs) y).
Definition test_round : round_env :=
  mk_round_env test_work (fun _ => true) (removal_envs [(200%positive, 201%positive); (202%positive, 203%positive)]).

Lemma pair_dom {V} (m : gmap ptr V) (p q r : ptr) :
  r ∈ dom m -> bool_decide (dom m = {[p; q]}) = true -> r = p \/ r = q.
Proof. intros Hr H%bool_decide_eq_true_1. by rewrite -> H, elem_of_union, !elem_of_singleton in Hr. Qed.

Lemma test_covered : covered test_heap (clients_of (ports 2)) test_blocks.
Proof.
  assert (1%positive ∈ clients_of (ports 2)) as H1.
  { apply elem_of_map_img. exists (0, test_ip). vm_compute. reflexivity. }
  assert (2%positive ∈ clients_of (ports 2)) as H2.
  { apply elem_of_map_img. exists (1, test_ip). vm_compute. reflexivity. }
  assert (forall (f : blocks -> list ptr) (q : ptr), q ∈ f (test_blocks 1%positive) \/ q ∈ f (test_blocks 2%positive) ->
    exists p, p ∈ clients_of (ports 2) /\ q ∈ f (test_blocks p)) as Hin.
  { intros f q [Hq|Hq]; eexists; eauto. }
  assert (forall V (m : gmap ptr V) p1 p2 (f : blocks -> list ptr) q, q ∈ dom m -> bool_decide (dom m = {[p1; p2]}) = true ->
    p1 ∈ f (test_blocks 1%positive) -> p2 ∈ f (test_blocks 2%positive) -> exists p, p ∈ clients_of (ports 2) /\ q ∈ f (test_blocks p)) as Hall.
  { intros V m p1 p2 f q Hq Hd H3 H4. apply Hin. destruct (pair_dom m p1 p2 q Hq Hd) as [-> | ->]; auto. }
  pose proof (list_elem_of_here : forall (x : ptr) l, x ∈ x :: l) as He.
  split; try (intros q Hq; eapply (Hall _ _ 1%positive 2%positive); [exact Hq|reflexivity|apply He|apply He]).
  - intros q f Hf Ho. pose proof (elem_of_dom_2 _ _ _ Hf) as Hd.
    destruct (pair_dom _ 1%positive 2%positive q Hd eq_refl) as [-> | ->]; [by injection Hf as <-|].
    apply Hin. right. apply He.
  - intros q Hq. eapply (Hall _ _ 11%positive 12%positive); [exact Hq|reflexivity|apply He|apply He].
  - intros q Hq. assert (q = 1%positive) as -> by (change (q ∈ dom ({[1%positive := ()]} : gmap ptr unit)) in Hq;
      by rewrite -> dom_singleton_L, elem_of_singleton in Hq).
    apply Hin. left. apply He.
Qed.

Lemma test_work_ok cfgs threads :
  let y := with_threads (test_conf false) (test_layout (Some 51%positive)) [7] 31%positive cfgs threads in
  round_ok [11%positive; 21%positive] 30%positive [(test_stop, 0%nat)] test_round (test_work y).
Proof.
  intros y. destruct (put_ports_rep 2) as (arrays & t & Hrun & Hrep & Hfree); [cbn; lia|].
  assert (test_table = (arrays, t)) as E by by rw /test_table Hrun.
  assert (bool_decide (base.size test_table.1 = 1%nat) = true) as Hs by (vm_compute; reflexivity).
  apply bool_decide_eq_true_1 in Hs. rewrite -> E in Hs.
  split; [split|split].
  - exists [[85%positive]; []]. exact test_queue_ok.
  - destruct (only_array arrays t _ Hrep Hs) as (a & Ha & Hd). exists t, (ports 2), test_blocks, a.
    rw /test_work E. split; [done|]. split; [exact Hrep|]. split; [exact test_registered|]. split; [exact test_covered|by split].
  - exact test_queue_stops.
  - exists [(200%positive, 201%positive); (202%positive, 203%positive)], t. split; [done|].
    rw /test_work E. split; [apply lookup_singleton_eq|]. rewrite -> (rp_len _ _ _ Hrep).
    split; [vm_compute; discriminate|]. split; [vm_compute; discriminate|].
    cbn. split_and!; try done; try (apply Hfree; lia). apply Forall_singleton. cbn. done.
Qed.

(** One round, in which the first client is removed; the second client and
    the request are left to the end. *)
Lemma parallel_run_frees_witness :
  exists v y y1 y', main_setup (test_conf false) (test_env (Some 30%positive) (Some 51%positive) false false)
      (initial (test_conf false)) = Done (inr (v, y)) /\
    parallel_loop [test_round] v.(v_clients) y = Done y1 /\ rounds_done 30%positive [test_round] y y1 /\
    deallocate_everything (test_conf false) v test_dealloc y1 = Done y' /\ nothing_left y' /\
    main_parallel (test_conf false) (test_env (Some 30%positive) (Some 51%positive) false false) [test_round]
      (initial (test_conf false)) = Done (y', 0).
Proof.
  apply (parallel_run_frees (test_conf false) _ _ _ _ _ _ [61%positive] [71%positive] _ (test_conf_ok _)
    (test_shared false (Some 51%positive) false false) (test_cfgs _ _ _ _ _ (or_intror eq_refl)) (test_threads _ _ _ _)
    (test_end _ _ _ _ _)); try reflexivity.
  intros cfgs threads. split; [by split_and!|]. split; [exact (test_work_ok cfgs threads)|]. by intros y2 _.
Defined.
