(* ===== verification/Print.v ===== *)
(** * Print: what the program prints about a packet and its configuration

    [packet_to_string] and [ip_to_string] of src/packet.c and [print_config]
    of src/cli.c, as functions that return the text.  [fprintf] is written
    out for the conversions they use; [inet_ntop], of the C library, and the
    ratio, a floating-point number, are parameters. *)

From stdpp Require Import strings.
From S2P Require Import Prelude Global LookupTable Lookup Cli Printf Packet Client HashTable Receiver Main Setup MainThm MainRun.

(** ** Conversions *)

(** [%02x] of a byte, [%3s]. *)
Definition hex2 (b : Z) : str := [digit (b / 16); digit (b mod 16)].
Definition pad3 (s : str) : str := replicate (3 - length s) space ++ s.

Definition line (s : str) : str := s ++ [newline].
Definition yes_no (yes no : string) (b : bool) : str := lit (if b then yes else no).

(** ** Packets *)

Definition type_name (t : ptype_t) : str :=
  match t with
  | IGNORE => lit "IGNORE (00)"
  | DATA => lit "DATA (01)"
  | ACK => lit "ACK (10)"
  | NACK => lit "NACK (11)"
  end.

(** One line of eight bytes, and their names. *)
Definition dump_row (payload : list Z) (i : nat) : comp str :=
  bs ← mapM (fun k => rd payload (i + k)) (seq 0 8);
  names ← mapM (fun b => rd ascii (Z.to_nat b)) bs;
  Done (line (concat (map (fun b => hex2 b ++ [space]) bs) ++ lit "|" ++
              concat (map (fun name => space :: pad3 (lit name)) names))).

(** The loop; [i] is a 16-bit number. *)
Fixpoint dump (fuel : nat) (i len : Z) (payload : list Z) : comp str :=
  if i <? len then
    match fuel with
    | O => Stuck NoFuel
    | S fuel =>
        row ← dump_row payload (Z.to_nat i);
        rest ← dump fuel (u16 (i + 8)) len payload;
        Done (row ++ rest)
    end
  else Done [].

Definition packet_lines (p : packet_t) : str :=
  line (lit " - - - - - - - - PACKET - - - - - - - - ") ++
  line (lit "TYPE:       " ++ type_name p.(p_type)) ++
  line (lit "TRUNCATED:  " ++ yes_no "true" "false" p.(p_truncated)) ++
  line (lit "WINDOW:     " ++ decimal p.(p_window)) ++
  line (lit "SEQNUM:     " ++ decimal p.(p_seqnum)) ++
  line (lit "LENGTH (L): " ++ decimal p.(p_length) ++ lit " (" ++ yes_no "true" "false" p.(p_long_length) ++ lit ")") ++
  line (lit "TIMESTAMP:  " ++ decimal p.(p_timestamp)).

Definition packet_to_string (packet : option packet_t) (print_payload : bool) : comp (errors_t + str) :=
  match packet with
  | None => Done (inl NULL_ARGUMENT)
  | Some p =>
      rows ← (if print_payload then
                rows ← dump (Z.to_nat (2 ^ 13)) 0 p.(p_length) p.(p_payload);
                Done (newline :: rows)
              else Done []);
      Done (inr (packet_lines p ++ rows ++ line (lit " - - - - - - - - - - - - - - - - - - - -")))
  end.

(** The text of an address, in the buffer [target] (null or not). *)
Definition ip_to_string (inet_ntop : list Z -> option str) (ip : sockaddr_in6) (target : bool) : errors_t + str :=
  if negb target then inl NULL_ARGUMENT else
  match inet_ntop ip.(sin6_addr) with
  | None => inl FAILED_TO_COPY
  | Some s => inr s
  end.

(** ** The configuration *)

(** The CPUs of the threads of one kind. *)
Fixpoint print_affinities (n i : nat) (cpus : list Z) : comp str :=
  match n with
  | O => Done []
  | S n => cpu ← rd cpus i; rest ← print_affinities n (S i) cpus; Done (decimal cpu ++ [space] ++ rest)
  end.

Definition affinity_lines (num : nat) (affinities : option (list Z)) : comp str :=
  match affinities with
  | Some cpus =>
      if (0 <? num)%nat then
        s ← print_affinities num 0 cpus; Done (lit "  - Affinities (CPU): " ++ line s)
      else Done []
  | None => Done []
  end.

(** The streams of the threads of one kind, [num] of them. *)
Fixpoint associations (num n i : nat) (streams : list Z) : comp str :=
  match n with
  | O => Done []
  | S n =>
      s ← rd streams i;
      rest ← associations num n (S i) streams;
      Done (decimal (Z.of_nat i) ++ lit " -> " ++ decimal s ++
            (if (i =? num - 1)%nat then [newline] else lit ", ") ++ rest)
  end.

Definition config_head (config : config_rcv_t) (c : conf_t) (threads : str) : str :=
  line (lit " - - - - - - - - CONFIG - - - - - - - - ") ++
  line (lit "Maximum advertised window: " ++ decimal config.(cf_max_window) ++ lit " (default " ++ decimal MAX_WINDOW_SIZE ++ lit ")") ++
  line (lit "Maximum packets per syscall: " ++ decimal config.(cf_receive_window_size) ++ lit " (default " ++ decimal MAX_WINDOW_SIZE ++ lit ")") ++
  line (lit "Sequential? " ++ yes_no "yes" "no" c.(cn_sequential)) ++ threads ++
  line (lit "Number of streams: " ++ decimal c.(cn_setup).(su_stream_count)).

Definition config_tail (config : config_rcv_t) (ip : str) : str :=
  newline :: line (lit "Output file format: " ++ config.(cf_format)) ++
  line (lit "Maximum number of concurrent transfers: " ++ decimal config.(cf_max_connections)) ++
  line (lit "Input IP mask: " ++ ip) ++
  line (lit "Input port: " ++ decimal config.(cf_port)) ++
  line (lit " - - - - - - - - - - - - - - - - - - - -").

(** The lines about the threads, outside the sequential mode. *)
Definition thread_lines (ratio : Z -> Z -> str) (c : conf_t) : comp str :=
  if c.(cn_sequential) then Done [] else
  rs ← affinity_lines (receive_num c) (snd <$> c.(cn_receive_affinities));
  hs ← affinity_lines (handle_num c) (snd <$> c.(cn_handle_affinities));
  Done (line (lit " - Number of receivers: " ++ decimal c.(cn_setup).(su_receive_num) ++ lit " (default 1)") ++ rs ++
        line (lit " - Number of handlers: " ++ decimal c.(cn_setup).(su_handle_num) ++ lit " (default 2)") ++ hs ++
        line (lit " - Receiver to handler ratio: " ++
              ratio c.(cn_setup).(su_receive_num) c.(cn_setup).(su_handle_num) ++ lit " (typical 0.5)")).

(** Without a text for the address the buffer [ip] is not initialised. *)
Definition print_config (ratio : Z -> Z -> str) (inet_ntop : list Z -> option str) (ip : sockaddr_in6)
    (config : config_rcv_t) (c : conf_t) : comp str :=
  threads ← thread_lines ratio c;
  receivers ← associations (receive_num c) (receive_num c) 0 c.(cn_setup).(su_receive_streams);
  handlers ← associations (handle_num c) (handle_num c) 0 c.(cn_setup).(su_handle_streams);
  ip ← (match ip_to_string inet_ntop ip true with inl _ => Stuck UB | inr s => Done s end);
  Done (config_head config c threads ++
    lit "  Association for receivers (#Receiver -> #Stream): " ++ receivers ++
    lit "  Association for handlers (#Handler -> #Stream): " ++ handlers ++
    config_tail config ip).

(** ** Lemmas *)

Lemma mapM_rd {A} (l : list A) i j n :
  (i + j + n <= length l)%nat -> mapM (fun k => rd l (i + k)) (seq j n) = Done (take n (drop (i + j) l)).
Proof.
  revert j. induction n as [|n IH] => j Hn; [done|]. cbn [seq mapM].
  destruct (rd_lt l (i + j)) as (v & Hrd & Hv); [lia|]. rw Hrd. unbind. rw IH; [|lia]. unbind.
  rw (drop_S _ _ _ Hv) /=. by rw Nat.add_succ_r.
Qed.

Definition name_of (b : Z) : string := default EmptyString (ascii !! Z.to_nat b).

Lemma mapM_names bs : Forall (fun b => is_u8 b) bs -> mapM (fun b => rd ascii (Z.to_nat b)) bs = Done (map name_of bs).
Proof.
  induction 1 as [|b bs Hb _ IH]; [done|]. destruct (ascii_total b Hb) as [name Hn].
  cbn [mapM]. rw (proj2 (rd_Done _ _ _) Hn). unbind. rw IH. unbind. by rw /= {2}/name_of Hn.
Qed.

(** The line for the bytes [bs]. *)
Definition row_of (bs : list Z) : str :=
  line (concat (map (fun b => hex2 b ++ [space]) bs) ++ lit "|" ++
        concat (map (fun name => space :: pad3 (lit name)) (map name_of bs))).

Lemma dump_row_ok payload i :
  Forall (fun b => is_u8 b) payload -> (i + 8 <= length payload)%nat ->
  dump_row payload i = Done (row_of (take 8 (drop i payload))).
Proof.
  intros Hb Hi. rw /dump_row mapM_rd; [|lia]. unbind. rw Nat.add_0_r mapM_names; [done|].
  by apply Forall_take, Forall_drop.
Qed.

Lemma dump_row_outside payload i : (length payload <= i)%nat -> dump_row payload i = Stuck UB.
Proof.
  intros Hi. assert (rd payload (i + 0) = Stuck UB) as E by (rw /rd lookup_ge_None_2 //; lia).
  rw /dump_row. cbn [seq mapM]. by rw E.
Qed.

(** The rows from byte [8 * k] on. *)
Lemma dump_ok fuel payload k n len :
  Forall (fun b => is_u8 b) payload -> (8 * (k + n) <= length payload)%nat -> Z.of_nat (length payload) <= 2 ^ 15 ->
  8 * (Z.of_nat k + Z.of_nat n) - 8 < len <= 8 * (Z.of_nat k + Z.of_nat n) -> (n < fuel)%nat -> (n = 0%nat -> k = 0%nat) ->
  dump fuel (8 * Z.of_nat k) len payload = Done (concat (map (fun j => row_of (take 8 (drop (8 * j) payload))) (seq k n))).
Proof.
  intros Hb. revert fuel k. induction n as [|n IH] => fuel k Hl Hs Hlen Hf Hk; (destruct fuel as [|fuel]; [lia|]); cbn [dump].
  { destruct (Z.ltb_spec (8 * Z.of_nat k) len); [lia|done]. }
  destruct (Z.ltb_spec (8 * Z.of_nat k) len); [|lia].
  replace (Z.to_nat (8 * Z.of_nat k)) with (8 * k)%nat by lia.
  rw dump_row_ok //; [|lia]. unbind.
  assert (u16 (8 * Z.of_nat k + 8) = 8 * Z.of_nat (S k)) as -> by (rw /u16 Z.mod_small; lia).
  destruct n as [|n].
  - destruct fuel as [|fuel]; cbn [dump]; (destruct (Z.ltb_spec (8 * Z.of_nat (S k)) len); [lia|]); unbind; cbn; by rw !app_nil_r.
  - rw IH; try lia. done.
Qed.

(** Beyond the payload. *)
Lemma dump_outside fuel payload k n len :
  Forall (fun b => is_u8 b) payload -> length payload = (8 * (k + n))%nat -> Z.of_nat (length payload) < len ->
  Z.of_nat (length payload) <= 2 ^ 15 -> (n < fuel)%nat -> dump fuel (8 * Z.of_nat k) len payload = Stuck UB.
Proof.
  intros Hb. revert fuel k. induction n as [|n IH] => fuel k Hl Hs Hlen Hf; (destruct fuel as [|fuel]; [lia|]); cbn [dump];
    (destruct (Z.ltb_spec (8 * Z.of_nat k) len); [|lia]); replace (Z.to_nat (8 * Z.of_nat k)) with (8 * k)%nat by lia.
  - rw dump_row_outside //. lia.
  - rw dump_row_ok //; [|lia]. unbind.
    assert (u16 (8 * Z.of_nat k + 8) = 8 * Z.of_nat (S k)) as -> by (rw /u16 Z.mod_small; lia).
    by rw IH; try lia.
Qed.

Lemma print_affinities_ok cpus n i :
  (i + n = length cpus)%nat -> print_affinities n i cpus = Done (concat (map (fun cpu => decimal cpu ++ [space]) (drop i cpus))).
Proof.
  revert i. induction n as [|n IH] => i Hn; cbn [print_affinities]; [rw drop_ge //; lia|].
  destruct (rd_lt cpus i) as (cpu & Hrd & Hc); [lia|]. rw Hrd. unbind. rw IH; [|lia]. unbind.
  by rw (drop_S _ _ _ Hc) /= -app_assoc.
Qed.

Definition association (num i : nat) (s : Z) : str :=
  decimal (Z.of_nat i) ++ lit " -> " ++ decimal s ++ (if (i =? num - 1)%nat then [newline] else lit ", ").

Lemma associations_ok num streams n i :
  (i + n = length streams)%nat -> associations num n i streams = Done (concat (imap (fun j => association num (i + j)) (drop i streams))).
Proof.
  revert i. induction n as [|n IH] => i Hn; cbn [associations]; [rw drop_ge //; lia|].
  destruct (rd_lt streams i) as (s & Hrd & Hs); [lia|]. rw Hrd. unbind. rw IH; [|lia]. unbind.
  rw (drop_S _ _ _ Hs). cbn [imap concat]. rw Nat.add_0_r.
  assert (imap ((fun j => association num (i + j)) ∘ S) (drop (S i) streams) =
    imap (fun j => association num (S i + j)) (drop (S i) streams)) as ->.
  { apply imap_ext. intros j x _. cbn. by rw Nat.add_succ_r. }
  by rw {2}/association -!app_assoc.
Qed.

(** ** Properties *)

(** a packet is printed.  For a packet whose length its payload can have,
    the text is the lines of its fields and then, if asked for, one line for
    each started block of eight bytes of its length, with the bytes and
    their names; the loop ends and stays within the payload and the table
    of names.  With a greater length, which [unpack] never leaves in a
    packet it accepts but [set_length] can, the dump reads behind the
    payload. *)
Theorem packet_to_string_lines p print_payload :
  Forall (fun b => is_u8 b) p.(p_payload) -> length p.(p_payload) = 512%nat -> is_u16 p.(p_length) ->
  (p.(p_length) <= 512 -> packet_to_string (Some p) print_payload =
    Done (inr (packet_lines p ++
      (if print_payload then
         newline :: concat (map (fun j => row_of (take 8 (drop (8 * j) p.(p_payload)))) (seq 0 (Z.to_nat ((p.(p_length) + 7) / 8))))
       else []) ++ line (lit " - - - - - - - - - - - - - - - - - - - -")))) /\
  (512 < p.(p_length) -> packet_to_string (Some p) true = Stuck UB).
Proof.
  intros Hb Hl Hlen. split; intros H.
  - rw /packet_to_string. destruct print_payload; [|done].
    rw (dump_ok _ p.(p_payload) 0 (Z.to_nat ((p.(p_length) + 7) / 8)) p.(p_length) Hb); [|rw Hl; clear -H Hlen; divmod|rw Hl; done|clear -H Hlen; divmod|clear -H Hlen; divmod|done].
    done.
  - rw /packet_to_string (dump_outside _ p.(p_payload) 0 64 p.(p_length) Hb) // ?Hl; lia.
Qed.

Lemma packet_to_string_lines_witness :
  exists text, packet_to_string (Some (with_length 9 zeroed_packet)) true = Done (inr (packet_lines (with_length 9 zeroed_packet) ++
    (newline :: row_of (replicate 8 0) ++ row_of (replicate 8 0) ++ []) ++ text)) /\
  packet_to_string (Some (with_length 513 zeroed_packet)) true = Stuck UB.
Proof.
  eexists. split.
  - refine (proj1 (packet_to_string_lines (with_length 9 zeroed_packet) true _ _ _) _); try (vm_compute; done).
    apply Forall_replicate. done.
  - refine (proj2 (packet_to_string_lines (with_length 513 zeroed_packet) true _ _ _) _); try (vm_compute; done).
    apply Forall_replicate. done.
Defined.

(** the configuration is printed.  For a configuration as [configure]
    makes it the accesses to affinities and streams stay within the arrays,
    and the text has an entry for every receiver and every handler, in
    order, with its stream. *)
Theorem print_config_entries ratio inet_ntop ip text config c :
  conf_ok c -> inet_ntop ip.(sin6_addr) = Some text ->
  exists before after, print_config ratio inet_ntop ip config c = Done (before ++
    lit "  Association for receivers (#Receiver -> #Stream): " ++
    concat (imap (association (receive_num c)) c.(cn_setup).(su_receive_streams)) ++
    lit "  Association for handlers (#Handler -> #Stream): " ++
    concat (imap (association (handle_num c)) c.(cn_setup).(su_handle_streams)) ++ after).
Proof.
  intros [[Hr _] [Hh _] Hra Hha _] Hip.
  assert (forall num affinities, (forall l, affinities = Some l -> length l = num) ->
    exists s, affinity_lines num affinities = Done s) as Haff.
  { intros num [l|] Hl; [|by exists []]. rw /affinity_lines. destruct (0 <? num)%nat; [|by exists []].
    rw print_affinities_ok; [|by rw (Hl l)]. unbind. eexists. reflexivity. }
  destruct (Haff (receive_num c) (snd <$> cn_receive_affinities c)) as [rs Hrs].
  { intros l H. destruct (cn_receive_affinities c) as [[b l']|]; [|done]. injection H as <-. by eapply Hra. }
  destruct (Haff (handle_num c) (snd <$> cn_handle_affinities c)) as [hs Hhs].
  { intros l H. destruct (cn_handle_affinities c) as [[b l']|]; [|done]. injection H as <-. by eapply Hha. }
  assert (exists threads, thread_lines ratio c = Done threads) as [threads Ht].
  { rw /thread_lines. destruct (cn_sequential c); [by eexists|]. rw Hrs. unbind. rw Hhs. by eexists. }
  rw /print_config Ht. unbind.
  rw (associations_ok _ _ (receive_num c) 0) //. unbind. rw (associations_ok _ _ (handle_num c) 0) //. unbind.
  rw /ip_to_string Hip. cbn [negb]. unbind. rw !drop_0. by eexists _, _.
Qed.

Lemma print_config_entries_witness :
  exists before after, print_config (fun _ _ => lit "0.50") (fun _ => Some (lit "::")) (mk_addr 0 (replicate 16 0))
      (mk_config false (lit "%d") 2 false 100 4464 1 1 31 31)
      (mk_conf false 31 (mk_setup 1 1 [0] [0] 1) None (Some (1%positive, [3])) None None None) = Done (before ++
    lit "  Association for receivers (#Receiver -> #Stream): " ++ concat (imap (association 1) [0]) ++
    lit "  Association for handlers (#Handler -> #Stream): " ++ concat (imap (association 1) [0]) ++ after).
Proof.
  apply (print_config_entries _ _ _ (lit "::") _
    (mk_conf false 31 (mk_setup 1 1 [0] [0] 1) None (Some (1%positive, [3])) None None None)); [|reflexivity].
  split; cbn.
  - split; [done|]. apply Forall_singleton. lia.
  - split; [done|]. apply Forall_singleton. lia.
  - by intros b l [= <- <-].
  - done.
  - apply NoDup_singleton.
Defined.
